(* ===== verification/_CoqProject ===== *)
-Q . S2P
Prelude.v
Constants.v
Xa.v
ByteOrder.v
Queue.v
CString.v
SearchTree.v
Memory.v
TpMemory.v
Keeps.v
SbState.v
SbObjects.v
SbHandlers.v
SbLemmas.v
TxIo.v
Xatmi.v
Dump.v
TxOpen.v
TpServer.v
Tux.v
Reverse.v
ClientKeeps.v
Examples.v
Dispatch.v
EventLoop.v
Registry.v
Messages.v
Replies.v
Transactions.v
Calls.v
CallPath.v
ReturnPath.v
Advertising.v
Scheduling.v
Work.v
Session.v
Invariant.v
Frames.v
ClientRing.v
Board.v
Pool.v
BoardSteps.v
BoardGrowth.v
Deletion.v
BoardCheck.v
Leaving.v
Steady.v
SteadyReturn.v
SteadyWork.v
SteadyCall.v
SteadyAdvertise.v
SteadyLoop.v
SteadyRun.v
SteadyCheck.v
RoundTrip.v
RemoteCall.v
Faults.v
Departures.v
Offering.v
Repeated.v
