(* ===== verification/Prelude.v ===== *)
(** * Hoodie: a verification development

    Hoodie is a small transaction monitor in C.  A _switchboard_ process
    ([util/switchboard], started as [tpserver]) accepts connections of _clients_.
    A client that advertises a service is a _worker_ for it.  A client calls a
    service by name; the switchboard makes a _transaction_ of the call, gives it
    to a worker that waits, or queues it, and returns the worker's reply.  Clients
    and workers are linked with a library that implements the XATMI routines
    ([xatmi]) over one connection to the switchboard ([tx]).  [examples/reverse]
    is a service and a client, [examples/tuxtest] another client, and [util/tux] a
    terminal for talking to a switchboard by hand.

    ** Parts of the program, and where they are modelled

    - numbers on the wire ([byteorder.c]): [ByteOrder.v];
    - circular doubly-linked queues ([queue.h], [queue.c]): [Queue.v];
    - typed buffers with guard words ([tpalloc.c], [tprealloc.c], [tptypes.c],
      [tpfree.c]): [TpMemory.v], over the heap of [Memory.v];
    - the switchboard's structs and globals ([server.h]): [SbState.v];
    - its objects: output and waiting ([svrio.c]), services ([service.c]),
      advertisements ([advert.c]), transactions ([transaction.c]), clients
      ([client.c]): [SbObjects.v];
    - its message handlers ([svracall.c], [svrgetrply.c], [svradvertise.c],
      [svrunadvertise.c], [svrservice.c], [svrreturn.c]) and its event loop
      ([tpserver.c]): [SbHandlers.v]; its start and stop and its messages, the rest
      of [tpserver.c]: [TpServer.v];
    - the client's connection ([tx_io.c], [tx_close.c], and the TX routines that
      only return): [TxIo.v]; [tx_open.c]: [TxOpen.v];
    - the XATMI routines ([tpacall.c], [tpgetrply.c], [tpcall.c], [tpadvertise.c],
      [tpunadvertise.c], [tpreturn.c] with [tpservice], and those that are not
      supported): [Xatmi.v];
    - [dump.c]: [Dump.v]; the service of [reversesvr.c]: [Reverse.v]; the [main]
      functions of [reversesvr.c], [reversetest.c] and [tuxtest.c]: [Examples.v];
      [tux.c]: [Tux.v];
    - constants of the headers: [Constants.v]; the structures of [tx.h], and [xa.h]:
      [Xa.v]; [strncmp] and [strncpy]:
      [CString.v]; the contract of [<search.h>]: [SearchTree.v].

    Definitions keep the names of the C functions.  A C function is a computation
    [M St A] on an explicit state: it returns a value and a new state, or stops
    with a [fault] (null dereference, use after free, access out of bounds, failed
    [assert], a queue link taken for that of another struct).  Integers are [Z],
    converted at the widths of the C types; the definitions are parameters of the
    data model (32-bit or 64-bit [long] and pointers), and the two ends of a
    connection may differ in it.  [wp m s Q] says that [m] runs from [s] without a
    fault and ends in [Q]: every theorem of that form includes termination.

    The switchboard's state has a heap for each struct type, one memory of queue
    links, the typed buffers, the search trees and the sequence of writes.  A
    handler that is passed as a function pointer is a constructor of [handler],
    called by [handle].  The client's state ([conn]) has the bytes still to be
    read, the bytes written, and oracles for the sizes of reads and writes.

    ** What is proved

    - Queues ([Queue.v], [SbLemmas.v]): the pointer operations are list
      operations, and [qrep] carries this to all queues of the switchboard at once.
    - Typed buffers ([TpMemory.v]): every branch of the four routines, no wrap-
      around of sizes, detection of overruns.
    - The client library ([TxIo.v], [TxOpen.v], [Xatmi.v]): reads and writes are
      exact however the kernel splits them, and each routine follows the protocol.
    - Requests and replies ([Dispatch.v]): the bytes that [send_to_server] and
      [snd_reply] send, decoded by [tpservice] and [tpgetrply], give the routine
      the request and the caller the reply; [Reverse.v] runs a whole service.
    - The event loop ([EventLoop.v]): messages may arrive in any pieces, the first
      byte selects the handler, calls through pointers are nested at most
      [HANDLE_DEPTH] deep.
    - The registry of services ([Registry.v]), descriptors of transactions
      ([Transactions.v]), and the handlers on their branches: calls ([Calls.v]),
      replies and returns ([Replies.v]), work ([Scheduling.v], [Work.v]),
      advertising ([Advertising.v]), over the common rules of [Messages.v].
    - Composition through the event loop: a call gets from the caller's bytes to the
      worker ([CallPath.v]) and a result from the worker's bytes to the values that
      the caller's [tpgetrply] returns ([ReturnPath.v]); [Session.v] evaluates examples of a
      worker, a caller and the switchboard together.
    - A remote call is a call ([remote_call]).  [RoundTrip.v] joins the two halves in any
      sound state of the switchboard, with the caller's request for the reply before or
      after the result; consistency provides what the halves ask for, so nothing has to be
      assumed about links and buffers.  [RemoteCall.v] adds the library at both ends:
      [tpcall] returns what the routine that [tpservice] runs gives to [tpreturn].
      [Offering.v] shows that [tpadvertise] and the first byte of [tpservice] lead to the
      waiting worker that [remote_call] starts from.
    - Reachable states of the switchboard ([Invariant.v]): [reachable] is the closure
      of the initial states under passes of [Iowait] with any input; the invariant
      ties every link in memory to a live struct, and every field to its C type.  The
      triples [keeps] and the relations [pres] ([Keeps.v] for the typed buffers,
      [ClientKeeps.v] for the client library) say what each routine leaves alone.
    - The switchboard does not go down ([event_loop_safe]).  [Board.v] says when a state
      is consistent: every list has links of the kind that belongs there and every link
      is on its list, trees and structs refer to each other, no two uses share a buffer,
      and the calls that clients send, wait for and execute fit together; [BoardCheck.v]
      decides it for concrete states.  [BoardSteps.v] and [BoardGrowth.v] have the single
      changes that keep it.  [Deletion.v] and [Leaving.v] show that deleting a transaction,
      an advertisement, a service or a client ends without a fault and keeps it
      ([del_client_total], for a client whose departure leaves no message of another one
      halfway: [calm]); [Steady.v], [SteadyReturn.v], [SteadyWork.v], [SteadyCall.v]
      and [SteadyAdvertise.v] the same of each handler, for a message that the client may
      send in the state at hand; [SteadyLoop.v] of the bytes of one client, in any pieces,
      and of a new connection.  [Frames.v] goes through the operations once for all
      relations that depend only on the list of the clients and on the descriptors;
      [ClientRing.v] gets from it that nothing but a new client and the end of
      [del_client] touches the list of the clients, whatever arrives, which makes the walk
      of [Iowait] sound, and [Pool.v] that the pool of descriptors never has one that is
      in use.  [SteadyRun.v] composes whole passes from the start of the process on, and
      [SteadyCheck.v] checks that a whole session keeps to the protocol.  What the clients
      are asked for, [proper] and [orderly], is what the code relies on without checking;
      it excludes the sessions of [Session.v] that end in a fault.  Memory does not run out,
      and for each call a descriptor is left ([descriptor_left]): the pool has one, or the
      next batch of random numbers has one that is free, its numbers differ and the word
      behind the pool is zero.
    - Whole programs: how [tpserver] starts and that it listens where [tx_open] of
      the same name connects ([TpServer.v]); [tux] copies exactly ([Tux.v]); the
      example worker and callers ([Examples.v]).
    - Where the program goes wrong.  [Faults.v]: unsolicited results, exhausted memory,
      replies that the library misreads, strings read past their end.  [Departures.v]: a
      caller that leaves makes its worker's return stop the switchboard, and a worker that
      leaves is not reported to a caller that waits for any reply.  [Repeated.v]: a request
      that waited is sent to two workers.  [svrservice_serves]: the request selected is one
      that arrived last, where the code's comment says the earliest.  [new_transaction_cd]:
      when descriptors are unique, and when not.  [TpServer.v]: names that [tpserver] cannot
      handle.  [Session.v]: whole sessions that end in a fault.

    Everything about the trees is proved for every implementation of [<search.h>]
    ([SearchTree], a class with laws); the textbook tree shows that the laws can be
    met, and is the one on which the witnesses evaluate.

    ** Bounds

    Loops that are not structural take fuel.  [HANDLE_DEPTH] is 3, proved enough
    ([handle_depth_enough]).  The loop for a descriptor takes [cd_fuel] from the
    state; [CD_FUEL] is enough for the pool and one batch of random numbers, and
    [(n + 1) * CD_FUEL] when the first number that is not in use comes [n] batches later.  Loops that empty a queue take one more than the number of links in
    memory ([queue_fuel]), as does the walk of the clients; the mutual recursion of [del_advertisement] and
    [del_service] takes twice the number of advertisements ([del_depth]);
    [tx_read] takes one more than the bytes asked for, [reversesvr] the length of
    its data, its [main] loop one more than the bytes that arrive, and the loop over
    the options of [tpserver] one more than the bytes of the arguments.  The endless
    loops of [tpserver] and [tux] are run for a list of answers of the system.

    ** What is assumed or left out

    A write of the switchboard is taken whole by the kernel (the code only logs a
    short write).  Structs are never allocated at the address of a freed one, and
    [realloc] always moves, so that every use of a stale pointer is a fault.
    A service routine is a parameter: it gets the structure that [tpservice] filled and
    gives back how it left it, and whether it jumped out with [tpreturn] or returned.
    Random numbers, the clock, exhausted memory, the memory behind the descriptor
    pool, name services, sockets, [select], [accept] and [read] are parameters.
    [fork] and [getopt] are modelled as POSIX has them.  The debug output of the
    handlers (when [DEBUG] is above 2, [command] calls [DumpFD], which is modelled by
    itself in [TpServer.v]), [handler_name], which is only printed, and signals that
    arrive while a handler runs are not modelled.  [tpio.c] only defines two variables,
    which are fields of the states here.

    ** Order of work

    The components first, then each handler on its branches, the paths through the event
    loop, the invariant of all reachable states, the safety of the event loop, and last
    whole calls.  Two things could be added: a form of [event_loop_safe] that lists all the
    places where exhausted memory stops the switchboard, of which [Faults.v] has two, and
    calls between which the messages of other clients arrive. *)

From Stdlib Require Import ZArith Lia Bool.
From Stdlib Require Export Strings.Byte.
From stdpp Require Export base tactics option numbers gmap list.

Local Open Scope Z_scope.

(** ** Machine integers *)

(** [uwrap w z] is [z] converted to an unsigned [w]-bit integer type and
    [swrap w z] is [z] converted to a two's complement signed one. *)
Definition uwrap (w z : Z) : Z := z mod 2 ^ w.
Definition swrap (w z : Z) : Z := (z + 2 ^ (w - 1)) mod 2 ^ w - 2 ^ (w - 1).

(** The two data models the program is compiled for: [long] and pointers of 32
    or of 64 bits; [int] is 32 bits, [short] 16 and [char] 8 (signed) in both. *)
Inductive data_model := ILP32 | LP64.

Definition long_bits (dm : data_model) : Z :=
  match dm with ILP32 => 32 | LP64 => 64 end.

(** [sizeof(long)], which is also [sizeof(void * )]. *)
Definition long_bytes (dm : data_model) : Z := long_bits dm / 8.

Definition ulong (dm : data_model) (z : Z) : Z := uwrap (long_bits dm) z.
Definition slong (dm : data_model) (z : Z) : Z := swrap (long_bits dm) z.

(** ** Bytes *)

(** The value of an [unsigned char], the conversion to it, and the value the
    same byte has as a [char]. *)
Definition b2z (b : byte) : Z := Z.of_N (Byte.to_N b).
Definition z2b (z : Z) : byte :=
  match Byte.of_N (Z.to_N (z mod 256)) with Some b => b | None => x00 end.
Definition b2c (b : byte) : Z := swrap 8 (b2z b).

#[global] Instance byte_eq_decision : EqDecision byte := Byte.byte_eq_dec.

(** Little-endian words of [n] bytes, as the processor stores them. *)
Fixpoint le_encode (n : nat) (v : Z) : list byte :=
  match n with
  | O => []
  | S n' => z2b v :: le_encode n' (v / 256)
  end.

Fixpoint le_decode (bs : list byte) : Z :=
  match bs with
  | [] => 0
  | b :: bs' => b2z b + 256 * le_decode bs'
  end.

(** ** Computations with state and faults *)

(** What stops the program: a dereference of the null pointer, an access to
    freed memory or outside an object, a failed [assert], a queue link read as
    a link of another struct ([OFFSET] at the wrong type), and the model's own
    bound on the depth of calls. *)
Inductive fault :=
  | NullDeref
  | UseAfterFree
  | OutOfBounds
  | AssertFailed
  | WrongStruct
  | OutOfFuel.

#[global] Instance fault_eq_decision : EqDecision fault.
Proof. solve_decision. Defined.

Inductive outcome (A : Type) :=
  | Done (a : A)
  | Fault (f : fault).
Arguments Done {A} _.
Arguments Fault {A} _.

(** A computation over a state of type [St]. *)
Definition M (St A : Type) : Type := St -> outcome (A * St).

#[global] Instance M_ret St : MRet (M St) := fun A a s => Done (a, s).
#[global] Instance M_bind St : MBind (M St) := fun A B k m s =>
  match m s with
  | Done (a, s') => k a s'
  | Fault f => Fault f
  end.

Definition raise {St A} (f : fault) : M St A := fun _ => Fault f.
Definition gets {St A} (f : St -> A) : M St A := fun s => Done (f s, s).
Definition modify {St} (f : St -> St) : M St unit := fun s => Done (tt, f s).
Definition assert_ {St} (b : bool) : M St unit :=
  if b then mret tt else raise AssertFailed.

(** [ask f o]: the value of [o], or the fault [f]. *)
Definition ask {St A} (f : fault) (o : option A) : M St A :=
  match o with Some a => mret a | None => raise f end.

(** Run a computation on a part of the state. *)
Definition zoom {St T A} (get : St -> T) (set : T -> St -> St) (m : M T A) : M St A :=
  fun s => match m (get s) with
           | Done (a, t) => Done (a, set t s)
           | Fault f => Fault f
           end.

(** Run a computation on every element of a list, in order. *)
Fixpoint mfor {St A} (l : list A) (f : A -> M St unit) : M St unit :=
  match l with
  | [] => mret tt
  | a :: l' => f a ;; mfor l' f
  end.

(** ** Weakest preconditions *)

(** [wp m s Q]: from [s], [m] returns (it does not fault) and the result and
    final state satisfy [Q]. *)
Definition wp {St A} (m : M St A) (s : St) (Q : A -> St -> Prop) : Prop :=
  match m s with Done (a, s') => Q a s' | Fault _ => False end.

(** ** Lemmas on machine integers *)

Lemma uwrap_range w z : 0 <= w -> 0 <= uwrap w z < 2 ^ w.
Proof. intros. apply Z.mod_pos_bound, Z.pow_pos_nonneg; lia. Qed.

Lemma swrap_range w z : 0 < w -> - 2 ^ (w - 1) <= swrap w z < 2 ^ (w - 1).
Proof.
  intros. unfold swrap.
  assert (2 ^ w = 2 * 2 ^ (w - 1)) as E.
  { rewrite <- Z.pow_succ_r by lia. f_equal. lia. }
  pose proof (Z.mod_pos_bound (z + 2 ^ (w - 1)) (2 ^ w) ltac:(apply Z.pow_pos_nonneg; lia)).
  lia.
Qed.

Lemma uwrap_id w z : 0 <= z < 2 ^ w -> uwrap w z = z.
Proof. apply Z.mod_small. Qed.

Lemma swrap_id w z : 0 < w -> - 2 ^ (w - 1) <= z < 2 ^ (w - 1) -> swrap w z = z.
Proof.
  intros ? ?. unfold swrap.
  assert (2 ^ w = 2 * 2 ^ (w - 1)) as E.
  { rewrite <- Z.pow_succ_r by lia. f_equal. lia. }
  rewrite Z.mod_small; lia.
Qed.

(** Signed conversion only depends on the value modulo [2 ^ w]. *)
Lemma swrap_mod w z : swrap w (z mod 2 ^ w) = swrap w z.
Proof. unfold swrap. by rewrite Zplus_mod_idemp_l. Qed.

Lemma swrap_uwrap w z : swrap w (uwrap w z) = swrap w z.
Proof. apply swrap_mod. Qed.

(** Two bit fields that do not overlap are joined by addition. *)
Lemma lor_shiftl_add a b n :
  0 <= n -> 0 <= a < 2 ^ n -> Z.lor a (Z.shiftl b n) = a + b * 2 ^ n.
Proof.
  intros Hn Ha. rewrite <- Z.shiftl_mul_pow2 by lia.
  rewrite <- Z.lxor_lor; [symmetry; apply Z.add_nocarry_lxor|];
    apply Z.bits_inj'; intros i Hi; rewrite Z.land_spec, Z.bits_0, Z.shiftl_spec by lia;
    (destruct (decide (i < n));
     [ rewrite (Z.testbit_neg_r b) by lia; apply andb_false_r
     | rewrite <- (Z.mod_small a (2 ^ n)) by lia;
       rewrite Z.mod_pow2_bits_high by lia; reflexivity ]).
Qed.

Lemma land_ones_mod z n : 0 <= n -> Z.land z (2 ^ n - 1) = z mod 2 ^ n.
Proof.
  intros. rewrite <- Z.land_ones by lia. f_equal.
  rewrite Z.ones_equiv. lia.
Qed.

(** ** Lemmas on bytes *)

Lemma b2z_range b : 0 <= b2z b < 256.
Proof. unfold b2z. pose proof (Byte.to_N_bounded b). lia. Qed.

Lemma z2b_b2z b : z2b (b2z b) = b.
Proof.
  unfold z2b. rewrite Z.mod_small by apply b2z_range.
  unfold b2z. rewrite N2Z.id, Byte.of_to_N. reflexivity.
Qed.

Lemma b2z_z2b z : b2z (z2b z) = z mod 256.
Proof.
  unfold z2b. pose proof (Z.mod_pos_bound z 256 ltac:(lia)).
  destruct (Byte.of_N _) as [b|] eqn:E.
  - apply Byte.to_of_N in E. unfold b2z. rewrite E. lia.
  - apply Byte.of_N_None_iff in E. lia.
Qed.

Lemma z2b_mod z : z2b (z mod 256) = z2b z.
Proof. unfold z2b. by rewrite Zmod_mod. Qed.

Lemma b2z_inj a b : b2z a = b2z b -> a = b.
Proof. intros E. by rewrite <- (z2b_b2z a), E, z2b_b2z. Qed.

Lemma length_le_encode n v : length (le_encode n v) = n.
Proof. revert v; induction n; simpl; intros; f_equal; auto. Qed.

Lemma le_decode_encode n v : le_decode (le_encode n v) = v mod 256 ^ Z.of_nat n.
Proof.
  revert v; induction n as [|n IH]; intros v; [by rewrite Z.mod_1_r|].
  cbn [le_encode le_decode]. rewrite IH, b2z_z2b, Nat2Z.inj_succ, Z.pow_succ_r by lia.
  rewrite Z.rem_mul_r by (try apply Z.pow_nonzero; lia). lia.
Qed.

Lemma le_encode_decode bs : le_encode (length bs) (le_decode bs) = bs.
Proof.
  induction bs as [|b bs IH]; [done|]. cbn [le_decode length le_encode].
  pose proof (b2z_range b). f_equal.
  - rewrite <- z2b_mod. rewrite Z.mul_comm, Z_mod_plus_full, z2b_mod. apply z2b_b2z.
  - rewrite Z.mul_comm, Z.div_add by lia. rewrite Z.div_small by lia. apply IH.
Qed.

(** ** Rules for [wp] *)

Section WpRules.
Context {St : Type}.

Lemma wp_ret {A} (a : A) (s : St) Q : wp (mret a) s Q <-> Q a s.
Proof. done. Qed.

Lemma wp_bind {A B} (m : M St A) (k : A -> M St B) s Q :
  wp (m ≫= k) s Q <-> wp m s (fun a s' => wp (k a) s' Q).
Proof. unfold wp, mbind, M_bind. by destruct (m s) as [[]|]. Qed.

Lemma wp_mono {A} (m : M St A) s (P Q : A -> St -> Prop) :
  wp m s P -> (forall a s', P a s' -> Q a s') -> wp m s Q.
Proof. unfold wp. destruct (m s) as [[]|]; naive_solver. Qed.

Lemma wp_gets {A} (f : St -> A) s Q : wp (gets f) s Q <-> Q (f s) s.
Proof. done. Qed.

Lemma wp_modify (f : St -> St) s Q : wp (modify f) s Q <-> Q tt (f s).
Proof. done. Qed.

Lemma wp_assert b (s : St) Q : b = true -> Q tt s -> wp (assert_ b) s Q.
Proof. by intros ->. Qed.

Lemma wp_ask {A} f (o : option A) a (s : St) Q :
  o = Some a -> Q a s -> wp (ask f o) s Q.
Proof. by intros ->. Qed.

Lemma wp_zoom {T A} get set (m : M T A) (s : St) Q :
  wp (zoom get set m) s Q <-> wp m (get s) (fun a t => Q a (set t s)).
Proof. unfold wp, zoom. by destruct (m (get s)) as [[]|]. Qed.

Lemma wp_run {A} (m : M St A) s Q : wp m s Q -> exists a s', m s = Done (a, s') /\ Q a s'.
Proof. unfold wp. destruct (m s) as [[a s']|]; [eauto | done]. Qed.

Lemma wp_eq {A} (m : M St A) s a s' : wp m s (fun a' s'' => a' = a /\ s'' = s') -> m s = Done (a, s').
Proof. intros (? & ? & ? & -> & ->)%wp_run. done. Qed.

Lemma wp_of_eq {A} (m : M St A) s Q a s' : m s = Done (a, s') -> Q a s' -> wp m s Q.
Proof. unfold wp. by intros ->. Qed.

Lemma bind_run {A B} (m : M St A) (k : A -> M St B) s s' a :
  m s = Done (a, s') -> (m ≫= k) s = k a s'.
Proof. intros E. unfold mbind, M_bind. by rewrite E. Qed.

End WpRules.

(** ** Automation *)

Create HintDb hoodie discriminated.
#[export] Hint Resolve b2z_range uwrap_range swrap_range : hoodie.

Create Rewrite HintDb bytes.
#[export] Hint Rewrite z2b_b2z b2z_z2b length_le_encode : bytes.

(** One step of symbolic execution of a [wp] goal. *)
Ltac wp_step :=
  match goal with
  | |- wp (mbind _ _) _ _ => rewrite wp_bind
  | |- wp (mret _) _ _ => rewrite wp_ret
  | |- wp (gets _) _ _ => rewrite wp_gets
  | |- wp (modify _) _ _ => rewrite wp_modify
  | |- wp (zoom _ _ _) _ _ => rewrite wp_zoom
  | |- wp (assert_ _) _ _ => apply wp_assert; [solve [eauto with hoodie] |]
  | |- wp (ask _ _) _ _ => eapply wp_ask; [solve [eauto with hoodie] |]
  end; cbn beta.
Ltac wp_steps := repeat wp_step.

(** ** What a computation does to a part of the state *)

(** [pres I m]: if [m] returns, the states before and after it are related. *)
Definition pres {St A} (I : relation St) (m : M St A) : Prop :=
  forall s, match m s with Done (_, s') => I s s' | Fault _ => True end.

Create HintDb pres discriminated.

Section Pres.
Context {St : Type} (I : relation St) `{!PreOrder I}.

Lemma pres_ret {A} (a : A) : pres I (mret a).
Proof. intros s. simpl. reflexivity. Qed.
Lemma pres_raise {A} f : pres I (raise f : M St A).
Proof. by intros s. Qed.
Lemma pres_gets {A} (f : St -> A) : pres I (gets f).
Proof. intros s. simpl. reflexivity. Qed.
Lemma pres_ask {A} f (o : option A) : pres I (ask f o).
Proof. destruct o; [apply pres_ret | apply pres_raise]. Qed.
Lemma pres_assert b : pres I (assert_ b).
Proof. destruct b; [apply pres_ret | apply pres_raise]. Qed.
Lemma pres_bind {A B} (m : M St A) (k : A -> M St B) :
  pres I m -> (forall a, pres I (k a)) -> pres I (m ≫= k).
Proof.
  intros Hm Hk s. specialize (Hm s). unfold mbind, M_bind.
  destruct (m s) as [[a s1]|]; [|done]. specialize (Hk a s1).
  destruct (k a s1) as [[b s2]|]; [|done]. by transitivity s1.
Qed.
Lemma pres_modify f : (forall s, I s (f s)) -> pres I (modify f).
Proof. intros Hf s. apply Hf. Qed.

End Pres.

#[export] Hint Resolve pres_ret pres_raise pres_gets pres_ask pres_assert : pres.

(** Split a computation into its operations. *)
Ltac pres_step :=
  match goal with
  | |- pres _ (mbind _ _) => apply pres_bind; [apply _ | | intros ?]
  | |- pres _ (if ?b then _ else _) => destruct b
  | |- pres _ (match ?x with _ => _ end) => destruct x
  | |- pres _ _ => solve [eauto 4 with pres typeclass_instances]
  end.
Ltac pres_steps := repeat pres_step.
