(* ===== verification/Constants.v ===== *)
(** * Constants of the headers

    [xatmi.h], [libxatmi.h] (and the same definitions in [server.h]) and
    [tx.h]: flags, return values, error codes, message types and sizes. *)

From Stdlib Require Import ZArith Strings.String.
From S2P Require Import Prelude.

Local Open Scope Z_scope.

(** Flag bits of the routines ([xatmi.h]). *)
Definition TPNOBLOCK : Z := 0x1.
Definition TPSIGRSTRT : Z := 0x2.
Definition TPNOREPLY : Z := 0x4.
Definition TPNOTRAN : Z := 0x8.
Definition TPTRAN : Z := 0x10.
Definition TPNOTIME : Z := 0x20.
Definition TPGETANY : Z := 0x80.
Definition TPNOCHANGE : Z := 0x100.
Definition TPCONV : Z := 0x400.
Definition TPSENDONLY : Z := 0x800.
Definition TPRECVONLY : Z := 0x1000.

(** Values for [rval] in [tpreturn], and the one the switchboard adds. *)
Definition TPFAIL : Z := 1.
Definition TPSUCCESS : Z := 2.
Definition TPERRNO : Z := 3.

Definition XATMI_SERVICE_NAME_LENGTH : nat := 15.

(** Error values for [tperrno] ([xatmi.h]). *)
Definition TPEBADDESC : Z := 2.
Definition TPEBLOCK : Z := 3.
Definition TPEINVAL : Z := 4.
Definition TPELIMIT : Z := 5.
Definition TPENOENT : Z := 6.
Definition TPEOS : Z := 7.
Definition TPEPROTO : Z := 9.
Definition TPESVCERR : Z := 10.
Definition TPESVCFAIL : Z := 11.
Definition TPESYSTEM : Z := 12.
Definition TPETIME : Z := 13.
Definition TPETRAN : Z := 14.
Definition TPGOTSIG : Z := 15.
Definition TPEITYPE : Z := 17.
Definition TPEOTYPE : Z := 18.
Definition TPEEVENT : Z := 22.
Definition TPEMATCH : Z := 23.

(** Message types ([libxatmi.h], [server.h]). *)
Definition TPTCALL : Z := 0.
Definition TPTGRPLY : Z := 1.
Definition TPTADVT : Z := 2.
Definition TPTUADV : Z := 3.
Definition TPTWORK : Z := 4.
Definition TPTRETN : Z := 5.

(** Typed buffers ([libxatmi.h]). *)
Definition MAGIC : Z := 0xfee1900d.
Definition TYPELEN : nat := 8.
Definition SUBTYPELEN : nat := 16.

(** Return codes of the [tx_] routines ([tx.h]). *)
Definition TX_NOT_SUPPORTED : Z := 1.
Definition TX_OK : Z := 0.
Definition TX_OUTSIDE : Z := -1.
Definition TX_ROLLBACK : Z := -2.
Definition TX_MIXED : Z := -3.
Definition TX_HAZARD : Z := -4.
Definition TX_PROTOCOL_ERROR : Z := -5.
Definition TX_ERROR : Z := -6.
Definition TX_FAIL : Z := -7.
Definition TX_EINVAL : Z := -8.
Definition TX_COMMITTED : Z := -9.
Definition TX_NO_BEGIN : Z := -100.
Definition TX_ROLLBACK_NO_BEGIN : Z := TX_ROLLBACK + TX_NO_BEGIN.
Definition TX_MIXED_NO_BEGIN : Z := TX_MIXED + TX_NO_BEGIN.
Definition TX_HAZARD_NO_BEGIN : Z := TX_HAZARD + TX_NO_BEGIN.
Definition TX_COMMITTED_NO_BEGIN : Z := TX_COMMITTED + TX_NO_BEGIN.

(** Commit return values, transaction control and transaction states ([tx.h]). *)
Definition TX_COMMIT_COMPLETED : Z := 0.
Definition TX_COMMIT_DECISION_LOGGED : Z := 1.
Definition TX_UNCHAINED : Z := 0.
Definition TX_CHAINED : Z := 1.
Definition TX_ACTIVE : Z := 0.
Definition TX_TIMEOUT_ROLLBACK_ONLY : Z := 1.
Definition TX_ROLLBACK_ONLY : Z := 2.

(** Events of conversations ([xatmi.h]). *)
Definition TPEV_DISCONIMM : Z := 0x0001.
Definition TPEV_SVCERR : Z := 0x0002.
Definition TPEV_SVCFAIL : Z := 0x0004.
Definition TPEV_SVCSUCC : Z := 0x0008.
Definition TPEV_SENDONLY : Z := 0x0020.

(** Names of the typed buffers of X/Open ([xatmi.h]); the library does not use them. *)
Definition X_OCTET : list byte := list_byte_of_string "X_OCTET"%string.
Definition X_C_TYPE : list byte := list_byte_of_string "X_C_TYPE"%string.
Definition X_COMMON : list byte := list_byte_of_string "X_COMMON"%string.
