(* ===== verification/Xa.v ===== *)
(** * Transactions: the structures of the TX and XA headers

    [tx.h] declares what [tx_info] is meant to fill in, and [xa.h] the interface to
    resource managers, which no code here implements or calls: its constants, the
    identifier of a transaction branch and the switch of a resource manager. *)

From Stdlib Require Import ZArith Lia.
From S2P Require Import Prelude Constants.

Local Open Scope Z_scope.

(** ** Identifiers of transactions *)

Definition XIDDATASIZE : Z := 128.
Definition MAXGTRIDSIZE : Z := 64.
Definition MAXBQUALSIZE : Z := 64.

Record XID := mkXID {
  formatID : Z;
  gtrid_length : Z;
  bqual_length : Z;
  xid_data : list byte;
}.

(** The null identifier, and the lengths that the comments of the fields ask for. *)
Definition null_xid (x : XID) : bool := formatID x =? -1.
Definition xid_ok (x : XID) : bool :=
  (Z.of_nat (length (xid_data x)) =? XIDDATASIZE) &&
  (1 <=? gtrid_length x) && (gtrid_length x <=? MAXGTRIDSIZE) &&
  (1 <=? bqual_length x) && (bqual_length x <=? MAXBQUALSIZE).

(** The two parts of an identifier are in its array. *)
Definition gtrid (x : XID) : list byte := take (Z.to_nat (gtrid_length x)) (xid_data x).
Definition bqual (x : XID) : list byte :=
  take (Z.to_nat (bqual_length x)) (drop (Z.to_nat (gtrid_length x)) (xid_data x)).

Lemma xid_parts x : xid_ok x = true ->
  Z.of_nat (length (gtrid x)) = gtrid_length x /\ Z.of_nat (length (bqual x)) = bqual_length x.
Proof.
  unfold xid_ok, gtrid, bqual, XIDDATASIZE, MAXGTRIDSIZE, MAXBQUALSIZE.
  rewrite !andb_true_iff, Z.eqb_eq, !Z.leb_le, !length_take, length_drop. lia.
Qed.

(** ** What [tx_info] is given *)

Record TXINFO := mkTXINFO {
  info_xid : XID;
  when_return : Z;
  transaction_control : Z;
  transaction_timeout : Z;
  transaction_state : Z;
}.

(** ** Resource managers *)

Definition RMNAMESZ : Z := 32.
Definition MAXINFOSIZE : Z := 256.

(** The entries are function pointers: addresses of routines of the resource manager. *)
Record xa_switch_t := mkSwitch {
  rm_name : list byte;
  rm_flags : Z;
  rm_version : Z;
  xa_open_entry : Z;
  xa_close_entry : Z;
  xa_start_entry : Z;
  xa_end_entry : Z;
  xa_rollback_entry : Z;
  xa_prepare_entry : Z;
  xa_commit_entry : Z;
  xa_recover_entry : Z;
  xa_forget_entry : Z;
  xa_complete_entry : Z;
}.

(** Flags of the switch. *)
Definition TMNOFLAGS : Z := 0x00000000.
Definition TMREGISTER : Z := 0x00000001.
Definition TMNOMIGRATE : Z := 0x00000002.
Definition TMUSEASYNC : Z := 0x00000004.

(** Flags of the [xa_] and [ax_] routines. *)
Definition TMASYNC : Z := 0x80000000.
Definition TMONEPHASE : Z := 0x40000000.
Definition TMFAIL : Z := 0x20000000.
Definition TMNOWAIT : Z := 0x10000000.
Definition TMRESUME : Z := 0x08000000.
Definition TMSUCCESS : Z := 0x04000000.
Definition TMSUSPEND : Z := 0x02000000.
Definition TMSTARTRSCAN : Z := 0x01000000.
Definition TMENDRSCAN : Z := 0x00800000.
Definition TMMULTIPLE : Z := 0x00400000.
Definition TMJOIN : Z := 0x00200000.
Definition TMMIGRATE : Z := 0x00100000.

(** Return codes of the [ax_] routines. *)
Definition TM_JOIN : Z := 2.
Definition TM_RESUME : Z := 1.
Definition TM_OK : Z := 0.
Definition TMER_TMERR : Z := -1.
Definition TMER_INVAL : Z := -2.
Definition TMER_PROTO : Z := -3.

(** Return codes of the [xa_] routines: the range of the rollback codes, and the others. *)
Definition XA_RBBASE : Z := 100.
Definition XA_RBROLLBACK : Z := XA_RBBASE.
Definition XA_RBCOMMFAIL : Z := XA_RBBASE + 1.
Definition XA_RBDEADLOCK : Z := XA_RBBASE + 2.
Definition XA_RBINTEGRITY : Z := XA_RBBASE + 3.
Definition XA_RBOTHER : Z := XA_RBBASE + 4.
Definition XA_RBPROTO : Z := XA_RBBASE + 5.
Definition XA_RBTIMEOUT : Z := XA_RBBASE + 6.
Definition XA_RBTRANSIENT : Z := XA_RBBASE + 7.
Definition XA_RBEND : Z := XA_RBTRANSIENT.
Definition XA_NOMIGRATE : Z := 9.
Definition XA_HEURHAZ : Z := 8.
Definition XA_HEURCOM : Z := 7.
Definition XA_HEURRB : Z := 6.
Definition XA_HEURMIX : Z := 5.
Definition XA_RETRY : Z := 4.
Definition XA_RDONLY : Z := 3.
Definition XA_OK : Z := 0.
Definition XAER_ASYNC : Z := -2.
Definition XAER_RMERR : Z := -3.
Definition XAER_NOTA : Z := -4.
Definition XAER_INVAL : Z := -5.
Definition XAER_PROTO : Z := -6.
Definition XAER_RMFAIL : Z := -7.
Definition XAER_DUPID : Z := -8.
Definition XAER_OUTSIDE : Z := -9.

(** ** Codes and flags can be told apart *)

Definition xa_flags : list Z :=
  [TMASYNC; TMONEPHASE; TMFAIL; TMNOWAIT; TMRESUME; TMSUCCESS; TMSUSPEND; TMSTARTRSCAN; TMENDRSCAN; TMMULTIPLE; TMJOIN;
   TMMIGRATE].
Definition switch_flags : list Z := [TMREGISTER; TMNOMIGRATE; TMUSEASYNC].
Definition rollback_codes : list Z :=
  [XA_RBROLLBACK; XA_RBCOMMFAIL; XA_RBDEADLOCK; XA_RBINTEGRITY; XA_RBOTHER; XA_RBPROTO; XA_RBTIMEOUT; XA_RBTRANSIENT].
Definition xa_codes : list Z :=
  rollback_codes ++ [XA_NOMIGRATE; XA_HEURHAZ; XA_HEURCOM; XA_HEURRB; XA_HEURMIX; XA_RETRY; XA_RDONLY; XA_OK; XAER_ASYNC;
    XAER_RMERR; XAER_NOTA; XAER_INVAL; XAER_PROTO; XAER_RMFAIL; XAER_DUPID; XAER_OUTSIDE].
Definition tx_codes : list Z :=
  [TX_NOT_SUPPORTED; TX_OK; TX_OUTSIDE; TX_ROLLBACK; TX_MIXED; TX_HAZARD; TX_PROTOCOL_ERROR; TX_ERROR; TX_FAIL; TX_EINVAL;
   TX_COMMITTED; TX_NO_BEGIN; TX_ROLLBACK_NO_BEGIN; TX_MIXED_NO_BEGIN; TX_HAZARD_NO_BEGIN; TX_COMMITTED_NO_BEGIN].

(** Every flag is a bit of its own among those it is used with. *)
Lemma flags_told_apart fs : fs = xa_flags \/ fs = switch_flags ->
  forall f g, f ∈ fs -> g ∈ fs -> f <> TMNOFLAGS /\ Z.land f g = if decide (f = g) then f else 0.
Proof.
  intros Hfs f g Hf Hg. revert g Hg. revert f Hf.
  assert (Forall (fun f => Forall (fun g => f <> TMNOFLAGS /\ Z.land f g = if decide (f = g) then f else 0) fs) fs) as HF.
  { destruct Hfs as [-> | ->]; apply (bool_decide_unpack _); vm_compute; exact I. }
  intros f Hf. rewrite Forall_forall in HF. by apply Forall_forall, HF.
Qed.

(** The codes of the [xa_] routines and of the [tx_] routines are pairwise different, and the
    rollback codes are exactly those in their range. *)
Lemma codes_told_apart :
  NoDup xa_codes /\ NoDup tx_codes /\ forall v, v ∈ xa_codes -> XA_RBBASE <= v <= XA_RBEND <-> v ∈ rollback_codes.
Proof.
  split; [apply (bool_decide_unpack _); vm_compute; exact I|]. split; [apply (bool_decide_unpack _); vm_compute; exact I|].
  apply Forall_forall. apply (bool_decide_unpack _). vm_compute. exact I.
Qed.
