(* ===== verification/ByteOrder.v ===== *)
(** * Numbers on the wire

    [byteorder.h] and [byteorder.c]: the sizes of the two integer formats and
    the functions that read them out of a message.  A message is the list of
    its bytes, and a read outside the message is [None].  The format itself is
    little-endian, [le_encode IOSHORT] and [le_encode IOLONG]; that the writing
    functions of the switchboard and of the client library produce it is proved
    where they are modelled. *)

From Stdlib Require Import ZArith Lia.
From S2P Require Import Prelude.

Local Open Scope Z_scope.

Definition IOSHORT : nat := 2.
Definition IOLONG : nat := 4.

(** [unsigned short toshort(char * )] at offset [i] of the message. *)
Definition toshort (d : list byte) (i : nat) : option Z :=
  b0 ← d !! i; b1 ← d !! (i + 1)%nat;
  Some (uwrap 16 (Z.lor (b2z b0) (Z.shiftl (b2z b1) 8))).

(** [unsigned long tolong(char * )]: the shift is done on an [int], whose sign
    the conversion to [unsigned long] extends. *)
Definition tolong (dm : data_model) (d : list byte) (i : nat) : option Z :=
  s0 ← toshort d i; s1 ← toshort d (i + 2)%nat;
  Some (ulong dm (Z.lor s0 (swrap 32 (Z.shiftl s1 16)))).

(** A sequence of bytes found at offset [i] of a message. *)
Definition bytes_at (d : list byte) (i : nat) (bs : list byte) : Prop :=
  take (length bs) (drop i d) = bs.

(** ** Lemmas *)

Lemma bytes_at_lookup d i bs k b :
  bytes_at d i bs -> bs !! k = Some b -> d !! (i + k)%nat = Some b.
Proof.
  intros H Hk. unfold bytes_at in H. rewrite <- H in Hk.
  apply lookup_take_Some in Hk as [Hk _]. by rewrite lookup_drop in Hk.
Qed.

Lemma bytes_at_app pre bs post : bytes_at (pre ++ bs ++ post) (length pre) bs.
Proof. unfold bytes_at. by rewrite drop_app_length, take_app_length. Qed.

Lemma toshort_bytes d i b0 b1 :
  bytes_at d i [b0; b1] -> toshort d i = Some (b2z b0 + 256 * b2z b1).
Proof.
  intros H. unfold toshort.
  pose proof (bytes_at_lookup _ _ _ 0 b0 H eq_refl) as E0. rewrite Nat.add_0_r in E0.
  rewrite E0, (bytes_at_lookup _ _ _ 1 b1 H eq_refl). simpl. f_equal.
  pose proof (b2z_range b0). pose proof (b2z_range b1).
  rewrite lor_shiftl_add by lia. rewrite uwrap_id; lia.
Qed.

(** [toshort] inverts the encoding of a 16-bit number. *)
Lemma toshort_encode d i v : bytes_at d i (le_encode 2 v) -> toshort d i = Some (uwrap 16 v).
Proof.
  intros H. erewrite toshort_bytes by exact H. f_equal.
  pose proof (le_decode_encode 2 v) as E. cbn [le_encode le_decode] in E.
  rewrite Z.mul_0_r, Z.add_0_r in E. rewrite E. done.
Qed.

Lemma bytes_at_split d i bs bs' :
  bytes_at d i (bs ++ bs') -> bytes_at d i bs /\ bytes_at d (i + length bs) bs'.
Proof.
  unfold bytes_at. rewrite length_app. intros H. split.
  - rewrite <- (take_app_length bs bs') at 2. rewrite <- H, take_take. f_equal. lia.
  - rewrite <- drop_drop.
    rewrite <- (drop_app_length bs bs') at 2. rewrite <- H.
    rewrite skipn_firstn_comm. f_equal. lia.
Qed.

Lemma le_encode_split n m v :
  le_encode (n + m) v = le_encode n v ++ le_encode m (v / 256 ^ Z.of_nat n).
Proof.
  revert v; induction n as [|n IH]; intros v; [by rewrite Z.div_1_r|].
  cbn [Nat.add le_encode app]. f_equal. rewrite IH. do 2 f_equal.
  rewrite Nat2Z.inj_succ, Z.pow_succ_r, Z.div_div by lia. done.
Qed.

Lemma tolong_shorts dm d i s0 s1 :
  toshort d i = Some s0 -> toshort d (i + 2)%nat = Some s1 ->
  0 <= s0 < 2 ^ 16 -> 0 <= s1 < 2 ^ 16 ->
  tolong dm d i = Some (ulong dm (swrap 32 (s0 + s1 * 2 ^ 16))).
Proof.
  intros E0 E1 H0 H1. unfold tolong. rewrite E0, E1. simpl. do 2 f_equal.
  unfold swrap at 1. rewrite Z.shiftl_mul_pow2 by lia.
  replace ((s1 * 2 ^ 16 + 2 ^ (32 - 1)) mod 2 ^ 32 - 2 ^ (32 - 1))
    with (Z.shiftl (swrap 16 s1) 16).
  - rewrite lor_shiftl_add by lia. unfold swrap.
    assert (s1 < 2 ^ 15 \/ 2 ^ 15 <= s1) as [] by lia;
      Z.div_mod_to_equations; lia.
  - rewrite Z.shiftl_mul_pow2 by lia. unfold swrap. Z.div_mod_to_equations; lia.
Qed.

(** [tolong] reads back the low 32 bits of an encoded number, as a signed
    32-bit integer converted to [unsigned long]. *)
Lemma tolong_encode dm d i v :
  bytes_at d i (le_encode 4 v) -> tolong dm d i = Some (ulong dm (swrap 32 v)).
Proof.
  intros H. rewrite (le_encode_split 2 2) in H. apply bytes_at_split in H as [H0 H1].
  rewrite length_le_encode in H1.
  erewrite tolong_shorts by
    (first [exact (toshort_encode _ _ _ H0) | exact (toshort_encode _ _ _ H1)
           | apply uwrap_range; lia]).
  do 2 f_equal. unfold swrap, uwrap. change (256 ^ Z.of_nat 2) with (2 ^ 16).
  Z.div_mod_to_equations; lia.
Qed.

(** The encoding only depends on the low bits. *)
Lemma le_encode_mod n v v' :
  v mod 256 ^ Z.of_nat n = v' mod 256 ^ Z.of_nat n -> le_encode n v = le_encode n v'.
Proof.
  intros E. rewrite <- (le_encode_decode (le_encode n v)), <- (le_encode_decode (le_encode n v')).
  by rewrite !length_le_encode, !le_decode_encode, E.
Qed.

(** The byte-by-byte output of a short, as [tx_writes] and [svrwrites] do it. *)
Lemma short_bytes v :
  [z2b (Z.land (uwrap 16 v) 0xFF); z2b (Z.shiftr (uwrap 16 v) 8)] = le_encode 2 v.
Proof.
  rewrite (le_encode_mod 2 v (uwrap 16 v)) by (symmetry; apply Zmod_mod).
  cbn [le_encode]. f_equal; [|f_equal; by rewrite Z.shiftr_div_pow2].
  rewrite (land_ones_mod _ 8) by lia. apply z2b_mod.
Qed.

(** The output of a long as two shorts. *)
Lemma long_shorts dm v :
  le_encode 2 (Z.land (ulong dm v) 0xFFFF) ++ le_encode 2 (Z.shiftr (ulong dm v) 16) = le_encode 4 v.
Proof.
  rewrite (le_encode_mod 4 v (ulong dm v)).
  - rewrite (le_encode_split 2 2). f_equal.
    + apply le_encode_mod. rewrite (land_ones_mod _ 16) by lia. apply Zmod_mod.
    + by rewrite Z.shiftr_div_pow2.
  - unfold ulong, uwrap. destruct dm; cbn [long_bits]; change (256 ^ Z.of_nat 4) with (2 ^ 32).
    + by rewrite Zmod_mod.
    + change (2 ^ 64) with (2 ^ 32 * 2 ^ 32). rewrite Z.rem_mul_r by lia.
      by rewrite (Z.mul_comm (2 ^ 32) (_ mod _)), Z_mod_plus_full, Zmod_mod.
Qed.
