(* ===== verification/Queue.v ===== *)
(** * Circular doubly-linked queues

    [queue.h] and [queue.c].  A [QUEUE] is a pair of links embedded in every
    object that can be on a list and in the list's own header; the header of an
    empty list, like an object that is on no list, links to itself.  The memory
    of the links is a finite map from the addresses of [QUEUE] fields to their
    contents, and the operations do the assignments of the code, in its order.

    [is_queue m h l] says that the header [h] and the nodes [l] form one cycle.
    The theorems give each operation's effect on the queue it works on, the
    frame lemmas that every other queue is left as it is. *)

From Stdlib Require Import ZArith Lia.
From S2P Require Import Prelude.

(** ** Links *)

(** [typedef struct queue { struct queue *p1, *p2; } QUEUE] *)
Record QUEUE (A : Type) := mkQUEUE { p1 : A; p2 : A }.
Arguments mkQUEUE {A} _ _.
Arguments p1 {A} _.
Arguments p2 {A} _.

Section Queue.
Context {A : Type} `{Countable A}.

Definition nxt (m : gmap A (QUEUE A)) (a : A) : option A := p2 <$> m !! a.
Definition prv (m : gmap A (QUEUE A)) (a : A) : option A := p1 <$> m !! a.

Definition set_p1 (a v : A) (m : gmap A (QUEUE A)) : gmap A (QUEUE A) :=
  alter (fun n => mkQUEUE v (p2 n)) a m.
Definition set_p2 (a v : A) (m : gmap A (QUEUE A)) : gmap A (QUEUE A) :=
  alter (fun n => mkQUEUE (p1 n) v) a m.

(** The macros, as reads and writes of the link memory.  [QPREV] and [QLAST]
    are the field [p1], [QNEXT] and [QFIRST] the field [p2]. *)
Definition QPREV (a : A) : M (gmap A (QUEUE A)) A :=
  m ← gets id; ask UseAfterFree (prv m a).
Definition QNEXT (a : A) : M (gmap A (QUEUE A)) A :=
  m ← gets id; ask UseAfterFree (nxt m a).
Definition QLAST (q : A) : M (gmap A (QUEUE A)) A := QPREV q.
Definition QFIRST (q : A) : M (gmap A (QUEUE A)) A := QNEXT q.

Definition QPREV_set (a v : A) : M (gmap A (QUEUE A)) unit :=
  m ← gets id; _ ← ask UseAfterFree (m !! a); modify (set_p1 a v).
Definition QNEXT_set (a v : A) : M (gmap A (QUEUE A)) unit :=
  m ← gets id; _ ← ask UseAfterFree (m !! a); modify (set_p2 a v).

Definition QINIT (q : A) : M (gmap A (QUEUE A)) unit :=
  QNEXT_set q q ;; QPREV_set q q.
Definition QISEMPTY (q : A) : M (gmap A (QUEUE A)) bool :=
  l ← QLAST q; mret (bool_decide (l = q)).

Definition qappend (node newnode : A) : M (gmap A (QUEUE A)) A :=
  QPREV_set newnode node ;;
  n ← QNEXT node; QNEXT_set newnode n ;;
  n' ← QNEXT newnode; QPREV_set n' newnode ;;
  QNEXT_set node newnode ;;
  mret newnode.

Definition qprepend (node newnode : A) : M (gmap A (QUEUE A)) A :=
  QNEXT_set newnode node ;;
  p ← QPREV node; QPREV_set newnode p ;;
  p' ← QPREV newnode; QNEXT_set p' newnode ;;
  QPREV_set node newnode ;;
  mret newnode.

Definition qdelete (node : A) : M (gmap A (QUEUE A)) A :=
  p ← QPREV node; n ← QNEXT node; QNEXT_set p n ;;
  n' ← QNEXT node; p' ← QPREV node; QPREV_set n' p' ;;
  QPREV_set node node ;; QNEXT_set node node ;;
  mret node.

(** The traversal [for (q = QFIRST(h); q != &h; q = QNEXT(q))]: the nodes it
    visits, starting at [q]. *)
Fixpoint qwalk (fuel : nat) (h q : A) : M (gmap A (QUEUE A)) (list A) :=
  match fuel with
  | O => raise OutOfFuel
  | S fuel' =>
      if bool_decide (q = h) then mret []
      else n ← QNEXT q; l ← qwalk fuel' h n; mret (q :: l)
  end.

(** A traversal of the whole list; the link memory's size bounds its length. *)
Definition qelements (h : A) : M (gmap A (QUEUE A)) (list A) :=
  m ← gets id; q ← QFIRST h; qwalk (S (size m)) h q.

(** ** The shape of a queue *)

Definition linked (m : gmap A (QUEUE A)) (a b : A) : Prop :=
  nxt m a = Some b /\ prv m b = Some a.

Fixpoint seg (m : gmap A (QUEUE A)) (a : A) (l : list A) (b : A) : Prop :=
  match l with
  | [] => linked m a b
  | x :: l' => linked m a x /\ seg m x l' b
  end.

Definition is_queue (m : gmap A (QUEUE A)) (h : A) (l : list A) : Prop :=
  seg m h l h /\ NoDup (h :: l).

(** [same_outside m m' X]: the two memories agree on every node not in [X]. *)
Definition same_outside (m m' : gmap A (QUEUE A)) (X : list A) : Prop :=
  forall x, x ∉ X -> m' !! x = m !! x.

(** ** Reads after writes *)

Lemma nxt_set_p1 a v m x : nxt (set_p1 a v m) x = nxt m x.
Proof. unfold nxt, set_p1. rewrite lookup_alter. case_decide; subst; by destruct (m !! _). Qed.
Lemma prv_set_p2 a v m x : prv (set_p2 a v m) x = prv m x.
Proof. unfold prv, set_p2. rewrite lookup_alter. case_decide; subst; by destruct (m !! _). Qed.
Lemma nxt_set_p2 a v m x :
  nxt (set_p2 a v m) x = if decide (a = x) then (fun _ => v) <$> m !! x else nxt m x.
Proof. unfold nxt, set_p2. rewrite lookup_alter. case_decide; subst; by destruct (m !! _). Qed.
Lemma prv_set_p1 a v m x :
  prv (set_p1 a v m) x = if decide (a = x) then (fun _ => v) <$> m !! x else prv m x.
Proof. unfold prv, set_p1. rewrite lookup_alter. case_decide; subst; by destruct (m !! _). Qed.

Lemma is_Some_set_p1 a v (m : gmap A (QUEUE A)) x : is_Some (set_p1 a v m !! x) <-> is_Some (m !! x).
Proof. unfold set_p1. by rewrite lookup_alter_is_Some. Qed.
Lemma is_Some_set_p2 a v (m : gmap A (QUEUE A)) x : is_Some (set_p2 a v m !! x) <-> is_Some (m !! x).
Proof. unfold set_p2. by rewrite lookup_alter_is_Some. Qed.

Lemma fmap_const_is_Some {B C : Type} (o : option B) (c : C) :
  is_Some o -> (fun _ => c) <$> o = Some c.
Proof. by intros [? ->]. Qed.

Lemma nxt_is_Some m a b : nxt m a = Some b -> is_Some (m !! a).
Proof. unfold nxt. destruct (m !! a); [eauto | done]. Qed.
Lemma prv_is_Some m a b : prv m a = Some b -> is_Some (m !! a).
Proof. unfold prv. destruct (m !! a); [eauto | done]. Qed.

Lemma links_eq (m m' : gmap A (QUEUE A)) x : nxt m' x = nxt m x -> prv m' x = prv m x -> m' !! x = m !! x.
Proof.
  unfold nxt, prv. destruct (m !! x) as [[]|], (m' !! x) as [[]|]; naive_solver.
Qed.

(** ** Segments *)

Lemma seg_app m a l1 x l2 b : seg m a (l1 ++ x :: l2) b <-> seg m a l1 x /\ seg m x l2 b.
Proof. revert a; induction l1; intros; simpl; [done|]. rewrite IHl1. tauto. Qed.

Lemma seg_nxt m a l b : seg m a l b -> nxt m a = Some (default b (head l)).
Proof. destruct l; simpl; [by intros [] | by intros [[] _]]. Qed.

Lemma seg_prv m a l b : seg m a l b -> prv m b = Some (default a (last l)).
Proof.
  revert a; induction l as [|x l IH]; intros a; [by intros []|]. intros [_ Hs].
  rewrite (IH _ Hs), last_cons. by destruct (last l).
Qed.

Lemma seg_dom m a l b : seg m a l b -> forall x, x ∈ a :: l ++ [b] -> is_Some (m !! x).
Proof.
  revert a; induction l as [|y l IH]; intros a Hs x.
  - destruct Hs as [?%nxt_is_Some ?%prv_is_Some]. set_solver.
  - destruct Hs as [[?%nxt_is_Some _] Hs]. specialize (IH _ Hs x). set_solver.
Qed.

(** A segment only reads the forward links of its nodes but the last and the
    backward links of its nodes but the first. *)
Lemma seg_ext m m' a l b :
  (forall y, y ∈ a :: l -> nxt m' y = nxt m y) ->
  (forall y, y ∈ l ++ [b] -> prv m' y = prv m y) ->
  seg m a l b -> seg m' a l b.
Proof.
  revert a; induction l as [|x l IH]; intros a Hn Hp; simpl; unfold linked.
  - intros [??]. rewrite Hn, Hp by set_solver. done.
  - intros [[??] Hs]. rewrite Hn, Hp by set_solver. split; [done|].
    apply IH; [set_solver.. | done].
Qed.

(** Linking [n] in right after the first node of a segment. *)
Lemma seg_insert m m' a n l b x :
  nxt m a = Some x -> a ≠ n -> n ∉ l -> n ≠ b -> NoDup l -> a ∉ l -> b ∉ l ->
  (forall y, nxt m' y = if decide (y = a) then Some n else if decide (y = n) then Some x else nxt m y) ->
  (forall y, prv m' y = if decide (y = x) then Some n else if decide (y = n) then Some a else prv m y) ->
  seg m a l b -> seg m' a (n :: l) b.
Proof.
  intros Hx Han Hnl Hnb Hnd Hal Hbl Hn Hp Hs.
  pose proof (seg_nxt _ _ _ _ Hs) as Hx'. rewrite Hx in Hx'. simplify_eq.
  split; [split; [rewrite Hn, decide_True by done; done | rewrite Hp]|].
  { destruct l; simpl in *; (rewrite decide_False by set_solver); by rewrite decide_True. }
  destruct l as [|x l]; simpl in *.
  - split; [rewrite Hn, decide_False, decide_True | rewrite Hp, decide_True]; done.
  - apply NoDup_cons in Hnd as [Hxl Hnd]. destruct Hs as [_ Hs]. split.
    + split; [rewrite Hn, decide_False, decide_True | rewrite Hp, decide_True]; done.
    + eapply seg_ext; [..|exact Hs]; intros y Hy; rewrite ?Hn, ?Hp;
        rewrite !decide_False; set_solver.
Qed.

(** Linking a node out from the middle of a segment. *)
Lemma seg_remove m m' a l1 n l2 b p x :
  prv m n = Some p -> nxt m n = Some x ->
  NoDup (l1 ++ n :: l2) -> a ∉ l1 ++ n :: l2 -> b ∉ l1 ++ n :: l2 ->
  (forall y, y ≠ n -> nxt m' y = if decide (y = p) then Some x else nxt m y) ->
  (forall y, y ≠ n -> prv m' y = if decide (y = x) then Some p else prv m y) ->
  seg m a l1 n -> seg m n l2 b -> seg m' a (l1 ++ l2) b.
Proof.
  intros Hpn Hxn Hnd Ha Hb Hn Hp Hs1 Hs2.
  pose proof (seg_nxt _ _ _ _ Hs2) as Hx. rewrite Hxn in Hx.
  revert a Ha Hnd Hb Hs1; induction l1 as [|y l1 IH]; intros a Ha Hnd Hb Hs1; simpl in *.
  - assert (p = a) as -> by (destruct Hs1; congruence).
    apply NoDup_cons in Hnd as [Hnl Hnd].
    destruct l2 as [|z l2]; simpl in *; simplify_eq.
    + split; [rewrite Hn, decide_True | rewrite Hp, decide_True]; set_solver.
    + apply NoDup_cons in Hnd as [Hzl Hnd]. destruct Hs2 as [_ Hs2]. split.
      * split; [rewrite Hn, decide_True | rewrite Hp, decide_True]; set_solver.
      * eapply seg_ext; [..|exact Hs2]; intros w Hw;
          (rewrite ?Hn, ?Hp by set_solver); rewrite decide_False; set_solver.
  - destruct Hs1 as [[Hay Hya] Hs1].
    apply NoDup_cons in Hnd as [Hyl Hnd].
    pose proof (seg_prv _ _ _ _ Hs1) as Hp1. rewrite Hpn in Hp1. simplify_eq.
    assert (default y (last l1) ∈ y :: l1) as Hin.
    { destruct (last l1) eqn:E; simpl; [|set_solver].
      apply last_Some in E as [? ->]. set_solver. }
    assert (y ≠ default b (head l2)) as Hyx by (destruct l2; set_solver).
    split; [split|].
    + rewrite Hn, decide_False; set_solver.
    + rewrite Hp, decide_False; set_solver.
    + apply IH; [done | done | set_solver | done].
Qed.

(** ** The operations *)

Lemma wp_QNEXT m a b Q : nxt m a = Some b -> Q b m -> wp (QNEXT a) m Q.
Proof. intros E HQ. unfold QNEXT. by wp_steps. Qed.
Lemma wp_QPREV m a b Q : prv m a = Some b -> Q b m -> wp (QPREV a) m Q.
Proof. intros E HQ. unfold QPREV. by wp_steps. Qed.
Lemma wp_QNEXT_set (m : gmap A (QUEUE A)) a v Q :
  is_Some (m !! a) -> Q tt (set_p2 a v m) -> wp (QNEXT_set a v) m Q.
Proof. intros [? E] HQ. unfold QNEXT_set. by wp_steps. Qed.
Lemma wp_QPREV_set (m : gmap A (QUEUE A)) a v Q :
  is_Some (m !! a) -> Q tt (set_p1 a v m) -> wp (QPREV_set a v) m Q.
Proof. intros [? E] HQ. unfold QPREV_set. by wp_steps. Qed.

(** Simplify reads of a link memory after the writes of an operation. *)
Ltac links := repeat first
  [ rewrite nxt_set_p1 | rewrite prv_set_p2 | rewrite nxt_set_p2 | rewrite prv_set_p1
  | rewrite is_Some_set_p1 | rewrite is_Some_set_p2
  | rewrite decide_True by congruence | rewrite decide_False by congruence
  | rewrite fmap_const_is_Some by (repeat first [rewrite is_Some_set_p1 | rewrite is_Some_set_p2]; eauto) ].

Ltac q_step :=
  first
    [ wp_step
    | eapply wp_QNEXT; [links; solve [eauto] |]
    | eapply wp_QPREV; [links; solve [eauto] |]
    | eapply wp_QNEXT_set; [links; solve [eauto] |]
    | eapply wp_QPREV_set; [links; solve [eauto] |] ].

(** What a write sequence leaves in one link. *)
Ltac q_lookup := intros y; links; repeat case_decide; subst; links; try congruence; eauto.

Lemma qappend_run m node n x :
  node ≠ n -> x ≠ n -> nxt m node = Some x -> is_Some (m !! n) -> is_Some (m !! x) ->
  exists m', qappend node n m = Done (n, m') /\
    (forall y, nxt m' y = if decide (y = node) then Some n else if decide (y = n) then Some x else nxt m y) /\
    (forall y, prv m' y = if decide (y = x) then Some n else if decide (y = n) then Some node else prv m y).
Proof.
  intros Hne Hxn Hx Hn Hvx. pose proof (nxt_is_Some _ _ _ Hx) as Hd.
  exists (set_p2 node n (set_p1 x n (set_p2 n x (set_p1 n node m)))).
  split; [apply wp_eq; unfold qappend; by repeat q_step|].
  split; q_lookup.
Qed.

Lemma qprepend_run m node n p :
  node ≠ n -> p ≠ n -> prv m node = Some p -> is_Some (m !! n) -> is_Some (m !! p) ->
  exists m', qprepend node n m = Done (n, m') /\
    (forall y, nxt m' y = if decide (y = p) then Some n else if decide (y = n) then Some node else nxt m y) /\
    (forall y, prv m' y = if decide (y = node) then Some n else if decide (y = n) then Some p else prv m y).
Proof.
  intros Hne Hxn Hx Hn Hvx. pose proof (prv_is_Some _ _ _ Hx) as Hd.
  exists (set_p1 node n (set_p2 p n (set_p1 n p (set_p2 n node m)))).
  split; [apply wp_eq; unfold qprepend; by repeat q_step|].
  split; q_lookup.
Qed.

Lemma qdelete_run m n p x :
  prv m n = Some p -> nxt m n = Some x -> p ≠ n -> x ≠ n -> is_Some (m !! p) -> is_Some (m !! x) ->
  exists m', qdelete n m = Done (n, m') /\
    (forall y, nxt m' y = if decide (y = n) then Some n else if decide (y = p) then Some x else nxt m y) /\
    (forall y, prv m' y = if decide (y = n) then Some n else if decide (y = x) then Some p else prv m y).
Proof.
  intros Hp Hx Hpn Hxn Hdp Hdx. pose proof (nxt_is_Some _ _ _ Hx) as Hd.
  exists (set_p2 n n (set_p1 n n (set_p1 x p (set_p2 p x m)))).
  split; [apply wp_eq; unfold qdelete; by repeat q_step|].
  split; q_lookup.
Qed.

(** ** Queues *)

Lemma is_queue_dom m h l x : is_queue m h l -> x ∈ h :: l -> is_Some (m !! x).
Proof. intros [Hs _] Hx. apply (seg_dom _ _ _ _ Hs). set_solver. Qed.

Lemma is_queue_first m h l : is_queue m h l -> nxt m h = Some (default h (head l)).
Proof. intros [Hs _]. by apply seg_nxt. Qed.

Lemma is_queue_last m h l : is_queue m h l -> prv m h = Some (default h (last l)).
Proof. intros [Hs _]. by apply seg_prv. Qed.

(** A queue is untouched by an operation that works elsewhere. *)
Lemma is_queue_frame m m' h l X :
  same_outside m m' X -> (forall x, x ∈ h :: l -> x ∉ X) -> is_queue m h l -> is_queue m' h l.
Proof.
  intros Hf Hd [Hs Hnd]. split; [|done].
  eapply seg_ext; [..|exact Hs]; intros y Hy; unfold nxt, prv; rewrite Hf; set_solver.
Qed.

Lemma is_queue_self m n : is_queue m n [] <-> linked m n n.
Proof. unfold is_queue. simpl. split; [by intros [] | split; [done | apply NoDup_singleton]]. Qed.

Lemma last_elem l (h : A) : default h (last l) ∈ h :: l.
Proof. destruct (last l) eqn:E; simpl; [|set_solver]. apply last_Some in E as [? ->]. set_solver. Qed.

Lemma head_elem l (h : A) : default h (head l) ∈ h :: l.
Proof. destruct l; set_solver. Qed.

(** The nodes of a queue up to a given one, and from it on. *)
Lemma seg_at_last m h l1 l2 :
  seg m h (l1 ++ l2) h -> seg m (default h (last l1)) l2 h.
Proof.
  destruct (last l1) as [y|] eqn:E; simpl.
  - apply last_Some in E as [l1' ->]. rewrite <- app_assoc. simpl. by rewrite seg_app; intros [].
  - by apply last_None in E as ->.
Qed.

Lemma NoDup_insert (l1 l2 : list A) n :
  n ∉ l1 ++ l2 -> NoDup (l1 ++ l2) -> NoDup (l1 ++ n :: l2).
Proof.
  intros. rewrite <- Permutation_middle. by constructor.
Qed.

(** Linking a new node in between two neighbours of a queue, whatever the
    order of the assignments that do it. *)
Lemma queue_insert m m' h l1 l2 n :
  let node := default h (last l1) in let x := default h (head l2) in
  is_queue m h (l1 ++ l2) -> n ∉ h :: l1 ++ l2 ->
  (forall y, nxt m' y = if decide (y = node) then Some n else if decide (y = n) then Some x else nxt m y) ->
  (forall y, prv m' y = if decide (y = x) then Some n else if decide (y = n) then Some node else prv m y) ->
  is_queue m' h (l1 ++ n :: l2) /\ same_outside m m' (n :: h :: l1 ++ l2).
Proof.
  intros node x [Hs Hnd] Hn Hn' Hp'.
  pose proof (last_elem l1 h) as Hnode. pose proof (head_elem l2 h) as Hx.
  pose proof (seg_at_last _ _ _ _ Hs) as Hs2. pose proof (seg_nxt _ _ _ _ Hs2) as Hnx.
  fold node x in Hnode, Hx, Hs2, Hnx.
  assert (node ≠ n) as Hnn by set_solver +Hn Hnode.
  apply NoDup_cons in Hnd as [Hh Hnd]. pose proof Hnd as (Hnd1 & Hdis & Hnd2)%NoDup_app.
  split; [split|].
  - assert (seg m' node (n :: l2) h) as Hs2'.
    { eapply seg_insert; [exact Hnx|..|exact Hn'|exact Hp'|exact Hs2];
        [set_solver +Hn Hnn | set_solver +Hn | set_solver +Hn | done | | set_solver +Hh].
      apply elem_of_cons in Hnode as [->|?]; [set_solver +Hh | by apply Hdis]. }
    clear Hs2 Hnx. subst node. destruct (last l1) as [y|] eqn:E; simpl in *.
    + apply last_Some in E as [l1' ->]. rewrite <- app_assoc in *. simpl in *.
      apply seg_app. split; [|done]. apply seg_app in Hs as [Hs1 _].
      apply NoDup_app in Hnd1 as (_ & Hy & _).
      assert (x ∉ l1' ++ [y]).
      { intros Hx'. apply elem_of_cons in Hx as [E|Hx]; [rewrite E in Hx'; set_solver +Hx' Hh|].
        by apply (Hdis x). }
      eapply seg_ext; [..|exact Hs1]; intros z Hz; rewrite ?Hn', ?Hp'; rewrite !decide_False;
        try done; try (intros ->; set_solver +Hz Hn Hy Hh); by intros ->.
    + by apply last_None in E as ->.
  - apply NoDup_cons. split; [set_solver +Hn Hh | apply NoDup_insert; [set_solver +Hn | done]].
  - intros y Hy. apply links_eq; rewrite ?Hn', ?Hp'; rewrite !decide_False;
      first [done | intros ->; set_solver +Hy Hnode Hx].
Qed.

(** The neighbours between which an insertion happens. *)
Lemma queue_neighbours m h l1 l2 n :
  is_queue m h (l1 ++ l2) -> n ∉ h :: l1 ++ l2 ->
  let node := default h (last l1) in let x := default h (head l2) in
  node ≠ n /\ x ≠ n /\ nxt m node = Some x /\ prv m x = Some node /\
  is_Some (m !! node) /\ is_Some (m !! x).
Proof.
  intros [Hs Hnd] Hn node x. pose proof (seg_at_last _ _ _ _ Hs) as Hs2.
  pose proof (last_elem l1 h) as Hnode. pose proof (head_elem l2 h) as Hx.
  fold node x in Hnode, Hx, Hs2.
  split; [set_solver +Hn Hnode|]. split; [set_solver +Hn Hx|].
  split; [by apply seg_nxt|].
  split; [|split; eapply seg_dom; try exact Hs2; set_solver +Hx].
  subst x. destruct l2 as [|y l2]; simpl; [by apply (seg_prv _ _ [] _ Hs2) | by destruct Hs2 as [[] _]].
Qed.

(** [qappend] after a node of a queue inserts the new node there. *)
Lemma qappend_queue m h l1 l2 n :
  is_queue m h (l1 ++ l2) -> n ∉ h :: l1 ++ l2 -> is_Some (m !! n) ->
  exists m', qappend (default h (last l1)) n m = Done (n, m') /\
    is_queue m' h (l1 ++ n :: l2) /\ same_outside m m' (n :: h :: l1 ++ l2).
Proof.
  intros Hq Hn Hsn. destruct (queue_neighbours _ _ _ _ _ Hq Hn) as (? & ? & ? & ? & ? & ?).
  destruct (qappend_run m (default h (last l1)) n (default h (head l2)))
    as (m' & ? & Hn' & Hp'); try done.
  exists m'. split; [done|]. by apply (queue_insert _ _ _ _ _ _ Hq Hn).
Qed.

(** [qprepend] before a node of a queue does the same on its other side. *)
Lemma qprepend_queue m h l1 l2 n :
  is_queue m h (l1 ++ l2) -> n ∉ h :: l1 ++ l2 -> is_Some (m !! n) ->
  exists m', qprepend (default h (head l2)) n m = Done (n, m') /\
    is_queue m' h (l1 ++ n :: l2) /\ same_outside m m' (n :: h :: l1 ++ l2).
Proof.
  intros Hq Hn Hsn. destruct (queue_neighbours _ _ _ _ _ Hq Hn) as (? & ? & ? & ? & ? & ?).
  destruct (qprepend_run m (default h (head l2)) n (default h (last l1)))
    as (m' & ? & Hn' & Hp'); try done.
  exists m'. split; [done|]. by apply (queue_insert _ _ _ _ _ _ Hq Hn).
Qed.

(** [qdelete] takes a node out of its queue and leaves it a queue of its own. *)
Lemma qdelete_queue m h l1 n l2 :
  is_queue m h (l1 ++ n :: l2) ->
  exists m', qdelete n m = Done (n, m') /\ is_queue m' h (l1 ++ l2) /\ is_queue m' n [] /\
    same_outside m m' (n :: h :: l1 ++ l2).
Proof.
  intros Hq. pose proof Hq as [Hs Hnd]. apply seg_app in Hs as [Hs1 Hs2].
  apply NoDup_cons in Hnd as [Hh Hnd].
  pose proof (seg_prv _ _ _ _ Hs1) as Hp. pose proof (seg_nxt _ _ _ _ Hs2) as Hx.
  pose proof (last_elem l1 h) as Hpin. pose proof (head_elem l2 h) as Hxin.
  set (p := default h (last l1)) in *. set (x := default h (head l2)) in *.
  pose proof Hnd as (Hnd1 & Hdis & [Hn2 Hnd2]%NoDup_cons)%NoDup_app.
  assert (p ≠ n) as Hpn by (intros ->; set_solver +Hpin Hh Hdis).
  assert (x ≠ n) as Hxn by (intros ->; set_solver +Hxin Hh Hn2).
  destruct (qdelete_run m n p x Hp Hx Hpn Hxn) as (m' & Hrun & Hn' & Hp').
  { apply (is_queue_dom _ _ _ _ Hq). set_solver +Hpin. }
  { apply (is_queue_dom _ _ _ _ Hq). set_solver +Hxin. }
  exists m'. split; [done|]. split; [split|split].
  - eapply seg_remove; [exact Hp | exact Hx | exact Hnd | done | done | | | done | done].
    + intros y Hy. by rewrite Hn', decide_False.
    + intros y Hy. by rewrite Hp', decide_False.
  - apply NoDup_cons. split; [set_solver +Hh|].
    rewrite <- Permutation_middle in Hnd. by apply NoDup_cons in Hnd as [].
  - apply is_queue_self. split; by rewrite ?Hn', ?Hp', decide_True.
  - intros y Hy. apply links_eq; rewrite ?Hn', ?Hp'; rewrite !decide_False;
      first [done | intros ->; set_solver +Hy Hpin Hxin].
Qed.

(** On a node that is on no list [qdelete] does nothing. *)
Lemma qdelete_detached m n : is_queue m n [] -> qdelete n m = Done (n, m).
Proof.
  intros [Hx Hp]%is_queue_self. pose proof (nxt_is_Some _ _ _ Hx) as Hd.
  assert (set_p2 n n (set_p1 n n (set_p1 n n (set_p2 n n m))) = m) as E.
  { apply map_eq. intros y. apply links_eq; links; case_decide; subst; links; congruence. }
  rewrite <- E at 2. apply wp_eq. unfold qdelete. by repeat q_step.
Qed.

(** The idiom [qappend(QLAST(q), n)]. *)
Definition qappend_tail (q n : A) : M (gmap A (QUEUE A)) A :=
  t ← QLAST q; qappend t n.

Lemma qappend_tail_queue m h l n :
  is_queue m h l -> n ∉ h :: l -> is_Some (m !! n) ->
  exists m', qappend_tail h n m = Done (n, m') /\
    is_queue m' h (l ++ [n]) /\ same_outside m m' (n :: h :: l).
Proof.
  intros Hq Hn Hsn. rewrite <- (app_nil_r l) in Hq, Hn.
  destruct (qappend_queue _ _ _ _ _ Hq Hn Hsn) as (m' & Hrun & Hq' & Hf).
  rewrite app_nil_r in Hf, Hq. exists m'. split; [|done].
  apply wp_eq. unfold qappend_tail. wp_step. eapply wp_QPREV; [by apply is_queue_last|].
  by eapply wp_of_eq.
Qed.

(** ** Traversal *)

Lemma qwalk_seg m h q l fuel :
  seg m q l h -> q ≠ h -> h ∉ l -> (length l + 1 < fuel)%nat -> qwalk fuel h q m = Done (q :: l, m).
Proof.
  revert q fuel; induction l as [|x l IH]; intros q fuel Hs Hq Hl Hf;
    (destruct fuel as [|fuel]; [simpl in Hf; lia|]); cbn [qwalk];
    rewrite bool_decide_false by done; apply wp_eq; wp_step;
    (eapply wp_QNEXT; [by apply (seg_nxt _ _ _ _ Hs)|]); cbn [default head hd_error]; wp_step.
  - destruct fuel as [|fuel]; [simpl in Hf; lia|]. cbn [qwalk].
    rewrite bool_decide_true by done. by wp_steps.
  - destruct Hs as [_ Hs]. eapply wp_of_eq; [apply IH; [done | set_solver | set_solver | simpl in Hf; lia]|].
    by wp_steps.
Qed.

Lemma is_queue_size m h l : is_queue m h l -> (length l < size m)%nat.
Proof.
  intros Hq. pose proof Hq as [_ Hnd].
  assert (list_to_set (h :: l) ⊆ dom m) as Hsub.
  { intros x Hx%elem_of_list_to_set. apply elem_of_dom. by eapply is_queue_dom. }
  apply subseteq_size in Hsub. rewrite size_list_to_set, size_dom in Hsub by done.
  simpl in Hsub. lia.
Qed.

(** The traversal loop ends and visits the nodes of the queue, in order. *)
Lemma qelements_queue m h l : is_queue m h l -> qelements h m = Done (l, m).
Proof.
  intros Hq. pose proof (is_queue_size _ _ _ Hq). destruct Hq as [Hs [Hh Hnd]%NoDup_cons].
  apply wp_eq. unfold qelements. wp_steps.
  eapply wp_QNEXT; [by apply (seg_nxt _ _ _ _ Hs)|].
  destruct l as [|x l]; simpl default.
  - cbn [qwalk]. by rewrite bool_decide_true.
  - destruct Hs as [_ Hs]. eapply wp_of_eq; [|done].
    apply qwalk_seg; [done | set_solver | set_solver | simpl in *; lia].
Qed.

Lemma QISEMPTY_queue m h l : is_queue m h l -> QISEMPTY h m = Done (bool_decide (l = []), m).
Proof.
  intros Hq. apply wp_eq. unfold QISEMPTY. wp_step.
  eapply wp_QPREV; [by apply is_queue_last|]. wp_step. split; [|done].
  apply bool_decide_ext. destruct Hq as [_ [Hh _]%NoDup_cons].
  destruct l as [|x l] using rev_ind; simpl; [done|].
  rewrite last_snoc. simpl. split; [|intros E; by apply app_nil in E as []].
  intros ->. set_solver.
Qed.

Lemma QFIRST_queue m h x l : is_queue m h (x :: l) -> QFIRST h m = Done (x, m).
Proof. intros Hq. apply wp_eq. by eapply wp_QNEXT; [apply (is_queue_first _ _ _ Hq)|]. Qed.

Lemma QLAST_queue m h l x : is_queue m h (l ++ [x]) -> QLAST h m = Done (x, m).
Proof.
  intros Hq. apply wp_eq. eapply wp_QPREV; [apply (is_queue_last _ _ _ Hq)|]. by rewrite last_snoc.
Qed.

(** A header or node set to link to itself is an empty queue. *)
Lemma QINIT_queue m q :
  is_Some (m !! q) ->
  exists m', QINIT q m = Done (tt, m') /\ is_queue m' q [] /\ same_outside m m' [q].
Proof.
  intros Hq. exists (set_p1 q q (set_p2 q q m)).
  split; [apply wp_eq; unfold QINIT; by repeat q_step|].
  split; [apply is_queue_self; split; by links|].
  intros y Hy. apply links_eq; links; rewrite ?decide_False; set_solver.
Qed.

End Queue.

(** ** Properties *)

Section Properties.
Context {A : Type} `{Countable A}.

(** C28. Adding to a queue: [qappend] behind the last node and [qprepend] before
    the first add the node at the end and at the front of the list that the queue
    represents; the traversal then visits exactly that list and terminates, and
    every queue that shares no node with this one is left as it was. *)
Theorem queue_add (m : gmap A (QUEUE A)) h l n h2 l2 :
  is_queue m h l -> n ∉ h :: l -> is_Some (m !! n) ->
  is_queue m h2 l2 -> (forall x, x ∈ h2 :: l2 -> x ∉ n :: h :: l) ->
  (exists m', qappend_tail h n m = Done (n, m') /\ is_queue m' h (l ++ [n]) /\
    qelements h m' = Done (l ++ [n], m') /\ is_queue m' h2 l2) /\
  (exists m', qprepend (default h (head l)) n m = Done (n, m') /\ is_queue m' h (n :: l) /\
    qelements h m' = Done (n :: l, m') /\ is_queue m' h2 l2).
Proof.
  intros Hq Hn Hs Hq2 Hdis. split.
  - destruct (qappend_tail_queue m h l n) as (m' & E & Hq' & Hf); [done..|].
    exists m'. split_and!; [done | done | by apply qelements_queue | by eapply is_queue_frame].
  - destruct (qprepend_queue m h [] l n) as (m' & E & Hq' & Hf); [done..|].
    exists m'. split_and!; [done | done | by apply qelements_queue | by eapply is_queue_frame].
Qed.

(** C29. Deleting from a queue: [qdelete] takes the node out of the list wherever
    it is, leaves it linked to itself, so that a second [qdelete] changes nothing,
    and leaves every other queue as it was; the traversal of the rest terminates. *)
Theorem queue_delete (m : gmap A (QUEUE A)) h l1 n l2 h2 l3 :
  is_queue m h (l1 ++ n :: l2) ->
  is_queue m h2 l3 -> (forall x, x ∈ h2 :: l3 -> x ∉ n :: h :: l1 ++ l2) ->
  exists m', qdelete n m = Done (n, m') /\ is_queue m' h (l1 ++ l2) /\
    qelements h m' = Done (l1 ++ l2, m') /\ qdelete n m' = Done (n, m') /\ is_queue m' h2 l3.
Proof.
  intros Hq Hq2 Hdis. destruct (qdelete_queue m h l1 n l2 Hq) as (m' & E & Hq' & Hn & Hf).
  exists m'. split_and!; [done | done | by apply qelements_queue | by apply qdelete_detached |
    by eapply is_queue_frame].
Qed.

End Properties.

(** ** Witnesses *)

(** Header 1 with the nodes 3 and 4, header 2 with none, node 5 on its own. *)
Definition wit_links : gmap nat (QUEUE nat) :=
  list_to_map [(1, mkQUEUE 4 3); (3, mkQUEUE 1 4); (4, mkQUEUE 3 1); (2, mkQUEUE 2 2); (5, mkQUEUE 5 5)]%nat.

Lemma wit_queue1 : is_queue wit_links 1%nat [3; 4]%nat.
Proof. split; [by vm_compute|]. apply (bool_decide_unpack _). by vm_compute. Qed.
Lemma wit_queue2 : is_queue wit_links 2%nat [].
Proof. split; [by vm_compute|]. apply (bool_decide_unpack _). by vm_compute. Qed.

Lemma queue_add_witness :
  exists m', qappend_tail 1%nat 5%nat wit_links = Done (5%nat, m') /\ is_queue m' 1%nat [3; 4; 5]%nat.
Proof.
  destruct (queue_add wit_links 1%nat [3; 4]%nat 5%nat 2%nat []) as [(m' & E & Hq & _) _].
  - apply wit_queue1.
  - apply (bool_decide_unpack _). vm_compute. exact I.
  - vm_compute. eauto.
  - apply wit_queue2.
  - intros x. set_solver.
  - exists m'. split; [exact E | exact Hq].
Defined.

Lemma queue_delete_witness :
  exists m', qdelete 3%nat wit_links = Done (3%nat, m') /\ is_queue m' 1%nat [4]%nat.
Proof.
  destruct (queue_delete wit_links 1%nat [] 3%nat [4]%nat 2%nat []) as (m' & E & Hq & _).
  - apply wit_queue1.
  - apply wit_queue2.
  - intros x. set_solver.
  - exists m'. split; [exact E | exact Hq].
Defined.
