(* ===== verification/CString.v ===== *)
(** * Strings of the C library

    What the program uses of [<string.h>]: [strncmp] and [strncpy] on character
    arrays.  An array is the list of its bytes; past its end the functions see
    the terminating NUL.  [cname n a] is the string held in the first [n] bytes
    of [a], and [strncmp n] is the lexicographic comparison of those strings,
    hence a total order whose equality is equality of the strings. *)

From Stdlib Require Import ZArith Lia.
From S2P Require Import Prelude.

Local Open Scope Z_scope.

Fixpoint strncmp (n : nat) (a b : list byte) : comparison :=
  match n with
  | O => Eq
  | S n' =>
      let x := default x00 (head a) in
      let y := default x00 (head b) in
      match Z.compare (b2z x) (b2z y) with
      | Eq => if bool_decide (x = x00) then Eq else strncmp n' (tail a) (tail b)
      | c => c
      end
  end.

(** [strncpy(dst, src, n)]: the [n] bytes written to [dst]. *)
Fixpoint strncpy (n : nat) (src : list byte) : list byte :=
  match n with
  | O => []
  | S n' =>
      let x := default x00 (head src) in
      if bool_decide (x = x00) then replicate n x00 else x :: strncpy n' (tail src)
  end.

(** The string in the first [n] bytes of an array. *)
Fixpoint cname (n : nat) (a : list byte) : list byte :=
  match n, a with
  | S n', x :: a' => if bool_decide (x = x00) then [] else x :: cname n' a'
  | _, _ => []
  end.

Fixpoint bytes_compare (a b : list byte) : comparison :=
  match a, b with
  | [], [] => Eq
  | [], _ :: _ => Lt
  | _ :: _, [] => Gt
  | x :: a', y :: b' =>
      match Z.compare (b2z x) (b2z y) with Eq => bytes_compare a' b' | c => c end
  end.

(** What a comparison function must satisfy to order a search tree. *)
Class TotalCmp {K : Type} (cmp : K -> K -> comparison) : Prop := {
  cmp_eq x y : cmp x y = Eq <-> x = y;
  cmp_sym x y : cmp y x = CompOpp (cmp x y);
  cmp_trans x y z : cmp x y = Lt -> cmp y z = Lt -> cmp x z = Lt;
}.

#[export] Instance bytes_compare_total : TotalCmp bytes_compare.
Proof.
  split.
  - intros x y; revert y; induction x as [|a x IH]; intros [|b y]; simpl; try done.
    destruct (Z.compare_spec (b2z a) (b2z b)) as [E%b2z_inj | E | E]; subst.
    + rewrite IH. split; [by intros -> | by intros [= ->]].
    + split; [done | intros [= -> ->]; lia].
    + split; [done | intros [= -> ->]; lia].
  - intros x y; revert y; induction x as [|a x IH]; intros [|b y]; simpl; try done.
    rewrite Z.compare_antisym. by destruct (Z.compare_spec (b2z a) (b2z b)); simpl.
  - intros x y z; revert y z; induction x as [|a x IH]; intros [|b y] [|c z]; simpl; try done.
    destruct (Z.compare_spec (b2z a) (b2z b)) as [E1 | E1 | E1],
             (Z.compare_spec (b2z b) (b2z c)) as [E2 | E2 | E2]; try done;
      destruct (Z.compare_spec (b2z a) (b2z c)); try lia; try done; eauto.
Qed.

Lemma b2z_00 b : b2z b = 0 <-> b = x00.
Proof. split; [intros E; apply b2z_inj; done | by intros ->]. Qed.

(** The NUL byte is smaller than any other. *)
Lemma compare_00_l b : b <> x00 -> Z.compare (b2z x00) (b2z b) = Lt.
Proof. rewrite <- b2z_00. intros. pose proof (b2z_range b). apply Z.compare_lt_iff. change (b2z x00) with 0. lia. Qed.
Lemma compare_00_r b : b <> x00 -> Z.compare (b2z b) (b2z x00) = Gt.
Proof. rewrite <- b2z_00. intros. pose proof (b2z_range b). apply Z.compare_gt_iff. change (b2z x00) with 0. lia. Qed.

Lemma strncmp_cname n a b : strncmp n a b = bytes_compare (cname n a) (cname n b).
Proof.
  revert a b; induction n as [|n IH]; intros a b; [done|]. cbn [strncmp].
  destruct a as [|x a], b as [|y b]; cbn [default from_option id head hd_error tail cname]; [done|..].
  - destruct (decide (y = x00)) as [->|Hy]; [by rewrite bool_decide_true|].
    by rewrite (bool_decide_false _ Hy), compare_00_l.
  - destruct (decide (x = x00)) as [->|Hx]; [by rewrite bool_decide_true|].
    by rewrite (bool_decide_false _ Hx), compare_00_r.
  - destruct (decide (x = x00)) as [->|Hx], (decide (y = x00)) as [->|Hy]; [by rewrite bool_decide_true|..].
    + by rewrite (bool_decide_false _ Hy), compare_00_l.
    + by rewrite (bool_decide_false _ Hx), compare_00_r.
    + rewrite (bool_decide_false _ Hx), (bool_decide_false _ Hy). simpl. by rewrite IH.
Qed.

Lemma length_strncpy n a : length (strncpy n a) = n.
Proof.
  revert a; induction n as [|n IH]; intros a; [done|]. cbn [strncpy].
  case_bool_decide; [apply length_replicate | simpl; by rewrite IH].
Qed.

(** A copied name is the same name. *)
Lemma cname_strncpy n a : cname n (strncpy n a) = cname n a.
Proof.
  revert a; induction n as [|n IH]; intros a; [done|]. cbn [strncpy].
  case_bool_decide as E; destruct a as [|x a]; simpl in *; try done.
  - by rewrite bool_decide_true.
  - rewrite !bool_decide_false by done. by rewrite IH.
Qed.
