(* ===== verification/SearchTree.v ===== *)
(** * Binary search trees of the C library

    What the program uses of [<search.h>]: [tsearch], [tfind], [tdelete] and
    [twalk].  The standard fixes what these functions do and leaves the shape
    of the tree, and with it the order of a walk, to the implementation; the
    class [SearchTree] states the contract, and everything that is proved of the
    switchboard is proved against it.  [bst_search_tree] shows that the contract
    can be met, by the textbook unbalanced tree, on which the model is executed. *)

From Stdlib Require Import ZArith Lia.
From S2P Require Import Prelude CString.

(** An element is compared with a key that the caller keeps: [cmp x] is the
    result of the comparison function on the key and the element [x].  [twalk]
    lists the elements in the order of the visits marked [preorder] or [leaf],
    one for each element; [troot] is what the root pointer leads to. *)
Class SearchTreeOps (T A : Type) := {
  tempty : T;
  tsearch : (A -> comparison) -> A -> T -> T * A;
  tfind : (A -> comparison) -> T -> option A;
  tdelete : (A -> comparison) -> T -> T;
  twalk : T -> list A;
  troot : T -> option A;
  (** the tree is ordered by the keys [nm] of its elements *)
  tordered : (A -> list byte) -> T -> Prop;
}.

(** The comparison with a key [k] of the element's key. *)
Definition by_key {A} (nm : A -> list byte) (k : list byte) : A -> comparison :=
  fun x => bytes_compare k (nm x).

(** A comparison function that compares the key [k] with the elements' keys. *)
Definition compares {A} (nm : A -> list byte) (k : list byte) (cmp : A -> comparison) : Prop :=
  forall x, cmp x = by_key nm k x.

Class SearchTree (T A : Type) `{SearchTreeOps T A} : Prop := {
  tordered_empty nm : tordered nm tempty;
  twalk_empty : twalk tempty = [];
  tordered_ext nm nm' t :
    (forall x, x ∈ twalk t -> nm x = nm' x) -> tordered nm t -> tordered nm' t;
  tordered_nodup nm t : tordered nm t -> NoDup (nm <$> twalk t);
  tfind_some nm t k cmp x :
    compares nm k cmp -> tordered nm t -> tfind cmp t = Some x <-> x ∈ twalk t /\ nm x = k;
  tsearch_found nm t a cmp x :
    compares nm (nm a) cmp -> tordered nm t -> x ∈ twalk t -> nm x = nm a ->
    tsearch cmp a t = (t, x);
  tsearch_new nm t a cmp :
    compares nm (nm a) cmp -> tordered nm t -> (forall x, x ∈ twalk t -> nm x <> nm a) ->
    exists t', tsearch cmp a t = (t', a) /\ tordered nm t' /\ twalk t' ≡ₚ a :: twalk t;
  tdelete_found nm t x cmp :
    compares nm (nm x) cmp -> tordered nm t -> x ∈ twalk t ->
    tordered nm (tdelete cmp t) /\ twalk t ≡ₚ x :: twalk (tdelete cmp t);
  troot_none t : troot t = None <-> twalk t = [];
  troot_some t x : troot t = Some x -> x ∈ twalk t;
}.

(** ** The unbalanced binary search tree *)

Inductive bst (A : Type) :=
  | Leaf
  | Node (l : bst A) (a : A) (r : bst A).
Arguments Leaf {A}.
Arguments Node {A} _ _ _.

Section Bst.
Context {A : Type}.

Fixpoint bst_walk (t : bst A) : list A :=
  match t with
  | Leaf => []
  | Node l a r => a :: bst_walk l ++ bst_walk r
  end.

Fixpoint bst_find (cmp : A -> comparison) (t : bst A) : option A :=
  match t with
  | Leaf => None
  | Node l x r =>
      match cmp x with Eq => Some x | Lt => bst_find cmp l | Gt => bst_find cmp r end
  end.

Fixpoint bst_search (cmp : A -> comparison) (a : A) (t : bst A) : bst A * A :=
  match t with
  | Leaf => (Node Leaf a Leaf, a)
  | Node l x r =>
      match cmp x with
      | Eq => (t, x)
      | Lt => let '(l', y) := bst_search cmp a l in (Node l' x r, y)
      | Gt => let '(r', y) := bst_search cmp a r in (Node l x r', y)
      end
  end.

(** The smallest element of a nonempty tree and the tree without it. *)
Fixpoint bst_pop (l : bst A) (a : A) (r : bst A) : A * bst A :=
  match l with
  | Leaf => (a, r)
  | Node ll b lr => let '(m, l') := bst_pop ll b lr in (m, Node l' a r)
  end.

Fixpoint bst_delete (cmp : A -> comparison) (t : bst A) : bst A :=
  match t with
  | Leaf => Leaf
  | Node l x r =>
      match cmp x with
      | Lt => Node (bst_delete cmp l) x r
      | Gt => Node l x (bst_delete cmp r)
      | Eq =>
          match l, r with
          | Leaf, _ => r
          | _, Leaf => l
          | _, Node rl b rr => let '(m, r') := bst_pop rl b rr in Node l m r'
          end
      end
  end.

Definition bst_root (t : bst A) : option A :=
  match t with Leaf => None | Node _ a _ => Some a end.

Fixpoint bst_ordered (nm : A -> list byte) (t : bst A) : Prop :=
  match t with
  | Leaf => True
  | Node l a r =>
      (forall x, x ∈ bst_walk l -> bytes_compare (nm x) (nm a) = Lt) /\
      (forall x, x ∈ bst_walk r -> bytes_compare (nm a) (nm x) = Lt) /\
      bst_ordered nm l /\ bst_ordered nm r
  end.

#[export] Instance bst_ops : SearchTreeOps (bst A) A := {
  tempty := Leaf;
  tsearch := bst_search;
  tfind := bst_find;
  tdelete := bst_delete;
  twalk := bst_walk;
  troot := bst_root;
  tordered := bst_ordered;
}.

(** ** Lemmas on the unbalanced tree *)

Lemma bytes_compare_gt a b : bytes_compare a b = Gt <-> bytes_compare b a = Lt.
Proof. rewrite (cmp_sym (cmp:=bytes_compare) a b). by destruct (bytes_compare a b). Qed.

Lemma bytes_compare_lt_ne a b : bytes_compare a b = Lt -> a <> b.
Proof. intros E ->. pose proof (proj2 (cmp_eq (cmp:=bytes_compare) b b) eq_refl). congruence. Qed.

Lemma bytes_compare_refl a : bytes_compare a a = Eq.
Proof. by apply cmp_eq. Qed.

Lemma bst_ordered_ext (nm nm' : A -> list byte) t :
  (forall x, x ∈ bst_walk t -> nm x = nm' x) -> bst_ordered nm t -> bst_ordered nm' t.
Proof.
  induction t as [|l IHl a r IHr]; simpl; [done|]. intros E (Hl & Hr & Ol & Or).
  setoid_rewrite elem_of_cons in E. setoid_rewrite elem_of_app in E.
  repeat split; [intros x Hx; rewrite <- !E by auto; auto.. | |];
    [apply IHl | apply IHr]; auto.
Qed.

Lemma bst_ordered_nodup (nm : A -> list byte) t : bst_ordered nm t -> NoDup (nm <$> bst_walk t).
Proof.
  induction t as [|l IHl a r IHr]; simpl; [constructor|]. intros (Hl & Hr & Ol & Or).
  rewrite fmap_app. apply NoDup_cons. split.
  - rewrite elem_of_app, !list_elem_of_fmap.
    intros [(x & E & Hx) | (x & E & Hx)]; [apply Hl in Hx | apply Hr in Hx];
      apply bytes_compare_lt_ne in Hx; congruence.
  - apply NoDup_app. split; [auto|]. split; [|auto].
    setoid_rewrite list_elem_of_fmap. intros k (x & -> & Hx) (y & E & Hy).
    eapply bytes_compare_lt_ne; [|exact E]. eapply cmp_trans; eauto.
Qed.

Lemma bst_find_some (nm : A -> list byte) t k x :
  bst_ordered nm t -> bst_find (by_key nm k) t = Some x <-> x ∈ bst_walk t /\ nm x = k.
Proof.
  induction t as [|l IHl a r IHr]; simpl.
  - intros _. split; [done | intros [?%elem_of_nil _]; done].
  - intros (Hl & Hr & Ol & Or). rewrite elem_of_cons, elem_of_app. unfold by_key at 1.
    destruct (bytes_compare k (nm a)) eqn:E.
    + apply cmp_eq in E as ->. split; [by intros [= ->]; auto|].
      intros [[-> | [Hx | Hx]] E]; [done|..];
        [apply Hl in Hx | apply Hr in Hx]; apply bytes_compare_lt_ne in Hx; congruence.
    + rewrite IHl by done. split; [tauto|]. intros [[-> | [Hx | Hx]] <-]; [|auto|].
      * by rewrite bytes_compare_refl in E.
      * apply Hr, bytes_compare_gt in Hx. congruence.
    + rewrite IHr by done. split; [tauto|]. intros [[-> | [Hx | Hx]] <-]; [| |auto].
      * by rewrite bytes_compare_refl in E.
      * apply Hl in Hx. congruence.
Qed.

Lemma bst_search_found (nm : A -> list byte) t a x :
  bst_ordered nm t -> x ∈ bst_walk t -> nm x = nm a -> bst_search (by_key nm (nm a)) a t = (t, x).
Proof.
  intros O Hx E. assert (bst_find (by_key nm (nm a)) t = Some x) as F by (by apply bst_find_some).
  clear O Hx E. induction t as [|l IHl b r IHr]; simpl in *; [done|].
  destruct (by_key nm (nm a) b); [congruence | by rewrite IHl | by rewrite IHr].
Qed.

Lemma bst_search_new (nm : A -> list byte) t a :
  bst_ordered nm t -> (forall x, x ∈ bst_walk t -> nm x <> nm a) ->
  exists t', bst_search (by_key nm (nm a)) a t = (t', a) /\
    bst_ordered nm t' /\ bst_walk t' ≡ₚ a :: bst_walk t.
Proof.
  induction t as [|l IHl b r IHr]; simpl.
  - intros _ _. exists (Node Leaf a Leaf). simpl. repeat split; try done; by intros x ?%elem_of_nil.
  - intros (Hl & Hr & Ol & Or) Hne.
    setoid_rewrite elem_of_cons in Hne. setoid_rewrite elem_of_app in Hne.
    unfold by_key at 1. destruct (bytes_compare (nm a) (nm b)) eqn:E.
    + apply cmp_eq in E. exfalso. apply (Hne b); auto.
    + destruct IHl as (l' & -> & O' & P); [done | auto |]. exists (Node l' b r). simpl.
      split; [done|]. split; [|by rewrite P, perm_swap].
      repeat split; try done. intros x Hx. rewrite P in Hx.
      apply elem_of_cons in Hx as [->|Hx]; auto.
    + destruct IHr as (r' & -> & O' & P); [done | auto |]. exists (Node l b r'). simpl.
      split; [done|]. split; [|rewrite P; solve_Permutation].
      repeat split; try done. intros x Hx. rewrite P in Hx.
      apply elem_of_cons in Hx as [->|Hx]; auto. by apply bytes_compare_gt.
Qed.

Lemma bst_pop_spec (nm : A -> list byte) l a r m t' :
  bst_pop l a r = (m, t') -> bst_ordered nm (Node l a r) ->
  bst_ordered nm t' /\ bst_walk (Node l a r) ≡ₚ m :: bst_walk t' /\
  (forall x, x ∈ bst_walk t' -> bytes_compare (nm m) (nm x) = Lt).
Proof.
  revert a r m t'; induction l as [|ll IHl b lr _]; intros a r m t' E O; simpl in E.
  - simplify_eq. destruct O as (_ & Hr & _ & Or). simpl. auto.
  - destruct (bst_pop ll b lr) as [m' l'] eqn:El. simplify_eq.
    destruct O as (Hl & Hr & Ol & Or). destruct (IHl _ _ _ _ El Ol) as (Ol' & P & Hm).
    setoid_rewrite P in Hl. setoid_rewrite elem_of_cons in Hl.
    split; [repeat split; auto|]. split.
    + change (a :: bst_walk (Node ll b lr) ++ bst_walk r ≡ₚ m :: a :: bst_walk l' ++ bst_walk r).
      rewrite P. simpl. apply perm_swap.
    + intros x. simpl. rewrite elem_of_cons, elem_of_app. intros [->|[Hx|Hx]]; auto.
      eapply cmp_trans; [|by apply Hr]. auto.
Qed.

Lemma bst_delete_found (nm : A -> list byte) t x :
  bst_ordered nm t -> x ∈ bst_walk t ->
  bst_ordered nm (bst_delete (by_key nm (nm x)) t) /\
  bst_walk t ≡ₚ x :: bst_walk (bst_delete (by_key nm (nm x)) t).
Proof.
  intros O Hx. assert (bst_find (by_key nm (nm x)) t = Some x) as F by (by apply bst_find_some).
  clear Hx. induction t as [|l IHl b r IHr]; [done|].
  pose proof O as (Hl & Hr & Ol & Or). cbn [bst_find bst_delete] in *.
  destruct (by_key nm (nm x) b) eqn:E.
  - simplify_eq. destruct l as [|ll lb lr]; [simpl; auto|].
    destruct r as [|rl rb rr].
    + split; [done|]. simpl. by rewrite !app_nil_r.
    + destruct (bst_pop rl rb rr) as [m r'] eqn:Ep.
      destruct (bst_pop_spec nm _ _ _ _ _ Ep Or) as (Or' & P & Hm).
      setoid_rewrite P in Hr. setoid_rewrite elem_of_cons in Hr. split.
      * repeat split; try apply Ol; try apply Or'; [|done].
        intros y Hy. eapply cmp_trans; [by apply Hl | auto].
      * change (x :: bst_walk (Node ll lb lr) ++ bst_walk (Node rl rb rr)
                ≡ₚ x :: m :: bst_walk (Node ll lb lr) ++ bst_walk r').
        rewrite P. solve_Permutation.
  - destruct (IHl Ol F) as [O' P]. split; [|simpl; rewrite P; solve_Permutation].
    repeat split; try done. intros y Hy. apply Hl. rewrite P. by apply elem_of_cons; right.
  - destruct (IHr Or F) as [O' P]. split; [|simpl; rewrite P; solve_Permutation].
    repeat split; try done. intros y Hy. apply Hr. rewrite P. by apply elem_of_cons; right.
Qed.

Lemma bst_find_ext (cmp cmp' : A -> comparison) t :
  (forall x, cmp x = cmp' x) -> bst_find cmp t = bst_find cmp' t.
Proof. intros E. induction t as [|l IHl a r IHr]; simpl; [done|]. by rewrite E, IHl, IHr. Qed.

Lemma bst_search_ext (cmp cmp' : A -> comparison) a t :
  (forall x, cmp x = cmp' x) -> bst_search cmp a t = bst_search cmp' a t.
Proof. intros E. induction t as [|l IHl b r IHr]; simpl; [done|]. by rewrite E, IHl, IHr. Qed.

Lemma bst_delete_ext (cmp cmp' : A -> comparison) t :
  (forall x, cmp x = cmp' x) -> bst_delete cmp t = bst_delete cmp' t.
Proof. intros E. induction t as [|l IHl a r IHr]; simpl; [done|]. by rewrite E, IHl, IHr. Qed.

(** The contract is met. *)
#[export] Instance bst_search_tree : SearchTree (bst A) A.
Proof.
  split; simpl.
  - done.
  - done.
  - apply bst_ordered_ext.
  - apply bst_ordered_nodup.
  - intros nm t k cmp x E. rewrite (bst_find_ext _ _ t E). apply bst_find_some.
  - intros nm t a cmp x E. rewrite (bst_search_ext _ _ a t E). apply bst_search_found.
  - intros nm t a cmp E. rewrite (bst_search_ext _ _ a t E). apply bst_search_new.
  - intros nm t x cmp E. rewrite (bst_delete_ext _ _ t E). apply bst_delete_found.
  - intros []; simpl; [done|]. by split.
  - intros [] x; simpl; [done|]. intros [= ->]. by apply elem_of_cons; left.
Qed.

End Bst.
