(* ===== verification/Memory.v ===== *)
(** * Dynamic memory

    What the program uses of [malloc], [realloc] and [free], on a heap of byte
    arrays.  A pointer is a block and an offset in it.  Fresh memory holds an
    arbitrary byte, [realloc] always moves the block (so a stale pointer is
    never accidentally good), blocks are never reused, and an oracle says which
    allocations fail. *)

From Stdlib Require Import ZArith Lia.
From S2P Require Import Prelude.

Local Open Scope Z_scope.

Record ptr := Ptr { pblk : Z; poff : Z }.

#[global] Instance ptr_eq_decision : EqDecision ptr.
Proof. solve_decision. Defined.

Definition NULL : ptr := Ptr 0 0.
Definition ptr_add (p : ptr) (n : Z) : ptr := Ptr (pblk p) (poff p + n).

Record heap := mkHeap {
  blocks : gmap Z (list byte);
  brk : Z;              (* the next block; every block is below it *)
  junk : byte;          (* what fresh memory holds *)
  ooms : list bool;     (* which of the next allocations fail; none after it *)
}.

Definition set_blocks (b : gmap Z (list byte)) (h : heap) : heap :=
  mkHeap b (brk h) (junk h) (ooms h).

(** ** Words in a block *)

(** [wr b o bs]: the block with the bytes [bs] stored at offset [o]. *)
Definition wr (b : list byte) (o : nat) (bs : list byte) : list byte :=
  take o b ++ bs ++ drop (o + length bs) b.
Definition rd (b : list byte) (o n : nat) : list byte := take n (drop o b).

Definition wordlen (dm : data_model) : nat := Z.to_nat (long_bytes dm).
Definition rdw (dm : data_model) (b : list byte) (o : Z) : Z :=
  le_decode (rd b (Z.to_nat o) (wordlen dm)).
Definition wrw (dm : data_model) (b : list byte) (o v : Z) : list byte :=
  wr b (Z.to_nat o) (le_encode (wordlen dm) v).

(** ** Operations *)

(** The bytes of the block a pointer points into. *)
Definition block (p : ptr) : M heap (list byte) :=
  if bool_decide (pblk p = 0) then raise NullDeref
  else h ← gets id; ask UseAfterFree (blocks h !! pblk p).

Definition in_block (p : ptr) (n : Z) (b : list byte) : bool :=
  (0 <=? poff p) && (poff p + n <=? Z.of_nat (length b)).

Definition load (dm : data_model) (p : ptr) : M heap Z :=
  b ← block p;
  if in_block p (long_bytes dm) b then mret (rdw dm b (poff p)) else raise OutOfBounds.

Definition store (dm : data_model) (p : ptr) (v : Z) : M heap unit :=
  b ← block p;
  if in_block p (long_bytes dm) b
  then modify (fun h => set_blocks (<[pblk p := wrw dm b (poff p) v]> (blocks h)) h)
  else raise OutOfBounds.

(** Copying bytes into and out of a block ([read] into a buffer, [write] of it). *)
Definition store_bytes (p : ptr) (bs : list byte) : M heap unit :=
  b ← block p;
  if in_block p (Z.of_nat (length bs)) b
  then modify (fun h => set_blocks (<[pblk p := wr b (Z.to_nat (poff p)) bs]> (blocks h)) h)
  else raise OutOfBounds.
Definition load_bytes (p : ptr) (n : Z) : M heap (list byte) :=
  b ← block p;
  if in_block p n b then mret (rd b (Z.to_nat (poff p)) (Z.to_nat n)) else raise OutOfBounds.

(** Whether this allocation fails. *)
Definition oom : M heap bool := fun h =>
  match ooms h with
  | [] => Done (false, h)
  | f :: fs => Done (f, mkHeap (blocks h) (brk h) (junk h) fs)
  end.

Definition new_block (bs : list byte) : M heap ptr := fun h =>
  Done (Ptr (brk h) 0, mkHeap (<[brk h := bs]> (blocks h)) (brk h + 1) (junk h) (ooms h)).

Definition malloc (n : Z) : M heap ptr :=
  f ← oom;
  if (f : bool) then mret NULL
  else j ← gets junk; new_block (replicate (Z.to_nat n) j).

Definition free (p : ptr) : M heap unit :=
  if bool_decide (p = NULL) then mret tt
  else
    _ ← block p;
    if bool_decide (poff p = 0)
    then modify (fun h => set_blocks (delete (pblk p) (blocks h)) h)
    else raise OutOfBounds.

Definition realloc (p : ptr) (n : Z) : M heap ptr :=
  f ← oom;
  if (f : bool) then mret NULL
  else
    b ← block p;
    j ← gets junk;
    modify (fun h => set_blocks (delete (pblk p) (blocks h)) h) ;;
    new_block (take (Z.to_nat n) (b ++ replicate (Z.to_nat n) j)).

(** Block numbers are positive and below the next one. *)
Definition heap_wf (h : heap) : Prop :=
  0 < brk h /\ forall i, is_Some (blocks h !! i) -> 0 < i < brk h.

(** The next block number is free. *)
Lemma heap_wf_fresh h : heap_wf h -> blocks h !! brk h = None.
Proof.
  intros [_ Hwf]. destruct (blocks h !! brk h) as [b|] eqn:E; [|done].
  pose proof (Hwf (brk h) ltac:(eauto)). lia.
Qed.

(** ** Lemmas on stored words *)

Lemma length_wr b o bs : (o + length bs <= length b)%nat -> length (wr b o bs) = length b.
Proof. intros. unfold wr. rewrite !length_app, length_take, length_drop. lia. Qed.

Lemma lookup_wr b o bs i :
  (o + length bs <= length b)%nat ->
  wr b o bs !! i = if decide (o <= i < o + length bs)%nat then bs !! (i - o)%nat else b !! i.
Proof.
  intros Hb. unfold wr. assert (length (take o b) = o) as Ho by (rewrite length_take; lia).
  destruct (decide (i < o)%nat) as [Hi|Hi].
  - rewrite decide_False by lia. rewrite lookup_app_l by lia. by rewrite lookup_take_lt.
  - rewrite lookup_app_r by lia. rewrite Ho.
    destruct (decide (i < o + length bs)%nat) as [Hi'|Hi'].
    + rewrite decide_True by lia. rewrite lookup_app_l by lia. done.
    + rewrite decide_False by lia. rewrite lookup_app_r by lia.
      rewrite lookup_drop. f_equal. lia.
Qed.

(** Two reads agree when the bytes they read do. *)
Lemma rd_ext b b' o n :
  (forall i, (o <= i < o + n)%nat -> b !! i = b' !! i) -> rd b o n = rd b' o n.
Proof.
  intros E. unfold rd. apply list_eq. intros i.
  destruct (decide (i < n)%nat); [|by rewrite !lookup_take_ge by lia].
  rewrite !lookup_take_lt, !lookup_drop by lia. apply E. lia.
Qed.

Lemma rd_wr_same b o bs :
  (o + length bs <= length b)%nat -> rd (wr b o bs) o (length bs) = bs.
Proof.
  intros. unfold rd. apply list_eq. intros i. destruct (decide (i < length bs)%nat).
  - rewrite lookup_take_lt, lookup_drop, lookup_wr by lia. rewrite decide_True by lia.
    f_equal. lia.
  - rewrite lookup_take_ge, lookup_ge_None_2 by lia. done.
Qed.

Lemma rd_wr_other b o bs o' n :
  (o + length bs <= length b)%nat -> (o + length bs <= o' \/ o' + n <= o)%nat ->
  rd (wr b o bs) o' n = rd b o' n.
Proof. intros. apply rd_ext. intros i Hi. rewrite lookup_wr, decide_False by lia. done. Qed.

Lemma wordlen_Z dm : Z.of_nat (wordlen dm) = long_bytes dm.
Proof. by destruct dm. Qed.

Lemma length_wrw dm b o v :
  0 <= o -> o + long_bytes dm <= Z.of_nat (length b) -> length (wrw dm b o v) = length b.
Proof.
  intros. pose proof (wordlen_Z dm). apply length_wr. rewrite length_le_encode. lia.
Qed.

Lemma rdw_wrw_same dm b o v :
  0 <= o -> o + long_bytes dm <= Z.of_nat (length b) -> rdw dm (wrw dm b o v) o = ulong dm v.
Proof.
  intros. pose proof (wordlen_Z dm). unfold rdw, wrw.
  rewrite <- (length_le_encode (wordlen dm) v) at 2.
  rewrite rd_wr_same by (rewrite length_le_encode; lia).
  rewrite le_decode_encode. by destruct dm.
Qed.

Lemma rdw_wrw_other dm b o o' v :
  0 <= o -> 0 <= o' -> o + long_bytes dm <= Z.of_nat (length b) ->
  o + long_bytes dm <= o' \/ o' + long_bytes dm <= o ->
  rdw dm (wrw dm b o v) o' = rdw dm b o'.
Proof.
  intros. pose proof (wordlen_Z dm). unfold rdw, wrw.
  rewrite rd_wr_other; rewrite ?length_le_encode; [done | lia | lia].
Qed.

Lemma rd_wrw_other dm b o v o' n :
  0 <= o -> o + long_bytes dm <= Z.of_nat (length b) ->
  o + long_bytes dm <= Z.of_nat o' \/ Z.of_nat o' + Z.of_nat n <= o ->
  rd (wrw dm b o v) o' n = rd b o' n.
Proof.
  intros. pose proof (wordlen_Z dm). unfold wrw.
  apply rd_wr_other; rewrite ?length_le_encode; lia.
Qed.

(** ** Rules for the operations *)

Lemma wp_block h p b Q :
  pblk p <> 0 -> blocks h !! pblk p = Some b -> Q b h -> wp (block p) h Q.
Proof. intros Hp Hb HQ. unfold block. rewrite bool_decide_false by done. by wp_steps. Qed.

Lemma wp_load dm h p b Q :
  pblk p <> 0 -> blocks h !! pblk p = Some b -> in_block p (long_bytes dm) b = true ->
  Q (rdw dm b (poff p)) h -> wp (load dm p) h Q.
Proof.
  intros Hp Hb Hi HQ. unfold load. wp_step. eapply wp_block; [done..|]. by rewrite Hi.
Qed.

Lemma wp_store dm h p b v Q :
  pblk p <> 0 -> blocks h !! pblk p = Some b -> in_block p (long_bytes dm) b = true ->
  Q tt (set_blocks (<[pblk p := wrw dm b (poff p) v]> (blocks h)) h) -> wp (store dm p v) h Q.
Proof.
  intros Hp Hb Hi HQ. unfold store. wp_step. eapply wp_block; [done..|]. by rewrite Hi.
Qed.

Lemma wp_store_bytes h p b bs Q :
  pblk p <> 0 -> blocks h !! pblk p = Some b -> in_block p (Z.of_nat (length bs)) b = true ->
  Q tt (set_blocks (<[pblk p := wr b (Z.to_nat (poff p)) bs]> (blocks h)) h) ->
  wp (store_bytes p bs) h Q.
Proof.
  intros Hp Hb Hi HQ. unfold store_bytes. wp_step. eapply wp_block; [done..|]. by rewrite Hi.
Qed.

Lemma wp_load_bytes h p b n Q :
  pblk p <> 0 -> blocks h !! pblk p = Some b -> in_block p n b = true ->
  Q (rd b (Z.to_nat (poff p)) (Z.to_nat n)) h -> wp (load_bytes p n) h Q.
Proof.
  intros Hp Hb Hi HQ. unfold load_bytes. wp_step. eapply wp_block; [done..|]. by rewrite Hi.
Qed.

Lemma in_block_true p n b :
  0 <= poff p -> poff p + n <= Z.of_nat (length b) -> in_block p n b = true.
Proof. intros. unfold in_block. apply andb_true_iff. lia. Qed.

Lemma in_block_le p n b :
  in_block p n b = true -> 0 <= poff p /\ poff p + n <= Z.of_nat (length b).
Proof. unfold in_block. rewrite andb_true_iff. lia. Qed.
