(* ===== verification/TpMemory.v ===== *)
(** * Typed buffers

    [tpalloc.c], [tprealloc.c], [tptypes.c], [tpfree.c] and the layout of
    [struct tpmemory] in [libxatmi.h].  A buffer is a [malloc]ed array of
    [struct tpmemory]: a header, the caller's data, and a trailer that repeats
    the header; the pointer the caller gets is the one past the header.  The
    fields are words of the block, read and written where the code does it.

    [tpbuf] is the shape of a live buffer.  The lemmas give the behaviour of
    each function on every branch; the theorems that the rest relies on are at
    the end of the file. *)

From Stdlib Require Import ZArith Lia.
From S2P Require Import Prelude CString Constants Memory.

Local Open Scope Z_scope.

(** The heap and the global [tperrno]. *)
Record tpmem := mkTpmem { tp_heap : heap; tperrno : Z }.

Definition set_heap (h : heap) (s : tpmem) : tpmem := mkTpmem h (tperrno s).
Definition set_tperrno (e : Z) (s : tpmem) : tpmem := mkTpmem (tp_heap s) e.
Definition in_heap {A} (m : M heap A) : M tpmem A := zoom tp_heap set_heap m.

(** The read-only string [emptystring] of [tpalloc.c]: its address, and the
    contents of a string constant. *)
Definition emptystring : Z := 4096.
Definition rodata (a : Z) : option (list byte) :=
  if bool_decide (a = emptystring) then Some [] else None.

(** [sizeof(struct tpmemory)] and [struct tpmemory { char *type, *subtype; long len, magic; }] *)
Definition sizeof_tpmemory (dm : data_model) : Z := 4 * long_bytes dm.
Definition f_type (dm : data_model) (p : ptr) : ptr := p.
Definition f_subtype (dm : data_model) (p : ptr) : ptr := ptr_add p (long_bytes dm).
Definition f_len (dm : data_model) (p : ptr) : ptr := ptr_add p (2 * long_bytes dm).
Definition f_magic (dm : data_model) (p : ptr) : ptr := ptr_add p (3 * long_bytes dm).

(** [ALLOC_UNITS(s)], computed in [unsigned long] (the type of [sizeof]). *)
Definition ALLOC_UNITS (dm : data_model) (s : Z) : Z :=
  ulong dm (ulong dm (s + sizeof_tpmemory dm - 1) / sizeof_tpmemory dm + 2).

(** [p + n] for a [struct tpmemory *p]. *)
Definition unit_add (dm : data_model) (p : ptr) (n : Z) : ptr :=
  ptr_add p (n * sizeof_tpmemory dm).

Section Ops.
Context (dm : data_model).

(** [IS_MAGIC(p)]: [p && ((long* )p)[-1] == MAGIC] *)
Definition IS_MAGIC (p : ptr) : M tpmem bool :=
  if bool_decide (p = NULL) then mret false
  else m ← in_heap (load dm (ptr_add p (- long_bytes dm))); mret (m =? MAGIC).

Definition tpalloc (type subtype : ptr) (size : Z) : M tpmem ptr :=
  if size <? 0 then modify (set_tperrno TPEINVAL) ;; mret NULL
  else
    p ← in_heap (malloc (ulong dm (ALLOC_UNITS dm size * sizeof_tpmemory dm)));
    if bool_decide (p = NULL) then modify (set_tperrno TPEOS) ;; mret NULL
    else
      let p2 := unit_add dm p (ALLOC_UNITS dm size - 1) in
      in_heap (store dm (f_subtype dm p) emptystring) ;;
      in_heap (store dm (f_subtype dm p2) emptystring) ;;
      in_heap (store dm (f_type dm p) emptystring) ;;
      in_heap (store dm (f_type dm p2) emptystring) ;;
      in_heap (store dm (f_len dm p) size) ;;
      in_heap (store dm (f_len dm p2) size) ;;
      in_heap (store dm (f_magic dm p) MAGIC) ;;
      in_heap (store dm (f_magic dm p2) MAGIC) ;;
      mret (unit_add dm p 1).

(** The check of a header against its trailer, [assert]ed field by field. *)
Definition same_field (f : data_model -> ptr -> ptr) (p p2 : ptr) : M tpmem unit :=
  a ← in_heap (load dm (f dm p)); b ← in_heap (load dm (f dm p2)); assert_ (a =? b).

(** The trailer of the buffer with header [p]: [p + ALLOC_UNITS(p->len) - 1]. *)
Definition trailer (p : ptr) : M tpmem ptr :=
  l ← in_heap (load dm (f_len dm p)); mret (unit_add dm p (ALLOC_UNITS dm (slong dm l) - 1)).

(** What [tptypes], [tprealloc] and [tpfree] all begin with: find the trailer
    and [assert] that its four fields are the header's. *)
Definition check_trailer (p : ptr) : M tpmem ptr :=
  p2 ← trailer p;
  same_field f_len p p2 ;; same_field f_magic p p2 ;;
  same_field f_type p p2 ;; same_field f_subtype p p2 ;;
  mret p2.

(** The string a field points to, copied with [strncpy] if asked for. *)
Definition copy_string (want : bool) (n : nat) (p : ptr) : M tpmem (option (list byte)) :=
  if want then
    a ← in_heap (load dm p); s ← ask OutOfBounds (rodata a); mret (Some (strncpy n s))
  else mret None.

(** [long tptypes(char *ptr, char *type, char *subtype)]: the result, and what
    is written to [type] and [subtype] when they are not null. *)
Definition tptypes (p0 : ptr) (type subtype : bool)
  : M tpmem (Z * option (list byte) * option (list byte)) :=
  ok ← IS_MAGIC p0;
  if (ok : bool) then
    let p := unit_add dm p0 (-1) in
    p2 ← check_trailer p;
    ty ← copy_string type TYPELEN (f_type dm p);
    sub ← copy_string subtype SUBTYPELEN (f_subtype dm p);
    l ← in_heap (load dm (f_len dm p));
    mret (slong dm l, ty, sub)
  else modify (set_tperrno TPEINVAL) ;; mret (-1, None, None).

(** [tptypes(ptr, 0, 0)], the only form the program calls: the length. *)
Definition tplen (p0 : ptr) : M tpmem Z :=
  r ← tptypes p0 false false; mret (fst (fst r)).

Definition tprealloc (p0 : ptr) (size : Z) : M tpmem ptr :=
  ok ← IS_MAGIC p0;
  if negb ok || (size <? 0) then modify (set_tperrno TPEINVAL) ;; mret NULL
  else
    let p := unit_add dm p0 (-1) in
    p2 ← check_trailer p;
    q ← in_heap (realloc p (ulong dm (ALLOC_UNITS dm size * sizeof_tpmemory dm)));
    if bool_decide (q = NULL) then modify (set_tperrno TPEOS) ;; mret NULL
    else
      let q2 := unit_add dm q (ALLOC_UNITS dm size - 1) in
      in_heap (store dm (f_len dm q) size) ;; in_heap (store dm (f_len dm q2) size) ;;
      ty ← in_heap (load dm (f_type dm q)); in_heap (store dm (f_type dm q2) ty) ;;
      sub ← in_heap (load dm (f_subtype dm q)); in_heap (store dm (f_subtype dm q2) sub) ;;
      mg ← in_heap (load dm (f_magic dm q)); in_heap (store dm (f_magic dm q2) mg) ;;
      mret (unit_add dm q 1).

Definition tpfree (p0 : ptr) : M tpmem unit :=
  ok ← IS_MAGIC p0;
  assert_ ok ;;
  let p := unit_add dm p0 (-1) in
  p2 ← check_trailer p;
  in_heap (store dm (f_magic dm p) (2 ^ 32 - 1 - MAGIC)) ;;
  in_heap (store dm (f_magic dm p2) (2 ^ 32 - 1 - MAGIC)) ;;
  in_heap (free p).

(** ** The shape of a live buffer *)

(** The fields of the structure at offset [o] of a block. *)
Definition fields_at (b : list byte) (o ty sub len mg : Z) : Prop :=
  rdw dm b o = ty /\ rdw dm b (o + long_bytes dm) = sub /\
  rdw dm b (o + 2 * long_bytes dm) = len /\ rdw dm b (o + 3 * long_bytes dm) = mg.

(** The number of units of a buffer of [len] bytes, without wrap-around. *)
Definition units (len : Z) : Z := (len + sizeof_tpmemory dm - 1) / sizeof_tpmemory dm + 2.

Definition LONG_MAX : Z := 2 ^ (long_bits dm - 1) - 1.

(** A block that holds a buffer of [len] bytes. *)
Definition tpblock (b : list byte) (len : Z) : Prop :=
  0 <= len <= LONG_MAX /\
  Z.of_nat (length b) = units len * sizeof_tpmemory dm /\
  fields_at b 0 emptystring emptystring len MAGIC /\
  fields_at b ((units len - 1) * sizeof_tpmemory dm) emptystring emptystring len MAGIC.

(** A buffer of the heap: a pointer just past the header of such a block. *)
Definition tpbuf (h : heap) (p : ptr) (len : Z) : Prop :=
  poff p = sizeof_tpmemory dm /\ pblk p <> 0 /\
  exists b, blocks h !! pblk p = Some b /\ tpblock b len.

(** The caller's bytes. *)
Definition tpdata (h : heap) (p : ptr) (len : Z) : list byte :=
  match blocks h !! pblk p with
  | Some b => rd b (Z.to_nat (poff p)) (Z.to_nat len)
  | None => []
  end.

(** ** Geometry of a buffer *)

Lemma buf_geometry len :
  0 <= len <= LONG_MAX ->
  ALLOC_UNITS dm len = units len /\
  ulong dm (units len * sizeof_tpmemory dm) = units len * sizeof_tpmemory dm /\
  len + 2 * sizeof_tpmemory dm <= units len * sizeof_tpmemory dm < len + 3 * sizeof_tpmemory dm.
Proof.
  unfold ALLOC_UNITS, units, LONG_MAX, ulong, uwrap, sizeof_tpmemory, long_bytes.
  intros Hl. destruct dm; cbn [long_bits] in *;
    change (4 * (32 / 8)) with 16 in *; change (4 * (64 / 8)) with 32 in *;
    change (2 ^ 32) with 4294967296 in *; change (2 ^ (32 - 1)) with 2147483648 in *;
    change (2 ^ 64) with 18446744073709551616 in *;
    change (2 ^ (64 - 1)) with 9223372036854775808 in *;
    repeat split; Z.div_mod_to_equations; lia.
Qed.

Lemma slong_id z : 0 <= z <= LONG_MAX -> slong dm z = z.
Proof.
  unfold LONG_MAX, slong. intros. apply swrap_id; destruct dm; simpl in *; lia.
Qed.

Lemma ulong_id z : 0 <= z <= LONG_MAX -> ulong dm z = z.
Proof. unfold LONG_MAX, ulong. intros. apply uwrap_id. destruct dm; simpl in *; lia. Qed.

Lemma long_bytes_pos : 0 < long_bytes dm.
Proof. by destruct dm. Qed.

(** ** Working on one block *)

(** The state with the contents of one block replaced. *)
Definition at_blk (s : tpmem) (k : Z) (b : list byte) : tpmem :=
  set_heap (set_blocks (<[k := b]> (blocks (tp_heap s))) (tp_heap s)) s.

Lemma at_blk_id s k b : blocks (tp_heap s) !! k = Some b -> at_blk s k b = s.
Proof.
  intros E. unfold at_blk, set_heap, set_blocks. rewrite insert_id by done.
  by destruct s as [[] ?].
Qed.

Lemma wp_store_at s k b o v Q :
  k <> 0 -> 0 <= o -> o + long_bytes dm <= Z.of_nat (length b) ->
  Q tt (at_blk s k (wrw dm b o v)) -> wp (in_heap (store dm (Ptr k o) v)) (at_blk s k b) Q.
Proof.
  intros Hk Ho Hb HQ. unfold in_heap. wp_step.
  eapply wp_store; [done | apply lookup_insert_eq | by apply in_block_true |].
  unfold at_blk, set_heap, set_blocks in *. simpl. by rewrite insert_insert_eq.
Qed.

Lemma wp_load_at s k b o Q :
  k <> 0 -> 0 <= o -> o + long_bytes dm <= Z.of_nat (length b) ->
  Q (rdw dm b o) (at_blk s k b) -> wp (in_heap (load dm (Ptr k o))) (at_blk s k b) Q.
Proof.
  intros Hk Ho Hb HQ. unfold in_heap. wp_step.
  eapply wp_load; [done | apply lookup_insert_eq | by apply in_block_true |].
  unfold at_blk, set_heap, set_blocks in *. by destruct s as [[] ?].
Qed.

(** Lengths of, and reads from, a block after the stores of an operation. *)
Ltac blocklen := repeat (rewrite length_wrw by (blocklen; lia)).
Ltac words :=
  repeat first
    [ rewrite rdw_wrw_same by (blocklen; lia)
    | rewrite rdw_wrw_other by (blocklen; lia) ]; blocklen.

Ltac tp_step :=
  first
    [ wp_step
    | eapply wp_store_at; [done | lia | blocklen; lia | ]
    | eapply wp_load_at; [done | lia | blocklen; lia | ] ].

(** The header fields and the trailer of a well-formed block. *)
Lemma wp_IS_MAGIC s k b Q :
  k <> 0 -> 0 < long_bytes dm -> sizeof_tpmemory dm <= Z.of_nat (length b) ->
  Q (rdw dm b (3 * long_bytes dm) =? MAGIC) (at_blk s k b) ->
  wp (IS_MAGIC (Ptr k (sizeof_tpmemory dm))) (at_blk s k b) Q.
Proof.
  intros Hk HW Hl HQ. unfold IS_MAGIC.
  rewrite bool_decide_false by (intros [=]; done). wp_step.
  unfold ptr_add, sizeof_tpmemory in *. simpl.
  replace (4 * long_bytes dm + - long_bytes dm) with (3 * long_bytes dm) by lia.
  tp_step. by wp_steps.
Qed.

Lemma wp_trailer s k b Q :
  k <> 0 -> sizeof_tpmemory dm <= Z.of_nat (length b) ->
  Q (Ptr k ((ALLOC_UNITS dm (slong dm (rdw dm b (2 * long_bytes dm))) - 1) * sizeof_tpmemory dm))
    (at_blk s k b) ->
  wp (trailer (Ptr k 0)) (at_blk s k b) Q.
Proof.
  intros Hk Hl HQ. pose proof long_bytes_pos. unfold sizeof_tpmemory in Hl.
  unfold trailer, f_len, ptr_add. wp_step. simpl. tp_step. by wp_steps.
Qed.

Lemma wp_same_field s k b f o o2 p2 Q :
  k <> 0 -> f dm (Ptr k 0) = Ptr k o -> f dm p2 = Ptr k o2 -> 0 <= o -> 0 <= o2 ->
  o + long_bytes dm <= Z.of_nat (length b) -> o2 + long_bytes dm <= Z.of_nat (length b) ->
  rdw dm b o = rdw dm b o2 -> Q tt (at_blk s k b) ->
  wp (same_field f (Ptr k 0) p2) (at_blk s k b) Q.
Proof.
  intros Hk E E2 ? ? ? ? Er HQ. unfold same_field. rewrite E, E2. repeat tp_step.
  rewrite Er, Z.eqb_refl. by wp_steps.
Qed.

Lemma wp_check_trailer s k b len Q :
  k <> 0 -> tpblock b len ->
  Q (Ptr k ((units len - 1) * sizeof_tpmemory dm)) (at_blk s k b) ->
  wp (check_trailer (Ptr k 0)) (at_blk s k b) Q.
Proof.
  intros Hk (Hl & Hb & (F0 & F1 & F2 & F3) & (T0 & T1 & T2 & T3)) HQ.
  destruct (buf_geometry _ Hl) as (Eu & _ & Hu). pose proof long_bytes_pos.
  rewrite !Z.add_0_l in F1, F2, F3. unfold check_trailer. wp_step.
  apply wp_trailer; [done | lia |].
  rewrite F2, (slong_id _ Hl), Eu. unfold sizeof_tpmemory in *.
  set (T := (units len - 1) * (4 * long_bytes dm)) in *.
  assert (forall f o, f dm (Ptr k 0) = Ptr k o -> f dm (Ptr k T) = Ptr k (T + o) ->
    0 <= o <= 3 * long_bytes dm -> rdw dm b o = rdw dm b (T + o) ->
    forall Q', Q' tt (at_blk s k b) -> wp (same_field f (Ptr k 0) (Ptr k T)) (at_blk s k b) Q') as Hf.
  { intros. eapply wp_same_field; eauto; lia. }
  wp_steps. eapply (Hf f_len (2 * long_bytes dm)); [done | done | lia | congruence |].
  wp_steps. eapply (Hf f_magic (3 * long_bytes dm)); [done | done | lia | congruence |].
  wp_steps. eapply (Hf f_type 0); [done | by rewrite Z.add_0_r | lia | rewrite Z.add_0_r; congruence |].
  wp_steps. eapply (Hf f_subtype (long_bytes dm)); [done | done | lia | congruence |].
  by wp_steps.
Qed.

Lemma tpblock_magic b len : tpblock b len -> rdw dm b (3 * long_bytes dm) = MAGIC.
Proof. by intros (_ & _ & (_ & _ & _ & E) & _). Qed.

Lemma tpblock_size b len : tpblock b len -> 2 * sizeof_tpmemory dm <= Z.of_nat (length b).
Proof. intros (Hl & Hb & _). destruct (buf_geometry _ Hl) as (_ & _ & ?). lia. Qed.

(** A buffer, with the state seen as that of its block. *)
Lemma tpbuf_inv s p len :
  tpbuf (tp_heap s) p len ->
  exists k b, p = Ptr k (sizeof_tpmemory dm) /\ k <> 0 /\
    blocks (tp_heap s) !! k = Some b /\ s = at_blk s k b /\ tpblock b len.
Proof.
  intros (E & Hk & b & Hb & Ht). destruct p as [k o]. simpl in *. subst o. exists k, b.
  repeat split; try done; try apply Ht. by rewrite at_blk_id.
Qed.

Lemma unit_sub k : unit_add dm (Ptr k (sizeof_tpmemory dm)) (-1) = Ptr k 0.
Proof. unfold unit_add, ptr_add. simpl. f_equal. lia. Qed.

(** ** [tptypes] *)

Lemma tplen_buf s p len : tpbuf (tp_heap s) p len -> tplen p s = Done (len, s).
Proof.
  intros (k & b & -> & Hk & Hb & Es & Ht)%tpbuf_inv. pose proof long_bytes_pos.
  pose proof (tpblock_size _ _ Ht). pose proof Ht as (Hl & _ & (_ & _ & F2 & _) & _).
  apply wp_eq. unfold tplen, tptypes. rewrite Es. repeat wp_step.
  apply wp_IS_MAGIC; [done | done | lia |]. rewrite (tpblock_magic _ _ Ht), Z.eqb_refl.
  rewrite unit_sub. simpl. wp_step. eapply wp_check_trailer; [done | done |]. wp_steps.
  unfold copy_string. wp_steps. unfold f_len, ptr_add. simpl. unfold sizeof_tpmemory in *.
  tp_step. wp_steps. simpl fst. rewrite F2. by rewrite slong_id.
Qed.

(** A pointer that does not carry the magic number. *)
Lemma tplen_null s : tplen NULL s = Done (-1, set_tperrno TPEINVAL s).
Proof. done. Qed.

(** ** [tpfree] *)

Definition drop_blk (s : tpmem) (k : Z) : tpmem :=
  set_heap (set_blocks (delete k (blocks (tp_heap s))) (tp_heap s)) s.

Lemma wp_free_at s k b Q :
  k <> 0 -> Q tt (drop_blk s k) -> wp (in_heap (free (Ptr k 0))) (at_blk s k b) Q.
Proof.
  intros Hk HQ. unfold in_heap, free. wp_step. rewrite bool_decide_false by (intros [=]; done).
  wp_step. eapply wp_block; [done | apply lookup_insert_eq |]. cbn [poff].
  rewrite bool_decide_true by done. wp_step. unfold at_blk, drop_blk, set_heap, set_blocks in *.
  simpl. by rewrite delete_insert_eq.
Qed.

Lemma tpfree_buf s p len :
  tpbuf (tp_heap s) p len -> tpfree p s = Done (tt, drop_blk s (pblk p)).
Proof.
  intros (k & b & -> & Hk & Hb & Es & Ht)%tpbuf_inv. pose proof long_bytes_pos.
  pose proof (tpblock_size _ _ Ht). pose proof Ht as (Hl & Hlen & _).
  destruct (buf_geometry _ Hl) as (_ & _ & Hu).
  apply wp_eq. unfold tpfree. rewrite Es at 1. simpl pblk. wp_step.
  apply wp_IS_MAGIC; [done | done | lia |]. rewrite (tpblock_magic _ _ Ht), Z.eqb_refl.
  rewrite unit_sub. wp_steps. eapply wp_check_trailer; [done | done |]. wp_steps.
  unfold f_magic, ptr_add. simpl pblk. simpl poff. unfold sizeof_tpmemory in *.
  repeat tp_step. by apply wp_free_at.
Qed.

(** ** [tpalloc] *)

(** Whether the next allocation fails, and the heap after it was asked. *)
Definition oom_now (h : heap) : bool := default false (head (ooms h)).
Definition after_oom (h : heap) : heap := mkHeap (blocks h) (brk h) (junk h) (tail (ooms h)).

Lemma oom_run h : oom h = Done (oom_now h, after_oom h).
Proof. unfold oom, oom_now, after_oom. by destruct h as [? ? ? [|]]. Qed.

Lemma tpalloc_negative type subtype size s :
  size < 0 -> tpalloc type subtype size s = Done (NULL, set_tperrno TPEINVAL s).
Proof. intros. unfold tpalloc. by rewrite (proj2 (Z.ltb_lt _ _)). Qed.

Lemma tpalloc_oom type subtype size s :
  0 <= size -> oom_now (tp_heap s) = true ->
  tpalloc type subtype size s = Done (NULL, set_tperrno TPEOS (set_heap (after_oom (tp_heap s)) s)).
Proof.
  intros Hs Ho. unfold tpalloc. rewrite (proj2 (Z.ltb_ge _ _)) by done. apply wp_eq.
  wp_step. unfold in_heap, malloc. wp_steps. eapply wp_of_eq; [apply oom_run|]. rewrite Ho.
  by wp_steps.
Qed.

(** The heap after a successful allocation whose block holds [b]. *)
Definition heap_alloc (h : heap) (b : list byte) : heap :=
  mkHeap (<[brk h := b]> (blocks h)) (brk h + 1) (junk h) (tail (ooms h)).

Lemma wp_malloc_at s n Q :
  oom_now (tp_heap s) = false ->
  Q (Ptr (brk (tp_heap s)) 0)
    (set_heap (heap_alloc (tp_heap s) (replicate (Z.to_nat n) (junk (tp_heap s)))) s) ->
  wp (in_heap (malloc n)) s Q.
Proof.
  intros Ho HQ. unfold in_heap, malloc. wp_steps. eapply wp_of_eq; [apply oom_run|].
  rewrite Ho. by wp_steps.
Qed.

Lemma tpalloc_ok type subtype size s :
  heap_wf (tp_heap s) -> oom_now (tp_heap s) = false -> 0 <= size <= LONG_MAX ->
  exists b, tpblock b size /\
    tpalloc type subtype size s =
      Done (Ptr (brk (tp_heap s)) (sizeof_tpmemory dm), set_heap (heap_alloc (tp_heap s) b) s).
Proof.
  intros [Hbrk _] Ho Hs. destruct (buf_geometry _ Hs) as (Eu & Em & Hu).
  pose proof long_bytes_pos. set (k := brk (tp_heap s)) in *.
  set (b0 := replicate (Z.to_nat (units size * sizeof_tpmemory dm)) (junk (tp_heap s))).
  assert (Z.of_nat (length b0) = units size * sizeof_tpmemory dm) as Hb0
    by (unfold b0; rewrite length_replicate; unfold sizeof_tpmemory in *; lia).
  enough (wp (tpalloc type subtype size) s (fun p s' =>
    exists b, tpblock b size /\ p = Ptr k (sizeof_tpmemory dm) /\ s' = at_blk
      (set_heap (heap_alloc (tp_heap s) b0) s) k b)) as (p & s' & E & b & Hb & -> & ->)%wp_run.
  { exists b. split; [done|]. rewrite E. do 2 f_equal. unfold at_blk, set_heap, set_blocks, heap_alloc.
    simpl. fold k. by rewrite insert_insert_eq. }
  unfold tpalloc. rewrite (proj2 (Z.ltb_ge _ _)) by lia. rewrite Eu, Em. wp_step.
  apply wp_malloc_at; [done|]. fold k b0. rewrite bool_decide_false by (intros [=]; lia).
  rewrite <- (at_blk_id (set_heap (heap_alloc (tp_heap s) b0) s) k b0) at 1
    by apply lookup_insert_eq.
  unfold f_type, f_subtype, f_len, f_magic, unit_add, ptr_add. simpl pblk. simpl poff.
  unfold sizeof_tpmemory in *. assert (k <> 0) by lia. repeat tp_step.
  eexists. split; [|split; [f_equal; lia | done]].
  split; [done|]. unfold sizeof_tpmemory in *.
  assert (ulong dm size = size) as El by (by apply ulong_id).
  assert (ulong dm emptystring = emptystring /\ ulong dm MAGIC = MAGIC) as [E1 E2] by by destruct dm.
  split; [words; done|]. unfold fields_at, sizeof_tpmemory.
  split; (split; [|split; [|split]]); words; done.
Qed.

(** ** [tprealloc] *)

Definition heap_realloc (h : heap) (k : Z) (b : list byte) : heap :=
  mkHeap (<[brk h := b]> (delete k (blocks h))) (brk h + 1) (junk h) (tail (ooms h)).

Lemma wp_realloc_at s k b n Q :
  k <> 0 -> blocks (tp_heap s) !! k = Some b -> oom_now (tp_heap s) = false ->
  Q (Ptr (brk (tp_heap s)) 0)
    (set_heap (heap_realloc (tp_heap s) k
      (take (Z.to_nat n) (b ++ replicate (Z.to_nat n) (junk (tp_heap s))))) s) ->
  wp (in_heap (realloc (Ptr k 0) n)) s Q.
Proof.
  intros Hk Hb Ho HQ. unfold in_heap, realloc. wp_steps. eapply wp_of_eq; [apply oom_run|].
  rewrite Ho. wp_steps. eapply wp_block; [done | exact Hb |]. by wp_steps.
Qed.

Lemma rd_take_app b r n o m :
  (o + m <= n)%nat -> (o + m <= length b)%nat -> rd (take n (b ++ r)) o m = rd b o m.
Proof.
  intros. apply rd_ext. intros i Hi. by rewrite lookup_take_lt, lookup_app_l by lia.
Qed.

(** A pointer that is not one of a typed buffer: null, or one before which there is a word,
    but not the magic number. *)
Definition untagged (h : heap) (p : ptr) : Prop :=
  p = NULL \/
  pblk p <> 0 /\ exists b, blocks h !! pblk p = Some b /\ in_block (ptr_add p (- long_bytes dm)) (long_bytes dm) b = true /\
    rdw dm b (poff p - long_bytes dm) <> MAGIC.

Lemma tprealloc_untagged p size s :
  untagged (tp_heap s) p -> tprealloc p size s = Done (NULL, set_tperrno TPEINVAL s).
Proof.
  intros [->|(Hk & b & Hb & Hin & Hm)]; [done|].
  assert (p <> NULL) as Hp by (intros ->; by apply Hk).
  apply wp_eq. unfold tprealloc, IS_MAGIC, in_heap. rewrite bool_decide_false by done. do 3 wp_step.
  eapply wp_load; [done | exact Hb | done |]. wp_steps.
  change (poff (ptr_add p (- long_bytes dm))) with (poff p - long_bytes dm).
  rewrite (proj2 (Z.eqb_neq _ MAGIC)) by done. cbn [negb orb]. wp_steps. by destruct s.
Qed.

Lemma untagged_not_buf h p len : untagged h p -> tpbuf h p len -> False.
Proof.
  intros Hu (Ho & Hk & b & Hb & Ht). destruct Hu as [->|(_ & b' & Hb' & _ & Hm)]; [done|].
  rewrite Hb in Hb'. injection Hb' as <-. apply Hm. rewrite Ho. rewrite <- (tpblock_magic _ _ Ht).
  f_equal. unfold sizeof_tpmemory. lia.
Qed.
Lemma tpbuf_length h p len len' : tpbuf h p len -> tpbuf h p len' -> len' = len.
Proof.
  intros (_ & _ & b & Hb & _ & _ & (_ & _ & E & _) & _) (_ & _ & b' & Hb' & _ & _ & (_ & _ & E' & _) & _). congruence.
Qed.

Lemma tprealloc_negative p size s len :
  tpbuf (tp_heap s) p len -> size < 0 ->
  tprealloc p size s = Done (NULL, set_tperrno TPEINVAL s).
Proof.
  intros (k & b & -> & Hk & Hb & Es & Ht)%tpbuf_inv Hs. pose proof long_bytes_pos.
  pose proof (tpblock_size _ _ Ht). unfold tprealloc. apply wp_eq. wp_step. rewrite Es at 1.
  apply wp_IS_MAGIC; [done | done | lia |]. rewrite (proj2 (Z.ltb_lt _ _)) by done.
  rewrite orb_true_r, <- Es. by wp_steps.
Qed.

Lemma tprealloc_null size s : tprealloc NULL size s = Done (NULL, set_tperrno TPEINVAL s).
Proof. done. Qed.

Lemma tprealloc_oom p size s len :
  tpbuf (tp_heap s) p len -> 0 <= size -> oom_now (tp_heap s) = true ->
  tprealloc p size s = Done (NULL, set_tperrno TPEOS (set_heap (after_oom (tp_heap s)) s)).
Proof.
  intros (k & b & -> & Hk & Hb & Es & Ht)%tpbuf_inv Hs Ho. pose proof long_bytes_pos.
  pose proof (tpblock_size _ _ Ht). unfold tprealloc. apply wp_eq. wp_step. rewrite Es at 1.
  apply wp_IS_MAGIC; [done | done | lia |]. rewrite (tpblock_magic _ _ Ht), Z.eqb_refl.
  rewrite (proj2 (Z.ltb_ge _ _)) by done. rewrite unit_sub. simpl negb. cbn [orb]. wp_step.
  eapply wp_check_trailer; [done | done |]. rewrite <- Es. wp_steps.
  unfold in_heap, realloc. wp_steps. eapply wp_of_eq; [apply oom_run|]. rewrite Ho. by wp_steps.
Qed.

Lemma tprealloc_ok p size s len :
  heap_wf (tp_heap s) -> tpbuf (tp_heap s) p len -> oom_now (tp_heap s) = false ->
  0 <= size <= LONG_MAX ->
  exists b, tpblock b size /\
    rd b (Z.to_nat (sizeof_tpmemory dm)) (Z.to_nat (Z.min len size)) =
      take (Z.to_nat (Z.min len size)) (tpdata (tp_heap s) p len) /\
    tprealloc p size s =
      Done (Ptr (brk (tp_heap s)) (sizeof_tpmemory dm),
            set_heap (heap_realloc (tp_heap s) (pblk p) b) s).
Proof.
  intros [Hbrk Hbelow] (k & b & -> & Hk & Hb & Es & Ht)%tpbuf_inv Ho Hs.
  destruct (buf_geometry _ Hs) as (Eu & Em & Hu). pose proof long_bytes_pos as HW.
  assert (sizeof_tpmemory dm = 4 * long_bytes dm) as Hsz by done.
  pose proof (tpblock_size _ _ Ht). set (q := brk (tp_heap s)) in *. simpl pblk.
  pose proof Ht as (Hl & Hlb & (F0 & F1 & F2 & F3) & _). rewrite !Z.add_0_l in F1, F2, F3.
  destruct (buf_geometry _ Hl) as (_ & _ & Hul).
  set (b0 := take (Z.to_nat (units size * sizeof_tpmemory dm))
    (b ++ replicate (Z.to_nat (units size * sizeof_tpmemory dm)) (junk (tp_heap s)))).
  assert (Z.of_nat (length b0) = units size * sizeof_tpmemory dm) as Hb0.
  { unfold b0. rewrite length_take, length_app, length_replicate. lia. }
  assert (forall o, 0 <= o -> o + long_bytes dm <= 4 * long_bytes dm -> rdw dm b0 o = rdw dm b o) as Hh.
  { intros o ? ?. unfold rdw, b0. f_equal. pose proof (wordlen_Z dm). apply rd_take_app; lia. }
  enough (wp (tprealloc (Ptr k (sizeof_tpmemory dm)) size) s (fun p s' =>
    exists b', tpblock b' size /\ rd b' (Z.to_nat (sizeof_tpmemory dm)) (Z.to_nat (Z.min len size)) =
        rd b0 (Z.to_nat (sizeof_tpmemory dm)) (Z.to_nat (Z.min len size)) /\
      p = Ptr q (sizeof_tpmemory dm) /\
      s' = at_blk (set_heap (heap_realloc (tp_heap s) k b0) s) q b'))
    as (p & s' & E & b' & Hb' & Hd & -> & ->)%wp_run.
  { exists b'. split; [done|]. split.
    - rewrite Hd. unfold tpdata. simpl pblk. rewrite Hb. unfold b0, rd at 2. simpl poff.
      rewrite take_take, Nat.min_l by lia. apply rd_take_app; lia.
    - rewrite E. do 2 f_equal. unfold at_blk, set_heap, set_blocks, heap_realloc.
      simpl. fold q. by rewrite insert_insert_eq. }
  unfold tprealloc. wp_step. rewrite Es at 1.
  apply wp_IS_MAGIC; [done | done | lia |].
  rewrite F3, Z.eqb_refl, (proj2 (Z.ltb_ge _ _)) by lia. cbn [negb orb].
  rewrite unit_sub. wp_step.
  eapply wp_check_trailer; [done | done |]. rewrite <- Es. wp_steps.
  rewrite Eu, Em. eapply wp_realloc_at; [done..|]. fold q b0.
  assert (q <> 0) as Hq by lia. rewrite bool_decide_false by (intros [=]; done).
  rewrite <- (at_blk_id (set_heap (heap_realloc (tp_heap s) k b0) s) q b0) at 1
    by apply lookup_insert_eq.
  unfold f_type, f_subtype, f_len, f_magic, unit_add, ptr_add. simpl pblk. simpl poff.
  repeat tp_step.
  eexists. split; [|split; [|split; [f_equal; lia | done]]].
  - assert (ulong dm size = size) as El by (by apply ulong_id).
    assert (ulong dm emptystring = emptystring /\ ulong dm MAGIC = MAGIC) as [E1 E2] by by destruct dm.
    split; [done|]. unfold fields_at. rewrite !Z.add_0_l.
    split; [words; done|].
    split; (split; [|split; [|split]]); words; rewrite ?Hh, ?F0, ?F1, ?F2, ?F3 by lia; congruence.
  - rewrite !rd_wrw_other; [done|..]; blocklen; lia.
Qed.

(** ** Overruns *)

Lemma rd_app b o n m : rd b o (n + m) = rd b o n ++ rd b (o + n) m.
Proof. unfold rd. rewrite <- drop_drop. by rewrite take_take_drop. Qed.

Lemma rd_word b o :
  0 <= o -> o + long_bytes dm <= Z.of_nat (length b) ->
  rd b (Z.to_nat o) (wordlen dm) = le_encode (wordlen dm) (rdw dm b o).
Proof.
  intros. pose proof (wordlen_Z dm). unfold rdw.
  assert (length (rd b (Z.to_nat o) (wordlen dm)) = wordlen dm) as El
    by (unfold rd; rewrite length_take, length_drop; lia).
  rewrite <- El at 2. by rewrite le_encode_decode.
Qed.

(** The bytes of a structure are determined by its fields. *)
Lemma rd_fields b o ty sub len mg :
  0 <= o -> o + sizeof_tpmemory dm <= Z.of_nat (length b) -> fields_at b o ty sub len mg ->
  rd b (Z.to_nat o) (Z.to_nat (sizeof_tpmemory dm)) =
    le_encode (wordlen dm) ty ++ le_encode (wordlen dm) sub ++
    le_encode (wordlen dm) len ++ le_encode (wordlen dm) mg.
Proof.
  intros Ho Hb (<- & <- & <- & <-). pose proof (wordlen_Z dm) as HZ. unfold sizeof_tpmemory in *.
  pose proof long_bytes_pos.
  replace (Z.to_nat (4 * long_bytes dm))
    with (wordlen dm + (wordlen dm + (wordlen dm + wordlen dm)))%nat by lia.
  rewrite !rd_app. f_equal; [|f_equal; [|f_equal]];
    (rewrite <- rd_word by lia; f_equal; lia).
Qed.

Lemma same_field_run s k b f o o2 p2 :
  k <> 0 -> f dm (Ptr k 0) = Ptr k o -> f dm p2 = Ptr k o2 -> 0 <= o -> 0 <= o2 ->
  o + long_bytes dm <= Z.of_nat (length b) -> o2 + long_bytes dm <= Z.of_nat (length b) ->
  same_field f (Ptr k 0) p2 (at_blk s k b) =
    if rdw dm b o =? rdw dm b o2 then Done (tt, at_blk s k b) else Fault AssertFailed.
Proof.
  intros Hk E E2 ? ? ? ?.
  assert (forall o', 0 <= o' -> o' + long_bytes dm <= Z.of_nat (length b) ->
    in_heap (load dm (Ptr k o')) (at_blk s k b) = Done (rdw dm b o', at_blk s k b)) as Hld.
  { intros. apply wp_eq. by apply wp_load_at. }
  unfold same_field, mbind, M_bind. rewrite E, Hld, E2, Hld by done. unfold assert_.
  by destruct (_ =? _).
Qed.

(** A header whose trailer was overwritten. *)
Lemma check_trailer_overrun s k b len :
  k <> 0 -> 0 <= len <= LONG_MAX ->
  Z.of_nat (length b) = units len * sizeof_tpmemory dm ->
  fields_at b 0 emptystring emptystring len MAGIC ->
  ~ fields_at b ((units len - 1) * sizeof_tpmemory dm) emptystring emptystring len MAGIC ->
  check_trailer (Ptr k 0) (at_blk s k b) = Fault AssertFailed.
Proof.
  intros Hk Hl Hb (F0 & F1 & F2 & F3) Hn. rewrite !Z.add_0_l in F1, F2, F3.
  destruct (buf_geometry _ Hl) as (Eu & _ & Hu). pose proof long_bytes_pos.
  assert (sizeof_tpmemory dm = 4 * long_bytes dm) as Hsz by done.
  unfold check_trailer, mbind, M_bind.
  assert (trailer (Ptr k 0) (at_blk s k b) =
    Done (Ptr k ((units len - 1) * sizeof_tpmemory dm), at_blk s k b)) as ->.
  { apply wp_eq, wp_trailer; [done | lia |]. by rewrite F2, slong_id, Eu. }
  set (T := (units len - 1) * sizeof_tpmemory dm) in *.
  rewrite (same_field_run s k b f_len (2 * long_bytes dm) (T + 2 * long_bytes dm)) by (done || lia).
  destruct (Z.eqb_spec (rdw dm b (2 * long_bytes dm)) (rdw dm b (T + 2 * long_bytes dm))); [|done].
  rewrite (same_field_run s k b f_magic (3 * long_bytes dm) (T + 3 * long_bytes dm)) by (done || lia).
  destruct (Z.eqb_spec (rdw dm b (3 * long_bytes dm)) (rdw dm b (T + 3 * long_bytes dm))); [|done].
  rewrite (same_field_run s k b f_type 0 T) by (done || lia).
  destruct (Z.eqb_spec (rdw dm b 0) (rdw dm b T)); [|done].
  rewrite (same_field_run s k b f_subtype (long_bytes dm) (T + long_bytes dm)) by (done || lia).
  destruct (Z.eqb_spec (rdw dm b (long_bytes dm)) (rdw dm b (T + long_bytes dm))); [|done].
  exfalso. apply Hn. repeat split; congruence.
Qed.

(** ** What the rest of the program relies on *)

(** The buffers of a heap are not touched by operations on other blocks. *)
Definition same_buffers (h h' : heap) (k : Z) : Prop :=
  forall i, i <> k -> is_Some (blocks h !! i) -> blocks h' !! i = blocks h !! i.

Lemma same_buffers_trans h1 h2 h3 k :
  same_buffers h1 h2 k -> same_buffers h2 h3 k -> same_buffers h1 h3 k.
Proof. intros H1 H2 i Hi Hs. rewrite <- (H1 i Hi Hs). apply H2; [done|]. by rewrite H1. Qed.

Lemma tpbuf_frame h h' k p len :
  same_buffers h h' k -> pblk p <> k -> tpbuf h p len ->
  tpbuf h' p len /\ tpdata h' p len = tpdata h p len.
Proof.
  intros Hs Hk (Ho & Hp & b & Hb & Ht). assert (blocks h' !! pblk p = Some b) as Hb'.
  { rewrite Hs; eauto. }
  split; [by split_and!; eauto | unfold tpdata; by rewrite Hb, Hb'].
Qed.

(** ** Access to a buffer's data *)

Lemma tpbuf_block h p blen len :
  tpbuf h p blen -> 0 <= len <= blen ->
  exists b, blocks h !! pblk p = Some b /\ pblk p <> 0 /\ in_block p len b = true /\
    rd b (Z.to_nat (poff p)) (Z.to_nat len) = take (Z.to_nat len) (tpdata h p blen) /\
    Z.of_nat (length (tpdata h p blen)) = blen.
Proof.
  intros (Ho & Hp & b & Hb & Ht) Hl. exists b. destruct Ht as (Hr & Hlen & _).
  destruct (buf_geometry _ Hr) as (_ & _ & Hu). pose proof long_bytes_pos.
  assert (0 < sizeof_tpmemory dm) by (unfold sizeof_tpmemory; lia).
  split_and!; [done | done | apply in_block_true; lia |..]; unfold tpdata; rewrite Hb; unfold rd.
  - rewrite take_take. f_equal. lia.
  - rewrite length_take, length_drop. lia.
Qed.

Lemma length_tpdata h p len : tpbuf h p len -> Z.of_nat (length (tpdata h p len)) = len.
Proof.
  intros Hb. pose proof Hb as (_ & _ & b & _ & (Hr & _)).
  by destruct (tpbuf_block _ _ _ len Hb ltac:(lia)) as (? & _ & _ & _ & _ & E).
Qed.

Lemma load_bytes_buf m p blen len :
  tpbuf (tp_heap m) p blen -> 0 <= len <= blen ->
  in_heap (load_bytes p len) m = Done (take (Z.to_nat len) (tpdata (tp_heap m) p blen), m).
Proof.
  intros Hb Hl. destruct (tpbuf_block _ _ _ _ Hb Hl) as (b & Eb & Hp & Hi & Hr & _).
  apply wp_eq. unfold in_heap. wp_step. eapply wp_load_bytes; [done..|].
  split; [done|]. by destruct m.
Qed.

Lemma load_bytes_whole m p len :
  tpbuf (tp_heap m) p len ->
  in_heap (load_bytes p len) m = Done (tpdata (tp_heap m) p len, m).
Proof.
  intros Hb. pose proof (length_tpdata _ _ _ Hb). rewrite (load_bytes_buf m p len len) by (done || lia).
  by rewrite take_ge by lia.
Qed.

(** Reading [n] bytes at offset [i] of the data. *)
Lemma load_bytes_at m p len i n :
  tpbuf (tp_heap m) p len -> 0 <= i -> 0 <= n -> i + n <= len ->
  in_heap (load_bytes (ptr_add p i) n) m =
    Done (rd (tpdata (tp_heap m) p len) (Z.to_nat i) (Z.to_nat n), m).
Proof.
  intros Hb Hi Hn Hl. destruct (tpbuf_block _ _ _ len Hb ltac:(lia)) as (b & Eb & Hp & Hin & _).
  pose proof (in_block_le _ _ _ Hin) as [H0 H1].
  apply wp_eq. unfold in_heap. wp_step.
  eapply wp_load_bytes; [done | exact Eb | apply in_block_true; simpl; lia |].
  split; [|by destruct m]. unfold tpdata. rewrite Eb. unfold rd. simpl poff.
  rewrite skipn_firstn_comm, take_take, drop_drop. f_equal; [lia|]. f_equal. lia.
Qed.

(** Storing bytes at offset [i] of the data. *)
Lemma store_bytes_at m p len i d :
  tpbuf (tp_heap m) p len -> 0 <= i -> i + Z.of_nat (length d) <= len ->
  exists m', in_heap (store_bytes (ptr_add p i) d) m = Done (tt, m') /\
    tpbuf (tp_heap m') p len /\
    tpdata (tp_heap m') p len = wr (tpdata (tp_heap m) p len) (Z.to_nat i) d /\
    tperrno m' = tperrno m /\ same_buffers (tp_heap m) (tp_heap m') (pblk p) /\
    brk (tp_heap m') = brk (tp_heap m) /\ ooms (tp_heap m') = ooms (tp_heap m) /\
    dom (blocks (tp_heap m')) = dom (blocks (tp_heap m)).
Proof.
  intros Hb Hi Hl. pose proof (tpbuf_block _ _ _ len Hb ltac:(lia)) as (b & Eb & Hp & Hin & _).
  pose proof (in_block_le _ _ _ Hin) as [H0 H1].
  destruct Hb as (Ho & _ & b' & Eb' & Ht). rewrite Eb in Eb'. injection Eb' as <-.
  set (o := Z.to_nat (poff p + i)).
  exists (at_blk m (pblk p) (wr b o d)).
  assert (length (wr b o d) = length b) as El by (apply length_wr; lia).
  split_and!.
  - apply wp_eq. unfold in_heap. wp_step.
    eapply wp_store_bytes; [done | exact Eb | apply in_block_true; simpl; lia |]. done.
  - split; [done|]. split; [done|]. eexists. split; [apply lookup_insert_eq|].
    destruct Ht as (Hr & Hlen & HF & HT). destruct (buf_geometry _ Hr) as (_ & _ & Hu).
    pose proof long_bytes_pos. pose proof (wordlen_Z dm).
    assert (sizeof_tpmemory dm = 4 * long_bytes dm) as Hsz by done.
    split; [done|]. split; [by rewrite El|].
    split; [destruct HF as (F0 & F1 & F2 & F3) | destruct HT as (F0 & F1 & F2 & F3)];
      repeat split; unfold rdw in *; rewrite rd_wr_other by lia; done.
  - unfold tpdata. simpl. rewrite lookup_insert_eq, Eb. apply list_eq. intros j.
    unfold rd. destruct (decide (j < Z.to_nat len)%nat).
    + rewrite lookup_take_lt, lookup_drop, !lookup_wr by (rewrite ?length_take, ?length_drop; lia).
      rewrite lookup_take_lt, lookup_drop by lia. unfold o.
      repeat case_decide; try lia; [|done]. f_equal. lia.
    + rewrite !lookup_ge_None_2; [done|..]; rewrite ?length_wr; rewrite ?length_take, ?length_drop; lia.
  - done.
  - intros k Hk _. simpl. by rewrite lookup_insert_ne.
  - done.
  - done.
  - simpl. apply dom_insert_lookup_L. eauto.
Qed.

(** Filling a whole buffer. *)
Lemma store_bytes_whole m p d :
  tpbuf (tp_heap m) p (Z.of_nat (length d)) ->
  exists m', in_heap (store_bytes p d) m = Done (tt, m') /\
    tpbuf (tp_heap m') p (Z.of_nat (length d)) /\
    tpdata (tp_heap m') p (Z.of_nat (length d)) = d /\ tperrno m' = tperrno m.
Proof.
  intros Hb. destruct (store_bytes_at m p _ 0 d Hb ltac:(lia) ltac:(lia))
    as (m' & E & Hb' & Hd & He & _).
  pose proof (length_tpdata _ _ _ Hb) as Hlen. exists m'. split.
  - by destruct p; unfold ptr_add in E; simpl in E; rewrite Z.add_0_r in E.
  - split; [done|]. split; [|done]. rewrite Hd. unfold wr. simpl.
    rewrite drop_ge by lia. by rewrite app_nil_r.
Qed.

(** A fresh allocation is a buffer, and disturbs none. *)
Lemma heap_alloc_buf s b size :
  heap_wf (tp_heap s) -> tpblock b size ->
  let h' := heap_alloc (tp_heap s) b in
  tpbuf h' (Ptr (brk (tp_heap s)) (sizeof_tpmemory dm)) size /\
  same_buffers (tp_heap s) h' (brk (tp_heap s)) /\ heap_wf h'.
Proof.
  intros [Hbrk Hwf] Hb. simpl. split; [|split].
  - split; [done|]. split; [simpl; lia|]. exists b. simpl. by rewrite lookup_insert_eq.
  - intros i Hi _. simpl. by rewrite lookup_insert_ne.
  - split; simpl; [lia|]. intros i. destruct (decide (i = brk (tp_heap s))) as [->|Hi]; [lia|].
    rewrite lookup_insert_ne by done. intros ?%Hwf. lia.
Qed.

(** Memory is only given back by [tpfree] and [tprealloc]. *)
Lemma heap_realloc_buf s k b size :
  heap_wf (tp_heap s) -> is_Some (blocks (tp_heap s) !! k) -> tpblock b size ->
  let h' := heap_realloc (tp_heap s) k b in
  tpbuf h' (Ptr (brk (tp_heap s)) (sizeof_tpmemory dm)) size /\
  blocks h' !! k = None /\ same_buffers (tp_heap s) h' k /\ heap_wf h'.
Proof.
  intros [Hbrk Hwf] Hk Hb. simpl. pose proof (Hwf _ Hk). split_and!.
  - split; [done|]. split; [simpl; lia|]. exists b. simpl. by rewrite lookup_insert_eq.
  - rewrite lookup_insert_ne by lia. apply lookup_delete_eq.
  - intros i Hi Hs. simpl. pose proof (Hwf _ Hs). rewrite lookup_insert_ne by lia.
    by rewrite lookup_delete_ne.
  - split; simpl; [lia|]. intros i. destruct (decide (i = brk (tp_heap s))) as [->|Hi]; [lia|].
    rewrite lookup_insert_ne by done. intros [? [_ Hl]%lookup_delete_Some].
    assert (0 < i < brk (tp_heap s)) by eauto. lia.
Qed.

(** C24. [tpalloc] on every branch: a negative size is refused with [TPEINVAL],
    exhausted memory gives [TPEOS], and otherwise the result is a new live buffer
    of exactly the requested length, whose [malloc] size did not wrap around, with
    every other block as it was and [tperrno] untouched; nothing faults. *)
Theorem tpalloc_spec type subtype size s :
  heap_wf (tp_heap s) -> size <= LONG_MAX ->
  exists p s', tpalloc type subtype size s = Done (p, s') /\
    if size <? 0 then p = NULL /\ s' = set_tperrno TPEINVAL s
    else if oom_now (tp_heap s) then
      p = NULL /\ tperrno s' = TPEOS /\ blocks (tp_heap s') = blocks (tp_heap s)
    else
      p <> NULL /\ tpbuf (tp_heap s') p size /\ blocks (tp_heap s) !! pblk p = None /\
      same_buffers (tp_heap s) (tp_heap s') (pblk p) /\ heap_wf (tp_heap s') /\
      tperrno s' = tperrno s.
Proof.
  intros Hwf Hs. destruct (Z.ltb_spec size 0) as [Hn|Hn].
  { eexists _, _. by split; [by apply tpalloc_negative|]. }
  destruct (oom_now (tp_heap s)) eqn:Ho.
  { eexists _, _. by split; [by apply tpalloc_oom|]. }
  destruct (tpalloc_ok type subtype size s) as (b & Hb & E); [done | done | lia |].
  eexists _, _. split; [done|]. destruct (heap_alloc_buf s b size) as (? & ? & ?); [done | done |].
  pose proof Hwf as [Hbrk Hbelow]. split_and!; try done.
  - intros [=]. lia.
  - simpl. apply eq_None_not_Some. intros ?%Hbelow. lia.
Qed.

(** C25. [tprealloc] on every branch, for a pointer to a live buffer and for one that is null
    or does not carry the magic number: the latter, and a negative size, are refused with
    [TPEINVAL], and nothing else changes; exhausted memory gives [TPEOS] and leaves the
    buffer as it was; otherwise the result is a buffer of the new length that begins with
    the old bytes, as many as fit, the old pointer is dead, and all other blocks are
    untouched. *)
Theorem tprealloc_spec p size s :
  heap_wf (tp_heap s) -> size <= LONG_MAX -> untagged (tp_heap s) p \/ (exists len, tpbuf (tp_heap s) p len) ->
  exists q s', tprealloc p size s = Done (q, s') /\
    (untagged (tp_heap s) p \/ size < 0 -> q = NULL /\ s' = set_tperrno TPEINVAL s) /\
    forall len, tpbuf (tp_heap s) p len -> 0 <= size ->
      if oom_now (tp_heap s) then
        q = NULL /\ tperrno s' = TPEOS /\ blocks (tp_heap s') = blocks (tp_heap s)
      else
        tpbuf (tp_heap s') q size /\ blocks (tp_heap s') !! pblk p = None /\
        take (Z.to_nat (Z.min len size)) (tpdata (tp_heap s') q size) =
          take (Z.to_nat (Z.min len size)) (tpdata (tp_heap s) p len) /\
        same_buffers (tp_heap s) (tp_heap s') (pblk p) /\ heap_wf (tp_heap s').
Proof.
  intros Hwf Hs [Hu|[len Hp]].
  { eexists _, _. split; [by apply tprealloc_untagged|]. split; [done|].
    intros len Hp. by destruct (untagged_not_buf _ _ _ Hu Hp). }
  assert (~ untagged (tp_heap s) p) as Hn by (intros Hu; by apply (untagged_not_buf _ _ _ Hu Hp)).
  destruct (Z.ltb_spec size 0) as [Hneg|Hpos].
  { eexists _, _. split; [by eapply tprealloc_negative|]. split; [done | lia]. }
  assert (forall len', tpbuf (tp_heap s) p len' -> len' = len) as Hlen by (intros len' H'; by eapply tpbuf_length).
  destruct (oom_now (tp_heap s)) eqn:Ho.
  { eexists _, _. split; [by eapply tprealloc_oom|]. split; [intros [?|?]; [done | lia] | done]. }
  destruct (tprealloc_ok p size s len) as (b & Hb & Hd & E); [done | done | done | lia |].
  eexists _, _. split; [done|]. split; [intros [?|?]; [done | lia]|]. intros len' ->%Hlen _.
  pose proof Hp as (Hoff & _ & b0 & Hb0 & Ht).
  destruct (heap_realloc_buf s (pblk p) b size) as (? & ? & ? & ?); [done | by eauto | done |].
  split_and!; try done. rewrite <- Hd. unfold tpdata. simpl. rewrite lookup_insert_eq.
  unfold rd. rewrite take_take. f_equal. lia.
Qed.

(** C27. Life of a buffer: what [tpalloc] returned, [tptypes] reports the
    requested length for, and [tpfree] gives back, leaving the heap's blocks
    exactly as before the allocation. *)
Theorem tpalloc_tptypes_tpfree type subtype size s p s' :
  heap_wf (tp_heap s) -> 0 <= size <= LONG_MAX ->
  tpalloc type subtype size s = Done (p, s') -> p <> NULL ->
  tplen p s' = Done (size, s') /\
  exists s'', tpfree p s' = Done (tt, s'') /\ blocks (tp_heap s'') = blocks (tp_heap s).
Proof.
  intros Hwf Hs E Hp. destruct (oom_now (tp_heap s)) eqn:Ho.
  { rewrite tpalloc_oom in E by (done || lia). by injection E as <- _. }
  destruct (tpalloc_ok type subtype size s) as (b & Hb & E'); [done..|].
  rewrite E' in E. injection E as <- <-. destruct (heap_alloc_buf s b size) as (Hbuf & _); [done..|].
  split; [by apply tplen_buf|]. eexists. split; [by eapply tpfree_buf|]. simpl.
  rewrite delete_insert_id; [done|]. apply eq_None_not_Some. destruct Hwf as [_ Hbelow].
  intros ?%Hbelow. lia.
Qed.

(** Storing over the end of a buffer's data. *)
Lemma overrun_trailer b len o bs :
  tpblock b len -> length bs = 1%nat ->
  (Z.to_nat ((units len - 1) * sizeof_tpmemory dm) <= o < length b)%nat ->
  rd b o 1 <> bs ->
  ~ fields_at (wr b o bs) ((units len - 1) * sizeof_tpmemory dm) emptystring emptystring len MAGIC.
Proof.
  intros (Hl & Hb & _ & HT) Hbs Ho Hne HF.
  destruct (buf_geometry _ Hl) as (_ & _ & Hu). pose proof long_bytes_pos.
  assert (sizeof_tpmemory dm = 4 * long_bytes dm) as Hsz by done.
  set (t := (units len - 1) * sizeof_tpmemory dm) in *.
  assert (length (wr b o bs) = length b) as Hlen by (apply length_wr; lia).
  apply rd_fields in HT; [|lia|lia]. apply rd_fields in HF; [|lia|lia].
  rewrite <- HT in HF. apply Hne.
  etransitivity; [|apply (rd_wr_same b o bs); lia]. rewrite Hbs. apply rd_ext. intros i Hi.
  pose proof (f_equal (fun l => l !! (i - Z.to_nat t)%nat) HF) as El. cbn beta in El.
  unfold rd in El. rewrite !lookup_take_lt, !lookup_drop in El by lia.
  replace (Z.to_nat t + (i - Z.to_nat t))%nat with i in El by lia. done.
Qed.

(** C26. Overrun detection: when a byte of a buffer's trailer is overwritten with
    a different one, [tptypes], [tprealloc] and [tpfree] all stop the program in
    an assertion; no overwritten buffer is ever returned to the heap. *)
Theorem overrun_detected s p len b o bs size :
  tpbuf (tp_heap s) p len -> blocks (tp_heap s) !! pblk p = Some b -> length bs = 1%nat ->
  (Z.to_nat ((units len - 1) * sizeof_tpmemory dm) <= o < length b)%nat ->
  rd b o 1 <> bs -> 0 <= size ->
  let s' := at_blk s (pblk p) (wr b o bs) in
  tplen p s' = Fault AssertFailed /\ tprealloc p size s' = Fault AssertFailed /\
  tpfree p s' = Fault AssertFailed.
Proof.
  intros (k & b' & -> & Hk & Hb & Es & Ht)%tpbuf_inv Hb' Hbs Ho Hne Hs s'.
  simpl pblk in *. rewrite Hb in Hb'. injection Hb' as <-.
  pose proof (overrun_trailer _ _ _ _ Ht Hbs Ho Hne) as Hn.
  destruct Ht as (Hl & Hlb & HF & _). destruct (buf_geometry _ Hl) as (_ & _ & Hu).
  pose proof long_bytes_pos. assert (sizeof_tpmemory dm = 4 * long_bytes dm) as Hsz by done.
  assert (length (wr b' o bs) = length b') as Hlen by (apply length_wr; lia).
  assert (fields_at (wr b' o bs) 0 emptystring emptystring len MAGIC) as HF'.
  { destruct HF as (F0 & F1 & F2 & F3). repeat split; unfold rdw in *;
      pose proof (wordlen_Z dm); rewrite rd_wr_other by lia; done. }
  assert (check_trailer (Ptr k 0) s' = Fault AssertFailed) as Hc.
  { apply (check_trailer_overrun _ _ _ len); try done. by rewrite Hlen. }
  assert (IS_MAGIC (Ptr k (sizeof_tpmemory dm)) s' = Done (true, s')) as Hm.
  { apply wp_eq, wp_IS_MAGIC; [done | done | lia |]. split; [|done].
    destruct HF' as (_ & _ & _ & E). rewrite Z.add_0_l in E. by rewrite E. }
  unfold tplen, tptypes, tprealloc, tpfree. rewrite unit_sub. unfold mbind, M_bind.
  rewrite Hm. cbn [negb orb]. rewrite (proj2 (Z.ltb_ge _ _)) by done.
  unfold assert_. cbn. by rewrite Hc.
Qed.

End Ops.

(** ** Witnesses *)

Definition wit_mem : tpmem := mkTpmem (mkHeap ∅ 1 x2a []) 0.
Definition wit_mem' : tpmem :=
  match tpalloc LP64 NULL NULL 5 wit_mem with Done (_, s) => s | Fault _ => wit_mem end.

Lemma wit_mem_wf : heap_wf (tp_heap wit_mem).
Proof. split; [simpl; lia|]. intros i [x Hx].
  unfold wit_mem in Hx. cbn [tp_heap blocks] in Hx. by rewrite lookup_empty in Hx.
Qed.

Lemma wit_mem_wf' : heap_wf (tp_heap wit_mem').
Proof.
  split; [vm_compute; done|]. intros i [x Hx].
  destruct (decide (i = 1)) as [->|Hi]; [vm_compute; done|].
  change (blocks (tp_heap wit_mem')) with
    (<[1 := default [] (blocks (tp_heap wit_mem') !! 1)]> (∅ : gmap Z (list byte))) in Hx.
  by rewrite lookup_insert_ne, lookup_empty in Hx.
Qed.

Lemma wit_buf' : tpbuf LP64 (tp_heap wit_mem') (Ptr 1 32) 5.
Proof.
  split; [done|]. split; [done|].
  exists (default [] (blocks (tp_heap wit_mem') !! 1)). split; [by vm_compute|].
  by vm_compute.
Qed.

Lemma tpalloc_spec_witness :
  exists p s', tpalloc LP64 NULL NULL 5 wit_mem = Done (p, s') /\ tpbuf LP64 (tp_heap s') p 5.
Proof.
  destruct (tpalloc_spec LP64 NULL NULL 5 wit_mem) as (p & s' & E & H);
    [apply wit_mem_wf | vm_compute; discriminate |].
  exists p, s'. split; [exact E|]. cbn in H. apply H.
Defined.

Lemma tprealloc_spec_witness :
  exists q s', tprealloc LP64 (Ptr 1 32) 9 wit_mem' = Done (q, s') /\ tpbuf LP64 (tp_heap s') q 9 /\
    take 5 (tpdata (tp_heap s') q 9) = replicate 5 x2a.
Proof.
  destruct (tprealloc_spec LP64 (Ptr 1 32) 9 wit_mem') as (q & s' & E & _ & H);
    [apply wit_mem_wf' | vm_compute; discriminate | right; exists 5; apply wit_buf' |].
  exists q, s'. split; [exact E|]. destruct (H 5) as (H1 & _ & H2 & _); [apply wit_buf' | lia |]. split; [exact H1|].
  etransitivity; [exact H2|]. by vm_compute.
Defined.

Lemma tpalloc_tptypes_tpfree_witness :
  tplen LP64 (Ptr 1 32) wit_mem' = Done (5, wit_mem') /\
  exists s'', tpfree LP64 (Ptr 1 32) wit_mem' = Done (tt, s'') /\
    blocks (tp_heap s'') = blocks (tp_heap wit_mem).
Proof.
  apply (tpalloc_tptypes_tpfree LP64 NULL NULL 5 wit_mem);
    [apply wit_mem_wf | vm_compute; split; discriminate | reflexivity | discriminate].
Defined.

Lemma overrun_detected_witness :
  let b := default [] (blocks (tp_heap wit_mem') !! 1) in
  tpfree LP64 (Ptr 1 32) (at_blk wit_mem' 1 (wr b 64 [x41])) = Fault AssertFailed.
Proof.
  intros b. apply (overrun_detected LP64 wit_mem' (Ptr 1 32) 5 b 64 [x41] 1);
    [apply wit_buf' | reflexivity | reflexivity | vm_compute; lia | vm_compute; discriminate | lia].
Defined.
