(* ===== verification/Keeps.v ===== *)
(** * What the operations on memory keep

    The frame of [malloc] and of the typed buffers: whatever a sequence of them
    does and however it ends, the heap stays well-formed.  The invariant of the
    switchboard and the programs that run for long are built on it. *)

From Stdlib Require Import ZArith Lia.
From S2P Require Import Prelude CString Constants Memory TpMemory.

Local Open Scope Z_scope.

(** ** The heap *)

(** The heap stays well-formed, and memory that is not exhausted stays so. *)
Definition heap_keeps : relation heap := fun h h' =>
  (heap_wf h -> heap_wf h') /\ (ooms h = [] -> ooms h' = []).

#[global] Instance heap_keeps_preorder : PreOrder heap_keeps.
Proof. split; unfold heap_keeps; intros ?; naive_solver. Qed.

Lemma heap_wf_set h b b' i : heap_wf h -> blocks h !! i = Some b -> heap_wf (set_blocks (<[i := b']> (blocks h)) h).
Proof.
  intros [Hb Hi] E. split; [done|]. intros j. cbn. rewrite lookup_insert_is_Some'.
  intros [<-|Hj]; eauto.
Qed.
Lemma heap_wf_delete h i : heap_wf h -> heap_wf (set_blocks (delete i (blocks h)) h).
Proof.
  intros [Hb Hi]. split; [done|]. intros j. cbn. rewrite lookup_delete_is_Some. naive_solver.
Qed.

(** Any operation that starts by looking up its block. *)
Lemma pres_block {A} p (k : list byte -> M heap A) :
  (forall b h, blocks h !! pblk p = Some b ->
    match k b h with Done (_, h') => heap_keeps h h' | Fault _ => True end) ->
  pres heap_keeps (block p ≫= k).
Proof.
  intros Hk h. unfold block, mbind, M_bind. case_bool_decide; [done|]. cbn.
  destruct (blocks h !! pblk p) eqn:E; [|done]. by apply Hk.
Qed.

Lemma pres_load dm p : pres heap_keeps (load dm p).
Proof. apply pres_block. intros b h _. destruct (in_block _ _ _); [by split | done]. Qed.
Lemma pres_store dm p v : pres heap_keeps (store dm p v).
Proof.
  apply pres_block. intros b h E. destruct (in_block _ _ _); [|done].
  split; [|done]. intros Hwf. by eapply heap_wf_set.
Qed.
Lemma pres_load_bytes p n : pres heap_keeps (load_bytes p n).
Proof. apply pres_block. intros b h _. destruct (in_block _ _ _); [by split | done]. Qed.
Lemma pres_store_bytes p bs : pres heap_keeps (store_bytes p bs).
Proof.
  apply pres_block. intros b h E. destruct (in_block _ _ _); [|done].
  split; [|done]. intros Hwf. by eapply heap_wf_set.
Qed.
Lemma pres_oom : pres heap_keeps oom.
Proof. intros h. unfold oom. destruct (ooms h) eqn:E; split; cbn; rewrite ?E; done. Qed.
Lemma pres_new_block bs : pres heap_keeps (new_block bs).
Proof.
  intros h. split; [|done]. intros [Hb Hi]. split; cbn; [lia|]. intros j. rewrite lookup_insert_is_Some'.
  intros [<-|Hj]; [lia|]. specialize (Hi j Hj). lia.
Qed.
Lemma pres_delete_block i : pres heap_keeps (modify (fun h => set_blocks (delete i (blocks h)) h)).
Proof. intros h. split; [|done]. intros Hwf. by apply heap_wf_delete. Qed.

#[export] Hint Resolve pres_load pres_store pres_load_bytes pres_store_bytes pres_oom
  pres_new_block pres_delete_block : pres.

Lemma pres_block0 p : pres heap_keeps (block p).
Proof. unfold block. pres_steps. Qed.
#[export] Hint Resolve pres_block0 : pres.
Lemma pres_malloc n : pres heap_keeps (malloc n).
Proof. unfold malloc. pres_steps. Qed.
Lemma pres_realloc p n : pres heap_keeps (realloc p n).
Proof. unfold realloc. pres_steps. Qed.
Lemma pres_free p : pres heap_keeps (free p).
Proof. unfold free. pres_steps. Qed.
#[export] Hint Resolve pres_malloc pres_realloc pres_free : pres.

(** ** Typed buffers *)

(** The typed buffers only use the heap. *)
Definition mem_keeps : relation tpmem := fun m m' => heap_keeps (tp_heap m) (tp_heap m').

#[global] Instance mem_keeps_preorder : PreOrder mem_keeps.
Proof. split; unfold mem_keeps; intros ?; [reflexivity | intros ? ?; apply transitivity]. Qed.

Lemma pres_in_heap {A} (m : M heap A) : pres heap_keeps m -> pres mem_keeps (in_heap m).
Proof.
  intros Hm s. specialize (Hm (tp_heap s)). unfold in_heap, zoom. by destruct (m _) as [[]|].
Qed.
Lemma pres_tperrno e : pres mem_keeps (modify (set_tperrno e)).
Proof. by intros s; split. Qed.
#[export] Hint Resolve pres_in_heap pres_tperrno : pres.

Section Buffers.
Context (dm : data_model).

Lemma pres_IS_MAGIC p : pres mem_keeps (IS_MAGIC dm p).
Proof. unfold IS_MAGIC. pres_steps. Qed.
Lemma pres_check_trailer p : pres mem_keeps (check_trailer dm p).
Proof. unfold check_trailer, trailer, same_field. pres_steps. Qed.
Hint Resolve pres_IS_MAGIC pres_check_trailer : pres.

Lemma pres_tpalloc t u n : pres mem_keeps (tpalloc dm t u n).
Proof. unfold tpalloc. pres_steps. Qed.
Lemma pres_tprealloc p n : pres mem_keeps (tprealloc dm p n).
Proof. unfold tprealloc. pres_steps. Qed.
Lemma pres_tpfree p : pres mem_keeps (tpfree dm p).
Proof. unfold tpfree. pres_steps. Qed.
Lemma pres_tplen p : pres mem_keeps (tplen dm p).
Proof. unfold tplen, tptypes, copy_string. pres_steps. Qed.

End Buffers.
#[export] Hint Resolve pres_tpalloc pres_tprealloc pres_tpfree pres_tplen : pres.
