(* ===== verification/SbState.v ===== *)
(** * The state of the switchboard

    The structures of [server.h] and the global variables of the switchboard's
    files.  Each struct type has its own heap, a finite map from addresses to
    records; the [QUEUE] fields of all structs are one link memory ([Queue.v]),
    addressed by the struct and the field; message buffers live in the typed
    buffer heap ([TpMemory.v]).  Address 0 is the null pointer, addresses are
    never reused, and an access to a freed struct is a fault. *)

From Stdlib Require Import ZArith Lia.
From S2P Require Import Prelude Constants ByteOrder CString SearchTree Queue Memory TpMemory.

Local Open Scope Z_scope.

(** ** Addresses of [QUEUE] fields *)

(** The list headers and links of the program.  [QNULL] stands for the
    indeterminate links of a struct that was just allocated. *)
Inductive qaddr :=
  | QNULL
  | Q_tpclients                 (* tpclients, client.c *)
  | Q_tptransactions            (* tptransactions, transaction.c *)
  | Q_global (c : Z)            (* tpclient.global *)
  | Q_requests (c : Z)          (* tpclient.requests *)
  | Q_replies (c : Z)           (* tpclient.replies *)
  | Q_waitq (svc : Z)           (* tpservice.waitq *)
  | Q_adv_waitq (a : Z)         (* tpadvertisement.svc_waitq *)
  | Q_t_global (t : Z)          (* tptransaction.global *)
  | Q_t_clientq (t : Z)         (* tptransaction.clientq *)
  | Q_t_svc_waitq (t : Z).      (* tptransaction.svc_waitq *)

#[global] Instance qaddr_eq_decision : EqDecision qaddr.
Proof. solve_decision. Defined.

Definition qaddr_enc (q : qaddr) : nat * Z :=
  match q with
  | QNULL => (0%nat, 0) | Q_tpclients => (1%nat, 0) | Q_tptransactions => (2%nat, 0)
  | Q_global c => (3%nat, c) | Q_requests c => (4%nat, c) | Q_replies c => (5%nat, c)
  | Q_waitq s => (6%nat, s) | Q_adv_waitq a => (7%nat, a)
  | Q_t_global t => (8%nat, t) | Q_t_clientq t => (9%nat, t) | Q_t_svc_waitq t => (10%nat, t)
  end.
Definition qaddr_dec (x : nat * Z) : option qaddr :=
  match x with
  | (0%nat, _) => Some QNULL | (1%nat, _) => Some Q_tpclients | (2%nat, _) => Some Q_tptransactions
  | (3%nat, c) => Some (Q_global c) | (4%nat, c) => Some (Q_requests c)
  | (5%nat, c) => Some (Q_replies c) | (6%nat, s) => Some (Q_waitq s)
  | (7%nat, a) => Some (Q_adv_waitq a) | (8%nat, t) => Some (Q_t_global t)
  | (9%nat, t) => Some (Q_t_clientq t) | (10%nat, t) => Some (Q_t_svc_waitq t)
  | _ => None
  end.

#[global] Instance qaddr_countable : Countable qaddr.
Proof. by apply (inj_countable qaddr_enc qaddr_dec); intros []. Defined.

(** ** Structures *)

(** The functions a client's [handler] can point to. *)
Inductive handler :=
  | H_command | H_svracall | H_svrgetrply | H_svradvertise | H_svrunadvertise
  | H_svrservice | H_svrreturn | H_send_to_worker | H_part2.

#[global] Instance handler_eq_decision : EqDecision handler.
Proof. solve_decision. Defined.

(** [struct tpclient]; [T] is the type of search trees. *)
Record tpclient (T : Type) := mkClient {
  fd : Z;
  used : Z;
  input : ptr;
  handler_fn : option handler;
  adverts : T;
  wait4 : Z;
}.
Arguments mkClient {T} _ _ _ _ _ _.
Arguments fd {T} _.
Arguments used {T} _.
Arguments input {T} _.
Arguments handler_fn {T} _.
Arguments adverts {T} _.
Arguments wait4 {T} _.

(** [struct tpservice] *)
Record tpservice := mkService {
  svcname : list byte;
  wait_contains_transactions : bool;
  s_tmsec : Z;
  s_ttrans : Z;
}.

(** [struct tpadvertisement] *)
Record tpadvertisement := mkAdvert {
  a_svc : Z;
  a_client : Z;
  a_opaque : Z;
  a_ttrans : Z;
  a_tmsec : Z;
}.

(** [struct tptransaction]; [arrival] is a [struct timeval]. *)
Record tptransaction := mkTrans {
  t_client : Z;
  t_svc : Z;
  arrival : Z * Z;
  executor : Z;
  cd : Z;
  t_data : ptr;
  rval : Z;
  rcode : Z;
  t_flags : Z;
}.

(** The number of descriptors generated at a time, [transaction.c]. *)
Definition NUM_FREE_CD : nat := 10.

(** The whole state.  [free_cd], [cdp] are the static variables of
    [new_transaction], [cd_oob] the memory right behind the array; the random
    numbers of the k-th refill and the k-th answer of [gettimeofday] come from
    the environment, as does [cd_fuel], the bound on the iterations of the loop
    that looks for a descriptor.  [out] is the sequence of [write]s, each with
    its descriptor, and [closed] the descriptors closed. *)
Record sb (T : Type) := mkSb {
  mem : tpmem;
  qm : gmap qaddr (QUEUE qaddr);
  clients : gmap Z (tpclient T);
  svcs : gmap Z tpservice;
  advs : gmap Z tpadvertisement;
  trans : gmap Z tptransaction;
  next : Z;
  services : T;
  free_cd : list Z;
  cdp : nat;
  cd_oob : Z;
  rand_batch : nat -> nat -> Z;
  rand_k : nat;
  cd_fuel : nat;
  clock : nat -> Z * Z;
  clock_k : nat;
  earliest : Z;
  out : list (Z * list byte);
  closed : list Z;
}.
Arguments mkSb {T} _ _ _ _ _ _ _ _ _ _ _ _ _ _ _ _ _ _ _.
Arguments mem {T} _.
Arguments qm {T} _.
Arguments clients {T} _.
Arguments svcs {T} _.
Arguments advs {T} _.
Arguments trans {T} _.
Arguments next {T} _.
Arguments services {T} _.
Arguments free_cd {T} _.
Arguments cdp {T} _.
Arguments cd_oob {T} _.
Arguments rand_batch {T} _.
Arguments rand_k {T} _.
Arguments cd_fuel {T} _.
Arguments clock {T} _.
Arguments clock_k {T} _.
Arguments earliest {T} _.
Arguments out {T} _.
Arguments closed {T} _.

(** The static [global_any_transaction] of [svrreturn.c], and the local
    variable of the same name that [del_client] declares. *)
Definition GLOBAL_ANY : Z := -1.
Definition LOCAL_ANY : Z := -2.
Definition zero_transaction : tptransaction := mkTrans 0 0 (0, 0) 0 0 NULL 0 0 0.

Section Fields.
Context {T : Type}.

Definition set_mem (x : tpmem) (s : sb T) : sb T :=
  mkSb x (qm s) (clients s) (svcs s) (advs s) (trans s) (next s) (services s) (free_cd s) (cdp s)
    (cd_oob s) (rand_batch s) (rand_k s) (cd_fuel s) (clock s) (clock_k s) (earliest s) (out s) (closed s).
Definition set_qm (x : gmap qaddr (QUEUE qaddr)) (s : sb T) : sb T :=
  mkSb (mem s) x (clients s) (svcs s) (advs s) (trans s) (next s) (services s) (free_cd s) (cdp s)
    (cd_oob s) (rand_batch s) (rand_k s) (cd_fuel s) (clock s) (clock_k s) (earliest s) (out s) (closed s).
Definition set_clients (x : gmap Z (tpclient T)) (s : sb T) : sb T :=
  mkSb (mem s) (qm s) x (svcs s) (advs s) (trans s) (next s) (services s) (free_cd s) (cdp s)
    (cd_oob s) (rand_batch s) (rand_k s) (cd_fuel s) (clock s) (clock_k s) (earliest s) (out s) (closed s).
Definition set_svcs (x : gmap Z tpservice) (s : sb T) : sb T :=
  mkSb (mem s) (qm s) (clients s) x (advs s) (trans s) (next s) (services s) (free_cd s) (cdp s)
    (cd_oob s) (rand_batch s) (rand_k s) (cd_fuel s) (clock s) (clock_k s) (earliest s) (out s) (closed s).
Definition set_advs (x : gmap Z tpadvertisement) (s : sb T) : sb T :=
  mkSb (mem s) (qm s) (clients s) (svcs s) x (trans s) (next s) (services s) (free_cd s) (cdp s)
    (cd_oob s) (rand_batch s) (rand_k s) (cd_fuel s) (clock s) (clock_k s) (earliest s) (out s) (closed s).
Definition set_trans (x : gmap Z tptransaction) (s : sb T) : sb T :=
  mkSb (mem s) (qm s) (clients s) (svcs s) (advs s) x (next s) (services s) (free_cd s) (cdp s)
    (cd_oob s) (rand_batch s) (rand_k s) (cd_fuel s) (clock s) (clock_k s) (earliest s) (out s) (closed s).
Definition set_next (x : Z) (s : sb T) : sb T :=
  mkSb (mem s) (qm s) (clients s) (svcs s) (advs s) (trans s) x (services s) (free_cd s) (cdp s)
    (cd_oob s) (rand_batch s) (rand_k s) (cd_fuel s) (clock s) (clock_k s) (earliest s) (out s) (closed s).
Definition set_services (x : T) (s : sb T) : sb T :=
  mkSb (mem s) (qm s) (clients s) (svcs s) (advs s) (trans s) (next s) x (free_cd s) (cdp s)
    (cd_oob s) (rand_batch s) (rand_k s) (cd_fuel s) (clock s) (clock_k s) (earliest s) (out s) (closed s).
Definition set_cds (x : list Z) (n : nat) (s : sb T) : sb T :=
  mkSb (mem s) (qm s) (clients s) (svcs s) (advs s) (trans s) (next s) (services s) x n
    (cd_oob s) (rand_batch s) (rand_k s) (cd_fuel s) (clock s) (clock_k s) (earliest s) (out s) (closed s).
Definition set_cd_oob (x : Z) (s : sb T) : sb T :=
  mkSb (mem s) (qm s) (clients s) (svcs s) (advs s) (trans s) (next s) (services s) (free_cd s) (cdp s)
    x (rand_batch s) (rand_k s) (cd_fuel s) (clock s) (clock_k s) (earliest s) (out s) (closed s).
Definition set_rand_k (x : nat) (s : sb T) : sb T :=
  mkSb (mem s) (qm s) (clients s) (svcs s) (advs s) (trans s) (next s) (services s) (free_cd s) (cdp s)
    (cd_oob s) (rand_batch s) x (cd_fuel s) (clock s) (clock_k s) (earliest s) (out s) (closed s).
Definition set_clock_k (x : nat) (s : sb T) : sb T :=
  mkSb (mem s) (qm s) (clients s) (svcs s) (advs s) (trans s) (next s) (services s) (free_cd s) (cdp s)
    (cd_oob s) (rand_batch s) (rand_k s) (cd_fuel s) (clock s) x (earliest s) (out s) (closed s).
Definition set_earliest (x : Z) (s : sb T) : sb T :=
  mkSb (mem s) (qm s) (clients s) (svcs s) (advs s) (trans s) (next s) (services s) (free_cd s) (cdp s)
    (cd_oob s) (rand_batch s) (rand_k s) (cd_fuel s) (clock s) (clock_k s) x (out s) (closed s).
Definition set_out (x : list (Z * list byte)) (s : sb T) : sb T :=
  mkSb (mem s) (qm s) (clients s) (svcs s) (advs s) (trans s) (next s) (services s) (free_cd s) (cdp s)
    (cd_oob s) (rand_batch s) (rand_k s) (cd_fuel s) (clock s) (clock_k s) (earliest s) x (closed s).
Definition set_closed (x : list Z) (s : sb T) : sb T :=
  mkSb (mem s) (qm s) (clients s) (svcs s) (advs s) (trans s) (next s) (services s) (free_cd s) (cdp s)
    (cd_oob s) (rand_batch s) (rand_k s) (cd_fuel s) (clock s) (clock_k s) (earliest s) (out s) x.

(** Computations on the typed buffers and on the links. *)
Definition in_mem {A} (m : M tpmem A) : M (sb T) A := zoom mem set_mem m.
Definition in_q {A} (m : M (gmap qaddr (QUEUE qaddr)) A) : M (sb T) A := zoom qm set_qm m.

(** ** Access to structs *)

Definition deref {A} (get : sb T -> gmap Z A) (p : Z) : M (sb T) A :=
  if p =? 0 then raise NullDeref else s ← gets get; ask UseAfterFree (s !! p).

Definition get_client (c : Z) : M (sb T) (tpclient T) := deref clients c.
Definition get_svc (p : Z) : M (sb T) tpservice := deref svcs p.
Definition get_adv (a : Z) : M (sb T) tpadvertisement := deref advs a.
Definition get_trans (t : Z) : M (sb T) tptransaction := deref trans t.

Definition put_client (c : Z) (f : tpclient T -> tpclient T) : M (sb T) unit :=
  x ← get_client c; modify (fun s => set_clients (<[c := f x]> (clients s)) s).
Definition put_svc (p : Z) (f : tpservice -> tpservice) : M (sb T) unit :=
  x ← get_svc p; modify (fun s => set_svcs (<[p := f x]> (svcs s)) s).
Definition put_trans (t : Z) (f : tptransaction -> tptransaction) : M (sb T) unit :=
  x ← get_trans t; modify (fun s => set_trans (<[t := f x]> (trans s)) s).

(** [malloc(sizeof(struct ...))]: a new address, or 0 when memory is exhausted. *)
Definition alloc_struct : M (sb T) Z :=
  f ← in_mem (in_heap oom);
  if (f : bool) then mret 0
  else n ← gets next; modify (set_next (n + 1)) ;; mret n.

(** The [QUEUE] fields of a struct come and go with it. *)
Definition q_alloc (q : qaddr) : M (gmap qaddr (QUEUE qaddr)) unit :=
  modify (<[q := mkQUEUE QNULL QNULL]>).
Definition q_free (q : qaddr) : M (gmap qaddr (QUEUE qaddr)) unit :=
  modify (delete q).

(** [OFFSET(q, struct ..., field)] for the four fields it is used with. *)
Definition offset_global (q : qaddr) : M (sb T) Z :=
  match q with Q_global c => mret c | _ => raise WrongStruct end.
Definition offset_adv_waitq (q : qaddr) : M (sb T) Z :=
  match q with Q_adv_waitq a => mret a | _ => raise WrongStruct end.
Definition offset_t_global (q : qaddr) : M (sb T) Z :=
  match q with Q_t_global t => mret t | _ => raise WrongStruct end.
Definition offset_t_clientq (q : qaddr) : M (sb T) Z :=
  match q with Q_t_clientq t => mret t | _ => raise WrongStruct end.
Definition offset_t_svc_waitq (q : qaddr) : M (sb T) Z :=
  match q with Q_t_svc_waitq t => mret t | _ => raise WrongStruct end.

(** [while (cond) body] *)
Fixpoint while_ (fuel : nat) (cond : M (sb T) bool) (body : M (sb T) unit) : M (sb T) unit :=
  match fuel with
  | O => raise OutOfFuel
  | S fuel' => b ← cond; if (b : bool) then body ;; while_ fuel' cond body else mret tt
  end.

(** A loop that empties a queue runs at most once per link in memory. *)
Definition queue_fuel : M (sb T) nat := s ← gets qm; mret (S (size s)).

End Fields.
