(* ===== verification/SbObjects.v ===== *)
(** * The switchboard's objects

    [svrio.c] (message output, and waiting for input), [service.c], [advert.c],
    [transaction.c], [client.c], [snd_reply] of [svrgetrply.c], and
    [svr_next_command] of [tpserver.c], which they call.  Each function is a
    computation on the switchboard's state; a call of a handler that is passed
    as a function pointer goes through the parameter [call] of [svriowait]. *)

From Stdlib Require Import ZArith Lia.
From S2P Require Import Prelude Constants ByteOrder CString SearchTree Queue Memory TpMemory SbState.

Local Open Scope Z_scope.

Section Objects.
Context {T : Type} `{SearchTreeOps T Z} (dm : data_model).

(** ** Output: [svrio.c] *)

Definition svrwrite (c : Z) (val : list byte) : M (sb T) unit :=
  assert_ (negb (c =? 0)) ;;
  x ← get_client c;
  modify (fun s => set_out (out s ++ [(fd x, val)]) s).

Definition svrwriteb (c : Z) (val : Z) : M (sb T) unit :=
  svrwrite c [z2b val].

Definition svrwrites (c : Z) (val : Z) : M (sb T) unit :=
  let val := uwrap 16 val in
  svrwriteb c (Z.land val 0xFF) ;;
  svrwriteb c (Z.land (Z.shiftr val 8) 0xFF).

Definition svrwritel (c : Z) (val : Z) : M (sb T) unit :=
  let val := ulong dm val in
  svrwrites c (Z.land val 0xFFFF) ;;
  svrwrites c (Z.land (Z.shiftr val 16) 0xFFFF).

(** ** Waiting for input: [svrio.c], [tpserver.c] *)

Definition set_io (u : Z) (i : ptr) (h : option handler) (x : tpclient T) : tpclient T :=
  mkClient (fd x) u i h (adverts x) (wait4 x).
Definition set_wait4 (w : Z) (x : tpclient T) : tpclient T :=
  mkClient (fd x) (used x) (input x) (handler_fn x) (adverts x) w.
Definition set_adverts (t : T) (x : tpclient T) : tpclient T :=
  mkClient (fd x) (used x) (input x) (handler_fn x) t (wait4 x).

Definition svriowait (call : handler -> Z -> ptr -> M (sb T) unit)
    (c : Z) (data : ptr) (func : handler) : M (sb T) unit :=
  assert_ (negb (c =? 0) && negb (bool_decide (data = NULL))) ;;
  x ← get_client c;
  assert_ (bool_decide (handler_fn x = None) && bool_decide (input x = NULL) && (used x =? 0)) ;;
  len ← in_mem (tplen dm data);
  if negb (len =? 0) then put_client c (set_io 0 data (Some func))
  else call func c data.

(** The buffer has one byte, so [command] is not called from here. *)
Definition svr_next_command (c : Z) : M (sb T) unit :=
  b ← in_mem (tpalloc dm NULL NULL 1);
  svriowait (fun _ _ _ => raise OutOfFuel) c b H_command.

(** ** Services: [service.c] *)

Definition svc_name (s : sb T) (p : Z) : list byte := default [] (svcname <$> svcs s !! p).

Definition cmp_service (s : sb T) (s1 : list byte) (s2 : Z) : comparison :=
  strncmp XATMI_SERVICE_NAME_LENGTH s1 (svc_name s s2).

(** The comparisons of a tree operation read structs that the tree points to;
    they must be live. *)
Definition services_live : M (sb T) unit :=
  s ← gets id;
  if forallb (fun p => bool_decide (is_Some (svcs s !! p))) (twalk (services s))
  then mret tt else raise UseAfterFree.

Definition fnd_service (name : list byte) : M (sb T) Z :=
  services_live ;;
  s ← gets id;
  mret (default 0 (tfind (cmp_service s name) (services s))).

(** [tsearch] allocates a node unless it finds the key; it returns null when
    it cannot. *)
Definition tsearch_node (cmp : Z -> comparison) (a : Z) (t : T) : M (sb T) (option (T * Z)) :=
  match tfind cmp t with
  | Some _ => mret (Some (tsearch cmp a t))
  | None => f ← in_mem (in_heap oom); mret (if (f : bool) then None else Some (tsearch cmp a t))
  end.

Definition free_service (svc : Z) : M (sb T) unit :=
  _ ← get_svc svc;
  modify (fun s => set_svcs (delete svc (svcs s)) s) ;; in_q (q_free (Q_waitq svc)).

Definition new_service (name : list byte) : M (sb T) Z :=
  svc ← alloc_struct;
  if svc =? 0 then mret 0
  else
    modify (fun s => set_svcs
      (<[svc := mkService (strncpy XATMI_SERVICE_NAME_LENGTH name) false 0 0]> (svcs s)) s) ;;
    in_q (q_alloc (Q_waitq svc)) ;; in_q (QINIT (Q_waitq svc)) ;;
    services_live ;;
    s ← gets id;
    r ← tsearch_node (cmp_service s (svc_name s svc)) svc (services s);
    match r with
    | Some (t', svc2) =>
        modify (set_services t') ;;
        if svc2 =? svc then mret svc else free_service svc ;; mret svc2
    | None => free_service svc ;; mret 0
    end.

(** ** Transactions: [transaction.c] *)

(** One iteration's outcome of the search for a descriptor: [*cdp]. *)
Definition read_cdp : M (sb T) Z :=
  s ← gets id;
  if bool_decide (cdp s = NUM_FREE_CD) then mret (cd_oob s)
  else ask OutOfBounds (free_cd s !! cdp s).

(** The descriptors of the current transactions, in the order of the list. *)
Fixpoint trans_cds (l : list qaddr) : M (sb T) (list Z) :=
  match l with
  | [] => mret []
  | q :: l' => t ← offset_t_global q; x ← get_trans t; r ← trans_cds l'; mret (cd x :: r)
  end.

(** Clear the entries of the array that equal [c]. *)
Definition prune (c : Z) (l : list Z) : list Z := (fun x => if x =? c then 0 else x) <$> l.

(** New random numbers, without those in use. *)
Definition refill : M (sb T) unit :=
  s ← gets id;
  let fresh := (fun i => swrap 16 (rand_batch s (rand_k s) i)) <$> seq 0 NUM_FREE_CD in
  modify (set_rand_k (S (rand_k s))) ;;
  l ← in_q (qelements Q_tptransactions);
  cds ← trans_cds l;
  modify (set_cds (foldl (fun a c => prune c a) fresh cds) 0).

(** [while ( *cdp == 0) { if (cdp - free_cd < NUM_FREE_CD) cdp++; else ... }] *)
Fixpoint next_cd (fuel : nat) : M (sb T) unit :=
  match fuel with
  | O => raise OutOfFuel
  | S fuel' =>
      v ← read_cdp;
      if negb (v =? 0) then mret tt
      else
        s ← gets id;
        (if bool_decide (cdp s < NUM_FREE_CD)%nat
         then modify (set_cds (free_cd s) (S (cdp s))) else refill) ;;
        next_cd fuel'
  end.

(** [t->cd = *cdp; *cdp++ = 0] *)
Definition take_cd : M (sb T) Z :=
  v ← read_cdp;
  s ← gets id;
  (if bool_decide (cdp s = NUM_FREE_CD) then modify (set_cd_oob 0) else mret tt) ;;
  modify (set_cds (<[cdp s := 0]> (free_cd s)) (S (cdp s))) ;;
  mret v.

Definition gettimeofday : M (sb T) (Z * Z) :=
  s ← gets id; modify (set_clock_k (S (clock_k s))) ;; mret (clock s (clock_k s)).

Definition set_cd (v : Z) (x : tptransaction) : tptransaction :=
  mkTrans (t_client x) (t_svc x) (arrival x) (executor x) v (t_data x) (rval x) (rcode x) (t_flags x).
Definition set_executor (a : Z) (x : tptransaction) : tptransaction :=
  mkTrans (t_client x) (t_svc x) (arrival x) a (cd x) (t_data x) (rval x) (rcode x) (t_flags x).
Definition set_result (rv rc : Z) (x : tptransaction) : tptransaction :=
  mkTrans (t_client x) (t_svc x) (arrival x) (executor x) (cd x) (t_data x) rv rc (t_flags x).
Definition set_data (d : ptr) (x : tptransaction) : tptransaction :=
  mkTrans (t_client x) (t_svc x) (arrival x) (executor x) (cd x) d (rval x) (rcode x) (t_flags x).

Definition free_trans (t : Z) : M (sb T) unit :=
  _ ← get_trans t;
  modify (fun s => set_trans (delete t (trans s)) s) ;;
  in_q (q_free (Q_t_global t)) ;; in_q (q_free (Q_t_clientq t)) ;; in_q (q_free (Q_t_svc_waitq t)).

Definition new_transaction (c flags svc len : Z) : M (sb T) Z :=
  assert_ (negb (c =? 0)) ;;
  if svc =? 0 then mret 0
  else
    _ ← get_client c;
    t ← alloc_struct;
    if t =? 0 then mret 0
    else
      now ← gettimeofday;
      modify (fun s => set_trans (<[t := mkTrans c svc now 0 0 NULL 0 0 flags]> (trans s)) s) ;;
      in_q (q_alloc (Q_t_global t)) ;;
      in_q (q_alloc (Q_t_clientq t)) ;; in_q (QINIT (Q_t_clientq t)) ;;
      in_q (q_alloc (Q_t_svc_waitq t)) ;; in_q (QINIT (Q_t_svc_waitq t)) ;;
      d ← in_mem (tpalloc dm NULL NULL len);
      put_trans t (set_data d) ;;
      if bool_decide (d = NULL) then free_trans t ;; mret 0
      else
        fuel ← gets cd_fuel;
        next_cd fuel ;;
        _ ← in_q (qappend_tail Q_tptransactions (Q_t_global t));
        v ← take_cd;
        put_trans t (set_cd v) ;;
        mret t.

Definition del_transaction (t : Z) : M (sb T) unit :=
  if t =? 0 then mret tt
  else
    x ← get_trans t;
    assert_ (negb (t_svc x =? 0) && negb (t_client x =? 0)) ;;
    _ ← in_q (qdelete (Q_t_clientq t));
    _ ← in_q (qdelete (Q_t_svc_waitq t));
    _ ← in_q (qdelete (Q_t_global t));
    cl ← get_client (t_client x);
    (if wait4 cl =? t then put_client (t_client x) (set_wait4 0) else mret tt) ;;
    (if negb (executor x =? 0) then
       a ← get_adv (executor x);
       w ← get_client (a_client a);
       if wait4 w =? t then put_client (a_client a) (set_wait4 0) else mret tt
     else mret tt) ;;
    in_mem (tpfree dm (t_data x)) ;;
    free_trans t.

(** ** Advertisements: [advert.c] *)

(** The name an advertisement is ordered by: that of the service it points to. *)
Definition adv_name (s : sb T) (a : Z) : list byte :=
  default [] (x ← advs s !! a; svcname <$> svcs s !! a_svc x).

Definition cmp_advertisement (s : sb T) (s1 : list byte) (s2 : Z) : comparison :=
  strncmp XATMI_SERVICE_NAME_LENGTH s1 (adv_name s s2).

Definition adverts_live (t : T) : M (sb T) unit :=
  s ← gets id;
  if forallb (fun a => bool_decide (is_Some (x ← advs s !! a; svcs s !! a_svc x))) (twalk t)
  then mret tt else raise UseAfterFree.

Definition fnd_advertisement (c : Z) (name : list byte) : M (sb T) Z :=
  assert_ (negb (c =? 0)) ;;
  x ← get_client c;
  svc ← fnd_service name;
  if svc =? 0 then mret 0
  else
    adverts_live (adverts x) ;;
    s ← gets id;
    mret (default 0 (tfind (cmp_advertisement s (svc_name s svc)) (adverts x))).

Definition free_adv (a : Z) : M (sb T) unit :=
  _ ← get_adv a;
  modify (fun s => set_advs (delete a (advs s)) s) ;; in_q (q_free (Q_adv_waitq a)).

Definition new_advertisement (c : Z) (name : list byte) (opaque : Z) : M (sb T) Z :=
  assert_ (negb (c =? 0)) ;;
  x ← get_client c;
  svc ← new_service name;
  if svc =? 0 then mret 0
  else
    a ← alloc_struct;
    if a =? 0 then mret 0
    else
      modify (fun s => set_advs (<[a := mkAdvert svc c (ulong dm opaque) 0 0]> (advs s)) s) ;;
      in_q (q_alloc (Q_adv_waitq a)) ;; in_q (QINIT (Q_adv_waitq a)) ;;
      adverts_live (adverts x) ;;
      s ← gets id;
      r ← tsearch_node (cmp_advertisement s (adv_name s a)) a (adverts x);
      match r with
      | Some (t', a2) =>
          put_client c (set_adverts t') ;;
          if a2 =? a then mret a else free_adv a ;; mret a2
      | None => free_adv a ;; mret 0
      end.

(** The scan of [del_advertisement]: is there a client, among those whose links
    are listed, that advertises the service? *)
Fixpoint other_advertiser (l : list qaddr) (name : list byte) : M (sb T) bool :=
  match l with
  | [] => mret false
  | q :: l' =>
      c ← offset_global q;
      a ← fnd_advertisement c name;
      if negb (a =? 0) then mret true else other_advertiser l' name
  end.

(** [del_advertisement] and [del_service] call each other; [n] bounds the depth. *)
Fixpoint del_advertisement (n : nat) (a : Z) : M (sb T) unit :=
  match n with
  | O => raise OutOfFuel
  | S n' =>
      if a =? 0 then mret tt
      else
        x ← get_adv a;
        assert_ (negb (a_client x =? 0) && negb (a_svc x =? 0)) ;;
        _ ← in_q (qdelete (Q_adv_waitq a));
        cl ← get_client (a_client x);
        adverts_live (adverts cl) ;;
        s ← gets id;
        put_client (a_client x)
          (set_adverts (tdelete (cmp_advertisement s (adv_name s a)) (adverts cl))) ;;
        l ← in_q (qelements Q_tpclients);
        sv ← get_svc (a_svc x);
        found ← other_advertiser l (svcname sv);
        (if (found : bool) then mret tt else del_service n' (a_svc x)) ;;
        free_adv a
  end
with del_service (n : nat) (svc : Z) : M (sb T) unit :=
  match n with
  | O => raise OutOfFuel
  | S n' =>
      if svc =? 0 then mret tt
      else
        s ← gets id;
        assert_ (negb (bool_decide (troot (services s) = None))) ;;
        sv ← get_svc svc;
        fuel ← queue_fuel;
        let nonempty := e ← in_q (QISEMPTY (Q_waitq svc)); mret (negb e) in
        (if wait_contains_transactions sv then
           while_ fuel nonempty
             (q ← in_q (QFIRST (Q_waitq svc)); t ← offset_t_svc_waitq q; del_transaction t)
         else
           while_ fuel nonempty
             (q ← in_q (QFIRST (Q_waitq svc)); a ← offset_adv_waitq q; del_advertisement n' a)) ;;
        services_live ;;
        s' ← gets id;
        modify (set_services (tdelete (cmp_service s' (svc_name s' svc)) (services s'))) ;;
        free_service svc
  end.

(** The depth that is enough: one service and, in it, each advertisement once. *)
Definition del_depth : M (sb T) nat := s ← gets advs; mret (2 * size s + 2)%nat.

(** ** Replies: [snd_reply] of [svrgetrply.c] *)

Definition snd_reply (t : Z) : M (sb T) unit :=
  assert_ (negb (t =? 0)) ;;
  x ← get_trans t;
  assert_ (negb (t_svc x =? 0) && negb (t_client x =? 0)) ;;
  l ← in_mem (tplen dm (t_data x));
  let len := swrap 32 l in
  svrwriteb (t_client x) (rval x) ;;
  svrwrites (t_client x) (cd x) ;;
  svrwritel (t_client x) (rcode x) ;;
  svrwritel (t_client x) len ;;
  d ← in_mem (in_heap (load_bytes (t_data x) len));
  svrwrite (t_client x) d ;;
  svr_next_command (t_client x) ;;
  put_client (t_client x) (set_wait4 0) ;;
  del_transaction t.

(** ** Clients: [client.c] *)

Definition new_client (fd : Z) : M (sb T) Z :=
  c ← alloc_struct;
  if c =? 0 then mret 0
  else
    modify (fun s => set_clients (<[c := mkClient fd 0 NULL None tempty 0]> (clients s)) s) ;;
    in_q (q_alloc (Q_global c)) ;;
    in_q (q_alloc (Q_requests c)) ;; in_q (QINIT (Q_requests c)) ;;
    in_q (q_alloc (Q_replies c)) ;; in_q (QINIT (Q_replies c)) ;;
    _ ← in_q (qappend_tail Q_tpclients (Q_global c));
    mret c.

(** [t->client->wait4 == any || t->client->wait4 == t], then the reply is sent,
    else it is queued; the common part of [del_client] and [part2]. *)
Definition reply_or_queue (any t : Z) : M (sb T) unit :=
  x ← get_trans t;
  cl ← get_client (t_client x);
  if (wait4 cl =? any) || (wait4 cl =? t) then snd_reply t
  else
    _ ← in_q (qdelete (Q_t_clientq t));
    _ ← in_q (qappend_tail (Q_replies (t_client x)) (Q_t_clientq t));
    mret tt.

(** [while (!QISEMPTY(q)) del_transaction(first of q)] *)
Definition del_queue (q : qaddr) : M (sb T) unit :=
  fuel ← queue_fuel;
  while_ fuel (e ← in_q (QISEMPTY q); mret (negb e))
    (f ← in_q (QFIRST q); t ← offset_t_clientq f; del_transaction t).

Definition del_client (c : Z) : M (sb T) unit :=
  if c =? 0 then mret tt
  else
    x ← get_client c;
    let t := wait4 x in
    executing ← (if t =? 0 then mret false
                 else
                   tx ← get_trans t;
                   if executor tx =? 0 then mret false
                   else a ← get_adv (executor tx); mret (a_client a =? c));
    (if (executing : bool) then
       tx ← get_trans t;
       assert_ (negb (t_client tx =? 0) && negb (t_svc tx =? 0)) ;;
       put_client c (set_wait4 0) ;;
       put_trans t (set_executor 0) ;;
       put_trans t (set_result TPERRNO TPESVCERR) ;;
       reply_or_queue LOCAL_ANY t
     else mret tt) ;;
    depth ← del_depth;
    fuel ← gets (fun s => S (size (advs s)));
    while_ fuel (y ← get_client c; mret (negb (bool_decide (troot (adverts y) = None))))
      (y ← get_client c; a ← ask NullDeref (troot (adverts y)); del_advertisement depth a) ;;
    del_queue (Q_requests c) ;;
    del_queue (Q_replies c) ;;
    _ ← in_q (qdelete (Q_global c));
    y ← get_client c;
    modify (fun s => set_closed (closed s ++ [fd y]) s) ;;
    modify (fun s => set_clients (delete c (clients s)) s) ;;
    in_q (q_free (Q_global c)) ;; in_q (q_free (Q_requests c)) ;; in_q (q_free (Q_replies c)).

End Objects.
