(* ===== verification/SbHandlers.v ===== *)
(** * The message handlers and the event loop

    [svracall.c], [svradvertise.c], [svrgetrply.c], [svrreturn.c],
    [svrservice.c], [svrunadvertise.c], and of [tpserver.c] the command table,
    [command] and [Iowait].  [handle] ties the knot of the function pointers: a
    handler may be called from [svriowait] when the buffer it waits for is empty.
    Its fuel bounds the depth of such calls; [HANDLE_DEPTH] is enough, since a
    chain is at most [command], one message handler and one continuation. *)

From Stdlib Require Import ZArith Lia.
From S2P Require Import Prelude Constants ByteOrder CString SearchTree Queue Memory TpMemory.
From S2P Require Import SbState SbObjects.

Local Open Scope Z_scope.

Section Handlers.
Context {T : Type} `{SearchTreeOps T Z} (dm : data_model).

(** ** Reading a message *)

Definition buf_byte (buf : ptr) (i : nat) : M (sb T) byte :=
  bs ← in_mem (in_heap (load_bytes (ptr_add buf (Z.of_nat i)) 1)); ask OutOfBounds (bs !! 0%nat).
Definition buf_short (buf : ptr) (i : nat) : M (sb T) Z :=
  bs ← in_mem (in_heap (load_bytes (ptr_add buf (Z.of_nat i)) (Z.of_nat IOSHORT)));
  ask OutOfBounds (toshort bs 0).
Definition buf_long (buf : ptr) (i : nat) : M (sb T) Z :=
  bs ← in_mem (in_heap (load_bytes (ptr_add buf (Z.of_nat i)) (Z.of_nat IOLONG)));
  ask OutOfBounds (tolong dm bs 0).
Definition buf_name (buf : ptr) : M (sb T) (list byte) :=
  in_mem (in_heap (load_bytes buf (Z.of_nat XATMI_SERVICE_NAME_LENGTH))).

Definition set_wct (b : bool) (x : tpservice) : tpservice :=
  mkService (svcname x) b (s_tmsec x) (s_ttrans x).

(** ** [svrservice.c] *)

(** [FIRSTTRAN(a)]: the first transaction on an advertised service's queue. *)
Definition FIRSTTRAN (a : Z) : M (sb T) Z :=
  x ← get_adv a; q ← in_q (QFIRST (Q_waitq (a_svc x))); offset_t_svc_waitq q.

(** [timercmp(a, b, <)] *)
Definition timer_lt (a b : Z * Z) : bool :=
  if fst a =? fst b then snd a <? snd b else fst a <? fst b.

(** The body of [find_earliest] for a node visited in preorder. *)
Definition find_earliest (a : Z) : M (sb T) unit :=
  x ← get_adv a;
  sv ← get_svc (a_svc x);
  e ← in_q (QISEMPTY (Q_waitq (a_svc x)));
  if wait_contains_transactions sv && negb e then
    cur ← gets earliest;
    take ← (if cur =? 0 then mret true
            else
              t1 ← FIRSTTRAN cur; x1 ← get_trans t1;
              t2 ← FIRSTTRAN a; x2 ← get_trans t2;
              mret (timer_lt (arrival x1) (arrival x2)));
    if (take : bool) then modify (set_earliest a) else mret tt
  else mret tt.

Definition add_to_waitq (a : Z) : M (sb T) unit :=
  x ← get_adv a;
  put_svc (a_svc x) (set_wct false) ;;
  _ ← in_q (qappend_tail (Q_waitq (a_svc x)) (Q_adv_waitq a));
  e ← in_q (QISEMPTY (Q_waitq (a_svc x)));
  assert_ (negb e).

Definition remove_from_waitq (a : Z) : M (sb T) unit :=
  _ ← get_adv a;
  _ ← in_q (qdelete (Q_adv_waitq a)); mret tt.

Definition send_to_server (a t : Z) : M (sb T) unit :=
  assert_ (negb (a =? 0)) ;;
  ax ← get_adv a;
  assert_ (negb (a_client ax =? 0) && negb (a_svc ax =? 0) && negb (t =? 0)) ;;
  tx ← get_trans t;
  assert_ (negb (t_svc tx =? 0)) ;;
  let c := a_client ax in
  x ← get_client c;
  mfor (twalk (adverts x)) remove_from_waitq ;;
  put_client c (set_wait4 t) ;;
  put_trans t (set_executor a) ;;
  svrwritel dm c (a_opaque ax) ;;
  sv ← get_svc (t_svc tx);
  svrwrite c (svcname sv) ;;
  len ← in_mem (tplen dm (t_data tx));
  svrwritel dm c len ;;
  svrwritel dm c (t_flags tx) ;;
  svrwrites c (cd tx) ;;
  d ← in_mem (in_heap (load_bytes (t_data tx) len));
  svrwrite c d ;;
  svr_next_command dm c.

Definition svrservice (c : Z) (buf : ptr) : M (sb T) unit :=
  assert_ (negb (c =? 0)) ;;
  x ← get_client c;
  in_mem (tpfree dm buf) ;;
  modify (set_earliest 0) ;;
  mfor (twalk (adverts x)) find_earliest ;;
  e ← gets earliest;
  if negb (e =? 0) then t ← FIRSTTRAN e; send_to_server e t
  else mfor (twalk (adverts x)) add_to_waitq.

(** ** [svracall.c] *)

Definition send_to_worker (c : Z) (buf : ptr) : M (sb T) unit :=
  assert_ (negb (c =? 0) && negb (bool_decide (buf = NULL))) ;;
  _ ← get_client c;
  svr_next_command dm c ;;
  q ← in_q (QLAST (Q_requests c));
  t ← offset_t_clientq q;
  tx ← get_trans t;
  e ← in_q (QISEMPTY (Q_waitq (t_svc tx)));
  sv ← get_svc (t_svc tx);
  if negb e && negb (wait_contains_transactions sv) then
    f ← in_q (QFIRST (Q_waitq (t_svc tx)));
    a ← offset_adv_waitq f;
    send_to_server a t
  else
    put_svc (t_svc tx) (set_wct true) ;;
    _ ← in_q (qappend_tail (Q_waitq (t_svc tx)) (Q_t_svc_waitq t));
    mret tt.

Definition svracall (call : handler -> Z -> ptr -> M (sb T) unit) (c : Z) (buf : ptr)
  : M (sb T) unit :=
  assert_ (negb (c =? 0) && negb (bool_decide (buf = NULL))) ;;
  flags ← buf_long buf (XATMI_SERVICE_NAME_LENGTH + IOLONG);
  name ← buf_name buf;
  svc ← fnd_service name;
  len ← buf_long buf XATMI_SERVICE_NAME_LENGTH;
  t ← new_transaction dm c (slong dm flags) svc (slong dm len);
  in_mem (tpfree dm buf) ;;
  if t =? 0 then
    svrwriteb c (-1) ;;
    svrwrites c TPENOENT ;;
    svr_next_command dm c
  else
    _ ← in_q (qappend_tail (Q_requests c) (Q_t_clientq t));
    svrwriteb c 0 ;;
    tx ← get_trans t;
    svrwrites c (cd tx) ;;
    svriowait dm call c (t_data tx) H_send_to_worker.

(** ** [svradvertise.c], [svrunadvertise.c] *)

Definition svradvertise (c : Z) (buf : ptr) : M (sb T) unit :=
  assert_ (negb (c =? 0) && negb (bool_decide (buf = NULL))) ;;
  o ← buf_long buf XATMI_SERVICE_NAME_LENGTH;
  let opaque := slong dm o in
  name ← buf_name buf;
  a ← new_advertisement dm c name opaque;
  in_mem (tpfree dm buf) ;;
  (if a =? 0 then svrwrites c TPESYSTEM
   else
     ax ← get_adv a;
     if negb (a_opaque ax =? ulong dm opaque) then svrwrites c TPEMATCH
     else svrwrites c 0) ;;
  svr_next_command dm c.

Definition svrunadvertise (c : Z) (buf : ptr) : M (sb T) unit :=
  assert_ (negb (c =? 0) && negb (bool_decide (buf = NULL))) ;;
  name ← buf_name buf;
  a ← fnd_advertisement c name;
  in_mem (tpfree dm buf) ;;
  depth ← del_depth;
  del_advertisement dm depth a ;;
  svrwrites c (if a =? 0 then TPENOENT else 0) ;;
  svr_next_command dm c.

(** ** [svrgetrply.c] *)

Definition senderrno (c e : Z) : M (sb T) unit :=
  svrwriteb c TPERRNO ;;
  svrwrites c e ;;
  svr_next_command dm c.

(** The first node of the list whose transaction has the descriptor [d]. *)
Fixpoint scan_cd (l : list qaddr) (d : Z) : M (sb T) (option Z) :=
  match l with
  | [] => mret None
  | q :: l' =>
      t ← offset_t_clientq q;
      x ← get_trans t;
      if cd x =? d then mret (Some t) else scan_cd l' d
  end.

Definition svrgetrply (c : Z) (buf : ptr) : M (sb T) unit :=
  assert_ (negb (c =? 0) && negb (bool_decide (buf = NULL))) ;;
  d0 ← buf_short buf 0;
  let d := swrap 16 d0 in
  f0 ← buf_long buf IOSHORT;
  let flags := slong dm f0 in
  in_mem (tpfree dm buf) ;;
  l ← in_q (qelements (Q_replies c));
  ready ← (if negb (Z.land (Z.lnot flags) TPGETANY =? 0) then scan_cd l d
           else match l with [] => mret None | q :: _ => t ← offset_t_clientq q; mret (Some t) end);
  match ready with
  | Some t => snd_reply dm t
  | None =>
      pending ← (if negb (Z.land flags TPGETANY =? 0) then mret (Some GLOBAL_ANY)
                 else r ← in_q (qelements (Q_requests c)); scan_cd r d);
      match pending with
      | None => senderrno c TPEBADDESC
      | Some t =>
          if negb (Z.land flags TPNOBLOCK =? 0) then senderrno c TPEBLOCK
          else put_client c (set_wait4 t)
      end
  end.

(** ** [svrreturn.c] *)

Definition part2 (c : Z) (buf : ptr) : M (sb T) unit :=
  svr_next_command dm c ;;
  x ← get_client c;
  let t := wait4 x in
  put_client c (set_wait4 0) ;;
  put_trans t (set_executor 0) ;;
  reply_or_queue dm GLOBAL_ANY t.

Definition svrreturn (call : handler -> Z -> ptr -> M (sb T) unit) (c : Z) (buf : ptr)
  : M (sb T) unit :=
  assert_ (negb (c =? 0) && negb (bool_decide (buf = NULL))) ;;
  x ← get_client c;
  let t := wait4 x in
  tx ← get_trans t;
  rv ← buf_byte buf 0;
  rc ← buf_long buf 1;
  put_trans t (set_result (b2c rv) (slong dm rc)) ;;
  len ← buf_long buf (1 + IOLONG);
  d ← in_mem (tprealloc dm (t_data tx) (slong dm len));
  put_trans t (set_data d) ;;
  in_mem (tpfree dm buf) ;;
  svriowait dm call c d H_part2.

(** ** [tpserver.c] *)

Definition commands : list (handler * nat) :=
  [ (H_svracall, XATMI_SERVICE_NAME_LENGTH + IOLONG * 2);
    (H_svrgetrply, IOSHORT + IOLONG);
    (H_svradvertise, XATMI_SERVICE_NAME_LENGTH + IOLONG);
    (H_svrunadvertise, XATMI_SERVICE_NAME_LENGTH);
    (H_svrservice, 0);
    (H_svrreturn, 1 + IOLONG * 2) ]%nat.

(** [cmd] is a [char]; the comparison with the number of commands is done in
    [size_t], where a negative [cmd] is larger than any number of commands. *)
Definition command (call : handler -> Z -> ptr -> M (sb T) unit) (c : Z) (buf : ptr)
  : M (sb T) unit :=
  b ← buf_byte buf 0;
  let cmd := ulong dm (b2c b) in
  if cmd <? Z.of_nat (length commands) then
    e ← ask OutOfBounds (commands !! Z.to_nat cmd);
    d ← in_mem (tprealloc dm buf (Z.of_nat (snd e)));
    svriowait dm call c d (fst e)
  else
    in_mem (tpfree dm buf) ;;
    del_client dm c.

(** The call of a handler through its pointer. *)
Fixpoint handle (n : nat) (h : handler) (c : Z) (buf : ptr) : M (sb T) unit :=
  match n with
  | O => raise OutOfFuel
  | S n' =>
      match h with
      | H_command => command (handle n') c buf
      | H_svracall => svracall (handle n') c buf
      | H_svrgetrply => svrgetrply c buf
      | H_svradvertise => svradvertise c buf
      | H_svrunadvertise => svrunadvertise c buf
      | H_svrservice => svrservice c buf
      | H_svrreturn => svrreturn (handle n') c buf
      | H_send_to_worker => send_to_worker c buf
      | H_part2 => part2 c buf
      end
  end.

Definition HANDLE_DEPTH : nat := 3.

(** What a [read] of a client's descriptor returned: -1, or some bytes (none at
    the end of the stream). *)
Inductive read_result :=
  | ReadError
  | ReadBytes (bs : list byte).

(** The body of [Iowait]'s loop for a client whose descriptor is readable.  The
    kernel returns at most the number of bytes that were asked for. *)
Definition iowait_client (c : Z) (r : read_result) : M (sb T) unit :=
  x ← get_client c;
  bufsize ← (if bool_decide (input x = NULL) then mret 0 else in_mem (tplen dm (input x)));
  if bufsize <=? used x then del_client dm c
  else
    match r with
    | ReadError => del_client dm c
    | ReadBytes [] => del_client dm c
    | ReadBytes bs =>
        let got := take (Z.to_nat (bufsize - used x)) bs in
        in_mem (in_heap (store_bytes (ptr_add (input x) (used x)) got)) ;;
        let n := used x + Z.of_nat (length got) in
        if n =? bufsize then
          put_client c (set_io 0 NULL None) ;;
          h ← ask NullDeref (handler_fn x);
          handle HANDLE_DEPTH h c (input x)
        else put_client c (set_io n (input x) (handler_fn x))
    end.

(** A new connection on the master socket. *)
Definition accept_client (newfd : Z) : M (sb T) unit :=
  c ← new_client newfd; svr_next_command dm c.

(** [FD_SET] for every client of the list; [FD_ISSET] of a descriptor is
    membership. *)
Fixpoint watch_clients (l : list qaddr) (readfds : gset Z) : M (sb T) (gset Z) :=
  match l with
  | [] => mret readfds
  | q :: l' => c ← offset_global q; x ← get_client c; watch_clients l' ({[fd x]} ∪ readfds)
  end.

(** The loop over the clients, from the link [q]: [readfds] is the set that
    [select] left, [reads] what a read of a descriptor returns.  The successor is
    read before the client is served. *)
Fixpoint serve_clients (fuel : nat) (readfds : gset Z) (reads : Z -> read_result) (q : qaddr)
  : M (sb T) unit :=
  match fuel with
  | O => raise OutOfFuel
  | S fuel' =>
      if bool_decide (q = Q_tpclients) then mret tt
      else
        c ← offset_global q;
        q' ← in_q (QNEXT q);
        x ← get_client c;
        (if bool_decide (fd x ∈ readfds) then iowait_client c (reads (fd x)) else mret tt) ;;
        serve_clients fuel' readfds reads q'
  end.

(** What the system calls of one pass return: [select] the descriptors that can
    be read, of those it is given, or an error; [accept] a descriptor or an error;
    a read of a client's descriptor. *)
Record io_env := mkIoEnv {
  io_select : gset Z -> option (gset Z);
  io_accept : option Z;
  io_read : Z -> read_result;
}.

(** One pass of [Iowait]. *)
Definition Iowait (master : Z) (env : io_env) : M (sb T) unit :=
  l ← in_q (qelements Q_tpclients);
  fds ← watch_clients l {[master]};
  match io_select env fds with
  | None => mret tt
  | Some readfds =>
      (if bool_decide (master ∈ readfds) then
         match io_accept env with None => mret tt | Some i => accept_client i end
       else mret tt) ;;
      fuel ← queue_fuel;
      q ← in_q (QFIRST Q_tpclients);
      serve_clients fuel readfds (io_read env) q
  end.

(** The state at start, with the environment's parameters. *)
Definition sb_init (junk_byte : byte) (oracle : list bool) (oob : Z)
    (batches : nat -> nat -> Z) (fuel : nat) (clk : nat -> Z * Z) : sb T :=
  mkSb (mkTpmem (mkHeap ∅ 1 junk_byte oracle) 0)
    (<[Q_tpclients := mkQUEUE Q_tpclients Q_tpclients]>
      (<[Q_tptransactions := mkQUEUE Q_tptransactions Q_tptransactions]> ∅))
    ∅ ∅ ∅ (<[GLOBAL_ANY := zero_transaction]> ∅) 1 tempty
    (replicate NUM_FREE_CD 0) 0 oob batches 0 fuel clk 0 0 [] [].

End Handlers.
