(* ===== verification/SbLemmas.v ===== *)
(** * Lemmas on the switchboard's state

    The queues of the switchboard as lists: [qrep m qs] says that the link
    memory [m] represents the map [qs] from every list header, and from every
    node that is on no list, to the nodes of its list.  The queue operations
    are operations on that map.  Then rules of symbolic execution for reading
    and writing structs, and for output to a client. *)

From Stdlib Require Import ZArith Lia.
From S2P Require Import Prelude Constants ByteOrder CString SearchTree Queue Memory TpMemory.
From S2P Require Import SbState SbObjects SbHandlers.

Local Open Scope Z_scope.

(** ** Queues as lists *)

Section Represents.
Context {A : Type} `{Countable A}.
Implicit Types (m : gmap A (QUEUE A)) (qs : gmap A (list A)) (h n : A) (l : list A).

Record qrep m qs : Prop := mkQrep {
  qr_queue h l : qs !! h = Some l -> is_queue m h l;
  qr_disjoint h1 l1 h2 l2 x :
    qs !! h1 = Some l1 -> qs !! h2 = Some l2 -> x ∈ h1 :: l1 -> x ∈ h2 :: l2 -> h1 = h2;
}.

(** Two queues that differ have no common node. *)
Lemma qrep_apart m qs h1 l1 h2 l2 :
  qrep m qs -> qs !! h1 = Some l1 -> qs !! h2 = Some l2 -> h1 ≠ h2 ->
  forall x, x ∈ h1 :: l1 -> x ∉ h2 :: l2.
Proof. intros Hq H1 H2 Hne x Hx1 Hx2. apply Hne. by eapply (qr_disjoint m qs Hq). Qed.

(** An operation on one queue and one single node, as a change of the map. *)
Lemma qrep_change m m' qs qs' h l h' l' :
  qrep m qs -> qs !! h = Some l -> qs !! h' = Some l' ->
  (forall x, x ∉ h :: h' :: l ++ l' -> m' !! x = m !! x) ->
  (forall k lk, qs' !! k = Some lk ->
    (qs !! k = Some lk /\ k ≠ h /\ k ≠ h') \/
    (is_queue m' k lk /\ (forall x, x ∈ k :: lk -> x ∈ h :: h' :: l ++ l'))) ->
  (forall k1 l1 k2 l2 x, qs' !! k1 = Some l1 -> qs' !! k2 = Some l2 ->
    x ∈ k1 :: l1 -> x ∈ k2 :: l2 -> x ∈ h :: h' :: l ++ l' -> k1 = k2) ->
  qrep m' qs'.
Proof.
  intros Hq Hh Hh' Hf Hqs Hdis.
  assert (forall k lk, qs !! k = Some lk -> k ≠ h -> k ≠ h' ->
    forall x, x ∈ k :: lk -> x ∉ h :: h' :: l ++ l') as Hout.
  { intros k lk Hk Hne Hne' x Hx Hin.
    assert (x ∈ h :: l \/ x ∈ h' :: l') as [Hc|Hc] by set_solver +Hin.
    - by apply (qrep_apart m qs k lk h l Hq Hk Hh Hne x Hx).
    - by apply (qrep_apart m qs k lk h' l' Hq Hk Hh' Hne' x Hx). }
  split.
  - intros k lk Hk. destruct (Hqs k lk Hk) as [(Hk' & Hne & Hne')|[Hk' _]]; [|done].
    eapply (is_queue_frame m m' k lk (h :: h' :: l ++ l')); [exact Hf | by eapply Hout |].
    by apply (qr_queue m qs Hq).
  - intros k1 l1 k2 l2 x H1 H2 Hx1 Hx2.
    destruct (Hqs k1 l1 H1) as [(K1 & N1 & N1')|[_ S1]]; [|by eapply Hdis; eauto].
    destruct (Hqs k2 l2 H2) as [(K2 & N2 & N2')|[_ S2]]; [|by eapply Hdis; eauto].
    by eapply (qr_disjoint m qs Hq).
Qed.

Lemma qrep_qappend_tail m qs h l n :
  qrep m qs -> qs !! h = Some l -> qs !! n = Some [] -> h ≠ n ->
  exists m', qappend_tail h n m = Done (n, m') /\ qrep m' (<[h := l ++ [n]]> (delete n qs)).
Proof.
  intros Hq Hh Hn Hne.
  pose proof (qr_queue m qs Hq _ _ Hh) as Qh. pose proof (qr_queue m qs Hq _ _ Hn) as Qn.
  assert (n ∉ h :: l) as Hni.
  { intros Hin. by apply (qrep_apart m qs h l n [] Hq Hh Hn Hne n Hin); left. }
  destruct (qappend_tail_queue m h l n) as (m' & E & Q' & F); [done | done | |].
  { apply (is_queue_dom m n []); [done | by left]. }
  exists m'. split; [done|]. eapply (qrep_change m m' qs _ h l n []); try done.
  - intros x Hx. apply F. set_solver +Hx.
  - intros k lk [[<- <-]|[Hk [Hnk Hlk]%lookup_delete_Some]]%lookup_insert_Some.
    + right. split; [done|]. intros x. set_solver.
    + by left.
  - intros k1 l1 k2 l2 x [[<- <-]|[Hk1 [Hn1 Hl1]%lookup_delete_Some]]%lookup_insert_Some
      [[<- <-]|[Hk2 [Hn2 Hl2]%lookup_delete_Some]]%lookup_insert_Some Hx1 Hx2 Hx; [done|..].
    + exfalso. assert (x ∈ h :: l \/ x ∈ [n]) as [Hc|Hc] by set_solver +Hx1.
      * by apply (qrep_apart m qs k2 l2 h l Hq Hl2 Hh ltac:(done) x Hx2).
      * by apply (qrep_apart m qs k2 l2 n [] Hq Hl2 Hn ltac:(done) x Hx2).
    + exfalso. assert (x ∈ h :: l \/ x ∈ [n]) as [Hc|Hc] by set_solver +Hx2.
      * by apply (qrep_apart m qs k1 l1 h l Hq Hl1 Hh ltac:(done) x Hx1).
      * by apply (qrep_apart m qs k1 l1 n [] Hq Hl1 Hn ltac:(done) x Hx1).
    + by eapply (qr_disjoint m qs Hq).
Qed.

Lemma qrep_qdelete m qs h l1 n l2 :
  qrep m qs -> qs !! h = Some (l1 ++ n :: l2) ->
  exists m', qdelete n m = Done (n, m') /\ qrep m' (<[n := []]> (<[h := l1 ++ l2]> qs)).
Proof.
  intros Hq Hh. pose proof (qr_queue m qs Hq _ _ Hh) as Qh.
  destruct (qdelete_queue m h l1 n l2 Qh) as (m' & E & Q' & Qn & F).
  exists m'. split; [done|]. destruct Qh as [_ [Hhn Hnd]%NoDup_cons].
  assert (n ∉ l1 ++ l2) as Hni.
  { rewrite Permutation_app_comm in Hnd. simpl in Hnd. apply NoDup_cons in Hnd as [Hnd _]. set_solver +Hnd. }
  assert (n ≠ h) as Hne by set_solver +Hhn.
  assert (forall k lk, qs !! k = Some lk -> k ≠ h -> forall x, x ∈ k :: lk -> x ∉ h :: l1 ++ n :: l2) as Hout
    by (intros k lk Hk Hkh; by apply (qrep_apart m qs k lk h _ Hq Hk Hh)).
  split.
  - intros k lk [[<- <-]|[Hk [[<- <-]|[Hk' Hlk]]%lookup_insert_Some]]%lookup_insert_Some; [done | done |].
    eapply (is_queue_frame m m' k lk); [exact F | | by apply (qr_queue m qs Hq)].
    intros x Hx. pose proof (Hout k lk Hlk ltac:(done) x Hx). set_solver.
  - intros k1 lk1 k2 lk2 x [[<- <-]|[Hk1 [[<- <-]|[Hk1' Hlk1]]%lookup_insert_Some]]%lookup_insert_Some
      [[<- <-]|[Hk2 [[<- <-]|[Hk2' Hlk2]]%lookup_insert_Some]]%lookup_insert_Some Hx1 Hx2; try done.
    + exfalso. set_solver +Hx1 Hx2 Hni Hne.
    + exfalso. apply (Hout k2 lk2 Hlk2 ltac:(done) x Hx2). set_solver +Hx1.
    + exfalso. set_solver +Hx1 Hx2 Hni Hne.
    + exfalso. apply (Hout k2 lk2 Hlk2 ltac:(done) x Hx2). set_solver +Hx1.
    + exfalso. apply (Hout k1 lk1 Hlk1 ltac:(done) x Hx1). set_solver +Hx2.
    + exfalso. apply (Hout k1 lk1 Hlk1 ltac:(done) x Hx1). set_solver +Hx2.
    + by eapply (qr_disjoint m qs Hq).
Qed.

(** Deleting a node that is on no list changes nothing. *)
Lemma qrep_qdelete_single m qs n : qrep m qs -> qs !! n = Some [] -> qdelete n m = Done (n, m).
Proof. intros Hq Hn. apply qdelete_detached. by apply (qr_queue m qs Hq). Qed.

(** A node on some list, or on none. *)
Definition qnode qs n : Prop := qs !! n = Some [] \/ exists h l, qs !! h = Some l /\ n ∈ l.

(** The map after a node was taken off its list, if it was on one. *)
Definition qremove n qs : gmap A (list A) := <[n := []]> (filter (fun x => x ≠ n) <$> qs).

Lemma filter_id n l : n ∉ l -> filter (fun x => x ≠ n) l = l.
Proof.
  induction l as [|x l IH]; intros Hn; [done|].
  rewrite filter_cons_True by set_solver +Hn. by rewrite IH by set_solver +Hn.
Qed.

Lemma qremove_single m qs n : qrep m qs -> qs !! n = Some [] -> qremove n qs = qs.
Proof.
  intros Hq Hn. unfold qremove. apply map_eq. intros k.
  destruct (decide (k = n)) as [->|Hk]; [by rewrite lookup_insert_eq|].
  rewrite lookup_insert_ne, lookup_fmap by done. destruct (qs !! k) as [l|] eqn:E; [|done].
  simpl. f_equal. apply filter_id. intros Hl.
  apply (qrep_apart m qs n [] k l Hq Hn E ltac:(done) n); set_solver +Hl.
Qed.

Lemma qremove_list m qs n h l1 l2 :
  qrep m qs -> qs !! h = Some (l1 ++ n :: l2) ->
  qremove n qs = <[n := []]> (<[h := l1 ++ l2]> qs).
Proof.
  intros Hq Hh. unfold qremove. apply map_eq. intros k.
  destruct (decide (k = n)) as [->|Hk]; [by rewrite !lookup_insert_eq|].
  rewrite !(lookup_insert_ne _ n) by done. rewrite lookup_fmap.
  destruct (qr_queue m qs Hq _ _ Hh) as [_ [_ Hnd]%NoDup_cons].
  rewrite Permutation_app_comm in Hnd. simpl in Hnd. apply NoDup_cons in Hnd as [Hnd _].
  destruct (decide (k = h)) as [->|Hkh].
  - rewrite lookup_insert_eq, Hh. simpl. f_equal. rewrite filter_app, filter_cons_False by auto.
    rewrite !filter_id by set_solver +Hnd. done.
  - rewrite lookup_insert_ne by done. destruct (qs !! k) as [l|] eqn:E; [|done].
    simpl. f_equal. apply filter_id. intros Hl.
    apply (qrep_apart m qs h _ k l Hq Hh E ltac:(done) n); [|set_solver +Hl]. set_solver.
Qed.

Lemma qrep_qremove m qs n :
  qrep m qs -> qnode qs n ->
  exists m', qdelete n m = Done (n, m') /\ qrep m' (qremove n qs).
Proof.
  intros Hq [Hn|(h & l & Hh & (l1 & l2 & ->)%list_elem_of_split)].
  - exists m. rewrite (qremove_single m) by done. split; [by eapply qrep_qdelete_single | done].
  - rewrite (qremove_list m qs n h l1 l2) by done. by apply qrep_qdelete.
Qed.

(** A single node heads no other list. *)
Lemma qnode_header m qs n l : qrep m qs -> qnode qs n -> qs !! n = Some l -> l = [].
Proof.
  intros Hq [Hn|(h & lh & Hh & Hn)] Hl; [by simplify_eq|].
  assert (h = n) as -> by (eapply (qr_disjoint m qs Hq h lh n l n); set_solver +Hh Hl Hn).
  simplify_eq. destruct (qr_queue m qs Hq _ _ Hh) as [_ [? _]%NoDup_cons]. done.
Qed.

Lemma qnode_qremove m qs n n' :
  qrep m qs -> qnode qs n -> qnode qs n' -> qnode (qremove n qs) n'.
Proof.
  intros Hq Hn0. unfold qnode, qremove.
  destruct (decide (n' = n)) as [->|Hne]; [left; by rewrite lookup_insert_eq|].
  intros [Hn|(h & l & Hh & Hl)].
  - left. by rewrite lookup_insert_ne, lookup_fmap, Hn.
  - destruct (decide (h = n)) as [->|Hh'].
    + rewrite (qnode_header m qs n l Hq Hn0 Hh) in Hl. by apply not_elem_of_nil in Hl.
    + right. exists h, (filter (fun x => x ≠ n) l). rewrite lookup_insert_ne, lookup_fmap, Hh by done.
      split; [done|]. apply list_elem_of_filter. done.
Qed.

Lemma qremove_self qs n : qremove n qs !! n = Some [].
Proof. apply lookup_insert_eq. Qed.

Lemma qremove_keep qs n n' : qs !! n' = Some [] -> qremove n qs !! n' = Some [].
Proof.
  intros Hn. unfold qremove. destruct (decide (n' = n)) as [->|Hne]; [by rewrite lookup_insert_eq|].
  by rewrite lookup_insert_ne, lookup_fmap, Hn.
Qed.

(** Taking a sequence of nodes off their lists. *)
Definition qremove_all (ns : list A) qs : gmap A (list A) := foldl (fun q n => qremove n q) qs ns.

(** A new header or node, and the end of one. *)
Lemma qrep_fresh m qs q k l : qrep m qs -> m !! q = None -> qs !! k = Some l -> q ∉ k :: l.
Proof.
  intros Hq Hn Hk Hin. apply (is_queue_dom m k l) in Hin as [v E]; [congruence|].
  by apply (qr_queue m qs Hq).
Qed.

Lemma qrep_alloc m qs q v :
  qrep m qs -> m !! q = None ->
  exists m', QINIT q (<[q := v]> m) = Done (tt, m') /\ qrep m' (<[q := []]> qs) /\
    same_outside m m' [q].
Proof.
  intros Hq Hn. destruct (QINIT_queue (<[q := v]> m) q) as (m' & E & Q & F);
    [by rewrite lookup_insert_eq|]. exists m'. split; [done|].
  assert (same_outside m m' [q]) as F'.
  { intros x Hx. rewrite F by done. rewrite lookup_insert_ne; [done | set_solver +Hx]. }
  split; [|done]. split.
  - intros k l [[<- <-]|[Hk Hl]]%lookup_insert_Some; [done|].
    eapply (is_queue_frame m m' k l [q]); [done | | by apply (qr_queue m qs Hq)].
    intros x Hx Hin. apply (qrep_fresh m qs q k l Hq Hn Hl). set_solver +Hx Hin.
  - intros k1 l1 k2 l2 x [[<- <-]|[Hk1 Hl1]]%lookup_insert_Some
      [[<- <-]|[Hk2 Hl2]]%lookup_insert_Some Hx1 Hx2; [done|..].
    + exfalso. apply (qrep_fresh m qs q k2 l2 Hq Hn Hl2). set_solver +Hx1 Hx2.
    + exfalso. apply (qrep_fresh m qs q k1 l1 Hq Hn Hl1). set_solver +Hx1 Hx2.
    + by eapply (qr_disjoint m qs Hq).
Qed.

Lemma qrep_free m qs n : qrep m qs -> qs !! n = Some [] -> qrep (delete n m) (delete n qs).
Proof.
  intros Hq Hn. split.
  - intros k l [Hk Hl]%lookup_delete_Some.
    eapply (is_queue_frame m (delete n m) k l [n]); [| |by apply (qr_queue m qs Hq)].
    + intros x Hx. rewrite lookup_delete_ne; [done | set_solver +Hx].
    + intros x Hx ->%list_elem_of_singleton.
      apply (qrep_apart m qs n [] k l Hq Hn Hl ltac:(done) n); [by left | done].
  - intros k1 l1 k2 l2 x [_ H1]%lookup_delete_Some [_ H2]%lookup_delete_Some.
    by apply (qr_disjoint m qs Hq).
Qed.

(** A node whose links are not set yet. *)
Lemma qrep_raw m qs n v : qrep m qs -> m !! n = None -> qrep (<[n := v]> m) qs.
Proof.
  intros Hq Hn. split; [|apply (qr_disjoint m qs Hq)]. intros k l Hk.
  eapply (is_queue_frame m (<[n := v]> m) k l [n]); [| |by apply (qr_queue m qs Hq)].
  - intros x Hx. rewrite lookup_insert_ne; [done | set_solver +Hx].
  - intros x Hx ->%list_elem_of_singleton. by apply (qrep_fresh m qs n k l).
Qed.

Lemma qrep_qappend_raw m qs h l n :
  qrep m qs -> qs !! h = Some l -> is_Some (m !! n) ->
  (forall k lk, qs !! k = Some lk -> n ∉ k :: lk) ->
  exists m', qappend_tail h n m = Done (n, m') /\ qrep m' (<[h := l ++ [n]]> qs).
Proof.
  intros Hq Hh Hn Hout. pose proof (qr_queue m qs Hq _ _ Hh) as Qh.
  destruct (qappend_tail_queue m h l n) as (m' & E & Q' & F); [done | by apply Hout | done |].
  exists m'. split; [done|]. split.
  - intros k lk [[<- <-]|[Hk Hlk]]%lookup_insert_Some; [done|].
    eapply (is_queue_frame m m' k lk (n :: h :: l)); [done | | by apply (qr_queue m qs Hq)].
    intros x Hx [->|Hin]%elem_of_cons; [by apply (Hout k lk Hlk)|].
    by apply (qrep_apart m qs k lk h l Hq Hlk Hh ltac:(done) x Hx).
  - intros k1 l1 k2 l2 x [[<- <-]|[Hk1 Hl1]]%lookup_insert_Some
      [[<- <-]|[Hk2 Hl2]]%lookup_insert_Some Hx1 Hx2; [done|..].
    + exfalso. assert (x ∈ h :: l \/ x = n) as [Hc|Hc] by set_solver +Hx1.
      * by apply (qrep_apart m qs k2 l2 h l Hq Hl2 Hh ltac:(done) x Hx2).
      * subst x. by apply (Hout k2 l2).
    + exfalso. assert (x ∈ h :: l \/ x = n) as [Hc|Hc] by set_solver +Hx2.
      * by apply (qrep_apart m qs k1 l1 h l Hq Hl1 Hh ltac:(done) x Hx1).
      * subst x. by apply (Hout k1 l1).
    + by eapply (qr_disjoint m qs Hq).
Qed.

(** ** Checking that a memory represents a map *)

Fixpoint seg_b m (a : A) l (b : A) : bool :=
  match l with
  | [] => bool_decide (nxt m a = Some b) && bool_decide (prv m b = Some a)
  | x :: l' => bool_decide (nxt m a = Some x) && bool_decide (prv m x = Some a) && seg_b m x l' b
  end.

Definition rows qs : list (list A) := (fun hl => fst hl :: snd hl) <$> map_to_list qs.
Definition qrep_check m qs : bool :=
  forallb (fun hl => seg_b m (fst hl) (snd hl) (fst hl)) (map_to_list qs) &&
  bool_decide (NoDup (concat (rows qs))).

Lemma seg_b_ok m a l b : seg_b m a l b = true -> seg m a l b.
Proof.
  revert a; induction l as [|x l IH]; intros a; simpl; rewrite !andb_true_iff, !bool_decide_eq_true;
    unfold linked; [done|]. intros [[? ?] ?]. auto.
Qed.

Lemma NoDup_concat_rows (ls : list (list A)) i j r1 r2 x :
  NoDup (concat ls) -> ls !! i = Some r1 -> ls !! j = Some r2 -> x ∈ r1 -> x ∈ r2 -> i = j.
Proof.
  revert i j; induction ls as [|r ls IH]; intros i j Hnd Hi Hj H1 H2; [done|].
  simpl in Hnd. apply NoDup_app in Hnd as (_ & Hd & Hnd).
  assert (forall k rk, ls !! k = Some rk -> x ∈ rk -> x ∈ concat ls) as Hc.
  { intros k rk Hk Hx. apply list_elem_of_In, in_concat. exists rk.
    split; [apply list_elem_of_In; by eapply list_elem_of_lookup_2 | by apply list_elem_of_In]. }
  destruct i as [|i], j as [|j]; simpl in *; simplify_eq; [done|..].
  - exfalso. by eapply Hd; eauto.
  - exfalso. by eapply Hd; eauto.
  - f_equal. by eapply IH.
Qed.

Lemma NoDup_concat_row (ls : list (list A)) r : NoDup (concat ls) -> r ∈ ls -> NoDup r.
Proof.
  induction ls as [|r' ls IH]; intros Hnd Hr; [by apply not_elem_of_nil in Hr|].
  simpl in Hnd. apply NoDup_app in Hnd as (Hn & _ & Hnd).
  apply elem_of_cons in Hr as [->|Hr]; auto.
Qed.

Lemma qrep_check_ok m qs : qrep_check m qs = true -> qrep m qs.
Proof.
  unfold qrep_check. rewrite andb_true_iff, forallb_forall, bool_decide_eq_true. intros [Hs Hnd].
  assert (forall h l, qs !! h = Some l -> exists i, rows qs !! i = Some (h :: l) /\ map_to_list qs !! i = Some (h, l)) as Hrow.
  { intros h l Hh%elem_of_map_to_list. apply list_elem_of_lookup_1 in Hh as [i Hi].
    exists i. unfold rows. by rewrite list_lookup_fmap, Hi. }
  split.
  - intros h l Hh. split.
    + apply seg_b_ok. apply (Hs (h, l)). apply list_elem_of_In. by apply elem_of_map_to_list.
    + destruct (Hrow h l Hh) as (i & Hi & _). eapply NoDup_concat_row; [exact Hnd|].
      by eapply list_elem_of_lookup_2.
  - intros h1 l1 h2 l2 x H1 H2 Hx1 Hx2. destruct (Hrow _ _ H1) as (i & Hi & Ei).
    destruct (Hrow _ _ H2) as (j & Hj & Ej).
    assert (i = j) as -> by (by eapply NoDup_concat_rows). congruence.
Qed.

End Represents.

(** ** Rules for the switchboard's state *)

(** The bytes sent to a descriptor. *)
Definition stream {T} (f : Z) (s : sb T) : list byte :=
  concat (snd <$> filter (fun w => fst w = f) (out s)).

(** A sequence of writes to one descriptor, and what they send. *)
Definition writes_to (f : Z) (bs : list byte) (ws : list (Z * list byte)) : Prop :=
  Forall (fun w => fst w = f) ws /\ concat (snd <$> ws) = bs.

Section Rules.
Context {T : Type} `{SearchTreeOps T Z} (dm : data_model).
Implicit Types (s : sb T) (x : tpclient T).

Lemma writes_to_app f bs1 bs2 ws1 ws2 :
  writes_to f bs1 ws1 -> writes_to f bs2 ws2 -> writes_to f (bs1 ++ bs2) (ws1 ++ ws2).
Proof.
  intros [H1 <-] [H2 <-]. split; [by apply Forall_app|]. by rewrite fmap_app, concat_app.
Qed.

Lemma writes_to_stream f bs ws s :
  writes_to f bs ws -> stream f (set_out (out s ++ ws) s) = stream f s ++ bs.
Proof.
  intros [HF <-]. unfold stream. cbn [out set_out]. rewrite filter_app, fmap_app, concat_app.
  do 3 f_equal. induction HF as [|w ws Hw HF IH]; [done|]. by rewrite filter_cons_True, IH.
Qed.

Lemma writes_to_other f f' bs ws s :
  writes_to f bs ws -> f' <> f -> stream f' (set_out (out s ++ ws) s) = stream f' s.
Proof.
  intros [HF _] Hne. unfold stream. cbn [out set_out]. rewrite filter_app, fmap_app, concat_app.
  replace (filter (fun w => fst w = f') ws) with (@nil (Z * list byte)); [by rewrite app_nil_r|].
  induction HF as [|w ws Hw HF IH]; [done|]. by rewrite filter_cons_False by congruence.
Qed.

Lemma wp_deref {A} (get : sb T -> gmap Z A) p v s Q :
  p <> 0 -> get s !! p = Some v -> Q v s -> wp (deref get p) s Q.
Proof. intros Hp E HQ. unfold deref. rewrite (proj2 (Z.eqb_neq p 0)) by done. by wp_steps. Qed.

Lemma wp_get_client c x s Q :
  c <> 0 -> clients s !! c = Some x -> Q x s -> wp (get_client c) s Q.
Proof. apply wp_deref. Qed.
Lemma wp_get_svc p v s Q : p <> 0 -> svcs s !! p = Some v -> Q v s -> wp (get_svc p) s Q.
Proof. apply wp_deref. Qed.
Lemma wp_get_adv a v s Q : a <> 0 -> advs s !! a = Some v -> Q v s -> wp (get_adv a) s Q.
Proof. apply wp_deref. Qed.
Lemma wp_get_trans t v s Q : t <> 0 -> trans s !! t = Some v -> Q v s -> wp (get_trans t) s Q.
Proof. apply wp_deref. Qed.

Lemma get_client_run s c x : c <> 0 -> clients s !! c = Some x -> get_client c s = Done (x, s).
Proof. intros. apply wp_eq. by eapply wp_get_client. Qed.
Lemma get_trans_run s t v : t <> 0 -> trans s !! t = Some v -> get_trans t s = Done (v, s).
Proof. intros. apply wp_eq. by eapply wp_get_trans. Qed.

Lemma wp_put_client c f x s Q :
  c <> 0 -> clients s !! c = Some x -> Q tt (set_clients (<[c := f x]> (clients s)) s) ->
  wp (put_client c f) s Q.
Proof. intros. unfold put_client. wp_step. eapply wp_get_client; [done..|]. by wp_steps. Qed.
Lemma wp_put_svc p f v s Q :
  p <> 0 -> svcs s !! p = Some v -> Q tt (set_svcs (<[p := f v]> (svcs s)) s) -> wp (put_svc p f) s Q.
Proof. intros. unfold put_svc. wp_step. eapply wp_get_svc; [done..|]. by wp_steps. Qed.
Lemma wp_put_trans t f v s Q :
  t <> 0 -> trans s !! t = Some v -> Q tt (set_trans (<[t := f v]> (trans s)) s) ->
  wp (put_trans t f) s Q.
Proof. intros. unfold put_trans. wp_step. eapply wp_get_trans; [done..|]. by wp_steps. Qed.

Lemma wp_in_mem {A} (c : M tpmem A) s a m' Q :
  c (mem s) = Done (a, m') -> Q a (set_mem m' s) -> wp (in_mem c) s Q.
Proof. intros E HQ. unfold in_mem. wp_step. by eapply wp_of_eq. Qed.

Lemma set_mem_id s : set_mem (mem s) s = s.
Proof. by destruct s. Qed.

(** An operation on the buffers that changes nothing. *)
Lemma wp_in_mem_read {A} (c : M tpmem A) s a Q :
  c (mem s) = Done (a, mem s) -> Q a s -> wp (in_mem c) s Q.
Proof. intros E HQ. eapply wp_in_mem; [exact E|]. by rewrite set_mem_id. Qed.

Lemma wp_in_q {A} (c : M (gmap qaddr (QUEUE qaddr)) A) s a m' Q :
  c (qm s) = Done (a, m') -> Q a (set_qm m' s) -> wp (in_q c) s Q.
Proof. intros E HQ. unfold in_q. wp_step. by eapply wp_of_eq. Qed.

Lemma set_qm_id s : set_qm (qm s) s = s.
Proof. by destruct s. Qed.

Lemma wp_in_q_read {A} (c : M (gmap qaddr (QUEUE qaddr)) A) s a Q :
  c (qm s) = Done (a, qm s) -> Q a s -> wp (in_q c) s Q.
Proof. intros E HQ. eapply wp_in_q; [exact E|]. by rewrite set_qm_id. Qed.

(** ** Output *)

Lemma wp_svrwrite c x val s Q :
  c <> 0 -> clients s !! c = Some x ->
  Q tt (set_out (out s ++ [(fd x, val)]) s) -> wp (svrwrite c val) s Q.
Proof.
  intros Hc Hx HQ. unfold svrwrite. wp_step. apply wp_assert; [by rewrite (proj2 (Z.eqb_neq c 0))|].
  wp_step. eapply wp_get_client; [done..|]. by wp_step.
Qed.

(** [wp] of an output: the state after it is the state before with some writes
    to the client's descriptor, which together send [bs]. *)
Definition emits (m : M (sb T) unit) (c : Z) (bs : list byte) : Prop :=
  forall s x Q, c <> 0 -> clients s !! c = Some x ->
    (forall ws, writes_to (fd x) bs ws -> Q tt (set_out (out s ++ ws) s)) -> wp m s Q.

Lemma emits_svrwrite c val : emits (svrwrite c val) c val.
Proof.
  intros s x Q Hc Hx HQ. eapply wp_svrwrite; [done..|]. apply HQ. split; [by constructor|].
  simpl. by rewrite app_nil_r.
Qed.

Lemma emits_then m1 m2 c bs1 bs2 :
  emits m1 c bs1 -> emits m2 c bs2 -> emits (m1 ;; m2) c (bs1 ++ bs2).
Proof.
  intros H1 H2 s x Q Hc Hx HQ. wp_step. eapply H1; [done..|]. intros ws1 W1.
  eapply H2; [done | exact Hx |]. intros ws2 W2.
  specialize (HQ (ws1 ++ ws2) (writes_to_app _ _ _ _ _ W1 W2)).
  cbn [out set_out]. by rewrite <- app_assoc.
Qed.

Lemma emits_svrwriteb c v : emits (svrwriteb c v) c [z2b v].
Proof. apply emits_svrwrite. Qed.

Lemma emits_svrwrites c v : emits (svrwrites c v) c (le_encode 2 v).
Proof.
  rewrite <- short_bytes. unfold svrwrites.
  replace (z2b (Z.shiftr (uwrap 16 v) 8)) with (z2b (Z.land (Z.shiftr (uwrap 16 v) 8) 0xFF)).
  - apply (emits_then _ _ _ [_] [_]); apply emits_svrwriteb.
  - rewrite (land_ones_mod _ 8) by lia. apply z2b_mod.
Qed.

Lemma emits_svrwritel c v : emits (svrwritel dm c v) c (le_encode 4 v).
Proof.
  rewrite <- (long_shorts dm). unfold svrwritel.
  rewrite (le_encode_mod 2 (Z.shiftr (ulong dm v) 16) (Z.land (Z.shiftr (ulong dm v) 16) 0xFFFF)).
  - apply emits_then; apply emits_svrwrites.
  - rewrite (land_ones_mod _ 16) by lia. symmetry. apply Zmod_mod.
Qed.

(** ** Waiting for the next command *)

(** A client that waits for nothing: its handler runs. *)
Definition idle x : Prop := handler_fn x = None /\ input x = NULL /\ used x = 0.

Lemma wp_svriowait call c x p len f s Q :
  c <> 0 -> clients s !! c = Some x -> idle x -> tpbuf dm (tp_heap (mem s)) p len -> 0 < len ->
  Q tt (set_clients (<[c := set_io 0 p (Some f) x]> (clients s)) s) ->
  wp (svriowait dm call c p f) s Q.
Proof.
  intros Hc Hx (I1 & I2 & I3) Hb Hl HQ. unfold svriowait. wp_step. apply wp_assert.
  { rewrite (proj2 (Z.eqb_neq c 0)) by done.
    rewrite bool_decide_false; [done|]. intros ->. by destruct Hb as (_ & ? & _). }
  wp_step. eapply wp_get_client; [done..|]. wp_step. apply wp_assert.
  { by rewrite I1, I2, I3, !bool_decide_true. }
  wp_step. eapply wp_in_mem_read; [by apply tplen_buf|].
  rewrite (proj2 (Z.eqb_neq len 0)) by lia. simpl negb. cbv iota. by eapply wp_put_client.
Qed.

Lemma wp_svr_next_command c x s Q :
  c <> 0 -> clients s !! c = Some x -> idle x -> heap_wf (tp_heap (mem s)) ->
  oom_now (tp_heap (mem s)) = false ->
  (forall b, tpblock dm b 1 ->
    Q tt (set_clients (<[c := set_io 0 (Ptr (brk (tp_heap (mem s))) (sizeof_tpmemory dm)) (Some H_command) x]>
            (clients s))
          (set_mem (set_heap (heap_alloc (tp_heap (mem s)) b) (mem s)) s))) ->
  wp (svr_next_command dm c) s Q.
Proof.
  intros Hc Hx Hi Hwf Ho HQ. unfold svr_next_command. wp_step.
  destruct (tpalloc_ok dm NULL NULL 1 (mem s)) as (b & Hb & E);
    [done | done | unfold LONG_MAX; destruct dm; simpl; lia |].
  eapply wp_in_mem; [exact E|]. eapply (wp_svriowait _ _ x _ 1); [done | done | done | | lia |].
  - by apply (heap_alloc_buf dm (mem s) b 1).
  - by apply HQ.
Qed.

End Rules.
