(* ===== verification/TxIo.v ===== *)
(** * The connection to the switchboard

    [tx_io.c] and the routines of the TX library that do nothing but return.
    The state is one client process: its connection to the switchboard, its
    typed buffers and the globals [tperrno] and [tpurcode].  What the kernel
    answers comes from two oracles: how much each [read] returns (or that it
    fails) and how much each [write] takes. *)

From Stdlib Require Import ZArith Lia String.
From Stdlib Require Import Strings.Byte.
From S2P Require Import Prelude Constants Xa ByteOrder Memory TpMemory.

Local Open Scope string_scope.
Local Open Scope Z_scope.
Local Open Scope list_scope.

Record conn := mkConn {
  tx_server : Z;                (* _tx_server *)
  incoming : list byte;         (* what the switchboard has written and we have not read *)
  reads : list (option nat);    (* the next reads: fail, or a limit on the bytes returned *)
  sent : list byte;             (* what we have written to the switchboard *)
  writes : list (option nat);   (* the next writes: fail, or a limit on the bytes taken *)
  stderr : list (list byte);    (* what was written to descriptor 2 *)
  cmem : tpmem;                 (* typed buffers and tperrno *)
  tpurcode : Z;
  longjmp_okay : bool;          (* _tp_longjmp_okay *)
  val_addr : Z;                 (* the address that tx_write's message prints *)
  literal_pad : byte;           (* what lies behind the string constant [", "] *)
  fds_closed : list Z;          (* the descriptors given to close *)
}.

Definition set_tx_server (x : Z) (s : conn) : conn :=
  mkConn x (incoming s) (reads s) (sent s) (writes s) (stderr s) (cmem s) (tpurcode s) (longjmp_okay s) (val_addr s) (literal_pad s) (fds_closed s).
Definition set_incoming (x : list byte) (r : list (option nat)) (s : conn) : conn :=
  mkConn (tx_server s) x r (sent s) (writes s) (stderr s) (cmem s) (tpurcode s) (longjmp_okay s) (val_addr s) (literal_pad s) (fds_closed s).
Definition set_sent (x : list byte) (w : list (option nat)) (s : conn) : conn :=
  mkConn (tx_server s) (incoming s) (reads s) x w (stderr s) (cmem s) (tpurcode s) (longjmp_okay s) (val_addr s) (literal_pad s) (fds_closed s).
Definition set_stderr (x : list (list byte)) (s : conn) : conn :=
  mkConn (tx_server s) (incoming s) (reads s) (sent s) (writes s) x (cmem s) (tpurcode s) (longjmp_okay s) (val_addr s) (literal_pad s) (fds_closed s).
Definition set_cmem (x : tpmem) (s : conn) : conn :=
  mkConn (tx_server s) (incoming s) (reads s) (sent s) (writes s) (stderr s) x (tpurcode s) (longjmp_okay s) (val_addr s) (literal_pad s) (fds_closed s).
Definition set_tpurcode (x : Z) (s : conn) : conn :=
  mkConn (tx_server s) (incoming s) (reads s) (sent s) (writes s) (stderr s) (cmem s) x (longjmp_okay s) (val_addr s) (literal_pad s) (fds_closed s).
Definition set_fds_closed (x : list Z) (s : conn) : conn :=
  mkConn (tx_server s) (incoming s) (reads s) (sent s) (writes s) (stderr s) (cmem s) (tpurcode s) (longjmp_okay s) (val_addr s) (literal_pad s) x.
Definition set_longjmp_okay (x : bool) (s : conn) : conn :=
  mkConn (tx_server s) (incoming s) (reads s) (sent s) (writes s) (stderr s) (cmem s) (tpurcode s) x (val_addr s) (literal_pad s) (fds_closed s).

Definition in_cmem {A} (m : M tpmem A) : M conn A := zoom cmem set_cmem m.
Definition set_errno (e : Z) : M conn unit := in_cmem (modify (set_tperrno e)).

(** ** The kernel *)

(** [read(_tx_server, buf, len)] for [len > 0]: [None] for -1, else the bytes
    (none at the end of the stream). *)
Definition sys_read (len : nat) : M conn (option (list byte)) := fun s =>
  match reads s with
  | None :: r => Done (None, set_incoming (incoming s) r s)
  | Some k :: r =>
      let n := Nat.min (S k) len in
      Done (Some (take n (incoming s)), set_incoming (drop n (incoming s)) r s)
  | [] => Done (Some (take len (incoming s)), set_incoming (drop len (incoming s)) [] s)
  end.

(** [write(_tx_server, val, len)]: -1, or the number of bytes taken. *)
Definition sys_write (val : list byte) : M conn Z := fun s =>
  match writes s with
  | None :: w => Done (-1, set_sent (sent s) w s)
  | Some k :: w =>
      let n := Nat.min k (length val) in
      Done (Z.of_nat n, set_sent (sent s ++ take n val) w s)
  | [] => Done (Z.of_nat (length val), set_sent (sent s ++ val) [] s)
  end.

(** [write(2, ...)] *)
Definition write2 (bs : list byte) : M conn unit := modify (fun s => set_stderr (stderr s ++ [bs]) s).

(** ** Diagnostics: [writei], [writex] *)

(** The digits of [i], least significant first, as the loop produces them; the
    fuel is the room in the buffer, a digit more than it is out of bounds. *)
Fixpoint digits (base : Z) (digit : Z -> byte) (room : nat) (i : Z) : M conn (list byte) :=
  match room with
  | O => raise OutOfBounds
  | S room' =>
      if Z.quot i base =? 0 then mret [digit (Z.rem i base)]
      else r ← digits base digit room' (Z.quot i base); mret (digit (Z.rem i base) :: r)
  end.

Definition dec_digit (d : Z) : byte := z2b (48 + d).
Definition hex_digit (d : Z) : byte := z2b (if d <? 10 then 48 + d else 87 + d).

Definition writei (s : list byte) (i : Z) : M conn unit :=
  let neg := i <? 0 in
  p ← digits 10 dec_digit 10 (if neg then swrap 32 (- i) else i);
  write2 s ;;
  (if neg then write2 [x2d] else mret tt) ;;
  write2 (reverse p).

(** The buffer of ten characters also takes the prefix [0x]. *)
Definition writex (dm : data_model) (s : list byte) (p : Z) : M conn unit :=
  d ← digits 16 hex_digit 10 (ulong dm p);
  if (10 <? length d + 2)%nat then raise OutOfBounds
  else write2 s ;; write2 (x30 :: x78 :: reverse d).

(** ** Output *)

Section Output.
Context (dm : data_model).

(** What [tx_write] does once [write] has returned [ret].  The second part of
    the message is written with a length of 4 from a string constant of 2. *)
Definition tx_write_done (ret len : Z) : M conn Z :=
  s ← gets id;
  (if negb (ret =? len) then
     writei (list_byte_of_string "write(") (tx_server s) ;;
     writex dm [x2c; x20; x00; literal_pad s] (val_addr s) ;;
     writei (list_byte_of_string ", ") len ;;
     writei (list_byte_of_string ") returned ") ret ;;
     write2 (list_byte_of_string ".  expect to go down with the ship." ++ [x0a])
   else mret tt) ;;
  mret (if ret =? len then TX_OK else TX_FAIL).

(** [tx_write(val, len)] where [val] points to the [len] bytes given. *)
Definition tx_write (val : list byte) : M conn Z :=
  ret ← sys_write val;
  tx_write_done ret (Z.of_nat (length val)).

(** [tx_write(p, len)] of a typed buffer: [len] is converted to [int]; the
    kernel refuses a negative length and the null pointer. *)
Definition tx_write_at (p : ptr) (len : Z) : M conn Z :=
  let n := swrap 32 len in
  if (n <? 0) || ((0 <? n) && bool_decide (p = NULL)) then tx_write_done (-1) n
  else if n =? 0 then tx_write []
  else d ← in_cmem (in_heap (load_bytes p n)); tx_write d.

Definition tx_writeb (val : Z) : M conn Z := tx_write [z2b val].

Definition tx_writes (val : Z) : M conn Z :=
  let val := uwrap 16 val in
  r ← tx_writeb (Z.land val 0xFF);
  if negb (r =? TX_OK) then mret TX_FAIL
  else r' ← tx_writeb (Z.shiftr val 8); mret (if r' =? TX_OK then TX_OK else TX_FAIL).

Definition tx_writel (val : Z) : M conn Z :=
  let val := ulong dm val in
  r ← tx_writes (Z.land val 0xFFFF);
  if negb (r =? TX_OK) then mret TX_FAIL
  else r' ← tx_writes (Z.shiftr val 16); mret (if r' =? TX_OK then TX_OK else TX_FAIL).

End Output.

(** ** Input *)

(** The loop of [tx_read]: the return code and the bytes stored in the buffer. *)
Fixpoint tx_read_loop (fuel len : nat) : M conn (Z * list byte) :=
  match fuel with
  | O => raise OutOfFuel
  | S fuel' =>
      if (len =? 0)%nat then mret (TX_OK, [])
      else
        i ← sys_read len;
        match i with
        | None => mret (TX_FAIL, [])
        | Some [] => mret (TX_FAIL, [])
        | Some bs =>
            r ← tx_read_loop fuel' (len - length bs);
            mret (fst r, bs ++ snd r)
        end
  end.

(** Every iteration reads a byte or returns, so [len + 1] iterations are enough. *)
Definition tx_read (len : nat) : M conn (Z * list byte) := tx_read_loop (S len) len.

(** [tx_read(p, len)] into a typed buffer.  [len] is converted to [int], and
    nothing is read when it is not positive; a [read] to the null pointer fails. *)
Definition tx_read_at (p : ptr) (len : Z) : M conn Z :=
  let n := swrap 32 len in
  if n <=? 0 then mret TX_OK
  else if bool_decide (p = NULL) then mret TX_FAIL
  else
    r ← tx_read (Z.to_nat n);
    in_cmem (in_heap (store_bytes p (snd r))) ;;
    mret (fst r).

(** ** The rest of TX *)

Definition tx_begin : M conn Z := mret TX_OK.
Definition tx_commit : M conn Z := mret TX_OK.
Definition tx_rollback : M conn Z := mret TX_OK.
(** The structure that its argument points to is part of the result. *)
Definition tx_info (info : TXINFO) : M conn (Z * TXINFO) := mret (TX_OK, info).
Definition tx_set_commit_return (c : Z) : M conn Z := mret TX_OK.
Definition tx_set_transaction_control (c : Z) : M conn Z := mret TX_OK.
Definition tx_set_transaction_timeout (t : Z) : M conn Z := mret TX_OK.
Definition tx_close : M conn Z :=
  modify (fun s => set_fds_closed (fds_closed s ++ [tx_server s]) s) ;;
  modify (set_tx_server (-1)) ;; mret TX_OK.

(** ** Lemmas *)

(** The parts of the state that input and output do not touch. *)
Definition same_client (s s' : conn) : Prop :=
  cmem s' = cmem s /\ tpurcode s' = tpurcode s /\ longjmp_okay s' = longjmp_okay s /\
  tx_server s' = tx_server s /\ val_addr s' = val_addr s /\ fds_closed s' = fds_closed s.

Lemma same_client_refl s : same_client s s.
Proof. repeat split. Qed.
Lemma same_client_trans s1 s2 s3 : same_client s1 s2 -> same_client s2 s3 -> same_client s1 s3.
Proof. unfold same_client. naive_solver congruence. Qed.
#[export] Hint Resolve same_client_refl same_client_trans : hoodie.

(** A number that fits the room has its digits written. *)
Lemma digits_fit base digit room i s :
  1 < base -> 0 <= i < base ^ Z.of_nat room -> (0 < room)%nat ->
  exists l, digits base digit room i s = Done (l, s) /\ (0 < length l <= room)%nat.
Proof.
  intros Hb. revert i; induction room as [|room IH]; intros i Hi Hr; [lia|].
  cbn [digits]. rewrite Z.quot_div_nonneg by lia.
  destruct (Z.eqb_spec (i / base) 0) as [E|E]; [eexists; split; [done | simpl; lia]|].
  rewrite Nat2Z.inj_succ, Z.pow_succ_r in Hi by lia.
  destruct (decide (room = 0%nat)) as [->|Hn].
  { exfalso. apply E. apply Z.div_small. simpl in Hi. lia. }
  destruct (IH (i / base)) as (l & El & Hl);
    [split; [apply Z.div_pos; lia | apply Z.div_lt_upper_bound; lia] | lia |].
  unfold mbind, M_bind. rewrite El. eexists. split; [done | simpl; lia].
Qed.

(** More room does not change the digits. *)
Lemma digits_more base digit room i s l :
  digits base digit room i s = Done (l, s) -> digits base digit (S room) i s = Done (l, s).
Proof.
  revert i l; induction room as [|room IH]; intros i l; [done|].
  assert (forall r j, digits base digit (S r) j =
    if Z.quot j base =? 0 then mret [digit (Z.rem j base)]
    else l ← digits base digit r (Z.quot j base); mret (digit (Z.rem j base) :: l)) as E by done.
  rewrite (E (S room)), (E room). destruct (_ =? 0); [done|]. unfold mbind, M_bind.
  destruct (digits base digit room (Z.quot i base) s) as [[l2 s2]|] eqn:E2; [|done].
  intros [= <- ->]. by rewrite (IH _ _ E2).
Qed.

(** The values whose diagnostic fits the ten characters of [writei]. *)
Lemma writei_total msg i s :
  - 2 ^ 31 < i < 2 ^ 31 -> exists e, writei msg i s = Done (tt, set_stderr e s).
Proof.
  intros Hi. unfold writei, mbind, M_bind.
  destruct (digits_fit 10 dec_digit 10 (if i <? 0 then swrap 32 (- i) else i) s) as (l & -> & _); [lia| |lia|].
  - destruct (Z.ltb_spec i 0); [rewrite swrap_id|]; change (2 ^ 31) with 2147483648 in *; lia.
  - destruct (i <? 0); eexists; unfold write2, modify, set_stderr; simpl; done.
Qed.

Lemma writex_total dm msg p s :
  0 <= ulong dm p < 2 ^ 32 -> exists e, writex dm msg p s = Done (tt, set_stderr e s).
Proof.
  intros Hp. unfold writex, mbind, M_bind.
  destruct (digits_fit 16 hex_digit 8 (ulong dm p) s) as (l & E & Hl); [lia | lia | lia |].
  do 2 apply digits_more in E. rewrite E. rewrite (proj2 (Nat.ltb_ge _ _)) by lia.
  eexists. done.
Qed.

(** The addresses for which [tx_write]'s message does not overflow its buffer,
    and a descriptor that is an [int]. *)
Definition printable_state (dm : data_model) (s : conn) : Prop :=
  ulong dm (val_addr s) < 2 ^ 32 /\ -1 <= tx_server s < 2 ^ 31.

Lemma tx_write_done_total dm ret len s :
  printable_state dm s -> -1 <= ret < 2 ^ 31 -> -1 <= len < 2 ^ 31 ->
  exists e, tx_write_done dm ret len s = Done (if ret =? len then TX_OK else TX_FAIL, set_stderr e s).
Proof.
  intros [Ha Hs] Hr Hl. unfold tx_write_done, mbind, M_bind, gets. cbn [id].
  assert (0 <= ulong dm (val_addr s)) by (apply uwrap_range; destruct dm; simpl; lia).
  destruct (Z.eqb_spec ret len) as [E|E]; simpl.
  { exists (stderr s). by destruct s. }
  destruct (writei_total (list_byte_of_string "write(") (tx_server s) s) as [e1 ->]; [lia|].
  destruct (writex_total dm [x2c; x20; x00; literal_pad s] (val_addr s) (set_stderr e1 s)) as [e2 ->]; [lia|].
  destruct (writei_total (list_byte_of_string ", ") len (set_stderr e2 (set_stderr e1 s))) as [e3 ->]; [lia|].
  destruct (writei_total (list_byte_of_string ") returned ") ret
    (set_stderr e3 (set_stderr e2 (set_stderr e1 s)))) as [e4 ->]; [lia|].
  eexists. done.
Qed.

(** [wrote s s' r bs]: an output of [bs] that returned [r].  On success all the
    bytes are sent, on failure a prefix of them; with a kernel that takes
    everything it succeeds.  Nothing else of the client changes. *)
Definition wrote (s s' : conn) (r : Z) (bs : list byte) : Prop :=
  same_client s s' /\ incoming s' = incoming s /\ reads s' = reads s /\
  ((r = TX_OK /\ sent s' = sent s ++ bs) \/
   (r = TX_FAIL /\ exists pre, pre `prefix_of` bs /\ sent s' = sent s ++ pre)) /\
  (writes s = [] -> r = TX_OK /\ writes s' = []).

Lemma wrote_app s1 s2 s3 r bs1 bs2 :
  wrote s1 s2 TX_OK bs1 -> wrote s2 s3 r bs2 -> wrote s1 s3 r (bs1 ++ bs2).
Proof.
  intros (C1 & I1 & R1 & S1 & W1) (C2 & I2 & R2 & S2 & W2).
  destruct S1 as [[_ S1]|[? _]]; [|done]. split_and!; [by eauto with hoodie | congruence..| |].
  - destruct S2 as [[-> S2]|[-> (pre & Hp & S2)]]; [left | right; split; [done|]].
    + by rewrite S2, S1, app_assoc.
    + exists (bs1 ++ pre). split; [by apply prefix_app | by rewrite S2, S1, app_assoc].
  - intros [_ E]%W1. by apply W2.
Qed.

Lemma wrote_fail s1 s2 bs1 bs2 : wrote s1 s2 TX_FAIL bs1 -> wrote s1 s2 TX_FAIL (bs1 ++ bs2).
Proof.
  intros (C & I & R & S & W). split_and!; try done. right. split; [done|].
  destruct S as [[? _]|[_ (pre & Hp & E)]]; [done|]. exists pre. split; [|done].
  by apply prefix_app_r.
Qed.

Lemma wrote_result s s' r bs : wrote s s' r bs -> r = TX_OK \/ r = TX_FAIL.
Proof. unfold wrote. tauto. Qed.

Lemma printable_same dm s s' : same_client s s' -> printable_state dm s -> printable_state dm s'.
Proof. unfold same_client, printable_state. naive_solver congruence. Qed.

Section OutputLemmas.
Context (dm : data_model).

Lemma tx_write_total val s :
  printable_state dm s -> Z.of_nat (length val) < 2 ^ 31 ->
  exists r s', tx_write dm val s = Done (r, s') /\ wrote s s' r val.
Proof.
  intros Hp Hl. unfold tx_write, mbind, M_bind.
  assert (exists ret sn w, sys_write val s = Done (ret, set_sent sn w s) /\
    -1 <= ret <= Z.of_nat (length val) /\
    (exists pre, pre `prefix_of` val /\ sn = sent s ++ pre) /\
    (ret = Z.of_nat (length val) -> sn = sent s ++ val) /\
    (writes s = [] -> ret = Z.of_nat (length val) /\ w = [])) as (ret & sn & w & -> & Hr & Hpre & Hall & Hw).
  { unfold sys_write. destruct (writes s) as [|[k|] w]; eexists _, _, _; (split; [done|]);
      split_and!; try lia; try done.
    - by exists val.
    - exists (take (Nat.min k (length val)) val). split; [apply prefix_take | done].
    - intros. rewrite take_ge by lia. done.
    - exists []. split; [apply prefix_nil | by rewrite app_nil_r]. }
  destruct (tx_write_done_total dm ret (Z.of_nat (length val)) (set_sent sn w s)) as [e ->];
    [done | lia | lia |].
  eexists _, _. split; [done|]. split; [repeat split|]. split; [done|]. split; [done|].
  destruct (Z.eqb_spec ret (Z.of_nat (length val))) as [E|E]; simpl; split.
  - left. by rewrite Hall.
  - intros W. by destruct (Hw W).
  - right. done.
  - intros W. by destruct (Hw W).
Qed.

(** A sequence of two outputs, the second only if the first succeeds. *)
Lemma tx_write_two (m1 m2 : M conn Z) s bs1 bs2 :
  (exists r s', m1 s = Done (r, s') /\ wrote s s' r bs1) ->
  (forall s', same_client s s' -> exists r s'', m2 s' = Done (r, s'') /\ wrote s' s'' r bs2) ->
  exists r s',
    (r ← m1; if negb (r =? TX_OK) then mret TX_FAIL
             else r' ← m2; mret (if r' =? TX_OK then TX_OK else TX_FAIL)) s = Done (r, s') /\
    wrote s s' r (bs1 ++ bs2).
Proof.
  intros (r1 & s1 & E1 & H1) Hm2. unfold mbind, M_bind. rewrite E1.
  destruct (wrote_result _ _ _ _ H1) as [->| ->].
  - cbn. destruct (Hm2 s1) as (r2 & s2 & E2 & H2); [apply H1|]. rewrite E2.
    eexists _, _. split; [done|].
    destruct (wrote_result _ _ _ _ H2) as [->| ->]; by eapply wrote_app.
  - cbn. eexists _, _. split; [done|]. by apply wrote_fail.
Qed.

Lemma tx_writeb_total val s :
  printable_state dm s ->
  exists r s', tx_writeb dm val s = Done (r, s') /\ wrote s s' r [z2b val].
Proof. intros. by apply tx_write_total. Qed.

Lemma tx_writes_total val s :
  printable_state dm s ->
  exists r s', tx_writes dm val s = Done (r, s') /\ wrote s s' r (le_encode 2 val).
Proof.
  intros Hp. rewrite <- short_bytes. apply (tx_write_two _ _ _ [_] [_]).
  - by apply tx_writeb_total.
  - intros s' Hs. apply tx_writeb_total. by eapply printable_same.
Qed.

Lemma tx_writel_total val s :
  printable_state dm s ->
  exists r s', tx_writel dm val s = Done (r, s') /\ wrote s s' r (le_encode 4 val).
Proof.
  intros Hp. rewrite <- (long_shorts dm). apply tx_write_two.
  - by apply tx_writes_total.
  - intros s' Hs. apply tx_writes_total. by eapply printable_same.
Qed.

End OutputLemmas.

(** [received s s' r bs len]: an input of [len] bytes that returned [r]. *)
Definition received (s s' : conn) (r : Z) (bs : list byte) (len : nat) : Prop :=
  same_client s s' /\ sent s' = sent s /\ writes s' = writes s /\
  incoming s = bs ++ incoming s' /\
  ((r = TX_OK /\ length bs = len) \/ (r = TX_FAIL /\ (length bs < len)%nat)) /\
  (Forall is_Some (reads s) -> (len <= length (incoming s))%nat -> r = TX_OK /\ Forall is_Some (reads s')).

Lemma sys_read_run len s :
  (0 < len)%nat ->
  exists o r', sys_read len s = Done (o, set_incoming (drop (length (default [] o)) (incoming s)) r' s) /\
    (Forall is_Some (reads s) -> Forall is_Some r' /\ is_Some o) /\
    match o with
    | None => True
    | Some bs => bs = take (length bs) (incoming s) /\ (length bs <= len)%nat /\
        (incoming s <> [] -> bs <> [])
    end.
Proof.
  intros Hl. unfold sys_read.
  assert (forall n, (0 < n <= len)%nat -> let bs := take n (incoming s) in
    drop n (incoming s) = drop (length bs) (incoming s) /\
    bs = take (length bs) (incoming s) /\ (length bs <= len)%nat /\ (incoming s <> [] -> bs <> [])) as Hn.
  { intros n Hn bs. unfold bs. rewrite length_take. split_and!.
    - destruct (decide (n <= length (incoming s))%nat); [by rewrite Nat.min_l by lia|].
      rewrite !drop_ge by lia. done.
    - destruct (decide (n <= length (incoming s))%nat); [by rewrite Nat.min_l by lia|].
      rewrite !take_ge by lia. done.
    - lia.
    - intros Hi E. apply (f_equal length) in E. rewrite length_take in E. simpl in E.
      destruct (incoming s); [done | simpl in E; lia]. }
  destruct (reads s) as [|[k|] r].
  - destruct (Hn len) as (E & ? & ? & ?); [lia|]. rewrite E.
    eexists (Some _), []. split; [done|]. split; [split; [constructor | done] | done].
  - destruct (Hn (Nat.min (S k) len)) as (E & ? & ? & ?); [lia|]. rewrite E.
    eexists (Some _), r. split; [done|]. split; [|done]. intros HF. split; [by inversion HF | done].
  - exists None, r. split; [done|]. split; [|done]. intros HF. inversion HF as [|? ? H _].
    by destruct H.
Qed.

Lemma tx_read_loop_total fuel len s :
  (len < fuel)%nat ->
  exists r bs s', tx_read_loop fuel len s = Done ((r, bs), s') /\ received s s' r bs len.
Proof.
  revert len s; induction fuel as [|fuel IH]; intros len s Hf; [lia|]. cbn [tx_read_loop].
  destruct (Nat.eqb_spec len 0) as [->|Hn].
  { eexists _, _, _. split; [done|]. split; [repeat split|]. split_and!; try done. by left. }
  unfold mbind, M_bind. destruct (sys_read_run len s) as (o & r' & -> & HF & Ho); [lia|].
  destruct o as [bs|].
  2:{ eexists _, _, _. split; [done|]. split; [repeat split|]. split_and!; try done; [right; simpl; lia |].
      intros [_ [? [=]]]%HF. }
  cbn [default from_option id] in *. destruct Ho as (E & Hlen & Hne). destruct bs as [|b bs].
  { eexists _, _, _. split; [done|]. split; [repeat split|]. split_and!; try done; [right; simpl; lia |].
    intros HF' Hinc. exfalso. apply Hne; [|done]. intros E0. rewrite E0 in Hinc. simpl in Hinc. lia. }
  set (s1 := set_incoming _ r' s).
  destruct (IH (len - length (b :: bs))%nat s1) as (r & bs' & s' & -> & H); [simpl in *; lia|].
  eexists _, _, _. split; [done|]. destruct H as (C & S & W & I & L & F). cbn [fst snd].
  split; [eapply same_client_trans; [|exact C]; repeat split|].
  split; [done|]. split; [done|]. split_and!.
  - rewrite <- app_assoc, <- I. rewrite E at 1. simpl incoming. by rewrite take_drop.
  - rewrite length_app. simpl length in *. destruct L as [[-> L]|[-> L]]; [left|right]; split; try done; lia.
  - intros HF' Hinc. destruct (HF HF') as [HF1 _]. apply F; [done|].
    unfold s1. cbn [incoming set_incoming]. rewrite length_drop. cbn [length] in *. lia.
Qed.

(** ** Properties *)

(** [tx_writel] never faults while the diagnostic fits its buffer: it
    returns [TX_OK] with exactly the four little-endian bytes of the number sent,
    or [TX_FAIL] with a prefix of them; a kernel that takes every byte makes it
    succeed, and the peer's [tolong] of the bytes is the number again, for every
    number that fits 32 bits, on both data models. *)
Lemma tx_writel_wire dm dm' val s :
  printable_state dm s -> - 2 ^ 31 <= val < 2 ^ 31 ->
  exists r s', tx_writel dm val s = Done (r, s') /\ wrote s s' r (le_encode IOLONG val) /\
    option_map (slong dm') (tolong dm' (le_encode IOLONG val) 0) = Some val.
Proof.
  intros Hp Hv. destruct (tx_writel_total dm val s Hp) as (r & s' & E & H).
  exists r, s'. split; [done|]. split; [done|].
  rewrite (tolong_encode dm' _ 0 val) by (apply take_ge; done). simpl. f_equal.
  rewrite (swrap_id 32) by lia. unfold slong, ulong. rewrite swrap_uwrap.
  apply swrap_id; destruct dm'; simpl; lia.
Qed.

(** C30. [tx_read] terminates and never faults, however the kernel splits the
    stream: it returns [TX_OK] with exactly the requested bytes, consumed in
    order, or [TX_FAIL] with fewer; if no read fails and the bytes are there, it
    succeeds. *)
Theorem tx_read_exact len s :
  exists r bs s', tx_read len s = Done ((r, bs), s') /\ received s s' r bs len.
Proof. apply tx_read_loop_total. lia. Qed.

(** A connection with nothing on it. *)
Definition wit_conn (inc : list byte) (r w : list (option nat)) : conn :=
  mkConn 3 inc r [] w [] wit_mem 0 false 4096 x00 [].

Lemma tx_writel_wire_witness :
  exists r s', tx_writel LP64 (-2) (wit_conn [] [] [Some 1%nat; Some 1%nat; Some 0%nat]) = Done (r, s') /\
    wrote (wit_conn [] [] [Some 1%nat; Some 1%nat; Some 0%nat]) s' r [xfe; xff; xff; xff].
Proof.
  destruct (tx_writel_wire LP64 ILP32 (-2) (wit_conn [] [] [Some 1%nat; Some 1%nat; Some 0%nat]))
    as (r & s' & E & H & _); [by vm_compute | vm_compute; split; congruence |].
  exists r, s'. split; [exact E | exact H].
Defined.
