(* ===== verification/Xatmi.v ===== *)
(** * The client library

    The XATMI routines that talk to the switchboard: [tpacall.c], [tpgetrply.c],
    [tpcall.c], [tpadvertise.c], [tpunadvertise.c], [tpreturn.c] (with
    [tpservice]), and the routines that are not supported.  A pointer argument
    that may be null is an [option]; what is stored through an output pointer is
    part of the result.  A service name is the memory readable from the pointer,
    of which the code sends [XATMI_SERVICE_NAME_LENGTH] bytes. *)

From Stdlib Require Import ZArith Lia String.
From Stdlib Require Import Strings.Byte.
From S2P Require Import Prelude Constants ByteOrder Memory TpMemory TxIo.

Local Open Scope string_scope.
Local Open Scope Z_scope.
Local Open Scope list_scope.

Section Client.
Context (dm : data_model).

(** [(tpurcode = m) == TX_OK] *)
Definition urcode (m : M conn Z) : M conn bool :=
  r ← m; modify (set_tpurcode r) ;; mret (r =? TX_OK).

(** [m1 && m2], the second only when the first succeeds; a chain of
    [(tpurcode = m) != TX_OK || ...] is the negation of it. *)
Definition and_then (m1 m2 : M conn bool) : M conn bool :=
  b ← m1; if (b : bool) then m2 else mret false.

(** [tpurcode = tx_read(buf, n)] into a local array: the bytes, if all arrived. *)
Definition urcode_read (n : nat) : M conn (option (list byte)) :=
  r ← tx_read n;
  modify (set_tpurcode (fst r)) ;;
  mret (if fst r =? TX_OK then Some (snd r) else None).

(** [tx_write(name, XATMI_SERVICE_NAME_LENGTH)] *)
Definition write_name (name : list byte) : M conn Z :=
  if (length name <? XATMI_SERVICE_NAME_LENGTH)%nat then raise OutOfBounds
  else tx_write dm (take XATMI_SERVICE_NAME_LENGTH name).

Definition fail_with (e : Z) : M conn Z := set_errno e ;; mret (-1).

(** ** [tpacall] *)

Definition tpacall (svc : option (list byte)) (data : ptr) (len flags : Z) : M conn Z :=
  match svc with
  | None => fail_with TPEINVAL
  | Some svc =>
      ok ← and_then (urcode (tx_writeb dm TPTCALL))
          (and_then (urcode (write_name svc))
          (and_then (urcode (tx_writel dm len)) (urcode (tx_writel dm flags))));
      if negb ok then fail_with TPESYSTEM
      else
        r ← urcode_read (1 + IOSHORT);
        match r with
        | None => fail_with TPESYSTEM
        | Some buf =>
            b ← ask OutOfBounds (buf !! 0%nat);
            v ← ask OutOfBounds (toshort buf 1);
            if negb (b2c b =? 0) then fail_with v
            else
              ok' ← urcode (tx_write_at dm data len);
              if negb ok' then fail_with TPESYSTEM else mret v
        end
  end.

(** ** [tpadvertise], [tpunadvertise] *)

(** The reply to both: an error number, 0 for success. *)
Definition short_reply : M conn Z :=
  r ← urcode_read IOSHORT;
  match r with
  | None => fail_with TPESYSTEM
  | Some buf =>
      v ← ask OutOfBounds (toshort buf 0);
      if negb (v =? 0) then fail_with v else mret 0
  end.

(** [func] is the address of the service routine. *)
Definition tpadvertise (svcname : option (list byte)) (func : Z) : M conn Z :=
  match svcname with
  | None => fail_with TPEINVAL
  | Some name =>
      if func =? 0 then fail_with TPEINVAL
      else
        ok ← and_then (urcode (tx_writeb dm TPTADVT))
            (and_then (urcode (write_name name)) (urcode (tx_writel dm func)));
        if negb ok then fail_with TPESYSTEM else short_reply
  end.

Definition tpunadvertise (svcname : option (list byte)) : M conn Z :=
  match svcname with
  | None => fail_with TPEINVAL
  | Some name =>
      ok ← and_then (urcode (tx_writeb dm TPTUADV)) (urcode (write_name name));
      if negb ok then fail_with TPESYSTEM else short_reply
  end.

(** ** [tpgetrply], [tpcall] *)

(** The return value, and [*cd], [*data] and [*len] afterwards. *)
Record grply := mkGrply { g_ret : Z; g_cd : Z; g_data : ptr; g_len : Z }.

(** [tpgetrply(&cd, &data, &len, flags)]; [nulls] says that one of the three
    pointers is null. *)
Definition tpgetrply (nulls : bool) (cd : Z) (data : ptr) (len flags : Z) : M conn grply :=
  let fail e := set_errno e ;; mret (mkGrply (-1) cd data len) in
  if nulls || (len =? 0) then fail TPEINVAL
  else
    ok ← and_then (urcode (tx_writeb dm TPTGRPLY))
        (and_then (urcode (tx_writes dm cd)) (urcode (tx_writel dm flags)));
    if negb ok then fail TPESYSTEM
    else
      r1 ← urcode_read (1 + IOSHORT);
      match r1 with
      | None => fail TPESYSTEM
      | Some buf1 =>
          b ← ask OutOfBounds (buf1 !! 0%nat);
          v ← ask OutOfBounds (toshort buf1 1);
          if negb (b2c b =? TPSUCCESS) && negb (b2c b =? TPFAIL) then fail v
          else
            r2 ← urcode_read (IOLONG + IOLONG);
            match r2 with
            | None => fail TPESYSTEM
            | Some buf2 =>
                set_errno (if b2c b =? TPFAIL then TPESVCFAIL else 0) ;;
                rc ← ask OutOfBounds (tolong dm buf2 0);
                modify (set_tpurcode (slong dm rc)) ;;
                l ← ask OutOfBounds (tolong dm buf2 IOLONG);
                let len' := slong dm l in
                data' ← (if negb (len' =? 0) then
                           d ← in_cmem (tprealloc dm data len');
                           tx_read_at d len' ;; mret d
                         else mret data);
                mret (mkGrply v v data' len')
            end
      end.

Definition tpcall (svc : option (list byte)) (idata : ptr) (ilen : Z)
    (nulls : bool) (odata : ptr) (olen flags : Z) : M conn grply :=
  cd ← tpacall svc idata ilen flags;
  if negb (cd =? -1) then tpgetrply nulls cd odata olen flags
  else mret (mkGrply (-1) cd odata olen).

(** ** [tpreturn], [tpservice] *)

(** How a call that may jump ends: normally, or in the [longjmp] to [tpservice]. *)
Inductive exit := Returned | Jumped.

Definition tpreturn (rval rcode : Z) (data : ptr) (len flags : Z) : M conn exit :=
  ok ← gets longjmp_okay;
  if negb ok then mret Returned
  else
    tx_writeb dm TPTRETN ;;
    tx_writeb dm (if negb (rval =? TPFAIL) && negb (rval =? TPSUCCESS) then TPFAIL else rval) ;;
    tx_writel dm rcode ;;
    (if bool_decide (data = NULL) then tx_writel dm 0
     else tx_writel dm len ;; tx_write_at dm data len) ;;
    mret Jumped.

(** [TPSVCINFO] as the bytes of its representation: the field offsets. *)
Definition o_data : nat := 16.
Definition o_len : nat := o_data + wordlen dm.
Definition o_flags : nat := o_len + wordlen dm.
Definition o_cd : nat := o_flags + wordlen dm.
Definition sizeof_TPSVCINFO : nat := o_data + 4 * wordlen dm.

(** The conversion of the fields in place, from the end of the structure to its
    start; the last eight bytes of the wire format lie over the fields. *)
Definition convert (info : list byte) : option (list byte) :=
  c ← toshort info (XATMI_SERVICE_NAME_LENGTH + IOLONG * 2);
  let info := wr info o_cd (le_encode 4 c) in
  f ← tolong dm info (XATMI_SERVICE_NAME_LENGTH + IOLONG);
  let info := wr info o_flags (le_encode (wordlen dm) f) in
  l ← tolong dm info XATMI_SERVICE_NAME_LENGTH;
  Some (wr info o_len (le_encode (wordlen dm) l)).

(** The fields as the program reads them; [i_data] is [None] while the bytes of
    the pointer are whatever the structure held or the message left there. *)
Record svcinfo := mkSvcinfo
  { i_name : list byte; i_data : option ptr; i_len : Z; i_flags : Z; i_cd : Z }.
Definition view (info : list byte) : svcinfo :=
  mkSvcinfo (rd info 0 XATMI_SERVICE_NAME_LENGTH) None
    (slong dm (le_decode (rd info o_len (wordlen dm))))
    (slong dm (le_decode (rd info o_flags (wordlen dm))))
    (swrap 32 (le_decode (rd info o_cd 4))).

Definition info_data (d : ptr) (i : svcinfo) : svcinfo :=
  mkSvcinfo (i_name i) (Some d) (i_len i) (i_flags i) (i_cd i).
Definition info_cd (c : Z) (i : svcinfo) : svcinfo :=
  mkSvcinfo (i_name i) (i_data i) (i_len i) (i_flags i) c.

(** The message of [tpservice]: the routine's address and the bytes that are
    read over the start of the structure [old]. *)
Definition WORK_LENGTH : nat := XATMI_SERVICE_NAME_LENGTH + IOLONG * 2 + IOSHORT.

(** [tpservice(&info)] where [info] is not null.  [old] is what the structure holds before and
    [routines] is the program: the routine at each address, which is given the structure,
    ends in [Jumped] if it called [tpreturn] and that jumped, and leaves the structure as
    it is in the second component. *)
Definition tpservice_at (routines : Z -> option (svcinfo -> M conn (exit * svcinfo))) (old : list byte)
  : M conn svcinfo :=
  tx_writeb dm TPTWORK ;;
  let fail info := set_errno TPESYSTEM ;; mret (info_cd 0 info) in
  r ← urcode_read IOLONG;
  match r with
  | None => fail (view old)
  | Some opaque =>
      r ← tx_read WORK_LENGTH;
      modify (set_tpurcode (fst r)) ;;
      let raw := wr old 0 (snd r) in
      if negb (fst r =? TX_OK) then fail (view raw)
      else
        b ← ask OutOfBounds (convert raw);
        func ← ask OutOfBounds (tolong dm opaque 0);
        d ← in_cmem (tpalloc dm NULL NULL (i_len (view b)));
        let info := info_data d (view b) in
        ok ← urcode (tx_read_at d (i_len info));
        if negb ok then fail info
        else
          modify (set_longjmp_okay true) ;;
          f ← ask WrongStruct (routines func);
          r ← f info;
          (match fst r with
           | Jumped => mret tt
           | Returned =>
               tx_writeb dm TPTRETN ;; tx_writeb dm TPERRNO ;;
               tx_writel dm TPESVCERR ;; tx_writel dm 0 ;; mret tt
           end) ;;
          modify (set_longjmp_okay false) ;;
          p ← ask OutOfBounds (i_data (snd r));
          in_cmem (tpfree dm p) ;;
          mret (info_data NULL (snd r))
  end.

Definition tpservice (routines : Z -> option (svcinfo -> M conn (exit * svcinfo))) (info : option (list byte))
  : M conn (option svcinfo) :=
  match info with
  | None => mret None
  | Some old => i ← tpservice_at routines old; mret (Some i)
  end.

(** ** Routines that are not supported *)

Definition not_supported (what : string) : M conn Z :=
  write2 (list_byte_of_string what ++ list_byte_of_string " not supported" ++ [x0a]) ;;
  fail_with TPEPROTO.

Definition tpcancel (cd : Z) : M conn Z := not_supported "tpcancel".
Definition tpconnect (svc : option (list byte)) (data : ptr) (len flags : Z) : M conn Z :=
  not_supported "tpconnect".
Definition tpdiscon (cd : Z) : M conn Z := not_supported "tpdiscon".
Definition tpsend (cd : Z) (data : ptr) (len flags revent : Z) : M conn Z := not_supported "tpsend".
Definition tprecv (cd : Z) (data len : ptr) (flags revent : Z) : M conn Z := not_supported "tprecv".

End Client.

(** ** Rules for a working connection *)

(** The client's state on a connection whose writes are taken whole and whose
    reads do not fail, however they are split; what is printed is left out. *)
Record conn_is (s : conn) (inc snt : list byte) (m : tpmem) (ur : Z) (lj : bool) : Prop :=
  mkConnIs {
    ci_incoming : incoming s = inc;
    ci_sent : sent s = snt;
    ci_cmem : cmem s = m;
    ci_tpurcode : tpurcode s = ur;
    ci_longjmp : longjmp_okay s = lj;
    ci_writes : writes s = [];
    ci_reads : Forall is_Some (reads s);
  }.

Section Rules.
Context (dm : data_model).
Implicit Types (s : conn) (inc snt : list byte) (m : tpmem) (ur : Z) (lj : bool).

Lemma wp_tx_write s inc snt m ur lj val Q :
  conn_is s inc snt m ur lj ->
  (forall s', conn_is s' inc (snt ++ val) m ur lj -> Q TX_OK s') -> wp (tx_write dm val) s Q.
Proof.
  intros [I S C U L W R] HQ. unfold tx_write, wp, mbind, M_bind, sys_write. rewrite W.
  unfold tx_write_done, mbind, M_bind, gets. rewrite Z.eqb_refl. simpl. apply HQ. subst.
  by constructor.
Qed.

Lemma wp_tx_writeb s inc snt m ur lj v Q :
  conn_is s inc snt m ur lj ->
  (forall s', conn_is s' inc (snt ++ [z2b v]) m ur lj -> Q TX_OK s') -> wp (tx_writeb dm v) s Q.
Proof. apply wp_tx_write. Qed.

Lemma wp_tx_writes s inc snt m ur lj v Q :
  conn_is s inc snt m ur lj ->
  (forall s', conn_is s' inc (snt ++ le_encode 2 v) m ur lj -> Q TX_OK s') -> wp (tx_writes dm v) s Q.
Proof.
  intros Hs HQ. unfold tx_writes. wp_step. eapply wp_tx_writeb; [done|]. intros s1 H1. simpl negb.
  cbv iota. wp_step. eapply wp_tx_writeb; [done|]. intros s2 H2. wp_step. apply HQ.
  rewrite <- app_assoc in H2. cbn [app] in H2. by rewrite short_bytes in H2.
Qed.

Lemma wp_tx_writel s inc snt m ur lj v Q :
  conn_is s inc snt m ur lj ->
  (forall s', conn_is s' inc (snt ++ le_encode 4 v) m ur lj -> Q TX_OK s') -> wp (tx_writel dm v) s Q.
Proof.
  intros Hs HQ. unfold tx_writel. wp_step. eapply wp_tx_writes; [done|]. intros s1 H1. simpl negb.
  cbv iota. wp_step. eapply wp_tx_writes; [done|]. intros s2 H2. wp_step. apply HQ.
  by rewrite <- app_assoc, long_shorts in H2.
Qed.

Lemma wp_tx_read s bs inc snt m ur lj n Q :
  conn_is s (bs ++ inc) snt m ur lj -> length bs = n ->
  (forall s', conn_is s' inc snt m ur lj -> Q (TX_OK, bs) s') -> wp (tx_read n) s Q.
Proof.
  intros [I S C U L W R] <- HQ.
  destruct (tx_read_loop_total (Datatypes.S (length bs)) (length bs) s) as (r & bs' & s' & E & H); [lia|].
  unfold wp, tx_read. rewrite E.
  destruct H as ((C1 & C2 & C3 & _) & S' & W' & I' & L' & F).
  destruct F as [-> F]; [done | rewrite I, length_app; lia |].
  destruct L' as [[_ L']|[? _]]; [|done].
  rewrite I in I'. apply app_inj_1 in I' as [-> ->]; [|done].
  apply HQ. constructor; congruence.
Qed.

Lemma wp_urcode c s inc snt m ur lj r Q :
  wp c s (fun r' s' => r' = r /\ conn_is s' inc snt m ur lj) ->
  (forall s', conn_is s' inc snt m r lj -> Q (r =? TX_OK) s') -> wp (urcode c) s Q.
Proof.
  intros Hc HQ. unfold urcode. wp_step. eapply wp_mono; [exact Hc|]. intros ? s' [-> [I S C U L W R]].
  wp_steps. apply HQ. by constructor.
Qed.

Lemma conn_is_tpurcode s r inc snt m ur lj :
  conn_is s inc snt m ur lj -> conn_is (set_tpurcode r s) inc snt m r lj.
Proof. intros [I S C U L W R]. by constructor. Qed.

Lemma wp_urcode_any c s Q :
  wp c s (fun r s' => Q (r =? TX_OK) (set_tpurcode r s')) -> wp (urcode c) s Q.
Proof.
  intros Hc. unfold urcode. wp_step. eapply wp_mono; [exact Hc|]. intros r s' HQ. by wp_steps.
Qed.

Lemma wp_urcode_read s bs inc snt m ur lj n Q :
  conn_is s (bs ++ inc) snt m ur lj -> length bs = n ->
  (forall s', conn_is s' inc snt m TX_OK lj -> Q (Some bs) s') -> wp (urcode_read n) s Q.
Proof.
  intros Hs Hn HQ. unfold urcode_read. wp_step. eapply wp_tx_read; [done | done |].
  intros s' [I S C U L W R]. wp_steps. apply HQ. by constructor.
Qed.

Lemma wp_and_then c1 c2 s Q :
  wp c1 s (fun b s' => b = true /\ wp c2 s' Q) -> wp (and_then c1 c2) s Q.
Proof.
  intros H. unfold and_then. wp_step. eapply wp_mono; [exact H|]. by intros b s' [-> ?].
Qed.

Lemma wp_in_cmem {A} (c : M tpmem A) s inc snt m ur lj a m' Q :
  conn_is s inc snt m ur lj -> c m = Done (a, m') ->
  (forall s', conn_is s' inc snt m' ur lj -> Q a s') -> wp (in_cmem c) s Q.
Proof.
  intros [I S C U L W R] E HQ. unfold in_cmem. wp_step. rewrite C. eapply wp_of_eq; [exact E|].
  apply HQ. by constructor.
Qed.

Lemma wp_set_errno s inc snt m ur lj e Q :
  conn_is s inc snt m ur lj ->
  (forall s', conn_is s' inc snt (set_tperrno e m) ur lj -> Q tt s') -> wp (set_errno e) s Q.
Proof. intros. unfold set_errno. by eapply wp_in_cmem. Qed.

Lemma wp_set_tpurcode s inc snt m ur lj r Q :
  conn_is s inc snt m ur lj ->
  (forall s', conn_is s' inc snt m r lj -> Q tt s') -> wp (modify (set_tpurcode r)) s Q.
Proof. intros [I S C U L W R] HQ. wp_step. apply HQ. by constructor. Qed.

Lemma wp_set_longjmp s inc snt m ur lj b Q :
  conn_is s inc snt m ur lj ->
  (forall s', conn_is s' inc snt m ur b -> Q tt s') -> wp (modify (set_longjmp_okay b)) s Q.
Proof. intros [I S C U L W R] HQ. wp_step. apply HQ. by constructor. Qed.

Lemma wp_write_name s inc snt m ur lj name Q :
  conn_is s inc snt m ur lj -> (XATMI_SERVICE_NAME_LENGTH <= length name)%nat ->
  (forall s', conn_is s' inc (snt ++ take XATMI_SERVICE_NAME_LENGTH name) m ur lj -> Q TX_OK s') ->
  wp (write_name dm name) s Q.
Proof.
  intros Hs Hn HQ. unfold write_name. rewrite (proj2 (Nat.ltb_ge _ _)) by done.
  by eapply wp_tx_write.
Qed.

(** One output step under [urcode], in a chain of [and_then]. *)
Ltac out_step rule :=
  eapply wp_urcode; [eapply rule; [eassumption | try done.. | intros; split; [reflexivity | eassumption]]
                    | intros; cbn beta].

(** Every routine's first message, sent. *)
Lemma wp_chain_b_name_l_l s inc snt m ur lj b name l f Q :
  conn_is s inc snt m ur lj -> (XATMI_SERVICE_NAME_LENGTH <= length name)%nat ->
  (forall s', conn_is s' inc (snt ++ [z2b b] ++ take XATMI_SERVICE_NAME_LENGTH name ++
      le_encode 4 l ++ le_encode 4 f) m TX_OK lj -> Q true s') ->
  wp (and_then (urcode (tx_writeb dm b)) (and_then (urcode (write_name dm name))
     (and_then (urcode (tx_writel dm l)) (urcode (tx_writel dm f))))) s Q.
Proof.
  intros Hs Hn HQ. apply wp_and_then. out_step wp_tx_writeb. split; [done|].
  apply wp_and_then. out_step wp_write_name. split; [done|].
  apply wp_and_then. out_step wp_tx_writel. split; [done|].
  out_step wp_tx_writel. apply HQ. by rewrite !app_assoc.
Qed.

(** ** Conversion in place *)

Lemma bytes_at_rd d i bs : bytes_at d i bs <-> rd d i (length bs) = bs.
Proof. done. Qed.

Lemma bytes_at_wr d o x i bs :
  (o + length x <= length d)%nat -> (i + length bs <= o)%nat ->
  bytes_at d i bs -> bytes_at (wr d o x) i bs.
Proof. intros ? ? H. apply bytes_at_rd. rewrite rd_wr_other by lia. exact H. Qed.

Lemma wr_front old bs :
  wr old 0 bs = bs ++ drop (length bs) old.
Proof. done. Qed.

Lemma wordlen_cases : wordlen dm = 4%nat \/ wordlen dm = 8%nat.
Proof. destruct dm; [by left | by right]. Qed.

(** The part of the message that is read over the structure. *)
Definition work_bytes (name : list byte) (len flags c : Z) : list byte :=
  name ++ le_encode 4 len ++ le_encode 4 flags ++ le_encode 2 c.

(** A 32-bit number that was decoded and stored in a [long] field. *)
Lemma long_field v :
  slong dm (le_decode (le_encode (wordlen dm) (ulong dm (swrap 32 v)))) = swrap 32 v.
Proof.
  rewrite le_decode_encode. pose proof (swrap_range 32 v ltac:(lia)).
  replace (256 ^ Z.of_nat (wordlen dm)) with (2 ^ long_bits dm) by by destruct dm.
  unfold slong, ulong. rewrite swrap_mod, swrap_uwrap. apply swrap_id; destruct dm; simpl; lia.
Qed.

(** Offsets in the structure. *)
Ltac off := rewrite ?length_le_encode; destruct wordlen_cases; lia.

Lemma convert_work name old len flags c :
  length name = XATMI_SERVICE_NAME_LENGTH -> length old = sizeof_TPSVCINFO dm ->
  exists b, convert dm (wr old 0 (work_bytes name len flags c)) = Some b /\
    view dm b = mkSvcinfo name None (swrap 32 len) (swrap 32 flags) (uwrap 16 c).
Proof.
  intros Hn Ho. unfold XATMI_SERVICE_NAME_LENGTH in *. unfold sizeof_TPSVCINFO, o_data in Ho.
  set (raw := wr old 0 (work_bytes name len flags c)).
  assert (length (work_bytes name len flags c) = 25%nat) as Hw.
  { unfold work_bytes. rewrite !length_app, !length_le_encode, Hn. done. }
  assert (length raw = length old) as Hraw by (apply length_wr; destruct wordlen_cases; lia).
  assert (bytes_at raw 0 (work_bytes name len flags c)) as Hat.
  { unfold raw. rewrite wr_front. apply (bytes_at_app []). }
  unfold work_bytes in Hat. apply bytes_at_split in Hat as [A0 Hat]. rewrite Hn in Hat.
  apply bytes_at_split in Hat as [A1 Hat]. rewrite length_le_encode in Hat.
  apply bytes_at_split in Hat as [A2 A3]. rewrite length_le_encode in A3. cbn in A1, A2, A3.
  unfold convert, XATMI_SERVICE_NAME_LENGTH, IOLONG. cbn [Nat.add Nat.mul].
  rewrite (toshort_encode _ _ _ A3). cbn [mbind option_bind].
  assert (o_cd dm = 16 + 3 * wordlen dm /\ o_flags dm = 16 + 2 * wordlen dm /\
    o_len dm = 16 + wordlen dm)%nat as (Ec & Ef & El)
    by (unfold o_cd, o_flags, o_len, o_data; lia).
  rewrite Ec, Ef, El. set (r1 := wr raw _ _).
  assert (length r1 = length old) as Hr1
    by (unfold r1; rewrite length_wr; rewrite ?length_le_encode; destruct wordlen_cases; lia).
  rewrite (tolong_encode dm r1 19 flags)
    by (apply bytes_at_wr; rewrite ?length_le_encode; try done; destruct wordlen_cases; lia).
  cbn [mbind option_bind]. set (r2 := wr r1 _ _).
  assert (length r2 = length old) as Hr2
    by (unfold r2; rewrite length_wr; rewrite ?length_le_encode; destruct wordlen_cases; lia).
  rewrite (tolong_encode dm r2 15 len)
    by (do 2 (apply bytes_at_wr; rewrite ?length_le_encode; [destruct wordlen_cases; lia..|]); done).
  cbn [mbind option_bind]. eexists. split; [done|]. set (r3 := wr r2 _ _).
  unfold view, XATMI_SERVICE_NAME_LENGTH. rewrite Ec, Ef, El.
  f_equal.
  - unfold r3. rewrite rd_wr_other by off. unfold r2. rewrite rd_wr_other by off.
    unfold r1. rewrite rd_wr_other by off. rewrite <- Hn. exact A0.
  - rewrite <- (length_le_encode (wordlen dm) (ulong dm (swrap 32 len))) at 2.
    unfold r3. rewrite rd_wr_same by off.
    apply long_field.
  - unfold r3. rewrite rd_wr_other by off.
    rewrite <- (length_le_encode (wordlen dm) (ulong dm (swrap 32 flags))) at 2.
    unfold r2. rewrite rd_wr_same by off.
    apply long_field.
  - unfold r3. rewrite rd_wr_other by off. unfold r2. rewrite rd_wr_other by off.
    unfold r1. rewrite (rd_wr_same raw _ (le_encode 4 (uwrap 16 c)))
      by off.
    rewrite le_decode_encode. change (256 ^ Z.of_nat 4) with (2 ^ 32). rewrite swrap_mod.
    pose proof (uwrap_range 16 c ltac:(lia)). apply swrap_id; lia.
Qed.

(** ** Whole routines *)

Lemma wp_tx_write_at s inc snt m ur lj p blen len Q :
  conn_is s inc snt m ur lj -> tpbuf dm (tp_heap m) p blen -> 0 <= len <= blen -> len < 2 ^ 31 ->
  (forall s', conn_is s' inc (snt ++ take (Z.to_nat len) (tpdata (tp_heap m) p blen)) m ur lj -> Q TX_OK s') ->
  wp (tx_write_at dm p len) s Q.
Proof.
  intros Hs Hb Hl H31 HQ. unfold tx_write_at. rewrite swrap_id by lia.
  rewrite (proj2 (Z.ltb_ge len 0)) by lia.
  rewrite (bool_decide_false (p = NULL)) by (intros ->; by destruct Hb as (_ & ? & _)).
  rewrite andb_false_r. simpl orb. cbv iota.
  destruct (Z.eqb_spec len 0) as [->|Hn]; [by eapply wp_tx_write|].
  wp_step. eapply wp_in_cmem; [done | by apply (load_bytes_buf dm) |].
  intros s1 H1. eapply wp_tx_write; [done|]. exact HQ.
Qed.

(** The request of [tpacall]. *)
Definition acall_bytes (name : list byte) (len flags : Z) : list byte :=
  [z2b TPTCALL] ++ take XATMI_SERVICE_NAME_LENGTH name ++ le_encode 4 len ++ le_encode 4 flags.

Lemma reply3 b v : length ([z2b b] ++ le_encode 2 v) = (1 + IOSHORT)%nat.
Proof. done. Qed.

Lemma reply3_short b v : toshort ([z2b b] ++ le_encode 2 v) 1 = Some (uwrap 16 v).
Proof.
  apply toshort_encode. change 1%nat with (length [z2b b]).
  rewrite <- (app_nil_r ([z2b b] ++ _)), <- app_assoc. apply bytes_at_app.
Qed.

Lemma b2c_z2b v : b2c (z2b v) = swrap 8 v.
Proof. unfold b2c. rewrite b2z_z2b. change 256 with (2 ^ 8). apply swrap_mod. Qed.

(** [tpacall] on a working connection: it sends the message type, the 15 bytes of the name,
    the length and the flags; on a zero status byte it then sends the data and returns the
    descriptor, on any other it sends no data and fails with the error of the reply. *)
Lemma tpacall_run s inc snt m ur lj name data blen len flags st v :
  conn_is s ([z2b st] ++ le_encode 2 v ++ inc) snt m ur lj ->
  (XATMI_SERVICE_NAME_LENGTH <= length name)%nat ->
  tpbuf dm (tp_heap m) data blen -> 0 <= len <= blen -> len < 2 ^ 31 ->
  wp (tpacall dm (Some name) data len flags) s (fun r s' =>
    if swrap 8 st =? 0 then
      r = uwrap 16 v /\ conn_is s' inc (snt ++ acall_bytes name len flags ++
        take (Z.to_nat len) (tpdata (tp_heap m) data blen)) m TX_OK lj
    else
      r = -1 /\ conn_is s' inc (snt ++ acall_bytes name len flags)
        (set_tperrno (uwrap 16 v) m) TX_OK lj).
Proof.
  intros Hs Hn Hb Hl H31. unfold tpacall. wp_step.
  eapply wp_chain_b_name_l_l; [done | done |]. intros s1 H1. simpl negb. cbv iota. wp_step.
  rewrite app_assoc in H1. eapply wp_urcode_read; [exact H1 | apply reply3 |]. intros s2 H2.
  wp_step. eapply wp_ask; [reflexivity|]. wp_step. eapply wp_ask; [apply reply3_short|].
  rewrite b2c_z2b. destruct (swrap 8 st =? 0); simpl negb; cbv iota.
  - wp_step. eapply wp_urcode.
    + eapply wp_tx_write_at; [done.. |]. intros s3 H3. split; [reflexivity | exact H3].
    + intros s3 H3. simpl. wp_step. split; [done|]. by rewrite <- app_assoc in H3.
  - unfold fail_with. wp_step. eapply wp_set_errno; [done|]. intros s3 H3. wp_step. done.
Qed.

(** The reply of the switchboard to [tpgetrply]. *)
Definition reply_bytes (rv c rc : Z) (d : list byte) : list byte :=
  [z2b rv] ++ le_encode 2 c ++ le_encode 4 rc ++ le_encode 4 (Z.of_nat (length d)) ++ d.

Lemma reply8_first a b : tolong dm (le_encode 4 a ++ le_encode 4 b) 0 = Some (ulong dm (swrap 32 a)).
Proof. apply tolong_encode. apply (bytes_at_app []). Qed.
Lemma reply8_second a b : tolong dm (le_encode 4 a ++ le_encode 4 b) 4 = Some (ulong dm (swrap 32 b)).
Proof.
  apply tolong_encode. rewrite <- (app_nil_r (_ ++ _)), <- app_assoc.
  change 4%nat with (length (le_encode 4 a)) at 2. apply bytes_at_app.
Qed.

Lemma slong_ulong32 v : - 2 ^ 31 <= v < 2 ^ 31 -> slong dm (ulong dm (swrap 32 v)) = v.
Proof.
  intros. rewrite (swrap_id 32) by lia. unfold slong, ulong. rewrite swrap_uwrap.
  apply swrap_id; destruct dm; simpl; lia.
Qed.

Lemma wp_tx_read_at s d inc snt m ur lj p Q :
  conn_is s (d ++ inc) snt m ur lj -> d <> [] -> Z.of_nat (length d) < 2 ^ 31 ->
  tpbuf dm (tp_heap m) p (Z.of_nat (length d)) ->
  (forall s' m', conn_is s' inc snt m' ur lj -> tpbuf dm (tp_heap m') p (Z.of_nat (length d)) ->
    tpdata (tp_heap m') p (Z.of_nat (length d)) = d -> tperrno m' = tperrno m -> Q TX_OK s') ->
  wp (tx_read_at p (Z.of_nat (length d))) s Q.
Proof.
  intros Hs Hd H31 Hb HQ. unfold tx_read_at. rewrite swrap_id by lia.
  rewrite (proj2 (Z.leb_gt _ 0)) by (destruct d; simpl in *; [done | lia]).
  rewrite (bool_decide_false (p = NULL)) by (intros ->; by destruct Hb as (_ & ? & _)).
  wp_step. rewrite Nat2Z.id. eapply wp_tx_read; [done | done |]. intros s1 H1. simpl snd.
  destruct (store_bytes_whole dm _ _ _ Hb) as (m' & E & Hb' & Hd' & He).
  wp_step. eapply wp_in_cmem; [done | exact E |]. intros s2 H2. wp_step. by eapply HQ.
Qed.

Lemma wp_chain_b_s_l s inc snt m ur lj b c f Q :
  conn_is s inc snt m ur lj ->
  (forall s', conn_is s' inc (snt ++ [z2b b] ++ le_encode 2 c ++ le_encode 4 f) m TX_OK lj -> Q true s') ->
  wp (and_then (urcode (tx_writeb dm b)) (and_then (urcode (tx_writes dm c))
     (urcode (tx_writel dm f)))) s Q.
Proof.
  intros Hs HQ. apply wp_and_then. out_step wp_tx_writeb. split; [done|].
  apply wp_and_then. out_step wp_tx_writes. split; [done|].
  out_step wp_tx_writel. apply HQ. by rewrite !app_assoc.
Qed.

(** The request of [tpgetrply]. *)
Definition getrply_bytes (c flags : Z) : list byte :=
  [z2b TPTGRPLY] ++ le_encode 2 c ++ le_encode 4 flags.

Lemma tpgetrply_run s inc snt m ur lj c data blen len flags rv v rc d :
  conn_is s (reply_bytes rv v rc d ++ inc) snt m ur lj ->
  rv = TPSUCCESS \/ rv = TPFAIL -> len <> 0 -> heap_wf (tp_heap m) ->
  oom_now (tp_heap m) = false -> tpbuf dm (tp_heap m) data blen ->
  Z.of_nat (length d) < 2 ^ 31 -> - 2 ^ 31 <= rc < 2 ^ 31 ->
  wp (tpgetrply dm false c data len flags) s (fun g s' =>
    g_ret g = uwrap 16 v /\ g_cd g = uwrap 16 v /\ g_len g = Z.of_nat (length d) /\
    exists m' ur', conn_is s' inc (snt ++ getrply_bytes c flags) m' ur' lj /\
      tperrno m' = (if rv =? TPFAIL then TPESVCFAIL else 0) /\
      (d = [] -> g_data g = data /\ ur' = rc) /\
      (d <> [] -> tpbuf dm (tp_heap m') (g_data g) (Z.of_nat (length d)) /\
        tpdata (tp_heap m') (g_data g) (Z.of_nat (length d)) = d /\ ur' = rc)).
Proof.
  intros Hs Hrv Hlen Hwf Hoom Hb Hd Hrc. unfold tpgetrply.
  rewrite (proj2 (Z.eqb_neq len 0)) by done. simpl orb. cbv iota. wp_step.
  unfold reply_bytes in Hs. rewrite <- !app_assoc in Hs.
  eapply wp_chain_b_s_l; [done|]. intros s1 H1. simpl negb. cbv iota. wp_step.
  rewrite (app_assoc [z2b rv]) in H1.
  eapply wp_urcode_read; [exact H1 | apply reply3 |]. intros s2 H2.
  wp_step. eapply wp_ask; [reflexivity|]. wp_step. eapply wp_ask; [apply reply3_short|].
  rewrite b2c_z2b.
  assert (negb (swrap 8 rv =? TPSUCCESS) && negb (swrap 8 rv =? TPFAIL) = false) as ->
    by (by destruct Hrv as [->| ->]).
  assert (swrap 8 rv = rv) as -> by (by destruct Hrv as [->| ->]). cbv iota. wp_step.
  rewrite (app_assoc (le_encode 4 rc)) in H2.
  eapply wp_urcode_read; [exact H2 | done |]. intros s3 H3. wp_step.
  eapply wp_set_errno; [done|]. intros s4 H4. wp_step. eapply wp_ask; [apply reply8_first|].
  rewrite slong_ulong32 by done.
  wp_step. eapply wp_set_tpurcode; [done|]. intros s5 H5. wp_step.
  eapply wp_ask; [apply reply8_second|]. rewrite slong_ulong32 by lia. wp_step.
  destruct (Z.eqb_spec (Z.of_nat (length d)) 0) as [E|E]; simpl negb; cbv iota.
  { destruct d; [|simpl in E; lia]. repeat wp_step. split_and!; try done. eexists _, _.
    split_and!; [exact H5 | done..]. }
  wp_step. destruct (tprealloc_ok dm data (Z.of_nat (length d)) (set_tperrno (if rv =? TPFAIL then TPESVCFAIL else 0) m) blen)
    as (b & Hblk & _ & Er); [done | done | done | unfold LONG_MAX; destruct dm; simpl; lia |].
  eapply wp_in_cmem; [exact H5 | exact Er |]. intros s6 H6. wp_step.
  assert (d <> []) as Hne by (by intros ->).
  eapply wp_tx_read_at; [exact H6 | done | done | |].
  { destruct Hb as (_ & _ & b0 & Hb0 & _).
    by apply (heap_realloc_buf dm (set_tperrno 0 m) (pblk data) b (Z.of_nat (length d)) Hwf (mk_is_Some _ _ Hb0)). }
  intros s7 m7 H7 Hb7 Hd7 He7. repeat wp_step. split_and!; try done. exists m7, rc.
  split_and!; try done.
Qed.

(** The error reply of the switchboard to [tpgetrply]. *)
Lemma tpgetrply_error_run s inc snt m ur lj c data len flags st e :
  conn_is s ([z2b st] ++ le_encode 2 e ++ inc) snt m ur lj ->
  swrap 8 st <> TPSUCCESS -> swrap 8 st <> TPFAIL -> len <> 0 ->
  wp (tpgetrply dm false c data len flags) s (fun g s' =>
    g = mkGrply (-1) c data len /\
    conn_is s' inc (snt ++ getrply_bytes c flags) (set_tperrno (uwrap 16 e) m) TX_OK lj).
Proof.
  intros Hs H1' H2' Hlen. unfold tpgetrply.
  rewrite (proj2 (Z.eqb_neq len 0)) by done. simpl orb. cbv iota. wp_step.
  eapply wp_chain_b_s_l; [done|]. intros s1 H1. simpl negb. cbv iota. wp_step.
  rewrite (app_assoc [z2b st]) in H1.
  eapply wp_urcode_read; [exact H1 | apply reply3 |]. intros s2 H2.
  wp_step. eapply wp_ask; [reflexivity|]. wp_step. eapply wp_ask; [apply reply3_short|].
  rewrite b2c_z2b. rewrite !(proj2 (Z.eqb_neq _ _)) by done. simpl andb. cbv iota. wp_step.
  eapply wp_set_errno; [done|]. intros s3 H3. wp_step. done.
Qed.

(** The message of [tpreturn]. *)
Definition return_bytes (rv rc : Z) (d : list byte) : list byte :=
  [z2b TPTRETN] ++ [z2b rv] ++ le_encode 4 rc ++ le_encode 4 (Z.of_nat (length d)) ++ d.

Lemma wp_tx_write_buf s inc snt m ur lj p d Q :
  conn_is s inc snt m ur lj -> tpbuf dm (tp_heap m) p (Z.of_nat (length d)) ->
  tpdata (tp_heap m) p (Z.of_nat (length d)) = d -> Z.of_nat (length d) < 2 ^ 31 ->
  (forall s', conn_is s' inc (snt ++ d) m ur lj -> Q TX_OK s') ->
  wp (tx_write_at dm p (Z.of_nat (length d))) s Q.
Proof.
  intros Hs Hb Hd H31 HQ. eapply wp_tx_write_at; [done | done | lia | done |].
  intros s' H'. apply HQ. by rewrite Hd, take_ge in H' by lia.
Qed.

Lemma tpreturn_run s inc snt m ur rv rc data d flags :
  conn_is s inc snt m ur true ->
  (data = NULL /\ d = []) \/
  (tpbuf dm (tp_heap m) data (Z.of_nat (length d)) /\ tpdata (tp_heap m) data (Z.of_nat (length d)) = d) ->
  Z.of_nat (length d) < 2 ^ 31 ->
  wp (tpreturn dm rv rc data (Z.of_nat (length d)) flags) s (fun e s' =>
    e = Jumped /\
    conn_is s' inc (snt ++ return_bytes (if rv =? TPSUCCESS then TPSUCCESS else TPFAIL) rc d) m ur true).
Proof.
  intros Hs Hd H31. unfold tpreturn. wp_steps. rewrite (ci_longjmp _ _ _ _ _ _ Hs). simpl negb. cbv iota.
  wp_step. eapply wp_tx_writeb; [done|]. intros s1 H1. wp_step.
  assert ((if negb (rv =? TPFAIL) && negb (rv =? TPSUCCESS) then TPFAIL else rv) =
    (if rv =? TPSUCCESS then TPSUCCESS else TPFAIL)) as ->.
  { destruct (Z.eqb_spec rv TPFAIL), (Z.eqb_spec rv TPSUCCESS); subst; done. }
  eapply wp_tx_writeb; [done|]. intros s2 H2. wp_step.
  eapply wp_tx_writel; [done|]. intros s3 H3. wp_step.
  assert (forall s4, conn_is s4 inc (snt ++ return_bytes (if rv =? TPSUCCESS then TPSUCCESS else TPFAIL) rc d) m ur true ->
    wp (mret Jumped) s4 (fun e s' => e = Jumped /\
      conn_is s' inc (snt ++ return_bytes (if rv =? TPSUCCESS then TPSUCCESS else TPFAIL) rc d) m ur true)) as Hend
    by done.
  unfold return_bytes in *. rewrite !app_assoc in Hend |- *.
  destruct Hd as [[-> ->]|[Hb Hd]].
  - rewrite bool_decide_true by done. eapply wp_tx_writel; [done|]. intros s4 H4. apply Hend.
    by rewrite app_nil_r.
  - rewrite bool_decide_false by (intros ->; by destruct Hb as (_ & ? & _)).
    wp_step. eapply wp_tx_writel; [done|]. intros s4 H4.
    eapply wp_tx_write_buf; [done..|]. intros s5 H5. by apply Hend.
Qed.

(** What the switchboard sends to a worker: the address, the header, the data. *)
Definition work_message (opaque : Z) (name : list byte) (len flags c : Z) (d : list byte) : list byte :=
  le_encode 4 opaque ++ work_bytes name len flags c ++ d.

(** What the library sends for a routine that did not call [tpreturn]. *)
Definition fell_out : list byte := return_bytes TPERRNO TPESVCERR [].

Lemma wp_fell_out s inc snt m ur lj Q :
  conn_is s inc snt m ur lj ->
  (forall s', conn_is s' inc (snt ++ fell_out) m ur lj -> Q tt s') ->
  wp (tx_writeb dm TPTRETN ;; tx_writeb dm TPERRNO ;;
      tx_writel dm TPESVCERR ;; tx_writel dm 0 ;; mret tt) s Q.
Proof.
  intros Hs HQ. wp_step. eapply wp_tx_writeb; [done|]. intros s1 H1.
  wp_step. eapply wp_tx_writeb; [done|]. intros s2 H2.
  wp_step. eapply wp_tx_writel; [done|]. intros s3 H3.
  wp_step. eapply wp_tx_writel; [done|]. intros s4 H4. wp_step. apply HQ.
  unfold fell_out, return_bytes. rewrite app_nil_r. by rewrite !app_assoc.
Qed.

(** [wp] of an input into a buffer that may be empty. *)
Lemma wp_tx_read_buf s d inc snt m ur lj p Q :
  conn_is s (d ++ inc) snt m ur lj -> Z.of_nat (length d) < 2 ^ 31 ->
  tpbuf dm (tp_heap m) p (Z.of_nat (length d)) ->
  (forall s' m', conn_is s' inc snt m' ur lj -> tpbuf dm (tp_heap m') p (Z.of_nat (length d)) ->
    tpdata (tp_heap m') p (Z.of_nat (length d)) = d -> Q TX_OK s') ->
  wp (tx_read_at p (Z.of_nat (length d))) s Q.
Proof.
  intros Hs H31 Hb HQ. destruct d as [|x d].
  - unfold tx_read_at. simpl. wp_step. eapply HQ; [done | done |].
    unfold tpdata. by destruct (blocks _ !! _).
  - eapply wp_tx_read_at; [done | done | done | done |]. intros. by eapply HQ.
Qed.

(** What [tpservice] promises of a routine it calls, and needs from it: the routine finds its
    arguments and the request's bytes, and may do what it wants with the connection, the
    heap and the structure as long as the structure's data pointer is that of a buffer. *)
Definition routine_ok (f : svcinfo -> M conn (exit * svcinfo)) (name : list byte) (len flags c : Z)
    (d inc snt : list byte) (P : exit -> svcinfo -> list byte -> list byte -> tpmem -> Prop) : Prop :=
  forall s p m, conn_is s inc snt m TX_OK true -> tpbuf dm (tp_heap m) p len ->
    tpdata (tp_heap m) p len = d ->
    wp (f (mkSvcinfo name (Some p) len flags c)) s (fun r s' =>
      exists inc' snt' m' ur', conn_is s' inc' snt' m' ur' true /\
        (exists p' len', i_data (snd r) = Some p' /\ tpbuf dm (tp_heap m') p' len') /\
        P (fst r) (snd r) inc' snt' m').

(** What [tpservice] leaves: the structure as the routine left it, with a null data pointer;
    what was sent, with the answer for a routine that fell out; the routine's memory without
    the buffer; and [tpreturn] disabled. *)
Definition serviced (P : exit -> svcinfo -> list byte -> list byte -> tpmem -> Prop) (i : option svcinfo) (s' : conn) : Prop :=
  exists e i' p inc' snt' m' ur', i = Some (info_data NULL i') /\ i_data i' = Some p /\
    conn_is s' inc' (snt' ++ match e with Jumped => [] | Returned => fell_out end) (drop_blk m' (pblk p)) ur' false /\
    P e i' inc' snt' m'.

Lemma tpservice_run s inc snt m ur lj routines f old opaque name flags c d P :
  let len := Z.of_nat (length d) in
  conn_is s (work_message opaque name len flags c d ++ inc) snt m ur lj ->
  length name = XATMI_SERVICE_NAME_LENGTH -> length old = sizeof_TPSVCINFO dm ->
  len < 2 ^ 31 -> - 2 ^ 31 <= flags < 2 ^ 31 -> heap_wf (tp_heap m) -> oom_now (tp_heap m) = false ->
  routines (ulong dm (swrap 32 opaque)) = Some f ->
  routine_ok f name len flags (uwrap 16 c) d inc (snt ++ [z2b TPTWORK]) P ->
  wp (tpservice dm routines (Some old)) s (serviced P).
Proof.
  intros len Hs Hn Ho H31 Hfl Hwf Hoom Hf Hok. unfold tpservice, tpservice_at. do 2 wp_step.
  eapply wp_tx_writeb; [done|]. intros s1 H1. wp_step. unfold work_message in H1.
  rewrite <- !app_assoc in H1.
  eapply wp_urcode_read; [exact H1 | done |]. intros s2 H2. wp_step.
  assert (length (work_bytes name len flags c) = WORK_LENGTH) as Hw.
  { unfold work_bytes. rewrite !length_app, !length_le_encode, Hn. done. }
  eapply wp_tx_read; [exact H2 | exact Hw |]. intros s3 H3. wp_step.
  eapply wp_set_tpurcode; [done|]. intros s4 H4. cbn [fst snd]. simpl negb. cbv iota.
  destruct (convert_work name old len flags c) as (b & Eb & Ev); [done..|].
  wp_step. eapply wp_ask; [exact Eb|]. wp_step.
  eapply wp_ask; [apply tolong_encode, take_ge; done|]. rewrite Ev. cbn [i_len].
  rewrite !(swrap_id 32 len), (swrap_id 32 flags) by lia. wp_step.
  destruct (tpalloc_ok dm NULL NULL len m) as (blk & Hblk & Ea);
    [done | done | unfold LONG_MAX; destruct dm; simpl; lia |].
  pose proof (heap_alloc_buf dm m blk len Hwf Hblk) as (Hbuf & _).
  eapply wp_in_cmem; [exact H4 | exact Ea |]. intros s5 H5. wp_step.
  set (p := Ptr (brk (tp_heap m)) (sizeof_tpmemory dm)) in *.
  apply wp_urcode_any. eapply wp_tx_read_buf; [exact H5 | done | done |].
  intros s6 m6 H6%(conn_is_tpurcode _ TX_OK) Hb6 Hd6. simpl negb. cbv iota. wp_step.
  eapply wp_set_longjmp; [exact H6|]. intros s7 H7. wp_step. eapply wp_ask; [exact Hf|]. wp_step.
  eapply wp_mono; [by apply (Hok s7 p m6)|].
  intros [e i'] s8 (inc' & snt' & m8 & ur8 & H8 & (p' & len' & Hp' & Hb8) & HP). cbn [fst snd] in *. wp_step.
  assert (forall s9, conn_is s9 inc' (snt' ++ match e with Jumped => [] | Returned => fell_out end) m8 ur8 true ->
    wp (modify (set_longjmp_okay false) ;; p ← ask OutOfBounds (i_data i'); in_cmem (tpfree dm p) ;;
        mret (info_data NULL i')) s9
      (fun a s' => wp (mret (Some a)) s' (serviced P))) as Hend.
  { intros s9 H9. wp_step. eapply wp_set_longjmp; [exact H9|]. intros s10 H10. wp_step.
    eapply wp_ask; [exact Hp'|]. wp_step.
    eapply wp_in_cmem; [exact H10 | by eapply tpfree_buf |]. intros s11 H11. repeat wp_step.
    by exists e, i', p', inc', snt', m8, ur8. }
  destruct e.
  - eapply wp_fell_out; [exact H8|]. intros s9 H9. by apply Hend.
  - wp_step. apply Hend. by rewrite app_nil_r.
Qed.

End Rules.

(** ** Properties *)

Section Properties.
Context (dm : data_model).
Implicit Types (s : conn) (inc snt : list byte) (m : tpmem) (ur : Z) (lj : bool).

(** In-place conversion: the 25 bytes that [tpservice] reads over the start of
    a [TPSVCINFO] overlap its fields, and converting them from the end of the
    structure to its start still gives exactly the name, length, flags and
    descriptor that were sent, whatever the structure held, on both data models. *)
Lemma svcinfo_converted name old len flags c :
  length name = XATMI_SERVICE_NAME_LENGTH -> length old = sizeof_TPSVCINFO dm ->
  - 2 ^ 31 <= len < 2 ^ 31 -> - 2 ^ 31 <= flags < 2 ^ 31 ->
  exists b, convert dm (wr old 0 (work_bytes name len flags c)) = Some b /\
    view dm b = mkSvcinfo name None len flags (uwrap 16 c).
Proof.
  intros Hn Ho Hl Hf. destruct (convert_work dm name old len flags c Hn Ho) as (b & E & V).
  exists b. split; [done|]. rewrite V. by rewrite !swrap_id.
Qed.

(** [tpgetrply] of a reply: it consumes the reply exactly, returns its
    descriptor, sets [tpurcode] to the routine's code and [tperrno] to
    [TPESVCFAIL] or 0, and leaves in [*data] a typed buffer that holds exactly the
    bytes of the reply (the caller's buffer, when there are none). *)
Lemma tpgetrply_reply s inc snt m ur lj c data blen len flags rv v rc d :
  conn_is s (reply_bytes rv v rc d ++ inc) snt m ur lj ->
  rv = TPSUCCESS \/ rv = TPFAIL -> len <> 0 -> heap_wf (tp_heap m) ->
  oom_now (tp_heap m) = false -> tpbuf dm (tp_heap m) data blen ->
  Z.of_nat (length d) < 2 ^ 31 -> - 2 ^ 31 <= rc < 2 ^ 31 ->
  wp (tpgetrply dm false c data len flags) s (fun g s' =>
    g_ret g = uwrap 16 v /\ g_cd g = uwrap 16 v /\ g_len g = Z.of_nat (length d) /\
    exists m' ur', conn_is s' inc (snt ++ getrply_bytes c flags) m' ur' lj /\
      tperrno m' = (if rv =? TPFAIL then TPESVCFAIL else 0) /\
      (d = [] -> g_data g = data /\ ur' = rc) /\
      (d <> [] -> tpbuf dm (tp_heap m') (g_data g) (Z.of_nat (length d)) /\
        tpdata (tp_heap m') (g_data g) (Z.of_nat (length d)) = d /\ ur' = rc)).
Proof. apply tpgetrply_run. Qed.

(** [tpgetrply] of an error reply: any status other than [TPSUCCESS] and
    [TPFAIL] consumes three bytes, sets [tperrno] to the number in them, returns
    -1 and leaves the caller's variables alone. *)
Lemma tpgetrply_error s inc snt m ur lj c data len flags st e :
  conn_is s ([z2b st] ++ le_encode 2 e ++ inc) snt m ur lj ->
  swrap 8 st <> TPSUCCESS -> swrap 8 st <> TPFAIL -> len <> 0 ->
  wp (tpgetrply dm false c data len flags) s (fun g s' =>
    g = mkGrply (-1) c data len /\
    conn_is s' inc (snt ++ getrply_bytes c flags) (set_tperrno (uwrap 16 e) m) TX_OK lj).
Proof. apply tpgetrply_error_run. Qed.

(** C23. [tpservice] decodes the switchboard's message and calls the routine at the
    address in it with the request's name, flags, descriptor and a buffer of
    exactly the request's bytes.  A routine that returns without [tpreturn] is
    answered for with [TPESVCERR], one that jumped is not.  Then the buffer that the
    structure points to is freed, and no other block of the heap as the routine left it;
    [tpreturn] is disabled again, and the caller sees the structure as the routine left
    it, but with a null data pointer. *)
Theorem tpservice_calls_routine s inc snt m ur lj routines f old opaque name flags c d P :
  let len := Z.of_nat (length d) in
  conn_is s (work_message opaque name len flags c d ++ inc) snt m ur lj ->
  length name = XATMI_SERVICE_NAME_LENGTH -> length old = sizeof_TPSVCINFO dm ->
  len < 2 ^ 31 -> - 2 ^ 31 <= flags < 2 ^ 31 -> heap_wf (tp_heap m) -> oom_now (tp_heap m) = false ->
  routines (ulong dm (swrap 32 opaque)) = Some f ->
  routine_ok dm f name len flags (uwrap 16 c) d inc (snt ++ [z2b TPTWORK]) P ->
  wp (tpservice dm routines (Some old)) s (fun i s' =>
    exists e i' p inc' snt' m' ur', i = Some (info_data NULL i') /\ i_data i' = Some p /\
      conn_is s' inc' (snt' ++ match e with Jumped => [] | Returned => fell_out end) (drop_blk m' (pblk p)) ur' false /\
      P e i' inc' snt' m').
Proof. apply tpservice_run. Qed.

End Properties.

(** ** Witnesses *)

Definition wit_name : list byte := list_byte_of_string "REVERSE" ++ replicate 8 x00.

Lemma wit_conn_is inc r : Forall is_Some r -> conn_is (wit_conn inc r []) inc [] wit_mem 0 false.
Proof. by constructor. Qed.

(** A client with one buffer of five bytes. *)
Definition wit_conn' (inc : list byte) : conn :=
  mkConn 3 inc [] [] [] [] wit_mem' 0 false 4096 x00 [].
Lemma wit_conn_is' inc : conn_is (wit_conn' inc) inc [] wit_mem' 0 false.
Proof. by constructor. Qed.

Lemma svcinfo_converted_witness :
  exists b, convert ILP32 (wr (replicate 32 x55) 0 (work_bytes wit_name 5 128 300)) = Some b /\
    view ILP32 b = mkSvcinfo wit_name None 5 128 300.
Proof.
  apply (svcinfo_converted ILP32 wit_name (replicate 32 x55) 5 128 300); [reflexivity | reflexivity | lia | lia].
Defined.

Lemma tpgetrply_reply_witness :
  wp (tpgetrply LP64 false 77 (Ptr 1 32) 1 0)
    (wit_conn' (reply_bytes TPFAIL 77 9 [x61; x62] ++ [x63]))
    (fun g s' => g_ret g = 77 /\ g_len g = 2 /\ incoming s' = [x63] /\ tperrno (cmem s') = TPESVCFAIL).
Proof.
  eapply wp_mono.
  - apply (tpgetrply_reply LP64 _ [x63] [] wit_mem' 0 false 77 (Ptr 1 32) 5 1 0 TPFAIL 77 9 [x61; x62]);
      [apply wit_conn_is' | right; reflexivity | lia | apply wit_mem_wf' | reflexivity | apply wit_buf' |
       vm_compute; reflexivity | lia].
  - intros g s' (Hr & _ & Hl & m' & ur' & Hc & He & _). split; [exact Hr|]. split; [exact Hl|].
    split; [exact (ci_incoming _ _ _ _ _ _ Hc)|]. rewrite (ci_cmem _ _ _ _ _ _ Hc). exact He.
Defined.

Lemma tpgetrply_error_witness :
  wp (tpgetrply LP64 false 77 (Ptr 1 32) 1 0) (wit_conn' ([z2b TPERRNO] ++ le_encode 2 TPEBADDESC ++ []))
    (fun g s' => g = mkGrply (-1) 77 (Ptr 1 32) 1 /\ tperrno (cmem s') = TPEBADDESC).
Proof.
  eapply wp_mono.
  - apply (tpgetrply_error LP64 _ [] [] wit_mem' 0 false 77 (Ptr 1 32) 1 0 TPERRNO TPEBADDESC);
      [apply wit_conn_is' | vm_compute; discriminate | vm_compute; discriminate | lia].
  - intros g s' [Hg Hc]. split; [exact Hg|]. rewrite (ci_cmem _ _ _ _ _ _ Hc). reflexivity.
Defined.

(** A routine that does nothing, and so falls out. *)
Definition wit_routine (i : svcinfo) : M conn (exit * svcinfo) := mret (Returned, i).

Lemma tpservice_calls_routine_witness :
  wp (tpservice LP64 (fun a => if a =? 5 then Some wit_routine else None) (Some (replicate 48 x00)))
    (wit_conn (work_message 5 wit_name 2 0 77 [x61; x62] ++ []) [Some 0%nat; Some 7%nat] [])
    (fun i s' => i = Some (mkSvcinfo wit_name (Some NULL) 2 0 77) /\
      sent s' = [z2b TPTWORK] ++ fell_out).
Proof.
  eapply wp_mono.
  - apply (tpservice_calls_routine LP64 _ [] [] wit_mem 0 false _ wit_routine (replicate 48 x00) 5
      wit_name 0 77 [x61; x62] (fun e i inc snt _ => e = Returned /\
        info_data NULL i = mkSvcinfo wit_name (Some NULL) 2 0 77 /\ inc = [] /\ snt = [z2b TPTWORK]));
      [apply wit_conn_is; repeat constructor; eauto | reflexivity | reflexivity | vm_compute; reflexivity
      | lia | apply wit_mem_wf | reflexivity | reflexivity |].
    intros s p m Hc Hb _. unfold wit_routine. apply wp_ret.
    exists [], [z2b TPTWORK], m, TX_OK. split; [exact Hc|]. split; [eexists _, _; split; [reflexivity | exact Hb]|]. done.
  - intros i s' (e & i' & p & inc' & snt' & m' & ur' & -> & _ & Hc & -> & -> & -> & ->). split; [reflexivity|].
    exact (ci_sent _ _ _ _ _ _ Hc).
Defined.
