(* ===== verification/Dump.v ===== *)
(** * Printing a message

    [dump.c]: the routine that prints bytes on the standard error stream, in
    lines made of a buffer of 100 characters.  A line is the text between the
    message and the newline. *)

From Stdlib Require Import ZArith Lia.
From S2P Require Import Prelude.

Local Open Scope Z_scope.

Definition SIZEOF_BUF : nat := 100.

(** [*p >= ' ' && *p <= '~'], on a signed [char] *)
Definition printable (b : byte) : bool := (32 <=? b2c b) && (b2c b <=? 126).

(** [hex[i]] of [char hex[] = "0123456789ABCDEF"] *)
Definition HEX (i : Z) : byte := z2b (if i <? 10 then 48 + i else 55 + i).

Definition escape (b : byte) : list byte :=
  if printable b then [b]
  else [x5c; HEX (Z.land (Z.shiftr (b2c b) 4) 0x0f); HEX (Z.land (b2c b) 0x0f)].

(** The inner loop, with [room] characters left in the buffer: what is put
    there, and the bytes that remain. *)
Fixpoint fill (room : nat) (p : list byte) : list byte * list byte :=
  match p with
  | [] => ([], [])
  | b :: p' =>
      if (room =? 0)%nat then ([], p)
      else if printable b then
        let '(l, r) := fill (room - 1) p' in (b :: l, r)
      else if (room <=? 3)%nat then ([], p)
      else let '(l, r) := fill (room - 3) p' in (escape b ++ l, r)
  end.

(** The outer loop: the lines printed. *)
Fixpoint dump (fuel : nat) (p : list byte) : outcome (list (list byte)) :=
  match p with
  | [] => Done []
  | _ :: _ =>
      match fuel with
      | O => Fault OutOfFuel
      | S fuel' =>
          let '(l, r) := fill SIZEOF_BUF p in
          match dump fuel' r with Done ls => Done (l :: ls) | Fault f => Fault f end
      end
  end.

(** ** Lemmas *)

Lemma escape_length b : length (escape b) = if printable b then 1%nat else 3%nat.
Proof. unfold escape. by destruct (printable b). Qed.

Lemma fill_spec room p :
  let '(l, r) := fill room p in
  exists n, r = drop n p /\ l = concat (escape <$> take n p) /\ (length l <= room)%nat /\
    (p <> [] -> (3 < room)%nat -> (0 < n)%nat /\ (length r < length p)%nat).
Proof.
  revert room; induction p as [|b p IH]; intros room; cbn [fill].
  { exists 0%nat. split_and!; try done. simpl. lia. }
  destruct (Nat.eqb_spec room 0) as [->|Hr].
  { exists 0%nat. split_and!; try done. lia. }
  pose proof (escape_length b) as El.
  destruct (printable b) eqn:Ep.
  - specialize (IH (room - 1)%nat). destruct (fill (room - 1) p) as [l r].
    destruct IH as (n & -> & -> & Hl & _). exists (S n).
    split_and!; [done | simpl; unfold escape at 2; by rewrite Ep | simpl; lia |].
    intros _ _. simpl. rewrite length_drop. lia.
  - destruct (Nat.leb_spec room 3) as [H3|H3].
    { exists 0%nat. split_and!; try done; simpl; lia. }
    specialize (IH (room - 3)%nat). destruct (fill (room - 3) p) as [l r].
    destruct IH as (n & -> & -> & Hl & _). exists (S n).
    split_and!; [done | done | rewrite length_app; lia |].
    intros _ _. simpl. rewrite length_drop. lia.
Qed.

Lemma dump_lines p fuel :
  (length p <= fuel)%nat ->
  exists ls, dump fuel p = Done ls /\ concat ls = concat (escape <$> p) /\
    Forall (fun l => (length l <= SIZEOF_BUF)%nat) ls.
Proof.
  revert p; induction fuel as [|fuel IH]; intros [|b p] Hf;
    try (by exists []); [simpl in Hf; lia|].
  cbn [dump]. pose proof (fill_spec SIZEOF_BUF (b :: p)) as Hfill.
  destruct (fill SIZEOF_BUF (b :: p)) as [l r].
  destruct Hfill as (n & -> & -> & Hl & Hp).
  destruct Hp as [_ Hlt]; [done | unfold SIZEOF_BUF; lia |].
  destruct (IH (drop n (b :: p))) as (ls & -> & Hc & HF); [lia|].
  eexists. split; [done|]. split; [|by constructor].
  simpl concat. rewrite Hc, <- concat_app, <- fmap_app, take_drop. done.
Qed.

(** ** Properties *)

(** C35. [dump] terminates after at most one line for each byte, never writes
    outside its buffer of 100 characters, and the lines it prints are together
    the bytes of the message in order, each as itself or as three characters. *)
Theorem dump_prints_all p :
  exists ls, dump (length p) p = Done ls /\ concat ls = concat (escape <$> p) /\
    Forall (fun l => (length l <= SIZEOF_BUF)%nat) ls.
Proof. by apply dump_lines. Qed.
