(* ===== verification/TxOpen.v ===== *)
(** * Connecting to the switchboard

    [tx_open.c].  The name services and the socket calls are the environment's:
    the record [net] has what each of them answers. *)

From Stdlib Require Import ZArith Lia.
From S2P Require Import Prelude Constants CString Memory TpMemory TxIo.

Local Open Scope Z_scope.

Definition AF_UNIX : Z := 1.
Definition AF_INET : Z := 2.
Definition SUN_PATH_LENGTH : nat := 108.

(** [struct sockaddr_un] and [struct sockaddr_in]; the port is in network order. *)
Inductive sockaddr :=
  | Sun (sun_path : list byte)
  | Sin (sin_family sin_port : Z) (sin_addr : list byte).

#[global] Instance sockaddr_eq_decision : EqDecision sockaddr.
Proof. solve_decision. Defined.

Record net := mkNet {
  gethostbyname : list byte -> option (Z * list byte);   (* h_addrtype and h_addr *)
  getservbyname : list byte -> option Z;                 (* s_port *)
  socket : Z -> option Z;                                (* by address family *)
  connect : sockaddr -> bool;
}.

(** [strrchr(s, ':')]: the parts around the last colon. *)
Fixpoint split_colon (s : list byte) : option (list byte * list byte) :=
  match s with
  | [] => None
  | b :: s' =>
      match split_colon s' with
      | Some (h, p) => Some (b :: h, p)
      | None => if bool_decide (b = x3a) then Some ([], s') else None
      end
  end.

(** [atoi]: white space, a sign, digits. *)
Definition is_space (b : byte) : bool := (b2z b =? 32) || ((9 <=? b2z b) && (b2z b <=? 13)).
Definition is_digit (b : byte) : bool := (48 <=? b2z b) && (b2z b <=? 57).
Fixpoint skip_space (s : list byte) : list byte :=
  match s with b :: s' => if is_space b then skip_space s' else s | [] => [] end.
Fixpoint atoi_digits (acc : Z) (s : list byte) : Z :=
  match s with
  | b :: s' => if is_digit b then atoi_digits (acc * 10 + (b2z b - 48)) s' else acc
  | [] => acc
  end.
Definition atoi (s : list byte) : Z :=
  match skip_space s with
  | b :: s' =>
      if b2z b =? 45 then swrap 32 (- atoi_digits 0 s')
      else if b2z b =? 43 then swrap 32 (atoi_digits 0 s')
      else swrap 32 (atoi_digits 0 (b :: s'))
  | [] => 0
  end.

(** [htons] and [ntohs] on a little-endian machine. *)
Definition htons (v : Z) : Z :=
  let v := uwrap 16 v in uwrap 16 (Z.lor (Z.shiftl v 8) (Z.shiftr v 8)).
Definition ntohs (v : Z) : Z := htons v.

Definition close (fd : Z) : M conn unit :=
  modify (fun s => set_fds_closed (fds_closed s ++ [fd]) s).

(** [_tx_server = socket(...); if (_tx_server != -1 && connect(...) == -1) ...] *)
Definition open_socket (n : net) (family : Z) (a : sockaddr) : M conn unit :=
  match socket n family with
  | None => modify (set_tx_server (-1))
  | Some fd =>
      modify (set_tx_server fd) ;;
      if connect n a then mret tt
      else close fd ;; modify (set_tx_server (-1))
  end.

(** The address of the port: the service's, or the number's. *)
Definition sin_port_of (n : net) (p : list byte) : Z :=
  match getservbyname n p with Some port => uwrap 16 port | None => htons (atoi p) end.

Definition open_inet (n : net) (host p : list byte) : M conn unit :=
  modify (set_tx_server (-1)) ;;
  match gethostbyname n host with
  | None => mret tt
  | Some (addrtype, addr) =>
      (* bcopy of h_length bytes into the four of sin_addr, and the eight of sin_zero *)
      if (12 <? length addr)%nat then raise OutOfBounds
      else
        let port := sin_port_of n p in
        if ntohs port =? 0 then mret tt
        else open_socket n AF_INET (Sin (uwrap 16 addrtype) port (take 4 addr))
  end.

(** The first [strdup] may find no memory, and its result is used at once. *)
Definition tx_open (n : net) (address : list byte) : M conn Z :=
  s ← gets id;
  close (tx_server s) ;;
  f ← in_cmem (in_heap oom);
  (if (f : bool) then raise NullDeref
   else match split_colon address with
        | None => open_socket n AF_UNIX (Sun (strncpy SUN_PATH_LENGTH address))
        | Some (host, p) => open_inet n host p
        end) ;;
  s' ← gets id;
  mret (if tx_server s' =? -1 then TX_FAIL else TX_OK).

(** ** Lemmas *)

(** The bytes of a number in base ten. *)
Fixpoint decimal (fuel : nat) (v : Z) : list byte :=
  match fuel with
  | O => []
  | S fuel' => (if v / 10 =? 0 then [] else decimal fuel' (v / 10)) ++ [z2b (48 + v mod 10)]
  end.

Lemma atoi_digits_app acc s d :
  Forall (fun b => is_digit b = true) s -> 0 <= d < 10 ->
  atoi_digits acc (s ++ [z2b (48 + d)]) = atoi_digits acc s * 10 + d.
Proof.
  intros Hs Hd. revert acc; induction Hs as [|b s Hb Hs IH]; intros acc; simpl.
  - unfold is_digit. rewrite b2z_z2b, Z.mod_small by lia.
    rewrite (proj2 (Z.leb_le _ _)), (proj2 (Z.leb_le _ _)) by lia. simpl. lia.
  - rewrite Hb. apply IH.
Qed.

Lemma is_digit_z2b d : 0 <= d < 10 -> is_digit (z2b (48 + d)) = true.
Proof.
  intros. unfold is_digit. rewrite b2z_z2b, Z.mod_small by lia. lia.
Qed.

Lemma decimal_digits fuel v : 0 <= v -> Forall (fun b => is_digit b = true) (decimal fuel v).
Proof.
  revert v; induction fuel as [|fuel IH]; intros v Hv; simpl; [done|].
  apply Forall_app. split.
  - destruct (_ =? 0); [done|]. apply IH. apply Z.div_pos; lia.
  - constructor; [|done]. apply is_digit_z2b. apply Z.mod_pos_bound. lia.
Qed.

Lemma atoi_digits_decimal fuel v :
  0 <= v < 10 ^ Z.of_nat fuel -> atoi_digits 0 (decimal fuel v) = v.
Proof.
  revert v; induction fuel as [|fuel IH]; intros v Hv; [simpl in *; lia|].
  rewrite Nat2Z.inj_succ, Z.pow_succ_r in Hv by lia. cbn [decimal].
  assert (0 <= v mod 10 < 10) by (apply Z.mod_pos_bound; lia).
  assert (0 <= v / 10 < 10 ^ Z.of_nat fuel)
    by (split; [apply Z.div_pos; lia | apply Z.div_lt_upper_bound; lia]).
  rewrite atoi_digits_app; [|destruct (_ =? 0); [constructor | apply decimal_digits; lia] | done].
  destruct (Z.eqb_spec (v / 10) 0) as [E|E]; cbn [atoi_digits]; [|rewrite IH by done];
    pose proof (Z.div_mod v 10); lia.
Qed.

Lemma atoi_digit b s :
  is_digit b = true -> atoi (b :: s) = swrap 32 (atoi_digits 0 (b :: s)).
Proof.
  unfold is_digit. rewrite andb_true_iff, !Z.leb_le. intros Hb. unfold atoi. cbn [skip_space].
  unfold is_space. rewrite (proj2 (Z.eqb_neq _ 32)), (proj2 (Z.leb_gt _ 13)), andb_false_r by lia.
  cbn [orb]. rewrite (proj2 (Z.eqb_neq _ 45)), (proj2 (Z.eqb_neq _ 43)) by lia. done.
Qed.

Lemma atoi_decimal v : 0 <= v < 65536 -> atoi (decimal 5 v) = v.
Proof.
  intros Hv. pose proof (atoi_digits_decimal 5 v ltac:(lia)) as E.
  pose proof (decimal_digits 5 v ltac:(lia)) as HF.
  destruct (decimal 5 v) as [|b s] eqn:Ed; [simpl in E; subst v; discriminate|].
  rewrite atoi_digit by (by inversion HF). rewrite E. apply swrap_id; lia.
Qed.

Lemma htons_swaps v : htons v = (uwrap 16 v mod 256) * 256 + uwrap 16 v / 256.
Proof.
  unfold htons. set (u := uwrap 16 v).
  assert (0 <= u < 65536) as Hu by (apply (uwrap_range 16); lia).
  rewrite Z.shiftr_div_pow2, Z.lor_comm by lia. change (2 ^ 8) with 256.
  rewrite lor_shiftl_add by (change (2 ^ 8) with 256; Z.div_mod_to_equations; lia).
  unfold uwrap. change (2 ^ 8) with 256. change (2 ^ 16) with 65536.
  Z.div_mod_to_equations. lia.
Qed.

Lemma ntohs_htons v : ntohs (htons v) = uwrap 16 v.
Proof.
  unfold ntohs. rewrite !htons_swaps. set (u := uwrap 16 v).
  assert (0 <= u < 65536) as Hu by (apply (uwrap_range 16); lia).
  rewrite uwrap_id by (change (2 ^ 16) with 65536; Z.div_mod_to_equations; lia).
  Z.div_mod_to_equations. lia.
Qed.

Lemma open_socket_run n family a s :
  exists s', open_socket n family a s = Done (tt, s') /\
    match socket n family with
    | Some fd => if connect n a then tx_server s' = fd /\ fds_closed s' = fds_closed s
                 else tx_server s' = -1 /\ fds_closed s' = fds_closed s ++ [fd]
    | None => tx_server s' = -1 /\ fds_closed s' = fds_closed s
    end.
Proof.
  unfold open_socket, close. destruct (socket n family) as [fd|]; [|by eexists].
  unfold mbind, M_bind, modify. destruct (connect n a); by eexists.
Qed.

(** The address [tx_open] connects to: [None] when it gives up before that. *)
Definition target (n : net) (address : list byte) : option (Z * sockaddr) :=
  match split_colon address with
  | None => Some (AF_UNIX, Sun (strncpy SUN_PATH_LENGTH address))
  | Some (host, p) =>
      match gethostbyname n host with
      | None => None
      | Some (addrtype, addr) =>
          if ntohs (sin_port_of n p) =? 0 then None
          else Some (AF_INET, Sin (uwrap 16 addrtype) (sin_port_of n p) (take 4 addr))
      end
  end.

(** [tx_open] on every branch. *)
Lemma tx_open_run n address s :
  (forall h t a, gethostbyname n h = Some (t, a) -> (length a <= 12)%nat) ->
  (forall f fd, socket n f = Some fd -> 0 <= fd) ->
  oom_now (tp_heap (cmem s)) = false ->
  exists r s', tx_open n address s = Done (r, s') /\
    match target n address with
    | Some (family, a) =>
        match socket n family with
        | Some fd =>
            if connect n a
            then r = TX_OK /\ tx_server s' = fd /\ fds_closed s' = fds_closed s ++ [tx_server s]
            else r = TX_FAIL /\ tx_server s' = -1 /\ fds_closed s' = fds_closed s ++ [tx_server s; fd]
        | None => r = TX_FAIL /\ tx_server s' = -1 /\ fds_closed s' = fds_closed s ++ [tx_server s]
        end
    | None => r = TX_FAIL /\ tx_server s' = -1 /\ fds_closed s' = fds_closed s ++ [tx_server s]
    end.
Proof.
  intros Hlen Hfd Hoom. unfold tx_open, mbind, M_bind, gets. cbn [id close modify].
  set (s1 := set_fds_closed _ s). unfold in_cmem, in_heap, zoom. rewrite oom_run.
  assert (oom_now (tp_heap (cmem s1)) = false) as -> by done. set (s2 := set_cmem _ s1).
  assert (forall s3 family a, fds_closed s3 = fds_closed s ++ [tx_server s] -> exists r s',
    match open_socket n family a s3 with
    | Done (_, s') => Done (if tx_server s' =? -1 then TX_FAIL else TX_OK, s')
    | Fault f => Fault f end = Done (r, s') /\
      match socket n family with
      | Some fd => if connect n a
          then r = TX_OK /\ tx_server s' = fd /\ fds_closed s' = fds_closed s ++ [tx_server s]
          else r = TX_FAIL /\ tx_server s' = -1 /\ fds_closed s' = fds_closed s ++ [tx_server s; fd]
      | None => r = TX_FAIL /\ tx_server s' = -1 /\ fds_closed s' = fds_closed s ++ [tx_server s]
      end) as Hsock.
  { intros s3 family a E3. destruct (open_socket_run n family a s3) as (s' & -> & H). rewrite E3 in H.
    eexists _, _. split; [done|]. destruct (socket n family) as [fd|] eqn:Es.
    - destruct (connect n a); destruct H as [-> ->]; simpl; [|by rewrite <- app_assoc].
      apply Hfd in Es. by rewrite (proj2 (Z.eqb_neq fd (-1))) by lia.
    - by destruct H as [-> ->]. }
  unfold target. destruct (split_colon address) as [[host p]|]; [|by apply Hsock].
  unfold open_inet, mbind, M_bind, modify.
  destruct (gethostbyname n host) as [[t a]|] eqn:Eh; [|by eexists _, _].
  apply Hlen in Eh. rewrite (proj2 (Nat.ltb_ge _ _)) by done.
  destruct (ntohs (sin_port_of n p) =? 0); [by eexists _, _|].
  by apply Hsock.
Qed.

(** ** Properties *)

(** C34. [tx_open] succeeds exactly when the address resolves, a socket is made and
    it connects: then [_tx_server] is that socket; otherwise the result is
    [TX_FAIL], [_tx_server] is -1 and a socket that was made is closed again.  The
    previous connection is closed in every case.  (Host addresses are at most 12
    bytes long, the room in the address structure.) *)
Theorem tx_open_connects n address s :
  (forall h t a, gethostbyname n h = Some (t, a) -> (length a <= 12)%nat) ->
  (forall f fd, socket n f = Some fd -> 0 <= fd) ->
  oom_now (tp_heap (cmem s)) = false ->
  exists r s', tx_open n address s = Done (r, s') /\
    match target n address with
    | Some (family, a) =>
        match socket n family with
        | Some fd =>
            if connect n a
            then r = TX_OK /\ tx_server s' = fd /\ fds_closed s' = fds_closed s ++ [tx_server s]
            else r = TX_FAIL /\ tx_server s' = -1 /\ fds_closed s' = fds_closed s ++ [tx_server s; fd]
        | None => r = TX_FAIL /\ tx_server s' = -1 /\ fds_closed s' = fds_closed s ++ [tx_server s]
        end
    | None => r = TX_FAIL /\ tx_server s' = -1 /\ fds_closed s' = fds_closed s ++ [tx_server s]
    end.
Proof. apply tx_open_run. Qed.

(** A port given as a number: for every port from 1 to 65535 written in base
    ten, [atoi] and [htons] give the socket address exactly that port. *)
Lemma port_number n v :
  0 < v < 65536 -> getservbyname n (decimal 5 v) = None ->
  ntohs (sin_port_of n (decimal 5 v)) = v /\ (ntohs (sin_port_of n (decimal 5 v)) =? 0) = false.
Proof.
  intros Hv Hn. unfold sin_port_of. rewrite Hn, ntohs_htons, atoi_decimal by lia.
  rewrite uwrap_id by (change (2 ^ 16) with 65536; lia). split; [done | lia].
Qed.

(** ** Witnesses *)

Definition wit_net : net :=
  mkNet (fun h => if bool_decide (h = [x68]) then Some (AF_INET, [x7f; x00; x00; x01]) else None)
    (fun _ => None) (fun _ => Some 7) (fun _ => true).

Lemma tx_open_connects_witness :
  exists r s', tx_open wit_net ([x68; x3a] ++ decimal 5 8080) (wit_conn [] [] []) = Done (r, s') /\
    r = TX_OK /\ tx_server s' = 7.
Proof.
  destruct (tx_open_connects wit_net ([x68; x3a] ++ decimal 5 8080) (wit_conn [] [] []))
    as (r & s' & E & H).
  - intros h t a. cbn. case_bool_decide; [|discriminate]. intros [= _ <-]. simpl. lia.
  - intros f fd. cbn. intros [= <-]. lia.
  - reflexivity.
  - exists r, s'. split; [exact E|]. vm_compute in H. destruct H as (-> & H & _). split; [reflexivity | exact H].
Defined.
