(* ===== verification/TpServer.v ===== *)
(** * Starting the switchboard

    The rest of [tpserver.c]: its arguments, the socket it listens on, going into
    the background, signals, and messages to the operator.  The process is its
    three global variables and the sequence of what it asks the system for; the
    record [sysenv] has the system's answers.  A message is logged as its format.
    The loop over [Iowait] is that of [SbHandlers.v]. *)

From Stdlib Require Import ZArith Lia String.
From Stdlib Require Import Strings.Byte.
From S2P Require Import Prelude Constants CString SearchTree Memory TpMemory TxIo Dump TxOpen.
From S2P Require Import SbState SbObjects SbHandlers.

Local Open Scope string_scope.
Local Open Scope Z_scope.
Local Open Scope list_scope.

(** ** The process *)

Inductive event :=
  | E_stderr (fmt : string)
  | E_dump (fd : Z) (msg : string) (line : list byte)
  | E_syslog (fmt : string)
  | E_unlink (path : list byte)
  | E_bind (sock : Z) (a : sockaddr)
  | E_listen (sock backlog : Z)
  | E_close (sock : Z)
  | E_setsid
  | E_signal (sig : Z).

Record proc := mkProc {
  SWITCHBOARD : list byte;
  master : Z;
  DEBUG : Z;
  trace : list event;
}.

Definition set_SWITCHBOARD (x : list byte) (s : proc) : proc := mkProc x (master s) (DEBUG s) (trace s).
Definition set_master (x : Z) (s : proc) : proc := mkProc (SWITCHBOARD s) x (DEBUG s) (trace s).
Definition set_DEBUG (x : Z) (s : proc) : proc := mkProc (SWITCHBOARD s) (master s) x (trace s).
Definition emit (e : event) : M proc unit :=
  modify (fun s => mkProc (SWITCHBOARD s) (master s) (DEBUG s) (trace s ++ [e])).

(** The system: name services and sockets as for [tx_open]; whether [strdup] finds
    memory; [bind] by address; [listen]; [fork], which is -1, 0 in the child, or the
    child's number. *)
Record sysenv := mkSys {
  sys_net : net;
  sys_strdup : bool;
  sys_bind : sockaddr -> bool;
  sys_listen : bool;
  sys_fork : option Z;
}.

(** A computation that may [exit]: on the left the status. *)
Notation exits A := (M proc (Z + A)).
Definition exit {A} (status : Z) : exits A := mret (inl status).
Definition go_on {A} (m : M proc A) : exits A := a ← m; mret (inr a).
Definition then_ {A B} (m : exits A) (k : A -> exits B) : exits B :=
  r ← m; match r with inl status => exit status | inr a => k a end.
Notation "x ←? m ; k" := (then_ m (fun x => k))
  (at level 20, m at level 100, k at level 200, only parsing).

(** ** Messages *)

Definition debug (level : Z) (fmt : string) : M proc unit :=
  s ← gets id; if level <=? DEBUG s then emit (E_stderr fmt) else mret tt.

Definition error (fmt : string) : M proc unit :=
  s ← gets id;
  (if negb (DEBUG s =? 0) then emit (E_stderr fmt) else mret tt) ;;
  emit (E_syslog fmt).

Definition fatal {A} (fmt : string) : exits A :=
  s ← gets id;
  (if negb (DEBUG s =? 0) then emit (E_stderr fmt) else mret tt) ;;
  emit (E_syslog fmt) ;;
  exit 1.

(** The lines that [dump(fd, msg, buf, len)] prints. *)
Definition dump_on (fd : Z) (msg : string) (buf : list byte) : M proc unit :=
  match dump (length buf) buf with
  | Done ls => mfor ls (fun l => emit (E_dump fd msg l))
  | Fault f => raise f
  end.

Definition SIZEOF_DUMP_BUF : nat := 500.

(** [ready] is the answer of [select] for the descriptor: [None] is -1, and the timeout of
    a second may leave it not ready; [r] is that of [read], which takes at most the size of
    the buffer. *)
Definition DumpFD (fd : Z) (ready : option bool) (r : read_result) : M proc unit :=
  debug 0 "DumpFD: select on fd %d" ;;
  match ready with
  | None => error "select: %m"
  | Some false => mret tt
  | Some true =>
      match r with
      | ReadError => error "Iowait: read: %m"
      | ReadBytes [] => debug 0 "eof on %d"
      | ReadBytes bs => dump_on fd "dump..." (take SIZEOF_DUMP_BUF bs)
      end
  end.

Definition usage {A} : exits A :=
  emit (E_stderr "usage: tpserver [-d] switchboardname") ;; exit 1.

(** ** Arguments *)

(** [getopt(argc, argv, "d")] as POSIX has it: [optind] and the rest of the
    argument that is being read.  [None] is -1; a letter that is not in the string
    is returned as a question mark. *)
Record optstate := mkOpt { optind : nat; nextchar : list byte }.

Definition opt_char (c : byte) (cs : list byte) (o : nat) : option byte * optstate :=
  (Some (if bool_decide (c = x64) then x64 else x3f),
   match cs with [] => mkOpt (S o) [] | _ => mkOpt o cs end).

Definition getopt (argv : list (list byte)) (st : optstate) : option byte * optstate :=
  match nextchar st with
  | c :: cs => opt_char c cs (optind st)
  | [] =>
      match argv !! optind st with
      | Some [x2d; x2d] => (None, mkOpt (S (optind st)) [])
      | Some (x2d :: c :: cs) => opt_char c cs (optind st)
      | _ => (None, st)
      end
  end.

(** The loop over the options; the bytes of the arguments bound it. *)
Fixpoint Arguments_loop (fuel : nat) (argv : list (list byte)) (st : optstate) : exits optstate :=
  match fuel with
  | O => raise OutOfFuel
  | S fuel' =>
      match getopt argv st with
      | (None, st') => mret (inr st')
      | (Some ch, st') =>
          if bool_decide (ch = x64)
          then s ← gets id; modify (set_DEBUG (DEBUG s + 1)) ;; Arguments_loop fuel' argv st'
          else usage
      end
  end.

Definition args_fuel (argv : list (list byte)) : nat := S (length (concat argv)).

Definition Arguments (argv : list (list byte)) : exits unit :=
  st ←? Arguments_loop (args_fuel argv) argv (mkOpt 1 []);
  if bool_decide (Z.of_nat (optind st) <> Z.of_nat (length argv) - 1) then usage
  else
    name ← ask OutOfBounds (argv !! optind st);
    modify (set_SWITCHBOARD name) ;; mret (inr tt).

(** ** Signals *)

Definition SIGHUP : Z := 1.
Definition SIGINT : Z := 2.
Definition SIGQUIT : Z := 3.
Definition SIGTERM : Z := 15.

Definition exit_handler (sig : Z) : exits unit :=
  s ← gets id;
  emit (E_unlink (SWITCHBOARD s)) ;;
  emit (E_close (master s)) ;;
  exit 0.

Definition trap_signals : M proc unit :=
  emit (E_signal SIGHUP) ;; emit (E_signal SIGINT) ;; emit (E_signal SIGQUIT) ;; emit (E_signal SIGTERM).

(** ** [main] *)

(** [strncat(dst, src, n)] on an array of [n] zeros: it appends at most [n] bytes
    and then a NUL, which has to fit too. *)
Definition strncat0 (n : nat) (src : list byte) : M proc (list byte) :=
  if (length src <? n)%nat then mret (src ++ replicate (n - length src) x00)
  else raise OutOfBounds.

Section Main.
Context (env : sysenv).

Definition bind_unix : exits unit :=
  match socket (sys_net env) AF_UNIX with
  | None => modify (set_master (-1)) ;; fatal "socket: %m"
  | Some fd =>
      modify (set_master fd) ;;
      s ← gets id;
      path ← strncat0 SUN_PATH_LENGTH (SWITCHBOARD s);
      emit (E_unlink (SWITCHBOARD s)) ;;
      emit (E_bind fd (Sun path)) ;;
      if sys_bind env (Sun path) then mret (inr tt) else fatal "bind to %s: %m"
  end.

Definition bind_inet (host p : list byte) : exits unit :=
  modify (set_SWITCHBOARD host) ;;
  match gethostbyname (sys_net env) host with
  | None => fatal "%s: %s"
  | Some (addrtype, addr) =>
      (* bcopy of h_length bytes into the four of sin_addr, and the eight of sin_zero *)
      if (12 <? length addr)%nat then raise OutOfBounds
      else
        let port := sin_port_of (sys_net env) p in
        if ntohs port =? 0 then fatal "%s: No such service"
        else
          match socket (sys_net env) AF_INET with
          | None => modify (set_master (-1)) ;; fatal "socket: %m"
          | Some fd =>
              let a := Sin (uwrap 16 addrtype) port (take 4 addr) in
              modify (set_master fd) ;;
              emit (E_bind fd a) ;;
              if sys_bind env a then mret (inr tt)
              else modify (set_SWITCHBOARD (host ++ [x3a] ++ p)) ;; fatal "bind to %s: %m"
          end
  end.

(** [switch (fork())] *)
Definition background : exits unit :=
  match sys_fork env with
  | None => error "fork" ;; exit 2
  | Some pid =>
      if pid =? 0
      then emit (E_close 0) ;; emit (E_close 1) ;; emit (E_close 2) ;; emit E_setsid ;; mret (inr tt)
      else exit 0
  end.

(** All that comes before the loop; [inr tt] when the process goes on to serve. *)
Definition main (argv : list (list byte)) : exits unit :=
  _ ←? Arguments argv;
  if negb (sys_strdup env) then raise NullDeref
  else
    s ← gets id;
    _ ←? match split_colon (SWITCHBOARD s) with
         | None => bind_unix
         | Some (host, p) => bind_inet host p
         end;
    s' ← gets id;
    emit (E_listen (master s') 5) ;;
    if negb (sys_listen env) then fatal "listen to %s: %m"
    else
      _ ←? (if DEBUG s' =? 0 then background else mret (inr tt));
      trap_signals ;; mret (inr tt).

End Main.

(** [for (;;) { Iowait(); ... }], for the passes in which the system answers [envs]. *)
Definition serve {T} `{SearchTreeOps T Z} (dm : data_model) (m : Z) (envs : list io_env) : M (sb T) unit :=
  mfor envs (Iowait dm m).

(** ** Lemmas *)

(** The argument [-dd...d] with [S k] letters, and arguments that are no options. *)
Definition flag (k : nat) : list byte := x2d :: replicate (S k) x64.
Definition is_option (a : list byte) : bool :=
  match a with x2d :: _ :: _ => true | _ => false end.

Definition debugs (ks : list nat) : nat := sum_list (S <$> ks).

Lemma loop_letters argv k o fuel s :
  Arguments_loop (S k + fuel) argv (mkOpt o (replicate (S k) x64)) s =
  Arguments_loop fuel argv (mkOpt (S o) []) (set_DEBUG (DEBUG s + Z.of_nat (S k)) s).
Proof.
  revert s. induction k as [|k IH]; intros s; [done|].
  change (S (S k) + fuel)%nat with (S (S k + fuel)). cbn [Arguments_loop].
  change (getopt argv _) with (Some x64, mkOpt o (replicate (S k) x64)). cbv iota.
  rewrite bool_decide_true by done. etransitivity; [by eapply bind_run|].
  etransitivity; [by eapply bind_run|]. rewrite IH. f_equal. unfold set_DEBUG.
  cbn [DEBUG SWITCHBOARD master trace]. f_equal. unfold id. lia.
Qed.

Lemma loop_flag argv k o fuel s :
  argv !! o = Some (flag k) ->
  Arguments_loop (S k + fuel) argv (mkOpt o []) s =
  Arguments_loop fuel argv (mkOpt (S o) []) (set_DEBUG (DEBUG s + Z.of_nat (S k)) s).
Proof.
  intros E. rewrite <- (loop_letters argv k o fuel s). cbn [Nat.add Arguments_loop].
  assert (getopt argv (mkOpt o []) = opt_char x64 (replicate k x64) o) as ->.
  { unfold getopt. cbn [nextchar optind]. rewrite E. by destruct k. }
  done.
Qed.

Lemma loop_flags argv ks o fuel s name :
  (forall i k, ks !! i = Some k -> argv !! (o + i)%nat = Some (flag k)) ->
  argv !! (o + length ks)%nat = Some name -> is_option name = false ->
  Arguments_loop (debugs ks + S fuel) argv (mkOpt o []) s =
  Done (inr (mkOpt (o + length ks) []), set_DEBUG (DEBUG s + Z.of_nat (debugs ks)) s).
Proof.
  revert o s. induction ks as [|k ks IH]; intros o s Hks Hn Ho.
  - rewrite Nat.add_0_r in *. cbn [debugs sum_list fmap list_fmap Nat.add Arguments_loop length].
    assert (getopt argv (mkOpt o []) = (None, mkOpt o [])) as ->.
    { unfold getopt. cbn [nextchar optind]. rewrite Hn. clear -Ho.
      destruct name as [|b [|c cs]]; [reflexivity | destruct b; reflexivity |].
      destruct b; first [reflexivity | discriminate Ho]. }
    rewrite Z.add_0_r. by destruct s.
  - change (debugs (k :: ks)) with (S k + debugs ks)%nat. rewrite <- Nat.add_assoc.
    rewrite loop_flag by (rewrite <- (Nat.add_0_r o) at 1; by apply Hks).
    rewrite IH; [| |by rewrite Nat.add_succ_comm | done].
    + rewrite Nat.add_succ_comm. do 2 f_equal. unfold set_DEBUG. cbn [DEBUG SWITCHBOARD master trace].
      f_equal. lia.
    + intros i j Hi. rewrite Nat.add_succ_comm. by apply (Hks (S i)).
Qed.

Lemma concat_flags ks : (debugs ks <= length (concat (flag <$> ks)))%nat.
Proof.
  induction ks as [|k ks IH]; [done|]. change (debugs (k :: ks)) with (S k + debugs ks)%nat.
  rewrite fmap_cons. cbn [concat]. rewrite length_app. unfold flag at 1. rewrite length_cons, length_replicate. lia.
Qed.

Lemma Arguments_run prog ks name s :
  is_option name = false ->
  Arguments (prog :: (flag <$> ks) ++ [name]) s =
  Done (inr tt, set_SWITCHBOARD name (set_DEBUG (DEBUG s + Z.of_nat (debugs ks)) s)).
Proof.
  intros Ho. set (argv := prog :: (flag <$> ks) ++ [name]).
  assert (length argv = S (S (length ks))) as El
    by (unfold argv; rewrite length_cons, length_app, length_fmap; simpl; lia).
  assert (argv !! (1 + length ks)%nat = Some name) as En.
  { unfold argv. cbn [Nat.add lookup list_lookup]. rewrite <- (length_fmap flag). by apply list_lookup_middle. }
  assert (exists fuel, args_fuel argv = (debugs ks + S fuel)%nat) as [fuel Ef].
  { unfold args_fuel, argv. cbn [concat]. rewrite concat_app, !length_app.
    exists (length prog + length (concat (flag <$> ks)) + length (concat [name]) - debugs ks)%nat.
    pose proof (concat_flags ks). lia. }
  unfold Arguments, then_. rewrite Ef. etransitivity.
  { eapply bind_run. apply (loop_flags argv ks 1 fuel s name); [|exact En | exact Ho].
    intros i k Hi. unfold argv. cbn [Nat.add lookup list_lookup].
    apply lookup_app_l_Some. by rewrite list_lookup_fmap, Hi. }
  cbv beta iota. cbn [optind]. rewrite bool_decide_false by lia. rewrite En. done.
Qed.

(** The addresses that the process has bound. *)
Definition bound (tr : list event) : list (Z * sockaddr) :=
  omap (fun e => match e with E_bind fd a => Some (fd, a) | _ => None end) tr.

(** The process when more has been asked of the system. *)
Definition said (es : list event) (s : proc) : proc := mkProc (SWITCHBOARD s) (master s) (DEBUG s) (trace s ++ es).

Lemma said_nil s : said [] s = s.
Proof. unfold said. rewrite app_nil_r. by destruct s. Qed.
Lemma said_said es es' s : said es' (said es s) = said (es ++ es') s.
Proof. unfold said. cbn. by rewrite app_assoc. Qed.

(** What [debug] and [error] print. *)
Definition debug_events (level : Z) (fmt : string) (s : proc) : list event :=
  if level <=? DEBUG s then [E_stderr fmt] else [].
Definition error_events (fmt : string) (s : proc) : list event :=
  (if negb (DEBUG s =? 0) then [E_stderr fmt] else []) ++ [E_syslog fmt].

Lemma debug_run level fmt s : debug level fmt s = Done (tt, said (debug_events level fmt s) s).
Proof. unfold debug, debug_events, mbind, M_bind, gets, id. destruct (level <=? DEBUG s); [done | by rewrite said_nil]. Qed.
Lemma error_run fmt s : error fmt s = Done (tt, said (error_events fmt s) s).
Proof.
  unfold error, error_events, mbind, M_bind, gets, id. destruct (negb (DEBUG s =? 0)); [|done].
  by rewrite <- said_said.
Qed.

Lemma emits_run {A} (f : A -> event) ls s : mfor ls (fun l => emit (f l)) s = Done (tt, said (f <$> ls) s).
Proof.
  revert s. induction ls as [|l ls IH]; intros s; [by rewrite said_nil|].
  cbn [mfor]. rewrite (bind_run _ _ s (said [f l] s) tt) by done. by rewrite IH, said_said.
Qed.

Lemma fatal_run {A} fmt s : fatal (A := A) fmt s = Done (inl 1, said (error_events fmt s) s).
Proof.
  unfold fatal, error_events, exit, mbind, M_bind, gets, id. destruct (negb (DEBUG s =? 0)); [|done].
  by rewrite <- said_said.
Qed.
Lemma wp_fatal {A} fmt s (Q : Z + A -> proc -> Prop) : Q (inl 1) (said (error_events fmt s) s) -> wp (fatal fmt) s Q.
Proof. intros HQ. by eapply wp_of_eq; [apply fatal_run|]. Qed.

Lemma strncpy_pad n a :
  x00 ∉ a -> (length a < n)%nat -> strncpy n a = a ++ replicate (n - length a) x00.
Proof.
  revert a. induction n as [|n IH]; intros a Ha Hl; [lia|]. destruct a as [|b a]; [done|].
  cbn [strncpy head hd_error from_option id tail length Nat.sub app].
  rewrite bool_decide_false by set_solver +Ha. f_equal. apply IH; [set_solver +Ha | cbn in Hl; lia].
Qed.

(** The part of [main] that makes the socket and binds it. *)
Definition bind_master (env : sysenv) (name : list byte) : exits unit :=
  match split_colon name with None => bind_unix env | Some (host, p) => bind_inet env host p end.

(** What is asked of the system to bind the socket [fd] to [a]; a file with the name of a
    path is removed first. *)
Definition bind_events (name : list byte) (fd : Z) (a : sockaddr) : list event :=
  match split_colon name with None => [E_unlink name] | Some _ => [] end ++ [E_bind fd a].

Lemma wp_bind_master env name s :
  SWITCHBOARD s = name -> x00 ∉ name ->
  (split_colon name = None -> (length name < SUN_PATH_LENGTH)%nat) ->
  (forall h t a, gethostbyname (sys_net env) h = Some (t, a) -> (length a <= 12)%nat) ->
  wp (bind_master env name) s (fun r s' => DEBUG s' = DEBUG s /\
    match target (sys_net env) name with
    | Some (family, a) =>
        match socket (sys_net env) family with
        | Some fd => r = (if sys_bind env a then inr tt else inl 1) /\ master s' = fd /\
            trace s' = trace s ++ bind_events name fd a ++
              (if sys_bind env a then [] else error_events "bind to %s: %m" s)
        | None => r = inl 1 /\ trace s' = trace s ++ error_events "socket: %m" s
        end
    | None => r = inl 1 /\ exists fmt, fmt ∈ ["%s: %s"; "%s: No such service"] /\ trace s' = trace s ++ error_events fmt s
    end).
Proof.
  intros Hs H0 Hl Hh. unfold bind_master, target, bind_events. destruct (split_colon name) as [[host p]|] eqn:Ec.
  - unfold bind_inet. wp_steps.
    destruct (gethostbyname (sys_net env) host) as [[ty addr]|] eqn:Eh;
      [|apply wp_fatal; split_and!; [done..|]; eexists; split; [by left | done]].
    apply Hh in Eh. rewrite (proj2 (Nat.ltb_ge _ _)) by done.
    destruct (ntohs (sin_port_of (sys_net env) p) =? 0);
      [apply wp_fatal; split_and!; [done..|]; eexists; split; [right; by left | done]|].
    destruct (socket (sys_net env) AF_INET) as [fd|]; wp_steps; [|by apply wp_fatal].
    unfold emit. wp_steps. destruct (sys_bind env _); wp_steps.
    + cbn [trace DEBUG master set_master set_SWITCHBOARD]. by rewrite app_nil_r.
    + apply wp_fatal. unfold said. cbn [trace DEBUG master set_master set_SWITCHBOARD]. by rewrite <- app_assoc.
  - unfold bind_unix. destruct (socket (sys_net env) AF_UNIX) as [fd|]; wp_steps; [|by apply wp_fatal].
    unfold id. cbn [SWITCHBOARD set_master]. rewrite Hs, strncpy_pad by auto. unfold strncat0.
    rewrite (proj2 (Nat.ltb_lt _ _)) by auto. unfold emit. wp_steps. destruct (sys_bind env _); wp_steps.
    + cbn [trace DEBUG master SWITCHBOARD set_master]. by rewrite app_nil_r, <- app_assoc.
    + apply wp_fatal. unfold said. cbn [trace DEBUG master SWITCHBOARD set_master]. by rewrite <- !app_assoc.
Qed.

(** The process at its start, and what it does when it listens: with a [-d] it traps the
    signals and serves; without, the child closes the standard descriptors and begins a
    session of its own before it does so, and the parent ends. *)
Definition proc_init : proc := mkProc [] (-1) 0 [].
Definition signal_events : list event := E_signal <$> [SIGHUP; SIGINT; SIGQUIT; SIGTERM].
Definition told (ks : list nat) (fmt : string) : list event :=
  match ks with [] => [] | _ => [E_stderr fmt] end ++ [E_syslog fmt].
Definition detached (env : sysenv) (ks : list nat) : (Z + unit) * list event :=
  match ks, sys_fork env with
  | _ :: _, _ => (inr tt, signal_events)
  | [], None => (inl 2, told ks "fork")
  | [], Some pid =>
      if pid =? 0 then (inr tt, [E_close 0; E_close 1; E_close 2; E_setsid] ++ signal_events) else (inl 0, [])
  end.

(** The end of the set-up, and all that the system was asked for until then. *)
Definition set_up (env : sysenv) (ks : list nat) (name : list byte) (r : Z + unit) (tr : list event) : Prop :=
  match target (sys_net env) name with
  | Some (family, a) =>
      match socket (sys_net env) family with
      | Some fd =>
          if negb (sys_bind env a) then r = inl 1 /\ tr = bind_events name fd a ++ told ks "bind to %s: %m"
          else if negb (sys_listen env)
            then r = inl 1 /\ tr = bind_events name fd a ++ [E_listen fd 5] ++ told ks "listen to %s: %m"
          else r = fst (detached env ks) /\ tr = bind_events name fd a ++ [E_listen fd 5] ++ snd (detached env ks)
      | None => r = inl 1 /\ tr = told ks "socket: %m"
      end
  | None => r = inl 1 /\ exists fmt, fmt ∈ ["%s: %s"; "%s: No such service"] /\ tr = told ks fmt
  end.

Lemma wp_detached env ks s :
  (DEBUG s =? 0) = match ks with [] => true | _ => false end ->
  wp (_ ←? (if DEBUG s =? 0 then background env else mret (inr tt)); trap_signals ;; mret (inr tt)) s
    (fun r s' => r = fst (detached env ks) /\ s' = said (snd (detached env ks)) s).
Proof.
  intros Hd. rewrite Hd. unfold then_, detached, trap_signals, signal_events. destruct ks as [|k ks].
  - unfold background. destruct (sys_fork env) as [pid|].
    + destruct (pid =? 0); unfold emit, exit; wp_steps; [|by rewrite said_nil].
      split; [done|]. unfold said. cbn. by rewrite <- !app_assoc.
    + wp_step. wp_step. eapply wp_of_eq; [apply error_run|]. unfold exit. wp_steps.
      split; [done|]. unfold error_events. by rewrite Hd.
  - unfold emit. wp_steps. split; [done|]. unfold said. cbn. by rewrite <- !app_assoc.
Qed.

Section Start.
Context (env : sysenv) (prog : list byte) (ks : list nat) (name : list byte).
Hypothesis name_arg : is_option name = false.
Hypothesis name_string : x00 ∉ name.
Hypothesis name_fits : split_colon name = None -> (length name < SUN_PATH_LENGTH)%nat.
Hypothesis hosts : forall h t a, gethostbyname (sys_net env) h = Some (t, a) -> (length a <= 12)%nat.
Hypothesis memory : sys_strdup env = true.

(** [main] on the arguments [-d... name], on every branch. *)
Lemma wp_main :
  wp (main env (prog :: (flag <$> ks) ++ [name])) proc_init (fun r s' =>
    set_up env ks name r (trace s') /\ forall family a fd,
      target (sys_net env) name = Some (family, a) -> socket (sys_net env) family = Some fd -> master s' = fd).
Proof.
  unfold main, then_ at 1, set_up. wp_step. eapply wp_of_eq; [by apply Arguments_run|]. cbv beta iota.
  rewrite memory. cbn [negb]. wp_steps. unfold id, then_ at 1. wp_step.
  cbn [SWITCHBOARD set_SWITCHBOARD]. change (match split_colon name with
    | Some (host, p) => bind_inet env host p | None => bind_unix env end) with (bind_master env name).
  eapply wp_mono; [apply wp_bind_master; done|]. cbn beta. set (s0 := set_SWITCHBOARD name _). intros r s1 [Hd Hm].
  assert (forall s fmt, DEBUG s = DEBUG s0 -> error_events fmt s = told ks fmt) as He.
  { intros s fmt E. unfold error_events, told. rewrite E. unfold s0. cbn [DEBUG set_SWITCHBOARD set_DEBUG].
    destruct ks as [|k ks']; [done|]. rewrite (proj2 (Z.eqb_neq _ _)); [done|]. cbn. lia. }
  rewrite !He in Hm by done.
  destruct (target (sys_net env) name) as [[family a]|];
    [|destruct Hm as (-> & fmt & Hin & Ht); rewrite He in Ht by done; unfold exit; wp_steps; split; [eauto | done]].
  destruct (socket (sys_net env) family) as [fd|] eqn:Ef; [|destruct Hm as [-> Ht]; unfold exit; wp_steps; split; [done | congruence]].
  destruct Hm as (-> & Hm & Ht). destruct (sys_bind env a); cbn [negb]; [|unfold exit; wp_steps; split; [done | congruence]].
  cbv iota. rewrite app_nil_r in Ht. wp_steps. unfold emit. wp_steps. unfold id. set (s2 := mkProc _ _ _ _).
  assert (trace s2 = bind_events name fd a ++ [E_listen fd 5]) as Ht2 by (unfold s2; cbn; by rewrite Ht, Hm).
  destruct (sys_listen env); cbn [negb].
  - change (DEBUG s1) with (DEBUG s2). eapply wp_mono; [apply (wp_detached env ks s2)|].
    + unfold s2. cbn [DEBUG]. rewrite Hd.
      unfold s0. cbn [DEBUG set_SWITCHBOARD set_DEBUG]. destruct ks; [done|]. apply Z.eqb_neq. cbn. lia.
    + intros r' s' [-> ->]. split; [|intros ? ? ? [= <- <-] ?; unfold said, s2; cbn; congruence]. split; [done|]. unfold said. cbn [trace]. by rewrite Ht2, <- app_assoc.
  - apply wp_fatal. split; [|intros ? ? ? [= <- <-] ?; unfold said, s2; cbn; congruence]. split; [done|]. rewrite (He s2) by done. unfold said. cbn [trace]. by rewrite Ht2, <- app_assoc.
Qed.

(** A process that serves has bound its one socket. *)
Lemma set_up_bound tr family a fd :
  target (sys_net env) name = Some (family, a) -> socket (sys_net env) family = Some fd ->
  set_up env ks name (inr tt) tr -> bound tr = [(fd, a)].
Proof.
  unfold set_up, detached, bind_events, signal_events. intros -> ->.
  destruct (sys_bind env a); cbn [negb]; [|by intros [? _]]. destruct (sys_listen env); cbn [negb]; [|by intros [? _]].
  intros [Hr ->]. destruct (split_colon name), ks, (sys_fork env) as [pid|]; try (destruct (pid =? 0)); done.
Qed.

End Start.

(** ** What [DumpFD] prints *)

(** [DumpFD] returns whatever the system answers, and changes only the trace.  When bytes are
    read it prints, after its own message if messages are on, the first 500 of them, all in
    order, each as itself or as three characters, in lines of at most 100. *)
Lemma DumpFD_prints fd ready r s : exists es,
  DumpFD fd ready r s = Done (tt, said (debug_events 0 "DumpFD: select on fd %d" s ++ es) s) /\
  match ready, r with
  | None, _ => es = error_events "select: %m" s
  | Some false, _ => es = []
  | Some true, ReadError => es = error_events "Iowait: read: %m" s
  | Some true, ReadBytes [] => es = debug_events 0 "eof on %d" s
  | Some true, ReadBytes bs => exists ls, es = E_dump fd "dump..." <$> ls /\
      concat ls = concat (escape <$> take SIZEOF_DUMP_BUF bs) /\ Forall (fun l => (length l <= SIZEOF_BUF)%nat) ls
  end.
Proof.
  unfold DumpFD. rewrite (bind_run _ _ _ _ _ (debug_run 0 _ s)). set (es0 := debug_events 0 _ s).
  destruct ready as [[]|]; [destruct r as [|[|b bs]]| |];
    rewrite ?error_run, ?debug_run, ?said_said; try (eexists; split; [reflexivity | done]).
  - destruct (dump_lines (take SIZEOF_DUMP_BUF (b :: bs)) (length (take SIZEOF_DUMP_BUF (b :: bs)))) as (ls & E & Hc & Hf); [done|].
    exists (E_dump fd "dump..." <$> ls). unfold dump_on. rewrite E, emits_run, said_said. split; [done|]. by exists ls.
  - exists []. by rewrite app_nil_r.
Qed.

Example DumpFD_two : DumpFD 7 (Some true) (ReadBytes [x61; x00]) (mkProc [] 3 3 []) =
  Done (tt, mkProc [] 3 3 [E_stderr "DumpFD: select on fd %d"; E_dump 7 "dump..." [x61; x5c; x30; x30]]).
Proof. reflexivity. Qed.

(** ** Properties *)

(** C32. [tpserver -d... name] sets itself up as follows, whatever the system answers; all that
    it asks the system for is given, in order.  It ends with status 1 and a message, on the
    standard error too if it was given a [-d], when the name does not resolve, no socket is
    made, or it cannot be bound or listened to.  Otherwise it has bound one socket to the
    address that [name] stands for, a path's file having been removed, and listens to it;
    given a [-d] it then traps the four signals and serves; without one the parent ends
    with 0, the child closes the three standard descriptors, begins a session, traps the
    signals and serves, and a failed [fork] ends with 2 and a message.  The reading of the
    arguments terminates.  (A path fits into its array, and host addresses into theirs.) *)
Theorem tpserver_starts env prog ks name :
  is_option name = false -> x00 ∉ name ->
  (split_colon name = None -> (length name < SUN_PATH_LENGTH)%nat) ->
  (forall h t a, gethostbyname (sys_net env) h = Some (t, a) -> (length a <= 12)%nat) ->
  sys_strdup env = true ->
  exists r s', main env (prog :: (flag <$> ks) ++ [name]) proc_init = Done (r, s') /\
    set_up env ks name r (trace s') /\ forall family a fd,
      target (sys_net env) name = Some (family, a) -> socket (sys_net env) family = Some fd -> master s' = fd.
Proof. intros. by apply wp_run, wp_main. Qed.

(** C31. The address is one for the switchboard and its clients: when [tpserver name] serves,
    [tx_open name] in a process with the same name services connects to the address
    that is bound and succeeds. *)
Theorem tx_open_finds_tpserver env prog ks name s' n c fd :
  is_option name = false -> x00 ∉ name ->
  (split_colon name = None -> (length name < SUN_PATH_LENGTH)%nat) ->
  (forall h t a, gethostbyname (sys_net env) h = Some (t, a) -> (length a <= 12)%nat) ->
  sys_strdup env = true ->
  main env (prog :: (flag <$> ks) ++ [name]) proc_init = Done (inr tt, s') ->
  gethostbyname n = gethostbyname (sys_net env) -> getservbyname n = getservbyname (sys_net env) ->
  (forall f, socket n f = Some fd) -> 0 <= fd ->
  (forall a, connect n a = true <-> a ∈ (bound (trace s')).*2) ->
  oom_now (tp_heap (cmem c)) = false ->
  exists c', tx_open n name c = Done (TX_OK, c') /\ tx_server c' = fd.
Proof.
  intros Ho H0 Hl Hh Hm Hrun Hg Hs Hsock Hfd Hc Hoom.
  pose proof (wp_main env prog ks name Ho H0 Hl Hh Hm) as Hw. unfold wp in Hw. rewrite Hrun in Hw. destruct Hw as [Hw _].
  assert (target n name = target (sys_net env) name) as Et.
  { unfold target, sin_port_of. by rewrite Hg, Hs. }
  destruct (tx_open_run n name c) as (r & c' & E & H); [by rewrite Hg | | done |].
  { intros f fd'. rewrite Hsock. by intros [= <-]. }
  rewrite Et in H. destruct (target (sys_net env) name) as [[family a]|] eqn:Et';
    [|unfold set_up in Hw; rewrite Et' in Hw; by destruct Hw as [? _]].
  destruct (socket (sys_net env) family) as [fd'|] eqn:Ef;
    [|unfold set_up in Hw; rewrite Et', Ef in Hw; by destruct Hw as [? _]].
  rewrite Hsock, (proj2 (Hc a)) in H by (erewrite set_up_bound by done; by left).
  destruct H as (-> & H & _). by exists c'.
Qed.

(** The switchboard named [h:80] on the net of the witnesses. *)
Definition wit_sys : sysenv := mkSys wit_net true (fun _ => true) true (Some 0).
Definition wit_name : list byte := [x68; x3a; x38; x30].
Definition wit_started : proc :=
  match main wit_sys [[x74]; wit_name] proc_init with Done (_, s) => s | Fault _ => proc_init end.

(** C37. Two names go wrong.  A path of 108 bytes or more is written beyond the end of the
    address structure, where [tx_open] cuts it off.  And a switchboard at [host:port]
    that is ended by a signal removes the file that has the host's name, if there is
    one. *)
Theorem tpserver_name_flaws :
  (forall env prog ks name fd,
    is_option name = false -> split_colon name = None -> (SUN_PATH_LENGTH <= length name)%nat ->
    sys_strdup env = true -> socket (sys_net env) AF_UNIX = Some fd ->
    main env (prog :: (flag <$> ks) ++ [name]) proc_init = Fault OutOfBounds) /\
  match exit_handler SIGTERM wit_started with
  | Done (r, s) => r = inl 0 /\ E_unlink [x68] ∈ trace s /\ bound (trace s) = [(7, Sin AF_INET (htons 80) [x7f; x00; x00; x01])]
  | Fault _ => False
  end.
Proof.
  split.
  - intros env prog ks name fd Ho Hc Hl Hm Hs. unfold main, then_ at 1.
    erewrite bind_run; [|by apply Arguments_run]. cbv beta iota. rewrite Hm. cbn [negb].
    erewrite bind_run by reflexivity. cbn [id SWITCHBOARD set_SWITCHBOARD]. rewrite Hc.
    unfold bind_unix, then_ at 1. rewrite Hs. unfold strncat0.
    unfold mbind, M_bind, modify, gets. cbn [id SWITCHBOARD set_SWITCHBOARD set_master].
    by rewrite (proj2 (Nat.ltb_ge _ _)).
  - vm_compute. split; [reflexivity|]. split; [|reflexivity]. repeat first [left | right].
Qed.

(** ** Witnesses *)

Lemma wit_hosts h t a : gethostbyname (sys_net wit_sys) h = Some (t, a) -> (length a <= 12)%nat.
Proof. cbn. case_bool_decide; [|discriminate]. intros [= _ <-]. simpl. lia. Qed.

(** The child of a switchboard that goes into the background. *)
Lemma tpserver_starts_witness :
  exists r s', main wit_sys ([x74] :: (flag <$> []) ++ [wit_name]) proc_init = Done (r, s') /\
    r = inr tt /\ trace s' = [E_bind 7 (Sin AF_INET (htons 80) [x7f; x00; x00; x01]); E_listen 7 5;
      E_close 0; E_close 1; E_close 2; E_setsid; E_signal 1; E_signal 2; E_signal 3; E_signal 15].
Proof.
  destruct (tpserver_starts wit_sys [x74] [] wit_name) as (r & s' & E & H & _).
  - reflexivity.
  - unfold wit_name. set_solver.
  - discriminate.
  - apply wit_hosts.
  - reflexivity.
  - exists r, s'. split; [exact E|]. vm_compute in H. destruct H as (-> & H). split; [reflexivity | exact H].
Defined.

Lemma tx_open_finds_tpserver_witness :
  exists c', tx_open (mkNet (gethostbyname wit_net) (getservbyname wit_net) (fun _ => Some 9)
      (fun a => bool_decide (a ∈ (bound (trace wit_started)).*2))) wit_name (wit_conn [] [] []) = Done (TX_OK, c') /\
    tx_server c' = 9.
Proof.
  apply (tx_open_finds_tpserver wit_sys [x74] [] wit_name wit_started).
  - reflexivity.
  - unfold wit_name. set_solver.
  - discriminate.
  - apply wit_hosts.
  - reflexivity.
  - vm_compute. reflexivity.
  - reflexivity.
  - reflexivity.
  - reflexivity.
  - lia.
  - intros a. cbn [connect]. apply bool_decide_eq_true.
  - reflexivity.
Defined.
