(* ===== verification/Tux.v ===== *)
(** * The diagnostic terminal

    [tux.c] connects the standard input and output to a switchboard: what comes
    from one side is copied to the other until either side ends.  The state has
    the connection of [TxIo.v], what can still be read from the standard input,
    what was written to the standard output, and the messages.  A pass of the loop
    takes the answers of the system: of [select] (the two sets it leaves, or an
    error, after which the sets are as they were given), of [read(0)] (an error, or
    a limit on the bytes it returns) and of [write(1)] (an error, or a limit on the
    bytes it takes). *)

From Stdlib Require Import ZArith Lia String.
From Stdlib Require Import Strings.Byte.
From S2P Require Import Prelude Constants Memory TpMemory TxIo Dump TxOpen.

Local Open Scope string_scope.
Local Open Scope Z_scope.
Local Open Scope list_scope.

Definition SIZEOF_LINE : nat := 1024.

Inductive diag :=
  | D_perror (what : list byte)
  | D_text (text : list byte).

Record tux := mkTux {
  t_conn : conn;
  t_stdin : list byte;
  t_stdout : list byte;
  t_diags : list diag;
  stdin_ok : bool;
  sock_ok : bool;
}.

Definition set_conn (x : conn) (s : tux) : tux :=
  mkTux x (t_stdin s) (t_stdout s) (t_diags s) (stdin_ok s) (sock_ok s).
Definition set_stdin (x : list byte) (s : tux) : tux :=
  mkTux (t_conn s) x (t_stdout s) (t_diags s) (stdin_ok s) (sock_ok s).
Definition set_stdout (x : list byte) (s : tux) : tux :=
  mkTux (t_conn s) (t_stdin s) x (t_diags s) (stdin_ok s) (sock_ok s).
Definition set_ok (i o : bool) (s : tux) : tux :=
  mkTux (t_conn s) (t_stdin s) (t_stdout s) (t_diags s) i o.
Definition say (d : diag) : M tux unit :=
  modify (fun s => mkTux (t_conn s) (t_stdin s) (t_stdout s) (t_diags s ++ [d]) (stdin_ok s) (sock_ok s)).
Definition in_conn {A} (m : M conn A) : M tux A := zoom t_conn set_conn m.

Definition perror (what : string) : M tux unit := say (D_perror (list_byte_of_string what)).

(** The answers of the system in one pass. *)
Record tux_pass := mkPass {
  p_select : gset Z -> gset Z -> option (gset Z * gset Z);
  p_read0 : option nat;
  p_write1 : option nat;
}.

(** [read(0, line, sizeof line)] and [write(1, line, len)] *)
Definition read0 (o : option nat) : M tux (option (list byte)) :=
  match o with
  | None => mret None
  | Some k =>
      s ← gets id;
      let n := Nat.min (S k) SIZEOF_LINE in
      modify (set_stdin (drop n (t_stdin s))) ;; mret (Some (take n (t_stdin s)))
  end.
Definition write1 (o : option nat) (line : list byte) : M tux Z :=
  match o with
  | None => mret (-1)
  | Some k =>
      s ← gets id;
      let n := Nat.min k (length line) in
      modify (set_stdout (t_stdout s ++ take n line)) ;; mret (Z.of_nat n)
  end.

(** [dump(m, p, len)] *)
Definition tux_escape (b : byte) : list byte :=
  if (32 <=? b2c b) && (b2c b <? 127) then [b]
  else [x5c; x78; HEX (Z.land (Z.shiftr (b2c b) 4) 0x0f); HEX (Z.land (b2c b) 0x0f)].
Definition tux_dump (m : string) (p : list byte) : M tux unit :=
  say (D_text (list_byte_of_string m ++ list_byte_of_string ": >" ++ concat (tux_escape <$> p) ++ [x3c; x0a])).

Section Tux.
Context (dm : data_model) (debug : bool).

(** The two [if (FD_ISSET(..., &in))]. *)
Definition from_stdin (p : tux_pass) : M tux unit :=
  line ← read0 (p_read0 p);
  s ← gets id;
  match line with
  | None => perror "read stdin" ;; modify (set_ok false (sock_ok s))
  | Some [] => modify (set_ok false (sock_ok s))
  | Some line =>
      r ← in_conn (tx_write dm line);
      if negb (r =? TX_OK) then perror "tx_write" ;; modify (set_ok (stdin_ok s) false)
      else if debug then tux_dump "sent" line else mret tt
  end.

Definition from_server (p : tux_pass) : M tux unit :=
  line ← in_conn (sys_read SIZEOF_LINE);
  s ← gets id;
  match line with
  | None => perror "read switchboard" ;; modify (set_ok (stdin_ok s) false)
  | Some [] => modify (set_ok (stdin_ok s) false)
  | Some line =>
      r ← write1 (p_write1 p) line;
      if negb (r =? Z.of_nat (length line)) then perror "write" ;; modify (set_ok false false)
      else if debug then tux_dump "received" line else mret tt
  end.

(** The body of the loop. *)
Definition tux_body (p : tux_pass) : M tux unit :=
  s ← gets id;
  let server := tx_server (t_conn s) in
  let except : gset Z := {[server; 0]} in
  let in_ : gset Z := (if stdin_ok s then {[0]} else ∅) ∪ (if sock_ok s then {[server]} else ∅) in
  sets ← match p_select p in_ except with
         | None => perror "select" ;; mret (in_, except)
         | Some r => mret r
         end;
  let '(in_, except) := sets in
  (if bool_decide (0 ∈ in_) then from_stdin p else mret tt) ;;
  (if bool_decide (server ∈ in_) then from_server p else mret tt) ;;
  (if bool_decide (server ∈ except)
   then say (D_text (list_byte_of_string "exceptional condition on switchboard!" ++ [x0a])) ;; modify (set_ok false false)
   else mret tt) ;;
  (if bool_decide (0 ∈ except)
   then say (D_text (list_byte_of_string "exceptional condition on stdin!" ++ [x0a])) ;; modify (set_ok false false)
   else mret tt).

(** [while (stdin_ok && sock_ok)], for the passes given: does it end in them? *)
Fixpoint tux_loop (ps : list tux_pass) : M tux bool :=
  s ← gets id;
  if stdin_ok s && sock_ok s then
    match ps with
    | [] => mret false
    | p :: ps' => tux_body p ;; tux_loop ps'
    end
  else mret true.

End Tux.

(** The arguments: [-d] and the name; [None] is a usage error. *)
Definition tux_args (argv : list (list byte)) : option (bool * list byte) :=
  let '(debug, argv) :=
    match argv with
    | _ :: a :: rest => if bool_decide (a = [x2d; x64]) then (true, a :: rest) else (false, argv)
    | _ => (false, argv)
    end in
  match argv with
  | [_; name] => if bool_decide (head name = Some x2d) then None else Some (debug, name)
  | _ => None
  end.

(** [main]: the status it exits with, [None] while it copies. *)
Definition tux_main (dm : data_model) (n : net) (argv : list (list byte)) (ps : list tux_pass) : M tux (option Z) :=
  match tux_args argv with
  | None => say (D_text (list_byte_of_string "usage: tux [-d] switchboard" ++ [x0a])) ;; mret (Some 1)
  | Some (debug, name) =>
      r ← in_conn (tx_open n name);
      if negb (r =? TX_OK) then say (D_perror name) ;; mret (Some 3)
      else
        (if debug then say (D_text (list_byte_of_string "connected" ++ [x0a])) else mret tt) ;;
        modify (set_ok true true) ;;
        ended ← tux_loop dm debug ps;
        if (ended : bool) then
          _ ← in_conn tx_close;
          (if debug then say (D_text (list_byte_of_string "tux exit" ++ [x0a])) else mret tt) ;;
          mret (Some 0)
        else mret None
  end.

(** ** Lemmas *)

Definition running (s : tux) : Prop := stdin_ok s && sock_ok s = true.

(** The bytes that go from the standard input to the switchboard in a part of the
    run: [exact] when all that was read was sent. *)
Definition uplink (s s' : tux) (exact : Prop) : Prop :=
  exists i i', t_stdin s = i ++ t_stdin s' /\ sent (t_conn s') = sent (t_conn s) ++ i' /\
    i' `prefix_of` i /\ (exact -> i' = i).
Definition downlink (s s' : tux) (exact : Prop) : Prop :=
  exists o o', incoming (t_conn s) = o ++ incoming (t_conn s') /\ t_stdout s' = t_stdout s ++ o' /\
    o' `prefix_of` o /\ (exact -> o' = o).

Lemma uplink_none s s' P :
  t_stdin s' = t_stdin s -> sent (t_conn s') = sent (t_conn s) -> uplink s s' P.
Proof. intros E1 E2. exists [], []. by rewrite E1, E2, app_nil_r. Qed.
Lemma downlink_none s s' P :
  t_stdout s' = t_stdout s -> incoming (t_conn s') = incoming (t_conn s) -> downlink s s' P.
Proof. intros E1 E2. exists [], []. by rewrite E1, E2, app_nil_r. Qed.

Lemma uplink_trans s1 s2 s3 (P Q : Prop) : P -> uplink s1 s2 P -> uplink s2 s3 Q -> uplink s1 s3 Q.
Proof.
  intros HP (i1 & j1 & E1 & S1 & _ & X1) (i2 & j2 & E2 & S2 & P2 & X2). rewrite (X1 HP) in S1.
  exists (i1 ++ i2), (i1 ++ j2). rewrite E1, E2, S2, S1, !app_assoc. split_and!; [done | done | |].
  - by apply prefix_app.
  - intros HQ. by rewrite X2.
Qed.
Lemma downlink_trans s1 s2 s3 (P Q : Prop) : P -> downlink s1 s2 P -> downlink s2 s3 Q -> downlink s1 s3 Q.
Proof.
  intros HP (i1 & j1 & E1 & S1 & _ & X1) (i2 & j2 & E2 & S2 & P2 & X2). rewrite (X1 HP) in S1.
  exists (i1 ++ i2), (i1 ++ j2). rewrite E1, E2, S2, S1, !app_assoc. split_and!; [done | done | |].
  - by apply prefix_app.
  - intros HQ. by rewrite X2.
Qed.
Lemma uplink_weaken s s' (P Q : Prop) : (Q -> P) -> uplink s s' P -> uplink s s' Q.
Proof. unfold uplink. naive_solver. Qed.
Lemma downlink_weaken s s' (P Q : Prop) : (Q -> P) -> downlink s s' P -> downlink s s' Q.
Proof. unfold downlink. naive_solver. Qed.

(** The kernel takes every byte that is written. *)
Definition full_write (p : tux_pass) : Prop := exists k, p_write1 p = Some k /\ (SIZEOF_LINE <= k)%nat.

(** A message, or none. *)
Lemma wp_say_if (b : bool) d s Q :
  (forall l, Q tt (mkTux (t_conn s) (t_stdin s) (t_stdout s) l (stdin_ok s) (sock_ok s))) ->
  wp (if b then say d else mret tt) s Q.
Proof. intros HQ. destruct b; [apply HQ|]. wp_step. specialize (HQ (t_diags s)). by destruct s. Qed.

Section Proofs.
Context (dm : data_model) (debug : bool).

Lemma wp_in_conn {A} (m : M conn A) s a c Q :
  m (t_conn s) = Done (a, c) -> Q a (set_conn c s) -> wp (in_conn m) s Q.
Proof. intros E HQ. unfold in_conn. wp_step. by eapply wp_of_eq. Qed.

Lemma wp_from_stdin p s :
  printable_state dm (t_conn s) ->
  wp (from_stdin dm debug p) s (fun _ s' =>
    same_client (t_conn s) (t_conn s') /\ incoming (t_conn s') = incoming (t_conn s) /\ t_stdout s' = t_stdout s /\ (running s' -> running s) /\
    uplink s s' (running s' \/ writes (t_conn s) = []) /\
    (writes (t_conn s) = [] -> writes (t_conn s') = [])).
Proof.
  intros Hp. unfold from_stdin, read0, perror, say. wp_step. destruct (p_read0 p) as [k|].
  2:{ wp_steps. cbn. split_and!; [done | done | done | done | by apply uplink_none | done]. }
  wp_steps. unfold id. set (n := Nat.min (S k) SIZEOF_LINE).
  destruct (take n (t_stdin s)) as [|b line] eqn:El.
  { wp_steps. cbn. split_and!; [done | done | done | done | | done].
    exists [], []. cbn. rewrite app_nil_r. split_and!; [|done..].
    assert (t_stdin s = []) as -> by (destruct (t_stdin s); [done | by unfold n in El]).
    by rewrite drop_nil. }
  rewrite <- El. clear El b line. set (line := take n (t_stdin s)). set (s1 := set_stdin _ s).
  destruct (tx_write_total dm line (t_conn s1)) as (r & c & E & C & I & _ & S & W); [done | |].
  { unfold line. rewrite length_take. unfold n, SIZEOF_LINE.
    pose proof (Nat.le_min_r (S k) 1024). lia. }
  wp_step. eapply wp_in_conn; [exact E|].
  assert (t_stdin s = line ++ t_stdin (set_conn c s1)) as Hl by (cbn; by rewrite take_drop).
  destruct S as [[-> S]|[-> (pre & Hpre & S)]]; cbn [Z.eqb TX_OK TX_FAIL negb].
  - apply wp_say_if. intros d. cbn.
    split_and!; [done | done | done | done | | intros Hw; apply W, Hw].
    exists line, line. done.
  - wp_steps. cbn. split_and!; [done | done | done | | | intros Hw; by destruct (W Hw)].
    + unfold running. cbn. by rewrite andb_false_r.
    + exists line, pre. split_and!; [done..|]. intros [Hr|Hw]; [|by destruct (W Hw)].
      unfold running in Hr. cbn in Hr. by rewrite andb_false_r in Hr.
Qed.

Lemma wp_from_server p s :
  wp (from_server debug p) s (fun _ s' =>
    same_client (t_conn s) (t_conn s') /\ sent (t_conn s') = sent (t_conn s) /\ t_stdin s' = t_stdin s /\ (running s' -> running s) /\
    downlink s s' (running s' \/ full_write p) /\ writes (t_conn s') = writes (t_conn s)).
Proof.
  unfold from_server, perror, say. wp_step.
  destruct (sys_read_run SIZEOF_LINE (t_conn s)) as (o & r & E & _ & Ho); [unfold SIZEOF_LINE; lia|].
  eapply wp_in_conn; [exact E|]. wp_step. unfold id. set (c := set_incoming _ r (t_conn s)).
  destruct o as [line|]; cbn [default from_option id] in *.
  2:{ wp_steps. cbn. split_and!; [done | done | done | | by apply downlink_none | done].
      unfold running. cbn. by rewrite andb_false_r. }
  destruct Ho as (El & Hlen & _). destruct line as [|b line'].
  { wp_steps. cbn. split_and!; [done | done | done | | by apply downlink_none | done].
    unfold running. cbn. by rewrite andb_false_r. }
  set (line := b :: line') in *. unfold write1. wp_step.
  assert (incoming (t_conn s) = line ++ incoming c) as Hi.
  { unfold c. cbn [incoming set_incoming]. rewrite El at 1. by rewrite take_drop. }
  destruct (p_write1 p) as [k|] eqn:Ek; wp_steps.
  - unfold id. destruct (decide (length line <= k)%nat) as [Hk|Hk].
    + rewrite Nat.min_r, Z.eqb_refl, take_ge by lia. cbn [negb]. apply wp_say_if. intros d. cbn.
      split_and!; [done | done | done | done | | done]. by exists line, line.
    + rewrite Nat.min_l, (proj2 (Z.eqb_neq _ _)) by lia. cbn [negb]. wp_steps. cbn.
      split_and!; [done | done | done | done | | done]. exists line, (take k line).
      split_and!; [done | done | apply prefix_take |]. intros [Hr|(k' & Hk' & Hf)]; [done|].
      rewrite Ek in Hk'. simplify_eq. lia.
  - rewrite (proj2 (Z.eqb_neq _ _)) by lia. cbn [negb]. wp_steps. cbn.
    split_and!; [done | done | done | done | | done]. exists line, [].
    split_and!; [done | by rewrite app_nil_r | apply prefix_nil |].
    intros [Hr|(k' & Hk' & _)]; [done | congruence].
Qed.

(** What a part of the run does to both directions. *)
Record relays (s s' : tux) (full : Prop) : Prop := mkRelays {
  rl_client : same_client (t_conn s) (t_conn s');
  rl_up : uplink s s' (running s' \/ writes (t_conn s) = []);
  rl_down : downlink s s' (running s' \/ full);
  rl_writes : writes (t_conn s) = [] -> writes (t_conn s') = [];
  rl_running : running s' -> running s;
}.

(** Nothing is moved, and the loop may be ended. *)
Lemma relays_stop s s' full :
  t_conn s' = t_conn s -> t_stdin s' = t_stdin s -> t_stdout s' = t_stdout s ->
  (running s' -> running s) -> relays s s' full.
Proof.
  intros E1 E2 E3 Hr. constructor; [rewrite E1; apply same_client_refl | | | by rewrite E1 | done].
  - apply uplink_none; [done | by rewrite E1].
  - apply downlink_none; [done | by rewrite E1].
Qed.

(** Two steps of a pass: the first moves bytes up, the second down, or nothing moves. *)
Lemma relays_step s1 s2 s3 full :
  relays s1 s2 full -> t_conn s3 = t_conn s2 -> t_stdin s3 = t_stdin s2 -> t_stdout s3 = t_stdout s2 ->
  (running s3 -> running s2) -> relays s1 s3 full.
Proof.
  intros [C U D W R] E1 E2 E3 Hr. constructor; [by rewrite E1 | | | by rewrite E1 | auto].
  - destruct U as (i & i' & ? & ? & ? & ?). exists i, i'. rewrite E1, E2. naive_solver.
  - destruct D as (i & i' & ? & ? & ? & ?). exists i, i'. rewrite E1, E3. naive_solver.
Qed.

Lemma relays_both s1 s2 s3 full :
  relays s1 s2 full -> incoming (t_conn s2) = incoming (t_conn s1) -> t_stdout s2 = t_stdout s1 ->
  same_client (t_conn s2) (t_conn s3) -> sent (t_conn s3) = sent (t_conn s2) -> t_stdin s3 = t_stdin s2 ->
  (running s3 -> running s2) -> downlink s2 s3 (running s3 \/ full) -> writes (t_conn s3) = writes (t_conn s2) ->
  relays s1 s3 full.
Proof.
  intros [C1 U1 _ W1 R1] I1 O1 C2 E1 E2 R2 D2 W2. constructor; [by eapply same_client_trans | | | | auto].
  - destruct U1 as (i & i' & ? & ? & ? & HX). exists i, i'. rewrite E1, E2. split_and!; [done..|].
    intros [?|?]; apply HX; auto.
  - destruct D2 as (o & o' & ? & ? & ? & ?). exists o, o'. rewrite <- I1, <- O1. done.
  - rewrite W2. auto.
Qed.

(** The end of a pass: an exceptional condition stops the loop. *)
Lemma wp_exceptional (b : bool) text s1 s full (Q : unit -> tux -> Prop) :
  relays s1 s full -> (forall s', relays s1 s' full -> Q tt s') ->
  wp (if b then say (D_text text) ;; modify (set_ok false false) else mret tt) s Q.
Proof.
  intros Hs HQ. destruct b; unfold say; wp_steps; apply HQ; [|done].
  by eapply relays_step.
Qed.

Lemma wp_tux_rest p s (b1 b2 b3 b4 : bool) t3 t4 :
  printable_state dm (t_conn s) -> running s ->
  wp ((if b1 then from_stdin dm debug p else mret tt) ;;
      (if b2 then from_server debug p else mret tt) ;;
      (if b3 then say (D_text t3) ;; modify (set_ok false false) else mret tt) ;;
      (if b4 then say (D_text t4) ;; modify (set_ok false false) else mret tt)) s
    (fun _ s' => relays s s' (full_write p)).
Proof.
  intros Hp Hr. wp_step.
  assert (forall s1, relays s s1 (full_write p) -> incoming (t_conn s1) = incoming (t_conn s) ->
    t_stdout s1 = t_stdout s ->
    wp ((if b2 then from_server debug p else mret tt) ;;
      (if b3 then say (D_text t3) ;; modify (set_ok false false) else mret tt) ;;
      (if b4 then say (D_text t4) ;; modify (set_ok false false) else mret tt)) s1
    (fun _ s' => relays s s' (full_write p))) as Hrest.
  { intros s1 H1 I1 O1. wp_step.
    assert (forall s2, relays s s2 (full_write p) ->
      wp ((if b3 then say (D_text t3) ;; modify (set_ok false false) else mret tt) ;;
        (if b4 then say (D_text t4) ;; modify (set_ok false false) else mret tt)) s2
      (fun _ s' => relays s s' (full_write p))) as Hend.
    { intros s2 H2. wp_step. eapply wp_exceptional; [done|]. intros s3 H3.
      eapply wp_exceptional; [done|]. done. }
    destruct b2; [|wp_step; by apply Hend]. eapply wp_mono; [apply wp_from_server|].
    cbn beta. intros _ s2 (C & S & I & R & D & W). apply Hend. by eapply relays_both. }
  destruct b1; [|wp_step; apply Hrest; [by apply relays_stop | done..]].
  eapply wp_mono; [by apply wp_from_stdin|]. cbn beta. intros _ s1 (C & I & O & R & U & W).
  apply Hrest; [|done..]. constructor; [done | done | by apply downlink_none | done | done].
Qed.

Lemma wp_tux_body p s :
  printable_state dm (t_conn s) -> running s ->
  wp (tux_body dm debug p) s (fun _ s' => relays s s' (full_write p)).
Proof.
  intros Hp Hr. unfold tux_body. wp_steps. unfold id. cbv zeta.
  destruct (p_select p _ _) as [[in_ except]|].
  - wp_step. by apply wp_tux_rest.
  - unfold perror, say. do 3 wp_step. cbv beta iota. set (s1 := mkTux _ _ _ _ _ _).
    eapply wp_mono; [by apply (wp_tux_rest p s1)|]. cbn beta.
    intros _ s' [C (i & i' & ?) (o & o' & ?) W R]. constructor; [done | by exists i, i' | by exists o, o' | done | done].
Qed.

Lemma relays_trans s1 s2 s3 (full1 full2 : Prop) :
  running s2 -> relays s1 s2 full1 -> relays s2 s3 full2 -> relays s1 s3 (full1 /\ full2).
Proof.
  intros Hr [C1 U1 D1 W1 R1] [C2 U2 D2 W2 R2]. constructor; [by eapply same_client_trans | | | auto | auto].
  - eapply (uplink_weaken _ _ (running s3 \/ writes (t_conn s2) = [])); [naive_solver|].
    eapply (uplink_trans s1 s2); [|exact U1 | exact U2]. by left.
  - eapply (downlink_weaken _ _ (running s3 \/ full2)); [naive_solver|].
    eapply (downlink_trans s1 s2); [|exact D1 | exact D2]. by left.
Qed.

Lemma tux_loop_stop ps s : stdin_ok s && sock_ok s = false -> tux_loop dm debug ps s = Done (true, s).
Proof. intros E. destruct ps; cbn [tux_loop]; rewrite (bind_run _ _ s s s) by done; by rewrite E. Qed.

Lemma wp_tux_loop ps : forall s, printable_state dm (t_conn s) ->
  wp (tux_loop dm debug ps) s (fun ended s' =>
    relays s s' (Forall full_write ps) /\ (ended = true <-> ~ running s')).
Proof.
  induction ps as [|p ps IH]; intros s Hp; cbn [tux_loop]; wp_steps; unfold id;
    destruct (stdin_ok s && sock_ok s) eqn:Hr; wp_steps.
  - split; [by apply relays_stop | unfold running; naive_solver].
  - split; [by apply relays_stop | unfold running; rewrite Hr; naive_solver].
  - eapply wp_mono; [by apply wp_tux_body|]. cbn beta. intros _ s1 H1.
    destruct (stdin_ok s1 && sock_ok s1) eqn:Hr1.
    + eapply wp_mono; [apply IH; eapply printable_same; [apply H1 | done]|]. cbn beta.
      intros ended s' (H2 & He). split; [|done].
      destruct (relays_trans s s1 s' _ _ Hr1 H1 H2) as [C U D W R]. constructor; try done.
      eapply downlink_weaken; [|exact D]. rewrite Forall_cons. naive_solver.
    + eapply wp_of_eq; [by apply tux_loop_stop|]. split; [|unfold running; rewrite Hr1; naive_solver].
      destruct H1 as [C U D W R]. constructor; try done.
      eapply downlink_weaken; [|exact D]. rewrite Forall_cons. naive_solver.
  - split; [by apply relays_stop | unfold running; rewrite Hr; naive_solver].
Qed.

End Proofs.

(** ** The end of the loop *)

(** A pass in which there is something to read, or the end, on the standard input. *)
Definition stdin_ready (p : tux_pass) : Prop :=
  p_read0 p <> None /\ forall i e, exists r e', p_select p i e = Some (r, e') /\ 0 ∈ r.

(** What leaves the standard input alone and does not resume the loop. *)
Definition stdin_kept : relation tux := fun s s' => t_stdin s' = t_stdin s /\ (running s' -> running s).

#[global] Instance stdin_kept_preorder : PreOrder stdin_kept.
Proof. split; unfold stdin_kept; intros ?; naive_solver congruence. Qed.

Lemma stdin_kept_say d : pres stdin_kept (say d).
Proof. by intros s. Qed.
Lemma stdin_kept_conn {A} (m : M conn A) : pres stdin_kept (in_conn m).
Proof. intros s. unfold in_conn, zoom. by destruct (m _) as [[]|]. Qed.
Lemma stdin_kept_stop i o : i && o = false -> pres stdin_kept (modify (set_ok i o)).
Proof. intros E s. split; [done|]. unfold running. cbn. by rewrite E. Qed.
Lemma stdin_kept_write1 o line : pres stdin_kept (write1 o line).
Proof. unfold write1. pres_steps. apply pres_modify. by intros s. Qed.
#[local] Hint Resolve stdin_kept_say stdin_kept_conn stdin_kept_write1 : pres.
#[local] Hint Extern 1 (pres stdin_kept (modify (set_ok _ _))) =>
  apply stdin_kept_stop; first [reflexivity | apply andb_false_r] : pres.

Lemma from_server_stdin debug p : pres stdin_kept (from_server debug p).
Proof. unfold from_server, perror, tux_dump. pres_steps. Qed.

(** A pass that reads takes bytes, or ends the loop. *)
Lemma from_stdin_progress dm debug p s s' :
  p_read0 p <> None -> from_stdin dm debug p s = Done (tt, s') -> running s' ->
  (length (t_stdin s') < length (t_stdin s))%nat.
Proof.
  unfold from_stdin, read0. destruct (p_read0 p) as [k|]; [|done]. intros _. set (n := Nat.min (S k) SIZEOF_LINE).
  rewrite (bind_run _ _ s (set_stdin (drop n (t_stdin s)) s) (Some (take n (t_stdin s)))) by done.
  set (s1 := set_stdin _ s). rewrite (bind_run _ _ s1 s1 s1) by done.
  destruct (take n (t_stdin s)) as [|b line] eqn:El; [by intros [= <-]|]. intros E Hr.
  match type of E with ?m s1 = _ => assert (pres stdin_kept m) as Hk by (unfold perror, tux_dump; pres_steps) end.
  specialize (Hk s1). rewrite E in Hk. destruct Hk as [-> _]. cbn. rewrite length_drop.
  apply (f_equal length) in El. rewrite length_take, length_cons in El. clearbody n. lia.
Qed.

Lemma bind_done {St A B} (m : M St A) (k : A -> M St B) s b s' :
  (m ≫= k) s = Done (b, s') -> exists a s1, m s = Done (a, s1) /\ k a s1 = Done (b, s').
Proof. unfold mbind, M_bind. destruct (m s) as [[a s1]|]; [eauto | done]. Qed.

Lemma tux_body_progress dm debug p s s' :
  stdin_ready p -> tux_body dm debug p s = Done (tt, s') -> running s' ->
  (length (t_stdin s') < length (t_stdin s))%nat.
Proof.
  intros [Hp Hsel]. unfold tux_body. rewrite (bind_run _ _ s s s) by done. cbv zeta.
  destruct (Hsel ((if stdin_ok s then {[0]} else ∅) ∪ (if sock_ok s then {[tx_server (t_conn s)]} else ∅))
    {[tx_server (t_conn s); 0]}) as (r & e & -> & H0).
  rewrite (bind_run _ _ s s (r, e)) by done. cbv beta iota. rewrite (bool_decide_true (0 ∈ r)) by done.
  intros ([] & s1 & E1 & E2)%bind_done Hr.
  match type of E2 with ?m s1 = _ => assert (pres stdin_kept m) as Hk end.
  { pose proof (from_server_stdin debug p). pres_steps. }
  specialize (Hk s1). rewrite E2 in Hk. destruct Hk as [-> Hr1].
  by eapply from_stdin_progress; [| |apply Hr1].
Qed.

Lemma tux_loop_ends dm debug ps : forall s ended s',
  Forall stdin_ready ps -> (length (t_stdin s) < length ps)%nat ->
  tux_loop dm debug ps s = Done (ended, s') -> ended = true.
Proof.
  induction ps as [|p ps IH]; intros s ended s' Hps Hl; [cbn in Hl; lia|]. apply Forall_cons in Hps as [Hp Hps].
  cbn [tux_loop]. rewrite (bind_run _ _ s s s) by done. destruct (_ && _); [|by intros [= <- _]].
  intros ([] & s1 & E1 & E2)%bind_done. destruct (stdin_ok s1 && sock_ok s1) eqn:Hr.
  - pose proof (tux_body_progress dm debug p s s1 Hp E1 Hr). eapply (IH s1); [done | cbn in Hl; lia | exact E2].
  - rewrite tux_loop_stop in E2 by done. by injection E2 as <- _.
Qed.

(** [tx_open] moves no bytes of the connection. *)
Definition same_bytes : relation conn := fun c c' =>
  incoming c' = incoming c /\ sent c' = sent c /\ writes c' = writes c /\ val_addr c' = val_addr c.

#[global] Instance same_bytes_preorder : PreOrder same_bytes.
Proof. split; unfold same_bytes; intros ?; naive_solver congruence. Qed.

Lemma tx_open_keeps n name : pres same_bytes (tx_open n name).
Proof.
  assert (forall x, pres same_bytes (modify (set_tx_server x))) by (by intros x c).
  assert (forall x, pres same_bytes (close x)) by (by intros x c).
  assert (pres same_bytes (in_cmem (in_heap oom))).
  { intros c. unfold in_cmem, in_heap, zoom, oom. by destruct (ooms _). }
  unfold tx_open, open_inet, open_socket. pres_steps.
Qed.

(** Does [tx_open] get a connection? *)
Definition connects (n : net) (name : list byte) : bool :=
  match target n name with
  | Some (family, a) => match socket n family with Some _ => connect n a | None => false end
  | None => false
  end.

(** ** Properties *)

(** C33. [tux] exits with status 1 for wrong arguments and 3 when it cannot connect.  When it
    can, then in any sequence of passes, whatever [select] answers and however reads
    and writes are split: what was sent to the switchboard is what was read from the
    standard input, in order, and what was written to the standard output is what was
    read from the switchboard, both exactly, as long as the loop goes on; when it has
    ended (then with status 0, the connection closed) each may have been cut off at a
    failed write, and neither is when the kernel takes what is written.  It does end,
    at the latest when the standard input could be read in more passes than there are
    bytes on it.  (The address that a failed write reports fits its text.) *)
Theorem tux_copies dm n argv ps s :
  (forall h t a, gethostbyname n h = Some (t, a) -> (length a <= 12)%nat) ->
  (forall f fd, socket n f = Some fd -> 0 <= fd < 2 ^ 31) ->
  ulong dm (val_addr (t_conn s)) < 2 ^ 32 -> oom_now (tp_heap (cmem (t_conn s))) = false ->
  exists r s', tux_main dm n argv ps s = Done (r, s') /\
    match tux_args argv with
    | None => r = Some 1
    | Some (_, name) =>
        if connects n name then
          uplink s s' (r = None \/ writes (t_conn s) = []) /\
          downlink s s' (r = None \/ Forall full_write ps) /\
          (r = None \/ r = Some 0 /\ tx_server (t_conn s') = -1) /\
          (Forall stdin_ready ps -> (length (t_stdin s) < length ps)%nat -> r = Some 0)
        else r = Some 3
    end.
Proof.
  intros Hh Hs Ha Ho. apply wp_run. unfold tux_main. destruct (tux_args argv) as [[debug name]|];
    [|unfold say; by wp_steps].
  destruct (tx_open_run n name (t_conn s)) as (r & c & E & H); [done | intros f fd Hf; apply Hs in Hf; lia | done |].
  pose proof (tx_open_keeps n name (t_conn s)) as Hk. rewrite E in Hk. destruct Hk as (Ei & Es & Ew & Ev).
  assert (if connects n name then r = TX_OK /\ -1 <= tx_server c < 2 ^ 31 else r = TX_FAIL) as Hc.
  { unfold connects. destruct (target n name) as [[f a]|]; [|naive_solver].
    destruct (socket n f) as [fd|] eqn:Ef; [|naive_solver]. apply Hs in Ef.
    destruct (connect n a); naive_solver lia. }
  wp_step. eapply wp_in_conn; [exact E|]. destruct (connects n name); [destruct Hc as [-> Hc]|subst r].
  - cbn [negb Z.eqb TX_OK]. wp_step. apply wp_say_if. intros d1. do 3 wp_step. set (s1 := set_ok _ _ _).
    destruct (wp_run _ _ _ (wp_tux_loop dm debug ps s1 ltac:(split; cbn; [by rewrite Ev | done])))
      as (ended & s2 & El & [_ U D _ _] & He).
    pose proof (fun H H' => tux_loop_ends dm debug ps s1 ended s2 H H' El) as Hends.
    eapply wp_of_eq; [exact El|].
    assert (uplink s s2 (running s2 \/ writes (t_conn s) = [])) as U'.
    { destruct U as (i & i' & U). exists i, i'. revert U. cbn. by rewrite Es, Ew. }
    assert (downlink s s2 (running s2 \/ Forall full_write ps)) as D'.
    { destruct D as (o & o' & D). exists o, o'. revert D. cbn. by rewrite Ei. }
    destruct ended.
    + wp_step. eapply wp_in_conn; [done|]. wp_step. apply wp_say_if. intros d2. wp_step.
      split_and!; [| |by right | done].
      * destruct U' as (i & i' & ? & ? & ? & ?). exists i, i'. split_and!; naive_solver.
      * destruct D' as (o & o' & ? & ? & ? & ?). exists o, o'. split_and!; naive_solver.
    + wp_step. assert (running s2) as Hr.
      { unfold running in *. destruct (stdin_ok s2 && sock_ok s2); [done|]. by destruct He as [_ He]; discriminate He. }
      split_and!; [| |by left | intros Hps Hl; by specialize (Hends Hps Hl)].
      * eapply uplink_weaken; [|exact U']. by left.
      * eapply downlink_weaken; [|exact D']. by left.
  - unfold say. by wp_steps.
Qed.

(** A switchboard that has sent three bytes, and four to be sent to it. *)
Definition wit_passes : list tux_pass :=
  [mkPass (fun i _ => Some (i, ∅)) (Some 1%nat) (Some 1024%nat);
   mkPass (fun i _ => Some (i ∖ {[7]}, ∅)) (Some 9%nat) (Some 1024%nat);
   mkPass (fun i _ => Some (i, ∅)) (Some 9%nat) (Some 1024%nat)].
Definition wit_tux : tux := mkTux (wit_conn [x61; x62; x63] [] []) [x31; x32; x33; x34] [] [] true true.

Lemma tux_copies_witness :
  exists r s', tux_main LP64 wit_net [[x74]; [x2d; x64]; [x68; x3a; x38; x30]] wit_passes wit_tux = Done (r, s') /\
    r = Some 0 /\ sent (t_conn s') = [x31; x32; x33; x34] /\ uplink wit_tux s' True.
Proof.
  destruct (tux_copies LP64 wit_net [[x74]; [x2d; x64]; [x68; x3a; x38; x30]] wit_passes wit_tux) as (r & s' & E & H).
  - intros h t a. cbn. case_bool_decide; [|discriminate]. intros [= _ <-]. simpl. lia.
  - intros f fd. cbn. intros [= <-]. lia.
  - vm_compute. reflexivity.
  - reflexivity.
  - exists r, s'. split; [exact E|]. destruct H as (U & _).
    revert E. vm_compute (tux_main _ _ _ _ _). intros [= <- <-].
    split; [reflexivity|]. split; [reflexivity|]. eapply uplink_weaken; [|exact U]. right. reflexivity.
Defined.
