(* ===== verification/Reverse.v ===== *)
(** * The example service

    [reversesvr.c]: a routine that reverses the bytes of its request in place
    and returns them, alternating between success and failure.  The theorem is
    the whole path of a request through the worker: [tpservice] decodes the
    switchboard's message, calls the routine, and the reply goes out. *)

From Stdlib Require Import ZArith Lia.
From S2P Require Import Prelude Constants ByteOrder Memory TpMemory TxIo Xatmi.

Local Open Scope Z_scope.

Section Reverse.
Context (dm : data_model).

Definition get_char (p : ptr) : M conn byte :=
  bs ← in_cmem (in_heap (load_bytes p 1)); ask OutOfBounds (bs !! 0%nat).
Definition put_char (p : ptr) (b : byte) : M conn unit := in_cmem (in_heap (store_bytes p [b])).

(** [while (p < q) { char r = *p; *p++ = *q; *q-- = r; }]; the pointers are in
    the same block, [fuel] bounds the iterations. *)
Fixpoint reverse_loop (fuel : nat) (p q : ptr) : M conn unit :=
  if poff p <? poff q then
    match fuel with
    | O => raise OutOfFuel
    | S fuel' =>
        r ← get_char p;
        x ← get_char q;
        put_char p x ;;
        put_char q r ;;
        reverse_loop fuel' (ptr_add p 1) (ptr_add q (-1))
    end
  else mret tt.

(** The routine; [rval] is the static variable, whose new value is 3 less the
    old one.  A buffer of [n] bytes takes at most [n] iterations. *)
Definition reversesvr (rval : Z) (info : svcinfo) : M conn (exit * svcinfo) :=
  p ← ask OutOfBounds (i_data info);
  n ← in_cmem (tplen dm p);
  reverse_loop (Z.to_nat n) p (ptr_add p (n - 1)) ;;
  let rval := 3 - rval in
  e ← tpreturn dm rval rval p (i_len info) 0;
  mret (e, info).

(** ** Lemmas *)

Lemma wr_middle (l r : list byte) u v : wr (l ++ [u] ++ r) (length l) [v] = l ++ [v] ++ r.
Proof.
  unfold wr. rewrite take_app_length, skipn_app, drop_ge by lia.
  by replace (length l + length [v] - length l)%nat with 1%nat by (simpl; lia).
Qed.

(** The loop on the bytes between [x] and [y] of the buffer. *)
Lemma wp_reverse_loop fuel : forall s inc snt m ur lj p x mid y Q,
  let len := Z.of_nat (length (x ++ mid ++ y)) in
  conn_is s inc snt m ur lj -> tpbuf dm (tp_heap m) p len ->
  tpdata (tp_heap m) p len = x ++ mid ++ y -> (length mid <= fuel)%nat ->
  (forall s' m', conn_is s' inc snt m' ur lj -> tpbuf dm (tp_heap m') p len ->
    tpdata (tp_heap m') p len = x ++ reverse mid ++ y -> Q tt s') ->
  wp (reverse_loop fuel (ptr_add p (Z.of_nat (length x)))
        (ptr_add p (Z.of_nat (length x) + Z.of_nat (length mid) - 1))) s Q.
Proof.
  induction fuel as [|fuel IH]; intros s inc snt m ur lj p x mid y Q len Hs Hb Hd Hf HQ.
  { destruct mid; [|simpl in Hf; lia]. cbn [reverse_loop]. simpl poff.
    rewrite (proj2 (Z.ltb_ge _ _)) by lia. wp_step. by eapply HQ. }
  cbn [reverse_loop]. destruct mid as [|a mid].
  { simpl poff. rewrite (proj2 (Z.ltb_ge _ _)) by (simpl; lia). wp_step. by eapply HQ. }
  destruct mid as [|z mid _] using rev_ind.
  { simpl poff. rewrite (proj2 (Z.ltb_ge _ _)) by (simpl; lia). wp_step. by eapply HQ. }
  rewrite (proj2 (Z.ltb_lt _ _)) by (simpl; rewrite length_app; simpl; lia).
  assert (len = Z.of_nat (length x) + 2 + Z.of_nat (length mid) + Z.of_nat (length y)) as El.
  { unfold len. rewrite !length_app; simpl; rewrite length_app; simpl; lia. }
  assert (Z.of_nat (length (a :: mid ++ [z])) = 2 + Z.of_nat (length mid)) as Em
    by (simpl; rewrite length_app; simpl; lia). rewrite Em.
  set (i := Z.of_nat (length x)) in *. set (j := i + (2 + Z.of_nat (length mid)) - 1).
  assert (tpdata (tp_heap m) p len = x ++ [a] ++ mid ++ [z] ++ y) as Hd'
    by (rewrite Hd; simpl; by rewrite <- app_assoc).
  unfold get_char, put_char. repeat wp_step. eapply wp_in_cmem; [exact Hs | apply (load_bytes_at dm); [exact Hb | lia..] |].
  intros s1 H1. eapply wp_ask.
  { rewrite Hd'. unfold rd, i. rewrite Nat2Z.id, drop_app_length. reflexivity. }
  repeat wp_step. eapply wp_in_cmem; [exact H1 | apply (load_bytes_at dm); [exact Hb | lia..] |].
  intros s2 H2. eapply wp_ask.
  { rewrite Hd'. unfold rd, j, i. replace (Z.to_nat (Z.of_nat (length x) + (2 + Z.of_nat (length mid)) - 1)) with (length (x ++ [a] ++ mid))
      by (rewrite !length_app; simpl; lia).
    rewrite !(app_assoc x), !(app_assoc (x ++ _)), <- (app_assoc x).
    rewrite drop_app_length. reflexivity. }
  destruct (store_bytes_at dm m p len i [z]) as (m3 & E3 & Hb3 & Hd3 & _); [done | lia | simpl; lia |].
  destruct (store_bytes_at dm m3 p len j [a]) as (m4 & E4 & Hb4 & Hd4 & _); [done | lia | simpl; lia |].
  wp_step. eapply wp_in_cmem; [exact H2 | exact E3 |]. intros s3 H3.
  wp_step. eapply wp_in_cmem; [exact H3 | exact E4 |]. intros s4 H4.
  assert (tpdata (tp_heap m4) p len = (x ++ [z]) ++ mid ++ [a] ++ y) as Hd5.
  { rewrite Hd4, Hd3, Hd'. unfold i, j. rewrite Nat2Z.id, wr_middle.
    replace (Z.to_nat _) with (length ((x ++ [z]) ++ mid)) by (rewrite !length_app; simpl; lia).
    rewrite !(app_assoc x), !(app_assoc (x ++ [z])). by rewrite wr_middle, <- !app_assoc. }
  replace (ptr_add (ptr_add p i) 1) with (ptr_add p (Z.of_nat (length (x ++ [z]))))
    by (unfold ptr_add, i; simpl; f_equal; rewrite length_app; simpl; lia).
  replace (ptr_add (ptr_add p j) (-1))
    with (ptr_add p (Z.of_nat (length (x ++ [z])) + Z.of_nat (length mid) - 1))
    by (unfold ptr_add, j, i; simpl; f_equal; rewrite length_app; simpl; lia).
  assert (Z.of_nat (length ((x ++ [z]) ++ mid ++ [a] ++ y)) = len) as El'
    by (rewrite !length_app; simpl; lia).
  eapply (IH _ _ _ m4 _ _ p (x ++ [z]) mid ([a] ++ y)); rewrite ?El'; [exact H4 | done | done | |].
  { simpl in Hf. rewrite length_app in Hf. simpl in Hf. lia. }
  intros s5 m5 H5 Hb5 Hd6. eapply HQ; [done | done |]. rewrite Hd6.
  rewrite reverse_cons, reverse_app. simpl. by rewrite <- !app_assoc.
Qed.

Lemma wp_reversesvr s inc snt m p name d flags c rval :
  let len := Z.of_nat (length d) in
  conn_is s inc snt m TX_OK true -> tpbuf dm (tp_heap m) p len -> tpdata (tp_heap m) p len = d ->
  len < 2 ^ 31 -> rval = TPFAIL \/ rval = TPSUCCESS ->
  wp (reversesvr rval (mkSvcinfo name (Some p) len flags c)) s (fun r s' =>
    exists m', r = (Jumped, mkSvcinfo name (Some p) len flags c) /\ tpbuf dm (tp_heap m') p len /\
      conn_is s' inc (snt ++ return_bytes (3 - rval) (3 - rval) (reverse d)) m' TX_OK true).
Proof.
  intros len Hs Hb Hd Hl Hrv. unfold reversesvr. wp_step. eapply wp_ask; [done|].
  wp_step. eapply wp_in_cmem; [exact Hs | by apply tplen_buf |]. intros s1 H1. wp_step.
  assert (d = [] ++ d ++ []) as E0 by (by rewrite app_nil_r).
  pose proof (wp_reverse_loop (Z.to_nat len) s1 inc snt m TX_OK true p [] d []) as Hloop.
  cbn zeta in Hloop. rewrite <- E0 in Hloop.
  replace (ptr_add p (Z.of_nat (length (@nil byte)))) with p in Hloop
    by (destruct p; unfold ptr_add; simpl; f_equal; lia).
  replace (ptr_add p (Z.of_nat (length (@nil byte)) + Z.of_nat (length d) - 1))
    with (ptr_add p (len - 1)) in Hloop by (unfold len; simpl; f_equal; lia).
  eapply Hloop; [done | done | done | lia |]. intros s2 m2 H2 Hb2 Hd2.
  rewrite app_nil_r in Hd2. cbn [app] in Hd2. cbn [i_len]. wp_step.
  assert (len = Z.of_nat (length (reverse d))) as El by (unfold len; by rewrite length_reverse).
  eapply wp_mono.
  { rewrite El. eapply (tpreturn_run dm s2 inc snt m2 TX_OK (3 - rval) (3 - rval) p (reverse d) 0);
      [exact H2 | right; rewrite <- El; by split | by rewrite <- El]. }
  intros e s3 [-> H3]. wp_step. exists m2. split; [done|]. split; [done|].
  by destruct Hrv as [-> | ->].
Qed.

(** A request, served by the routine. *)
Lemma wp_reverse_service s inc snt m ur lj routines old opaque name flags c d rval :
  let len := Z.of_nat (length d) in
  conn_is s (work_message opaque name len flags c d ++ inc) snt m ur lj ->
  length name = XATMI_SERVICE_NAME_LENGTH -> length old = sizeof_TPSVCINFO dm ->
  len < 2 ^ 31 -> - 2 ^ 31 <= flags < 2 ^ 31 -> heap_wf (tp_heap m) -> oom_now (tp_heap m) = false ->
  routines (ulong dm (swrap 32 opaque)) = Some (reversesvr rval) ->
  rval = TPFAIL \/ rval = TPSUCCESS ->
  wp (tpservice dm routines (Some old)) s (fun i s' =>
    i = Some (mkSvcinfo name (Some NULL) len flags (uwrap 16 c)) /\ exists m' ur', conn_is s' inc
      (snt ++ [z2b TPTWORK] ++ return_bytes (3 - rval) (3 - rval) (reverse d)) m' ur' false).
Proof.
  intros len Hs Hn Ho Hl Hf Hwf Hoom Hr Hrv. eapply wp_mono.
  - eapply (tpservice_run dm s inc snt m ur lj routines (reversesvr rval) old opaque name flags c d
      (fun e i inc' snt' _ => e = Jumped /\ info_data NULL i = mkSvcinfo name (Some NULL) len flags (uwrap 16 c) /\ inc' = inc /\
        snt' = snt ++ [z2b TPTWORK] ++ return_bytes (3 - rval) (3 - rval) (reverse d))); try done.
    intros s1 p m1 H1 Hb1 Hd1. eapply wp_mono; [by apply (wp_reversesvr s1 inc (snt ++ [z2b TPTWORK]) m1)|].
    intros e s2 (m2 & -> & Hb2 & H2). exists inc. eexists _, m2, TX_OK.
    split; [exact H2|]. split; [cbn; eauto|]. by rewrite <- app_assoc.
  - intros i s2 (e & i' & q & inc' & snt' & m' & ur' & -> & _ & H2 & -> & -> & -> & ->). split; [done|].
    exists (drop_blk m' (pblk q)), ur'. by rewrite app_nil_r in H2.
Qed.

(** ** Properties *)

(** C10. A request through the example worker: for every request of the
    switchboard, [tpservice] with [reversesvr] at the advertised address sends
    exactly one reply, whose data is the reverse of the request's and whose result
    is the other one of [TPFAIL] and [TPSUCCESS]; it consumes the message and no
    more, and disables [tpreturn] again. *)
Theorem reverse_served s inc snt m ur lj routines old opaque name flags c d rval :
  let len := Z.of_nat (length d) in
  conn_is s (work_message opaque name len flags c d ++ inc) snt m ur lj ->
  length name = XATMI_SERVICE_NAME_LENGTH -> length old = sizeof_TPSVCINFO dm ->
  len < 2 ^ 31 -> - 2 ^ 31 <= flags < 2 ^ 31 -> heap_wf (tp_heap m) -> oom_now (tp_heap m) = false ->
  routines (ulong dm (swrap 32 opaque)) = Some (reversesvr rval) ->
  rval = TPFAIL \/ rval = TPSUCCESS ->
  wp (tpservice dm routines (Some old)) s (fun i s' =>
    i_cd <$> i = Some (uwrap 16 c) /\ exists m' ur', conn_is s' inc
      (snt ++ [z2b TPTWORK] ++ return_bytes (3 - rval) (3 - rval) (reverse d)) m' ur' false).
Proof.
  intros. eapply wp_mono; [by eapply wp_reverse_service|]. intros i s' [-> ?]. by split.
Qed.

End Reverse.

Lemma reverse_served_witness :
  wp (tpservice LP64 (fun a => if a =? 5 then Some (reversesvr LP64 TPFAIL) else None)
       (Some (replicate 48 x00)))
    (wit_conn (work_message 5 wit_name 3 0 77 [x61; x62; x63] ++ []) [Some 0%nat; Some 7%nat] [])
    (fun i s' => sent s' = [z2b TPTWORK] ++ return_bytes TPSUCCESS TPSUCCESS [x63; x62; x61]).
Proof.
  eapply wp_mono.
  - apply (reverse_served LP64 _ [] [] wit_mem 0 false _ (replicate 48 x00) 5 wit_name 0 77 [x61; x62; x63] TPFAIL);
      [apply wit_conn_is; repeat constructor; eauto | reflexivity | reflexivity | vm_compute; reflexivity
      | lia | apply wit_mem_wf | reflexivity | reflexivity | left; reflexivity].
  - intros i s' (_ & m' & ur' & Hc). exact (ci_sent _ _ _ _ _ _ Hc).
Defined.
