(* ===== verification/ClientKeeps.v ===== *)
(** * What the client library keeps

    Whatever the routines of the library do, and however they end, the typed
    buffers of the process stay well-formed. *)

From Stdlib Require Import ZArith Lia.
From S2P Require Import Prelude Constants ByteOrder Memory TpMemory Keeps TxIo TxOpen Xatmi Reverse.

Local Open Scope Z_scope.

Definition conn_keeps : relation conn := fun c c' => mem_keeps (cmem c) (cmem c').

#[global] Instance conn_keeps_preorder : PreOrder conn_keeps.
Proof. split; unfold conn_keeps; intros ?; [reflexivity | intros ? ?; apply transitivity]. Qed.

(** A computation that ends well and keeps something does both. *)
Lemma wp_pres {St A} (I : relation St) (m : M St A) s Q :
  pres I m -> wp m s Q -> wp m s (fun a s' => Q a s' /\ I s s').
Proof. intros Hm. specialize (Hm s). unfold wp. by destruct (m s) as [[]|]. Qed.

(** Changes of the state outside the buffers. *)
Lemma pres_conn {A} (f : conn -> outcome (A * conn)) :
  (forall c, match f c with Done (_, c') => cmem c' = cmem c | Fault _ => True end) -> pres conn_keeps f.
Proof.
  intros Hf c. specialize (Hf c). destruct (f c) as [[]|]; [|done]. unfold conn_keeps. rewrite Hf. reflexivity.
Qed.

Lemma pres_in_cmem {A} (m : M tpmem A) : pres mem_keeps m -> pres conn_keeps (in_cmem m).
Proof. intros Hm c. specialize (Hm (cmem c)). unfold in_cmem, zoom. by destruct (m _) as [[]|]. Qed.

Lemma pres_set_errno e : pres conn_keeps (set_errno e).
Proof. apply pres_in_cmem. auto with pres. Qed.
Lemma pres_sys_read n : pres conn_keeps (sys_read n).
Proof. apply pres_conn. intros c. unfold sys_read. by destruct (reads c) as [|[]]. Qed.
Lemma pres_sys_write v : pres conn_keeps (sys_write v).
Proof. apply pres_conn. intros c. unfold sys_write. by destruct (writes c) as [|[]]. Qed.
Lemma pres_write2 v : pres conn_keeps (write2 v).
Proof. by apply pres_conn. Qed.
Lemma pres_set_tpurcode r : pres conn_keeps (modify (set_tpurcode r)).
Proof. by apply pres_conn. Qed.
Lemma pres_set_longjmp b : pres conn_keeps (modify (set_longjmp_okay b)).
Proof. by apply pres_conn. Qed.
Lemma pres_set_tx_server x : pres conn_keeps (modify (set_tx_server x)).
Proof. by apply pres_conn. Qed.
Lemma pres_close x : pres conn_keeps (close x).
Proof. by apply pres_conn. Qed.
#[export] Hint Resolve pres_in_cmem pres_set_errno pres_sys_read pres_sys_write pres_write2 pres_set_tpurcode
  pres_set_longjmp pres_set_tx_server pres_close : pres.

Lemma pres_digits base digit room i : pres conn_keeps (digits base digit room i).
Proof. revert i. induction room as [|room IH]; intros i; cbn [digits]; pres_steps. Qed.
#[export] Hint Resolve pres_digits : pres.
Lemma pres_writei msg i : pres conn_keeps (writei msg i).
Proof. unfold writei. pres_steps. Qed.
Lemma pres_writex dm msg i : pres conn_keeps (writex dm msg i).
Proof. unfold writex. pres_steps. Qed.
#[export] Hint Resolve pres_writei pres_writex : pres.
Lemma pres_tx_write_done dm r l : pres conn_keeps (tx_write_done dm r l).
Proof. unfold tx_write_done. pres_steps. Qed.
#[export] Hint Resolve pres_tx_write_done : pres.
Lemma pres_tx_write dm v : pres conn_keeps (tx_write dm v).
Proof. unfold tx_write. pres_steps. Qed.
#[export] Hint Resolve pres_tx_write : pres.
Lemma pres_tx_write_at dm p n : pres conn_keeps (tx_write_at dm p n).
Proof. unfold tx_write_at. pres_steps. Qed.
Lemma pres_tx_writeb dm v : pres conn_keeps (tx_writeb dm v).
Proof. unfold tx_writeb. pres_steps. Qed.
#[export] Hint Resolve pres_tx_write_at pres_tx_writeb : pres.
Lemma pres_tx_writes dm v : pres conn_keeps (tx_writes dm v).
Proof. unfold tx_writes. pres_steps. Qed.
#[export] Hint Resolve pres_tx_writes : pres.
Lemma pres_tx_writel dm v : pres conn_keeps (tx_writel dm v).
Proof. unfold tx_writel. pres_steps. Qed.
#[export] Hint Resolve pres_tx_writel : pres.
Lemma pres_tx_read_loop fuel n : pres conn_keeps (tx_read_loop fuel n).
Proof. revert n. induction fuel as [|fuel IH]; intros n; cbn [tx_read_loop]; pres_steps. Qed.
#[export] Hint Resolve pres_tx_read_loop : pres.
Lemma pres_tx_read n : pres conn_keeps (tx_read n).
Proof. unfold tx_read. pres_steps. Qed.
#[export] Hint Resolve pres_tx_read : pres.
Lemma pres_tx_read_at p n : pres conn_keeps (tx_read_at p n).
Proof. unfold tx_read_at. pres_steps. Qed.
#[export] Hint Resolve pres_tx_read_at : pres.

Section Client.
Context (dm : data_model).

Lemma pres_urcode m : pres conn_keeps m -> pres conn_keeps (urcode m).
Proof. intros Hm. unfold urcode. pres_steps. Qed.
Lemma pres_urcode_read n : pres conn_keeps (urcode_read n).
Proof. unfold urcode_read. pres_steps. Qed.
Lemma pres_and_then m1 m2 : pres conn_keeps m1 -> pres conn_keeps m2 -> pres conn_keeps (and_then m1 m2).
Proof. intros H1 H2. unfold and_then. pres_steps. Qed.
Lemma pres_write_name n : pres conn_keeps (write_name dm n).
Proof. unfold write_name. pres_steps. Qed.
Lemma pres_fail_with e : pres conn_keeps (fail_with e).
Proof. unfold fail_with. pres_steps. Qed.
#[local] Hint Resolve pres_urcode pres_urcode_read pres_and_then pres_write_name pres_fail_with : pres.

Lemma pres_short_reply : pres conn_keeps short_reply.
Proof. unfold short_reply. pres_steps. Qed.
#[local] Hint Resolve pres_short_reply : pres.
#[local] Hint Extern 1 (pres _ (and_then _ _)) => apply pres_and_then : pres.

Lemma pres_tpacall svc d l f : pres conn_keeps (tpacall dm svc d l f).
Proof. unfold tpacall. destruct svc; [|pres_steps]. apply pres_bind; [apply _ | eauto 8 with pres | intros ?]. pres_steps. Qed.
Lemma pres_tpadvertise svc f : pres conn_keeps (tpadvertise dm svc f).
Proof.
  unfold tpadvertise. destruct svc; [|pres_steps]. destruct (_ =? 0); [pres_steps|].
  apply pres_bind; [apply _ | eauto 8 with pres | intros ?]. pres_steps.
Qed.
Lemma pres_tpgetrply b c d l f : pres conn_keeps (tpgetrply dm b c d l f).
Proof.
  unfold tpgetrply. destruct (_ || _); [pres_steps|].
  apply pres_bind; [apply _ | eauto 8 with pres | intros ?]. pres_steps.
Qed.
#[local] Hint Resolve pres_tpacall pres_tpgetrply : pres.
Lemma pres_tpcall svc d l b o ol f : pres conn_keeps (tpcall dm svc d l b o ol f).
Proof. unfold tpcall. pres_steps. Qed.
Lemma pres_tpreturn rv rc d l f : pres conn_keeps (tpreturn dm rv rc d l f).
Proof. unfold tpreturn. pres_steps. Qed.
#[local] Hint Resolve pres_tpreturn : pres.

Lemma pres_tpservice routines info :
  (forall a f i, routines a = Some f -> pres conn_keeps (f i)) -> pres conn_keeps (tpservice dm routines info).
Proof.
  intros Hf. unfold tpservice, tpservice_at. destruct info as [old|]; [|pres_steps].
  assert (forall a k, (forall f, routines a = Some f -> pres conn_keeps (k f)) ->
    pres conn_keeps (ask WrongStruct (routines a) ≫= k : M conn svcinfo)) as Hask.
  { intros a k Hk. destruct (routines a) eqn:E; [by apply Hk | done]. }
  repeat first [apply Hask; intros ? ? | pres_step].
Qed.

Lemma pres_reverse_loop fuel p q : pres conn_keeps (reverse_loop fuel p q).
Proof.
  revert p q. induction fuel as [|fuel IH]; intros p q; cbn [reverse_loop]; unfold get_char, put_char; pres_steps.
Qed.
#[local] Hint Resolve pres_reverse_loop : pres.
Lemma pres_reversesvr rval i : pres conn_keeps (reversesvr dm rval i).
Proof. unfold reversesvr. pres_steps. Qed.

End Client.
#[export] Hint Resolve pres_tpadvertise pres_tpcall pres_tpreturn pres_reversesvr : pres.
