(* ===== verification/Examples.v ===== *)
(** * The example programs

    The [main] functions of [reversesvr.c], [reversetest.c] and [tuxtest.c], over
    the library.  A service name in them is a string constant shorter than the
    fifteen bytes that the library sends: [literal] is the memory from its start.
    The text that [perror] adds, and the address of the service routine, are
    parameters too.  What is printed on the standard output is part of the result. *)

From Stdlib Require Import ZArith Lia String.
From Stdlib Require Import Strings.Byte.
From S2P Require Import Prelude Constants ByteOrder CString Memory TpMemory Keeps TxIo TxOpen Xatmi Reverse ClientKeeps.

Local Open Scope string_scope.
Local Open Scope Z_scope.
Local Open Scope list_scope.

Section Programs.
Context (dm : data_model) (n : net) (errtext literal : list byte).

Definition perror (what : list byte) : M conn unit :=
  write2 (what ++ list_byte_of_string ": " ++ errtext ++ [x0a]).

(** ** [reversesvr.c] *)

Section Worker.
Context (addr : Z) (olds : nat -> list byte) (behind : list byte).

(** The routine at its address, with the present value of the static [rval]. *)
Definition routines (rval a : Z) : option (svcinfo -> M conn (exit * svcinfo)) :=
  if a =? addr then Some (reversesvr dm rval) else None.

(** [for (;;) { tpservice(&info); if (!info.cd) break; ... }]: what it prints, a
    descriptor and a name for each request.  A call that returns a descriptor has
    run the routine, which flips [rval].  [olds k] is what the structure [info]
    holds before the [k]th call. *)
Fixpoint work_loop (fuel k : nat) (rval : Z) : M conn (list (Z * list byte)) :=
  match fuel with
  | O => raise OutOfFuel
  | S fuel' =>
      o ← tpservice dm (routines rval) (Some (olds k));
      i ← ask NullDeref o;
      if i_cd i =? 0 then mret []
      else l ← work_loop fuel' (S k) (3 - rval); mret ((i_cd i, i_name i) :: l)
  end.

(** Every request takes bytes that the switchboard has sent. *)
Definition work_fuel : M conn nat := s ← gets incoming; mret (S (length s)).

(** The two messages are written with lengths that are not theirs: the first is cut
    off, the second goes on into the memory [behind] it. *)
Definition reversesvr_main (argv : list (list byte)) : M conn (Z * list (Z * list byte)) :=
  match argv with
  | [_; name] =>
      if bool_decide (head name = Some x2d) then
        write2 (take 27 (list_byte_of_string "usage: reversesvr switchboard" ++ [x0a])) ;; mret (1, [])
      else
        r ← tx_open n name;
        if r <? 0 then perror name ;; mret (2, [])
        else
          a ← tpadvertise dm (Some literal) addr;
          if a =? -1 then
            write2 (take 30 (list_byte_of_string "couldn't advertise REVERSE" ++ [x0a; x00] ++ behind)) ;; mret (3, [])
          else
            fuel ← work_fuel;
            l ← work_loop fuel 0 TPFAIL;
            _ ← tpunadvertise dm (Some literal);
            _ ← tx_close;
            mret (0, l)
  | _ => write2 (take 27 (list_byte_of_string "usage: reversesvr switchboard" ++ [x0a])) ;; mret (1, [])
  end.

End Worker.

(** ** [reversetest.c] and [tuxtest.c] *)

(** What is printed for an argument: that the call failed, or its outcome. *)
Inductive line :=
  | L_error
  | L_reply (failed : bool) (errno urcode : Z) (text : list byte).

(** [printf("%.*s", (int)l, p)] *)
Definition print_data (p : ptr) (l : Z) : M conn (list byte) :=
  let k := swrap 32 l in
  if k =? 0 then mret []
  else if k <? 0 then raise OutOfBounds
  else d ← in_cmem (in_heap (load_bytes p k)); mret (cname (Z.to_nat k) d).

(** The body of both loops; [urcode] is the conversion of [tpurcode] for [printf]. *)
Definition call_string (svc what : list byte) (urcode : Z -> Z) (str : list byte) : M conn line :=
  let l := Z.of_nat (length str) in
  p ← in_cmem (tpalloc dm NULL NULL l);
  (if l =? 0 then mret tt else in_cmem (in_heap (store_bytes p str))) ;;
  g ← tpcall dm (Some svc) p l false p l 0;
  if g_ret g =? -1 then perror what ;; mret L_error
  else
    s ← gets id;
    d ← print_data (g_data g) (g_len g);
    mret (L_reply (tperrno (cmem s) =? TPESVCFAIL) (tperrno (cmem s)) (urcode (tpurcode s)) d).

Fixpoint call_strings (svc what : list byte) (urcode : Z -> Z) (strs : list (list byte)) : M conn (list line) :=
  match strs with
  | [] => mret []
  | str :: strs' =>
      x ← call_string svc what urcode str; xs ← call_strings svc what urcode strs'; mret (x :: xs)
  end.

Definition reversetest_main (argv : list (list byte)) : M conn (Z * list line) :=
  match argv with
  | _ :: name :: strs =>
      if bool_decide (head name = Some x2d) then
        write2 (take 39 (list_byte_of_string "usage: reversetest switchboard string ..." ++ [x0a])) ;; mret (1, [])
      else
        r ← tx_open n name;
        if r <? 0 then perror name ;; mret (2, [])
        else
          l ← call_strings literal (list_byte_of_string "tpcall") id strs;
          _ ← tx_close;
          mret (0, l)
  | _ => write2 (take 39 (list_byte_of_string "usage: reversetest switchboard string ..." ++ [x0a])) ;; mret (1, [])
  end.

(** The service is the memory from the start of an argument. *)
Definition tuxtest_main (argv : list (list byte)) : M conn (Z * list line) :=
  match argv with
  | _ :: name :: service :: strs =>
      if bool_decide (head name = Some x2d) then
        write2 (list_byte_of_string "usage: tuxtest switchboard service string ..." ++ [x0a]) ;; mret (1, [])
      else
        r ← tx_open n name;
        if r <? 0 then perror name ;; mret (2, [])
        else
          l ← call_strings service (cname (length service) service) (swrap 32) strs;
          _ ← tx_close;
          mret (0, l)
  | _ => write2 (list_byte_of_string "usage: tuxtest switchboard service string ..." ++ [x0a]) ;; mret (1, [])
  end.

End Programs.

(** ** Lemmas *)

(** Connecting leaves what the connection is about to carry. *)
Definition conn_frame : relation conn := fun c c' =>
  forall inc snt m ur lj, ooms (tp_heap m) = [] -> conn_is c inc snt m ur lj -> conn_is c' inc snt m ur lj.

#[global] Instance conn_frame_preorder : PreOrder conn_frame.
Proof. split; unfold conn_frame; intros ?; auto. Qed.

Lemma tx_open_frame n name : pres conn_frame (tx_open n name).
Proof.
  assert (forall x, pres conn_frame (modify (set_tx_server x))) by (intros x c ? ? ? ? ? _ []; by constructor).
  assert (forall x, pres conn_frame (close x)) by (intros x c ? ? ? ? ? _ []; by constructor).
  assert (pres conn_frame (in_cmem (in_heap oom))).
  { intros c. unfold in_cmem, in_heap, zoom, oom. destruct (ooms (tp_heap (cmem c))) eqn:E; intros ? ? m ? ? Ho [I S C U L W R].
    - constructor; cbn; try done. subst m. by destruct (cmem c).
    - subst m. congruence. }
  unfold tx_open, open_inet, open_socket. pres_steps.
Qed.

(** The connection that a program gets. *)
Definition opens (n : net) (name : list byte) (s : conn) : Prop :=
  exists s0, tx_open n name s = Done (TX_OK, s0).

Section Rules.
Context (dm : data_model).
Implicit Types (s : conn) (inc snt : list byte) (m : tpmem) (ur : Z) (lj : bool).

Lemma wp_opens {A} n name s inc snt m ur lj (k : Z -> M conn A) Q :
  opens n name s -> conn_is s inc snt m ur lj -> ooms (tp_heap m) = [] ->
  (forall s', conn_is s' inc snt m ur lj -> wp (k TX_OK) s' Q) -> wp (tx_open n name ≫= k) s Q.
Proof.
  intros [s0 E] Hs Ho HQ. wp_step. eapply wp_of_eq; [exact E|]. apply HQ.
  pose proof (tx_open_frame n name s) as Hf. rewrite E in Hf. by apply Hf.
Qed.

(** A read at the end of the stream. *)
Lemma wp_tx_read_eof s snt m ur lj k Q :
  conn_is s [] snt m ur lj -> (0 < k)%nat ->
  (forall s', conn_is s' [] snt m ur lj -> Q (TX_FAIL, []) s') -> wp (tx_read k) s Q.
Proof.
  intros [I S C U L W R] Hk HQ. unfold tx_read. cbn [tx_read_loop].
  rewrite (proj2 (Nat.eqb_neq k 0)) by lia.
  destruct (sys_read_run k s Hk) as (o & r' & E & HF & Ho). destruct (HF R) as [HR [bs ->]].
  destruct Ho as (Eb & _). rewrite I, take_nil in Eb. subst bs.
  wp_step. eapply wp_of_eq; [exact E|]. cbv beta iota. apply HQ. by constructor; cbn; rewrite ?I.
Qed.
Lemma wp_urcode_read_eof s snt m ur lj k Q :
  conn_is s [] snt m ur lj -> (0 < k)%nat ->
  (forall s', conn_is s' [] snt m TX_FAIL lj -> Q None s') -> wp (urcode_read k) s Q.
Proof.
  intros Hs Hk HQ. unfold urcode_read. wp_step. eapply wp_tx_read_eof; [done..|].
  intros s' [I S C U L W R]. wp_steps. apply HQ. by constructor.
Qed.

(** One output under [urcode], in a chain of [and_then]. *)
Ltac out_step rule :=
  eapply wp_urcode; [eapply rule; [eassumption | try done.. | intros; split; [reflexivity | eassumption]]
                    | intros; cbn beta].

Lemma wp_tpadvertise s inc snt m ur lj name func Q :
  conn_is s (le_encode 2 0 ++ inc) snt m ur lj -> (XATMI_SERVICE_NAME_LENGTH <= length name)%nat -> func <> 0 ->
  (forall s', conn_is s' inc (snt ++ [z2b TPTADVT] ++ take XATMI_SERVICE_NAME_LENGTH name ++ le_encode 4 func) m TX_OK lj ->
    Q 0 s') ->
  wp (tpadvertise dm (Some name) func) s Q.
Proof.
  intros Hs Hn Hf HQ. unfold tpadvertise. rewrite (proj2 (Z.eqb_neq func 0)) by done. wp_step.
  apply wp_and_then. out_step wp_tx_writeb. split; [done|].
  apply wp_and_then. out_step wp_write_name. split; [done|]. out_step wp_tx_writel. simpl negb. cbv iota.
  unfold short_reply. wp_step. eapply wp_urcode_read; [eassumption | done |]. intros s4 H4.
  wp_step. eapply wp_ask; [reflexivity|]. change (Q 0 s4). apply HQ. by rewrite !app_assoc.
Qed.

(** [tpadvertise] with the answer [code] of the switchboard. *)
Lemma tpadvertise_answered s inc snt m ur lj name func code :
  conn_is s (le_encode 2 code ++ inc) snt m ur lj -> length name = XATMI_SERVICE_NAME_LENGTH -> func <> 0 ->
  code = 0 \/ code = TPEMATCH ->
  wp (tpadvertise dm (Some name) func) s (fun r s' => r = (if code =? 0 then 0 else -1) /\
    conn_is s' inc (snt ++ [z2b TPTADVT] ++ name ++ le_encode 4 func)
      (if code =? 0 then m else set_tperrno code m) TX_OK lj).
Proof.
  intros Hs Hn Hf Hcode. unfold tpadvertise. rewrite (proj2 (Z.eqb_neq func 0)) by done. wp_step.
  apply wp_and_then. out_step wp_tx_writeb. split; [done|].
  apply wp_and_then. out_step wp_write_name; [lia|]. split; [done|]. out_step wp_tx_writel. simpl negb. cbv iota.
  rewrite take_ge in * by lia. rewrite <- !app_assoc in *. unfold short_reply, fail_with. wp_step.
  eapply wp_urcode_read; [eassumption | apply length_le_encode |]. intros s4 H4.
  wp_step. eapply wp_ask; [by apply toshort_encode, take_ge|]. destruct Hcode as [->| ->].
  - by split.
  - change (negb _) with true. cbv iota. wp_step. eapply wp_set_errno; [exact H4|]. intros s5 H5. wp_step. by split.
Qed.

(** The switchboard refuses, or is gone before it answers. *)
Definition refusal (inc : list byte) : Prop :=
  inc = [] \/ exists e rest, inc = le_encode 2 e ++ rest /\ uwrap 16 e <> 0.

Lemma wp_tpadvertise_refused s inc snt m ur lj name func Q :
  conn_is s inc snt m ur lj -> refusal inc -> (XATMI_SERVICE_NAME_LENGTH <= length name)%nat -> func <> 0 ->
  (forall s' inc' m' ur', conn_is s' inc' (snt ++ [z2b TPTADVT] ++ take XATMI_SERVICE_NAME_LENGTH name ++ le_encode 4 func)
    m' ur' lj -> Q (-1) s') ->
  wp (tpadvertise dm (Some name) func) s Q.
Proof.
  intros Hs Hr Hn Hf HQ. unfold tpadvertise. rewrite (proj2 (Z.eqb_neq func 0)) by done. wp_step.
  apply wp_and_then. out_step wp_tx_writeb. split; [done|].
  apply wp_and_then. out_step wp_write_name. split; [done|]. out_step wp_tx_writel. simpl negb. cbv iota.
  rewrite <- !app_assoc in *. unfold short_reply, fail_with. wp_step. destruct Hr as [->|(e & rest & -> & He)].
  - eapply wp_urcode_read_eof; [eassumption | unfold IOSHORT; lia |]. intros s4 H4. wp_step.
    eapply wp_set_errno; [exact H4|]. intros s5 H5. wp_step. by eapply HQ.
  - eapply wp_urcode_read; [eassumption | apply length_le_encode |]. intros s4 H4. wp_step.
    eapply wp_ask; [by apply toshort_encode, take_ge|]. rewrite (proj2 (Z.eqb_neq _ 0)) by done. cbn [negb]. wp_step.
    eapply wp_set_errno; [exact H4|]. intros s5 H5. wp_step. by eapply HQ.
Qed.

(** The switchboard is gone. *)
Lemma wp_tpunadvertise_eof s snt m ur lj name Q :
  conn_is s [] snt m ur lj -> (XATMI_SERVICE_NAME_LENGTH <= length name)%nat ->
  (forall s', conn_is s' [] (snt ++ [z2b TPTUADV] ++ take XATMI_SERVICE_NAME_LENGTH name)
    (set_tperrno TPESYSTEM m) TX_FAIL lj -> Q (-1) s') ->
  wp (tpunadvertise dm (Some name)) s Q.
Proof.
  intros Hs Hn HQ. unfold tpunadvertise. wp_step.
  apply wp_and_then. out_step wp_tx_writeb. split; [done|]. out_step wp_write_name. simpl negb. cbv iota.
  unfold short_reply. wp_step. eapply wp_urcode_read_eof; [eassumption | unfold IOSHORT; lia |]. intros s4 H4.
  unfold fail_with. wp_step. eapply wp_set_errno; [exact H4|]. intros s5 H5. wp_step. apply HQ.
  by rewrite !app_assoc.
Qed.
Lemma wp_tpservice_eof s snt m ur lj routines old Q :
  conn_is s [] snt m ur lj ->
  (forall i s', i_cd i = 0 -> conn_is s' [] (snt ++ [z2b TPTWORK]) (set_tperrno TPESYSTEM m) TX_FAIL lj -> Q (Some i) s') ->
  wp (tpservice dm routines (Some old)) s Q.
Proof.
  intros Hs HQ. unfold tpservice, tpservice_at. do 2 wp_step. eapply wp_tx_writeb; [done|]. intros s1 H1.
  wp_step. eapply wp_urcode_read_eof; [exact H1 | unfold IOLONG; lia |]. intros s2 H2. wp_step.
  eapply wp_set_errno; [exact H2|]. intros s3 H3. wp_steps. by apply HQ.
Qed.

(** ** The worker *)

Record request := mkReq { rq_name : list byte; rq_flags : Z; rq_cd : Z; rq_data : list byte }.

Definition request_ok (r : request) : Prop :=
  length (rq_name r) = XATMI_SERVICE_NAME_LENGTH /\ - 2 ^ 31 <= rq_flags r < 2 ^ 31 /\
  0 < rq_cd r < 2 ^ 16 /\ Z.of_nat (length (rq_data r)) < 2 ^ 31.

Definition request_bytes (addr : Z) (r : request) : list byte :=
  work_message addr (rq_name r) (Z.of_nat (length (rq_data r))) (rq_flags r) (rq_cd r) (rq_data r).

(** What the worker sends for a sequence of requests: it asks for work, and replies
    with the reversed data and the two results in turn; then it asks once more. *)
Fixpoint served (rval : Z) (rs : list request) : list byte :=
  match rs with
  | [] => [z2b TPTWORK]
  | r :: rs' =>
      [z2b TPTWORK] ++ return_bytes (3 - rval) (3 - rval) (reverse (rq_data r)) ++ served (3 - rval) rs'
  end.

Lemma wp_work_loop addr olds rs : forall fuel k rval s snt m ur lj,
  conn_is s (concat (request_bytes addr <$> rs)) snt m ur lj ->
  heap_wf (tp_heap m) -> ooms (tp_heap m) = [] -> Forall request_ok rs ->
  (forall k, length (olds k) = sizeof_TPSVCINFO dm) -> 0 < addr < 2 ^ 31 ->
  rval = TPFAIL \/ rval = TPSUCCESS -> (length rs < fuel)%nat ->
  wp (work_loop dm addr olds fuel k rval) s (fun l s' =>
    l = (fun r => (rq_cd r, rq_name r)) <$> rs /\
    exists m' ur' lj', conn_is s' [] (snt ++ served rval rs) m' ur' lj').
Proof.
  induction rs as [|r rs IH]; intros fuel k rval s snt m ur lj Hs Hwf Ho HF Holds Ha Hr Hfuel;
    (destruct fuel as [|fuel]; [cbn in Hfuel; lia|]); cbn [work_loop]; wp_step.
  - eapply wp_tpservice_eof; [exact Hs|]. intros i s' Hi H'. wp_step. eapply wp_ask; [done|].
    rewrite Hi. cbn. split; [done|]. eauto.
  - inversion HF as [|? ? (Hn & Hf & Hc & Hd) HF']; subst.
    cbn [fmap list_fmap concat] in Hs.
    assert (ulong dm (swrap 32 addr) = addr) as Ea.
    { rewrite swrap_id by lia. unfold ulong. apply uwrap_id. destruct dm; cbn; lia. }
    eapply wp_mono.
    { apply (wp_pres conn_keeps).
      - apply pres_tpservice. unfold routines. intros a f i. destruct (a =? addr); [|done]. intros [= <-].
        apply pres_reversesvr.
      - eapply (wp_reverse_service dm s _ snt m ur lj (routines dm addr rval) (olds k) addr); try done.
        + unfold oom_now. by rewrite Ho.
        + unfold routines. by rewrite Ea, Z.eqb_refl. }
    cbn beta. intros i s1 [(-> & m1 & ur1 & H1) Hk]. wp_step. eapply wp_ask; [done|]. cbn [i_cd i_name].
    rewrite uwrap_id by lia. rewrite (proj2 (Z.eqb_neq (rq_cd r) 0)) by lia. wp_step.
    unfold conn_keeps, mem_keeps in Hk. rewrite (ci_cmem _ _ _ _ _ _ Hs), (ci_cmem _ _ _ _ _ _ H1) in Hk.
    eapply wp_mono; [eapply (IH fuel (S k) (3 - rval)); [exact H1 | by apply Hk | by apply Hk | done..| | cbn in Hfuel; lia]|].
    + destruct Hr as [-> | ->]; [right | left]; done.
    + cbn beta. intros l s2 (-> & m2 & ur2 & lj2 & H2). wp_step. split; [done|].
      exists m2, ur2, lj2. cbn [served]. rewrite !app_assoc in H2. rewrite !app_assoc. exact H2.
Qed.

(** ** The callers *)

Record reply := mkReply { rp_cd : Z; rp_rval : Z; rp_rcode : Z; rp_data : list byte }.

Definition reply_ok (r : reply) : Prop :=
  (rp_rval r = TPSUCCESS \/ rp_rval r = TPFAIL) /\ - 2 ^ 31 <= rp_rcode r < 2 ^ 31 /\
  Z.of_nat (length (rp_data r)) < 2 ^ 31.

(** What the switchboard sends for a call, what the caller sends, and what it prints. *)
Definition answer_bytes (r : reply) : list byte :=
  [z2b 0] ++ le_encode 2 (rp_cd r) ++ reply_bytes (rp_rval r) (rp_cd r) (rp_rcode r) (rp_data r).
Definition call_bytes (svc str : list byte) (r : reply) : list byte :=
  acall_bytes svc (Z.of_nat (length str)) 0 ++ str ++ getrply_bytes (uwrap 16 (rp_cd r)) 0.
Definition reply_line (urcode : Z -> Z) (r : reply) : line :=
  L_reply (rp_rval r =? TPFAIL) (if rp_rval r =? TPFAIL then TPESVCFAIL else 0) (urcode (rp_rcode r))
    (cname (length (rp_data r)) (rp_data r)).

Lemma wp_print_data s inc snt m ur lj p d Q :
  conn_is s inc snt m ur lj -> Z.of_nat (length d) < 2 ^ 31 ->
  (d <> [] -> tpbuf dm (tp_heap m) p (Z.of_nat (length d)) /\ tpdata (tp_heap m) p (Z.of_nat (length d)) = d) ->
  (forall s', conn_is s' inc snt m ur lj -> Q (cname (length d) d) s') ->
  wp (print_data p (Z.of_nat (length d))) s Q.
Proof.
  intros Hs Hl Hd HQ. unfold print_data. rewrite swrap_id by lia. destruct d as [|b d]; [by apply HQ|].
  destruct Hd as [Hb Hd]; [done|]. set (bs := b :: d) in *.
  rewrite (proj2 (Z.eqb_neq _ 0)), (proj2 (Z.ltb_ge _ 0)) by (cbn; lia). wp_step.
  eapply wp_in_cmem; [exact Hs | |].
  { pose proof (load_bytes_at dm m p _ 0 (Z.of_nat (length bs)) Hb) as E.
    replace (ptr_add p 0) with p in E by (destruct p; unfold ptr_add; cbn; f_equal; lia). apply E; lia. }
  intros s1 H1. wp_step. rewrite Hd, !Nat2Z.id. unfold rd. change (drop (Z.to_nat 0) bs) with bs. rewrite take_ge by done.
  by apply HQ.
Qed.

Lemma oom_false h : ooms h = [] -> oom_now h = false.
Proof. intros E. unfold oom_now. by rewrite E. Qed.

Lemma wp_call_string errtext svc what urcode str r s inc snt m ur lj :
  conn_is s (answer_bytes r ++ inc) snt m ur lj -> heap_wf (tp_heap m) -> ooms (tp_heap m) = [] ->
  (XATMI_SERVICE_NAME_LENGTH <= length svc)%nat -> str <> [] -> Z.of_nat (length str) < 2 ^ 31 -> reply_ok r ->
  wp (call_string dm errtext svc what urcode str) s (fun x s' =>
    x = reply_line urcode r /\ exists m' ur', conn_is s' inc (snt ++ call_bytes svc str r) m' ur' lj).
Proof.
  intros Hs Hwf Ho Hsvc Hne Hl (Hrv & Hrc & Hd). unfold call_string. wp_step.
  destruct (tpalloc_ok dm NULL NULL (Z.of_nat (length str)) m) as (b & Hblk & Ea);
    [done | by apply oom_false | unfold LONG_MAX; destruct dm; cbn; lia |].
  pose proof (heap_alloc_buf dm m b _ Hwf Hblk) as (Hbuf & _ & Hwf1).
  eapply wp_in_cmem; [exact Hs | exact Ea |]. intros s1 H1. wp_step.
  set (p := Ptr (brk (tp_heap m)) (sizeof_tpmemory dm)) in *. set (m1 := set_heap _ m) in *.
  rewrite (proj2 (Z.eqb_neq _ 0)) by (destruct str; cbn; [done | lia]).
  destruct (store_bytes_whole dm m1 p str Hbuf) as (m2 & E2 & Hb2 & Hd2 & He2).
  pose proof (pres_in_heap _ (pres_store_bytes p str) m1) as Hk. rewrite E2 in Hk. destruct Hk as [Kw Ko].
  eapply wp_in_cmem; [exact H1 | exact E2 |]. intros s2 H2. wp_step.
  unfold tpcall. wp_step. unfold answer_bytes in H2. rewrite <- !app_assoc in H2.
  eapply wp_mono; [eapply (tpacall_run dm); [exact H2 | done | exact Hb2 | lia | done]|].
  cbn beta. change (swrap 8 0 =? 0) with true. cbv iota. intros v s3 [-> H3].
  pose proof (uwrap_range 16 (rp_cd r) ltac:(lia)). rewrite (proj2 (Z.eqb_neq _ (-1))) by lia. cbn [negb].
  rewrite Hd2, Nat2Z.id, take_ge in H3 by lia.
  eapply wp_mono; [eapply (tpgetrply_run dm); [exact H3 | done | | by apply Kw | apply oom_false, Ko; unfold m1; cbn; by rewrite Ho | exact Hb2
    | done | done]|].
  { destruct str; cbn; [done | lia]. }
  cbn beta. intros g s4 (Eg & _ & El & m4 & ur4 & H4 & Ee & G1 & G2).
  rewrite Eg, (proj2 (Z.eqb_neq _ (-1))) by lia. wp_steps. unfold id.
  assert (ur4 = rp_rcode r) as ->.
  { destruct (rp_data r); [by apply G1 | by apply G2]. }
  rewrite El. eapply wp_print_data; [exact H4 | done | intros Hn; by destruct (G2 Hn) as (? & ? & _) |].
  intros s5 H5. wp_step. split.
  - unfold reply_line. rewrite (ci_cmem _ _ _ _ _ _ H4), (ci_tpurcode _ _ _ _ _ _ H4), Ee.
    destruct Hrv as [-> | ->]; done.
  - exists m4, (rp_rcode r). unfold call_bytes. rewrite <- !app_assoc in H5. exact H5.
Qed.

Lemma pres_print_data p l : pres conn_keeps (print_data p l).
Proof. unfold print_data. pres_steps. Qed.
Lemma pres_call_string errtext svc what urcode str : pres conn_keeps (call_string dm errtext svc what urcode str).
Proof. pose proof pres_print_data. unfold call_string, perror. pres_steps. Qed.

Lemma wp_call_strings errtext svc what urcode strs : forall rs s inc snt m ur lj,
  conn_is s (concat (answer_bytes <$> rs) ++ inc) snt m ur lj -> heap_wf (tp_heap m) -> ooms (tp_heap m) = [] ->
  (XATMI_SERVICE_NAME_LENGTH <= length svc)%nat -> length rs = length strs ->
  Forall (fun str => str <> [] /\ Z.of_nat (length str) < 2 ^ 31) strs -> Forall reply_ok rs ->
  wp (call_strings dm errtext svc what urcode strs) s (fun l s' =>
    l = reply_line urcode <$> rs /\
    exists m' ur', conn_is s' inc (snt ++ concat (zip_with (call_bytes svc) strs rs)) m' ur' lj).
Proof.
  induction strs as [|str strs IH]; intros [|r rs] s inc snt m ur lj Hs Hwf Ho Hsvc Hlen HF HR;
    try discriminate Hlen; cbn [call_strings].
  - wp_step. split; [done|]. exists m, ur. cbn in *. by rewrite app_nil_r.
  - inversion HF as [|? ? [Hne Hl] HF']; inversion HR as [|? ? Hr HR']; subst. wp_step.
    cbn [fmap list_fmap concat] in Hs. rewrite <- app_assoc in Hs.
    eapply wp_mono; [apply (wp_pres conn_keeps); [apply pres_call_string | by eapply wp_call_string]|].
    cbn beta. intros x s1 [(-> & m1 & ur1 & H1) Hk]. wp_step.
    unfold conn_keeps, mem_keeps in Hk. rewrite (ci_cmem _ _ _ _ _ _ Hs), (ci_cmem _ _ _ _ _ _ H1) in Hk.
    eapply wp_mono; [eapply (IH rs); [exact H1 | by apply Hk | by apply Hk | done | by injection Hlen | done | done]|].
    cbn beta. intros l s2 (-> & m2 & ur2 & H2). wp_step. split; [done|]. exists m2, ur2.
    cbn [zip_with concat]. by rewrite app_assoc.
Qed.

End Rules.

(** ** Properties *)

(** What [reversesvr] does when it serves. *)
Lemma wp_reversesvr_main dm n errtext literal addr olds behind prog name rs s m ur lj :
  conn_is s (le_encode 2 0 ++ concat (request_bytes addr <$> rs)) [] m ur lj -> opens n name s ->
  head name <> Some x2d -> (XATMI_SERVICE_NAME_LENGTH <= length literal)%nat -> 0 < addr < 2 ^ 31 ->
  (forall k, length (olds k) = sizeof_TPSVCINFO dm) -> heap_wf (tp_heap m) -> ooms (tp_heap m) = [] ->
  Forall request_ok rs ->
  wp (reversesvr_main dm n errtext literal addr olds behind [prog; name]) s (fun r s' =>
    r = (0, (fun q => (rq_cd q, rq_name q)) <$> rs) /\ tx_server s' = -1 /\
    sent s' = ([z2b TPTADVT] ++ take XATMI_SERVICE_NAME_LENGTH literal ++ le_encode 4 addr) ++
      served TPFAIL rs ++ [z2b TPTUADV] ++ take XATMI_SERVICE_NAME_LENGTH literal).
Proof.
  intros Hs Hopen Hname Hlit Ha Holds Hwf Ho HF. unfold reversesvr_main.
  rewrite (bool_decide_false _ Hname). eapply wp_opens; [done | exact Hs | done |]. intros s1 H1.
  change (TX_OK <? 0) with false. cbv iota. wp_step. eapply wp_tpadvertise; [exact H1 | done | lia |].
  intros s2 H2. change (0 =? -1) with false. cbv iota. unfold work_fuel. wp_steps.
  rewrite (ci_incoming _ _ _ _ _ _ H2). eapply wp_mono; [eapply (wp_work_loop dm addr olds rs);
    [exact H2 | done | done | done | done | done | by left |]|].
  { clear. induction rs as [|r rs IH]; [cbn; lia|]. cbn [fmap list_fmap concat length].
    rewrite length_app. unfold request_bytes at 1, work_message. rewrite length_app, length_le_encode.
    lia. }
  cbn beta. intros l s3 (-> & m3 & ur3 & lj3 & H3). wp_step. eapply wp_tpunadvertise_eof; [exact H3 | done |].
  intros s4 H4. wp_step. unfold tx_close. wp_steps. split_and!; [done | done |].
  cbn [sent set_tx_server set_fds_closed]. rewrite (ci_sent _ _ _ _ _ _ H4). by rewrite <- !app_assoc.
Qed.

(** C11. The whole worker [reversesvr], on each of its exits.  With a wrong number of arguments, or
    one that begins with a minus, it prints the first 27 bytes of its usage and exits with 1,
    having done nothing; when [tx_open] fails it prints the error and exits with 2; when the
    switchboard refuses the advertisement, or is gone, it prints so (and two bytes of whatever
    is behind the string) and exits with 3, having sent the one message.  Otherwise, for any
    sequence of requests, it replies to each, in order, with the reversed data, the results
    alternating from success, and prints each descriptor and name; when the switchboard goes
    away its loop ends, it withdraws the service, closes the connection and exits with 0.  (The
    routine's address fits 31 bits, and fifteen bytes can be read from its name.) *)
Theorem reversesvr_works dm n errtext literal addr olds behind :
  (XATMI_SERVICE_NAME_LENGTH <= length literal)%nat -> 0 < addr < 2 ^ 31 ->
  (forall k, length (olds k) = sizeof_TPSVCINFO dm) ->
  (forall argv s, length argv <> 2%nat \/ (exists prog name, argv = [prog; name] /\ head name = Some x2d) ->
    reversesvr_main dm n errtext literal addr olds behind argv s =
      Done ((1, []), set_stderr (stderr s ++ [list_byte_of_string "usage: reversesvr switchboa"]) s)) /\
  (forall prog name s r s0, head name <> Some x2d -> tx_open n name s = Done (r, s0) -> r < 0 ->
    reversesvr_main dm n errtext literal addr olds behind [prog; name] s =
      Done ((2, []), set_stderr (stderr s0 ++ [name ++ list_byte_of_string ": " ++ errtext ++ [x0a]]) s0)) /\
  (forall prog name s inc m ur lj, head name <> Some x2d -> opens n name s ->
    conn_is s inc [] m ur lj -> refusal inc -> ooms (tp_heap m) = [] ->
    wp (reversesvr_main dm n errtext literal addr olds behind [prog; name]) s (fun r s' =>
      r = (3, []) /\ sent s' = [z2b TPTADVT] ++ take XATMI_SERVICE_NAME_LENGTH literal ++ le_encode 4 addr /\
      last (stderr s') = Some (list_byte_of_string "couldn't advertise REVERSE" ++ [x0a; x00] ++ take 2 behind))) /\
  (forall prog name rs s m ur lj, head name <> Some x2d -> opens n name s ->
    conn_is s (le_encode 2 0 ++ concat (request_bytes addr <$> rs)) [] m ur lj ->
    heap_wf (tp_heap m) -> ooms (tp_heap m) = [] -> Forall request_ok rs ->
    wp (reversesvr_main dm n errtext literal addr olds behind [prog; name]) s (fun r s' =>
      r = (0, (fun q => (rq_cd q, rq_name q)) <$> rs) /\ tx_server s' = -1 /\
      sent s' = ([z2b TPTADVT] ++ take XATMI_SERVICE_NAME_LENGTH literal ++ le_encode 4 addr) ++
        served TPFAIL rs ++ [z2b TPTUADV] ++ take XATMI_SERVICE_NAME_LENGTH literal)).
Proof.
  intros Hlit Ha Holds. split_and!.
  - intros argv s Hargv. destruct Hargv as [Hl|(prog & name & -> & Hh)].
    + by destruct argv as [|a0 [|a1 [|a2 argv]]].
    + unfold reversesvr_main. by rewrite bool_decide_true.
  - intros prog name s r s0 Hh Ho Hr. unfold reversesvr_main. rewrite bool_decide_false by done.
    erewrite bind_run by exact Ho. by rewrite (proj2 (Z.ltb_lt r 0)).
  - intros prog name s inc m ur lj Hh Ho Hs Hr Hm. unfold reversesvr_main. rewrite bool_decide_false by done.
    eapply wp_opens; [done | exact Hs | done |]. intros s1 H1. change (TX_OK <? 0) with false. cbv iota.
    wp_step. eapply wp_tpadvertise_refused; [exact H1 | done | done | lia |].
    intros s2 inc2 m2 ur2 H2. change (-1 =? -1) with true. cbv iota. unfold write2. wp_steps. split_and!; [done | |].
    + exact (ci_sent _ _ _ _ _ _ H2).
    + cbn [stderr set_stderr]. by rewrite last_snoc.
  - intros. by eapply wp_reversesvr_main.
Qed.

(** C12. The whole callers: [reversetest] and [tuxtest] connect, send one call for each of their
    arguments and ask for its reply, print for each the outcome, the result code (as a
    [long] and as an [int]) and the reply's text, close the connection and exit with 0,
    for any arguments but empty ones and any replies. *)
Theorem callers_work dm n errtext literal prog name rs strs s inc m ur lj :
  conn_is s (concat (answer_bytes <$> rs) ++ inc) [] m ur lj -> opens n name s ->
  head name <> Some x2d -> (XATMI_SERVICE_NAME_LENGTH <= length literal)%nat ->
  heap_wf (tp_heap m) -> ooms (tp_heap m) = [] -> length rs = length strs ->
  Forall (fun str => str <> [] /\ Z.of_nat (length str) < 2 ^ 31) strs -> Forall reply_ok rs ->
  wp (reversetest_main dm n errtext literal (prog :: name :: strs)) s (fun r s' =>
    r = (0, reply_line id <$> rs) /\ tx_server s' = -1 /\ incoming s' = inc /\
    sent s' = concat (zip_with (call_bytes literal) strs rs)) /\
  wp (tuxtest_main dm n errtext (prog :: name :: literal :: strs)) s (fun r s' =>
    r = (0, reply_line (swrap 32) <$> rs) /\ tx_server s' = -1 /\ incoming s' = inc /\
    sent s' = concat (zip_with (call_bytes literal) strs rs)).
Proof.
  intros Hs Hopen Hname Hlit Hwf Ho Hlen HF HR.
  assert (forall what urcode s1, conn_is s1 (concat (answer_bytes <$> rs) ++ inc) [] m ur lj ->
    wp (l ← call_strings dm errtext literal what urcode strs; _ ← tx_close; mret (0, l)) s1 (fun r s' =>
      r = (0, reply_line urcode <$> rs) /\ tx_server s' = -1 /\ incoming s' = inc /\
      sent s' = concat (zip_with (call_bytes literal) strs rs))) as Hcalls.
  { intros what urcode s1 H1. wp_step. eapply wp_mono; [by eapply (wp_call_strings dm)|].
    cbn beta. intros l s2 (-> & m2 & ur2 & H2). unfold tx_close. wp_steps. split_and!; [done | done | |].
    - apply (ci_incoming _ _ _ _ _ _ H2).
    - apply (ci_sent _ _ _ _ _ _ H2). }
  split; [unfold reversetest_main | unfold tuxtest_main]; rewrite (bool_decide_false _ Hname);
    (eapply wp_opens; [done | exact Hs | done |]); intros s1 H1; change (TX_OK <? 0) with false; cbv iota;
    by apply Hcalls.
Qed.

(** ** Witnesses *)

Definition wit_host : list byte := [x68; x3a; x38; x30].

Lemma wit_opens inc : opens wit_net wit_host (wit_conn inc [] []).
Proof. eexists. vm_compute. reflexivity. Qed.

Lemma reversesvr_works_witness :
  wp (reversesvr_main LP64 wit_net [] wit_name 5 (fun _ => replicate 48 x00) [] [[x72]; wit_host])
    (wit_conn (le_encode 2 0 ++ concat (request_bytes 5 <$> [mkReq wit_name 0 77 [x61; x62; x63]; mkReq wit_name 0 78 []])) [] [])
    (fun r s' => r = (0, [(77, wit_name); (78, wit_name)]) /\
      sent s' = ([z2b TPTADVT] ++ wit_name ++ le_encode 4 5) ++
        served TPFAIL [mkReq wit_name 0 77 [x61; x62; x63]; mkReq wit_name 0 78 []] ++ [z2b TPTUADV] ++ wit_name).
Proof.
  eapply wp_mono.
  - destruct (reversesvr_works LP64 wit_net [] wit_name 5 (fun _ => replicate 48 x00) []) as (_ & _ & _ & Hserve);
      [reflexivity | lia | reflexivity |].
    apply (Hserve [x72] wit_host [mkReq wit_name 0 77 [x61; x62; x63]; mkReq wit_name 0 78 []] _ wit_mem 0 false).
    + discriminate.
    + apply wit_opens.
    + apply wit_conn_is. constructor.
    + apply wit_mem_wf.
    + reflexivity.
    + constructor; [|constructor; [|constructor]]; (split; [reflexivity|]); cbn; lia.
  - intros r s' (-> & _ & E). split; [reflexivity | exact E].
Defined.

Lemma callers_work_witness :
  wp (reversetest_main LP64 wit_net [] wit_name [[x72]; wit_host; [x61; x62]])
    (wit_conn (concat (answer_bytes <$> [mkReply 9 TPFAIL 3 [x62; x61]]) ++ []) [] [])
    (fun r s' => r = (0, [L_reply true TPESVCFAIL 3 [x62; x61]])).
Proof.
  destruct (callers_work LP64 wit_net [] wit_name [x72] wit_host [mkReply 9 TPFAIL 3 [x62; x61]] [[x61; x62]]
    (wit_conn (concat (answer_bytes <$> [mkReply 9 TPFAIL 3 [x62; x61]]) ++ []) [] []) [] wit_mem 0 false) as [Hw _].
  - apply wit_conn_is. constructor.
  - apply wit_opens.
  - discriminate.
  - reflexivity.
  - apply wit_mem_wf.
  - reflexivity.
  - reflexivity.
  - constructor; [|constructor]. split; [discriminate | cbn; lia].
  - constructor; [|constructor]. split; [right; reflexivity | cbn; lia].
  - eapply wp_mono; [exact Hw|]. intros r s' (-> & _). reflexivity.
Defined.
