(* ===== verification/Dispatch.v ===== *)
(** * Dispatching work and returning replies

    The two messages the switchboard originates: a request sent to a worker
    ([send_to_server]) and a reply sent to a client ([snd_reply]).  Both are
    proved to run to completion from any state in which the structs they touch
    are there, and to send exactly the bytes that the client library decodes
    ([Xatmi.v]). *)

From Stdlib Require Import ZArith Lia.
From S2P Require Import Prelude Constants ByteOrder CString SearchTree Queue Memory TpMemory.
From S2P Require Import SbState SbObjects SbHandlers SbLemmas TxIo Xatmi.

Local Open Scope Z_scope.

Section Dispatch.
Context {T : Type} `{SearchTreeOps T Z} (dm : data_model).
Implicit Types (s : sb T) (x : tpclient T).

(** The advertisements of a client are live, and each is on a wait queue or off. *)
Definition adverts_ok s x (qs : gmap qaddr (list qaddr)) : Prop :=
  forall a, a ∈ twalk (adverts x) -> a <> 0 /\ is_Some (advs s !! a) /\ qnode qs (Q_adv_waitq a).

Lemma wp_remove_all l s qs Q :
  qrep (qm s) qs ->
  (forall a, a ∈ l -> a <> 0 /\ is_Some (advs s !! a) /\ qnode qs (Q_adv_waitq a)) ->
  (forall m', qrep m' (qremove_all (Q_adv_waitq <$> l) qs) -> Q tt (set_qm m' s)) ->
  wp (mfor l remove_from_waitq) s Q.
Proof.
  revert s qs; induction l as [|a l IH]; intros s qs Hq Hl HQ; cbn [mfor].
  { wp_step. rewrite <- (set_qm_id s). by apply HQ. }
  destruct (Hl a) as (Ha & [ax Hax] & Hn); [by left|].
  wp_step. unfold remove_from_waitq at 1. wp_step. eapply wp_get_adv; [done | exact Hax |].
  destruct (qrep_qremove _ _ _ Hq Hn) as (m' & E & Hq'). wp_step.
  eapply wp_in_q; [exact E|]. wp_step. apply (IH _ (qremove (Q_adv_waitq a) qs)); [done | |].
  - intros a' Ha'. destruct (Hl a') as (? & ? & ?); [by right|]. split; [done|]. split; [done|].
    by eapply qnode_qremove.
  - intros m'' Hm''. by apply HQ.
Qed.

(** What [send_to_server] does to the switchboard. *)
Record sent_to_server s s' (c a t : Z) x (tx : tptransaction) (qs : gmap qaddr (list qaddr))
    (bs : list byte) : Prop := {
  ss_worker : stream (fd x) s' = stream (fd x) s ++ bs;
  ss_others f : f <> fd x -> stream f s' = stream f s;
  ss_clients : exists p, clients s' = <[c := set_io 0 p (Some H_command) (set_wait4 t x)]> (clients s) /\
    tpbuf dm (tp_heap (mem s')) p 1 /\ pblk p = brk (tp_heap (mem s));
  ss_trans : trans s' = <[t := set_executor a tx]> (trans s);
  ss_queues : qrep (qm s') (qremove_all (Q_adv_waitq <$> twalk (adverts x)) qs);
  ss_buffers p len : tpbuf dm (tp_heap (mem s)) p len ->
    tpbuf dm (tp_heap (mem s')) p len /\ tpdata (tp_heap (mem s')) p len = tpdata (tp_heap (mem s)) p len;
  ss_heap : heap_wf (tp_heap (mem s')) /\ (ooms (tp_heap (mem s)) = [] -> ooms (tp_heap (mem s')) = []);
  ss_rest : svcs s' = svcs s /\ advs s' = advs s /\ services s' = services s /\ closed s' = closed s;
}.

Lemma send_to_server_run s c a t x ax tx sv qs len :
  a <> 0 -> advs s !! a = Some ax -> a_client ax = c -> c <> 0 -> a_svc ax <> 0 ->
  t <> 0 -> trans s !! t = Some tx -> t_svc tx <> 0 -> svcs s !! t_svc tx = Some sv ->
  clients s !! c = Some x -> idle x -> qrep (qm s) qs -> adverts_ok s x qs ->
  tpbuf dm (tp_heap (mem s)) (t_data tx) len ->
  heap_wf (tp_heap (mem s)) -> oom_now (tp_heap (mem s)) = false ->
  wp (send_to_server dm a t) s (fun _ s' =>
    sent_to_server s s' c a t x tx qs
      (work_message (a_opaque ax) (svcname sv) len (t_flags tx) (cd tx)
        (tpdata (tp_heap (mem s)) (t_data tx) len))).
Proof.
  intros Ha Hax <- Hc Has Ht Htx Hts Hsv Hx (I1 & I2 & I3) Hq Hok Hb Hwf Hoom. unfold send_to_server.
  wp_step. apply wp_assert; [by rewrite (proj2 (Z.eqb_neq a 0))|].
  wp_step. eapply wp_get_adv; [done | exact Hax |]. wp_step.
  apply wp_assert; [by rewrite !(proj2 (Z.eqb_neq _ 0))|].
  wp_step. eapply wp_get_trans; [done | exact Htx |]. wp_step.
  apply wp_assert; [by rewrite !(proj2 (Z.eqb_neq _ 0))|].
  wp_step. eapply wp_get_client; [done | exact Hx |].
  wp_step. eapply wp_remove_all; [exact Hq | exact Hok |]. intros m' Hq'.
  wp_step. eapply wp_put_client; [done | exact Hx |].
  wp_step. eapply wp_put_trans; [done | exact Htx |].
  set (c := a_client ax) in *. set (x' := set_wait4 t x).
  set (s1 := set_trans _ _).
  assert (clients s1 !! c = Some x') as Hx1 by apply lookup_insert_eq.
  wp_step. eapply emits_svrwritel; [done | exact Hx1 |]. intros w1 W1.
  wp_step. eapply wp_get_svc; [done | exact Hsv |].
  wp_step. eapply emits_svrwrite; [done | exact Hx1 |]. intros w2 W2.
  wp_step. eapply wp_in_mem_read; [by apply tplen_buf|].
  wp_step. eapply emits_svrwritel; [done | exact Hx1 |]. intros w3 W3.
  wp_step. eapply emits_svrwritel; [done | exact Hx1 |]. intros w4 W4.
  wp_step. eapply emits_svrwrites; [done | exact Hx1 |]. intros w5 W5.
  wp_step. eapply wp_in_mem_read; [apply (load_bytes_whole dm); exact Hb|].
  wp_step. eapply emits_svrwrite; [done | exact Hx1 |]. intros w6 W6.
  eapply wp_svr_next_command; [done | exact Hx1 | by split_and! | done | done |].
  intros b Hblk.
  pose proof (writes_to_app _ _ _ _ _ W1 (writes_to_app _ _ _ _ _ W2 (writes_to_app _ _ _ _ _ W3
    (writes_to_app _ _ _ _ _ W4 (writes_to_app _ _ _ _ _ W5 W6))))) as W.
  cbn [out set_out]. rewrite <- !app_assoc.
  destruct (heap_alloc_buf dm (mem s) b 1) as (Hbuf & Hsame & Hwf'); [done..|].
  set (ws := w1 ++ w2 ++ w3 ++ w4 ++ w5 ++ w6) in *.
  constructor.
  - etransitivity; [exact (writes_to_stream _ _ _ s W)|].
    unfold work_message, work_bytes. by rewrite <- !app_assoc.
  - intros f Hf. exact (writes_to_other _ _ _ _ s W Hf).
  - eexists. split; [|split; [exact Hbuf | done]]. simpl. by rewrite insert_insert_eq.
  - done.
  - exact Hq'.
  - intros p l Hp. eapply tpbuf_frame; [exact Hsame | | exact Hp].
    destruct Hp as (_ & _ & b' & Hb' & _). destruct Hwf as [_ Hbelow].
    assert (0 < pblk p < brk (tp_heap (mem s))) by eauto. simpl. lia.
  - split; [exact Hwf'|]. simpl. by intros ->.
  - done.
Qed.

(** ** The end of a transaction *)

(** The lists without the three links of a transaction. *)
Definition qdrop_trans (t : Z) (qs : gmap qaddr (list qaddr)) : gmap qaddr (list qaddr) :=
  delete (Q_t_svc_waitq t) (delete (Q_t_clientq t) (delete (Q_t_global t)
    (qremove_all [Q_t_clientq t; Q_t_svc_waitq t; Q_t_global t] qs))).

Definition trans_links_ok (t : Z) (qs : gmap qaddr (list qaddr)) : Prop :=
  qnode qs (Q_t_clientq t) /\ qnode qs (Q_t_svc_waitq t) /\ qnode qs (Q_t_global t).

Lemma wp_del_transaction s t tx cl qs len Q :
  t <> 0 -> trans s !! t = Some tx -> t_svc tx <> 0 -> t_client tx <> 0 -> executor tx = 0 ->
  clients s !! t_client tx = Some cl -> qrep (qm s) qs -> trans_links_ok t qs ->
  tpbuf dm (tp_heap (mem s)) (t_data tx) len ->
  (forall m', qrep m' (qdrop_trans t qs) ->
    Q tt (mkSb (drop_blk (mem s) (pblk (t_data tx))) m'
      (if wait4 cl =? t then <[t_client tx := set_wait4 0 cl]> (clients s) else clients s)
      (svcs s) (advs s) (delete t (trans s)) (next s) (services s) (free_cd s) (cdp s) (cd_oob s)
      (rand_batch s) (rand_k s) (cd_fuel s) (clock s) (clock_k s) (earliest s) (out s) (closed s))) ->
  wp (del_transaction dm t) s Q.
Proof.
  intros Ht Htx Hs Hc He Hcl Hq (N1 & N2 & N3) Hb HQ. unfold del_transaction.
  rewrite (proj2 (Z.eqb_neq t 0)) by done. wp_step. eapply wp_get_trans; [done | exact Htx |].
  wp_step. apply wp_assert; [by rewrite !(proj2 (Z.eqb_neq _ 0))|].
  destruct (qrep_qremove _ _ _ Hq N1) as (m1 & E1 & Q1).
  pose proof (qnode_qremove _ _ _ _ Hq N1 N2) as N2'. pose proof (qnode_qremove _ _ _ _ Hq N1 N3) as N3'.
  destruct (qrep_qremove _ _ _ Q1 N2') as (m2 & E2 & Q2).
  pose proof (qnode_qremove _ _ _ _ Q1 N2' N3') as N3''.
  destruct (qrep_qremove _ _ _ Q2 N3'') as (m3 & E3 & Q3).
  wp_step. eapply wp_in_q; [exact E1|]. wp_step. eapply wp_in_q; [exact E2|].
  wp_step. eapply wp_in_q; [exact E3|]. wp_step. eapply wp_get_client; [done | exact Hcl |].
  assert (exists m4, m4 = delete (Q_t_svc_waitq t) (delete (Q_t_clientq t) (delete (Q_t_global t) m3)) /\
    qrep m4 (qdrop_trans t qs)) as (m4 & Em4 & Q4).
  { eexists. split; [done|]. unfold qdrop_trans. cbn [qremove_all foldl]. apply qrep_free.
    - apply qrep_free; [apply qrep_free; [done | apply qremove_self]|].
      rewrite lookup_delete_ne by done. by apply qremove_keep, qremove_keep, qremove_self.
    - rewrite !lookup_delete_ne by done. by apply qremove_keep, qremove_self. }
  specialize (HQ m4 Q4).
  rewrite He. cbn [Z.eqb negb].
  destruct (wait4 cl =? t).
  - wp_step. eapply wp_put_client; [done | exact Hcl |]. repeat wp_step.
    eapply wp_in_mem; [by eapply tpfree_buf|]. unfold free_trans. wp_step.
    eapply wp_get_trans; [done | exact Htx |]. unfold in_q, q_free. repeat wp_step.
    subst m4. exact HQ.
  - repeat wp_step.
    eapply wp_in_mem; [by eapply tpfree_buf|]. unfold free_trans. wp_step.
    eapply wp_get_trans; [done | exact Htx |]. unfold in_q, q_free. repeat wp_step.
    subst m4. exact HQ.
Qed.

(** What [snd_reply] does to the switchboard. *)
Record reply_sent s s' (t : Z) x (tx : tptransaction) (qs : gmap qaddr (list qaddr))
    (bs : list byte) : Prop := {
  rs_client : stream (fd x) s' = stream (fd x) s ++ bs;
  rs_others f : f <> fd x -> stream f s' = stream f s;
  rs_clients : exists p, clients s' =
      <[t_client tx := set_io 0 p (Some H_command) (set_wait4 0 x)]> (clients s) /\
    tpbuf dm (tp_heap (mem s')) p 1;
  rs_trans : trans s' = delete t (trans s);
  rs_freed : blocks (tp_heap (mem s')) !! pblk (t_data tx) = None;
  rs_buffers p len : pblk p <> pblk (t_data tx) -> tpbuf dm (tp_heap (mem s)) p len ->
    tpbuf dm (tp_heap (mem s')) p len /\ tpdata (tp_heap (mem s')) p len = tpdata (tp_heap (mem s)) p len;
  rs_queues : qrep (qm s') (qdrop_trans t qs);
  rs_rest : svcs s' = svcs s /\ advs s' = advs s /\ services s' = services s /\ closed s' = closed s;
}.

(** [snd_reply] up to the wait for the next command: the reply is sent. *)
Lemma wp_snd_reply_prefix s t x tx len Q :
  t <> 0 -> trans s !! t = Some tx -> t_svc tx <> 0 -> t_client tx <> 0 ->
  clients s !! t_client tx = Some x -> tpbuf dm (tp_heap (mem s)) (t_data tx) len -> len < 2 ^ 31 ->
  (forall ws, writes_to (fd x) (reply_bytes (rval tx) (cd tx) (rcode tx)
      (tpdata (tp_heap (mem s)) (t_data tx) len)) ws ->
    wp (svr_next_command dm (t_client tx) ;; put_client (t_client tx) (set_wait4 0) ;; del_transaction dm t)
      (set_out (out s ++ ws) s) Q) ->
  wp (snd_reply dm t) s Q.
Proof.
  intros Ht Htx Hs Hc Hx Hb Hl HQ. unfold snd_reply. pose proof (length_tpdata dm _ _ _ Hb) as Hlen.
  wp_step. apply wp_assert; [by rewrite (proj2 (Z.eqb_neq t 0))|].
  wp_step. eapply wp_get_trans; [done | exact Htx |].
  wp_step. apply wp_assert; [by rewrite !(proj2 (Z.eqb_neq _ 0))|].
  wp_step. eapply wp_in_mem_read; [by apply tplen_buf|]. rewrite (swrap_id 32 len) by (destruct Hb; lia).
  wp_step. eapply emits_svrwriteb; [done | exact Hx |]. intros w1 W1.
  wp_step. eapply emits_svrwrites; [done | exact Hx |]. intros w2 W2.
  wp_step. eapply emits_svrwritel; [done | exact Hx |]. intros w3 W3.
  wp_step. eapply emits_svrwritel; [done | exact Hx |]. intros w4 W4.
  wp_step. eapply wp_in_mem_read; [apply (load_bytes_whole dm); exact Hb|].
  wp_step. eapply emits_svrwrite; [done | exact Hx |]. intros w5 W5.
  pose proof (writes_to_app _ _ _ _ _ W1 (writes_to_app _ _ _ _ _ W2 (writes_to_app _ _ _ _ _ W3
    (writes_to_app _ _ _ _ _ W4 W5)))) as W.
  cbn [out set_out]. rewrite <- !app_assoc. apply HQ. unfold reply_bytes. by rewrite Hlen.
Qed.

Lemma snd_reply_run s t x tx qs len :
  t <> 0 -> trans s !! t = Some tx -> t_svc tx <> 0 -> t_client tx <> 0 -> executor tx = 0 ->
  clients s !! t_client tx = Some x -> idle x -> qrep (qm s) qs -> trans_links_ok t qs ->
  tpbuf dm (tp_heap (mem s)) (t_data tx) len -> len < 2 ^ 31 ->
  heap_wf (tp_heap (mem s)) -> oom_now (tp_heap (mem s)) = false ->
  wp (snd_reply dm t) s (fun _ s' => reply_sent s s' t x tx qs
    (reply_bytes (rval tx) (cd tx) (rcode tx) (tpdata (tp_heap (mem s)) (t_data tx) len))).
Proof.
  intros Ht Htx Hs Hc He Hx (I1 & I2 & I3) Hq HN Hb Hl Hwf Hoom.
  eapply wp_snd_reply_prefix; try done. intros ws W.
  wp_step. eapply wp_svr_next_command; [done | exact Hx | by split_and! | done | done |].
  intros b Hblk. destruct (heap_alloc_buf dm (mem s) b 1) as (Hbuf & Hsame & Hwf'); [done..|].
  wp_step. eapply wp_put_client; [done | apply lookup_insert_eq |].
  assert (pblk (t_data tx) <> brk (tp_heap (mem s))) as Hne.
  { destruct Hb as (_ & _ & b' & Hb' & _). destruct Hwf as [_ Hbelow].
    assert (0 < pblk (t_data tx) < brk (tp_heap (mem s))) by eauto. lia. }
  eapply (wp_del_transaction _ t tx _ qs len); [done | exact Htx | done | done | done |
    apply lookup_insert_eq | exact Hq | exact HN | |].
  { by eapply (tpbuf_frame dm _ _ _ _ _ Hsame). }
  intros m' Hm'. constructor.
  - exact (writes_to_stream _ _ _ s W).
  - intros f Hf. exact (writes_to_other _ _ _ _ s W Hf).
  - eexists. cbn [clients set_mem set_clients set_out wait4 set_wait4].
    rewrite (proj2 (Z.eqb_neq 0 t)) by auto. rewrite !insert_insert_eq.
    split; [done|]. destruct Hbuf as (B1 & B2 & b2 & B3 & B4). split; [done|]. split; [done|].
    exists b2. split; [|done]. cbn. rewrite lookup_delete_ne by done. exact B3.
  - done.
  - cbn. apply lookup_delete_eq.
  - intros p l Hp Hpb.
    assert (pblk p <> brk (tp_heap (mem s))) as Hpk.
    { destruct Hpb as (_ & _ & b' & Hb' & _). destruct Hwf as [_ Hbelow].
      assert (0 < pblk p < brk (tp_heap (mem s))) by eauto. lia. }
    destruct (tpbuf_frame dm _ _ _ _ _ Hsame Hpk Hpb) as [F1 F2]. rewrite <- F2.
    eapply (tpbuf_frame dm _ _ (pblk (t_data tx))); [|done | exact F1].
    intros i Hi _. cbn. by rewrite lookup_delete_ne.
  - exact Hm'.
  - done.
Qed.

(** ** Properties *)

(** C3. A request reaches its routine: from a state with an idle worker whose
    advertisement [a] matches, [send_to_server] completes; it takes the worker off
    every wait queue, records the pairing of worker and transaction on both sides,
    and the bytes it sends, and no others, make the worker's [tpservice] call the
    advertised routine with exactly the request's name, length, flags, descriptor
    and data, whichever data models the switchboard and the worker have. *)
Theorem request_reaches_routine (dm' : data_model) s c a t x ax tx sv qs len
    inc snt m ur lj routines f old P :
  (* the switchboard *)
  a <> 0 -> advs s !! a = Some ax -> a_client ax = c -> c <> 0 -> a_svc ax <> 0 ->
  t <> 0 -> trans s !! t = Some tx -> t_svc tx <> 0 -> svcs s !! t_svc tx = Some sv ->
  clients s !! c = Some x -> idle x -> qrep (qm s) qs -> adverts_ok s x qs ->
  tpbuf dm (tp_heap (mem s)) (t_data tx) len ->
  heap_wf (tp_heap (mem s)) -> oom_now (tp_heap (mem s)) = false ->
  length (svcname sv) = XATMI_SERVICE_NAME_LENGTH -> len < 2 ^ 31 -> - 2 ^ 31 <= t_flags tx < 2 ^ 31 ->
  (* the worker *)
  length old = sizeof_TPSVCINFO dm' -> heap_wf (tp_heap m) -> oom_now (tp_heap m) = false ->
  routines (ulong dm' (swrap 32 (a_opaque ax))) = Some f ->
  routine_ok dm' f (svcname sv) len (t_flags tx) (uwrap 16 (cd tx))
    (tpdata (tp_heap (mem s)) (t_data tx) len) inc (snt ++ [z2b TPTWORK]) P ->
  exists msg, wp (send_to_server dm a t) s (fun _ s' => sent_to_server s s' c a t x tx qs msg) /\
    (forall w : conn, conn_is w (msg ++ inc) snt m ur lj ->
     wp (tpservice dm' routines (Some old)) w (fun i w' =>
       exists e i' p inc' snt' m' ur', i = Some (info_data NULL i') /\ i_data i' = Some p /\
         conn_is w' inc' (snt' ++ match e with Jumped => [] | Returned => fell_out end) (drop_blk m' (pblk p)) ur' false /\
         P e i' inc' snt' m')).
Proof.
  intros Ha Hax Hc Hc0 Has Ht Htx Hts Hsv Hx Hi Hq Hok Hb Hwf Hoom Hname Hlen Hfl Ho Hwf' Hoom' Hr Hf.
  pose proof (length_tpdata dm _ _ _ Hb) as Hd. eexists. split; [by eapply send_to_server_run|].
  intros w Hw. set (d := tpdata (tp_heap (mem s)) (t_data tx) len) in *. clearbody d.
  rewrite <- Hd in Hf, Hw, Hlen.
  by eapply (tpservice_run dm' w inc snt m ur lj routines f old (a_opaque ax) (svcname sv) (t_flags tx) (cd tx) d P).
Qed.

(** C4. A reply reaches its caller: from a state in which the transaction is
    finished and its client waits, [snd_reply] completes; it sends the reply to
    that client and nothing to any other, deletes the transaction with its links
    and its buffer, and the bytes sent make the client's [tpgetrply] return the
    transaction's descriptor with exactly the reply's data, result and code,
    whichever data models the two have. *)
Theorem reply_reaches_client (dm' : data_model) s t x tx qs len
    inc snt m ur lj c data blen olen flags :
  (* the switchboard *)
  t <> 0 -> trans s !! t = Some tx -> t_svc tx <> 0 -> t_client tx <> 0 -> executor tx = 0 ->
  clients s !! t_client tx = Some x -> idle x -> qrep (qm s) qs -> trans_links_ok t qs ->
  tpbuf dm (tp_heap (mem s)) (t_data tx) len -> len < 2 ^ 31 ->
  heap_wf (tp_heap (mem s)) -> oom_now (tp_heap (mem s)) = false ->
  rval tx = TPSUCCESS \/ rval tx = TPFAIL -> - 2 ^ 31 <= rcode tx < 2 ^ 31 ->
  (* the client *)
  olen <> 0 -> heap_wf (tp_heap m) -> oom_now (tp_heap m) = false -> tpbuf dm' (tp_heap m) data blen ->
  exists msg, wp (snd_reply dm t) s (fun _ s' => reply_sent s s' t x tx qs msg) /\
    (forall w : conn, conn_is w (msg ++ inc) snt m ur lj ->
     wp (tpgetrply dm' false c data olen flags) w (fun g w' =>
       g_ret g = uwrap 16 (cd tx) /\ g_len g = len /\ incoming w' = inc /\ tpurcode w' = rcode tx /\
       tperrno (cmem w') = (if rval tx =? TPFAIL then TPESVCFAIL else 0) /\
       (0 < len -> tpdata (tp_heap (cmem w')) (g_data g) len = tpdata (tp_heap (mem s)) (t_data tx) len))).
Proof.
  intros Ht Htx Hs Hc He Hx Hi Hq HN Hb Hl Hwf Hoom Hrv Hrc Holen Hwf' Hoom' Hbuf.
  pose proof (length_tpdata dm _ _ _ Hb) as Hd. eexists. split; [by eapply snd_reply_run|].
  intros w Hw. set (d := tpdata (tp_heap (mem s)) (t_data tx) len) in *. eapply wp_mono.
  - eapply (tpgetrply_run dm' w inc snt m ur lj c data blen olen flags (rval tx) (cd tx) (rcode tx) d);
      try done. by rewrite Hd.
  - intros g w' (G1 & _ & G3 & m' & ur' & C & E & H0 & H1).
    rewrite (ci_cmem _ _ _ _ _ _ C), (ci_tpurcode _ _ _ _ _ _ C), (ci_incoming _ _ _ _ _ _ C).
    rewrite Hd in G3, H1. split_and!; try done.
    + destruct (decide (d = [])) as [Hd0|Hd0]; [by apply H0 | by apply H1].
    + intros Hpos. assert (d <> []) as Hd0 by (intros E0; rewrite E0 in Hd; simpl in Hd; lia).
      by apply H1.
Qed.

End Dispatch.

(** ** Witnesses *)

(** The links of the list [l] with header [h]. *)
Definition ring (h : qaddr) (l : list qaddr) (m : gmap qaddr (QUEUE qaddr)) : gmap qaddr (QUEUE qaddr) :=
  foldr (fun i m => <[default h ((h :: l) !! i) :=
      mkQUEUE (match i with O => default h (last l) | S j => default h ((h :: l) !! j) end)
              (default h ((h :: l) !! S i))]> m)
    m (seq 0 (S (length l))).
Definition rings (ls : list (qaddr * list qaddr)) : gmap qaddr (QUEUE qaddr) :=
  foldr (fun hl m => ring (fst hl) (snd hl) m) ∅ ls.

(** A buffer of two bytes. *)
Definition wit_mem2 : tpmem :=
  match tpalloc LP64 NULL NULL 2 wit_mem with
  | Done (p, s) => match in_heap (store_bytes p [x61; x62]) s with Done (_, s') => s' | Fault _ => s end
  | Fault _ => wit_mem
  end.

(** Client 3 is a worker with the advertisement 4 of the service 2; client 6 has
    the transaction 7. *)
Definition wit_queues (waitq : list (qaddr * list qaddr)) : list (qaddr * list qaddr) :=
  [(Q_tpclients, [Q_global 3; Q_global 6]); (Q_requests 3, []); (Q_replies 3, []);
   (Q_requests 6, [Q_t_clientq 7]); (Q_replies 6, []); (Q_tptransactions, [Q_t_global 7]);
   (Q_t_svc_waitq 7, [])] ++ waitq.

Definition wit_sb (exec rv : Z) (waitq : list (qaddr * list qaddr)) : sb (bst Z) :=
  mkSb wit_mem2 (rings (wit_queues waitq))
    (<[3 := mkClient 5 0 NULL None (Node Leaf 4 Leaf) 0]> (<[6 := mkClient 9 0 NULL None Leaf 7]> ∅))
    {[2 := mkService wit_name false 0 0]} {[4 := mkAdvert 2 3 1000 0 0]}
    {[7 := mkTrans 6 2 (0, 0) exec 77 (Ptr 1 32) rv 9 0]} 8 (Node Leaf 2 Leaf)
    (replicate 10 0) 10 0 (fun _ _ => 1) 0 20 (fun _ => (0, 0)) 0 0 [] [].

Definition wit_waiting : list (qaddr * list qaddr) := [(Q_waitq 2, [Q_adv_waitq 4])].
Definition wit_qs (waitq : list (qaddr * list qaddr)) : gmap qaddr (list qaddr) :=
  list_to_map (wit_queues waitq).

Lemma wit_qrep exec rv : qrep (qm (wit_sb exec rv wit_waiting)) (wit_qs wit_waiting).
Proof. apply qrep_check_ok. vm_compute. reflexivity. Qed.

Lemma wit_mem2_wf : heap_wf (tp_heap wit_mem2).
Proof.
  split; [vm_compute; done|]. intros i [x Hx].
  destruct (decide (i = 1)) as [->|Hi]; [vm_compute; done|].
  change (blocks (tp_heap wit_mem2)) with
    (<[1 := default [] (blocks (tp_heap wit_mem2) !! 1)]> (∅ : gmap Z (list byte))) in Hx.
  by rewrite lookup_insert_ne, lookup_empty in Hx.
Qed.

Lemma wit_buf2 : tpbuf LP64 (tp_heap wit_mem2) (Ptr 1 32) 2.
Proof.
  split; [done|]. split; [done|].
  exists (default [] (blocks (tp_heap wit_mem2) !! 1)). split; [by vm_compute|]. by vm_compute.
Qed.

Lemma request_reaches_routine_witness :
  exists msg, wp (send_to_server LP64 4 7) (wit_sb 0 0 wit_waiting)
    (fun _ s' => stream 5 s' = msg /\ stream 9 s' = []) /\
    wp (tpservice ILP32 (fun p => if p =? 1000 then Some wit_routine else None) (Some (replicate 32 x00)))
      (wit_conn (msg ++ []) [] []) (fun i w' => i_cd <$> i = Some 77).
Proof.
  destruct (request_reaches_routine LP64 ILP32 (wit_sb 0 0 wit_waiting) 3 4 7
    (mkClient 5 0 NULL None (Node Leaf 4 Leaf) 0) (mkAdvert 2 3 1000 0 0)
    (mkTrans 6 2 (0, 0) 0 77 (Ptr 1 32) 0 9 0) (mkService wit_name false 0 0) (wit_qs wit_waiting) 2
    [] [] wit_mem 0 false
    (fun p => if p =? 1000 then Some wit_routine else None) wit_routine (replicate 32 x00)
    (fun _ i _ _ _ => i_cd i = 77)) as (msg & H1 & H2);
    [discriminate | reflexivity | reflexivity | discriminate | discriminate | discriminate |
     reflexivity | discriminate | reflexivity | reflexivity | | apply wit_qrep | | apply wit_buf2 |
     apply wit_mem2_wf | reflexivity | reflexivity | reflexivity | cbn; lia | reflexivity | apply wit_mem_wf |
     reflexivity | reflexivity | |].
  - split; [reflexivity|]. split; reflexivity.
  - intros a Ha. apply list_elem_of_singleton in Ha as ->. split; [discriminate|].
    split; [eexists; reflexivity|].
    right. exists (Q_waitq 2), [Q_adv_waitq 4]. split; [vm_compute; reflexivity | by left].
  - intros s p m Hc Hb _. unfold wit_routine. apply wp_ret. eexists _, _, m, TX_OK.
    split; [exact Hc|]. split; [eexists _, _; split; [reflexivity | exact Hb] | reflexivity].
  - exists msg. split.
    + eapply wp_mono; [exact H1|]. intros [] s' Hs. split; [exact (ss_worker _ _ _ _ _ _ _ _ _ _ Hs)|].
      apply (ss_others _ _ _ _ _ _ _ _ _ _ Hs). discriminate.
    + eapply wp_mono; [apply H2, wit_conn_is; constructor|]. intros i w' (e & i' & p & inc' & snt' & m' & ur' & -> & _ & _ & Hi).
      cbn. rewrite Hi. reflexivity.
Defined.

Lemma reply_reaches_client_witness :
  exists msg, wp (snd_reply LP64 7) (wit_sb 0 TPSUCCESS wit_waiting)
    (fun _ s' => stream 9 s' = msg /\ trans s' !! 7 = None) /\
    wp (tpgetrply LP64 false 77 (Ptr 1 32) 1 0) (wit_conn' (msg ++ []))
      (fun g w' => g_ret g = 77 /\ tpdata (tp_heap (cmem w')) (g_data g) 2 = [x61; x62]).
Proof.
  destruct (reply_reaches_client LP64 LP64 (wit_sb 0 TPSUCCESS wit_waiting) 7
    (mkClient 9 0 NULL None Leaf 7) (mkTrans 6 2 (0, 0) 0 77 (Ptr 1 32) TPSUCCESS 9 0)
    (wit_qs wit_waiting) 2 [] [] wit_mem' 0 false 77 (Ptr 1 32) 5 1 0) as (msg & H1 & H2);
    [discriminate | reflexivity | discriminate | discriminate | reflexivity | reflexivity | |
     apply wit_qrep | | apply wit_buf2 | reflexivity | apply wit_mem2_wf | reflexivity | left; reflexivity |
     cbn; lia | discriminate | apply wit_mem_wf' | reflexivity | apply wit_buf' |].
  - split; [reflexivity|]. split; reflexivity.
  - split; [|split].
    + right. exists (Q_requests 6), [Q_t_clientq 7]. split; [vm_compute; reflexivity | by left].
    + left. vm_compute. reflexivity.
    + right. exists Q_tptransactions, [Q_t_global 7]. split; [vm_compute; reflexivity | by left].
  - exists msg. split.
    + eapply wp_mono; [exact H1|]. intros [] s' Hs. split; [exact (rs_client _ _ _ _ _ _ _ _ Hs)|].
      rewrite (rs_trans _ _ _ _ _ _ _ _ Hs). apply lookup_delete_eq.
    + eapply wp_mono; [apply H2, wit_conn_is'|]. intros g w' (G1 & _ & _ & _ & _ & G). split; [exact G1|].
      etransitivity; [apply G; lia | vm_compute; reflexivity].
Defined.
