(* ===== verification/EventLoop.v ===== *)
(** * The event loop

    [Iowait]'s treatment of a client's input, and the command table.  Input may
    arrive in pieces of any size: the pieces are equivalent to the whole.  A
    complete first byte selects a row of the command table, whose lengths are
    those of the messages the client library sends.  The depth of calls through
    handler pointers is bounded. *)

From Stdlib Require Import ZArith Lia.
From S2P Require Import Prelude Constants ByteOrder CString SearchTree Queue Memory TpMemory.
From S2P Require Import SbState SbObjects SbHandlers SbLemmas TxIo Xatmi Dispatch.

Local Open Scope Z_scope.

Section EventLoop.
Context {T : Type} `{SearchTreeOps T Z} (dm : data_model).
Implicit Types (s : sb T) (x : tpclient T).

(** ** Depth of calls *)

Lemma bind_ext {St A B} (m : M St A) (k1 k2 : A -> M St B) (s : St) :
  (forall a (s' : St), k1 a s' = k2 a s') -> (m ≫= k1) s = (m ≫= k2) s.
Proof. intros E. unfold mbind, M_bind. by destruct (m s) as [[a s']|]. Qed.

Definition calls := handler -> Z -> ptr -> M (sb T) unit.

Lemma svriowait_ext (call1 call2 : calls) c p f s :
  (forall c' p' s', call1 f c' p' s' = call2 f c' p' s') ->
  svriowait dm call1 c p f s = svriowait dm call2 c p f s.
Proof.
  intros E. unfold svriowait. do 4 (apply bind_ext; intros). by destruct (negb _).
Qed.

Lemma svracall_ext (call1 call2 : calls) c buf s :
  (forall c' p' s', call1 H_send_to_worker c' p' s' = call2 H_send_to_worker c' p' s') ->
  svracall dm call1 c buf s = svracall dm call2 c buf s.
Proof.
  intros E. unfold svracall. do 7 (apply bind_ext; intros). destruct (_ =? 0); [done|].
  do 4 (apply bind_ext; intros). by apply svriowait_ext.
Qed.

Lemma svrreturn_ext (call1 call2 : calls) c buf s :
  (forall c' p' s', call1 H_part2 c' p' s' = call2 H_part2 c' p' s') ->
  svrreturn dm call1 c buf s = svrreturn dm call2 c buf s.
Proof.
  intros E. unfold svrreturn. do 10 (apply bind_ext; intros). by apply svriowait_ext.
Qed.

Lemma handle_S n h c buf :
  handle dm (S n) h c buf =
    match h with
    | H_command => command dm (handle dm n) c buf
    | H_svracall => svracall dm (handle dm n) c buf
    | H_svrgetrply => svrgetrply dm c buf
    | H_svradvertise => svradvertise dm c buf
    | H_svrunadvertise => svrunadvertise dm c buf
    | H_svrservice => svrservice dm c buf
    | H_svrreturn => svrreturn dm (handle dm n) c buf
    | H_send_to_worker => send_to_worker dm c buf
    | H_part2 => part2 dm c buf
    end.
Proof. reflexivity. Qed.

Lemma handle_leaf n h c buf s :
  h = H_send_to_worker \/ h = H_part2 -> handle dm (S n) h c buf s = handle dm 1 h c buf s.
Proof. intros [-> | ->]; by rewrite (handle_S n), (handle_S 0). Qed.

Lemma handle_two n h c buf s :
  h <> H_command -> handle dm (S (S n)) h c buf s = handle dm 2 h c buf s.
Proof.
  intros Hh. rewrite (handle_S (S n)), (handle_S 1).
  destruct h; cbv iota;
    [ exfalso; apply Hh; reflexivity
    | apply svracall_ext; intros; apply handle_leaf; auto
    | reflexivity | reflexivity | reflexivity | reflexivity
    | apply svrreturn_ext; intros; apply handle_leaf; auto
    | reflexivity | reflexivity ].
Qed.

Lemma commands_handlers i h n : commands !! i = Some (h, n) -> h <> H_command.
Proof. intros E%list_elem_of_lookup_2 ->. cbn in E. set_solver. Qed.

Lemma command_ext (call1 call2 : calls) c buf s :
  (forall h c' p' s', h <> H_command -> call1 h c' p' s' = call2 h c' p' s') ->
  command dm call1 c buf s = command dm call2 c buf s.
Proof.
  intros E. unfold command. apply bind_ext; intros b s1. destruct (_ <? _); [|done].
  destruct (commands !! _) as [[h n]|] eqn:Ec; [|done].
  cbn [ask]. unfold mbind at 1 3, M_bind at 1 3. cbn [mret M_ret].
  apply bind_ext; intros p s2. apply svriowait_ext. intros. apply E. by eapply commands_handlers.
Qed.

(** ** Input in pieces *)

Lemma wr_wr (b bs1 bs2 : list byte) o :
  (o + length bs1 + length bs2 <= length b)%nat ->
  wr (wr b o bs1) (o + length bs1) bs2 = wr b o (bs1 ++ bs2).
Proof.
  intros Hl. apply list_eq. intros i.
  rewrite !lookup_wr by (rewrite ?length_wr, ?length_app; lia). rewrite length_app.
  repeat case_decide; try lia; try done.
  - rewrite lookup_app_r by lia. f_equal. lia.
  - by rewrite lookup_app_l by lia.
Qed.

(** The exact state after bytes were stored in a buffer. *)
Lemma store_bytes_run m p len i d b :
  tpbuf dm (tp_heap m) p len -> blocks (tp_heap m) !! pblk p = Some b ->
  0 <= i -> i + Z.of_nat (length d) <= len ->
  in_heap (store_bytes (ptr_add p i) d) m =
    Done (tt, at_blk m (pblk p) (wr b (Z.to_nat (poff p + i)) d)).
Proof.
  intros Hb Hblk Hi Hl. destruct (tpbuf_block dm _ _ _ len Hb ltac:(lia)) as (b' & Eb & Hp & Hin & _).
  rewrite Hblk in Eb. injection Eb as <-. pose proof (in_block_le _ _ _ Hin) as [? ?].
  apply wp_eq. unfold in_heap. wp_step.
  eapply wp_store_bytes; [done | exact Hblk | apply in_block_true; simpl; lia |]. done.
Qed.

(** What [Iowait] does when [bs] arrived and the buffer was not full before. *)
Definition filled (c : Z) x (len : Z) (bs b : list byte) : M (sb T) unit :=
  let n := used x + Z.of_nat (length bs) in
  modify (fun s => set_mem (at_blk (mem s) (pblk (input x))
    (wr b (Z.to_nat (poff (input x) + used x)) bs)) s) ;;
  if n =? len then
    put_client c (set_io 0 NULL None) ;;
    h ← ask NullDeref (handler_fn x); handle dm HANDLE_DEPTH h c (input x)
  else put_client c (set_io n (input x) (handler_fn x)).

Lemma iowait_client_bytes s c x len b bs :
  c <> 0 -> clients s !! c = Some x -> tpbuf dm (tp_heap (mem s)) (input x) len ->
  blocks (tp_heap (mem s)) !! pblk (input x) = Some b ->
  0 <= used x -> bs <> [] -> used x + Z.of_nat (length bs) <= len ->
  iowait_client dm c (ReadBytes bs) s = filled c x len bs b s.
Proof.
  intros Hc Hx Hb Hblk Hu Hbs Hl. unfold iowait_client, filled.
  assert (0 < Z.of_nat (length bs)) by (destruct bs; [done | simpl; lia]).
  unfold mbind at 1, M_bind at 1. unfold get_client at 1, deref.
  rewrite (proj2 (Z.eqb_neq c 0)) by done. unfold mbind at 1, M_bind at 1. cbn [gets].
  rewrite Hx. cbn [ask mret M_ret].
  rewrite (bool_decide_false (input x = NULL)) by (intros E; rewrite E in Hb; by destruct Hb as (_ & ? & _)).
  unfold mbind at 1, M_bind at 1. unfold in_mem at 1, zoom. rewrite (tplen_buf dm _ _ _ Hb).
  rewrite set_mem_id. rewrite (proj2 (Z.leb_gt len (used x))) by lia.
  destruct bs as [|b0 bs]; [done|].
  rewrite take_ge by lia.
  unfold mbind at 1, M_bind at 1. unfold in_mem at 1, zoom.
  rewrite (store_bytes_run _ _ len _ _ b) by (done || lia). done.
Qed.

Lemma put_client_run c f x s :
  c <> 0 -> clients s !! c = Some x ->
  put_client c f s = Done (tt, set_clients (<[c := f x]> (clients s)) s).
Proof. intros Hc Hx. apply wp_eq. eapply wp_put_client; [done..|]. done. Qed.

Lemma at_blk_twice m k b b' : at_blk (at_blk m k b) k b' = at_blk m k b'.
Proof. unfold at_blk, set_heap, set_blocks. simpl. by rewrite insert_insert_eq. Qed.

(** The state in which a client has received [bs] of its message. *)
Definition received_part s c x (bs b : list byte) : sb T :=
  set_clients (<[c := set_io (used x + Z.of_nat (length bs)) (input x) (handler_fn x) x]> (clients s))
    (set_mem (at_blk (mem s) (pblk (input x)) (wr b (Z.to_nat (poff (input x) + used x)) bs)) s).

Lemma filled_part s c x len bs b :
  c <> 0 -> clients s !! c = Some x -> used x + Z.of_nat (length bs) < len ->
  filled c x len bs b s = Done (tt, received_part s c x bs b).
Proof.
  intros Hc Hx Hl. unfold filled, mbind, M_bind, modify.
  rewrite (proj2 (Z.eqb_neq _ len)) by lia. by rewrite (put_client_run _ _ x).
Qed.

Lemma filled_rest s c x len bs1 bs2 b :
  c <> 0 -> clients s !! c = Some x -> 0 <= used x -> 0 <= poff (input x) ->
  (Z.to_nat (poff (input x) + used x) + length bs1 + length bs2 <= length b)%nat ->
  let o := Z.to_nat (poff (input x) + used x) in
  let x1 := set_io (used x + Z.of_nat (length bs1)) (input x) (handler_fn x) x in
  filled c x1 len bs2 (wr b o bs1) (received_part s c x bs1 b) = filled c x len (bs1 ++ bs2) b s.
Proof.
  intros Hc Hx Hu Ho Hl o x1. unfold filled. cbn [used input handler_fn set_io x1].
  unfold mbind, M_bind, modify. rewrite length_app.
  replace (used x + Z.of_nat (length bs1) + Z.of_nat (length bs2))
    with (used x + Z.of_nat (length bs1 + length bs2)) by lia.
  set (s1 := set_mem _ (received_part s c x bs1 b)). set (s2 := set_mem _ s).
  assert (clients s1 !! c = Some x1) as H1 by apply lookup_insert_eq.
  assert (forall u p h, set_clients (<[c := set_io u p h x1]> (clients s1)) s1 =
    set_clients (<[c := set_io u p h x]> (clients s2)) s2) as Es.
  { intros u p h. unfold s1, s2, received_part. cbn. rewrite insert_insert_eq, at_blk_twice.
    replace (Z.to_nat (poff (input x) + (used x + Z.of_nat (length bs1)))) with (o + length bs1)%nat by lia.
    rewrite wr_wr by lia. done. }
  destruct (_ =? len); rewrite (put_client_run c _ x1 s1), (put_client_run c _ x s2) by done;
    by rewrite Es.
Qed.

(** ** The command table *)

Lemma wp_buf_byte s p len i b Q :
  tpbuf dm (tp_heap (mem s)) p len -> tpdata (tp_heap (mem s)) p len !! i = Some b ->
  Q b s -> wp (buf_byte p i) s Q.
Proof.
  intros Hb Hi HQ. unfold buf_byte. wp_step.
  pose proof (length_tpdata dm _ _ _ Hb). pose proof (lookup_lt_Some _ _ _ Hi).
  eapply wp_in_mem_read; [apply (load_bytes_at dm _ _ len); [done | lia..]|].
  eapply wp_ask; [|exact HQ]. unfold rd. rewrite Nat2Z.id, lookup_take_lt, lookup_drop by lia.
  by rewrite Nat.add_0_r.
Qed.

(** The index that the comparison with the table's size admits. *)
Lemma command_index b :
  (ulong dm (b2c b) <? Z.of_nat (length commands)) = (b2z b <? 6) /\
  (b2z b < 6 -> Z.to_nat (ulong dm (b2c b)) = Z.to_nat (b2z b)).
Proof.
  pose proof (b2z_range b). change (Z.of_nat (length commands)) with 6. unfold b2c.
  destruct (decide (b2z b < 128)).
  - rewrite swrap_id by (change (2 ^ (8 - 1)) with 128; lia). unfold ulong.
    rewrite uwrap_id by (destruct dm; simpl; lia). done.
  - assert (swrap 8 (b2z b) = b2z b - 256) as ->.
    { unfold swrap. change (2 ^ (8 - 1)) with 128. change (2 ^ 8) with 256.
      Z.div_mod_to_equations. lia. }
    split; [|lia]. rewrite (proj2 (Z.ltb_ge (b2z b) 6)) by lia. apply Z.ltb_ge.
    unfold ulong, uwrap. destruct dm; cbn [long_bits];
      [change (2 ^ 32) with 4294967296 | change (2 ^ 64) with 18446744073709551616];
      Z.div_mod_to_equations; lia.
Qed.

Lemma commands_length i h n : commands !! i = Some (h, n) -> (n <= 23)%nat.
Proof.
  intros E%list_elem_of_lookup_2. cbn in E.
  repeat (apply elem_of_cons in E as [[= -> ->]|E]; [vm_compute; lia|]). by apply not_elem_of_nil in E.
Qed.

Lemma svriowait_empty (call : calls) c x p f s :
  c <> 0 -> clients s !! c = Some x -> idle x -> tpbuf dm (tp_heap (mem s)) p 0 ->
  svriowait dm call c p f s = call f c p s.
Proof.
  intros Hc Hx (I1 & I2 & I3) Hb. unfold svriowait, mbind, M_bind.
  rewrite (proj2 (Z.eqb_neq c 0)) by done.
  rewrite (bool_decide_false (p = NULL)) by (intros ->; by destruct Hb as (_ & ? & _)).
  cbn [negb andb assert_ mret M_ret]. unfold get_client, deref.
  rewrite (proj2 (Z.eqb_neq c 0)) by done. unfold mbind, M_bind, gets. rewrite Hx.
  cbn [ask mret M_ret]. rewrite I1, I2, I3. cbn [bool_decide].
  unfold assert_. rewrite !bool_decide_true by done. cbn [andb Z.eqb mret M_ret].
  unfold in_mem, zoom. rewrite (tplen_buf dm _ _ _ Hb). by rewrite set_mem_id.
Qed.

(** The call of [command], for every byte. *)
Lemma command_run (call : calls) s c x buf b :
  c <> 0 -> clients s !! c = Some x -> idle x -> tpbuf dm (tp_heap (mem s)) buf 1 ->
  tpdata (tp_heap (mem s)) buf 1 = [b] -> heap_wf (tp_heap (mem s)) ->
  oom_now (tp_heap (mem s)) = false ->
  match commands !! Z.to_nat (b2z b) with
  | Some (h, n) => exists p m',
      tpbuf dm (tp_heap m') p (Z.of_nat n) /\ blocks (tp_heap m') !! pblk buf = None /\ heap_wf (tp_heap m') /\
      (ooms (tp_heap (mem s)) = [] -> ooms (tp_heap m') = []) /\
      same_buffers (tp_heap (mem s)) (tp_heap m') (pblk buf) /\ blocks (tp_heap (mem s)) !! pblk p = None /\
      command dm call c buf s =
        if (n =? 0)%nat then call h c p (set_mem m' s)
        else Done (tt, set_clients (<[c := set_io 0 p (Some h) x]> (clients s)) (set_mem m' s))
  | None => command dm call c buf s = del_client dm c (set_mem (drop_blk (mem s) (pblk buf)) s)
  end.
Proof.
  intros Hc Hx Hi Hb Hd Hwf Hoom. destruct (command_index b) as [Elt Eidx].
  pose proof (b2z_range b).
  assert (buf_byte buf 0 s = Done (b, s)) as Ebuf.
  { apply wp_eq. eapply wp_buf_byte; [exact Hb | by rewrite Hd | done]. }
  unfold command, mbind at 1, M_bind at 1. rewrite Ebuf, Elt.
  destruct (Z.ltb_spec (b2z b) 6) as [Hlt|Hge].
  - rewrite Eidx by done.
    destruct (commands !! Z.to_nat (b2z b)) as [[h n]|] eqn:Ec;
      [|apply lookup_ge_None in Ec; simpl in Ec; lia].
    apply commands_length in Ec.
    destruct (tprealloc_ok dm buf (Z.of_nat n) (mem s) 1) as (blk & Hblk & _ & Er);
      [done | done | done | unfold LONG_MAX; destruct dm; simpl; lia |].
    assert (is_Some (blocks (tp_heap (mem s)) !! pblk buf)) as Hsome
      by (destruct Hb as (_ & _ & ? & ? & _); eauto).
    destruct (heap_realloc_buf dm (mem s) (pblk buf) blk (Z.of_nat n)) as (Hbuf & Hdead & Hsame & Hwf'); [done..|].
    exists (Ptr (brk (tp_heap (mem s))) (sizeof_tpmemory dm)),
      (set_heap (heap_realloc (tp_heap (mem s)) (pblk buf) blk) (mem s)).
    split; [exact Hbuf|]. split; [exact Hdead|]. split; [exact Hwf'|].
    split; [by cbn; intros ->|]. split; [exact Hsame|]. split; [by apply heap_wf_fresh|].
    cbn [ask]. unfold mbind, M_bind. cbn [mret M_ret fst snd].
    unfold in_mem at 1, zoom. rewrite Er. destruct (Nat.eqb_spec n 0) as [->|Hn].
    + by apply (svriowait_empty call c x).
    + apply wp_eq. eapply wp_svriowait; [done | exact Hx | done | exact Hbuf | lia | done].
  - rewrite lookup_ge_None_2 by (simpl; lia).
    assert (in_mem (tpfree dm buf) s = Done (tt, set_mem (drop_blk (mem s) (pblk buf)) s)) as E.
    { apply wp_eq. eapply wp_in_mem; [by eapply tpfree_buf | done]. }
    unfold mbind, M_bind. by rewrite Ebuf, Elt, E.
Qed.

(** ** Properties *)

(** C21. Dispatch of a message's first byte, for every byte: one of the six message
    types makes the client wait for exactly the table's length with the table's
    handler (a length of 0 calls the handler at once, with an empty buffer), and
    the byte's buffer is given up; any other byte, also a negative [char],
    disconnects the client after freeing the buffer. *)
Theorem command_dispatch (call : calls) s c x buf b :
  c <> 0 -> clients s !! c = Some x -> idle x -> tpbuf dm (tp_heap (mem s)) buf 1 ->
  tpdata (tp_heap (mem s)) buf 1 = [b] -> heap_wf (tp_heap (mem s)) ->
  oom_now (tp_heap (mem s)) = false ->
  match commands !! Z.to_nat (b2z b) with
  | Some (h, n) => exists p m',
      tpbuf dm (tp_heap m') p (Z.of_nat n) /\ blocks (tp_heap m') !! pblk buf = None /\
      command dm call c buf s =
        if (n =? 0)%nat then call h c p (set_mem m' s)
        else Done (tt, set_clients (<[c := set_io 0 p (Some h) x]> (clients s)) (set_mem m' s))
  | None => command dm call c buf s = del_client dm c (set_mem (drop_blk (mem s) (pblk buf)) s)
  end.
Proof.
  intros. pose proof (command_run call s c x buf b) as Hrun.
  destruct (commands !! Z.to_nat (b2z b)) as [[h n]|]; [|by apply Hrun].
  destruct Hrun as (p & m' & ? & ? & _ & _ & _ & _ & ?); [done..|]. by exists p, m'.
Qed.

(** The command table agrees with the client library: for every message the
    library sends, the row that its type byte selects has the handler for that
    message, and the length of the row is the length of the rest of the message's
    fixed part. *)
Lemma commands_match_messages name len flags c rv rc d :
  (XATMI_SERVICE_NAME_LENGTH <= length name)%nat ->
  commands !! Z.to_nat TPTCALL = Some (H_svracall, pred (length (acall_bytes name len flags))) /\
  commands !! Z.to_nat TPTGRPLY = Some (H_svrgetrply, pred (length (getrply_bytes c flags))) /\
  commands !! Z.to_nat TPTADVT = Some (H_svradvertise,
    length (take XATMI_SERVICE_NAME_LENGTH name ++ le_encode 4 rc)) /\
  commands !! Z.to_nat TPTUADV = Some (H_svrunadvertise, length (take XATMI_SERVICE_NAME_LENGTH name)) /\
  commands !! Z.to_nat TPTWORK = Some (H_svrservice, 0%nat) /\
  commands !! Z.to_nat TPTRETN = Some (H_svrreturn,
    pred (length (return_bytes rv rc d) - length d)).
Proof.
  intros Hn. unfold acall_bytes, getrply_bytes, return_bytes.
  rewrite !length_app, !length_le_encode, !length_take, Nat.min_l by done.
  split_and!; try reflexivity. vm_compute (commands !! _). do 2 f_equal. simpl. lia.
Qed.

(** Depth of calls: however many calls through handler pointers are allowed,
    a handler behaves as with three, so the model's bound on the nesting
    [command], message handler, continuation is never the reason for a fault. *)
Lemma handle_depth_enough n h c buf s :
  (HANDLE_DEPTH <= n)%nat -> handle dm n h c buf s = handle dm HANDLE_DEPTH h c buf s.
Proof.
  unfold HANDLE_DEPTH. intros Hn. destruct n as [|[|[|n]]]; try lia.
  destruct (decide (h = H_command)) as [->|Hh].
  - rewrite (handle_S (S (S n))), (handle_S 2). apply command_ext. intros. by apply handle_two.
  - by rewrite (handle_two (S n)), (handle_two 1).
Qed.

(** C14. Input in pieces: when a client's message arrives in two pieces, serving
    the client twice has exactly the same outcome, state and faults included, as
    serving it once with the pieces joined; so the handling of a message does not
    depend on how the stream is split. *)
Theorem iowait_pieces s c x len bs1 bs2 :
  c <> 0 -> clients s !! c = Some x -> tpbuf dm (tp_heap (mem s)) (input x) len ->
  0 <= used x -> bs1 <> [] -> bs2 <> [] ->
  used x + Z.of_nat (length bs1) + Z.of_nat (length bs2) <= len ->
  (iowait_client dm c (ReadBytes bs1) ;; iowait_client dm c (ReadBytes bs2)) s =
    iowait_client dm c (ReadBytes (bs1 ++ bs2)) s.
Proof.
  intros Hc Hx Hb Hu H1 H2 Hl.
  pose proof (tpbuf_block dm _ _ _ len Hb ltac:(lia)) as (b & Hblk & Hp & Hin & _).
  pose proof (in_block_le _ _ _ Hin) as [Hpo Hlen].
  assert (0 < Z.of_nat (length bs2)) by (destruct bs2; [done | simpl; lia]).
  rewrite (iowait_client_bytes s c x len b (bs1 ++ bs2));
    [|done | done | done | done | done | by intros []%app_nil | rewrite length_app; lia].
  unfold mbind at 1, M_bind at 1. rewrite (iowait_client_bytes s c x len b bs1) by (done || lia).
  rewrite filled_part by (done || lia).
  rewrite <- (filled_rest s c x len bs1 bs2 b) by (done || lia).
  assert (clients (received_part s c x bs1 b) !! c =
    Some (set_io (used x + Z.of_nat (length bs1)) (input x) (handler_fn x) x)) as Hx1
    by apply lookup_insert_eq.
  eapply iowait_client_bytes; [done | exact Hx1 | | apply lookup_insert_eq | simpl; lia | done | simpl; lia].
  destruct (store_bytes_at dm (mem s) (input x) len (used x) bs1) as (m' & E & Hb' & _); [done | lia | lia |].
  rewrite (store_bytes_run _ _ len _ _ b) in E by (done || lia). by injection E as <-.
Qed.

End EventLoop.

(** ** Witnesses *)

(** A client in the middle of a message of two bytes. *)
Definition wit_part : sb (bst Z) :=
  set_clients (<[6 := mkClient 9 0 (Ptr 1 32) (Some H_svrunadvertise) Leaf 0]> ∅) (wit_sb 0 0 []).

Lemma handle_depth_enough_witness :
  handle LP64 7 H_command 6 (Ptr 1 32) wit_part = handle LP64 HANDLE_DEPTH H_command 6 (Ptr 1 32) wit_part.
Proof. apply (handle_depth_enough LP64 7 H_command 6 (Ptr 1 32) wit_part). vm_compute. lia. Defined.

Lemma iowait_pieces_witness :
  (iowait_client LP64 6 (ReadBytes [x41]) ;; iowait_client LP64 6 (ReadBytes [x42])) wit_part =
    iowait_client LP64 6 (ReadBytes [x41; x42]) wit_part.
Proof.
  apply (iowait_pieces LP64 wit_part 6 (mkClient 9 0 (Ptr 1 32) (Some H_svrunadvertise) Leaf 0) 2 [x41] [x42]);
    [discriminate | reflexivity | apply wit_buf2 | cbn; lia | discriminate | discriminate | cbn; lia].
Defined.

(** A buffer with one byte, the type of a getrply message. *)
Definition wit_mem1 (b : byte) : tpmem :=
  match tpalloc LP64 NULL NULL 1 wit_mem with
  | Done (p, s) => match in_heap (store_bytes p [b]) s with Done (_, s') => s' | Fault _ => s end
  | Fault _ => wit_mem
  end.
Definition wit_byte : sb (bst Z) := set_mem (wit_mem1 x01) (wit_sb 0 0 []).

Lemma wit_buf1 : tpbuf LP64 (tp_heap (mem wit_byte)) (Ptr 1 32) 1.
Proof.
  split; [done|]. split; [done|].
  exists (default [] (blocks (tp_heap (wit_mem1 x01)) !! 1)). split; [by vm_compute|]. by vm_compute.
Qed.

Lemma wit_mem1_wf : heap_wf (tp_heap (mem wit_byte)).
Proof.
  split; [vm_compute; done|]. intros i [x Hx].
  destruct (decide (i = 1)) as [->|Hi]; [vm_compute; done|].
  change (blocks (tp_heap (mem wit_byte))) with
    (<[1 := default [] (blocks (tp_heap (wit_mem1 x01)) !! 1)]> (∅ : gmap Z (list byte))) in Hx.
  by rewrite lookup_insert_ne, lookup_empty in Hx.
Qed.

Lemma command_dispatch_witness :
  exists p m', tpbuf LP64 (tp_heap m') p 6 /\
    command LP64 (handle LP64 2) 6 (Ptr 1 32) wit_byte =
      Done (tt, set_clients (<[6 := mkClient 9 0 p (Some H_svrgetrply) Leaf 7]> (clients wit_byte))
        (set_mem m' wit_byte)).
Proof.
  destruct (command_dispatch LP64 (handle LP64 2) wit_byte 6 (mkClient 9 0 NULL None Leaf 7) (Ptr 1 32) x01)
    as (p & m' & H1 & _ & H2);
    [discriminate | reflexivity | split; [reflexivity | split; reflexivity] | apply wit_buf1
    | vm_compute; reflexivity | apply wit_mem1_wf | reflexivity |].
  exists p, m'. split; [exact H1 | exact H2].
Defined.

Lemma commands_match_messages_witness :
  commands !! Z.to_nat TPTCALL = Some (H_svracall, pred (length (acall_bytes wit_name 5 0))).
Proof. apply (commands_match_messages wit_name 5 0 1 TPSUCCESS 0 []). vm_compute. lia. Defined.
