(* ===== verification/Registry.v ===== *)
(** * The registry of services

    [service.c] over any search tree that keeps the contract of [<search.h>]
    ([SearchTree.v]): the tree of services as a map from names to structs.  A
    name is the string in the first 15 bytes, so that names that differ only
    after a NUL are the same service. *)

From Stdlib Require Import ZArith Lia.
From S2P Require Import Prelude Constants ByteOrder CString SearchTree Queue Memory TpMemory.
From S2P Require Import SbState SbObjects SbHandlers SbLemmas Xatmi.

Local Open Scope Z_scope.

Section Registry.
Context {T : Type} `{SearchTree T Z}.
Implicit Types (s : sb T) (name : list byte).

(** The name a lookup goes by, and that of the service at an address. *)
Definition key_of name : list byte := cname XATMI_SERVICE_NAME_LENGTH name.
Definition key s (p : Z) : list byte := key_of (svc_name s p).

(** The tree points to live services and is ordered by their names. *)
Definition registry_ok s : Prop :=
  (forall p, p ∈ twalk (services s) -> p <> 0 /\ is_Some (svcs s !! p)) /\
  tordered (key s) (services s).

(** The abstract registry: which struct has a name. *)
Definition registered s name (p : Z) : Prop := p ∈ twalk (services s) /\ key s p = key_of name.

Lemma cmp_service_compares s name : compares (key s) (key_of name) (cmp_service s name).
Proof. intros p. unfold cmp_service, by_key, key, key_of. apply strncmp_cname. Qed.

Lemma services_live_run s : registry_ok s -> services_live s = Done (tt, s).
Proof.
  intros [Hlive _]. unfold services_live, mbind, M_bind, gets. cbn [id].
  rewrite (proj2 (forallb_forall _ _)); [done|]. intros p Hp%list_elem_of_In.
  apply bool_decide_eq_true. by apply Hlive.
Qed.

Lemma tfind_registered s name p :
  registry_ok s -> tfind (cmp_service s name) (services s) = Some p <-> registered s name p.
Proof. intros [_ Ho]. apply (tfind_some (key s)); [apply cmp_service_compares | done]. Qed.

Lemma fnd_service_run s name :
  registry_ok s ->
  fnd_service name s = Done (default 0 (tfind (cmp_service s name) (services s)), s).
Proof.
  intros Hr. unfold fnd_service, mbind, M_bind. by rewrite services_live_run.
Qed.

Lemma fnd_service_spec s name :
  registry_ok s ->
  exists p, fnd_service name s = Done (p, s) /\
    (p <> 0 -> registered s name p) /\ (p = 0 -> forall q, ~ registered s name q).
Proof.
  intros Hr. eexists. split; [by apply fnd_service_run|].
  destruct (tfind _ _) as [q|] eqn:E; simpl; split.
  - intros _. by apply tfind_registered.
  - intros ->. apply tfind_registered in E; [|done]. destruct E as [Hin _].
    by destruct (proj1 Hr 0 Hin).
  - done.
  - intros _ q Hq. apply tfind_registered in Hq; [|done]. congruence.
Qed.

(** A name belongs to at most one service. *)
Lemma registered_unique s name p q :
  registry_ok s -> registered s name p -> registered s name q -> p = q.
Proof.
  intros Hr Hp Hq. apply tfind_registered in Hp; [|done]. apply tfind_registered in Hq; [|done]. congruence.
Qed.

(** The state after the struct of a new service was filled in. *)
Definition with_service s (p : Z) (sv : SbState.tpservice) (m : gmap qaddr (QUEUE qaddr)) : sb T :=
  set_qm m (set_svcs (<[p := sv]> (svcs s)) (set_next (p + 1) s)).

Lemma with_service_name s p sv m q :
  svc_name (with_service s p sv m) q = if decide (q = p) then svcname sv else svc_name s q.
Proof.
  unfold svc_name, with_service. simpl. destruct (decide (q = p)) as [->|Hq].
  - by rewrite lookup_insert_eq.
  - by rewrite lookup_insert_ne.
Qed.

Lemma with_service_ok s p sv m :
  registry_ok s -> svcs s !! p = None -> registry_ok (with_service s p sv m).
Proof.
  intros [Hl Ho] Hp. split.
  - intros q Hq. destruct (Hl q Hq) as [Hq0 Hs]. split; [done|]. simpl.
    rewrite lookup_insert_ne; [done|]. intros ->. rewrite Hp in Hs. by destruct Hs.
  - eapply tordered_ext; [|exact Ho]. intros q Hq. unfold key. rewrite with_service_name.
    rewrite decide_False; [done|]. intros ->. destruct (Hl p Hq) as [_ Hs]. rewrite Hp in Hs. by destruct Hs.
Qed.

(** No allocation fails any more. *)
Definition memory_left s : Prop := ooms (tp_heap (mem s)) = [].

Lemma oom_left s : memory_left s -> in_mem (in_heap oom) s = Done (false, s).
Proof.
  intros Ho. unfold memory_left in Ho. unfold in_mem, in_heap, zoom, oom. rewrite Ho.
  destruct s as [[[] ?]]. by simpl in *; subst.
Qed.

Lemma alloc_struct_run s : memory_left s -> alloc_struct s = Done (next s, set_next (next s + 1) s).
Proof. intros Ho. unfold alloc_struct, mbind, M_bind. by rewrite oom_left. Qed.

Lemma tsearch_node_run s cmp p t :
  memory_left s -> tsearch_node cmp p t s = Done (Some (tsearch cmp p t), s).
Proof.
  intros Ho. unfold tsearch_node. destruct (tfind cmp t); [done|].
  unfold mbind, M_bind. by rewrite oom_left.
Qed.

(** What a fresh address promises. *)
Definition fresh_service s (qs : gmap qaddr (list qaddr)) : Prop :=
  0 < next s /\ svcs s !! next s = None /\ qm s !! Q_waitq (next s) = None /\ qrep (qm s) qs.

(** [new_service] up to the search of the tree. *)
Lemma new_service_prefix s name qs :
  registry_ok s -> memory_left s -> fresh_service s qs ->
  exists m1, let s1 := with_service s (next s) (mkService (strncpy XATMI_SERVICE_NAME_LENGTH name) false 0 0) m1 in
    qrep m1 (<[Q_waitq (next s) := []]> qs) /\ same_outside (qm s) m1 [Q_waitq (next s)] /\ registry_ok s1 /\
    new_service name s =
      (r ← tsearch_node (cmp_service s1 (svc_name s1 (next s))) (next s) (services s);
       match r with
       | Some (t', svc2) =>
           modify (set_services t') ;;
           if svc2 =? next s then mret (next s) else free_service (next s) ;; mret svc2
       | None => free_service (next s) ;; mret 0
       end) s1.
Proof.
  intros Hr Hm (Hn & Hsv & Hqm & Hq).
  destruct (qrep_alloc (qm s) qs (Q_waitq (next s)) (mkQUEUE QNULL QNULL) Hq Hqm) as (m1 & E1 & Q1 & F1).
  exists m1. cbn zeta. split; [done|]. split; [done|].
  set (s1 := with_service _ _ _ m1). assert (registry_ok s1) as Hr1 by by apply with_service_ok.
  split; [done|]. unfold new_service, mbind at 1, M_bind at 1. rewrite alloc_struct_run by done.
  rewrite (proj2 (Z.eqb_neq _ 0)) by lia. unfold mbind, M_bind, in_q, q_alloc, zoom, modify.
  cbn [qm set_svcs set_next]. cbn [qm set_qm]. rewrite E1.
  fold s1. change (set_qm m1 _) with s1. by rewrite services_live_run.
Qed.

Lemma free_service_run s p sv :
  p <> 0 -> svcs s !! p = Some sv ->
  free_service p s = Done (tt, set_qm (delete (Q_waitq p) (qm s)) (set_svcs (delete p (svcs s)) s)).
Proof.
  intros Hp Hsv. apply wp_eq. unfold free_service. wp_step. eapply wp_get_svc; [done | exact Hsv |].
  unfold in_q, q_free. by repeat wp_step.
Qed.

(** What [new_service] does: the address after the next is the next, and nothing
    but the registry, the structs of services and their queues changes. *)
Lemma new_service_run s name qs :
  registry_ok s -> memory_left s -> fresh_service s qs ->
  exists p t' sv' m', let s' := set_services t' (set_qm m' (set_svcs sv' (set_next (next s + 1) s))) in
    new_service name s = Done (p, s') /\ registry_ok s' /\ registered s' name p /\ p <> 0 /\
    (forall q, q <> Q_waitq (next s) -> m' !! q = qm s !! q) /\
    ((registered s name p /\ sv' = svcs s /\ t' = services s /\ qrep m' qs) \/
     ((forall q, ~ registered s name q) /\ p = next s /\
      sv' = <[p := mkService (strncpy XATMI_SERVICE_NAME_LENGTH name) false 0 0]> (svcs s) /\
      qrep m' (<[Q_waitq p := []]> qs) /\ twalk t' ≡ₚ p :: twalk (services s) /\
      forall name' q, key_of name' <> key_of name -> registered s' name' q <-> registered s name' q)).
Proof.
  intros Hr Hm Hfresh. destruct (new_service_prefix s name qs Hr Hm Hfresh) as (m1 & Q1 & F1 & Hr1 & ->).
  set (sv := mkService _ false 0 0) in *. set (p := next s) in *. set (s1 := with_service s p sv m1) in *.
  destruct Hfresh as (Hn & Hsv & Hqm & Hq). fold p in Hn, Hsv, Hqm.
  assert (svc_name s1 p = svcname sv) as Enm by (unfold s1; rewrite with_service_name; by rewrite decide_True).
  assert (key s1 p = key_of name) as Ekey by (unfold key; rewrite Enm; apply cname_strncpy).
  assert (p ∉ twalk (services s)) as Hnp.
  { intros Hin. destruct (proj1 Hr p Hin) as [_ Hs]. rewrite Hsv in Hs. by destruct Hs. }
  assert (forall q, q <> p -> key s1 q = key s q) as Ekey'.
  { intros q Hqp. unfold key, s1. rewrite with_service_name. by rewrite decide_False. }
  assert (compares (key s1) (key s1 p) (cmp_service s1 (svc_name s1 p))) as Hcmp
    by apply cmp_service_compares.
  unfold mbind, M_bind. rewrite tsearch_node_run by done.
  destruct (tfind (cmp_service s name) (services s)) as [q|] eqn:Ef.
  - apply tfind_registered in Ef; [|done]. destruct Ef as [Hin Hkey].
    assert (q <> p) as Hqp by (by intros ->). destruct (proj1 Hr q Hin) as [Hq0 _].
    rewrite (tsearch_found (key s1) (services s) p _ q); [|done | apply Hr1 | done | by rewrite Ekey', Hkey, Ekey].
    rewrite (proj2 (Z.eqb_neq q p)) by done. unfold modify.
    assert (set_services (services s) s1 = s1) as -> by done.
    rewrite (free_service_run s1 p sv) by (done || apply lookup_insert_eq || lia).
    exists q, (services s), (delete p (svcs s1)), (delete (Q_waitq p) (qm s1)). set (s2 := set_services _ _).
    cbn zeta. split; [reflexivity|].
    assert (svcs s2 = svcs s) as Esv by (simpl; by rewrite delete_insert_id).
    assert (forall r, key s2 r = key s r) as Ek2 by (intros r; unfold key, svc_name; by rewrite Esv).
    split_and!.
    + split; [by rewrite Esv; apply Hr|]. eapply tordered_ext; [|apply Hr]. by intros.
    + split; [done|]. by rewrite Ek2.
    + done.
    + intros r Hr'. rewrite lookup_delete_ne by done. apply F1. set_solver +Hr'.
    + left. split_and!; [done | exact Esv | done |].
      assert (qs !! Q_waitq p = None) as Hqs.
      { apply eq_None_not_Some. intros [l Hl]. apply (qrep_fresh (qm s) qs _ _ _ Hq Hqm Hl). by left. }
      rewrite <- (delete_insert_id qs (Q_waitq p) []) by done. apply qrep_free; [done | apply lookup_insert_eq].
  - assert (forall q, ~ registered s name q) as Hnone
      by (intros q Hq'; apply tfind_registered in Hq'; [congruence | done]).
    destruct (tsearch_new (key s1) (services s) p _ Hcmp (proj2 Hr1)) as (t' & -> & Ho' & Hperm).
    { intros q Hin E. apply (Hnone q). split; [done|]. rewrite <- Ekey', E; [done|]. by intros ->. }
    rewrite Z.eqb_refl. exists p, t', (svcs s1), m1. cbn zeta.
    change (set_services t' (set_qm m1 (set_svcs (svcs s1) (set_next (p + 1) s)))) with (set_services t' s1).
    split; [reflexivity|].
    assert (forall q, q ∈ twalk t' <-> q = p \/ q ∈ twalk (services s)) as Hw
      by (intros q; rewrite Hperm; apply elem_of_cons).
    split_and!.
    + split; [|exact Ho']. intros q [->|Hin]%Hw; [split; [lia | simpl; rewrite lookup_insert_eq; eauto]|].
      by apply (proj1 Hr1).
    + split; [apply Hw; by left | done].
    + lia.
    + intros r Hr'. apply F1. set_solver +Hr'.
    + right. split_and!; [done | done | done | done | done |]. intros name' q Hne. unfold registered. simpl.
      rewrite Hw. change (key (set_services t' s1) q) with (key s1 q). split.
      * intros [[->|Hin] E]; [congruence|]. split; [done|]. rewrite <- Ekey'; [done|]. by intros ->.
      * intros [Hin E]. split; [by right|]. rewrite Ekey'; [done|]. by intros ->.
Qed.

(** ** Properties *)

(** [fnd_service] implements lookup in the registry, for every search tree
    that keeps its contract: it returns the service whose name equals the given
    one in its first 15 bytes up to a NUL, and null exactly when there is none; at
    most one service has a name; the state does not change. *)
Lemma fnd_service_lookup s name :
  registry_ok s ->
  exists p, fnd_service name s = Done (p, s) /\
    (p <> 0 -> forall q, registered s name q <-> q = p) /\ (p = 0 -> forall q, ~ registered s name q).
Proof.
  intros Hr. destruct (fnd_service_spec s name Hr) as (p & E & Hsome & Hnone).
  exists p. split_and!; [done | | done]. intros Hp q. split; [|intros ->; by apply Hsome].
  intros Hq. by eapply registered_unique; [..|apply Hsome].
Qed.

(** C22. [new_service] implements find-or-insert: if the name is registered it
    returns that service and leaves registry, structs and queues as they were;
    otherwise it returns a new service of that name with an empty wait queue, and
    every other name keeps its service.  The registry stays well-formed. *)
Theorem new_service_find_or_insert s name qs :
  registry_ok s -> memory_left s -> fresh_service s qs ->
  exists p s', new_service name s = Done (p, s') /\ registry_ok s' /\ registered s' name p /\ p <> 0 /\
    ((registered s name p /\ svcs s' = svcs s /\ services s' = services s /\ qrep (qm s') qs) \/
     ((forall q, ~ registered s name q) /\ p = next s /\
      svcs s' = <[p := mkService (strncpy XATMI_SERVICE_NAME_LENGTH name) false 0 0]> (svcs s) /\
      qrep (qm s') (<[Q_waitq p := []]> qs) /\
      forall name' q, key_of name' <> key_of name -> registered s' name' q <-> registered s name' q)).
Proof.
  intros Hr Hm Hf. destruct (new_service_run s name qs Hr Hm Hf) as (p & t' & sv' & m' & E & H1 & H2 & H3 & _ & H4).
  eexists p, _. split; [exact E|]. split; [exact H1|]. split; [exact H2|]. split; [exact H3|].
  destruct H4 as [H4|(? & ? & ? & ? & _ & ?)]; [by left | by right].
Qed.

End Registry.

(** ** Witnesses *)

Definition wit_registry : sb (bst Z) :=
  mkSb wit_mem (<[Q_waitq 2 := mkQUEUE (Q_waitq 2) (Q_waitq 2)]> ∅) ∅ {[2 := mkService wit_name false 0 0]} ∅ ∅ 3
    (Node Leaf 2 Leaf) [] 0 0 (fun _ _ => 1) 0 0 (fun _ => (0, 0)) 0 0 [] [].

Lemma wit_registry_ok : registry_ok wit_registry.
Proof.
  split; [|cbn; repeat split; intros y Hy; by apply not_elem_of_nil in Hy].
  intros p ->%list_elem_of_singleton. split; [done | vm_compute; eauto].
Qed.

Lemma fnd_service_lookup_witness : fnd_service wit_name wit_registry = Done (2, wit_registry).
Proof.
  destruct (fnd_service_lookup wit_registry wit_name) as (p & E & Hsome & Hnone); [apply wit_registry_ok|].
  assert (registered wit_registry wit_name 2) as H2 by (split; [by left | reflexivity]).
  destruct (Z.eq_dec p 0) as [E0|E0]; [exfalso; exact (Hnone E0 2 H2)|].
  rewrite E. f_equal. f_equal. symmetry. apply (Hsome E0). exact H2.
Defined.

Lemma new_service_find_or_insert_witness :
  exists p s', new_service [x41] wit_registry = Done (p, s') /\ registered s' [x41] p.
Proof.
  destruct (new_service_find_or_insert wit_registry [x41] {[Q_waitq 2 := []]}) as (p & s' & E & _ & H & _).
  - apply wit_registry_ok.
  - reflexivity.
  - split; [reflexivity|]. split; [reflexivity|]. split; [reflexivity|].
    apply qrep_check_ok. vm_compute. reflexivity.
  - exists p, s'. split; [exact E | exact H].
Defined.
