(* ===== verification/Messages.v ===== *)
(** * Messages and answers

    What the message handlers have in common: a complete message in a typed
    buffer and what the handlers read from it, the state in which a handler
    runs, and the answer to a client that is then expected to send its next
    command. *)

From Stdlib Require Import ZArith Lia.
From S2P Require Import Prelude Constants ByteOrder CString SearchTree Queue Memory TpMemory.
From S2P Require Import SbState SbObjects SbHandlers SbLemmas Xatmi Dispatch EventLoop Registry.

Local Open Scope Z_scope.

Section Messages.
Context {T : Type} `{SearchTreeOps T Z} (dm : data_model).
Implicit Types (s : sb T) (x : tpclient T) (qs : gmap qaddr (list qaddr)) (bs : list byte).

(** ** Messages *)

(** The buffer holds the message [bs]. *)
Definition message s (buf : ptr) bs : Prop :=
  tpbuf dm (tp_heap (mem s)) buf (Z.of_nat (length bs)) /\
  tpdata (tp_heap (mem s)) buf (Z.of_nat (length bs)) = bs.

Lemma message_not_null s buf bs : message s buf bs -> bool_decide (buf = NULL) = false.
Proof. intros [(_ & Hb & _) _]. apply bool_decide_eq_false. by intros ->. Qed.

Lemma wp_load_message s buf bs (i n : nat) Q :
  message s buf bs -> (i + n <= length bs)%nat -> Q (take n (drop i bs)) s ->
  wp (in_mem (in_heap (load_bytes (ptr_add buf (Z.of_nat i)) (Z.of_nat n)))) s Q.
Proof.
  intros [Hb Hd] Hn HQ. eapply wp_in_mem_read; [|exact HQ].
  rewrite (load_bytes_at dm (mem s) buf _ (Z.of_nat i) (Z.of_nat n) Hb ltac:(lia) ltac:(lia) ltac:(lia)). unfold rd. by rewrite !Nat2Z.id, Hd.
Qed.

Lemma bytes_at_length d i bs : bytes_at d i bs -> bs <> [] -> (i + length bs <= length d)%nat.
Proof.
  unfold bytes_at. intros E Hne. destruct bs as [|b bs]; [done|].
  assert (length (take (length (b :: bs)) (drop i d)) = length (b :: bs)) as El by by rewrite E.
  rewrite length_take, length_drop in El. cbn [length] in *. lia.
Qed.

Lemma bytes_at_whole bs : bytes_at bs 0 bs.
Proof. unfold bytes_at. rewrite drop_0. by apply take_ge. Qed.

Lemma wp_buf_short s buf bs i v Q :
  message s buf bs -> bytes_at bs i (le_encode 2 v) -> Q (uwrap 16 v) s -> wp (buf_short buf i) s Q.
Proof.
  intros Hm Hb HQ. unfold buf_short. wp_step. eapply (wp_load_message s buf bs i 2); [done | |].
  { by apply (bytes_at_length _ _ _ Hb). }
  eapply wp_ask; [|exact HQ]. apply toshort_encode.
  unfold bytes_at in Hb. rewrite length_le_encode in Hb. rewrite Hb. apply bytes_at_whole.
Qed.

Lemma wp_buf_long s buf bs i v Q :
  message s buf bs -> bytes_at bs i (le_encode 4 v) -> Q (ulong dm (swrap 32 v)) s ->
  wp (buf_long dm buf i) s Q.
Proof.
  intros Hm Hb HQ. unfold buf_long. wp_step. eapply (wp_load_message s buf bs i 4); [done | |].
  { by apply (bytes_at_length _ _ _ Hb). }
  eapply wp_ask; [|exact HQ]. apply tolong_encode.
  unfold bytes_at in Hb. rewrite length_le_encode in Hb. rewrite Hb. apply bytes_at_whole.
Qed.

Lemma wp_message_byte s buf bs i b Q :
  message s buf bs -> bs !! i = Some b -> Q b s -> wp (buf_byte buf i) s Q.
Proof.
  intros Hm Hb HQ. unfold buf_byte. wp_step. pose proof (lookup_lt_Some _ _ _ Hb).
  eapply (wp_load_message s buf bs i 1); [done | lia |].
  eapply wp_ask; [|exact HQ]. by rewrite lookup_take_lt, lookup_drop, Nat.add_0_r by lia.
Qed.

Lemma wp_buf_name s buf name bs Q :
  message s buf (name ++ bs) -> length name = XATMI_SERVICE_NAME_LENGTH -> Q name s ->
  wp (buf_name buf) s Q.
Proof.
  intros Hm Hn HQ. unfold buf_name. replace buf with (ptr_add buf (Z.of_nat 0)).
  - eapply (wp_load_message s buf _ 0); [done | rewrite length_app; lia |].
    by rewrite drop_0, <- Hn, take_app_length.
  - destruct buf. unfold ptr_add. simpl. by rewrite Z.add_0_r.
Qed.

(** ** The state a handler runs in *)

(** The links represent [qs], and memory is not exhausted. *)
Record sane s qs : Prop := {
  sn_queues : qrep (qm s) qs;
  sn_heap : heap_wf (tp_heap (mem s));
  sn_memory : memory_left s;
}.

(** Every buffer of [s] other than the block [k] is in [s'] too. *)
Definition buffers_kept s s' (k : Z) : Prop :=
  forall p len, pblk p <> k -> tpbuf dm (tp_heap (mem s)) p len ->
    tpbuf dm (tp_heap (mem s')) p len /\ tpdata (tp_heap (mem s')) p len = tpdata (tp_heap (mem s)) p len.

(** The state after the message was freed. *)
Definition freed (buf : ptr) s : sb T := set_mem (drop_blk (mem s) (pblk buf)) s.

Lemma wp_free_message s buf bs Q :
  message s buf bs -> Q tt (freed buf s) -> wp (in_mem (tpfree dm buf)) s Q.
Proof. intros [Hb _] HQ. eapply wp_in_mem; [by eapply tpfree_buf | exact HQ]. Qed.

Lemma freed_kept s buf : buffers_kept s (freed buf s) (pblk buf).
Proof.
  intros p len Hp. apply (tpbuf_frame dm _ _ (pblk buf)); [|done].
  intros i Hi _. simpl. by rewrite lookup_delete_ne.
Qed.

Lemma freed_sane s buf qs : sane s qs -> sane (freed buf s) qs.
Proof.
  intros [Hq [Hb Hwf] Hm]. split; [done | | done]. split; [done|].
  intros i [v Hv]. simpl in Hv. apply lookup_delete_Some in Hv as [_ Hv]. eauto.
Qed.

Lemma memory_left_oom s : memory_left s -> oom_now (tp_heap (mem s)) = false.
Proof. unfold memory_left, oom_now. by intros ->. Qed.

(** Waiting for no bytes calls the continuation at once. *)
Lemma wp_svriowait_empty (call : calls) c x p f s Q :
  c <> 0 -> clients s !! c = Some x -> idle x -> tpbuf dm (tp_heap (mem s)) p 0 ->
  wp (call f c p) s Q -> wp (svriowait dm call c p f) s Q.
Proof. intros Hc Hx Hi Hb HQ. unfold wp. by rewrite (svriowait_empty dm call c x). Qed.

(** ** Answers *)

(** The client [c] was sent [bs] and is expected to send a command; nothing else
    changed. *)
Record told s s' (c : Z) x bs : Prop := {
  td_client : stream (fd x) s' = stream (fd x) s ++ bs;
  td_others f : f <> fd x -> stream f s' = stream f s;
  td_clients : exists p, clients s' = <[c := set_io 0 p (Some H_command) x]> (clients s) /\
    tpbuf dm (tp_heap (mem s')) p 1 /\ pblk p = brk (tp_heap (mem s));
  td_buffers p len : tpbuf dm (tp_heap (mem s)) p len ->
    tpbuf dm (tp_heap (mem s')) p len /\ tpdata (tp_heap (mem s')) p len = tpdata (tp_heap (mem s)) p len;
  td_rest : qm s' = qm s /\ trans s' = trans s /\ svcs s' = svcs s /\ advs s' = advs s /\
    services s' = services s /\ closed s' = closed s /\ earliest s' = earliest s;
  td_sane qs : sane s qs -> sane s' qs;
  td_pool : free_cd s' = free_cd s /\ cdp s' = cdp s /\ cd_oob s' = cd_oob s;
}.

Lemma wp_next_command s c x qs Q :
  c <> 0 -> clients s !! c = Some x -> idle x -> sane s qs ->
  (forall s', told s s' c x [] -> out s' = out s -> Q tt s') -> wp (svr_next_command dm c) s Q.
Proof.
  intros Hc Hx Hi [Hq Hwf Hm] HQ.
  eapply wp_svr_next_command; [done | exact Hx | done | done | by apply memory_left_oom |].
  intros b Hb. destruct (heap_alloc_buf dm (mem s) b 1 Hwf Hb) as (Hbuf & Hsame & Hwf').
  apply HQ; [|done]. constructor.
  - by rewrite app_nil_r.
  - done.
  - eexists. split; [done|]. done.
  - intros p len Hp. eapply tpbuf_frame; [exact Hsame | | exact Hp].
    destruct Hp as (_ & _ & b' & Hb' & _). destruct Hwf as [_ Hbelow].
    assert (0 < pblk p < brk (tp_heap (mem s))) by eauto. simpl. lia.
  - done.
  - intros qs' [Hq' _ _]. split; [done | exact Hwf' |]. unfold memory_left in *. simpl. by rewrite Hm.
  - done.
Qed.

(** An output followed by the wait for the next command. *)
Lemma wp_tell m s c x qs bs Q :
  emits m c bs -> c <> 0 -> clients s !! c = Some x -> idle x -> sane s qs ->
  (forall s', told s s' c x bs -> Q tt s') -> wp (m ;; svr_next_command dm c) s Q.
Proof.
  intros Hm Hc Hx Hi Hs HQ. wp_step. eapply Hm; [done | exact Hx |]. intros ws W.
  set (s1 := set_out _ s).
  eapply (wp_next_command s1 c x qs); [done | exact Hx | done | by destruct Hs |].
  intros s' [_ _ Hcl Hb Hr Hsn Hp] Ho. apply HQ. constructor.
  - etransitivity; [|exact (writes_to_stream _ _ _ s W)]. unfold stream. by rewrite Ho.
  - intros f Hf. etransitivity; [|exact (writes_to_other _ _ _ _ s W Hf)]. unfold stream. by rewrite Ho.
  - exact Hcl.
  - exact Hb.
  - exact Hr.
  - intros qs' [? ? ?]. by apply Hsn.
  - exact Hp.
Qed.

(** ** Transactions on a client's list *)

(** The list [h] of a client has the transactions [ts], all live. *)
Definition on_list s qs (h : qaddr) (ts : list Z) : Prop :=
  qs !! h = Some (Q_t_clientq <$> ts) /\ forall t, t ∈ ts -> t <> 0 /\ is_Some (trans s !! t).

(** The first of the transactions with the descriptor [d]. *)
Definition first_cd s (d : Z) (ts : list Z) : option Z :=
  head (filter (fun t => cd <$> trans s !! t = Some d) ts).

Lemma wp_scan_cd s ts d Q :
  (forall t, t ∈ ts -> t <> 0 /\ is_Some (trans s !! t)) -> Q (first_cd s d ts) s ->
  wp (scan_cd (Q_t_clientq <$> ts) d) s Q.
Proof.
  induction ts as [|t ts IH]; intros Hts HQ; [done|].
  destruct (Hts t) as [Ht [tx Htx]]; [by left|]. cbn [fmap list_fmap scan_cd].
  wp_step. unfold offset_t_clientq. repeat wp_step. eapply wp_get_trans; [done | exact Htx |].
  unfold first_cd in HQ. destruct (Z.eqb_spec (cd tx) d) as [E|E].
  - wp_step. rewrite filter_cons_True in HQ; [done|]. rewrite Htx. cbn. by rewrite E.
  - apply IH; [intros; apply Hts; by right|].
    rewrite filter_cons_False in HQ; [done|]. rewrite Htx. cbn. congruence.
Qed.

End Messages.

(** A flag that is a single bit. *)
Lemma land_bit f n : 0 <= n -> Z.land f (2 ^ n) = if Z.testbit f n then 2 ^ n else 0.
Proof.
  intros Hn. apply Z.bits_inj'. intros i Hi. rewrite Z.land_spec, Z.pow2_bits_eqb by lia.
  destruct (Z.eqb_spec n i) as [->|Hne].
  - rewrite andb_true_r. destruct (Z.testbit f i) eqn:E; [by rewrite Z.pow2_bits_true | by rewrite Z.bits_0].
  - rewrite andb_false_r. destruct (Z.testbit f n); [by rewrite Z.pow2_bits_false by lia | by rewrite Z.bits_0].
Qed.

Definition has_flag (flags flag : Z) : bool := negb (Z.land flags flag =? 0).

Lemma has_flag_lnot flags n : 0 <= n -> has_flag (Z.lnot flags) (2 ^ n) = negb (has_flag flags (2 ^ n)).
Proof.
  intros Hn. unfold has_flag. rewrite !land_bit, Z.lnot_spec by lia.
  destruct (Z.testbit flags n); cbn [negb]; rewrite ?(proj2 (Z.eqb_neq (2 ^ n) 0)) by (pose proof (Z.pow_pos_nonneg 2 n); lia);
    done.
Qed.

(** ** Concrete states *)

(** Checks of heaps and buffers by evaluation. *)
Definition heap_wf_b (h : heap) : bool :=
  (0 <? brk h) && forallb (fun kb => (0 <? fst kb) && (fst kb <? brk h)) (map_to_list (blocks h)).

Lemma heap_wf_check h : heap_wf_b h = true -> heap_wf h.
Proof.
  unfold heap_wf_b. rewrite andb_true_iff, forallb_forall, Z.ltb_lt. intros [Hb Hall]. split; [done|].
  intros i [b Hi]. apply elem_of_map_to_list, list_elem_of_In, Hall in Hi.
  rewrite andb_true_iff, !Z.ltb_lt in Hi. exact Hi.
Qed.

(** The memory of a switchboard in which a message [bs] has arrived in the block 2
    beside the buffer of two bytes in the block 1. *)
Definition wit_msg (bs : list byte) : tpmem :=
  match tpalloc LP64 NULL NULL (Z.of_nat (length bs)) wit_mem2 with
  | Done (p, s) => match in_heap (store_bytes p bs) s with Done (_, s') => s' | Fault _ => s end
  | Fault _ => wit_mem2
  end.

(** The worker 3 with its advertisement 4 of the service 2, and the client 6 with
    its transaction 7. *)
Definition wit_run (m : tpmem) (w3 w6 : Z) (ad : bst Z) (sv : SbState.tpservice) (tx : tptransaction)
    (queues : list (qaddr * list qaddr)) : sb (bst Z) :=
  mkSb m (rings queues) (<[3 := mkClient 5 0 NULL None ad w3]> (<[6 := mkClient 9 0 NULL None Leaf w6]> ∅))
    {[2 := sv]} {[4 := mkAdvert 2 3 1000 0 0]} {[7 := tx]} 8 (Node Leaf 2 Leaf)
    (replicate 10 0) 10 0 (fun _ i => Z.of_nat (70 + i)) 0 30 (fun _ => (5, 0)) 0 0 [] [].

Ltac buf_check :=
  split; [reflexivity | split; [discriminate |
    eexists; split; [vm_compute; reflexivity | vm_compute; repeat split; discriminate || reflexivity]]].
Ltac message_check := split; [buf_check | vm_compute; reflexivity].
Ltac sane_check :=
  split; [apply qrep_check_ok; vm_compute; reflexivity | apply heap_wf_check; vm_compute; reflexivity | reflexivity].
