(* ===== verification/Replies.v ===== *)
(** * Asking for replies and giving them

    [svrgetrply] of [svrgetrply.c], and [svrreturn] and its continuation [part2]
    of [svrreturn.c], on every branch. *)

From Stdlib Require Import ZArith Lia.
From S2P Require Import Prelude Constants ByteOrder CString SearchTree Queue Memory TpMemory.
From S2P Require Import SbState SbObjects SbHandlers SbLemmas TxIo Xatmi Dispatch EventLoop Registry Messages.

Local Open Scope Z_scope.

Section Replies.
Context {T : Type} `{SearchTreeOps T Z} (dm : data_model).
Implicit Types (s : sb T) (x : tpclient T) (qs : gmap qaddr (list qaddr)).

(** A transaction of the client [c] that is finished: its reply can be sent. *)
Definition finished s qs (c t : Z) (tx : tptransaction) (len : Z) : Prop :=
  trans s !! t = Some tx /\ t_svc tx <> 0 /\ t_client tx = c /\ executor tx = 0 /\
  trans_links_ok t qs /\ tpbuf dm (tp_heap (mem s)) (t_data tx) len /\ len < 2 ^ 31.

Lemma wp_snd_reply s qs c t x tx len Q :
  t <> 0 -> c <> 0 -> clients s !! c = Some x -> idle x -> sane s qs -> finished s qs c t tx len ->
  (forall s', reply_sent dm s s' t x tx qs
    (reply_bytes (rval tx) (cd tx) (rcode tx) (tpdata (tp_heap (mem s)) (t_data tx) len)) -> Q tt s') ->
  wp (snd_reply dm t) s Q.
Proof.
  intros Ht Hc Hx Hi [Hq Hwf Hm] (Htx & Hs & <- & He & Hl & Hb & Hlen) HQ.
  eapply wp_mono; [eapply snd_reply_run; try done; by apply memory_left_oom|].
  intros [] s'. apply HQ.
Qed.

(** What [svrgetrply] has for a client: a reply, or a transaction to wait for. *)
Definition ready s (flags d : Z) (replies : list Z) : option Z :=
  if has_flag flags TPGETANY then head replies else first_cd s d replies.
Definition pending s (flags d : Z) (requests : list Z) : option Z :=
  if has_flag flags TPGETANY then Some GLOBAL_ANY else first_cd s d requests.

Definition errno_bytes (e : Z) : list byte := [z2b TPERRNO] ++ le_encode 2 e.

Lemma wp_senderrno s c x e qs Q :
  c <> 0 -> clients s !! c = Some x -> idle x -> sane s qs ->
  (forall s', told dm s s' c x (errno_bytes e) -> Q tt s') -> wp (senderrno dm c e) s Q.
Proof.
  intros Hc Hx Hi Hs HQ. unfold senderrno.
  assert (emits (T := T) (svrwriteb c TPERRNO ;; svrwrites c e) c (errno_bytes e)) as He
    by (apply emits_then; [apply emits_svrwriteb | apply emits_svrwrites]).
  pose proof (wp_tell dm _ s c x qs _ Q He Hc Hx Hi Hs HQ) as Hw.
  rewrite !wp_bind in Hw. wp_step. eapply wp_mono; [exact Hw|]. intros [] s' Hs'. by wp_step.
Qed.

Lemma first_cd_elem s d ts t : first_cd s d ts = Some t -> t ∈ ts.
Proof.
  unfold first_cd. destruct (filter _ ts) as [|u l] eqn:E; [done|]. intros [= ->].
  assert (t ∈ filter (fun t => cd <$> trans s !! t = Some d) ts) as Hin by (rewrite E; by left).
  by apply list_elem_of_filter in Hin as [_ ?].
Qed.

Lemma ready_elem s flags d ts t : ready s flags d ts = Some t -> t ∈ ts.
Proof.
  unfold ready. destruct (has_flag _ _); [|apply first_cd_elem].
  destruct ts; [done|]. intros [= ->]. by left.
Qed.

(** ** Returning *)

(** The message of [tpreturn] without its type and data. *)
Definition return_message (rv rc len : Z) : list byte := [z2b rv] ++ le_encode 4 rc ++ le_encode 4 len.

(** What [svrreturn] does before it waits for the data. *)
Record result_stored s s' (t : Z) (tx : tptransaction) qs (rv rc len : Z) (d buf : ptr) : Prop := {
  st_trans : trans s' = <[t := set_data d (set_result (swrap 8 rv) (swrap 32 rc) tx)]> (trans s);
  st_data : tpbuf dm (tp_heap (mem s')) d len;
  st_old : blocks (tp_heap (mem s')) !! pblk (t_data tx) = None /\ blocks (tp_heap (mem s')) !! pblk buf = None;
  st_sane : sane s' qs;
  st_rest : clients s' = clients s /\ qm s' = qm s /\ svcs s' = svcs s /\ advs s' = advs s /\ out s' = out s;
  st_buffers : pblk d = brk (tp_heap (mem s)) /\ forall p l, pblk p <> pblk (t_data tx) -> pblk p <> pblk buf ->
    tpbuf dm (tp_heap (mem s)) p l -> tpbuf dm (tp_heap (mem s')) p l;
  st_only : s' = set_trans (trans s') (set_mem (mem s') s);
}.

Lemma long_max_31 len : 0 <= len < 2 ^ 31 -> 0 <= len <= LONG_MAX dm.
Proof. unfold LONG_MAX. destruct dm; simpl; lia. Qed.

Lemma slong_ulong_swrap v : slong dm (ulong dm (swrap 32 v)) = swrap 32 v.
Proof.
  rewrite <- (swrap_id 32 (swrap 32 v)) at 1; [|lia | by apply (swrap_range 32)].
  by apply slong_ulong32, (swrap_range 32).
Qed.

Lemma wp_svrreturn call s c x t tx blen buf rv rc len qs Q :
  c <> 0 -> clients s !! c = Some x -> wait4 x = t -> t <> 0 -> trans s !! t = Some tx -> sane s qs ->
  message dm s buf (return_message rv rc len) -> 0 <= len < 2 ^ 31 ->
  tpbuf dm (tp_heap (mem s)) (t_data tx) blen -> pblk (t_data tx) <> pblk buf ->
  (forall d s1, result_stored s s1 t tx qs rv rc len d buf -> wp (svriowait dm call c d H_part2) s1 Q) ->
  wp (svrreturn dm call c buf) s Q.
Proof.
  intros Hc Hx <- Ht Htx Hs Hm Hl Hb Hne HQ. unfold svrreturn.
  wp_step. apply wp_assert; [by rewrite (proj2 (Z.eqb_neq c 0)), (message_not_null dm s buf _ Hm)|].
  wp_step. eapply wp_get_client; [done | exact Hx |]. wp_step. eapply wp_get_trans; [done | exact Htx |].
  wp_step. eapply wp_message_byte; [exact Hm | reflexivity |].
  wp_step. eapply (wp_buf_long dm _ _ _ _ rc); [exact Hm | exact (bytes_at_app [z2b rv] _ _)|].
  rewrite slong_ulong_swrap, b2c_z2b. set (t := wait4 x) in *.
  wp_step. eapply wp_put_trans; [done | exact Htx |]. set (s1 := set_trans _ s).
  wp_step. eapply (wp_buf_long dm s1 _ _ _ len); [exact Hm | |].
  { pose proof (bytes_at_app ([z2b rv] ++ le_encode 4 rc) (le_encode 4 len) []) as E.
    by rewrite app_nil_r, <- app_assoc in E. }
  rewrite slong_ulong32 by lia. destruct Hs as [Hq Hwf Hmem].
  destruct (tprealloc_ok dm (t_data tx) len (mem s) blen Hwf Hb (memory_left_oom s Hmem) (long_max_31 len Hl))
    as (b & Hblk & _ & E).
  wp_step. eapply wp_in_mem; [exact E|].
  assert (is_Some (blocks (tp_heap (mem s)) !! pblk (t_data tx))) as Hsome
    by (destruct Hb as (_ & _ & b' & ? & _); eauto).
  destruct (heap_realloc_buf dm (mem s) (pblk (t_data tx)) b len Hwf Hsome Hblk) as (Hbuf & Hgone & Hsame & Hwf').
  wp_step. eapply wp_put_trans; [done | apply lookup_insert_eq |].
  set (d := Ptr _ _) in *. set (s2 := set_trans _ _).
  assert (message dm s2 buf (return_message rv rc len)) as Hm2.
  { destruct Hm as [Hmb Hmd]. destruct (tpbuf_frame dm _ _ _ buf _ Hsame ltac:(congruence) Hmb) as [K1 K2].
    split; [exact K1 | by rewrite <- Hmd at 2]. }
  wp_step. eapply wp_free_message; [exact Hm2|]. apply HQ.
  assert (pblk d <> pblk buf) as Hd.
  { destruct Hm as [(_ & _ & b' & Hb' & _) _]. destruct Hwf as [_ Hbelow].
    assert (0 < pblk buf < brk (tp_heap (mem s))) by eauto. simpl. lia. }
  constructor.
  - cbn. by rewrite insert_insert_eq.
  - by apply (freed_kept dm s2 buf d len).
  - split; [|apply lookup_delete_eq]. cbn. rewrite lookup_delete_ne by congruence. exact Hgone.
  - apply freed_sane. split; [exact Hq | exact Hwf' |]. unfold memory_left in *. simpl. by rewrite Hmem.
  - done.
  - split; [done|]. intros p l N1 N2 Hp. apply (freed_kept dm s2 buf p l N2). eapply tpbuf_frame; [exact Hsame | | exact Hp].
    done.
  - done.
Qed.

(** A client that waits for the transaction, or for any. *)
Definition awaits x (t : Z) : bool := (wait4 x =? GLOBAL_ANY) || (wait4 x =? t).

(** A node of a list heads no list. *)
Lemma member_no_header m qs h l n : qrep m qs -> qs !! h = Some l -> n ∈ l -> qs !! n = None.
Proof.
  intros Hq Hh Hn. destruct (qs !! n) as [ln|] eqn:E; [|done]. exfalso.
  destruct (qr_queue _ _ Hq _ _ Hh) as [_ [Hnd _]%NoDup_cons]. apply Hnd.
  assert (h = n) as -> by (eapply (qr_disjoint _ _ Hq h l n ln n); [done | done | by right | by left]). done.
Qed.

(** Moving a node to the end of another list. *)
Lemma qrep_move m qs h l1 n l2 h' l' :
  qrep m qs -> qs !! h = Some (l1 ++ n :: l2) -> qs !! h' = Some l' -> h <> h' ->
  exists m1 m2, qdelete n m = Done (n, m1) /\ qappend_tail h' n m1 = Done (n, m2) /\
    qrep m2 (<[h' := l' ++ [n]]> (<[h := l1 ++ l2]> qs)).
Proof.
  intros Hq Hh Hh' Hne. pose proof (member_no_header m qs h _ n Hq Hh ltac:(set_solver)) as Hn.
  assert (h' <> n) as Hne' by congruence. assert (h <> n) as Hne2 by congruence.
  destruct (qrep_qdelete m qs h l1 n l2 Hq Hh) as (m1 & E1 & Q1).
  destruct (qrep_qappend_tail m1 _ h' l' n Q1) as (m2 & E2 & Q2);
    [by rewrite !lookup_insert_ne | apply lookup_insert_eq | done |].
  exists m1, m2. split_and!; [done | done |]. rewrite delete_insert_id in Q2; [done|].
  by rewrite lookup_insert_ne.
Qed.

(** What [part2] does: the worker [c] is free for its next command, and the reply
    goes to the client if it is waited for and to the client's list of replies
    otherwise. *)
Record returned s s' (c t : Z) x cl (tx : tptransaction) qs (l1 l2 rl : list qaddr) (bs : list byte)
  : Prop := {
  rt_worker : exists p, clients s' !! c = Some (set_io 0 p (Some H_command) (set_wait4 0 x)) /\
    tpbuf dm (tp_heap (mem s')) p 1;
  rt_sent : awaits cl t = true ->
    stream (fd cl) s' = stream (fd cl) s ++ bs /\
    (forall f, f <> fd cl -> stream f s' = stream f s) /\
    (exists p, clients s' !! t_client tx = Some (set_io 0 p (Some H_command) (set_wait4 0 cl)) /\
      tpbuf dm (tp_heap (mem s')) p 1) /\
    trans s' = delete t (trans s) /\ qrep (qm s') (qdrop_trans t qs);
  rt_queued : awaits cl t = false ->
    out s' = out s /\ clients s' !! t_client tx = Some cl /\
    trans s' = <[t := set_executor 0 tx]> (trans s) /\
    qrep (qm s') (<[Q_replies (t_client tx) := rl ++ [Q_t_clientq t]]>
      (<[Q_requests (t_client tx) := l1 ++ l2]> qs)) /\
    (forall l, tpbuf dm (tp_heap (mem s)) (t_data tx) l ->
      tpbuf dm (tp_heap (mem s')) (t_data tx) l /\
      tpdata (tp_heap (mem s')) (t_data tx) l = tpdata (tp_heap (mem s)) (t_data tx) l);
  rt_clients c' : c' <> c -> c' <> t_client tx -> clients s' !! c' = clients s !! c';
  rt_rest : svcs s' = svcs s /\ advs s' = advs s /\ services s' = services s /\ closed s' = closed s;
}.

Lemma part2_run s c x t tx cl qs l1 l2 rl len buf :
  c <> 0 -> clients s !! c = Some x -> idle x -> wait4 x = t -> sane s qs ->
  t <> 0 -> trans s !! t = Some tx -> t_svc tx <> 0 -> t_client tx <> 0 -> t_client tx <> c ->
  clients s !! t_client tx = Some cl -> (awaits cl t = true -> idle cl) ->
  qs !! Q_requests (t_client tx) = Some (l1 ++ Q_t_clientq t :: l2) ->
  qs !! Q_replies (t_client tx) = Some rl -> trans_links_ok t qs ->
  tpbuf dm (tp_heap (mem s)) (t_data tx) len -> len < 2 ^ 31 ->
  wp (part2 dm c buf) s (fun _ s' => returned s s' c t x cl tx qs l1 l2 rl
    (reply_bytes (rval tx) (cd tx) (rcode tx) (tpdata (tp_heap (mem s)) (t_data tx) len))).
Proof.
  intros Hc Hx Hi <- Hs Ht Htx Hsv Hcl0 Hne Hcl Hicl Hreq Hrep Hlinks Hb Hlen. unfold part2.
  wp_step. eapply wp_next_command; [done | exact Hx | done | exact Hs |]. intros s1 T1 Eo.
  destruct (td_clients _ _ _ _ _ _ T1) as (p & Ecl1 & Hp & Hpb).
  destruct (td_rest _ _ _ _ _ _ T1) as (Eq1 & Et1 & Es1 & Ea1 & Esv1 & Ec1 & _).
  destruct (td_buffers _ _ _ _ _ _ T1 _ _ Hb) as [Hb1 Ed1]. pose proof (td_sane _ _ _ _ _ _ T1 qs Hs) as Hs1.
  wp_step. eapply wp_get_client; [done | rewrite Ecl1; apply lookup_insert_eq |].
  cbn [wait4 set_io]. set (t := wait4 x) in *.
  wp_step. eapply wp_put_client; [done | rewrite Ecl1; apply lookup_insert_eq |].
  wp_step. eapply wp_put_trans; [done | cbn; rewrite Et1; exact Htx |].
  set (s2 := set_trans _ _). set (tx2 := set_executor 0 tx).
  assert (trans s2 !! t = Some tx2) as Htx2 by apply lookup_insert_eq.
  assert (clients s2 = <[c := set_io 0 p (Some H_command) (set_wait4 0 x)]> (clients s)) as Ecl2
    by (cbn; by rewrite Ecl1, insert_insert_eq).
  assert (clients s2 !! t_client tx2 = Some cl) as Hcl2
    by (rewrite Ecl2; cbn [t_client tx2 set_executor]; by rewrite lookup_insert_ne by auto).
  assert (sane s2 qs) as Hs2 by (by destruct Hs1).
  unfold reply_or_queue. wp_step. eapply wp_get_trans; [done | exact Htx2 |].
  wp_step. eapply wp_get_client; [done | exact Hcl2 |]. fold (awaits cl t).
  destruct (awaits cl t) eqn:Ew.
  - eapply (wp_snd_reply s2 qs (t_client tx) t cl tx2 len); [done | done | done | by apply Hicl | done | by split_and! |].
    intros s' [R1 R2 R3 R4 R5 R8 R6 R7]. destruct R3 as (p' & Ecl' & Hp').
    constructor.
    + exists p. rewrite Ecl', lookup_insert_ne, Ecl2, lookup_insert_eq by done. split; [done|].
      apply R8; [|exact Hp]. cbn [t_data tx2 set_executor]. rewrite Hpb.
      destruct Hb as (_ & _ & b' & Hb' & _). destruct (sn_heap _ _ Hs) as [_ Hbelow].
      assert (0 < pblk (t_data tx) < brk (tp_heap (mem s))) by eauto. lia.
    + intros _. cbn [rval cd rcode t_data tx2 set_executor] in R1.
      split_and!.
      * rewrite R1. f_equal; [unfold stream; cbn; by rewrite Eo|]. by f_equal.
      * intros f Hf. rewrite R2 by done. unfold stream. cbn. by rewrite Eo.
      * exists p'. rewrite Ecl'. split; [apply lookup_insert_eq | done].
      * rewrite R4. cbn. rewrite Et1. by rewrite delete_insert_eq.
      * exact R6.
    + congruence.
    + intros c' Hc' Hc''. rewrite Ecl', lookup_insert_ne, Ecl2, lookup_insert_ne by auto. done.
    + destruct R7 as (-> & -> & -> & ->). by rewrite <- Es1, <- Ea1, <- Esv1, <- Ec1.
  - destruct (qrep_move _ qs (Q_requests (t_client tx)) l1 (Q_t_clientq t) l2 (Q_replies (t_client tx)) rl
      (sn_queues _ _ Hs2) Hreq Hrep) as (m1 & m2 & E1 & E2 & Q2); [done|].
    wp_step. eapply wp_in_q; [exact E1|]. wp_step. eapply wp_in_q; [exact E2|]. wp_step.
    constructor.
    + exists p. cbn. rewrite Ecl1, insert_insert_eq, lookup_insert_eq. done.
    + congruence.
    + intros _. split_and!; [done | exact Hcl2 | | exact Q2 | intros l; apply T1]. cbn. by rewrite Et1.
    + intros c' Hc' Hc''. cbn. by rewrite Ecl1, insert_insert_eq, lookup_insert_ne by auto.
    + done.
Qed.

Lemma svrreturn_run n s c x t tx cl qs l1 l2 rl blen buf rv rc len :
  c <> 0 -> clients s !! c = Some x -> idle x -> wait4 x = t -> sane s qs ->
  t <> 0 -> trans s !! t = Some tx -> t_svc tx <> 0 -> t_client tx <> 0 -> t_client tx <> c ->
  clients s !! t_client tx = Some cl -> (awaits cl t = true -> idle cl) ->
  qs !! Q_requests (t_client tx) = Some (l1 ++ Q_t_clientq t :: l2) ->
  qs !! Q_replies (t_client tx) = Some rl -> trans_links_ok t qs ->
  tpbuf dm (tp_heap (mem s)) (t_data tx) blen -> pblk (t_data tx) <> pblk buf ->
  message dm s buf (return_message rv rc len) -> 0 <= len < 2 ^ 31 ->
  wp (svrreturn dm (handle dm (S n)) c buf) s (fun _ s' =>
    exists d s1, result_stored s s1 t tx qs rv rc len d buf /\
      if 0 <? len then s' = set_clients (<[c := set_io 0 d (Some H_part2) x]> (clients s1)) s1
      else returned s1 s' c t x cl (set_data d (set_result (swrap 8 rv) (swrap 32 rc) tx)) qs l1 l2 rl
        (reply_bytes (swrap 8 rv) (cd tx) (swrap 32 rc) [])).
Proof.
  intros Hc Hx Hi Hw Hs Ht Htx Hsv Hcl0 Hne Hcl Hicl Hreq Hrep Hlinks Hb Hbb Hm Hl.
  eapply (wp_svrreturn _ s c x t tx blen buf rv rc len qs); try done.
  intros d s1 St. destruct (st_rest _ _ _ _ _ _ _ _ _ _ St) as (E1 & E2 & E3 & E4 & E5).
  pose proof (st_data _ _ _ _ _ _ _ _ _ _ St) as Hd.
  destruct (Z.ltb_spec 0 len) as [Hpos|Hzero].
  - eapply (wp_svriowait dm _ c x d len); [done | by rewrite E1 | done | done | done |].
    exists d, s1. split; [exact St | done].
  - assert (len = 0) as -> by lia.
    eapply (wp_svriowait_empty dm _ c x); [done | by rewrite E1 | done | done |].
    rewrite handle_S. set (tx1 := set_data d (set_result (swrap 8 rv) (swrap 32 rc) tx)).
    assert (trans s1 !! t = Some tx1) as Htx1
      by (rewrite (st_trans _ _ _ _ _ _ _ _ _ _ St); apply lookup_insert_eq).
    pose proof (part2_run s1 c x t tx1 cl qs l1 l2 rl 0 d) as Hp. rewrite E1 in Hp.
    assert (tpdata (tp_heap (mem s1)) d 0 = []) as Ed.
    { pose proof (length_tpdata dm _ _ _ Hd). by destruct (tpdata _ d 0). }
    cbn [t_data tx1 set_data] in Hp. rewrite Ed in Hp.
    eapply wp_mono; [apply Hp; try done; exact (st_sane _ _ _ _ _ _ _ _ _ _ St)|].
    intros [] s' Hs'. exists d, s1. split; [exact St | exact Hs'].
Qed.

(** [svrgetrply] up to what it does for the client: a reply, an error, or waiting. *)
Lemma wp_svrgetrply s c x buf d flags qs replies requests Q :
  c <> 0 -> clients s !! c = Some x -> sane s qs ->
  message dm s buf (le_encode 2 d ++ le_encode 4 flags) -> - 2 ^ 31 <= flags < 2 ^ 31 ->
  on_list s qs (Q_replies c) replies -> on_list s qs (Q_requests c) requests ->
  match ready s flags (swrap 16 d) replies with
  | Some t => wp (snd_reply dm t) (freed buf s) Q
  | None =>
      match pending s flags (swrap 16 d) requests with
      | None => wp (senderrno dm c TPEBADDESC) (freed buf s) Q
      | Some t => if has_flag flags TPNOBLOCK then wp (senderrno dm c TPEBLOCK) (freed buf s) Q
          else wp (put_client c (set_wait4 t)) (freed buf s) Q
      end
  end -> wp (svrgetrply dm c buf) s Q.
Proof.
  intros Hc Hx Hs Hm Hf [Hrl Hr] [Hpl Hp] HQ. unfold svrgetrply.
  wp_step. apply wp_assert; [by rewrite (proj2 (Z.eqb_neq c 0)), (message_not_null dm s buf _ Hm)|].
  wp_step. eapply (wp_buf_short dm _ _ _ _ d); [done | exact (bytes_at_app [] _ _)|].
  wp_step. eapply (wp_buf_long dm _ _ _ _ flags); [done | |].
  { pose proof (bytes_at_app (le_encode 2 d) (le_encode 4 flags) []) as E. by rewrite app_nil_r in E. }
  rewrite swrap_uwrap, slong_ulong32 by done.
  wp_step. eapply wp_free_message; [exact Hm|]. pose proof (freed_sane s buf qs Hs) as Hs'.
  change (negb (Z.land (Z.lnot flags) TPGETANY =? 0)) with (has_flag (Z.lnot flags) (2 ^ 7)).
  rewrite has_flag_lnot by lia. change (2 ^ 7) with TPGETANY. fold (has_flag flags TPGETANY).
  wp_step. eapply wp_in_q_read; [by apply qelements_queue, (qr_queue _ _ (sn_queues _ _ Hs'))|].
  wp_step.
  assert (wp (if negb (has_flag flags TPGETANY) then scan_cd (Q_t_clientq <$> replies) (swrap 16 d)
     else match Q_t_clientq <$> replies with [] => mret None | q :: _ => t ← offset_t_clientq q; mret (Some t) end)
     (freed buf s) (fun r s1 => r = ready s flags (swrap 16 d) replies /\ s1 = freed buf s)) as Hready.
  { unfold ready. destruct (has_flag flags TPGETANY); cbn [negb].
    - destruct replies; [done|]. by cbn.
    - apply wp_scan_cd; done. }
  eapply wp_mono; [exact Hready|]. intros r s1 [-> ->].
  destruct (ready s flags (swrap 16 d) replies) as [t|] eqn:Er; [exact HQ|]. wp_step.
  assert (wp (if has_flag flags TPGETANY then mret (Some GLOBAL_ANY)
     else r ← in_q (qelements (Q_requests c)); scan_cd r (swrap 16 d))
     (freed buf s) (fun r s1 => r = pending s flags (swrap 16 d) requests /\ s1 = freed buf s)) as Hpend.
  { unfold pending. destruct (has_flag flags TPGETANY); [done|].
    wp_step. eapply wp_in_q_read; [by apply qelements_queue, (qr_queue _ _ (sn_queues _ _ Hs'))|].
    apply wp_scan_cd; done. }
  eapply wp_mono; [exact Hpend|]. intros r s1 [-> ->].
  destruct (pending s flags (swrap 16 d) requests) as [t|]; [|exact HQ].
  fold (has_flag flags TPNOBLOCK). destruct (has_flag flags TPNOBLOCK); exact HQ.
Qed.

(** ** Properties *)

(** C16. [svrgetrply] on every branch.  A finished transaction is answered at once:
    with [TPGETANY] the client's oldest reply, otherwise the first one with the
    descriptor asked for.  If there is none, [TPEBADDESC] is sent unless the
    descriptor is that of an unfinished transaction of the client or any reply
    will do; then [TPEBLOCK] is sent under [TPNOBLOCK], and otherwise nothing is
    sent and the client is left waiting for that transaction, or for any.  In all
    cases the message is freed. *)
Theorem svrgetrply_answers s c x buf d flags qs replies requests :
  c <> 0 -> clients s !! c = Some x -> idle x -> sane s qs ->
  message dm s buf (le_encode 2 d ++ le_encode 4 flags) -> - 2 ^ 31 <= flags < 2 ^ 31 ->
  on_list s qs (Q_replies c) replies -> on_list s qs (Q_requests c) requests ->
  (forall t, t ∈ replies -> exists tx len, finished (freed buf s) qs c t tx len) ->
  wp (svrgetrply dm c buf) s (fun _ s' =>
    match ready s flags (swrap 16 d) replies with
    | Some t => exists tx len, finished (freed buf s) qs c t tx len /\
        reply_sent dm (freed buf s) s' t x tx qs
          (reply_bytes (rval tx) (cd tx) (rcode tx) (tpdata (tp_heap (mem (freed buf s))) (t_data tx) len))
    | None =>
        match pending s flags (swrap 16 d) requests with
        | None => told dm (freed buf s) s' c x (errno_bytes TPEBADDESC)
        | Some t =>
            if has_flag flags TPNOBLOCK then told dm (freed buf s) s' c x (errno_bytes TPEBLOCK)
            else s' = set_clients (<[c := set_wait4 t x]> (clients s)) (freed buf s)
        end
    end).
Proof.
  intros Hc Hx Hi Hs Hm Hf Hrl Hpl Hfin. pose proof (freed_sane s buf qs Hs) as Hs'.
  eapply wp_svrgetrply; try done. destruct (ready s flags (swrap 16 d) replies) as [t|] eqn:Er.
  - apply ready_elem in Er. destruct (Hfin t Er) as (tx & len & Hft). destruct (proj2 Hrl t Er) as [Ht _].
    eapply wp_snd_reply; [done | exact Hc | exact Hx | done | done | exact Hft |].
    intros s' Hsent. exists tx, len. split; [exact Hft | exact Hsent].
  - destruct (pending s flags (swrap 16 d) requests) as [t|]; [|by eapply wp_senderrno].
    destruct (has_flag flags TPNOBLOCK); [by eapply wp_senderrno | by eapply wp_put_client].
Qed.

(** [part2], which runs when the data of a result has arrived: the worker is
    free for its next command, the pairing of worker and transaction is undone, and
    the reply is sent at once if the caller waits for this transaction or for any,
    which ends the transaction; otherwise the transaction moves from the caller's
    requests to the end of its replies, and nothing is sent. *)
Lemma part2_delivers s c x t tx cl qs l1 l2 rl len buf :
  c <> 0 -> clients s !! c = Some x -> idle x -> wait4 x = t -> sane s qs ->
  t <> 0 -> trans s !! t = Some tx -> t_svc tx <> 0 -> t_client tx <> 0 -> t_client tx <> c ->
  clients s !! t_client tx = Some cl -> (awaits cl t = true -> idle cl) ->
  qs !! Q_requests (t_client tx) = Some (l1 ++ Q_t_clientq t :: l2) ->
  qs !! Q_replies (t_client tx) = Some rl -> trans_links_ok t qs ->
  tpbuf dm (tp_heap (mem s)) (t_data tx) len -> len < 2 ^ 31 ->
  wp (part2 dm c buf) s (fun _ s' => returned s s' c t x cl tx qs l1 l2 rl
    (reply_bytes (rval tx) (cd tx) (rcode tx) (tpdata (tp_heap (mem s)) (t_data tx) len))).
Proof. apply part2_run. Qed.

(** C17. [svrreturn]: the result and the code of the message are stored in the
    transaction that the worker executes, whose buffer is resized to the length
    announced, and the message is freed.  If there is data the worker is expected
    to send exactly that many bytes into the buffer, with [part2] as continuation;
    if there is none, [part2] runs at once and the result without data is
    delivered. *)
Theorem svrreturn_stores n s c x t tx cl qs l1 l2 rl blen buf rv rc len :
  c <> 0 -> clients s !! c = Some x -> idle x -> wait4 x = t -> sane s qs ->
  t <> 0 -> trans s !! t = Some tx -> t_svc tx <> 0 -> t_client tx <> 0 -> t_client tx <> c ->
  clients s !! t_client tx = Some cl -> (awaits cl t = true -> idle cl) ->
  qs !! Q_requests (t_client tx) = Some (l1 ++ Q_t_clientq t :: l2) ->
  qs !! Q_replies (t_client tx) = Some rl -> trans_links_ok t qs ->
  tpbuf dm (tp_heap (mem s)) (t_data tx) blen -> pblk (t_data tx) <> pblk buf ->
  message dm s buf (return_message rv rc len) -> 0 <= len < 2 ^ 31 ->
  wp (svrreturn dm (handle dm (S n)) c buf) s (fun _ s' =>
    exists d s1, result_stored s s1 t tx qs rv rc len d buf /\
      if 0 <? len then s' = set_clients (<[c := set_io 0 d (Some H_part2) x]> (clients s1)) s1
      else returned s1 s' c t x cl (set_data d (set_result (swrap 8 rv) (swrap 32 rc) tx)) qs l1 l2 rl
        (reply_bytes (swrap 8 rv) (cd tx) (swrap 32 rc) [])).
Proof. apply svrreturn_run. Qed.

End Replies.

(** ** Witnesses *)

(** The transaction 7 of client 6 with descriptor 77, finished or executed by 4. *)
Definition wit_tx (exec : Z) : tptransaction := mkTrans 6 2 (0, 0) exec 77 (Ptr 1 32) TPSUCCESS 9 0.
Definition wit_lists (requests replies : list qaddr) : list (qaddr * list qaddr) :=
  [(Q_tpclients, [Q_global 3; Q_global 6]); (Q_requests 3, []); (Q_replies 3, []); (Q_waitq 2, []);
   (Q_adv_waitq 4, []); (Q_requests 6, requests); (Q_replies 6, replies);
   (Q_tptransactions, [Q_t_global 7]); (Q_t_svc_waitq 7, [])].

Definition wit_ask : sb (bst Z) :=
  wit_run (wit_msg (le_encode 2 77 ++ le_encode 4 0)) 0 0 Leaf (mkService wit_name false 0 0) (wit_tx 0)
    (wit_lists [] [Q_t_clientq 7]).

Lemma wit_links l r :
  (l, r) = ([Q_t_clientq 7], []) \/ (l, r) = ([], [Q_t_clientq 7]) ->
  trans_links_ok 7 (list_to_map (wit_lists l r)).
Proof.
  intros [[= -> ->]|[= -> ->]]; (split; [right | split; [left; vm_compute; reflexivity | right]]).
  - exists (Q_requests 6), [Q_t_clientq 7]. split; [vm_compute; reflexivity | by left].
  - exists Q_tptransactions, [Q_t_global 7]. split; [vm_compute; reflexivity | by left].
  - exists (Q_replies 6), [Q_t_clientq 7]. split; [vm_compute; reflexivity | by left].
  - exists Q_tptransactions, [Q_t_global 7]. split; [vm_compute; reflexivity | by left].
Qed.

Lemma svrgetrply_answers_witness :
  wp (svrgetrply LP64 6 (Ptr 2 32)) wit_ask (fun _ s' => trans s' !! 7 = None /\
    stream 9 s' = reply_bytes TPSUCCESS 77 9 [x61; x62]).
Proof.
  eapply wp_mono.
  - apply (svrgetrply_answers LP64 wit_ask 6 (mkClient 9 0 NULL None Leaf 0) (Ptr 2 32) 77 0
      (list_to_map (wit_lists [] [Q_t_clientq 7])) [7] []).
    + discriminate.
    + reflexivity.
    + split; [reflexivity | split; reflexivity].
    + sane_check.
    + message_check.
    + lia.
    + split; [vm_compute; reflexivity|]. intros t ->%list_elem_of_singleton.
      split; [discriminate | eexists; reflexivity].
    + split; [vm_compute; reflexivity|]. intros t Ht. by apply not_elem_of_nil in Ht.
    + intros t ->%list_elem_of_singleton. exists (wit_tx 0), 2.
      split; [reflexivity|]. split; [discriminate|]. split; [reflexivity|]. split; [reflexivity|].
      split; [apply wit_links; by right|]. split; [buf_check | reflexivity].
  - intros [] s'. change (ready wit_ask 0 (swrap 16 77) [7]) with (Some 7). cbn iota.
    intros (tx & len & (Htx & _ & _ & _ & _ & Hb & _) & [R1 _ _ R4 _ _ _ _]).
    assert (tx = wit_tx 0) as -> by (vm_compute in Htx; by injection Htx as <-).
    split; [rewrite R4; apply lookup_delete_eq|].
    etransitivity; [exact R1|]. assert (len = 2) as ->; [|vm_compute; reflexivity].
    destruct Hb as (_ & _ & b & Hb & (_ & _ & (_ & _ & Hl & _) & _)).
    vm_compute in Hb. injection Hb as <-. vm_compute in Hl. symmetry. exact Hl.
Defined.

(** The worker 3 executes the transaction 7 and client 6 waits for it. *)
Definition wit_executing (bs : list byte) : sb (bst Z) :=
  wit_run (wit_msg bs) 7 7 Leaf (mkService wit_name false 0 0) (wit_tx 4) (wit_lists [Q_t_clientq 7] []).

Lemma wit_executing_sane bs : bs = [] \/ bs = return_message TPSUCCESS 9 0 ->
  sane (wit_executing bs) (list_to_map (wit_lists [Q_t_clientq 7] [])).
Proof. intros [-> | ->]; sane_check. Qed.

Lemma part2_delivers_witness :
  wp (part2 LP64 3 (Ptr 1 32)) (wit_executing []) (fun _ s' => trans s' !! 7 = None /\
    stream 9 s' = reply_bytes TPSUCCESS 77 9 [x61; x62]).
Proof.
  eapply wp_mono.
  - apply (part2_delivers LP64 (wit_executing []) 3 (mkClient 5 0 NULL None Leaf 7) 7 (wit_tx 4)
      (mkClient 9 0 NULL None Leaf 7) (list_to_map (wit_lists [Q_t_clientq 7] [])) [] [] [] 2 (Ptr 1 32));
      [discriminate | reflexivity | split; [reflexivity | split; reflexivity] | reflexivity
      | apply wit_executing_sane; by left | discriminate | reflexivity | discriminate | discriminate | discriminate
      | reflexivity | intros _; split; [reflexivity | split; reflexivity] | vm_compute; reflexivity
      | vm_compute; reflexivity | apply wit_links; by left | buf_check | reflexivity].
  - intros [] s' [_ Hsent _ _ _]. destruct (Hsent eq_refl) as (R1 & _ & _ & R4 & _).
    split; [rewrite R4; apply lookup_delete_eq|]. etransitivity; [exact R1|]. vm_compute. reflexivity.
Defined.

Lemma svrreturn_stores_witness :
  wp (svrreturn LP64 (handle LP64 1) 3 (Ptr 2 32)) (wit_executing (return_message TPSUCCESS 9 0))
    (fun _ s' => stream 9 s' = reply_bytes TPSUCCESS 77 9 []).
Proof.
  eapply wp_mono.
  - apply (svrreturn_stores LP64 0 (wit_executing (return_message TPSUCCESS 9 0)) 3 (mkClient 5 0 NULL None Leaf 7)
      7 (wit_tx 4) (mkClient 9 0 NULL None Leaf 7) (list_to_map (wit_lists [Q_t_clientq 7] [])) [] [] [] 2
      (Ptr 2 32) TPSUCCESS 9 0);
      [discriminate | reflexivity | split; [reflexivity | split; reflexivity] | reflexivity
      | apply wit_executing_sane; by right | discriminate | reflexivity | discriminate | discriminate | discriminate
      | reflexivity | intros _; split; [reflexivity | split; reflexivity] | vm_compute; reflexivity
      | vm_compute; reflexivity | apply wit_links; by left | buf_check | discriminate | message_check | lia].
  - intros [] s' (d & s1 & St & [_ Hsent _ _ _]). destruct (Hsent eq_refl) as (R1 & _).
    etransitivity; [exact R1|]. unfold stream.
    destruct (st_rest _ _ _ _ _ _ _ _ _ _ _ St) as (_ & _ & _ & _ & ->). vm_compute. reflexivity.
Defined.
