(* ===== verification/Transactions.v ===== *)
(** * Transactions and their descriptors

    [transaction.c]: the pool of random descriptors and [new_transaction].  The pool is
    read as the list of what it still has ([stock]), the word behind the array included,
    which the code reads too; what is given out is its first entry or, when there is none,
    the first number not in use of a later batch of random numbers ([given_out]).  It is
    never zero; it differs from those of all current transactions if it was just drawn,
    and otherwise as far as the pool had only such numbers ([pool_ok]). *)

From Stdlib Require Import ZArith Lia.
From S2P Require Import Prelude Constants ByteOrder CString SearchTree Queue Memory TpMemory.
From S2P Require Import SbState SbObjects SbHandlers SbLemmas Registry Xatmi Dispatch.

Local Open Scope Z_scope.

(** The numbers of a list that are not zero. *)
Definition nonzero (l : list Z) : list Z := filter (fun v => v <> 0) l.

Section Transactions.
Context {T : Type} `{SearchTreeOps T Z} (dm : data_model).
Implicit Types (s : sb T).

(** The descriptors of the current transactions [ts]. *)
Definition live_cds s (ts : list Z) : list Z := (fun t => default 0 (cd <$> trans s !! t)) <$> ts.

(** The list of all transactions is [ts]. *)
Definition transactions s (qs : gmap qaddr (list qaddr)) (ts : list Z) : Prop :=
  qrep (qm s) qs /\ qs !! Q_tptransactions = Some (Q_t_global <$> ts) /\
  forall t, t ∈ ts -> t <> 0 /\ is_Some (trans s !! t).

(** The words that the pointer runs over: the pool's and the one behind it. *)
Definition cells s : list Z := free_cd s ++ [cd_oob s].
Definition pool_shape s : Prop := length (free_cd s) = NUM_FREE_CD /\ (cdp s <= NUM_FREE_CD)%nat.

(** What the pool may still give out, in order. *)
Definition stock s : list Z := nonzero (drop (cdp s) (cells s)).

(** A pool that gives out what is new: its place in the array, and that its numbers differ
    from each other and from those in use. *)
Definition pool_ok s (live : list Z) : Prop :=
  length (free_cd s) = NUM_FREE_CD /\ (cdp s <= NUM_FREE_CD)%nat /\ cd_oob s = 0 /\
  NoDup (nonzero (drop (cdp s) (free_cd s))) /\
  forall v, v ∈ nonzero (drop (cdp s) (free_cd s)) -> v ∉ live.

(** The next batch of random numbers, as descriptors. *)
Definition batch s (k : nat) : list Z :=
  (fun i => swrap 16 (rand_batch s k i)) <$> seq 0 NUM_FREE_CD.

(** What a batch adds to the pool. *)
Definition usable s (k : nat) (live : list Z) : list Z := filter (fun v => v ∉ live) (nonzero (batch s k)).

(** The descriptor that is given out and what is left: the first of what the pool has; when
    it has nothing, the first of the first batch that adds something. *)
Definition given_out s (live : list Z) (v : Z) (rest : list Z) : Prop :=
  match stock s with
  | v0 :: l => v = v0 /\ rest = l
  | [] => exists j, (forall i, (i < j)%nat -> usable s (rand_k s + i) live = []) /\
      usable s (rand_k s + j) live = v :: rest
  end.

(** A batch whose numbers differ and of which one can be used. *)
Definition batch_ok s (k : nat) (live : list Z) : Prop :=
  NoDup (nonzero (batch s k)) /\ exists v, v ∈ nonzero (batch s k) /\ v ∉ live.

(** ** The loop *)

Lemma prune_all (cds l : list Z) :
  foldl (fun a c => prune c a) l cds = (fun v => if decide (v ∈ cds) then 0 else v) <$> l.
Proof.
  revert l; induction cds as [|c cds IH]; intros l; simpl.
  { rewrite <- (list_fmap_id l) at 1. apply list_fmap_ext. intros i v _.
    cbn beta. destruct (decide (v ∈ [])) as [Hin|]; [by apply not_elem_of_nil in Hin | done]. }
  rewrite IH. unfold prune. rewrite <- list_fmap_compose. apply list_fmap_ext. intros i v _. simpl.
  destruct (Z.eqb_spec v c) as [->|Hv].
  - destruct (decide (c ∈ c :: cds)) as [|Hn]; [by destruct (decide (0 ∈ cds))|].
    exfalso. apply Hn. by left.
  - destruct (decide (v ∈ cds)) as [Hin|Hin], (decide (v ∈ c :: cds)) as [Hin'|Hin']; try done;
      set_solver.
Qed.

(** The part of a pruned batch that can be used. *)
Lemma nonzero_pruned (cds l : list Z) :
  nonzero ((fun v => if decide (v ∈ cds) then 0 else v) <$> l) = filter (fun v => v ∉ cds) (nonzero l).
Proof.
  unfold nonzero. induction l as [|v l IH]; [done|]. rewrite fmap_cons.
  destruct (decide (v ∈ cds)) as [Hin|Hin]; [rewrite filter_cons_False by auto|];
    (destruct (decide (v = 0)) as [->|Hv];
     [rewrite ?(filter_cons_False _ 0) by auto; exact IH | rewrite (filter_cons_True _ v l) by done]).
  - rewrite filter_cons_False by auto. exact IH.
  - rewrite !filter_cons_True by done. by rewrite IH.
Qed.

Lemma trans_cds_run s ts :
  (forall t, t ∈ ts -> t <> 0 /\ is_Some (trans s !! t)) ->
  trans_cds (Q_t_global <$> ts) s = Done (live_cds s ts, s).
Proof.
  induction ts as [|t ts IH]; intros Hts; [done|].
  destruct (Hts t) as [Ht [x Hx]]; [by left|].
  apply wp_eq. simpl. wp_step. unfold offset_t_global. repeat wp_step.
  eapply wp_get_trans; [done | exact Hx |]. wp_step.
  eapply wp_of_eq; [apply IH; intros t' ?; apply Hts; by right|]. wp_step.
  split; [|done]. unfold live_cds. cbn. by rewrite Hx.
Qed.

Lemma refill_run s qs ts :
  transactions s qs ts ->
  refill s = Done (tt, set_cds
    ((fun v => if decide (v ∈ live_cds s ts) then 0 else v) <$> batch s (rand_k s)) 0
    (set_rand_k (S (rand_k s)) s)).
Proof.
  intros (Hq & Hl & Hts). apply wp_eq. unfold refill. repeat wp_step.
  eapply wp_in_q_read; [by apply qelements_queue, (qr_queue _ _ Hq)|]. wp_step.
  eapply wp_of_eq; [apply (trans_cds_run (set_rand_k _ s)); exact Hts|]. wp_step.
  split; [done|]. f_equal. apply prune_all.
Qed.

Lemma nonzero_cons v l : nonzero (v :: l) = if decide (v = 0) then nonzero l else v :: nonzero l.
Proof.
  unfold nonzero. destruct (decide (v = 0)) as [->|Hv]; [by rewrite filter_cons_False by auto | by rewrite filter_cons_True].
Qed.

Lemma pool_shape_cell s : pool_shape s -> exists v, cells s !! cdp s = Some v.
Proof. intros [Hl Hc]. apply lookup_lt_is_Some_2. unfold cells. rewrite length_app. cbn. lia. Qed.

Lemma read_cdp_run s v :
  length (free_cd s) = NUM_FREE_CD -> cells s !! cdp s = Some v -> read_cdp s = Done (v, s).
Proof.
  unfold cells. intros Hl Hv. unfold read_cdp, mbind, M_bind, gets. cbn [id].
  destruct (decide (cdp s = NUM_FREE_CD)) as [E|E].
  - rewrite bool_decide_true by done. rewrite E, <- Hl, list_lookup_middle in Hv by done. by injection Hv as <-.
  - rewrite bool_decide_false by done. apply lookup_app_Some in Hv as [Hv|[Hge Hv]]; [by rewrite Hv|].
    apply list_lookup_singleton_Some in Hv. lia.
Qed.

Lemma next_cd_S fuel s v :
  pool_shape s -> cells s !! cdp s = Some v ->
  next_cd (S fuel) s =
    if v =? 0 then
      ((if bool_decide (cdp s < NUM_FREE_CD)%nat
        then modify (set_cds (free_cd s) (S (cdp s))) else refill) ;; next_cd fuel) s
    else Done (tt, s).
Proof.
  intros [Hl _] Hv. cbn [next_cd]. unfold mbind at 1, M_bind at 1. rewrite (read_cdp_run s v Hl Hv).
  by destruct (_ =? 0).
Qed.

(** A step of the walk over a word that is zero. *)
Lemma stock_step s :
  pool_shape s -> cells s !! cdp s = Some 0 -> (cdp s < NUM_FREE_CD)%nat ->
  pool_shape (set_cds (free_cd s) (S (cdp s)) s) /\ stock (set_cds (free_cd s) (S (cdp s)) s) = stock s.
Proof.
  intros [Hl Hc] Hv Hlt. split; [by split|]. unfold stock at 2. rewrite (drop_S _ _ _ Hv), nonzero_cons.
  by rewrite decide_True.
Qed.

(** A pool with something in it. *)
Lemma next_cd_stock s v rest fuel :
  pool_shape s -> stock s = v :: rest -> (NUM_FREE_CD - cdp s < fuel)%nat ->
  exists k, next_cd fuel s = Done (tt, set_cds (free_cd s) k s) /\ (k <= NUM_FREE_CD)%nat /\
    cells s !! k = Some v /\ v <> 0 /\ nonzero (drop (S k) (cells s)) = rest.
Proof.
  remember (NUM_FREE_CD - cdp s)%nat as d eqn:Ed.
  revert s fuel Ed; induction d as [|d IH]; intros s fuel Ed Hp Hs Hf; (destruct fuel as [|fuel]; [lia|]);
    destruct (pool_shape_cell s Hp) as [w Hw]; rewrite (next_cd_S fuel s w Hp Hw);
    pose proof Hs as Hs'; unfold stock in Hs'; rewrite (drop_S _ _ _ Hw), nonzero_cons in Hs'; pose proof Hp as [Hl Hc].
  - destruct (decide (w = 0)) as [->|Hw0].
    { exfalso. rewrite drop_ge in Hs'; [done|]. unfold cells. rewrite length_app. cbn. lia. }
    injection Hs' as -> Hr. rewrite (proj2 (Z.eqb_neq v 0)) by done. exists (cdp s).
    split_and!; [|done..]. f_equal. f_equal. by destruct s.
  - destruct (decide (w = 0)) as [->|Hw0].
    + rewrite Z.eqb_refl, bool_decide_true by lia. unfold mbind, M_bind, modify.
      destruct (stock_step s Hp Hw) as [Hp1 Hs1]; [lia|]. set (s1 := set_cds (free_cd s) (S (cdp s)) s) in *.
      destruct (IH s1 fuel) as (k & E & Hk); [unfold s1; cbn [cdp set_cds]; lia | done | congruence | lia |].
      rewrite E. exists k. by split.
    + injection Hs' as -> Hr. rewrite (proj2 (Z.eqb_neq v 0)) by done. exists (cdp s).
      split_and!; [|done..]. f_equal. f_equal. by destruct s.
Qed.

(** An empty pool is walked to its end and refilled. *)
Lemma next_cd_empty s fuel :
  pool_shape s -> stock s = [] ->
  next_cd (S (NUM_FREE_CD - cdp s) + fuel) s =
    (refill ;; next_cd fuel) (set_cds (free_cd s) NUM_FREE_CD s).
Proof.
  remember (NUM_FREE_CD - cdp s)%nat as d eqn:Ed.
  revert s Ed; induction d as [|d IH]; intros s Ed Hp He; cbn [Nat.add];
    destruct (pool_shape_cell s Hp) as [w Hw]; rewrite (next_cd_S _ s w Hp Hw); pose proof Hp as [Hl Hc];
    pose proof He as He'; unfold stock in He'; rewrite (drop_S _ _ _ Hw), nonzero_cons in He';
    (destruct (decide (w = 0)) as [->|]; [|done]); rewrite Z.eqb_refl.
  - assert (cdp s = NUM_FREE_CD) as Ec by lia. rewrite bool_decide_false by lia.
    replace (set_cds (free_cd s) NUM_FREE_CD s) with s by (rewrite <- Ec; by destruct s). done.
  - rewrite bool_decide_true by lia. unfold mbind at 1, M_bind at 1, modify.
    destruct (stock_step s Hp Hw) as [Hp1 Hs1]; [lia|]. set (s1 := set_cds (free_cd s) (S (cdp s)) s) in *.
    change (set_cds (free_cd s) NUM_FREE_CD s) with (set_cds (free_cd s1) NUM_FREE_CD s1).
    rewrite <- (IH s1); [done | unfold s1; cbn [cdp set_cds]; lia | done | congruence].
Qed.

(** Enough iterations for a walk over the rest of the pool, a refill and a walk
    over the whole. *)
Definition CD_FUEL : nat := 2 * NUM_FREE_CD + 3.

Lemma length_batch s k : length (batch s k) = NUM_FREE_CD.
Proof. unfold batch. by rewrite length_fmap, length_seq. Qed.

(** The word behind an empty pool is zero. *)
Lemma stock_empty_oob s : pool_shape s -> stock s = [] -> cd_oob s = 0.
Proof.
  intros [Hl Hc] He. destruct (decide (cd_oob s = 0)) as [|Hn]; [done|]. exfalso.
  assert (cd_oob s ∈ stock s) as Hin; [|rewrite He in Hin; by apply not_elem_of_nil in Hin].
  apply list_elem_of_filter. split; [done|]. unfold cells. rewrite drop_app_le by lia. set_solver.
Qed.

(** The pool after a refill. *)
Definition refilled s (live : list Z) : sb T :=
  set_cds ((fun v => if decide (v ∈ live) then 0 else v) <$> batch s (rand_k s)) 0 (set_rand_k (S (rand_k s)) s).

Lemma stock_refilled s live :
  cd_oob s = 0 -> pool_shape (refilled s live) /\ stock (refilled s live) = usable s (rand_k s) live.
Proof.
  intros Ho. split.
  - split; [|cbn; lia]. cbn [refilled free_cd set_cds]. by rewrite length_fmap, length_batch.
  - unfold stock, usable. rewrite <- nonzero_pruned. unfold cells. cbn [refilled cdp free_cd cd_oob set_cds set_rand_k]. rewrite drop_0.
    rewrite Ho. unfold nonzero. rewrite filter_app, (filter_cons_False _ 0), filter_nil by auto. by rewrite app_nil_r.
Qed.

(** The loop ends at a word, and only the pool and the number of batches have changed. *)
Definition finds s (fuel : nat) (live : list Z) : Prop :=
  exists f k r v, next_cd fuel s = Done (tt, set_cds f k (set_rand_k r s)) /\
    length f = NUM_FREE_CD /\ (k <= NUM_FREE_CD)%nat /\ (f ++ [cd_oob s]) !! k = Some v /\ v <> 0 /\
    given_out s live v (nonzero (drop (S k) (f ++ [cd_oob s]))).

Lemma finds_stock s fuel live :
  pool_shape s -> stock s <> [] -> (NUM_FREE_CD - cdp s < fuel)%nat -> finds s fuel live.
Proof.
  intros Hp Hs Hf. destruct (stock s) as [|v l] eqn:E; [done|].
  destruct (next_cd_stock s v l fuel Hp E Hf) as (k & En & Hk & Hv & Hv0 & Hr).
  exists (free_cd s), k, (rand_k s), v. replace (set_rand_k (rand_k s) s) with s by (by destruct s).
  unfold given_out. rewrite E. pose proof (proj1 Hp). by split_and!.
Qed.

Lemma finds_refill s qs ts fuel :
  let live := live_cds s ts in
  transactions s qs ts -> pool_shape s -> stock s = [] ->
  finds (refilled s live) fuel live -> finds s (S (NUM_FREE_CD - cdp s) + fuel) live.
Proof.
  intros live Htr Hp He (f & k & r & v & E & Hl & Hk & Hv & Hv0 & Hg). exists f, k, r, v.
  split_and!; [|done..|].
  - rewrite next_cd_empty by done. unfold mbind, M_bind.
    rewrite (refill_run (set_cds (free_cd s) NUM_FREE_CD s) qs ts Htr). exact E.
  - unfold given_out in *. rewrite He. destruct (stock_refilled s live) as [_ Es]; [by apply stock_empty_oob|].
    rewrite Es in Hg. cbn [refilled cd_oob set_cds set_rand_k rand_k] in Hg.
    destruct (usable s (rand_k s) live) as [|v0 l] eqn:Eu.
    + destruct Hg as (j & Hj & Ej). exists (S j). rewrite <- Nat.add_succ_comm. split; [|exact Ej].
      intros [|i] Hi; [by rewrite Nat.add_0_r | rewrite <- Nat.add_succ_comm; apply Hj; lia].
    + destruct Hg as [-> <-]. exists 0%nat. rewrite Nat.add_0_r. split; [intros i ?; lia | exact Eu].
Qed.

(** The loop, on any pool and any random numbers of which one can be used in the end. *)
Lemma next_cd_finds n : forall s qs ts fuel,
  transactions s qs ts -> pool_shape s ->
  stock s <> [] \/ usable s (rand_k s + n) (live_cds s ts) <> [] -> (S n * CD_FUEL <= fuel)%nat ->
  finds s fuel (live_cds s ts).
Proof.
  assert (CD_FUEL = 2 * NUM_FREE_CD + 3)%nat as Efuel by done.
  induction n as [|n IH]; intros s qs ts fuel Htr Hp Hsome Hf;
    (destruct (decide (stock s = [])) as [He|Hne]; [|apply finds_stock; [done | done | lia]]);
    (destruct Hsome as [?|Hu]; [done|]);
    destruct (stock_refilled s (live_cds s ts)) as [Hp2 Es]; [by apply stock_empty_oob | | by apply stock_empty_oob |];
    replace fuel with (S (NUM_FREE_CD - cdp s) + (fuel - S (NUM_FREE_CD - cdp s)))%nat by lia;
    apply (finds_refill s qs ts); try done.
  - apply finds_stock; [done | by rewrite Es, <- (Nat.add_0_r (rand_k s)) | cbn [refilled cdp set_cds]; lia].
  - apply (IH (refilled s (live_cds s ts)) qs ts); [done | done | right | lia].
    cbn [refilled rand_k set_cds set_rand_k]. by rewrite Nat.add_succ_comm.
Qed.

(** The pool after a number was taken from it. *)
Definition taken s : sb T :=
  set_cds (<[cdp s := 0]> (free_cd s)) (S (cdp s))
    (set_cd_oob (if bool_decide (cdp s = NUM_FREE_CD) then 0 else cd_oob s) s).

Lemma take_cd_run s v :
  length (free_cd s) = NUM_FREE_CD -> cells s !! cdp s = Some v ->
  take_cd s = Done (v, taken s) /\ length (free_cd (taken s)) = NUM_FREE_CD /\
  stock (taken s) = nonzero (drop (S (cdp s)) (cells s)).
Proof.
  intros Hl Hv. pose proof (lookup_lt_Some _ _ _ Hv) as Hlt. unfold cells in Hlt. rewrite length_app in Hlt. cbn in Hlt. split_and!.
  - unfold take_cd, mbind at 1, M_bind at 1. rewrite (read_cdp_run s v Hl Hv). unfold taken.
    unfold mbind, M_bind, gets, id. destruct (bool_decide _); [done|].
    replace (set_cd_oob (cd_oob s) s) with s by (by destruct s). done.
  - cbn [taken free_cd set_cds]. by rewrite length_insert.
  - unfold stock, cells. cbn [taken cdp free_cd cd_oob set_cds set_cd_oob]. case_bool_decide as Hc.
    + rewrite !drop_ge; [done|..]; rewrite length_app, ?length_insert; cbn; lia.
    + rewrite <- insert_app_l by lia. by rewrite drop_insert_lt by lia.
Qed.

(** ** When the descriptors are unique *)

(** The batch that is used has no duplicates. *)
Definition batch_distinct s (live : list Z) : Prop :=
  forall j, (forall i, (i < j)%nat -> usable s (rand_k s + i) live = []) -> usable s (rand_k s + j) live <> [] ->
    NoDup (nonzero (batch s (rand_k s + j))).

Lemma batch_ok_distinct s live : batch_ok s (rand_k s) live -> usable s (rand_k s) live <> [] /\ batch_distinct s live.
Proof.
  intros [Hnd (v & Hv & Hl)]. assert (usable s (rand_k s) live <> []) as Hu.
  { intros E. assert (v ∈ usable s (rand_k s) live) as Hin by by apply list_elem_of_filter.
    rewrite E in Hin. by apply not_elem_of_nil in Hin. }
  split; [done|]. intros [|j] Hj _; [by rewrite Nat.add_0_r|].
  exfalso. apply Hu. rewrite <- (Nat.add_0_r (rand_k s)). apply Hj. lia.
Qed.

Lemma pool_ok_stock s live :
  pool_ok s live -> pool_shape s /\ stock s = nonzero (drop (cdp s) (free_cd s)) /\ NoDup (stock s) /\
    forall v, v ∈ stock s -> v ∉ live.
Proof.
  intros (Hl & Hc & Ho & Hnd & Hlive).
  assert (stock s = nonzero (drop (cdp s) (free_cd s))) as E; [|by rewrite E].
  unfold stock, cells. rewrite Ho, drop_app_le by lia. unfold nonzero.
  by rewrite filter_app, (filter_cons_False _ 0), filter_nil, app_nil_r by auto.
Qed.
Lemma stock_pool_ok s live :
  pool_shape s -> cd_oob s = 0 -> NoDup (stock s) -> (forall v, v ∈ stock s -> v ∉ live) -> pool_ok s live.
Proof.
  intros [Hl Hc] Ho Hnd Hu. assert (stock s = nonzero (drop (cdp s) (free_cd s))) as E; [|unfold pool_ok; rewrite <- E; by split_and!].
  unfold stock, cells. rewrite Ho, drop_app_le by lia. unfold nonzero.
  by rewrite filter_app, (filter_cons_False _ 0), filter_nil, app_nil_r by auto.
Qed.

Lemma given_out_new s live v rest : given_out s live v rest -> stock s = [] -> v ∉ live.
Proof.
  unfold given_out. intros Hg He. rewrite He in Hg. destruct Hg as (j & _ & E).
  assert (v ∈ usable s (rand_k s + j) live) as [Hv _]%list_elem_of_filter by (rewrite E; by left). done.
Qed.

Lemma given_out_unique s live v rest :
  pool_ok s live -> (stock s = [] -> batch_distinct s live) -> given_out s live v rest ->
  v ∉ live /\ NoDup rest /\ forall w, w ∈ rest -> w ∉ live ++ [v].
Proof.
  intros (_ & _ & Hnd & Hlive)%pool_ok_stock Hb Hg.
  assert (NoDup (v :: rest) /\ forall w, w ∈ v :: rest -> w ∉ live) as [Hnd' Hl'].
  { unfold given_out in Hg. destruct (stock s) as [|v0 l] eqn:E.
    - destruct Hg as (j & Hj & Eu). rewrite <- Eu. split; [apply NoDup_filter, Hb; [done | done | by rewrite Eu]|].
      by intros w [Hw _]%list_elem_of_filter.
    - destruct Hg as [-> ->]. done. }
  apply NoDup_cons in Hnd' as [Hv Hnd']. split_and!; [apply Hl'; by left | done |].
  intros w Hw [Hin|Hin%list_elem_of_singleton]%elem_of_app; [by apply (Hl' w); [right|] | by subst].
Qed.

(** ** [new_transaction] *)

(** Addresses that no struct has used. *)
Definition fresh_trans s : Prop :=
  0 < next s /\ trans s !! next s = None /\ qm s !! Q_t_global (next s) = None /\
  qm s !! Q_t_clientq (next s) = None /\ qm s !! Q_t_svc_waitq (next s) = None.

(** The lists with a new transaction. *)
Definition q_new_trans (t : Z) (ts : list Z) (qs : gmap qaddr (list qaddr)) : gmap qaddr (list qaddr) :=
  <[Q_tptransactions := (Q_t_global <$> ts) ++ [Q_t_global t]]>
    (<[Q_t_svc_waitq t := []]> (<[Q_t_clientq t := []]> qs)).

(** What [new_transaction] does, but for the pool. *)
Record transaction_added s s' (c flags svc len t : Z) (qs : gmap qaddr (list qaddr)) (ts : list Z) (v : Z)
  : Prop := {
  ta_trans : exists d now, trans s' = <[t := mkTrans c svc now 0 v d 0 0 flags]> (trans s) /\
    tpbuf dm (tp_heap (mem s')) d len /\ pblk d = brk (tp_heap (mem s));
  ta_transactions : transactions s' (q_new_trans t ts qs) (ts ++ [t]);
  ta_buffers p l : tpbuf dm (tp_heap (mem s)) p l ->
    tpbuf dm (tp_heap (mem s')) p l /\ tpdata (tp_heap (mem s')) p l = tpdata (tp_heap (mem s)) p l;
  ta_memory : heap_wf (tp_heap (mem s')) /\ memory_left s';
  ta_rest : clients s' = clients s /\ svcs s' = svcs s /\ advs s' = advs s /\ out s' = out s /\
    services s' = services s /\ closed s' = closed s;
}.

(** The same, from a pool whose numbers are new. *)
Record transaction_made s s' (c flags svc len t : Z) (qs : gmap qaddr (list qaddr)) (ts : list Z) (v : Z)
  : Prop := {
  tm_added : transaction_added s s' c flags svc len t qs ts v;
  tm_cd : v <> 0 /\ v ∉ live_cds s ts;
  tm_pool : pool_ok s' (live_cds s' (ts ++ [t]));
}.

Lemma live_cds_insert s s' ts t x :
  trans s !! t = None -> (forall u, u ∈ ts -> is_Some (trans s !! u)) ->
  trans s' = <[t := x]> (trans s) -> live_cds s' (ts ++ [t]) = live_cds s ts ++ [cd x].
Proof.
  intros Hn Hts E. unfold live_cds. rewrite fmap_app, E. simpl. rewrite lookup_insert_eq. f_equal.
  apply list_fmap_ext. intros i u Hu%list_elem_of_lookup_2.
  rewrite lookup_insert_ne; [done|]. intros ->. destruct (Hts u Hu) as [? ?]. congruence.
Qed.

(** The links of a new transaction, before it is on the list of all. *)
Lemma new_trans_links s qs t :
  qrep (qm s) qs -> qm s !! Q_t_global t = None -> qm s !! Q_t_clientq t = None ->
  qm s !! Q_t_svc_waitq t = None ->
  exists m1 m2, let raw := mkQUEUE QNULL QNULL in
    QINIT (Q_t_clientq t) (<[Q_t_clientq t := raw]> (<[Q_t_global t := raw]> (qm s))) = Done (tt, m1) /\
    QINIT (Q_t_svc_waitq t) (<[Q_t_svc_waitq t := raw]> m1) = Done (tt, m2) /\
    qrep m2 (<[Q_t_svc_waitq t := []]> (<[Q_t_clientq t := []]> qs)) /\ is_Some (m2 !! Q_t_global t).
Proof.
  intros Hq Hg Hc Hw. set (raw := mkQUEUE QNULL QNULL).
  pose proof (qrep_raw _ _ (Q_t_global t) raw Hq Hg) as Hq0.
  destruct (qrep_alloc _ _ (Q_t_clientq t) raw Hq0) as (m1 & E1 & Q1 & F1);
    [by rewrite lookup_insert_ne|].
  destruct (qrep_alloc _ _ (Q_t_svc_waitq t) raw Q1) as (m2 & E2 & Q2 & F2).
  { rewrite F1 by set_solver. by rewrite lookup_insert_ne. }
  exists m1, m2. split_and!; [done | done | done |].
  rewrite F2 by set_solver. rewrite F1 by set_solver. rewrite lookup_insert_eq. eauto.
Qed.

Lemma new_transaction_gives s c x flags svc len qs ts n :
  c <> 0 -> svc <> 0 -> clients s !! c = Some x -> memory_left s -> heap_wf (tp_heap (mem s)) ->
  0 <= len <= LONG_MAX dm -> fresh_trans s -> transactions s qs ts -> pool_shape s ->
  stock s <> [] \/ usable s (rand_k s + n) (live_cds s ts) <> [] -> (S n * CD_FUEL <= cd_fuel s)%nat ->
  wp (new_transaction dm c flags svc len) s (fun t s' => t = next s /\ exists v,
    transaction_added s s' c flags svc len t qs ts v /\ v <> 0 /\ given_out s (live_cds s ts) v (stock s') /\
    length (free_cd s') = NUM_FREE_CD /\ (cd_oob s = 0 -> (cdp s' <= NUM_FREE_CD)%nat /\ cd_oob s' = 0)).
Proof.
  intros Hc Hsvc Hx Hm Hwf Hlen (Hn & Htn & Hg & Hcq & Hwq) Htr Hp Hsome Hf.
  set (t := next s) in *. unfold new_transaction. wp_step.
  apply wp_assert; [by rewrite (proj2 (Z.eqb_neq c 0))|].
  rewrite (proj2 (Z.eqb_neq svc 0)) by done. wp_step. eapply wp_get_client; [done | exact Hx |].
  wp_step. eapply wp_of_eq; [by apply alloc_struct_run|]. fold t.
  rewrite (proj2 (Z.eqb_neq t 0)) by lia. wp_step. unfold gettimeofday. repeat wp_step.
  pose proof Htr as (Hq & Hl & Hts).
  destruct (new_trans_links s qs t Hq Hg Hcq Hwq) as (m1 & m2 & E1 & E2 & Q2 & Hg2).
  unfold q_alloc. repeat (wp_step || (unfold in_q at 1)).
  eapply wp_of_eq; [exact E1|]. repeat (wp_step || (unfold in_q at 1)).
  eapply wp_of_eq; [exact E2|]. wp_step.
  destruct (tpalloc_ok dm NULL NULL len (mem s)) as (b & Hb & Ea);
    [done | unfold oom_now; by rewrite Hm | done |].
  eapply wp_in_mem; [exact Ea|]. wp_step.
  eapply wp_put_trans; [lia | apply lookup_insert_eq |].
  destruct (heap_alloc_buf dm (mem s) b len) as (Hbuf & Hsame & Hwf'); [done..|].
  rewrite bool_decide_false by (intros [=]; destruct Hwf; lia). repeat wp_step.
  set (d := Ptr _ _). set (s1 := set_trans _ _).
  assert (trans s1 = <[t := set_data d (mkTrans c svc (clock s (clock_k s)) 0 0 NULL 0 0 flags)]> (trans s)) as Et1
    by (cbn; by rewrite insert_insert_eq).
  assert (forall u, u ∈ ts -> trans s1 !! u = trans s !! u) as Hold.
  { intros u Hu. rewrite Et1, lookup_insert_ne; [done|]. intros <-. destruct (Hts t Hu) as [_ [? ?]]. congruence. }
  assert (live_cds s1 ts = live_cds s ts) as Elive.
  { apply list_fmap_ext. intros i u Hu%list_elem_of_lookup_2. by rewrite Hold. }
  assert (transactions s1 (<[Q_t_svc_waitq t := []]> (<[Q_t_clientq t := []]> qs)) ts) as Htr1.
  { split; [exact Q2|]. split; [by rewrite !lookup_insert_ne|]. intros u Hu. rewrite Hold by done. by apply Hts. }
  destruct (next_cd_finds n s1 _ ts (cd_fuel s) Htr1) as (f & k & r & v & En & Hlf & Hk & Hv & Hv0 & Hgiven);
    [done | by rewrite Elive | done |].
  eapply wp_of_eq; [exact En|]. wp_step.
  destruct (qrep_qappend_raw m2 _ Q_tptransactions (Q_t_global <$> ts) (Q_t_global t) Q2) as (m3 & E3 & Q3).
  { by rewrite !lookup_insert_ne. }
  { exact Hg2. }
  { intros k' lk [[<- <-]|[? [[<- <-]|[? Hk']]%lookup_insert_Some]]%lookup_insert_Some; [set_solver | set_solver |].
    by apply (qrep_fresh (qm s) qs). }
  eapply wp_in_q; [exact E3|]. wp_step.
  set (s2 := set_qm m3 _).
  destruct (take_cd_run s2 v) as (Etake & Hl3 & Es3); [exact Hlf | exact Hv |].
  eapply wp_of_eq; [exact Etake|]. wp_step.
  eapply wp_put_trans; [lia | cbn; rewrite insert_insert_eq; apply lookup_insert_eq |]. wp_step.
  set (s3 := set_trans _ _).
  assert (trans s3 = <[t := mkTrans c svc (clock s (clock_k s)) 0 v d 0 0 flags]> (trans s)) as Et3
    by (cbn; by rewrite !insert_insert_eq).
  split; [done|]. exists v. rewrite Elive in Hgiven. split_and!; [|done | by change (stock s3) with (stock (taken s2)); rewrite Es3 | exact Hl3 |].
  2:{ cbn [s3 set_trans taken set_cds set_cd_oob cd_oob cdp s2 set_qm].
      intros Ho. change (cd_oob (set_rand_k r s1)) with (cd_oob s). rewrite Ho. split; [|by destruct (bool_decide _)].
      enough (k <> NUM_FREE_CD) by lia. intros ->.
      change (cd_oob s1) with (cd_oob s) in Hv. rewrite Ho, <- Hlf, list_lookup_middle in Hv by done. congruence. }
  constructor.
  - exists d, (clock s (clock_k s)). split; [exact Et3 | split; [exact Hbuf | done]].
  - split; [exact Q3|]. split; [unfold q_new_trans; rewrite lookup_insert_eq, fmap_app; done|].
    intros u [Hu|Hu%list_elem_of_singleton]%elem_of_app; [|subst u].
    + destruct (Hts u Hu) as [Hu0 Hs]. split; [done|]. rewrite Et3, lookup_insert_ne; [done|].
      intros <-. destruct Hs. congruence.
    + split; [lia|]. rewrite Et3, lookup_insert_eq. eauto.
  - intros p l Hpb. eapply tpbuf_frame; [exact Hsame | | exact Hpb].
    destruct Hpb as (_ & _ & b' & Hb' & _). destruct Hwf as [_ Hbelow].
    assert (0 < pblk p < brk (tp_heap (mem s))) by eauto. simpl. lia.
  - split; [exact Hwf'|]. unfold memory_left in *. cbn. by rewrite Hm.
  - done.
Qed.

(** The pool stays one that gives out what is new. *)
Lemma given_out_pool s s' c flags svc len t qs ts v :
  transactions s qs ts -> trans s !! t = None -> pool_ok s (live_cds s ts) ->
  (stock s = [] -> batch_distinct s (live_cds s ts)) -> transaction_added s s' c flags svc len t qs ts v ->
  given_out s (live_cds s ts) v (stock s') -> length (free_cd s') = NUM_FREE_CD ->
  (cdp s' <= NUM_FREE_CD)%nat -> cd_oob s' = 0 ->
  v ∉ live_cds s ts /\ pool_ok s' (live_cds s' (ts ++ [t])).
Proof.
  intros (_ & _ & Hts) Htn Hp Hb [(d & now & Et & _) _ _ _ _] Hg Hl Hc Ho.
  destruct (given_out_unique s _ v _ Hp Hb Hg) as (Hv & Hnd & Hr). split; [done|].
  rewrite (live_cds_insert s s' ts t _ Htn (fun u Hu => proj2 (Hts u Hu)) Et). by apply stock_pool_ok.
Qed.

Lemma new_transaction_run s c x flags svc len qs ts :
  c <> 0 -> svc <> 0 -> clients s !! c = Some x -> memory_left s -> heap_wf (tp_heap (mem s)) ->
  0 <= len <= LONG_MAX dm -> fresh_trans s -> transactions s qs ts -> pool_ok s (live_cds s ts) ->
  nonzero (drop (cdp s) (free_cd s)) <> [] \/ batch_ok s (rand_k s) (live_cds s ts) ->
  (CD_FUEL <= cd_fuel s)%nat ->
  wp (new_transaction dm c flags svc len) s (fun t s' => t = next s /\
    exists v, transaction_made s s' c flags svc len t qs ts v).
Proof.
  intros Hc Hsvc Hx Hm Hwf Hlen Hfr Htr Hp Hsome Hf. destruct (pool_ok_stock _ _ Hp) as (Hsh & Es & _).
  rewrite <- Es in Hsome. eapply wp_mono.
  - apply (new_transaction_gives s c x flags svc len qs ts 0); try done; try lia.
    rewrite Nat.add_0_r. destruct Hsome as [?|?%batch_ok_distinct]; naive_solver.
  - intros t s' (-> & v & Ha & Hv & Hg & Hl & Hpool). split; [done|]. exists v.
    destruct Hpool as [Hc' Ho']; [apply Hp|].
    destruct (given_out_pool s s' c flags svc len (next s) qs ts v) as [Hn Hp']; try done; [apply Hfr|].
    intros He. destruct Hsome as [?|?%batch_ok_distinct]; [done | naive_solver].
Qed.

(** ** Properties *)

(** C13. The descriptor that [new_transaction] gives out, for any pool, any random numbers and
    any word behind the pool.  It is never zero.  What the pool still has, the word behind it
    included, is given out in order, in use or not; only when nothing is left are new random
    numbers drawn, until a batch has one that is not in use, and then the descriptor differs
    from those of all current transactions.  As long as the pool has no duplicates and
    nothing that is in use, the word behind it is zero and the numbers of the batch that is
    used differ, every descriptor differs from all current ones and the pool stays so.
    The search ends, if a batch has a number that is not in use; the transaction is new,
    has a buffer of the requested length, and is on the list of all transactions and on no
    other. *)
Theorem new_transaction_cd s c x flags svc len qs ts n :
  c <> 0 -> svc <> 0 -> clients s !! c = Some x -> memory_left s -> heap_wf (tp_heap (mem s)) ->
  0 <= len <= LONG_MAX dm -> fresh_trans s -> transactions s qs ts -> pool_shape s ->
  stock s <> [] \/ usable s (rand_k s + n) (live_cds s ts) <> [] -> (S n * CD_FUEL <= cd_fuel s)%nat ->
  wp (new_transaction dm c flags svc len) s (fun t s' => t = next s /\ exists v,
    transaction_added s s' c flags svc len t qs ts v /\ v <> 0 /\ given_out s (live_cds s ts) v (stock s') /\
    (stock s = [] -> v ∉ live_cds s ts) /\
    (pool_ok s (live_cds s ts) -> (stock s = [] -> batch_distinct s (live_cds s ts)) ->
      v ∉ live_cds s ts /\ pool_ok s' (live_cds s' (ts ++ [t])))).
Proof.
  intros Hc Hsvc Hx Hm Hwf Hlen Hfr Htr Hp Hsome Hf.
  eapply wp_mono; [by apply (new_transaction_gives s c x flags svc len qs ts n)|].
  intros t s' (-> & v & Ha & Hv & Hg & Hl & Hpool). split; [done|]. exists v. split_and!; try done.
  - by eapply given_out_new.
  - intros Hpo Hb. destruct Hpool as [Hc' Ho']; [apply Hpo|].
    eapply (given_out_pool s s' c flags svc len (next s) qs ts v); try done. apply Hfr.
Qed.

End Transactions.

(** ** Witnesses *)

(** Client 6 with one transaction, 7, of descriptor 77, and an empty pool. *)
Definition wit_rand (k i : nat) : Z := Z.of_nat (70 + i).
Definition wit_pool : sb (bst Z) :=
  mkSb wit_mem2 (rings (wit_queues [(Q_waitq 2, [])])) {[6 := mkClient 9 0 NULL None Leaf 0]}
    {[2 := mkService wit_name false 0 0]} ∅ {[7 := mkTrans 6 2 (0, 0) 0 77 (Ptr 1 32) 0 0 0]} 8
    (Node Leaf 2 Leaf) (replicate 10 0) 0 0 wit_rand 0 30 (fun _ => (0, 0)) 0 0 [] [].

(** The pool is empty and the first number of the next batch is in use. *)
Lemma new_transaction_cd_witness :
  wp (new_transaction LP64 6 0 2 5) wit_pool (fun t s' => t = 8 /\
    exists v, v <> 0 /\ v <> 77 /\ cd <$> trans s' !! 8 = Some v).
Proof.
  eapply wp_mono.
  - apply (new_transaction_cd LP64 wit_pool 6 (mkClient 9 0 NULL None Leaf 0) 0 2 5
      (wit_qs [(Q_waitq 2, [])]) [7] 0).
    + discriminate.
    + discriminate.
    + reflexivity.
    + reflexivity.
    + apply wit_mem2_wf.
    + vm_compute. split; discriminate.
    + split; [reflexivity|]. split; [reflexivity|]. split; [reflexivity|]. split; reflexivity.
    + split; [apply qrep_check_ok; vm_compute; reflexivity|]. split; [vm_compute; reflexivity|].
      intros t Ht. apply list_elem_of_singleton in Ht as ->. split; [discriminate | eexists; reflexivity].
    + split; [reflexivity | vm_compute; lia].
    + right. vm_compute. discriminate.
    + vm_compute. lia.
  - intros t s' (-> & v & Ha & Hv0 & _ & Hv & _). split; [reflexivity|]. exists v.
    split; [exact Hv0|]. split; [intros ->; apply Hv; [vm_compute; reflexivity | by left]|].
    destruct (ta_trans _ _ _ _ _ _ _ _ _ _ _ Ha) as (d & now & Et & _). rewrite Et.
    rewrite lookup_insert_eq. reflexivity.
Defined.
