(* ===== verification/Calls.v ===== *)
(** * Calls

    [svracall] of [svracall.c], which accepts or refuses a request, and its
    continuation [send_to_worker], which gives the request to a worker that waits
    or puts it on the wait queue of its service. *)

From Stdlib Require Import ZArith Lia.
From S2P Require Import Prelude Constants ByteOrder CString SearchTree Queue Memory TpMemory.
From S2P Require Import SbState SbObjects SbHandlers SbLemmas TxIo Xatmi Dispatch EventLoop Registry Messages Replies.
From S2P Require Import Transactions.

Local Open Scope Z_scope.

Section Calls.
Context {T : Type} `{SearchTree T Z} (dm : data_model).
Implicit Types (s : sb T) (x : tpclient T) (qs : gmap qaddr (list qaddr)) (name : list byte).

(** The message of [tpacall] without its type and data. *)
Definition call_message name (len flags : Z) : list byte := name ++ le_encode 4 len ++ le_encode 4 flags.

Lemma call_message_parts name len flags :
  length name = XATMI_SERVICE_NAME_LENGTH ->
  bytes_at (call_message name len flags) XATMI_SERVICE_NAME_LENGTH (le_encode 4 len) /\
  bytes_at (call_message name len flags) (XATMI_SERVICE_NAME_LENGTH + IOLONG) (le_encode 4 flags).
Proof.
  intros Hn. split.
  - rewrite <- Hn. apply bytes_at_app.
  - pose proof (bytes_at_app (name ++ le_encode 4 len) (le_encode 4 flags) []) as E.
    by rewrite app_nil_r, <- app_assoc, length_app, length_le_encode, Hn in E.
Qed.

(** The answers. *)
Definition accepted_bytes (v : Z) : list byte := [z2b 0] ++ le_encode 2 v.
Definition refused_bytes : list byte := [z2b (-1)] ++ le_encode 2 TPENOENT.

(** What [svracall] does before it waits for the data of an accepted request. *)
Record accepted s s' (c : Z) x (svc len flags t v : Z) (d buf : ptr) qs (ts : list Z) (rl : list qaddr)
  : Prop := {
  ac_client : stream (fd x) s' = stream (fd x) s ++ accepted_bytes v;
  ac_others f : f <> fd x -> stream f s' = stream f s;
  ac_cd : v <> 0 /\ v ∉ live_cds s ts;
  ac_trans : exists now, trans s' = <[t := mkTrans c svc now 0 v d 0 0 flags]> (trans s);
  ac_data : tpbuf dm (tp_heap (mem s')) d len;
  ac_freed : blocks (tp_heap (mem s')) !! pblk buf = None;
  ac_pool : pool_ok s' (live_cds s' (ts ++ [t]));
  ac_sane : sane s' (<[Q_requests c := rl ++ [Q_t_clientq t]]> (delete (Q_t_clientq t) (q_new_trans t ts qs)));
  ac_rest : clients s' = clients s /\ svcs s' = svcs s /\ advs s' = advs s /\ services s' = services s /\
    closed s' = closed s;
  ac_buffers : pblk d = brk (tp_heap (mem s)) /\ forall p l, pblk p <> pblk buf -> tpbuf dm (tp_heap (mem s)) p l ->
    tpbuf dm (tp_heap (mem s')) p l;
  ac_run : exists s0 n m, new_transaction dm c flags svc len s = Done (t, s0) /\
    qappend_tail (Q_requests c) (Q_t_clientq t) (qm s0) = Done (n, m) /\ s' = set_out (out s') (set_qm m (freed buf s0));
}.

(** The state of a switchboard that can make a transaction for the client [c]. *)
Definition can_accept s qs (c : Z) (ts : list Z) (rl : list qaddr) : Prop :=
  qs !! Q_requests c = Some rl /\ fresh_trans s /\ transactions s qs ts /\ pool_ok s (live_cds s ts) /\
  (nonzero (drop (cdp s) (free_cd s)) <> [] \/ batch_ok s (rand_k s) (live_cds s ts)) /\
  (CD_FUEL <= cd_fuel s)%nat.

Lemma svracall_accept call s c x buf name len flags svc qs ts rl Q :
  c <> 0 -> clients s !! c = Some x -> sane s qs -> registry_ok s ->
  message dm s buf (call_message name len flags) -> length name = XATMI_SERVICE_NAME_LENGTH ->
  0 <= len < 2 ^ 31 -> - 2 ^ 31 <= flags < 2 ^ 31 ->
  registered s name svc -> can_accept s qs c ts rl ->
  (forall v d s1, accepted s s1 c x svc len flags (next s) v d buf qs ts rl ->
    wp (svriowait dm call c d H_send_to_worker) s1 Q) ->
  wp (svracall dm call c buf) s Q.
Proof.
  intros Hc Hx Hs Hr Hm Hn Hl Hf Hreg (Hrl & Hfr & Htr & Hp & Hsome & Hfuel) HQ. unfold svracall.
  wp_step. apply wp_assert; [by rewrite (proj2 (Z.eqb_neq c 0)), (message_not_null dm s buf _ Hm)|].
  destruct (call_message_parts name len flags Hn) as [Hlen Hflags].
  wp_step. eapply (wp_buf_long dm _ _ _ _ flags); [exact Hm | exact Hflags |].
  wp_step. eapply wp_buf_name; [exact Hm | done |].
  wp_step. destruct (fnd_service_spec s name Hr) as (p & Ep & Hp1 & Hp0).
  eapply wp_of_eq; [exact Ep|].
  assert (p = svc) as ->.
  { destruct (decide (p = 0)) as [E0|E0]; [by exfalso; apply (Hp0 E0 svc)|].
    eapply registered_unique; [done | by apply Hp1 | done]. }
  assert (svc <> 0) as Hsvc by (destruct Hreg as [Hin _]; by destruct (proj1 Hr svc Hin)).
  wp_step. eapply (wp_buf_long dm _ _ _ _ len); [exact Hm | exact Hlen |].
  rewrite !slong_ulong32 by lia. destruct Hs as [Hq Hwf Hmem].
  wp_step. destruct (wp_run _ _ _ (new_transaction_run dm s c x flags svc len qs ts Hc Hsvc Hx Hmem Hwf (long_max_31 dm len Hl)
    Hfr Htr Hp Hsome Hfuel)) as (t & s1 & Erun & Et & v & [[(d & now & Etr & Hd & Hdb) Htr1 Hkeep [Hwf1 Hmem1] (R1 & R2 & R3 & R4 & R5 & R6)] Hcd Hpool]).
  eapply wp_of_eq; [exact Erun|].
  assert (message dm s1 buf (call_message name len flags)) as Hm1.
  { destruct Hm as [Hmb Hmd]. destruct (Hkeep _ _ Hmb) as [K1 K2]. split; [exact K1 | by rewrite K2]. }
  wp_step. eapply wp_free_message; [exact Hm1|]. subst t. set (t := next s) in *.
  assert (t <> 0) as Ht by (destruct Hfr as [? _]; lia). rewrite (proj2 (Z.eqb_neq t 0)) by done.
  pose proof Htr1 as (Hq1 & _).
  destruct (qrep_qappend_tail (qm s1) _ (Q_requests c) rl (Q_t_clientq t) Hq1) as (m2 & E2 & Q2); [| |done|].
  { unfold q_new_trans. by rewrite !lookup_insert_ne. }
  { unfold q_new_trans. rewrite !lookup_insert_ne by done. apply lookup_insert_eq. }
  wp_step. eapply wp_in_q; [exact E2|]. set (s2 := set_qm m2 _).
  assert (clients s2 !! c = Some x) as Hx2 by (cbn; by rewrite R1).
  assert (trans s2 !! t = Some (mkTrans c svc now 0 v d 0 0 flags)) as Ht2
    by (cbn; rewrite Etr; apply lookup_insert_eq).
  wp_step. eapply emits_svrwriteb; [done | exact Hx2 |]. intros w1 W1.
  wp_step. eapply wp_get_trans; [done | exact Ht2 |].
  wp_step. eapply emits_svrwrites; [done | exact Hx2 |]. intros w2 W2.
  pose proof (writes_to_app _ _ _ _ _ W1 W2) as W. cbn [out set_out cd t_data]. rewrite <- app_assoc.
  apply (HQ v d). set (ws := w1 ++ w2) in *.
  assert (out s2 = out s) as Eo by exact R4.
  assert (pblk d <> pblk buf) as Hne.
  { destruct Hm as [(_ & _ & b' & Hb' & _) _]. destruct Hwf as [_ Hbelow].
    assert (0 < pblk buf < brk (tp_heap (mem s))) by eauto. lia. }
  constructor.
  - etransitivity; [exact (writes_to_stream _ _ _ s2 W)|]. unfold stream. by rewrite Eo.
  - intros f Hfd. etransitivity; [exact (writes_to_other _ _ _ _ s2 W Hfd)|]. unfold stream. by rewrite Eo.
  - exact Hcd.
  - exists now. exact Etr.
  - by apply (freed_kept dm s1 buf d len).
  - apply lookup_delete_eq.
  - exact Hpool.
  - destruct (freed_sane s1 buf _ (Build_sane s1 _ Hq1 Hwf1 Hmem1)) as [_ K2 K3]. split; [exact Q2 | exact K2 | exact K3].
  - done.
  - split; [done|]. intros p l Hpb Hpl. apply (freed_kept dm s1 buf p l Hpb). by apply Hkeep.
  - by exists s1, (Q_t_clientq t), m2.
Qed.

(** A request for a service that does not exist. *)
Lemma wp_refused s c x qs Q :
  c <> 0 -> clients s !! c = Some x -> idle x -> sane s qs -> (forall s', told dm s s' c x refused_bytes -> Q tt s') ->
  wp (svrwriteb c (-1) ;; svrwrites c TPENOENT ;; svr_next_command dm c) s Q.
Proof.
  intros Hc Hx Hi Hs HQ.
  assert (emits (T := T) (svrwriteb c (-1) ;; svrwrites c TPENOENT) c refused_bytes) as He
    by (apply emits_then; [apply emits_svrwriteb | apply emits_svrwrites]).
  pose proof (wp_tell dm _ s c x qs _ Q He Hc Hx Hi Hs HQ) as Hw.
  rewrite !wp_bind in Hw. wp_step. eapply wp_mono; [exact Hw|]. intros [] s' Hs'. by wp_step.
Qed.

Lemma svracall_refuse call s c x buf name len flags qs Q :
  c <> 0 -> clients s !! c = Some x -> idle x -> sane s qs -> registry_ok s ->
  message dm s buf (call_message name len flags) -> length name = XATMI_SERVICE_NAME_LENGTH ->
  (forall p, ~ registered s name p) ->
  (forall s', told dm (freed buf s) s' c x refused_bytes -> Q tt s') ->
  wp (svracall dm call c buf) s Q.
Proof.
  intros Hc Hx Hi Hs Hr Hm Hn Hreg HQ. unfold svracall.
  wp_step. apply wp_assert; [by rewrite (proj2 (Z.eqb_neq c 0)), (message_not_null dm s buf _ Hm)|].
  destruct (call_message_parts name len flags Hn) as [Hlen Hflags].
  wp_step. eapply (wp_buf_long dm _ _ _ _ flags); [exact Hm | exact Hflags |].
  wp_step. eapply wp_buf_name; [exact Hm | done |].
  wp_step. destruct (fnd_service_spec s name Hr) as (p & Ep & Hp1 & Hp0).
  eapply wp_of_eq; [exact Ep|].
  assert (p = 0) as -> by (destruct (decide (p = 0)) as [E0|E0]; [done | by exfalso; apply (Hreg p), Hp1]).
  wp_step. eapply (wp_buf_long dm _ _ _ _ len); [exact Hm | exact Hlen |].
  wp_step. unfold new_transaction. wp_step.
  apply wp_assert; [by rewrite (proj2 (Z.eqb_neq c 0))|]. cbn [Z.eqb]. wp_step.
  wp_step. eapply wp_free_message; [exact Hm|]. cbn [Z.eqb].
  by eapply wp_refused; [| | |apply freed_sane|].
Qed.

(** ** Giving the request to a worker *)

(** A worker that waits: the first advertisement on the wait queue. *)
Record waiting_worker s qs (c w a : Z) wx (ax : tpadvertisement) : Prop := {
  ww_advert : a <> 0 /\ advs s !! a = Some ax /\ a_svc ax <> 0 /\ a_client ax = w;
  ww_client : w <> 0 /\ w <> c /\ clients s !! w = Some wx /\ idle wx /\ adverts_ok s wx qs;
}.

(** The state after a request was put on the wait queue of its service. *)
Definition request_queued s s' (t svc : Z) (sv : SbState.tpservice) qs (l : list qaddr) : Prop :=
  svcs s' = <[svc := set_wct true sv]> (svcs s) /\
  qrep (qm s') (<[Q_waitq svc := l ++ [Q_t_svc_waitq t]]> (delete (Q_t_svc_waitq t) qs)) /\
  out s' = out s /\ trans s' = trans s /\ clients s' = clients s /\ advs s' = advs s.

Lemma send_to_worker_head s c x buf t tx qs rl Q :
  c <> 0 -> clients s !! c = Some x -> idle x -> sane s qs -> buf <> NULL ->
  qs !! Q_requests c = Some (rl ++ [Q_t_clientq t]) -> t <> 0 -> trans s !! t = Some tx ->
  (forall s1, told dm s s1 c x [] -> out s1 = out s ->
    wp (e ← in_q (QISEMPTY (Q_waitq (t_svc tx)));
        sv ← get_svc (t_svc tx);
        if negb e && negb (wait_contains_transactions sv) then
          f ← in_q (QFIRST (Q_waitq (t_svc tx))); a ← offset_adv_waitq f; send_to_server dm a t
        else
          put_svc (t_svc tx) (set_wct true) ;;
          _ ← in_q (qappend_tail (Q_waitq (t_svc tx)) (Q_t_svc_waitq t)); mret tt) s1 Q) ->
  wp (send_to_worker dm c buf) s Q.
Proof.
  intros Hc Hx Hi Hs Hb Hrl Ht Htx HQ. unfold send_to_worker.
  wp_step. apply wp_assert; [by rewrite (proj2 (Z.eqb_neq c 0)), bool_decide_false|].
  wp_step. eapply wp_get_client; [done | exact Hx |].
  wp_step. eapply wp_next_command; [done | exact Hx | done | exact Hs |]. intros s1 T1 Eo.
  pose proof (td_sane _ _ _ _ _ _ T1 qs Hs) as Hs1.
  destruct (td_rest _ _ _ _ _ _ T1) as (_ & Et1 & _).
  wp_step. eapply wp_in_q_read; [eapply QLAST_queue, (qr_queue _ _ (sn_queues _ _ Hs1)), Hrl|].
  wp_step. unfold offset_t_clientq. wp_step. wp_step. eapply wp_get_trans; [done | by rewrite Et1 |].
  by apply HQ.
Qed.

Lemma send_to_worker_run s c x buf t tx sv qs rl l len :
  c <> 0 -> clients s !! c = Some x -> idle x -> sane s qs -> buf <> NULL ->
  qs !! Q_requests c = Some (rl ++ [Q_t_clientq t]) -> t <> 0 -> trans s !! t = Some tx ->
  t_svc tx <> 0 -> svcs s !! t_svc tx = Some sv -> qs !! Q_waitq (t_svc tx) = Some l ->
  qs !! Q_t_svc_waitq t = Some [] -> tpbuf dm (tp_heap (mem s)) (t_data tx) len ->
  (wait_contains_transactions sv = false -> l <> [] ->
    exists a l' w wx ax, l = Q_adv_waitq a :: l' /\ waiting_worker s qs c w a wx ax) ->
  wp (send_to_worker dm c buf) s (fun _ s' => exists s1, told dm s s1 c x [] /\
    match l with
    | Q_adv_waitq a :: _ =>
        if wait_contains_transactions sv then request_queued s1 s' t (t_svc tx) sv qs l
        else exists w wx ax, waiting_worker s qs c w a wx ax /\
          sent_to_server dm s1 s' w a t wx tx qs
            (work_message (a_opaque ax) (svcname sv) len (t_flags tx) (cd tx)
              (tpdata (tp_heap (mem s)) (t_data tx) len))
    | _ => request_queued s1 s' t (t_svc tx) sv qs l
    end).
Proof.
  intros Hc Hx Hi Hs Hb Hrl Ht Htx Hsvc Hsv Hl Hfree Hbuf Hww.
  eapply send_to_worker_head; try done. intros s1 T1 Eo.
  pose proof (td_sane _ _ _ _ _ _ T1 qs Hs) as Hs1.
  destruct (td_rest _ _ _ _ _ _ T1) as (Eq1 & Et1 & Es1 & Ea1 & _).
  destruct (td_clients _ _ _ _ _ _ T1) as (p & Ecl1 & _).
  destruct (td_buffers _ _ _ _ _ _ T1 _ _ Hbuf) as [Hbuf1 Ed1].
  wp_step. eapply wp_in_q_read; [eapply QISEMPTY_queue, (qr_queue _ _ (sn_queues _ _ Hs1)), Hl|].
  wp_step. eapply wp_get_svc; [done | by rewrite Es1 |].
  destruct (negb (bool_decide (l = [])) && negb (wait_contains_transactions sv)) eqn:Eb.
  - apply andb_true_iff in Eb as [El%negb_true_iff Ew%negb_true_iff]. apply bool_decide_eq_false in El.
    destruct (Hww Ew El) as (a & l' & w & wx & ax & -> & [(A1 & A2 & A3 & A4) (W1 & W2 & W3 & W4 & W5)]).
    wp_step. eapply wp_in_q_read; [eapply QFIRST_queue, (qr_queue _ _ (sn_queues _ _ Hs1)), Hl|].
    wp_step. unfold offset_adv_waitq. wp_step. rewrite Ew. rewrite <- Ed1.
    eapply wp_mono; [eapply (send_to_server_run dm s1 w a t wx ax tx sv qs len); try done|].
    + by rewrite Ea1.
    + by rewrite Et1.
    + by rewrite Es1.
    + by rewrite Ecl1, lookup_insert_ne by auto.
    + apply Hs1.
    + intros b Hin. rewrite Ea1. by apply W5.
    + apply Hs1.
    + by apply memory_left_oom, Hs1.
    + intros [] s' Hs'. exists s1. split; [done|]. exists w, wx, ax. split; [split; [by split_and! | by split_and!] | done].
  - wp_step. eapply wp_put_svc; [done | by rewrite Es1 |].
    destruct (qrep_qappend_tail (qm s1) qs (Q_waitq (t_svc tx)) l (Q_t_svc_waitq t)) as (m2 & E2 & Q2);
      [apply Hs1 | done | done | done |].
    wp_step. eapply wp_in_q; [exact E2|]. wp_step. exists s1. split; [done|].
    set (s2 := set_qm m2 _). assert (request_queued s1 s2 t (t_svc tx) sv qs l) as R by done.
    destruct l as [|[] l']; try exact R. destruct (wait_contains_transactions sv); [exact R | done].
Qed.

(** ** Properties *)

(** C15. [svracall] on every branch.  A request for a service that is not registered
    is refused: the caller is sent the status -1 and [TPENOENT] and is expected to
    send a command, and nothing else changes.  Otherwise a new transaction is made
    with a descriptor that is not zero and not in use, it becomes the last of the
    caller's requests, and the caller is sent the status 0 and the descriptor; then
    the caller is expected to send exactly the data announced, and
    [send_to_worker] runs, at once if there is none.  The message is freed. *)
Theorem svracall_answers n s c x buf name len flags qs :
  c <> 0 -> clients s !! c = Some x -> idle x -> sane s qs -> registry_ok s ->
  message dm s buf (call_message name len flags) -> length name = XATMI_SERVICE_NAME_LENGTH ->
  0 <= len < 2 ^ 31 -> - 2 ^ 31 <= flags < 2 ^ 31 ->
  ((forall p, ~ registered s name p) ->
    wp (svracall dm (handle dm (S n)) c buf) s (fun _ s' => told dm (freed buf s) s' c x refused_bytes)) /\
  (forall svc ts rl, registered s name svc -> can_accept s qs c ts rl ->
    (0 < len -> wp (svracall dm (handle dm (S n)) c buf) s (fun _ s' =>
      exists v d s1, accepted s s1 c x svc len flags (next s) v d buf qs ts rl /\
        s' = set_clients (<[c := set_io 0 d (Some H_send_to_worker) x]> (clients s1)) s1)) /\
    (len = 0 -> forall Q,
      (forall v d s1, accepted s s1 c x svc 0 flags (next s) v d buf qs ts rl ->
        wp (send_to_worker dm c d) s1 Q) ->
      wp (svracall dm (handle dm (S n)) c buf) s Q)).
Proof.
  intros Hc Hx Hi Hs Hr Hm Hn Hl Hf. split; [|intros svc ts rl Hreg Hcan; split].
  - intros Hreg. by eapply svracall_refuse.
  - intros Hpos. eapply svracall_accept; try done. intros v d s1 A.
    destruct (ac_rest _ _ _ _ _ _ _ _ _ _ _ _ _ _ A) as (E1 & _).
    eapply (wp_svriowait dm _ c x d len); [done | by rewrite E1 | done | apply A | done |].
    by exists v, d, s1.
  - intros -> Q HQ. eapply svracall_accept; try done. intros v d s1 A.
    destruct (ac_rest _ _ _ _ _ _ _ _ _ _ _ _ _ _ A) as (E1 & _).
    eapply (wp_svriowait_empty dm _ c x); [done | by rewrite E1 | done | apply A |].
    rewrite handle_S. by eapply HQ.
Qed.

(** [send_to_worker], when the data of a request has arrived: the caller is
    expected to send its next command, and the caller's newest request goes to the
    worker whose advertisement is first on the wait queue of the service, if
    workers wait there; otherwise it becomes the last of the transactions on that
    queue and nothing is sent. *)
Lemma send_to_worker_dispatches s c x buf t tx sv qs rl l len :
  c <> 0 -> clients s !! c = Some x -> idle x -> sane s qs -> buf <> NULL ->
  qs !! Q_requests c = Some (rl ++ [Q_t_clientq t]) -> t <> 0 -> trans s !! t = Some tx ->
  t_svc tx <> 0 -> svcs s !! t_svc tx = Some sv -> qs !! Q_waitq (t_svc tx) = Some l ->
  qs !! Q_t_svc_waitq t = Some [] -> tpbuf dm (tp_heap (mem s)) (t_data tx) len ->
  (wait_contains_transactions sv = false -> l <> [] ->
    exists a l' w wx ax, l = Q_adv_waitq a :: l' /\ waiting_worker s qs c w a wx ax) ->
  wp (send_to_worker dm c buf) s (fun _ s' => exists s1, told dm s s1 c x [] /\
    match l with
    | Q_adv_waitq a :: _ =>
        if wait_contains_transactions sv then request_queued s1 s' t (t_svc tx) sv qs l
        else exists w wx ax, waiting_worker s qs c w a wx ax /\
          sent_to_server dm s1 s' w a t wx tx qs
            (work_message (a_opaque ax) (svcname sv) len (t_flags tx) (cd tx)
              (tpdata (tp_heap (mem s)) (t_data tx) len))
    | _ => request_queued s1 s' t (t_svc tx) sv qs l
    end).
Proof. apply send_to_worker_run. Qed.

End Calls.

(** ** Witnesses *)

(** Client 6, which has the transaction 7, calls the service 2 with 5 bytes. *)
Definition wit_call : sb (bst Z) :=
  wit_run (wit_msg (call_message wit_name 5 0)) 0 0 (Node Leaf 4 Leaf) (mkService wit_name false 0 0) (wit_tx 0)
    (wit_lists [Q_t_clientq 7] []).

Lemma wit_call_registry : registry_ok wit_call /\ registered wit_call wit_name 2.
Proof.
  split; [split|].
  - intros p ->%list_elem_of_singleton. split; [done | vm_compute; eauto].
  - cbn. repeat split; intros y Hy; by apply not_elem_of_nil in Hy.
  - split; [by left | reflexivity].
Qed.

Lemma wit_call_accept :
  can_accept wit_call (list_to_map (wit_lists [Q_t_clientq 7] [])) 6 [7] [Q_t_clientq 7].
Proof.
  split; [vm_compute; reflexivity|]. split; [|split; [|split; [|split]]].
  - split; [reflexivity|]. split; [reflexivity|]. split; [reflexivity|]. split; reflexivity.
  - split; [apply qrep_check_ok; vm_compute; reflexivity|]. split; [vm_compute; reflexivity|].
    intros t ->%list_elem_of_singleton. split; [discriminate | eexists; reflexivity].
  - split; [reflexivity|]. split; [vm_compute; lia|]. split; [reflexivity|]. split; [constructor|].
    intros v Hv. by apply not_elem_of_nil in Hv.
  - right. split; [apply (bool_decide_unpack _); vm_compute; exact I|].
    exists 70. split; apply (bool_decide_unpack _); vm_compute; exact I.
  - vm_compute. lia.
Qed.

Lemma svracall_answers_witness :
  wp (svracall LP64 (handle LP64 1) 6 (Ptr 2 32)) wit_call (fun _ s' =>
    exists v, v <> 77 /\ stream 9 s' = [x00] ++ le_encode 2 v).
Proof.
  destruct wit_call_registry as [Hr Hreg].
  edestruct (svracall_answers LP64 0 wit_call 6 (mkClient 9 0 NULL None Leaf 0) (Ptr 2 32) wit_name 5 0
    (list_to_map (wit_lists [Q_t_clientq 7] []))) as [_ Hacc];
    [discriminate | reflexivity | split; [reflexivity | split; reflexivity] | sane_check | exact Hr
    | message_check | reflexivity | lia | lia |].
  destruct (Hacc 2 [7] [Q_t_clientq 7] Hreg wit_call_accept) as [Hpos _].
  eapply wp_mono; [apply Hpos; lia|]. intros [] s' (v & d & s1 & A & ->). exists v.
  destruct (ac_cd _ _ _ _ _ _ _ _ _ _ _ _ _ _ _ A) as [_ Hv]. split; [intros ->; apply Hv; by left|].
  exact (ac_client _ _ _ _ _ _ _ _ _ _ _ _ _ _ _ A).
Defined.

(** The worker 3 waits for the service 2, and the data of the request 7 has arrived. *)
Definition wit_arrived_lists : list (qaddr * list qaddr) :=
  [(Q_tpclients, [Q_global 3; Q_global 6]); (Q_requests 3, []); (Q_replies 3, []);
   (Q_waitq 2, [Q_adv_waitq 4]); (Q_requests 6, [Q_t_clientq 7]); (Q_replies 6, []);
   (Q_tptransactions, [Q_t_global 7]); (Q_t_svc_waitq 7, [])].
Definition wit_arrived : sb (bst Z) :=
  wit_run wit_mem2 0 0 (Node Leaf 4 Leaf) (mkService wit_name false 0 0) (wit_tx 0) wit_arrived_lists.

Lemma send_to_worker_dispatches_witness :
  wp (send_to_worker LP64 6 (Ptr 1 32)) wit_arrived (fun _ s' => executor <$> trans s' !! 7 = Some 4).
Proof.
  eapply wp_mono.
  - apply (send_to_worker_dispatches LP64 wit_arrived 6 (mkClient 9 0 NULL None Leaf 0) (Ptr 1 32) 7 (wit_tx 0)
      (mkService wit_name false 0 0) (list_to_map wit_arrived_lists) [] [Q_adv_waitq 4] 2);
      [discriminate | reflexivity | split; [reflexivity | split; reflexivity] | sane_check | discriminate
      | vm_compute; reflexivity | discriminate | reflexivity | discriminate | reflexivity
      | vm_compute; reflexivity | vm_compute; reflexivity | apply wit_buf2 |].
    intros _ _. exists 4, [], 3, (mkClient 5 0 NULL None (Node Leaf 4 Leaf) 0), (mkAdvert 2 3 1000 0 0).
    split; [reflexivity|]. split; [split; [discriminate|]; split; [reflexivity|]; split; [discriminate | reflexivity]|].
    split; [discriminate|]. split; [discriminate|]. split; [reflexivity|].
    split; [split; [reflexivity | split; reflexivity]|].
    intros a Ha. apply list_elem_of_singleton in Ha as ->. split; [discriminate|].
    split; [eexists; reflexivity|]. right. exists (Q_waitq 2), [Q_adv_waitq 4].
    split; [vm_compute; reflexivity | by left].
  - cbn beta iota. intros [] s' (s1 & T1 & w & wx & ax & _ & Hs). cbn iota in Hs.
    rewrite (ss_trans _ _ _ _ _ _ _ _ _ _ Hs), lookup_insert_eq. reflexivity.
Defined.
