(* ===== verification/CallPath.v ===== *)
(** * The path of a call

    From the bytes that [tpacall] writes to the bytes that the worker's [tpservice]
    reads: the messages of a call through the event loop, the handlers and
    the queues. *)

From Stdlib Require Import ZArith Lia.
From S2P Require Import Prelude Constants ByteOrder CString SearchTree Queue Memory TpMemory Keeps.
From S2P Require Import SbState SbObjects SbHandlers SbLemmas TxIo Xatmi Dispatch EventLoop Registry Messages Replies.
From S2P Require Import Transactions Calls.

Local Open Scope Z_scope.

Section Path.
Context {T : Type} `{SearchTree T Z} (dm : data_model).
Implicit Types (s : sb T) (x : tpclient T) (qs : gmap qaddr (list qaddr)) (name : list byte).

(** ** A message arrives *)

(** A client that waits for a message of [n] bytes. *)
Definition expects s x (h : handler) (n : nat) : Prop :=
  handler_fn x = Some h /\ used x = 0 /\ tpbuf dm (tp_heap (mem s)) (input x) (Z.of_nat n).

(** The state in which a client's handler runs. *)
Definition arrived s (c : Z) x (m : tpmem) : sb T :=
  set_clients (<[c := set_io 0 NULL None x]> (clients s)) (set_mem m s).

Lemma wp_arrives s c x h bs qs Q :
  c <> 0 -> clients s !! c = Some x -> expects s x h (length bs) -> bs <> [] -> sane s qs ->
  (forall m, sane (arrived s c x m) qs -> message dm (arrived s c x m) (input x) bs ->
    same_buffers (tp_heap (mem s)) (tp_heap m) (pblk (input x)) ->
    wp (handle dm HANDLE_DEPTH h c (input x)) (arrived s c x m) Q) ->
  wp (iowait_client dm c (ReadBytes bs)) s Q.
Proof.
  intros Hc Hx (Hh & Hu & Hb) Hne [Hq Hwf Hm] HQ.
  pose proof Hb as (_ & _ & b & Hblk & _).
  destruct (store_bytes_at dm (mem s) (input x) _ 0 bs Hb) as (m' & E & Hb' & Hd' & _ & Hsame & _); [lia | lia |].
  pose proof (pres_in_heap _ (pres_store_bytes (ptr_add (input x) 0) bs) (mem s)) as Hk.
  rewrite E in Hk. destruct Hk as [Kw Ko].
  unfold wp. rewrite (iowait_client_bytes dm s c x _ b bs) by (try done; lia).
  rewrite (store_bytes_run dm _ _ _ _ _ b) in E by (try done; lia). injection E as E.
  unfold filled. rewrite Hu, Z.add_0_l, Z.eqb_refl, Hh.
  rewrite (bind_run _ _ s (set_mem m' s) tt) by (unfold modify; by rewrite E).
  rewrite (bind_run _ _ _ (arrived s c x m') tt) by (by apply (put_client_run c _ x (set_mem m' s))).
  rewrite (bind_run _ _ _ (arrived s c x m') h) by done. apply HQ.
  - split; [done | by apply Kw | by apply Ko].
  - split; [exact Hb'|]. etransitivity; [exact Hd'|]. unfold wr. cbn [Z.to_nat take app Nat.add].
    rewrite drop_ge, app_nil_r; [done|]. pose proof (length_tpdata dm _ _ _ Hb). lia.
  - exact Hsame.
Qed.

Lemma arrived_idle x : idle (set_io 0 NULL None x).
Proof. done. Qed.

(** The first byte of a message whose rest is not empty. *)
Lemma wp_first_byte s c x b h n qs Q :
  c <> 0 -> clients s !! c = Some x -> expects s x H_command 1 -> sane s qs ->
  commands !! Z.to_nat (b2z b) = Some (h, n) -> n <> 0%nat ->
  (forall p m, tpbuf dm (tp_heap m) p (Z.of_nat n) -> sane (set_mem m s) qs ->
    same_buffers (tp_heap (mem s)) (tp_heap m) (pblk (input x)) ->
    (forall k, is_Some (blocks (tp_heap (mem s)) !! k) -> k <> pblk p) ->
    Q tt (set_clients (<[c := set_io 0 p (Some h) x]> (clients s)) (set_mem m s))) ->
  wp (iowait_client dm c (ReadBytes [b])) s Q.
Proof.
  intros Hc Hx He Hs Hcmd Hn HQ. eapply wp_arrives; [done | exact Hx | exact He | done | exact Hs |].
  intros m Hs1 [Hb1 Hd1] Hsame1. unfold HANDLE_DEPTH. rewrite handle_S.
  pose proof (command_run dm (handle dm 2) (arrived s c x m) c (set_io 0 NULL None x) (input x) b Hc
    ltac:(apply lookup_insert_eq) ltac:(done) Hb1 Hd1 ltac:(apply Hs1) ltac:(apply memory_left_oom, Hs1)) as Hrun.
  rewrite Hcmd in Hrun. destruct Hrun as (p & m' & Hp & _ & Hwf & Ho & Hsame2 & Hfresh & E).
  rewrite (proj2 (Nat.eqb_neq n 0)) in E by done. unfold wp. rewrite E.
  specialize (HQ p m' Hp). unfold arrived in HQ |- *. cbn [clients set_clients set_mem mem].
  rewrite insert_insert_eq. apply HQ.
  - split; [apply Hs | exact Hwf | apply Ho, Hs1].
  - eapply same_buffers_trans; [exact Hsame1 | exact Hsame2].
  - intros k Hk ->. destruct (decide (pblk p = pblk (input x))) as [Ep|Np].
    + rewrite Ep in Hfresh. destruct Hb1 as (_ & _ & b1 & Hb1 & _). by rewrite Hfresh in Hb1.
    + rewrite <- (Hsame1 _ Np Hk) in Hk. change (is_Some (blocks (tp_heap (mem (arrived s c x m))) !! pblk p)) in Hk.
      rewrite Hfresh in Hk. by destruct Hk.
Qed.

(** ** The call *)

(** The lists with a new request of [c]. *)
Definition q_requested (c t : Z) (ts : list Z) (rl : list qaddr) qs : gmap qaddr (list qaddr) :=
  <[Q_requests c := rl ++ [Q_t_clientq t]]> (delete (Q_t_clientq t) (q_new_trans t ts qs)).

(** A worker's advertisements are where they were. *)
Lemma requested_qnode s qs c t ts rl a :
  qrep (qm s) qs -> qs !! Q_requests c = Some rl -> qs !! Q_tptransactions = Some (Q_t_global <$> ts) ->
  qm s !! Q_t_clientq t = None -> qm s !! Q_t_svc_waitq t = None ->
  qnode qs (Q_adv_waitq a) -> qnode (q_requested c t ts rl qs) (Q_adv_waitq a).
Proof.
  intros Hq Hrl Hts Hc Hw. unfold q_requested, q_new_trans.
  assert (forall h l, qs !! h = Some l -> h <> Q_t_clientq t /\ h <> Q_t_svc_waitq t) as Hfresh.
  { intros h l Hh. split; intros ->; [apply (qrep_fresh _ _ _ _ _ Hq Hc Hh) | apply (qrep_fresh _ _ _ _ _ Hq Hw Hh)]; by left. }
  intros [Ha|(h & l & Hh & Hin)].
  - left. by rewrite lookup_insert_ne, lookup_delete_ne, !lookup_insert_ne.
  - right. destruct (Hfresh h l Hh) as [N1 N2]. destruct (decide (h = Q_requests c)) as [->|Nr].
    + exists (Q_requests c), (rl ++ [Q_t_clientq t]). rewrite lookup_insert_eq. split; [done|].
      apply elem_of_app. left. congruence.
    + destruct (decide (h = Q_tptransactions)) as [->|Nt].
      * rewrite Hts in Hh. injection Hh as <-. apply list_elem_of_fmap in Hin as (? & [=] & _).
      * exists h, l. by rewrite lookup_insert_ne, lookup_delete_ne, !lookup_insert_ne.
Qed.

(** The call as it is written by [tpacall]: type, header, data. *)
Lemma acall_message name len flags :
  length name = XATMI_SERVICE_NAME_LENGTH ->
  acall_bytes name len flags = [z2b TPTCALL] ++ call_message name len flags.
Proof. intros Hn. unfold acall_bytes, call_message. by rewrite take_ge by lia. Qed.

Lemma wp_three (m1 m2 m3 : M (sb T) unit) s Q :
  wp (m1 ;; m2) s (fun _ s1 => wp m3 s1 Q) -> wp (m1 ;; m2 ;; m3) s Q.
Proof. rewrite !wp_bind. intros Hw. eapply wp_mono; [exact Hw|]. intros. by rewrite wp_bind. Qed.

(** Its arrival; a call without data ends with the header. *)
Definition call_arrives (c : Z) name (flags : Z) (d : list byte) : M (sb T) unit :=
  iowait_client dm c (ReadBytes [z2b TPTCALL]) ;;
  iowait_client dm c (ReadBytes (call_message name (Z.of_nat (length d)) flags)) ;;
  match d with [] => mret tt | _ => iowait_client dm c (ReadBytes d) end.

Section Call.
Context (s : sb T) (qs : gmap qaddr (list qaddr)) (c svc a w : Z) (x wx : tpclient T) (sv : SbState.tpservice)
  (ax : tpadvertisement) (ts : list Z) (rl l' : list qaddr) (name d : list byte) (flags : Z).
Hypothesis caller : c <> 0 /\ clients s !! c = Some x /\ expects s x H_command 1.
Hypothesis state_sane : sane s qs.
Hypothesis state_registry : registry_ok s.
Hypothesis accepts : can_accept s qs c ts rl.
Hypothesis service : registered s name svc /\ svcs s !! svc = Some sv /\ wait_contains_transactions sv = false.
Hypothesis worker : waiting_worker s qs c w a wx ax /\ qs !! Q_waitq svc = Some (Q_adv_waitq a :: l').
Hypothesis two_fds : fd x <> fd wx.
Hypothesis call_ok : length name = XATMI_SERVICE_NAME_LENGTH /\ - 2 ^ 31 <= flags < 2 ^ 31 /\
  Z.of_nat (length d) < 2 ^ 31.

(** What has happened when the data of the call has arrived. *)
Definition delivered (s' : sb T) : Prop := exists v,
  v <> 0 /\ v ∉ live_cds s ts /\
  stream (fd x) s' = stream (fd x) s ++ accepted_bytes v /\
  stream (fd wx) s' = stream (fd wx) s ++
    work_message (a_opaque ax) (svcname sv) (Z.of_nat (length d)) flags v d /\
  (exists p wp, clients s' = <[w := set_io 0 wp (Some H_command) (set_wait4 (next s) wx)]>
    (<[c := set_io 0 p (Some H_command) x]> (clients s)) /\ tpbuf dm (tp_heap (mem s')) p 1 /\
    tpbuf dm (tp_heap (mem s')) wp 1) /\
  (exists now p, trans s' = <[next s := mkTrans c svc now a v p 0 0 flags]> (trans s)) /\
  (forall f, f <> fd x -> f <> fd wx -> stream f s' = stream f s) /\ svcs s' = svcs s /\ advs s' = advs s.

Notation len := (Z.of_nat (length d)).
Notation t := (next s).

(** The lists that matter are as before. *)
Lemma requested_lists :
  q_requested c t ts rl qs !! Q_requests c = Some (rl ++ [Q_t_clientq t]) /\
  q_requested c t ts rl qs !! Q_waitq svc = Some (Q_adv_waitq a :: l') /\
  q_requested c t ts rl qs !! Q_t_svc_waitq t = Some [].
Proof.
  destruct worker as [_ Hw]. unfold q_requested, q_new_trans. rewrite lookup_insert_eq.
  rewrite !(lookup_insert_ne _ (Q_requests c)), !lookup_delete_ne, !(lookup_insert_ne _ Q_tptransactions) by done.
  rewrite lookup_insert_eq. split_and!; [done | by rewrite !lookup_insert_ne | done].
Qed.

Lemma requested_worker s5 :
  advs s5 = advs s -> clients s5 !! w = Some wx -> waiting_worker s5 (q_requested c t ts rl qs) c w a wx ax.
Proof.
  intros Ea Ew. destruct worker as [[(A1 & A2 & A3 & A4) (W1 & W2 & W3 & W4 & W5)] _].
  destruct accepts as (Hrl & (_ & _ & _ & F1 & F2) & (_ & Hts & _) & _).
  split; [by rewrite Ea|]. split_and!; [done | done | done | done |].
  intros b Hb. destruct (W5 b Hb) as (B1 & B2 & B3). rewrite Ea. split_and!; [done | done |].
  eapply requested_qnode; [apply state_sane | done..].
Qed.

(** The switchboard when the data of the accepted call is there, and [send_to_worker] runs. *)
Record ready_to_forward s5 (v : Z) (dp : ptr) (now : Z * Z) : Prop := {
  rf_clients : clients s5 = <[c := set_io 0 NULL None x]> (clients s);
  rf_sane : sane s5 (q_requested c t ts rl qs);
  rf_data : message dm s5 dp d;
  rf_trans : trans s5 = <[t := mkTrans c svc now 0 v dp 0 0 flags]> (trans s);
  rf_rest : svcs s5 = svcs s /\ advs s5 = advs s;
  rf_cd : v <> 0 /\ v ∉ live_cds s ts;
  rf_client : stream (fd x) s5 = stream (fd x) s ++ accepted_bytes v;
  rf_others f : f <> fd x -> stream f s5 = stream f s;
}.

Lemma wp_forward s5 v dp now :
  ready_to_forward s5 v dp now -> wp (send_to_worker dm c dp) s5 (fun _ s' => delivered s').
Proof.
  intros [Ecl Hs5 Hm5 Etr [R2 R3] [V1 V2] F1 F2]. set (x5 := set_io 0 NULL None x) in *.
  destruct caller as (Hc & _), service as (Hreg & Hsv & Hwct), requested_lists as (L1 & L2 & L3).
  set (tx := mkTrans c svc now 0 v dp 0 0 flags) in *.
  assert (w <> c /\ clients s !! w = Some wx) as [Hwc Hwx] by (destruct worker as [[_ (_ & ? & ? & _)] _]; done).
  assert (waiting_worker s5 (q_requested c t ts rl qs) c w a wx ax) as Hww.
  { apply requested_worker; [exact R3 | by rewrite Ecl, lookup_insert_ne by done]. }
  eapply wp_mono.
  { eapply (send_to_worker_run dm s5 c x5 dp t tx sv _ rl (Q_adv_waitq a :: l') len);
      [done | by rewrite Ecl, lookup_insert_eq | done | exact Hs5 | | exact L1 | | by rewrite Etr, lookup_insert_eq | | by rewrite R2
      | exact L2 | exact L3 | apply Hm5 | intros _ _; by exists a, l', w, wx, ax].
    - intros ->. by destruct Hm5 as [(_ & ? & _) _].
    - destruct accepts as (_ & (? & _) & _). lia.
    - cbn. destruct Hreg as [Hin _]. by destruct (proj1 state_registry svc Hin). }
  cbn beta iota. rewrite Hwct. intros _ s' (s6 & T6 & w' & wx' & ax' & [(_ & A2 & _ & <-) (_ & _ & W3 & _)] & S6).
  destruct Hww as [(_ & A2' & _ & A4') _]. rewrite A2 in A2'. injection A2' as ->. rewrite A4' in W3, S6.
  rewrite Ecl, lookup_insert_ne, Hwx in W3 by done. injection W3 as <-.
  destruct (td_clients _ _ _ _ _ _ T6) as (p6 & E6 & B6 & _), (ss_clients _ _ _ _ _ _ _ _ _ _ S6) as (p7 & E7 & B7 & _).
  destruct (td_rest _ _ _ _ _ _ T6) as (_ & Et6 & Es6 & Ea6 & _), (ss_rest _ _ _ _ _ _ _ _ _ _ S6) as (Es7 & Ea7 & _).
  exists v. split_and!; [exact V1 | exact V2 | | | | | | congruence | congruence].
  - rewrite (ss_others _ _ _ _ _ _ _ _ _ _ S6) by done.
    by rewrite (td_client _ _ _ _ _ _ T6 : stream (fd x) s6 = _), app_nil_r.
  - rewrite (ss_worker _ _ _ _ _ _ _ _ _ _ S6), (td_others _ _ _ _ _ _ T6 (fd wx)), F2 by (intros E; by apply two_fds).
    destruct Hm5 as [_ Hm5]. unfold tx. cbn [t_data t_flags cd]. by rewrite Hm5.
  - exists p6, p7. rewrite E7, E6, Ecl, insert_insert_eq. split_and!; [done | | exact B7].
    by apply (ss_buffers _ _ _ _ _ _ _ _ _ _ S6).
  - exists now, dp. by rewrite (ss_trans _ _ _ _ _ _ _ _ _ _ S6), Et6, Etr, insert_insert_eq.
  - intros f Hfx Hfw. rewrite (ss_others _ _ _ _ _ _ _ _ _ _ S6) by done.
    rewrite (td_others _ _ _ _ _ _ T6 f) by done. by apply F2.
Qed.

(** The type and the header: the call is accepted, and its data is expected, or, if it has
    none, the call is forwarded at once. *)
Lemma wp_call_header Q :
  (forall p m m2 v dp s3, let x2 := set_io 0 NULL None x in
    accepted dm (arrived (set_clients (<[c := set_io 0 p (Some H_svracall) x]> (clients s)) (set_mem m s)) c x m2) s3
      c x2 svc len flags t v dp p qs ts rl ->
    0 < len -> Q tt (set_clients (<[c := set_io 0 dp (Some H_send_to_worker) x2]> (clients s3)) s3)) ->
  (forall s', len = 0 -> delivered s' -> Q tt s') ->
  wp (iowait_client dm c (ReadBytes [z2b TPTCALL]) ;;
      iowait_client dm c (ReadBytes (call_message name len flags))) s Q.
Proof.
  intros HQ HQ0. destruct caller as (Hc & Hx & He), call_ok as (Hn & Hf & Hl), service as (Hreg & _).
  assert (length (call_message name len flags) = 23%nat) as H23
    by (unfold call_message; rewrite !length_app, !length_le_encode, Hn; done).
  wp_step. eapply (wp_first_byte s c x _ H_svracall 23); [done | exact Hx | exact He | exact state_sane | done | done |].
  intros p m Hp Hs1 _ _. set (s1 := set_clients _ _). set (x1 := set_io 0 p (Some H_svracall) x).
  eapply (wp_arrives s1 c x1 H_svracall _ qs); [done | apply lookup_insert_eq | | | |].
  - split; [done|]. split; [done|]. rewrite H23. exact Hp.
  - intros E. by rewrite E in H23.
  - destruct Hs1 as [? ? ?]. by split.
  - intros m2 Hs2 Hm2 _. unfold HANDLE_DEPTH. rewrite handle_S.
    assert (clients (arrived s1 c x1 m2) !! c = Some (set_io 0 NULL None x)) as Hx2 by apply lookup_insert_eq.
    eapply (svracall_accept dm (handle dm 2) (arrived s1 c x1 m2) c _ p name len flags svc qs ts rl);
      [done | exact Hx2 | exact Hs2 | exact state_registry | exact Hm2 | done | lia | done | exact Hreg | exact accepts |].
    intros v dp s3 A. destruct (ac_rest _ _ _ _ _ _ _ _ _ _ _ _ _ _ _ A) as (E1 & E2 & E3 & _).
    destruct (decide (d = [])) as [Ed|Hd].
    + pose proof (ac_data _ _ _ _ _ _ _ _ _ _ _ _ _ _ _ A) as Hb. assert (len = 0) as El by (by rewrite Ed).
      rewrite El in Hb. eapply (wp_svriowait_empty dm _ c (set_io 0 NULL None x)); [done | by rewrite E1 | done | done |].
      rewrite handle_S. destruct (ac_trans _ _ _ _ _ _ _ _ _ _ _ _ _ _ _ A) as (now & Etr).
      eapply wp_mono; [apply (wp_forward s3 v dp now) | intros [] s'; by apply HQ0]. constructor; try apply A; try done.
      * rewrite E1. cbn. by rewrite !insert_insert_eq.
      * split; [by rewrite El|]. rewrite El, Ed. apply nil_length_inv. pose proof (length_tpdata dm _ _ _ Hb). lia.
    + assert (0 < len) as Hpos by (destruct d; [done | cbn; lia]).
      eapply (wp_svriowait dm _ c (set_io 0 NULL None x) dp len); [done | by rewrite E1 | done | apply A | done |].
      by eapply (HQ p m m2 v dp s3).
Qed.

Lemma wp_call_arrives : wp (call_arrives c name flags d) s (fun _ s' => delivered s').
Proof.
  apply wp_three. apply wp_call_header; [|intros s' Hl Ha; destruct d; [done | cbn in Hl; lia]].
  cbv zeta. intros p m m2 v dp s3 A Hpos. set (x2 := set_io 0 NULL None x) in *. set (s2 := arrived _ c x m2) in *.
  destruct caller as (Hc & Hx & He), (ac_rest _ _ _ _ _ _ _ _ _ _ _ _ _ _ _ A) as (R1 & R2 & R3 & _).
  set (x4 := set_io 0 dp (Some H_send_to_worker) x2). set (s4 := set_clients _ s3).
  pose proof (ac_sane _ _ _ _ _ _ _ _ _ _ _ _ _ _ _ A) as Hs3.
  replace (match d with [] => _ | _ => _ end) with (iowait_client (T := T) dm c (ReadBytes d)) by (by destruct d).
  eapply (wp_arrives s4 c x4 H_send_to_worker d (q_requested c t ts rl qs));
    [done | apply lookup_insert_eq | split; [done|]; split; [done | apply A] | by destruct d | by destruct Hs3 |].
  intros m5 Hs5 Hm5 _. unfold HANDLE_DEPTH. rewrite handle_S. cbn [input x4 set_io].
  destruct (ac_trans _ _ _ _ _ _ _ _ _ _ _ _ _ _ _ A) as (now & Etr). apply (wp_forward _ v dp now).
  constructor; try apply A; try done. cbn. rewrite R1. cbn. by rewrite !insert_insert_eq.
Qed.

End Call.

(** ** Properties *)

(** C5. A call gets to a worker.  When a worker waits for a service and a client's [tpacall]
    of it arrives, its parts through the event loop, then in the end, without a
    fault: the caller has been sent status 0 and a new descriptor, not zero and not in
    use; the worker at the head of the service's queue has been sent the request, with
    the routine it advertised, the flags, that descriptor and the caller's data; the
    transaction records the caller, the service and the worker, and the worker's
    [wait4] the transaction; both are expected to send their next command, and nobody else
    is sent anything. *)
Theorem call_reaches_worker s qs c svc a w x wx sv ax ts rl l' name d flags :
  c <> 0 /\ clients s !! c = Some x /\ expects s x H_command 1 ->
  sane s qs -> registry_ok s -> can_accept s qs c ts rl ->
  registered s name svc /\ svcs s !! svc = Some sv /\ wait_contains_transactions sv = false ->
  waiting_worker s qs c w a wx ax /\ qs !! Q_waitq svc = Some (Q_adv_waitq a :: l') ->
  fd x <> fd wx ->
  length name = XATMI_SERVICE_NAME_LENGTH /\ - 2 ^ 31 <= flags < 2 ^ 31 /\ Z.of_nat (length d) < 2 ^ 31 ->
  acall_bytes name (Z.of_nat (length d)) flags ++ d =
    [z2b TPTCALL] ++ call_message name (Z.of_nat (length d)) flags ++ d /\
  wp (call_arrives c name flags d) s (fun _ s' => exists v,
    v <> 0 /\ v ∉ live_cds s ts /\
    stream (fd x) s' = stream (fd x) s ++ accepted_bytes v /\
    stream (fd wx) s' = stream (fd wx) s ++
      work_message (a_opaque ax) (svcname sv) (Z.of_nat (length d)) flags v d /\
    (exists p wp, clients s' = <[w := set_io 0 wp (Some H_command) (set_wait4 (next s) wx)]>
      (<[c := set_io 0 p (Some H_command) x]> (clients s)) /\ tpbuf dm (tp_heap (mem s')) p 1 /\
      tpbuf dm (tp_heap (mem s')) wp 1) /\
    (exists now p, trans s' = <[next s := mkTrans c svc now a v p 0 0 flags]> (trans s)) /\
    (forall f, f <> fd x -> f <> fd wx -> stream f s' = stream f s) /\ svcs s' = svcs s /\ advs s' = advs s).
Proof.
  intros Hcaller Hs Hr Hacc Hsvc Hw Hfd Hcall. split.
  - rewrite acall_message by apply Hcall. by rewrite <- app_assoc.
  - exact (wp_call_arrives s qs c svc a w x wx sv ax ts rl l' name d flags Hcaller Hs Hr Hacc Hsvc Hw Hfd Hcall).
Qed.

End Path.

(** ** Witness *)

(** The client 6, which has the transaction 7, is about to call the service 2, for which
    the worker 3 waits. *)
Definition wit_calling : sb (bst Z) :=
  let s := wit_run (wit_msg [x00]) 0 0 (Node Leaf 4 Leaf) (mkService wit_name false 0 0) (wit_tx 0) wit_arrived_lists in
  set_clients (<[6 := mkClient 9 0 (Ptr 2 32) (Some H_command) Leaf 0]> (clients s)) s.

Lemma wit_calling_accept : can_accept wit_calling (list_to_map wit_arrived_lists) 6 [7] [Q_t_clientq 7].
Proof.
  split; [vm_compute; reflexivity|]. split; [|split; [|split; [|split]]].
  - split; [reflexivity|]. split; [reflexivity|]. split; [reflexivity|]. split; reflexivity.
  - split; [apply qrep_check_ok; vm_compute; reflexivity|]. split; [vm_compute; reflexivity|].
    intros t ->%list_elem_of_singleton. split; [discriminate | eexists; reflexivity].
  - split; [reflexivity|]. split; [vm_compute; lia|]. split; [reflexivity|]. split; [constructor|].
    intros v Hv. by apply not_elem_of_nil in Hv.
  - right. split; [apply (bool_decide_unpack _); vm_compute; exact I|].
    exists 70. split; apply (bool_decide_unpack _); vm_compute; exact I.
  - vm_compute. lia.
Qed.

Lemma call_reaches_worker_witness :
  wp (call_arrives LP64 6 wit_name 0 [x61; x62; x63]) wit_calling (fun _ s' =>
    exists v, v <> 77 /\ stream 9 s' = [x00] ++ le_encode 2 v /\
      stream 5 s' = work_message 1000 wit_name 3 0 v [x61; x62; x63]).
Proof.
  edestruct (call_reaches_worker LP64 wit_calling (list_to_map wit_arrived_lists) 6 2 4 3
    (mkClient 9 0 (Ptr 2 32) (Some H_command) Leaf 0) (mkClient 5 0 NULL None (Node Leaf 4 Leaf) 0)
    (mkService wit_name false 0 0) (mkAdvert 2 3 1000 0 0) [7] [Q_t_clientq 7] [] wit_name [x61; x62; x63] 0)
    as [_ Hw].
  - split; [discriminate|]. split; [reflexivity|]. split; [reflexivity|]. split; [reflexivity | buf_check].
  - sane_check.
  - apply wit_call_registry.
  - exact wit_calling_accept.
  - split; [apply wit_call_registry|]. split; reflexivity.
  - split; [|vm_compute; reflexivity].
    split; [split; [discriminate|]; split; [reflexivity|]; split; [discriminate | reflexivity]|].
    split; [discriminate|]. split; [discriminate|]. split; [reflexivity|].
    split; [split; [reflexivity | split; reflexivity]|].
    intros a Ha. apply list_elem_of_singleton in Ha as ->. split; [discriminate|].
    split; [eexists; reflexivity|]. right. exists (Q_waitq 2), [Q_adv_waitq 4].
    split; [vm_compute; reflexivity | by left].
  - discriminate.
  - split; [reflexivity|]. split; [lia | cbn; lia].
  - eapply wp_mono; [exact Hw|]. intros [] s' (v & _ & Hv & H1 & H2 & _). exists v.
    split; [intros ->; apply Hv; by left|]. split; [exact H1 | exact H2].
Defined.
