(* ===== verification/ReturnPath.v ===== *)
(** * The path of a reply

    From the bytes that a worker's [tpreturn] writes to the values that the caller's
    [tpgetrply] returns: the messages of a return through the event loop, the
    handlers and the queues. *)

From Stdlib Require Import ZArith Lia.
From S2P Require Import Prelude Constants ByteOrder CString SearchTree Queue Memory TpMemory Keeps.
From S2P Require Import SbState SbObjects SbHandlers SbLemmas TxIo Xatmi Dispatch EventLoop Registry Messages Replies.
From S2P Require Import Transactions Calls CallPath.

Local Open Scope Z_scope.

Section Path.
Context {T : Type} `{SearchTree T Z} (dm : data_model).
Implicit Types (s : sb T) (x cl : tpclient T) (tx : tptransaction) (qs : gmap qaddr (list qaddr)).

(** The message as it is written by [tpreturn]: type, header, data. *)
Lemma return_parts rv rc d :
  return_bytes rv rc d = [z2b TPTRETN] ++ return_message rv rc (Z.of_nat (length d)) ++ d.
Proof. unfold return_bytes, return_message. by rewrite <- !app_assoc. Qed.

(** Its arrival; a result without data ends with the header. *)
Definition return_arrives (c rv rc : Z) (d : list byte) : M (sb T) unit :=
  iowait_client dm c (ReadBytes [z2b TPTRETN]) ;;
  iowait_client dm c (ReadBytes (return_message rv rc (Z.of_nat (length d)))) ;;
  match d with [] => mret tt | _ => iowait_client dm c (ReadBytes d) end.

Section Return.
Context (s : sb T) (qs : gmap qaddr (list qaddr)) (c t blen rv rc : Z) (x cl : tpclient T) (tx : tptransaction)
  (l1 l2 rl : list qaddr) (d : list byte).
Hypothesis worker : c <> 0 /\ clients s !! c = Some x /\ expects dm s x H_command 1 /\ wait4 x = t.
Hypothesis state_sane : sane s qs.
Hypothesis executing : t <> 0 /\ trans s !! t = Some tx /\ t_svc tx <> 0 /\
  tpbuf dm (tp_heap (mem s)) (t_data tx) blen /\ pblk (t_data tx) <> pblk (input x).
Hypothesis caller : t_client tx <> 0 /\ t_client tx <> c /\ clients s !! t_client tx = Some cl /\
  (awaits cl t = true -> idle cl).
Hypothesis lists : qs !! Q_requests (t_client tx) = Some (l1 ++ Q_t_clientq t :: l2) /\
  qs !! Q_replies (t_client tx) = Some rl /\ trans_links_ok t qs.
Hypothesis result_ok : (rv = TPSUCCESS \/ rv = TPFAIL) /\ - 2 ^ 31 <= rc < 2 ^ 31 /\ Z.of_nat (length d) < 2 ^ 31.

Notation len := (Z.of_nat (length d)).

(** The transaction with its result. *)
Definition with_result (p : ptr) : tptransaction := set_data p (set_result rv rc tx).

(** What has happened when the whole message has arrived. *)
Record answered (s' : sb T) : Prop := {
  an_worker : exists p, clients s' !! c = Some (set_io 0 p (Some H_command) (set_wait4 0 x)) /\
    tpbuf dm (tp_heap (mem s')) p 1;
  an_sent : awaits cl t = true ->
    stream (fd cl) s' = stream (fd cl) s ++ reply_bytes rv (cd tx) rc d /\
    (forall f, f <> fd cl -> stream f s' = stream f s) /\
    (exists p, clients s' !! t_client tx = Some (set_io 0 p (Some H_command) (set_wait4 0 cl)) /\
      tpbuf dm (tp_heap (mem s')) p 1) /\
    trans s' = delete t (trans s) /\ qrep (qm s') (qdrop_trans t qs);
  an_queued : awaits cl t = false ->
    out s' = out s /\ clients s' !! t_client tx = Some cl /\
    (exists p, trans s' = <[t := set_executor 0 (with_result p)]> (trans s) /\
      tpbuf dm (tp_heap (mem s')) p len /\ tpdata (tp_heap (mem s')) p len = d) /\
    qrep (qm s') (<[Q_replies (t_client tx) := rl ++ [Q_t_clientq t]]>
      (<[Q_requests (t_client tx) := l1 ++ l2]> qs));
  an_others c' : c' <> c -> c' <> t_client tx -> clients s' !! c' = clients s !! c';
}.

Lemma result_values : swrap 8 rv = rv /\ swrap 32 rc = rc.
Proof.
  destruct result_ok as (Hrv & Hrc & _). split; [by destruct Hrv as [-> | ->] | by apply swrap_id].
Qed.

(** What [part2] did, seen from the state before the message. *)
Lemma answered_returned s1 s' x1 p :
  set_wait4 0 x1 = set_wait4 0 (set_io (used x1) (input x1) (handler_fn x1) x) ->
  (forall c', c' <> c -> clients s1 !! c' = clients s !! c') -> out s1 = out s ->
  trans s1 = <[t := with_result p]> (trans s) ->
  tpbuf dm (tp_heap (mem s1)) p len /\ tpdata (tp_heap (mem s1)) p len = d ->
  returned dm s1 s' c t x1 cl (with_result p) qs l1 l2 rl (reply_bytes rv (cd tx) rc d) -> answered s'.
Proof.
  intros Ex Hcl Ho Ht [Hp Hd] [R1 R2 R3 R4 _]. cbn [t_client with_result set_data set_result] in *.
  assert (forall f, stream f s1 = stream f s) as Hst by (intros f; unfold stream; by rewrite Ho).
  constructor.
  - destruct R1 as (q & Hq & Hb). exists q. split; [|done]. rewrite Hq.
    transitivity (Some (set_io 0 q (Some H_command) (set_wait4 0 (set_wait4 0 x1)))); [done|]. by rewrite Ex.
  - intros Ha. destruct (R2 Ha) as (S1 & S2 & S3 & S4 & S5). rewrite <- Hst, S4, Ht.
    split_and!; [done | | done | by rewrite delete_insert_eq | done].
    intros f Hf. by rewrite S2, Hst.
  - intros Ha. destruct (R3 Ha) as (S1 & S2 & S3 & S4 & S5). rewrite S1, S3, Ht.
    destruct (S5 _ Hp) as [Hp' Hd']. split_and!; [done | done | | done]. exists p. rewrite insert_insert_eq.
    split_and!; [done | exact Hp' | exact (eq_trans Hd' Hd)].
  - intros c' N1 N2. rewrite R4 by done. by apply Hcl.
Qed.

(** The type and the header: the result is stored, and delivered if it has no data. *)
Lemma wp_return_header Q :
  (forall p s3, (forall c', c' <> c -> clients s3 !! c' = clients s !! c') -> out s3 = out s -> sane s3 qs ->
    trans s3 = <[t := with_result p]> (trans s) -> tpbuf dm (tp_heap (mem s3)) p len -> 0 < len ->
    clients s3 !! c = Some (set_io 0 p (Some H_part2) x) -> Q tt s3) ->
  (forall s', len = 0 -> answered s' -> Q tt s') ->
  wp (iowait_client dm c (ReadBytes [z2b TPTRETN]) ;; iowait_client dm c (ReadBytes (return_message rv rc len))) s Q.
Proof.
  intros HQ HQ0. destruct worker as (Hc & Hx & He & Hw4), executing as (Ht & Htx & Hsv & Hb & Hne).
  destruct caller as (Hc1 & Hc2 & Hcl & Hicl), lists as (L1 & L2 & L3), result_values as [Erv Erc].
  wp_step. eapply (wp_first_byte dm s c x _ H_svrreturn 9); [done | exact Hx | exact He | exact state_sane | done | done |].
  intros p m Hp Hs1 Hsame1 Hfresh. set (s1 := set_clients _ _). set (x1 := set_io 0 p (Some H_svrreturn) x).
  destruct (tpbuf_frame dm _ _ _ _ _ Hsame1 Hne Hb) as [Hb1 _].
  assert (pblk (t_data tx) <> pblk p) as Hnep.
  { apply Hfresh. destruct Hb as (_ & _ & b & ? & _). eauto. }
  eapply (wp_arrives dm s1 c x1 H_svrreturn _ qs); [done | apply lookup_insert_eq | done | done | by destruct Hs1 |].
  intros m2 Hs2 Hm2 Hsame2. cbn [input x1 set_io] in *. set (s2 := arrived s1 c x1 m2) in *.
  destruct (tpbuf_frame dm _ _ _ _ _ Hsame2 Hnep Hb1) as [Hb2 _].
  assert (forall c', c' <> c -> clients s2 !! c' = clients s !! c') as Ecl.
  { intros c' Hc'. unfold s2, arrived, s1. cbn [clients set_clients set_mem]. by rewrite !lookup_insert_ne. }
  unfold HANDLE_DEPTH. rewrite handle_S. eapply wp_mono.
  { eapply (svrreturn_run dm 1 s2 c (set_io 0 NULL None x) t tx cl qs l1 l2 rl blen p rv rc len); try done.
    - apply lookup_insert_eq.
    - by rewrite Ecl.
    - lia. }
  intros [] s' (q & s3 & St & Hs'). destruct (st_rest _ _ _ _ _ _ _ _ _ _ _ St) as (E1 & E2 & _ & _ & E5).
  pose proof (st_trans _ _ _ _ _ _ _ _ _ _ _ St) as Et. rewrite Erv, Erc in *. fold (with_result q) in *.
  destruct (Z.ltb_spec 0 len) as [Hpos|Hz].
  - subst s'. apply (HQ q).
    + intros c' Hc'. cbn [clients set_clients]. by rewrite lookup_insert_ne, E1, Ecl by done.
    + exact E5.
    + by destruct (st_sane _ _ _ _ _ _ _ _ _ _ _ St).
    + exact Et.
    + exact (st_data _ _ _ _ _ _ _ _ _ _ _ St).
    + done.
    + apply lookup_insert_eq.
  - apply HQ0; [lia|]. assert (d = []) as Ed by (by destruct d; [|cbn in Hz; lia]).
    eapply (answered_returned s3 s' (set_io 0 NULL None x) q); [done | | exact E5 | exact Et | | by rewrite Ed].
    + intros c' Hc'. by rewrite E1, Ecl.
    + pose proof (st_data _ _ _ _ _ _ _ _ _ _ _ St) as Hq. split; [exact Hq|].
      transitivity (@nil byte); [apply nil_length_inv | by rewrite Ed].
      pose proof (length_tpdata dm _ _ _ Hq). lia.
Qed.

Lemma wp_return_arrives : wp (return_arrives c rv rc d) s (fun _ s' => answered s').
Proof.
  apply wp_three. apply wp_return_header.
  - intros p s3 Ecl Eo Hs3 Et Hp Hpos Hx3. destruct worker as (Hc & _ & _ & Hw4), executing as (Ht & _ & Hsv & _).
    destruct caller as (Hc1 & Hc2 & Hcl & Hicl), lists as (L1 & L2 & L3).
    replace (match d with [] => _ | _ => _ end) with (iowait_client (T := T) dm c (ReadBytes d))
      by (by destruct d).
    eapply (wp_arrives dm s3 c _ H_part2 d qs); [done | exact Hx3 | done | by destruct d | done |].
    intros m Hs4 [Hm Hd] _. unfold HANDLE_DEPTH. rewrite handle_S. cbn [input set_io] in *.
    set (s4 := arrived s3 c _ m) in *. eapply wp_mono.
    { eapply (part2_run dm s4 c (set_io 0 NULL None (set_io 0 p (Some H_part2) x)) t (with_result p) cl qs l1 l2 rl len); try done.
      - apply lookup_insert_eq.
      - change (trans s4) with (trans s3). rewrite Et. apply lookup_insert_eq.
      - cbn. rewrite lookup_insert_ne by auto. by rewrite Ecl.
      - apply result_ok. }
    intros [] s' Hr. cbn [t_data with_result set_data] in Hr. rewrite Hd in Hr.
    eapply (answered_returned s4 s' _ p); [| | exact Eo | exact Et | by split | exact Hr]; [done|].
    intros c' Hc'. cbn. rewrite lookup_insert_ne by auto. by apply Ecl.
  - intros s' Hl Ha. destruct d; [done | cbn in Hl; lia].
Qed.

End Return.
(** ** Properties *)

(** C6. A result gets to its caller.  When the message of a worker's [tpreturn] arrives, its
    parts through the event loop, then in the end, without a fault, the worker is free
    and expected to send a command, and if the caller waits for this transaction or for
    any, the reply was sent to it and to nobody else, the transaction is deleted with its
    links, and the caller is expected to send a command; the reply makes the caller's
    [tpgetrply] return the transaction's descriptor with the worker's data, code and
    result, whichever data models the two have.  If the caller does not wait, nothing is
    sent, and the transaction with its result and data is the last of the caller's replies.  No
    other client is changed. *)
Theorem return_reaches_caller (dm' : data_model) s qs c t blen rv rc x cl tx l1 l2 rl d
    inc snt m ur lj asked data dlen olen flags :
  (* the switchboard *)
  c <> 0 /\ clients s !! c = Some x /\ expects dm s x H_command 1 /\ wait4 x = t -> sane s qs ->
  t <> 0 /\ trans s !! t = Some tx /\ t_svc tx <> 0 /\
    tpbuf dm (tp_heap (mem s)) (t_data tx) blen /\ pblk (t_data tx) <> pblk (input x) ->
  t_client tx <> 0 /\ t_client tx <> c /\ clients s !! t_client tx = Some cl /\
    (awaits cl t = true -> idle cl) ->
  qs !! Q_requests (t_client tx) = Some (l1 ++ Q_t_clientq t :: l2) /\
    qs !! Q_replies (t_client tx) = Some rl /\ trans_links_ok t qs ->
  (rv = TPSUCCESS \/ rv = TPFAIL) /\ - 2 ^ 31 <= rc < 2 ^ 31 /\ Z.of_nat (length d) < 2 ^ 31 ->
  (* the caller *)
  olen <> 0 /\ heap_wf (tp_heap m) /\ oom_now (tp_heap m) = false /\ tpbuf dm' (tp_heap m) data dlen ->
  return_bytes rv rc d = [z2b TPTRETN] ++ return_message rv rc (Z.of_nat (length d)) ++ d /\
  wp (return_arrives c rv rc d) s (fun _ s' =>
    (exists p, clients s' !! c = Some (set_io 0 p (Some H_command) (set_wait4 0 x)) /\
      tpbuf dm (tp_heap (mem s')) p 1) /\
    (forall c', c' <> c -> c' <> t_client tx -> clients s' !! c' = clients s !! c') /\
    if awaits cl t then
      stream (fd cl) s' = stream (fd cl) s ++ reply_bytes rv (cd tx) rc d /\
      (forall f, f <> fd cl -> stream f s' = stream f s) /\
      (exists p, clients s' !! t_client tx = Some (set_io 0 p (Some H_command) (set_wait4 0 cl)) /\
        tpbuf dm (tp_heap (mem s')) p 1) /\
      trans s' = delete t (trans s) /\ qrep (qm s') (qdrop_trans t qs)
    else
      out s' = out s /\ clients s' !! t_client tx = Some cl /\
      (exists p, trans s' = <[t := set_executor 0 (with_result rv rc tx p)]> (trans s) /\
        tpdata (tp_heap (mem s')) p (Z.of_nat (length d)) = d) /\
      qrep (qm s') (<[Q_replies (t_client tx) := rl ++ [Q_t_clientq t]]>
        (<[Q_requests (t_client tx) := l1 ++ l2]> qs))) /\
  (forall w : conn, conn_is w (reply_bytes rv (cd tx) rc d ++ inc) snt m ur lj ->
    wp (tpgetrply dm' false asked data olen flags) w (fun g w' =>
      g_ret g = uwrap 16 (cd tx) /\ g_len g = Z.of_nat (length d) /\ incoming w' = inc /\ tpurcode w' = rc /\
      tperrno (cmem w') = (if rv =? TPFAIL then TPESVCFAIL else 0) /\
      (d <> [] -> tpdata (tp_heap (cmem w')) (g_data g) (Z.of_nat (length d)) = d))).
Proof.
  intros Hw Hs He Hc Hl Hr (Ho & Hwf & Hoom & Hb). split; [apply return_parts|]. split.
  - eapply wp_mono; [eapply wp_return_arrives; [exact Hw | exact Hs | exact He | exact Hc | exact Hl | exact Hr]|].
    intros [] s' [A1 A2 A3 A4]. destruct (awaits cl t); [by auto|].
    destruct (A3 eq_refl) as (B1 & B2 & (p & B3 & _ & B4) & B5). eauto 10.
  - intros w Hcw. eapply wp_mono; [by eapply (tpgetrply_run dm' w inc snt m ur lj asked data dlen olen flags);
      [exact Hcw | apply Hr | done | done | done | exact Hb | apply Hr | apply Hr]|].
    intros g w' (G1 & _ & G3 & m' & ur' & C & E & H0' & H1').
    rewrite (ci_cmem _ _ _ _ _ _ C), (ci_tpurcode _ _ _ _ _ _ C), (ci_incoming _ _ _ _ _ _ C).
    split_and!; try done; [|intros Hd; by apply H1'].
    destruct (decide (d = [])) as [Hd|Hd]; [by apply H0' | by apply H1'].
Qed.

End Path.

(** ** Witness *)

(** The worker 3 executes the transaction 7, for which the client 6 waits, and is about to
    send its result. *)
Definition wit_returning : sb (bst Z) :=
  let s := wit_executing [x00] in
  set_clients (<[3 := mkClient 5 0 (Ptr 2 32) (Some H_command) Leaf 7]> (clients s)) s.

Lemma return_reaches_caller_witness :
  wp (return_arrives LP64 3 TPSUCCESS 5 [x61; x62; x63]) wit_returning (fun _ s' =>
    trans s' !! 7 = None /\ stream 9 s' = reply_bytes TPSUCCESS 77 5 [x61; x62; x63]) /\
  wp (tpgetrply LP64 false 77 (Ptr 1 32) 1 0) (wit_conn' (reply_bytes TPSUCCESS 77 5 [x61; x62; x63] ++ []))
    (fun g w' => g_ret g = 77 /\ tpurcode w' = 5 /\ tpdata (tp_heap (cmem w')) (g_data g) 3 = [x61; x62; x63]).
Proof.
  destruct (return_reaches_caller LP64 LP64 wit_returning (list_to_map (wit_lists [Q_t_clientq 7] [])) 3 7 2 TPSUCCESS 5
    (mkClient 5 0 (Ptr 2 32) (Some H_command) Leaf 7) (mkClient 9 0 NULL None Leaf 7) (wit_tx 4) [] [] []
    [x61; x62; x63] [] [] wit_mem' 0 false 77 (Ptr 1 32) 5 1 0) as (_ & Hw & Hg).
  - split; [discriminate|]. split; [reflexivity|]. split; [|reflexivity].
    split; [reflexivity|]. split; [reflexivity | buf_check].
  - sane_check.
  - split; [discriminate|]. split; [reflexivity|]. split; [discriminate|]. split; [buf_check | discriminate].
  - split; [discriminate|]. split; [discriminate|]. split; [reflexivity|].
    intros _. split; [reflexivity | split; reflexivity].
  - split; [vm_compute; reflexivity|]. split; [vm_compute; reflexivity | apply wit_links; by left].
  - split; [by left|]. split; [lia | cbn; lia].
  - split; [discriminate|]. split; [apply wit_mem_wf'|]. split; [reflexivity | apply wit_buf'].
  - split.
    + eapply wp_mono; [exact Hw|]. intros [] s' (_ & _ & S1 & _ & _ & S4 & _). rewrite S4.
      split; [apply lookup_delete_eq | etransitivity; [exact S1 | reflexivity]].
    + eapply wp_mono; [apply Hg, wit_conn_is'|]. intros g w' (G1 & _ & _ & G4 & _ & G6).
      split; [exact G1|]. split; [exact G4 | by apply G6].
Defined.
