(* ===== verification/Advertising.v ===== *)
(** * Advertising services

    [advert.c], [svradvertise.c] and [svrunadvertise.c]: a client's tree of
    advertisements as a map from service names, and the handlers of the two
    messages that change it. *)

From Stdlib Require Import ZArith Lia.
From S2P Require Import Prelude Constants ByteOrder CString SearchTree Queue Memory TpMemory.
From S2P Require Import SbState SbObjects SbHandlers SbLemmas TxIo Xatmi Dispatch EventLoop Registry Messages Replies.

Local Open Scope Z_scope.

Section Advertising.
Context {T : Type} `{SearchTree T Z} (dm : data_model).
Implicit Types (s : sb T) (x : tpclient T) (qs : gmap qaddr (list qaddr)) (name : list byte).

(** The name an advertisement is found by. *)
Definition akey s (a : Z) : list byte := key_of (adv_name s a).

(** The tree of a client points to live advertisements of live services, and is
    ordered by the names of the services. *)
Definition adverts_reg s x : Prop :=
  (forall a, a ∈ twalk (adverts x) -> a <> 0 /\ exists ax, advs s !! a = Some ax /\ is_Some (svcs s !! a_svc ax)) /\
  tordered (akey s) (adverts x).

(** The abstract view: which advertisement the client has for a name. *)
Definition advertised s x name (a : Z) : Prop := a ∈ twalk (adverts x) /\ akey s a = key_of name.

Lemma cmp_advertisement_compares s name : compares (akey s) (key_of name) (cmp_advertisement s name).
Proof. intros a. unfold cmp_advertisement, by_key, akey, key_of. apply strncmp_cname. Qed.

Lemma adverts_live_run s x : adverts_reg s x -> adverts_live (adverts x) s = Done (tt, s).
Proof.
  intros [Hl _]. unfold adverts_live, mbind, M_bind, gets. cbn [id].
  rewrite (proj2 (forallb_forall _ _)); [done|]. intros a Ha%list_elem_of_In.
  apply bool_decide_eq_true. destruct (Hl a Ha) as (_ & ax & Hax & Hs). by rewrite Hax.
Qed.

Lemma tfind_advertised s x name a :
  adverts_reg s x -> tfind (cmp_advertisement s name) (adverts x) = Some a <-> advertised s x name a.
Proof. intros [_ Ho]. apply (tfind_some (akey s)); [apply cmp_advertisement_compares | done]. Qed.

(** The names of live advertisements do not depend on structs that are added. *)
Lemma adverts_reg_ext s s' x :
  (forall a, a ∈ twalk (adverts x) -> advs s' !! a = advs s !! a) ->
  (forall p sv, svcs s !! p = Some sv -> svcs s' !! p = Some sv) ->
  adverts_reg s x -> adverts_reg s' x /\ forall a, a ∈ twalk (adverts x) -> akey s' a = akey s a.
Proof.
  intros Ha Hsv [Hl Ho].
  assert (forall a, a ∈ twalk (adverts x) -> akey s' a = akey s a) as Hk.
  { intros a Hin. destruct (Hl a Hin) as (_ & ax & Hax & [sv Hs]). unfold akey, adv_name.
    rewrite Ha, Hax by done. cbn. by rewrite Hs, (Hsv _ _ Hs). }
  split; [|done]. split.
  - intros a Hin. destruct (Hl a Hin) as (Ha0 & ax & Hax & [sv Hs]). split; [done|].
    exists ax. rewrite Ha by done. split; [done|]. rewrite (Hsv _ _ Hs). eauto.
  - eapply tordered_ext; [|exact Ho]. intros a Hin. by rewrite Hk.
Qed.

(** Addresses that the next two allocations can use. *)
Definition fresh_advert s : Prop :=
  advs s !! (next s + 1) = None /\ qm s !! Q_adv_waitq (next s + 1) = None.

(** What [new_advertisement] does. *)
Record advert_made s s' (c : Z) x name (opaque a svc : Z) qs qs1 : Prop := {
  am_registry : registry_ok s' /\ registered s' name svc;
  am_service : (registered s name svc /\ svcs s' = svcs s /\ qs1 = qs) \/
    ((forall p, ~ registered s name p) /\ qs1 = <[Q_waitq svc := []]> qs /\
      svcs s' = <[svc := mkService (strncpy XATMI_SERVICE_NAME_LENGTH name) false 0 0]> (svcs s));
  am_advert :
    (advertised s x name a /\ advs s' = advs s /\ clients s' = clients s /\ qrep (qm s') qs1) \/
    ((forall b, ~ advertised s x name b) /\ advs s !! a = None /\
      advs s' = <[a := mkAdvert svc c (ulong dm opaque) 0 0]> (advs s) /\
      qrep (qm s') (<[Q_adv_waitq a := []]> qs1) /\
      exists t', clients s' = <[c := set_adverts t' x]> (clients s) /\
        adverts_reg s' (set_adverts t' x) /\ twalk t' ≡ₚ a :: twalk (adverts x));
  am_rest : mem s' = mem s /\ out s' = out s /\ trans s' = trans s /\ closed s' = closed s;
  am_services p : p ∈ twalk (services s') <-> p = svc \/ p ∈ twalk (services s);
  am_fresh : (forall p, ~ registered s name p) -> svcs s !! svc = None;
}.

(** [new_advertisement] after the service was found or made. *)
Lemma new_advertisement_prefix s c x name opaque qs :
  c <> 0 -> clients s !! c = Some x -> registry_ok s -> adverts_reg s x -> memory_left s ->
  fresh_service s qs -> fresh_advert s ->
  exists svc a s2 qs1,
    a = next s + 1 /\ registry_ok s2 /\ registered s2 name svc /\ adverts_reg s2 x /\
    (forall b, b ∈ twalk (adverts x) -> akey s2 b = akey s b) /\ akey s2 a = key_of name /\
    ((registered s name svc /\ svcs s2 = svcs s /\ qs1 = qs) \/
     ((forall p, ~ registered s name p) /\ qs1 = <[Q_waitq svc := []]> qs /\
      svcs s2 = <[svc := mkService (strncpy XATMI_SERVICE_NAME_LENGTH name) false 0 0]> (svcs s))) /\
    advs s2 = <[a := mkAdvert svc c (ulong dm opaque) 0 0]> (advs s) /\ clients s2 = clients s /\
    qrep (qm s2) (<[Q_adv_waitq a := []]> qs1) /\ qs1 !! Q_adv_waitq a = None /\
    mem s2 = mem s /\ out s2 = out s /\ trans s2 = trans s /\ closed s2 = closed s /\
    (forall p, p ∈ twalk (services s2) <-> p = svc \/ p ∈ twalk (services s)) /\
    ((forall p, ~ registered s name p) -> svcs s !! svc = None) /\
    new_advertisement dm c name opaque s =
      (r ← tsearch_node (cmp_advertisement s2 (adv_name s2 a)) a (adverts x);
       match r with
       | Some (t', a2) =>
           put_client c (set_adverts t') ;;
           if a2 =? a then mret a else free_adv a ;; mret a2
       | None => free_adv a ;; mret 0
       end) s2.
Proof.
  intros Hc Hx Hr Hreg Hm Hfs [Hfa Hfq].
  destruct (new_service_run s name qs Hr Hm Hfs) as (svc & t' & sv' & m' & E1 & Hr1 & Hs1 & Hsvc & Hframe & Hcase).
  set (s1 := set_services t' _) in *. cbn zeta in E1.
  set (a := next s + 1) in *. assert (0 < a) as Ha by (destruct Hfs; unfold a; lia).
  assert (exists qs1, qrep m' qs1 /\ ((registered s name svc /\ sv' = svcs s /\ qs1 = qs) \/
     ((forall p, ~ registered s name p) /\ qs1 = <[Q_waitq svc := []]> qs /\
      sv' = <[svc := mkService (strncpy XATMI_SERVICE_NAME_LENGTH name) false 0 0]> (svcs s))) /\
     (forall p sv, svcs s !! p = Some sv -> sv' !! p = Some sv) /\
     (forall p, p ∈ twalk t' <-> p = svc \/ p ∈ twalk (services s)) /\
     ((forall p, ~ registered s name p) -> svcs s !! svc = None)) as (qs1 & Hq1 & Hcase1 & Hkeep & Hall & Hnew).
  { destruct Hcase as [(C1 & C2 & C3 & C4)|(C1 & C2 & C3 & C4 & C5 & _)].
    - exists qs. split; [done|]. split; [by left|]. rewrite C2, C3. split_and!; [done | | by intros Hno; destruct (Hno svc)].
      intros p. destruct C1 as [Hin _]. naive_solver.
    - exists (<[Q_waitq svc := []]> qs). split; [done|]. split; [by right|]. split_and!.
      + intros p sv Hp. rewrite C3, lookup_insert_ne; [done|]. intros <-. destruct Hfs as (_ & Hn & _). congruence.
      + intros p. rewrite C5. apply elem_of_cons.
      + intros _. rewrite C2. apply Hfs. }
  assert (m' !! Q_adv_waitq a = None) as Hma by (by rewrite Hframe).
  destruct (qrep_alloc m' qs1 (Q_adv_waitq a) (mkQUEUE QNULL QNULL) Hq1 Hma) as (m2 & Em2 & Hq2 & _).
  set (ax := mkAdvert svc c (ulong dm opaque) 0 0).
  set (s2 := set_qm m2 (set_advs (<[a := ax]> (advs s)) (set_next (a + 1) s1))).
  assert (adverts_reg s2 x /\ forall b, b ∈ twalk (adverts x) -> akey s2 b = akey s b) as [Hreg2 Hk2].
  { apply (adverts_reg_ext s s2); [|exact Hkeep | done]. intros b Hb. cbn. rewrite lookup_insert_ne; [done|].
    intros <-. destruct (proj1 Hreg a Hb) as (_ & bx & Hbx & _). congruence. }
  exists svc, a, s2, qs1. split_and!; try done.
  - transitivity (key s1 svc); [|apply Hs1]. unfold akey, adv_name, key, svc_name. cbn.
    by rewrite lookup_insert_eq.
  - apply eq_None_not_Some. intros [l Hl]. apply (qrep_fresh m' qs1 _ _ _ Hq1 Hma Hl). by left.
  - unfold new_advertisement. rewrite (bind_run _ _ s s tt) by (by rewrite (proj2 (Z.eqb_neq c 0))).
    rewrite (bind_run _ _ s s x) by by apply get_client_run.
    rewrite (bind_run _ _ _ _ _ E1), (proj2 (Z.eqb_neq svc 0)) by done.
    rewrite (bind_run _ _ s1 (set_next (a + 1) s1) a) by (by apply (alloc_struct_run s1)).
    rewrite (proj2 (Z.eqb_neq a 0)) by lia.
    unfold in_q, q_alloc, zoom, modify. unfold mbind at 1 2 3, M_bind at 1 2 3.
    cbn [qm set_advs set_next set_qm]. change (qm s1) with m'. rewrite Em2.
    change (set_qm m2 _) with s2. rewrite (bind_run _ _ s2 s2 tt) by by apply adverts_live_run.
    done.
Qed.

Lemma free_adv_run s a ax :
  a <> 0 -> advs s !! a = Some ax ->
  free_adv a s = Done (tt, set_qm (delete (Q_adv_waitq a) (qm s)) (set_advs (delete a (advs s)) s)).
Proof.
  intros Ha Hax. apply wp_eq. unfold free_adv. wp_step. eapply wp_get_adv; [done | exact Hax |].
  unfold in_q, q_free. by repeat wp_step.
Qed.

Lemma new_advertisement_run s c x name opaque qs :
  c <> 0 -> clients s !! c = Some x -> registry_ok s -> adverts_reg s x -> memory_left s ->
  fresh_service s qs -> fresh_advert s ->
  exists a s' svc qs1, new_advertisement dm c name opaque s = Done (a, s') /\ a <> 0 /\
    advert_made s s' c x name opaque a svc qs qs1.
Proof.
  intros Hc Hx Hr Hreg Hm Hfs Hfa.
  destruct (new_advertisement_prefix s c x name opaque qs Hc Hx Hr Hreg Hm Hfs Hfa)
    as (svc & a & s2 & qs1 & Ea & Hr2 & Hs2 & Hreg2 & Hk2 & Hka & Hcase & Eadv & Ecl & Hq2 & Hqn & Em & Eo & Et & Ec & Hall & Hnew & ->).
  assert (a <> 0) as Ha0 by (destruct Hfs; lia). destruct Hfa as [Hfa _]. rewrite <- Ea in Hfa.
  assert (forall b, advertised s2 x name b <-> advertised s x name b) as Hadv.
  { intros b. unfold advertised. split; intros [Hin E]; (split; [done|]);
      [rewrite <- Hk2 by done | rewrite Hk2 by done]; done. }
  assert (compares (akey s2) (akey s2 a) (cmp_advertisement s2 (adv_name s2 a))) as Hcmp
    by apply cmp_advertisement_compares.
  rewrite (bind_run _ _ s2 s2 (Some (tsearch (cmp_advertisement s2 (adv_name s2 a)) a (adverts x))))
    by (apply tsearch_node_run; unfold memory_left; by rewrite Em).
  destruct (tfind (cmp_advertisement s2 name) (adverts x)) as [b|] eqn:Ef.
  - apply tfind_advertised in Ef; [|done]. pose proof Ef as [Hin Hkb].
    destruct (proj1 Hreg b Hin) as (Hb0 & bx & Hbx & _). assert (b <> a) as Hne by (intros ->; congruence).
    rewrite (tsearch_found (akey s2) (adverts x) a _ b); [|done | apply Hreg2 | done | by rewrite Hkb, Hka].
    rewrite (bind_run _ _ s2 s2 tt); [|apply wp_eq; eapply wp_put_client; [done | rewrite Ecl; exact Hx |]; split; [done|]].
    + rewrite (proj2 (Z.eqb_neq b a)) by done.
      rewrite (bind_run _ _ _ _ _ (free_adv_run s2 a _ Ha0 ltac:(rewrite Eadv; apply lookup_insert_eq))).
      eexists b, _, svc, qs1. split; [reflexivity|]. split; [done|]. constructor.
      * split; [exact Hr2 | exact Hs2].
      * exact Hcase.
      * left. split_and!; [by apply Hadv | | exact Ecl |].
        -- cbn. rewrite Eadv. by rewrite delete_insert_id.
        -- cbn. rewrite <- (delete_insert_id qs1 (Q_adv_waitq a) []) by done. apply qrep_free; [done | apply lookup_insert_eq].
      * done.
      * exact Hall.
      * exact Hnew.
    + destruct x. rewrite insert_id; [by destruct s2|]. rewrite Ecl. exact Hx.
  - assert (forall b, ~ advertised s2 x name b) as Hnone
      by (intros b Hb; apply tfind_advertised in Hb; [congruence | done]).
    destruct (tsearch_new (akey s2) (adverts x) a _ Hcmp (proj2 Hreg2)) as (t' & -> & Ho' & Hperm).
    { intros b Hin E. apply (Hnone b). split; [done|]. by rewrite E. }
    set (s3 := set_clients (<[c := set_adverts t' x]> (clients s2)) s2).
    rewrite (bind_run _ _ s2 s3 tt); [|apply wp_eq; eapply wp_put_client; [done | rewrite Ecl; exact Hx |]; done].
    rewrite Z.eqb_refl. exists a, s3, svc, qs1. split; [done|]. split; [done|]. constructor.
    + split; [exact Hr2 | exact Hs2].
    + exact Hcase.
    + right. split_and!; [intros b Hb; by apply (Hnone b), Hadv | done | done | done |].
      exists t'. split; [cbn; by rewrite Ecl|]. split; [|done]. split; [|exact Ho'].
      intros b Hb. change (b ∈ twalk t') in Hb. rewrite Hperm in Hb. apply elem_of_cons in Hb as [->|Hb].
      * split; [done|]. eexists. cbn. rewrite Eadv, lookup_insert_eq. split; [done|]. cbn.
        destruct Hs2 as [Hs2 _]. by destruct (proj1 Hr2 svc Hs2).
      * by apply (proj1 Hreg2).
    + done.
    + exact Hall.
    + exact Hnew.
Qed.

(** ** Advertising *)

Definition advertise_message name (v : Z) : list byte := name ++ le_encode 4 v.

(** The reply to an advertisement [a] found or made for the address [v]. *)
Definition advertise_code s (a v : Z) : Z :=
  match advs s !! a with
  | Some ax => if a_opaque ax =? ulong dm (swrap 32 v) then 0 else TPEMATCH
  | None => 0
  end.

Lemma svradvertise_run s c x buf name v qs :
  c <> 0 -> clients s !! c = Some x -> idle x -> sane s qs -> registry_ok s -> adverts_reg s x ->
  message dm s buf (advertise_message name v) -> length name = XATMI_SERVICE_NAME_LENGTH ->
  fresh_service s qs -> fresh_advert s ->
  wp (svradvertise dm c buf) s (fun _ s' => exists a s1 svc qs1 x1,
    new_advertisement dm c name (swrap 32 v) s = Done (a, s1) /\
    advert_made s s1 c x name (swrap 32 v) a svc qs qs1 /\ clients s1 !! c = Some x1 /\
    told dm (freed buf s1) s' c x1 (le_encode 2 (advertise_code s a v))).
Proof.
  intros Hc Hx Hi Hs Hr Hreg Hm Hn Hfs Hfa. unfold svradvertise.
  wp_step. apply wp_assert; [by rewrite (proj2 (Z.eqb_neq c 0)), (message_not_null dm s buf _ Hm)|].
  wp_step. eapply (wp_buf_long dm _ _ _ _ v); [exact Hm | |].
  { pose proof (bytes_at_app name (le_encode 4 v) []) as E. by rewrite app_nil_r, Hn in E. }
  rewrite slong_ulong_swrap. wp_step. eapply wp_buf_name; [exact Hm | done |].
  destruct (new_advertisement_run s c x name (swrap 32 v) qs) as (a & s1 & svc & qs1 & E1 & Ha & Hmade);
    try done; [apply Hs|].
  wp_step. eapply wp_of_eq; [exact E1|]. rewrite (proj2 (Z.eqb_neq a 0)) by done.
  destruct (am_rest _ _ _ _ _ _ _ _ _ _ Hmade) as (Em & Eo & Et & Ec).
  wp_step. eapply (wp_free_message dm s1 buf (advertise_message name v)).
  { unfold message. by rewrite Em. }
  assert (exists ax x1 qs2, advs s1 !! a = Some ax /\ clients s1 !! c = Some x1 /\ idle x1 /\ qrep (qm s1) qs2 /\
    advertise_code s a v = if a_opaque ax =? ulong dm (swrap 32 v) then 0 else TPEMATCH)
    as (ax & x1 & qs2 & Hax & Hx1 & Hi1 & Hq2 & Hcode).
  { destruct (am_advert _ _ _ _ _ _ _ _ _ _ Hmade) as
      [(Hadv & Ea & Ecl & Hq)|(Hnone & Hfr & Ea & Hq & t' & Ecl & _)].
    - destruct Hadv as [Hin _]. destruct (proj1 Hreg a Hin) as (_ & ax & Hax & _).
      exists ax, x, qs1. unfold advertise_code. rewrite Ea, Ecl, Hax. by split_and!.
    - eexists _, (set_adverts t' x), _. rewrite Ea, Ecl, !lookup_insert_eq. split_and!; try done.
      unfold advertise_code. cbn [a_opaque]. rewrite Z.eqb_refl.
      by rewrite Hfr. }
  assert (sane (freed buf s1) qs2) as Hs1.
  { apply freed_sane. destruct Hs as [_ Hwf Hmem]. split; [done | by rewrite Em |].
    unfold memory_left. by rewrite Em. }
  wp_step. wp_step. eapply wp_get_adv; [done | exact Hax |].
  assert (forall k, k = advertise_code s a v -> wp (svrwrites c k) (freed buf s1) (fun _ s' =>
    wp (svr_next_command dm c) s' (fun _ s' => exists a s1 svc qs1 x1,
      new_advertisement dm c name (swrap 32 v) s = Done (a, s1) /\
      advert_made s s1 c x name (swrap 32 v) a svc qs qs1 /\ clients s1 !! c = Some x1 /\
      told dm (freed buf s1) s' c x1 (le_encode 2 (advertise_code s a v))))) as Hk.
  { intros k ->. rewrite <- wp_bind. eapply (wp_tell dm _ _ c x1 qs2); [apply emits_svrwrites | done | exact Hx1 | done | done |].
    intros s' Hs'. by exists a, s1, svc, qs1, x1. }
  destruct (a_opaque ax =? ulong dm (swrap 32 v)); by apply Hk.
Qed.

(** ** Withdrawing *)

Lemma tfind_advertised_svc s x name svc a :
  adverts_reg s x -> registered s name svc ->
  tfind (cmp_advertisement s (svc_name s svc)) (adverts x) = Some a <-> advertised s x name a.
Proof.
  intros Hreg [_ Hk]. rewrite tfind_advertised by done. unfold advertised. change (key_of (svc_name s svc)) with (key s svc).
  by rewrite Hk.
Qed.

Lemma fnd_advertisement_run s c x name svc :
  c <> 0 -> clients s !! c = Some x -> registry_ok s -> adverts_reg s x -> registered s name svc ->
  fnd_advertisement c name s =
    Done (default 0 (tfind (cmp_advertisement s (svc_name s svc)) (adverts x)), s).
Proof.
  intros Hc Hx Hr Hreg Hs. unfold fnd_advertisement.
  rewrite (bind_run _ _ s s tt) by (by rewrite (proj2 (Z.eqb_neq c 0))).
  rewrite (bind_run _ _ s s x) by by apply get_client_run.
  rewrite (bind_run _ _ s s svc).
  - assert (svc <> 0) as Hs0 by (destruct Hs as [Hin _]; by destruct (proj1 Hr svc Hin)).
    rewrite (proj2 (Z.eqb_neq svc 0)) by done. by rewrite (bind_run _ _ s s tt) by by apply adverts_live_run.
  - rewrite fnd_service_run by done. apply tfind_registered in Hs; [|done]. by rewrite Hs.
Qed.

(** All clients, with their trees. *)
Definition all_clients s qs (cs : list Z) : Prop :=
  qs !! Q_tpclients = Some (Q_global <$> cs) /\
  forall c, c ∈ cs -> c <> 0 /\ exists x, clients s !! c = Some x /\ adverts_reg s x.

(** Some client advertises the name. *)
Definition someone_advertises s (cs : list Z) name : Prop :=
  exists c x a, c ∈ cs /\ clients s !! c = Some x /\ advertised s x name a.

Lemma other_advertiser_run s (cs : list Z) name svc :
  registry_ok s -> registered s name svc ->
  (forall c, c ∈ cs -> c <> 0 /\ exists x, clients s !! c = Some x /\ adverts_reg s x) ->
  exists b, other_advertiser (Q_global <$> cs) name s = Done (b, s) /\
    (b = true <-> someone_advertises s cs name).
Proof.
  intros Hr Hs. induction cs as [|c cs IH]; intros Hcs.
  { exists false. split; [done|]. split; [done|]. intros (c & _ & _ & Hc & _). by apply not_elem_of_nil in Hc. }
  destruct (Hcs c) as (Hc & x & Hx & Hreg); [by left|]. cbn [fmap list_fmap other_advertiser].
  rewrite (bind_run _ _ s s c) by done.
  rewrite (bind_run _ _ _ _ _ (fnd_advertisement_run s c x name svc Hc Hx Hr Hreg Hs)).
  destruct (tfind _ (adverts x)) as [a|] eqn:Ef; cbn [from_option id].
  - apply (tfind_advertised_svc s x name svc a Hreg Hs) in Ef. destruct (proj1 Hreg a (proj1 Ef)) as [Ha _].
    rewrite (proj2 (Z.eqb_neq a 0)) by done. exists true. split; [done|]. split; [|done]. intros _.
    exists c, x, a. split_and!; [by left | done | done].
  - cbn [Z.eqb negb]. destruct IH as (b & Eb & Hb); [intros c' Hc'; apply Hcs; by right|].
    exists b. split; [done|]. rewrite Hb. unfold someone_advertises. split.
    + intros (c' & x' & a' & Hin & ? & ?). exists c', x', a'. split_and!; [by right | done | done].
    + intros (c' & x' & a' & [->|Hin]%elem_of_cons & Hx' & Ha'); [|by exists c', x', a'].
      exfalso. rewrite Hx in Hx'. injection Hx' as <-.
      apply (tfind_advertised_svc s x name svc a' Hreg Hs) in Ha'. congruence.
Qed.

(** [del_service] of a service for which nothing waits. *)
Lemma del_service_run n s svc sv qs :
  registry_ok s -> svc ∈ twalk (services s) -> svcs s !! svc = Some sv -> qrep (qm s) qs ->
  qs !! Q_waitq svc = Some [] ->
  exists t', del_service dm (S n) svc s =
    Done (tt, set_qm (delete (Q_waitq svc) (qm s)) (set_svcs (delete svc (svcs s)) (set_services t' s))) /\
    tordered (key s) t' /\ twalk (services s) ≡ₚ svc :: twalk t'.
Proof.
  intros Hr Hin Hsv Hq Hw. destruct (proj1 Hr svc Hin) as [Hs0 _].
  assert (compares (key s) (key s svc) (cmp_service s (svc_name s svc))) as Hcmp by apply cmp_service_compares.
  destruct (tdelete_found (key s) (services s) svc _ Hcmp (proj2 Hr) Hin) as [Ho Hperm].
  exists (tdelete (cmp_service s (svc_name s svc)) (services s)). split; [|done].
  apply wp_eq. cbn [del_service]. rewrite (proj2 (Z.eqb_neq svc 0)) by done. wp_step. wp_step.
  wp_step. apply wp_assert.
  { rewrite bool_decide_false; [done|]. intros E%troot_none. cbn [id] in E. rewrite E in Hin.
    by apply not_elem_of_nil in Hin. }
  wp_step. eapply wp_get_svc; [done | exact Hsv |].
  wp_step. unfold queue_fuel. repeat wp_step.
  assert (forall (body : M (sb T) unit) Q, Q tt s ->
    wp (while_ (S (size (qm s))) (e ← in_q (QISEMPTY (Q_waitq svc)); mret (negb e)) body) s Q) as Hwhile.
  { intros body Q HQ. cbn [while_]. wp_step. wp_step.
    eapply wp_in_q_read; [eapply QISEMPTY_queue, (qr_queue _ _ Hq), Hw|]. wp_step.
    rewrite bool_decide_true by done. cbn [negb]. by wp_step. }
  destruct (wait_contains_transactions sv); apply Hwhile; wp_step;
    (eapply wp_of_eq; [by apply services_live_run|]); repeat wp_step;
    (eapply wp_of_eq; [eapply free_service_run; [done | exact Hsv]|]); done.
Qed.

(** A client other than [c] advertises the name. *)
Definition another_advertises s (cs : list Z) (c : Z) name : Prop :=
  exists c' x a, c' ∈ cs /\ c' <> c /\ clients s !! c' = Some x /\ advertised s x name a.

(** A tree without one of its advertisements. *)
Lemma adverts_reg_delete s x a t' :
  adverts_reg s x -> tordered (akey s) t' -> twalk (adverts x) ≡ₚ a :: twalk t' ->
  adverts_reg s (set_adverts t' x) /\ forall b, b ∈ twalk t' -> akey s b <> akey s a.
Proof.
  intros [Hl Ho] Ho' Hperm. split.
  - split; [|done]. intros b Hb. apply Hl. rewrite Hperm. by right.
  - intros b Hb E. pose proof (tordered_nodup (akey s) _ Ho) as Hnd. rewrite Hperm, fmap_cons in Hnd.
    apply NoDup_cons in Hnd as [Hn _]. apply Hn. rewrite <- E. by apply list_elem_of_fmap_2.
Qed.

(** The state after the advertisement [a] left the tree of its client [c]. *)
Definition untree s (c : Z) x (t' : T) (m : gmap qaddr (QUEUE qaddr)) : sb T :=
  set_clients (<[c := set_adverts t' x]> (clients s)) (set_qm m s).

Lemma untree_others s (cs : list Z) c x t' m name a :
  clients s !! c = Some x -> adverts_reg s x -> tordered (akey s) t' -> twalk (adverts x) ≡ₚ a :: twalk t' ->
  akey s a = key_of name ->
  someone_advertises (untree s c x t' m) cs name <-> another_advertises s cs c name.
Proof.
  intros Hx Hreg Ho' Hperm Hk. destruct (adverts_reg_delete s x a t' Hreg Ho' Hperm) as [_ Hne]. split.
  - intros (c' & x' & b & Hin & Hx' & [Hb Hkb]). cbn in Hx'. destruct (decide (c' = c)) as [->|Hc].
    + rewrite lookup_insert_eq in Hx'. injection Hx' as <-. exfalso. apply (Hne b Hb). rewrite Hk. exact Hkb.
    + rewrite lookup_insert_ne in Hx' by done. exists c', x', b. by split_and!.
  - intros (c' & x' & b & Hin & Hc & Hx' & Hb). exists c', x', b. cbn. by rewrite lookup_insert_ne by done.
Qed.

(** [del_advertisement] up to the scan of the clients. *)
Lemma del_advertisement_prefix n s a ax x sv qs cs :
  a <> 0 -> advs s !! a = Some ax -> a_client ax <> 0 -> a_svc ax <> 0 ->
  clients s !! a_client ax = Some x -> a ∈ twalk (adverts x) -> adverts_reg s x ->
  svcs s !! a_svc ax = Some sv -> qrep (qm s) qs -> qnode qs (Q_adv_waitq a) -> all_clients s qs cs ->
  exists t' m', qrep m' (qremove (Q_adv_waitq a) qs) /\ qdelete (Q_adv_waitq a) (qm s) = Done (Q_adv_waitq a, m') /\
    tordered (akey s) t' /\ twalk (adverts x) ≡ₚ a :: twalk t' /\
    all_clients (untree s (a_client ax) x t' m') (qremove (Q_adv_waitq a) qs) cs /\
    del_advertisement dm (S n) a s =
      (found ← other_advertiser (Q_global <$> cs) (svcname sv);
       (if (found : bool) then mret tt else del_service dm n (a_svc ax)) ;; free_adv a)
      (untree s (a_client ax) x t' m').
Proof.
  intros Ha Hax Hc Hsv0 Hx Hin Hreg Hsv Hq Hn [Hcl Hcs].
  destruct (qrep_qremove _ _ _ Hq Hn) as (m' & Em & Q').
  assert (compares (akey s) (akey s a) (cmp_advertisement s (adv_name s a))) as Hcmp
    by apply cmp_advertisement_compares.
  destruct (tdelete_found (akey s) (adverts x) a _ Hcmp (proj2 Hreg) Hin) as [Ho' Hperm].
  set (t' := tdelete _ _) in *. set (s2 := untree s (a_client ax) x t' m').
  assert (all_clients s2 (qremove (Q_adv_waitq a) qs) cs) as Hall.
  { split.
    - unfold qremove. rewrite lookup_insert_ne, lookup_fmap, Hcl by done. cbn. f_equal.
      apply filter_id. intros (c' & [=] & _)%list_elem_of_fmap.
    - intros c' Hc'. destruct (Hcs c' Hc') as (Hc0 & x' & Hx' & Hreg'). split; [done|].
      unfold s2. cbn. destruct (decide (c' = a_client ax)) as [->|Hne].
      + rewrite lookup_insert_eq. eexists. split; [done|].
        by destruct (adverts_reg_delete s x a t' Hreg Ho' Hperm).
      + rewrite lookup_insert_ne by done. by exists x'. }
  exists t', m'. split_and!; [done | done | done | done | done |].
  cbn [del_advertisement]. rewrite (proj2 (Z.eqb_neq a 0)) by done.
  rewrite (bind_run _ _ s s ax) by (apply wp_eq; by eapply wp_get_adv).
  rewrite (bind_run _ _ s s tt) by (by rewrite !(proj2 (Z.eqb_neq _ 0))).
  rewrite (bind_run _ _ s (set_qm m' s) (Q_adv_waitq a)) by (unfold in_q, zoom; by rewrite Em).
  rewrite (bind_run _ _ _ _ _ (get_client_run (set_qm m' s) (a_client ax) x Hc Hx)).
  rewrite (bind_run _ _ (set_qm m' s) (set_qm m' s) tt) by (by apply (adverts_live_run (set_qm m' s) x)).
  rewrite (bind_run _ _ (set_qm m' s) (set_qm m' s) (set_qm m' s)) by done.
  rewrite (bind_run _ _ (set_qm m' s) s2 tt) by (apply wp_eq; by eapply wp_put_client).
  rewrite (bind_run _ _ s2 s2 (Q_global <$> cs))
    by (unfold in_q, zoom; cbn; by rewrite (qelements_queue _ _ _ (qr_queue _ _ Q' _ _ (proj1 Hall)))).
  rewrite (bind_run _ _ s2 s2 sv) by (apply wp_eq; by eapply wp_get_svc). done.
Qed.

(** What [del_advertisement] does: the advertisement leaves its client's tree, the
    wait queue and memory; the service stays while another client advertises it
    and is deleted otherwise. *)
Record withdrawn s s' (c a svc : Z) x name (cs : list Z) qs : Prop := {
  wd_advs : advs s' = delete a (advs s);
  wd_client : exists t', clients s' = <[c := set_adverts t' x]> (clients s) /\
    twalk (adverts x) ≡ₚ a :: twalk t' /\ adverts_reg s' (set_adverts t' x);
  wd_registry : registry_ok s';
  wd_kept : another_advertises s cs c name ->
    svcs s' = svcs s /\ services s' = services s /\
    qrep (qm s') (delete (Q_adv_waitq a) (qremove (Q_adv_waitq a) qs));
  wd_gone : ~ another_advertises s cs c name ->
    svcs s' = delete svc (svcs s) /\ (forall p, ~ registered s' name p) /\
    (forall name' p, key_of name' <> key_of name -> registered s' name' p <-> registered s name' p) /\
    qrep (qm s') (delete (Q_adv_waitq a) (delete (Q_waitq svc) (qremove (Q_adv_waitq a) qs)));
  wd_queues : exists qs', qrep (qm s') qs';
  wd_rest : mem s' = mem s /\ out s' = out s /\ trans s' = trans s /\ closed s' = closed s;
}.

(** The trees and the registry without a struct that nothing in them uses. *)
Lemma key_delete_svc s s' svc p : svcs s' = delete svc (svcs s) -> p <> svc -> key s' p = key s p.
Proof. intros E Hp. unfold key, svc_name. by rewrite E, lookup_delete_ne by auto. Qed.

Lemma adverts_reg_delete_svc s s' x a svc :
  (forall b, b <> a -> advs s' !! b = advs s !! b) -> svcs s' = delete svc (svcs s) ->
  adverts_reg s x -> (forall b, b ∈ twalk (adverts x) -> b <> a /\ akey s b <> key s svc) -> adverts_reg s' x.
Proof.
  intros Ea Es [Hl Ho] Hne.
  assert (forall b bx, b ∈ twalk (adverts x) -> advs s !! b = Some bx -> a_svc bx <> svc) as Hsvc.
  { intros b bx Hb Hbx E. destruct (Hne b Hb) as [_ Hk]. apply Hk. unfold akey, adv_name, key, svc_name.
    rewrite Hbx. cbn. by rewrite E. }
  split.
  - intros b Hb. destruct (Hl b Hb) as (Hb0 & bx & Hbx & Hs). split; [done|]. exists bx.
    rewrite Ea by (by apply Hne). split; [done|]. rewrite Es, lookup_delete_ne; [done|].
    intros E. by apply (Hsvc b bx Hb Hbx).
  - eapply tordered_ext; [|exact Ho]. intros b Hb. destruct (Hl b Hb) as (_ & bx & Hbx & _).
    unfold akey, adv_name. rewrite (Ea b) by (by apply Hne). rewrite Hbx. cbn.
    rewrite Es, lookup_delete_ne; [done|]. intros E. by apply (Hsvc b bx Hb Hbx).
Qed.

Lemma registry_delete s s' svc t' :
  registry_ok s -> svc ∈ twalk (services s) -> svcs s' = delete svc (svcs s) -> services s' = t' ->
  tordered (key s) t' -> twalk (services s) ≡ₚ svc :: twalk t' ->
  registry_ok s' /\ (forall name p, key_of name = key s svc -> ~ registered s' name p) /\
  (forall name p, key_of name <> key s svc -> registered s' name p <-> registered s name p).
Proof.
  intros [Hl Ho] Hin Es Et Ho' Hperm.
  assert (forall p, p ∈ twalk t' -> p <> svc /\ key s p <> key s svc) as Hne.
  { intros p Hp. pose proof (tordered_nodup (key s) _ Ho) as Hnd. rewrite Hperm, fmap_cons in Hnd.
    apply NoDup_cons in Hnd as [Hn _]. assert (key s p <> key s svc) as Hk.
    { intros E. apply Hn. rewrite <- E. by apply list_elem_of_fmap_2. }
    split; [by intros ->|done]. }
  assert (forall p, p ∈ twalk t' -> key s' p = key s p) as Hk.
  { intros p Hp. apply (key_delete_svc s s' svc p Es). by apply Hne. }
  split_and!.
  - split; rewrite Et.
    + intros p Hp. destruct (Hl p) as [Hp0 Hs]; [rewrite Hperm; by right|]. split; [done|].
      rewrite Es, lookup_delete_ne; [done|]. by destruct (Hne p Hp).
    + eapply tordered_ext; [|exact Ho']. intros p Hp. by rewrite Hk.
  - intros name p Hn [Hp Hkp]. rewrite Et in Hp. rewrite Hk, Hn in Hkp by done. by apply (Hne p Hp).
  - intros name p Hn. unfold registered. rewrite Et. split.
    + intros [Hp Hkp]. rewrite Hk in Hkp by done. split; [rewrite Hperm; by right | done].
    + intros [Hp Hkp]. rewrite Hperm in Hp. apply elem_of_cons in Hp as [->|Hp]; [congruence|].
      split; [done|]. by rewrite Hk.
Qed.

(** The advertisement [a] of the client [c], whose service nothing but workers
    waits for. *)
Record withdrawable s (c a svc : Z) x (ax : tpadvertisement) (sv : SbState.tpservice) (cs : list Z) qs
  : Prop := {
  wa_advert : a <> 0 /\ advs s !! a = Some ax /\ a_client ax = c /\ a_svc ax = svc /\ a ∈ twalk (adverts x);
  wa_client : c <> 0 /\ clients s !! c = Some x /\ adverts_reg s x;
  wa_service : registry_ok s /\ svc ∈ twalk (services s) /\ svcs s !! svc = Some sv;
  wa_queues : qrep (qm s) qs /\ qnode qs (Q_adv_waitq a) /\ all_clients s qs cs;
  wa_waitq : ~ another_advertises s cs c (svcname sv) ->
    qremove (Q_adv_waitq a) qs !! Q_waitq svc = Some [];
}.

Lemma del_advertisement_run n s c a svc x ax sv cs qs :
  withdrawable s c a svc x ax sv cs qs ->
  exists s', del_advertisement dm (S (S n)) a s = Done (tt, s') /\
    withdrawn s s' c a svc x (svcname sv) cs qs.
Proof.
  intros [(Ha & Hax & <- & <- & Hin) (Hc & Hx & Hreg) (Hr & Hsin & Hsv) (Hq & Hn & Hall) Hwait].
  set (c := a_client ax) in *. set (svc := a_svc ax) in *.
  assert (svc <> 0) as Hsvc0 by by destruct (proj1 Hr svc Hsin).
  assert (registered s (svcname sv) svc) as Hregd.
  { split; [done|]. unfold key, svc_name. by rewrite Hsv. }
  assert (akey s a = key_of (svcname sv)) as Hka
    by (unfold akey, adv_name; rewrite Hax; cbn; fold svc; by rewrite Hsv).
  destruct (del_advertisement_prefix (S n) s a ax x sv qs cs) as (t' & m' & Q' & _ & Ho' & Hperm & Hall' & ->); try done.
  destruct (adverts_reg_delete s x a t' Hreg Ho' Hperm) as [Hreg' Hne].
  set (s2 := untree s (a_client ax) x t' m') in *.
  destruct (other_advertiser_run s2 cs (svcname sv) svc) as (b & Eb & Hb); [done | done | apply Hall' |].
  unfold s2 in Hb. rewrite (untree_others s cs (a_client ax) x t' m' (svcname sv) a) in Hb by done. fold c s2 in Hb.
  rewrite (bind_run _ _ _ _ _ Eb).
  assert (forall k, k <> a -> delete a (advs s) !! k = advs s !! k) as Hadel
    by (intros k Hk; by rewrite lookup_delete_ne by auto).
  assert (forall k, k ∈ twalk t' -> k <> a) as Hnota by (intros k Hk ->; by apply (Hne a Hk)).
  destruct b.
  - rewrite (bind_run _ _ s2 s2 tt) by done. eexists.
    split; [by apply (free_adv_run s2 a ax)|]. constructor.
    + done.
    + exists t'. split; [done|]. split; [done|].
      destruct Hreg' as [Hl' Ho'']. split.
      * intros k Hk. cbn. rewrite Hadel by (by apply Hnota). by apply Hl'.
      * eapply tordered_ext; [|exact Ho'']. intros k Hk. unfold akey, adv_name. cbn.
        by rewrite Hadel by (by apply Hnota).
    + done.
    + intros _. split_and!; [done | done |]. apply qrep_free; [done | apply qremove_self].
    + intros Hno. exfalso. by apply Hno, Hb.
    + eexists. apply qrep_free; [done | apply qremove_self].
    + done.
  - assert (~ another_advertises s cs c (svcname sv)) as Hno by (intros Hyes%Hb; done).
    specialize (Hwait Hno).
    destruct (del_service_run n s2 svc sv _ Hr Hsin Hsv Q' Hwait) as (ts & Ed & Hots & Hpts).
    rewrite (bind_run _ _ _ _ _ Ed). eexists.
    split; [apply (free_adv_run _ a ax); [done | exact Hax]|].
    set (s3 := set_qm _ _).
    assert (svcs s3 = delete svc (svcs s)) as Es3 by done.
    destruct (registry_delete s s3 svc ts Hr Hsin Es3 eq_refl Hots Hpts) as (Hr3 & Hnone & Hrest).
    assert (key s svc = key_of (svcname sv)) as Hks by apply Hregd.
    assert (qrep (qm s3) (delete (Q_adv_waitq a) (delete (Q_waitq svc) (qremove (Q_adv_waitq a) qs)))) as Q3.
    { apply qrep_free; [by apply qrep_free|]. rewrite lookup_delete_ne by done. apply qremove_self. }
    constructor.
    + done.
    + exists t'. split; [done|]. split; [done|].
      apply (adverts_reg_delete_svc s s3 (set_adverts t' x) a svc); [exact Hadel | done | exact Hreg' |].
      intros k Hk. split; [by apply Hnota|]. rewrite Hks, <- Hka. by apply Hne.
    + exact Hr3.
    + done.
    + intros _. split_and!; [done | | |].
      * intros p Hp. by apply (Hnone (svcname sv) p).
      * intros name' p Hk. apply Hrest. congruence.
      * exact Q3.
    + by eexists.
    + done.
Qed.

Lemma fnd_advertisement_none s c x name :
  c <> 0 -> clients s !! c = Some x -> registry_ok s -> adverts_reg s x -> (forall a, ~ advertised s x name a) ->
  fnd_advertisement c name s = Done (0, s).
Proof.
  intros Hc Hx Hr Hreg Hnone. destruct (fnd_service_spec s name Hr) as (p & Ep & Hp1 & Hp0).
  destruct (decide (p = 0)) as [->|Hp].
  - unfold fnd_advertisement. rewrite (bind_run _ _ s s tt) by (by rewrite (proj2 (Z.eqb_neq c 0))).
    rewrite (bind_run _ _ s s x) by by apply get_client_run. by rewrite (bind_run _ _ _ _ _ Ep).
  - rewrite (fnd_advertisement_run s c x name p) by auto.
    destruct (tfind _ (adverts x)) as [a|] eqn:Ef; [|done].
    apply (tfind_advertised_svc s x name p a Hreg (Hp1 Hp)) in Ef. by destruct (Hnone a).
Qed.

(** ** Properties *)

(** C19. [svradvertise]: the client gets an advertisement of the service with the
    address it sent, and the reply 0; the service is made if nobody had advertised
    it.  If the client already advertises the service nothing is added, and the
    reply is 0 when the address is the same and [TPEMATCH] when it is another.  The
    client's tree and the registry stay well-formed, and the message is freed. *)
Theorem svradvertise_registers s c x buf name v qs :
  c <> 0 -> clients s !! c = Some x -> idle x -> sane s qs -> registry_ok s -> adverts_reg s x ->
  message dm s buf (advertise_message name v) -> length name = XATMI_SERVICE_NAME_LENGTH ->
  fresh_service s qs -> fresh_advert s ->
  wp (svradvertise dm c buf) s (fun _ s' => exists a s1 svc qs1 x1,
    advert_made s s1 c x name (swrap 32 v) a svc qs qs1 /\ clients s1 !! c = Some x1 /\
    told dm (freed buf s1) s' c x1 (le_encode 2 (advertise_code s a v))).
Proof.
  intros Hc Hx Hi Hs Hr Hreg Hm Hn Hfs Hfa. eapply wp_mono; [by apply (svradvertise_run s c x buf name v qs)|].
  intros [] s' (a & s1 & svc & qs1 & x1 & _ & Hs'). by exists a, s1, svc, qs1, x1.
Qed.

(** C20. [svrunadvertise]: a name that the client does not advertise is answered with
    [TPENOENT] and nothing changes.  Otherwise the advertisement is taken off the
    wait queue, out of the client's tree and freed, and the reply is 0; if no other
    client advertises the service it leaves the registry and is freed too, and all
    other names keep their services.  (The theorem covers services for which no
    transaction waits.) *)
Theorem svrunadvertise_withdraws s c x buf name cs qs :
  c <> 0 -> clients s !! c = Some x -> idle x -> sane s qs -> registry_ok s -> adverts_reg s x ->
  message dm s buf name -> length name = XATMI_SERVICE_NAME_LENGTH ->
  ((forall a, ~ advertised s x name a) ->
    wp (svrunadvertise dm c buf) s (fun _ s' => told dm (freed buf s) s' c x (le_encode 2 TPENOENT))) /\
  (forall a svc ax sv, advertised s x name a -> withdrawable s c a svc x ax sv cs qs ->
    wp (svrunadvertise dm c buf) s (fun _ s' => exists s1 x1,
      withdrawn (freed buf s) s1 c a svc x (svcname sv) cs qs /\ clients s1 !! c = Some x1 /\
      told dm s1 s' c x1 (le_encode 2 0))).
Proof.
  intros Hc Hx Hi Hs Hr Hreg Hm Hn.
  assert (bool_decide (buf = NULL) = false) as Hnn by by eapply message_not_null.
  assert (message dm s buf (name ++ [])) as Hm' by by rewrite app_nil_r.
  split.
  - intros Hnone. unfold svrunadvertise. wp_step. apply wp_assert; [by rewrite (proj2 (Z.eqb_neq c 0)), Hnn|].
    wp_step. eapply wp_buf_name; [exact Hm' | done |].
    wp_step. eapply wp_of_eq; [by eapply fnd_advertisement_none|].
    wp_step. eapply wp_free_message; [exact Hm|]. wp_step. unfold del_depth. wp_step. wp_step. wp_step.
    wp_step. replace (2 * size (advs (freed buf s)) + 2)%nat with (S (2 * size (advs s) + 1)) by (cbn; lia).
    cbn [del_advertisement Z.eqb]. wp_step.
    eapply (wp_tell dm _ _ c x qs); [apply emits_svrwrites | done | exact Hx | done | by apply freed_sane | done].
  - intros a svc ax sv Hadv Hwa. pose proof Hwa as [(Ha & Hax & Hac & Has & Hin) _ (_ & Hsin & Hsv) (Hq & _) _].
    assert (registered s name svc) as Hregd.
    { split; [done|]. destruct Hadv as [_ <-]. unfold key, akey, svc_name, adv_name. rewrite Hax. cbn. by rewrite Has. }
    unfold svrunadvertise. wp_step. apply wp_assert; [by rewrite (proj2 (Z.eqb_neq c 0)), Hnn|].
    wp_step. eapply wp_buf_name; [exact Hm' | done |].
    wp_step. eapply wp_of_eq; [by eapply fnd_advertisement_run|].
    apply (tfind_advertised_svc s x name svc a Hreg Hregd) in Hadv. rewrite Hadv. cbn [from_option id].
    wp_step. eapply wp_free_message; [exact Hm|]. wp_step. unfold del_depth. wp_step. wp_step. wp_step. wp_step.
    assert (withdrawable (freed buf s) c a svc x ax sv cs qs) as Hwa' by (by destruct Hwa; constructor).
    destruct (del_advertisement_run (2 * size (advs s)) _ _ _ _ _ _ _ _ _ Hwa') as (s1 & E1 & Hwd).
    replace (2 * size (advs (freed buf s)) + 2)%nat with (S (S (2 * size (advs s)))) by (cbn; lia).
    eapply wp_of_eq; [exact E1|]. rewrite (proj2 (Z.eqb_neq a 0)) by done.
    destruct (wd_client _ _ _ _ _ _ _ _ _ Hwd) as (t' & Ecl & _).
    destruct (wd_rest _ _ _ _ _ _ _ _ _ Hwd) as (Em & _).
    destruct (wd_queues _ _ _ _ _ _ _ _ _ Hwd) as (qs' & Hq').
    destruct (freed_sane s buf qs Hs) as [_ K2 K3].
    eapply (wp_tell dm _ s1 c (set_adverts t' x) qs');
      [apply emits_svrwrites | done | rewrite Ecl; apply lookup_insert_eq | done | |].
    + split; [done | by rewrite Em | unfold memory_left; by rewrite Em].
    + intros s' Hs'. exists s1, (set_adverts t' x). split; [exact Hwd|]. split; [rewrite Ecl; apply lookup_insert_eq | done].
Qed.

End Advertising.

(** ** Witnesses *)

(** The worker 3, which advertises the service 2 with the address 1000, sends a
    message about it. *)
Definition wit_advertiser (bs : list byte) : sb (bst Z) :=
  wit_run (wit_msg bs) 0 0 (Node Leaf 4 Leaf) (mkService wit_name false 0 0) (wit_tx 0)
    (wit_lists [Q_t_clientq 7] []).
Definition wit_worker : tpclient (bst Z) := mkClient 5 0 NULL None (Node Leaf 4 Leaf) 0.

Lemma wit_advertiser_ok bs : registry_ok (wit_advertiser bs) /\ adverts_reg (wit_advertiser bs) wit_worker.
Proof.
  split; split.
  - intros p ->%list_elem_of_singleton. split; [done | vm_compute; eauto].
  - cbn. repeat split; intros y Hy; by apply not_elem_of_nil in Hy.
  - intros a ->%list_elem_of_singleton. split; [done|]. eexists. split; [reflexivity | vm_compute; eauto].
  - cbn. repeat split; intros y Hy; by apply not_elem_of_nil in Hy.
Qed.

Lemma svradvertise_registers_witness :
  wp (svradvertise LP64 3 (Ptr 2 32)) (wit_advertiser (advertise_message wit_name 500)) (fun _ s' =>
    stream 5 s' = le_encode 2 TPEMATCH \/ stream 5 s' = le_encode 2 0).
Proof.
  destruct (wit_advertiser_ok (advertise_message wit_name 500)) as [Hr Hreg].
  eapply wp_mono.
  - apply (svradvertise_registers LP64 (wit_advertiser (advertise_message wit_name 500)) 3 wit_worker (Ptr 2 32)
      wit_name 500 (list_to_map (wit_lists [Q_t_clientq 7] [])));
      [discriminate | reflexivity | split; [reflexivity | split; reflexivity] | sane_check | exact Hr | exact Hreg
      | message_check | reflexivity | | split; reflexivity].
    split; [reflexivity|]. split; [reflexivity|]. split; [reflexivity|].
    apply qrep_check_ok. vm_compute. reflexivity.
  - intros [] s' (a & s1 & svc & qs1 & x1 & Hmade & Hx1 & Ht).
    destruct (am_rest _ _ _ _ _ _ _ _ _ _ _ Hmade) as (_ & Eo & _).
    assert (fd x1 = 5) as Hfd.
    { destruct (am_advert _ _ _ _ _ _ _ _ _ _ _ Hmade) as [(_ & _ & E & _)|(_ & _ & _ & _ & t' & E & _)];
        rewrite E in Hx1; [vm_compute in Hx1 | rewrite lookup_insert_eq in Hx1]; injection Hx1 as <-; reflexivity. }
    pose proof (td_client _ _ _ _ _ _ Ht) as Hc. rewrite Hfd in Hc.
    replace (stream 5 (freed (Ptr 2 32) s1)) with (@nil byte) in Hc by (unfold stream; cbn [out freed set_mem]; rewrite Eo; reflexivity).
    rewrite Hc. unfold advertise_code. destruct (advs _ !! a) as [ax|]; [|by right].
    destruct (a_opaque ax =? _); [by right | by left].
Defined.

Lemma wit_withdrawable :
  withdrawable (wit_advertiser wit_name) 3 4 2 wit_worker (mkAdvert 2 3 1000 0 0) (mkService wit_name false 0 0)
    [3; 6] (list_to_map (wit_lists [Q_t_clientq 7] [])).
Proof.
  destruct (wit_advertiser_ok wit_name) as [Hr Hreg]. constructor.
  - split; [discriminate|]. split; [reflexivity|]. split; [reflexivity|]. split; [reflexivity | by left].
  - split; [discriminate|]. split; [reflexivity | exact Hreg].
  - split; [exact Hr|]. split; [by left | reflexivity].
  - split; [apply qrep_check_ok; vm_compute; reflexivity|]. split; [left; vm_compute; reflexivity|].
    split; [vm_compute; reflexivity|].
    intros c [->|Hc]%elem_of_cons; [|apply list_elem_of_singleton in Hc as ->].
    + split; [discriminate|]. exists wit_worker. split; [reflexivity | exact Hreg].
    + split; [discriminate|]. eexists. split; [reflexivity|]. split; [|done].
      intros a Ha. by apply not_elem_of_nil in Ha.
  - intros _. vm_compute. reflexivity.
Qed.

Lemma svrunadvertise_withdraws_witness :
  wp (svrunadvertise LP64 3 (Ptr 2 32)) (wit_advertiser wit_name) (fun _ s' =>
    advs s' !! 4 = None /\ svcs s' !! 2 = None).
Proof.
  destruct (wit_advertiser_ok wit_name) as [Hr Hreg].
  edestruct (svrunadvertise_withdraws LP64 (wit_advertiser wit_name) 3 wit_worker (Ptr 2 32) wit_name [3; 6]
    (list_to_map (wit_lists [Q_t_clientq 7] []))) as [_ Hw];
    [discriminate | reflexivity | split; [reflexivity | split; reflexivity] | sane_check | exact Hr | exact Hreg
    | message_check | reflexivity |].
  eapply wp_mono.
  - apply (Hw 4 2 (mkAdvert 2 3 1000 0 0) (mkService wit_name false 0 0)); [|apply wit_withdrawable].
    split; [by left | reflexivity].
  - intros [] s' (s1 & x1 & [Ea _ _ _ Hgone _ _] & _ & Ht).
    destruct (td_rest _ _ _ _ _ _ Ht) as (_ & _ & Es & Eadv & _). rewrite Es, Eadv, Ea.
    split; [apply lookup_delete_eq|]. destruct Hgone as (-> & _); [|apply lookup_delete_eq].
    intros (c & x & a & Hc & Hne & Hx & [Hin _]).
    assert (c = 6) as ->.
    { apply elem_of_cons in Hc as [Hc|Hc]; [exfalso; exact (Hne Hc) | exact (proj1 (list_elem_of_singleton _ _) Hc)]. }
    vm_compute in Hx. injection Hx as <-. exact (not_elem_of_nil _ Hin).
Defined.
