(* ===== verification/Scheduling.v ===== *)
(** * Which request a worker gets

    [find_earliest] of [svrservice.c], run by [twalk] over a worker's
    advertisements.  What it computes is characterised exactly ([best]): among the
    services with waiting transactions it keeps one whose first transaction
    arrived last.  [Work.v] has the theorem on the whole handler. *)

From Stdlib Require Import ZArith Lia.
From S2P Require Import Prelude Constants ByteOrder CString SearchTree Queue Memory TpMemory.
From S2P Require Import SbState SbObjects SbHandlers SbLemmas Xatmi Dispatch.

Local Open Scope Z_scope.

Section Scheduling.
Context {T : Type} `{SearchTreeOps T Z} (dm : data_model).
Implicit Types (s : sb T) (qs : gmap qaddr (list qaddr)) (a : Z).

(** The arrival of the first transaction that waits for an advertised service. *)
Definition waiting_arrival s qs a : option (Z * Z) :=
  ax ← advs s !! a;
  sv ← svcs s !! a_svc ax;
  l ← qs !! Q_waitq (a_svc ax);
  if wait_contains_transactions sv then
    match l with Q_t_svc_waitq t :: _ => arrival <$> trans s !! t | _ => None end
  else None.

(** The structs [find_earliest] reads for an advertisement are there. *)
Definition scannable s qs a : Prop :=
  a <> 0 /\ exists ax sv l, advs s !! a = Some ax /\ a_svc ax <> 0 /\
    svcs s !! a_svc ax = Some sv /\ qs !! Q_waitq (a_svc ax) = Some l /\
    (wait_contains_transactions sv = true -> l = [] \/
      exists t l', l = Q_t_svc_waitq t :: l' /\ t <> 0 /\ is_Some (trans s !! t)).

Lemma timer_lt_trans u v w : timer_lt u v = false -> timer_lt v w = false -> timer_lt u w = false.
Proof.
  unfold timer_lt. destruct u as [u1 u2], v as [v1 v2], w as [w1 w2]. cbn [fst snd].
  destruct (Z.eqb_spec u1 v1), (Z.eqb_spec v1 w1), (Z.eqb_spec u1 w1); rewrite !Z.ltb_ge; lia.
Qed.

Lemma timer_lt_flip u v : timer_lt u v = true -> timer_lt v u = false.
Proof.
  unfold timer_lt. destruct u as [u1 u2], v as [v1 v2]. cbn [fst snd].
  destruct (Z.eqb_spec u1 v1), (Z.eqb_spec v1 u1); rewrite ?Z.ltb_ge, ?Z.ltb_lt; lia.
Qed.

Lemma timer_lt_refl u : timer_lt u u = false.
Proof. unfold timer_lt. destruct u. cbn [fst snd]. rewrite Z.eqb_refl. lia. Qed.

Lemma wp_FIRSTTRAN s qs a v Q :
  qrep (qm s) qs -> scannable s qs a -> waiting_arrival s qs a = Some v ->
  (forall t x, t <> 0 -> trans s !! t = Some x -> arrival x = v -> Q t s) -> wp (FIRSTTRAN a) s Q.
Proof.
  intros Hq (Ha & ax & sv & l & Hax & Hs & Hsv & Hl & Hw) Hv HQ. unfold waiting_arrival in Hv.
  rewrite Hax in Hv. cbn in Hv. rewrite Hsv in Hv. cbn in Hv. rewrite Hl in Hv. cbn in Hv.
  destruct (wait_contains_transactions sv); [|done].
  destruct (Hw eq_refl) as [->|(t & l' & -> & Ht & [x Hx])]; [done|].
  rewrite Hx in Hv. injection Hv as Hv. unfold FIRSTTRAN. wp_step. eapply wp_get_adv; [done | exact Hax |].
  wp_step. eapply wp_in_q_read; [eapply QFIRST_queue, (qr_queue _ _ Hq), Hl|].
  unfold offset_t_svc_waitq. wp_step. by eapply HQ.
Qed.

(** One visit. *)
Lemma wp_find_earliest s qs a cur Q :
  let s0 := set_earliest cur s in
  qrep (qm s) qs -> scannable s qs a ->
  (cur = 0 \/ scannable s qs cur /\ is_Some (waiting_arrival s qs cur)) ->
  Q tt (set_earliest
    (match waiting_arrival s qs a with
     | None => cur
     | Some v =>
         match waiting_arrival s qs cur with
         | Some u => if cur =? 0 then a else if timer_lt u v then a else cur
         | None => a
         end
     end) s) ->
  wp (find_earliest a) s0 Q.
Proof.
  intros s0 Hq Hscan Hcur HQ. pose proof Hscan as (Ha & ax & sv & l & Hax & Hs & Hsv & Hl & Hw).
  unfold find_earliest. wp_step. eapply wp_get_adv; [done | exact Hax |].
  wp_step. eapply wp_get_svc; [done | exact Hsv |].
  wp_step. eapply wp_in_q_read; [eapply QISEMPTY_queue, (qr_queue _ _ Hq), Hl|].
  destruct (waiting_arrival s qs a) as [v|] eqn:Ev.
  - assert (wait_contains_transactions sv && negb (bool_decide (l = [])) = true) as ->.
    { unfold waiting_arrival in Ev. rewrite Hax in Ev. cbn in Ev. rewrite Hsv in Ev. cbn in Ev.
      rewrite Hl in Ev. cbn in Ev. destruct (wait_contains_transactions sv); [|done]. by destruct l. }
    wp_steps. cbn [earliest set_earliest s0]. destruct (Z.eqb_spec cur 0) as [->|Hc0].
    + wp_steps. destruct (waiting_arrival s qs 0); exact HQ.
    + destruct Hcur as [?|[Hsc [u Hu]]]; [done|]. rewrite Hu in HQ.
      wp_step. eapply (wp_FIRSTTRAN s0 qs cur u); [done | done | done |]. intros t1 x1 Ht1 Hx1 Eu.
      wp_step. eapply wp_get_trans; [done | exact Hx1 |].
      wp_step. eapply (wp_FIRSTTRAN s0 qs a v); [done | done | done |]. intros t2 x2 Ht2 Hx2 Ev2.
      wp_step. eapply wp_get_trans; [done | exact Hx2 |]. wp_step. rewrite Eu, Ev2.
      destruct (timer_lt u v); wp_steps; exact HQ.
  - assert (wait_contains_transactions sv && negb (bool_decide (l = [])) = false) as ->.
    { unfold waiting_arrival in Ev. rewrite Hax in Ev. cbn in Ev. rewrite Hsv in Ev. cbn in Ev.
      rewrite Hl in Ev. cbn in Ev. destruct (wait_contains_transactions sv); [|done].
      destruct (Hw eq_refl) as [->|(t & l' & -> & _ & [x Hx])]; [done|]. by rewrite Hx in Ev. }
    wp_steps. exact HQ.
Qed.

(** What the walk has found after the advertisements [seen]. *)
Definition best s qs (seen : list Z) (e : Z) : Prop :=
  (e = 0 /\ forall a, a ∈ seen -> waiting_arrival s qs a = None) \/
  (e ∈ seen /\ scannable s qs e /\ exists v, waiting_arrival s qs e = Some v /\
    forall a u, a ∈ seen -> waiting_arrival s qs a = Some u -> timer_lt v u = false).

Lemma best_step s qs seen e a :
  scannable s qs a -> best s qs seen e ->
  best s qs (seen ++ [a])
    (match waiting_arrival s qs a with
     | None => e
     | Some v =>
         match waiting_arrival s qs e with
         | Some u => if e =? 0 then a else if timer_lt u v then a else e
         | None => a
         end
     end).
Proof.
  intros Hscan Hb. pose proof Hscan as (Ha & _).
  assert (forall b, b ∈ seen ++ [a] <-> b ∈ seen \/ b = a) as Hin
    by (intros b; rewrite elem_of_app, list_elem_of_singleton; done).
  destruct (waiting_arrival s qs a) as [v|] eqn:Ev.
  - destruct Hb as [[-> Hnone]|(Hes & Hse & u & Hu & Hmax)].
    + assert (best s qs (seen ++ [a]) a) as Hbest.
      { right. split; [apply Hin; by right|]. split; [done|]. exists v. split; [done|].
        intros b u [Hbs| ->]%Hin Hbu; [by rewrite Hnone in Hbu|]. simplify_eq. apply timer_lt_refl. }
      destruct (waiting_arrival s qs 0); exact Hbest.
    + rewrite Hu. pose proof Hse as (He0 & _). rewrite (proj2 (Z.eqb_neq e 0)) by done.
      destruct (timer_lt u v) eqn:Elt.
      * right. split; [apply Hin; by right|]. split; [done|]. exists v. split; [done|].
        intros b w [Hbs| ->]%Hin Hbw; [|simplify_eq; apply timer_lt_refl].
        eapply timer_lt_trans; [by apply timer_lt_flip | by eapply Hmax].
      * right. split; [apply Hin; by left|]. split; [done|]. exists u. split; [done|].
        intros b w [Hbs| ->]%Hin Hbw; [by eapply Hmax | by simplify_eq].
  - destruct Hb as [[-> Hnone]|(Hes & Hse & u & Hu & Hmax)].
    + left. split; [done|]. intros b [Hbs| ->]%Hin; [by apply Hnone | done].
    + right. split; [apply Hin; by left|]. split; [done|]. exists u. split; [done|].
      intros b w [Hbs| ->]%Hin Hbw; [by eapply Hmax | congruence].
Qed.

Lemma wp_scan s qs l seen e Q :
  qrep (qm s) qs -> (forall a, a ∈ l -> scannable s qs a) -> best s qs seen e ->
  (forall e', best s qs (seen ++ l) e' -> Q tt (set_earliest e' s)) ->
  wp (mfor l find_earliest) (set_earliest e s) Q.
Proof.
  revert seen e; induction l as [|a l IH]; intros seen e Hq Hl Hb HQ; cbn [mfor].
  { wp_step. apply HQ. by rewrite app_nil_r. }
  wp_step. eapply (wp_find_earliest s qs a e); [done | apply Hl; by left | |].
  { destruct Hb as [[-> _]|(_ & Hs & v & Hv & _)]; [by left | right; eauto]. }
  apply (IH (seen ++ [a])); [done | intros b Hb'; apply Hl; by right | |].
  - apply best_step; [apply Hl; by left | done].
  - intros e' He'. apply HQ. by rewrite <- app_assoc in He'.
Qed.

End Scheduling.

(** ** A concrete state *)

(** Two services, 2 and 12, with one waiting transaction each: 7, which arrived at
    time 1, and 17, which arrived at time 2; client 3 advertises both. *)
Definition wit_two_queues : list (qaddr * list qaddr) :=
  [(Q_waitq 2, [Q_t_svc_waitq 7]); (Q_waitq 12, [Q_t_svc_waitq 17]);
   (Q_adv_waitq 4, []); (Q_adv_waitq 14, [])].
Definition wit_two : sb (bst Z) :=
  mkSb wit_mem2 (rings wit_two_queues)
    {[3 := mkClient 5 0 NULL None (Node Leaf 4 (Node Leaf 14 Leaf)) 0]}
    (<[12 := mkService [x53] true 0 0]> {[2 := mkService wit_name true 0 0]})
    (<[14 := mkAdvert 12 3 2000 0 0]> {[4 := mkAdvert 2 3 1000 0 0]})
    (<[17 := mkTrans 6 12 (2, 0) 0 78 (Ptr 1 32) 0 0 0]> {[7 := mkTrans 6 2 (1, 0) 0 77 (Ptr 1 32) 0 0 0]})
    20 Leaf (replicate 10 0) 10 0 (fun _ _ => 1) 0 20 (fun _ => (0, 0)) 0 0 [] [].
