(* ===== verification/Work.v ===== *)
(** * Asking for work

    [svrservice] of [svrservice.c] on both branches: the worker is given the first
    transaction of the service that [find_earliest] selects, or is left waiting
    on the wait queue of every service it advertises. *)

From Stdlib Require Import ZArith Lia.
From S2P Require Import Prelude Constants ByteOrder CString SearchTree Queue Memory TpMemory.
From S2P Require Import SbState SbObjects SbHandlers SbLemmas TxIo Xatmi Dispatch EventLoop Registry Messages.
From S2P Require Import Scheduling.

Local Open Scope Z_scope.

Section Work.
Context {T : Type} `{SearchTreeOps T Z} (dm : data_model).
Implicit Types (s : sb T) (x : tpclient T) (qs : gmap qaddr (list qaddr)) (a : Z).

(** The service of an advertisement. *)
Definition svc_of s a : Z := default 0 (a_svc <$> advs s !! a).

(** ** Waiting *)

(** The lists with the advertisements [l] at the ends of the wait queues. *)
Definition q_wait s qs a : gmap qaddr (list qaddr) :=
  <[Q_waitq (svc_of s a) := default [] (qs !! Q_waitq (svc_of s a)) ++ [Q_adv_waitq a]]>
    (delete (Q_adv_waitq a) qs).
Definition q_wait_all s (l : list Z) qs : gmap qaddr (list qaddr) := foldl (q_wait s) qs l.

(** The services whose queues no longer have transactions. *)
Definition unset_all s (l : list Z) (m : gmap Z SbState.tpservice) : gmap Z SbState.tpservice :=
  foldl (fun m a => alter (set_wct false) (svc_of s a) m) m l.

(** The advertisement can be put on a wait queue. *)
Definition can_wait s qs a : Prop :=
  a <> 0 /\ (exists ax, advs s !! a = Some ax /\ a_svc ax <> 0 /\ is_Some (svcs s !! a_svc ax) /\
    is_Some (qs !! Q_waitq (a_svc ax))) /\ qs !! Q_adv_waitq a = Some [].

Lemma can_wait_step s s' qs a b :
  a <> b -> advs s' = advs s -> dom (svcs s') = dom (svcs s) -> can_wait s qs b -> can_wait s' (q_wait s qs a) b.
Proof.
  intros Hab Ea Es (Hb & (bx & Hbx & Hb0 & Hsv & [l Hl]) & Hn). split; [done|]. unfold q_wait. split.
  - exists bx. rewrite Ea. split; [done|]. split; [done|]. split.
    + apply elem_of_dom. rewrite Es. by apply elem_of_dom.
    + destruct (decide (svc_of s a = a_svc bx)) as [->|Hne]; [by rewrite lookup_insert_eq|].
      rewrite lookup_insert_ne, lookup_delete_ne by congruence. eauto.
  - rewrite lookup_insert_ne, lookup_delete_ne by congruence. done.
Qed.

Lemma wp_add_to_waitq s qs a Q :
  qrep (qm s) qs -> can_wait s qs a ->
  (forall m', qrep m' (q_wait s qs a) ->
    Q tt (set_qm m' (set_svcs (alter (set_wct false) (svc_of s a) (svcs s)) s))) ->
  wp (add_to_waitq a) s Q.
Proof.
  intros Hq (Ha & (ax & Hax & Hs0 & [sv Hsv] & [l Hl]) & Hn) HQ.
  assert (svc_of s a = a_svc ax) as Esv by (unfold svc_of; by rewrite Hax).
  unfold add_to_waitq. wp_step. eapply wp_get_adv; [done | exact Hax |].
  wp_step. eapply wp_put_svc; [done | exact Hsv |].
  destruct (qrep_qappend_tail (qm s) qs (Q_waitq (a_svc ax)) l (Q_adv_waitq a) Hq Hl Hn) as (m' & E & Q'); [done|].
  wp_step. eapply wp_in_q; [exact E|]. wp_step.
  eapply wp_in_q_read; [eapply QISEMPTY_queue, (qr_queue _ _ Q'), lookup_insert_eq|].
  apply wp_assert; [by rewrite bool_decide_false by (by destruct l)|].
  assert (<[a_svc ax := set_wct false sv]> (svcs s) = alter (set_wct false) (svc_of s a) (svcs s)) as ->.
  { rewrite Esv. apply map_eq. intros i. destruct (decide (i = a_svc ax)) as [->|Hi].
    - by rewrite lookup_insert_eq, lookup_alter_eq, Hsv.
    - by rewrite lookup_insert_ne, lookup_alter_ne. }
  apply HQ. unfold q_wait. by rewrite Esv, Hl.
Qed.

Lemma wp_add_all l s qs Q :
  qrep (qm s) qs -> NoDup l -> (forall a, a ∈ l -> can_wait s qs a) ->
  (forall m', qrep m' (q_wait_all s l qs) -> Q tt (set_qm m' (set_svcs (unset_all s l (svcs s)) s))) ->
  wp (mfor l add_to_waitq) s Q.
Proof.
  revert s qs; induction l as [|a l IH]; intros s qs Hq Hnd Hl HQ; cbn [mfor].
  { wp_step. specialize (HQ (qm s) Hq). by destruct s. }
  apply NoDup_cons in Hnd as [Ha Hnd]. wp_step.
  eapply wp_add_to_waitq; [exact Hq | apply Hl; by left |]. intros m' Q'.
  apply (IH _ (q_wait s qs a)); [exact Q' | done | |].
  - intros b Hb. eapply (can_wait_step s); [by intros -> | done | | apply Hl; by right].
    cbn. apply dom_alter_L.
  - intros m'' Q''. by apply HQ.
Qed.

(** With one advertisement for each service, each is the last of its queue. *)
Lemma q_wait_all_lookup s l qs a w :
  NoDup (svc_of s <$> l) -> a ∈ l -> qs !! Q_waitq (svc_of s a) = Some w ->
  q_wait_all s l qs !! Q_waitq (svc_of s a) = Some (w ++ [Q_adv_waitq a]).
Proof.
  assert (forall l qs, svc_of s a ∉ svc_of s <$> l ->
    q_wait_all s l qs !! Q_waitq (svc_of s a) = qs !! Q_waitq (svc_of s a)) as Hother.
  { clear. intros l; induction l as [|b l IH]; intros qs Hn; [done|]. cbn [q_wait_all foldl].
    rewrite fmap_cons, not_elem_of_cons in Hn. destruct Hn as [Hb Hn].
    etransitivity; [by apply IH|]. unfold q_wait. by rewrite lookup_insert_ne, lookup_delete_ne by congruence. }
  revert qs; induction l as [|b l IH]; intros qs Hnd Ha Hw; [by apply not_elem_of_nil in Ha|].
  rewrite fmap_cons in Hnd. apply NoDup_cons in Hnd as [Hb Hnd]. cbn [q_wait_all foldl].
  apply elem_of_cons in Ha as [->|Ha].
  - etransitivity; [by apply Hother|]. unfold q_wait. by rewrite lookup_insert_eq, Hw.
  - apply IH; [done | done |]. unfold q_wait. rewrite lookup_insert_ne, lookup_delete_ne; [done | done |].
    intros [= E]. apply Hb. rewrite E. by apply list_elem_of_fmap_2.
Qed.

(** ** Work *)

(** The first transaction that waits for an advertised service can be sent. *)
Definition first_waits s qs (c a t : Z) (tx : tptransaction) (sv : SbState.tpservice) (len : Z) : Prop :=
  exists ax l, advs s !! a = Some ax /\ a_client ax = c /\ svcs s !! a_svc ax = Some sv /\
    wait_contains_transactions sv = true /\ qs !! Q_waitq (a_svc ax) = Some (Q_t_svc_waitq t :: l) /\
    t <> 0 /\ trans s !! t = Some tx /\ t_svc tx = a_svc ax /\
    tpbuf dm (tp_heap (mem s)) (t_data tx) len.

(** [svrservice] up to what it does with the worker. *)
Lemma wp_svrservice s c x buf qs Q :
  let l := twalk (adverts x) in
  c <> 0 -> clients s !! c = Some x -> sane s qs -> message dm s buf [] -> (forall a, a ∈ l -> scannable s qs a) ->
  ((forall a, a ∈ l -> waiting_arrival s qs a = None) -> wp (mfor l add_to_waitq) (set_earliest 0 (freed buf s)) Q) ->
  (forall e v, e ∈ l -> waiting_arrival s qs e = Some v ->
    (forall a u, a ∈ l -> waiting_arrival s qs a = Some u -> timer_lt v u = false) ->
    wp (t ← FIRSTTRAN e; send_to_server dm e t) (set_earliest e (freed buf s)) Q) ->
  wp (svrservice dm c buf) s Q.
Proof.
  intros l Hc Hx Hs Hm Hscan Hnone Hsome. unfold svrservice.
  wp_step. apply wp_assert; [by rewrite (proj2 (Z.eqb_neq c 0))|].
  wp_step. eapply wp_get_client; [done | exact Hx |]. wp_step. eapply wp_free_message; [exact Hm|].
  pose proof (freed_sane s buf qs Hs) as Hs0. set (s0 := freed buf s) in *.
  wp_step. wp_step. wp_step. eapply (wp_scan s0 qs l [] 0); [apply Hs0 | exact Hscan | |].
  { left. split; [done|]. intros a Ha. by apply not_elem_of_nil in Ha. }
  intros e Hbest. wp_step. wp_step. change (earliest (set_earliest e s0)) with e. cbn [app] in Hbest.
  destruct Hbest as [[-> Hno]|(He & (He0 & _) & v & Hv & Hmax)]; [by apply Hnone|].
  rewrite (proj2 (Z.eqb_neq e 0)) by done. cbn [negb]. by apply (Hsome e v).
Qed.

(** ** Properties *)

(** C18. [svrservice]: the message is freed, and if no transaction waits for a
    service that the worker advertises then nothing is sent, each advertisement
    becomes the last of the wait queue of its service and the services are marked
    as having workers on their queues.  Otherwise the worker is sent the first
    transaction of one of its services, and of the first transactions that wait for
    its services this is one that arrived last: none of the others arrived later.
    (The comment of [find_earliest] promises the one that arrived first, and so does
    its name; its comparison keeps the later one.) *)
Theorem svrservice_serves s c x buf qs :
  let l := twalk (adverts x) in
  c <> 0 -> clients s !! c = Some x -> idle x -> sane s qs -> message dm s buf [] ->
  NoDup (svc_of s <$> l) -> adverts_ok s x qs ->
  (forall a, a ∈ l -> scannable s qs a /\ qs !! Q_adv_waitq a = Some []) ->
  (forall a v, a ∈ l -> waiting_arrival s qs a = Some v ->
    exists t tx sv len, first_waits (freed buf s) qs c a t tx sv len) ->
  wp (svrservice dm c buf) s (fun _ s' =>
    ((forall a, a ∈ l -> waiting_arrival s qs a = None) /\
     out s' = out s /\ clients s' = clients s /\ trans s' = trans s /\
     svcs s' = unset_all s l (svcs s) /\
     exists qs', qrep (qm s') qs' /\ forall a w, a ∈ l -> qs !! Q_waitq (svc_of s a) = Some w ->
       qs' !! Q_waitq (svc_of s a) = Some (w ++ [Q_adv_waitq a])) \/
    (exists e ax v t tx sv len, e ∈ l /\ advs s !! e = Some ax /\ waiting_arrival s qs e = Some v /\
      (forall a u, a ∈ l -> waiting_arrival s qs a = Some u -> timer_lt v u = false) /\
      first_waits (freed buf s) qs c e t tx sv len /\
      sent_to_server dm (freed buf s) s' c e t x tx qs
        (work_message (a_opaque ax) (svcname sv) len (t_flags tx) (cd tx)
          (tpdata (tp_heap (mem (freed buf s))) (t_data tx) len)))).
Proof.
  intros l Hc Hx Hi Hs Hm Hnd Hok Hscan Hfirst. pose proof (freed_sane s buf qs Hs) as Hs0.
  eapply (wp_svrservice s c x buf qs); [done | done | done | done | intros a Ha; apply (Hscan a Ha) | |]; set (s0 := freed buf s) in *.
  - intros Hnone. eapply (wp_add_all l (set_earliest 0 s0) qs); [apply Hs0 | | |].
    + by apply NoDup_fmap_1 in Hnd.
    + intros a Ha. destruct (Hscan a Ha) as [(Ha0 & ax & sv & w & Hax & Hs1 & Hsv & Hw & _) Hn].
      split; [done|]. split; [|done]. exists ax. split_and!; eauto.
    + intros m' Q'. left. split_and!; try done. eexists. split; [exact Q'|].
      intros a w Ha Hw. by apply (q_wait_all_lookup (set_earliest 0 s0)).
  - intros e v He Hv Hmax. assert (e <> 0) as He0 by apply (Hscan e He).
    destruct (Hfirst e v He Hv) as (t & tx & sv & len & Hfw). pose proof Hfw as
      (ax & w & Hax & Hcl & Hsv & Hwct & Hw & Ht & Htx & Hts & Hb).
    destruct (Hscan e He) as [(_ & ax' & _ & _ & Hax' & Has & _) _].
    assert (ax' = ax) as -> by (rewrite <- (inj_iff Some); etransitivity; [symmetry; exact Hax' | exact Hax]).
    wp_step. unfold FIRSTTRAN. wp_step. eapply wp_get_adv; [done | exact Hax |].
    wp_step. eapply wp_in_q_read; [eapply QFIRST_queue, (qr_queue _ _ (sn_queues _ _ Hs0)), Hw|].
    unfold offset_t_svc_waitq. wp_step.
    eapply wp_mono; [eapply (send_to_server_run dm (set_earliest e s0) c e t x ax tx sv qs len);
      [done | exact Hax | done | done | done | done | exact Htx | by rewrite Hts | by rewrite Hts | exact Hx | done
      | apply Hs0 | exact Hok | exact Hb | apply Hs0 | by apply memory_left_oom, Hs0]|].
    intros [] s' [S1 S2 S3 S4 S5 S6 S7 S8]. right. exists e, ax, v, t, tx, sv, len.
    split_and!; try done.
Qed.

End Work.

(** ** Witnesses *)

(** The worker 3 of [wit_two], for whose services 2 and 12 the transactions 7 and
    17 wait, asks for work. *)
Definition wit_asks : sb (bst Z) := set_mem (wit_msg []) wit_two.

Lemma wit_asks_ok a :
  a ∈ [4; 14] -> scannable wit_asks (list_to_map wit_two_queues) a /\
    (list_to_map wit_two_queues : gmap qaddr (list qaddr)) !! Q_adv_waitq a = Some [] /\
    exists t tx sv len, first_waits LP64 (freed (Ptr 2 32) wit_asks) (list_to_map wit_two_queues) 3 a t tx sv len.
Proof.
  intros Ha. apply elem_of_cons in Ha as [->|Ha]; [|apply list_elem_of_singleton in Ha as ->].
  - split; [|split; [vm_compute; reflexivity|]].
    + split; [discriminate|]. eexists _, _, _. split; [reflexivity|]. split; [discriminate|].
      split; [reflexivity|]. split; [vm_compute; reflexivity|]. intros _. right. exists 7, [].
      split; [reflexivity|]. split; [discriminate | eexists; reflexivity].
    + eexists 7, _, _, 2, _, []. split; [reflexivity|]. split; [reflexivity|]. split; [reflexivity|].
      split; [reflexivity|]. split; [vm_compute; reflexivity|]. split; [discriminate|].
      split; [reflexivity|]. split; [reflexivity | buf_check].
  - split; [|split; [vm_compute; reflexivity|]].
    + split; [discriminate|]. eexists _, _, _. split; [reflexivity|]. split; [discriminate|].
      split; [reflexivity|]. split; [vm_compute; reflexivity|]. intros _. right. exists 17, [].
      split; [reflexivity|]. split; [discriminate | eexists; reflexivity].
    + eexists 17, _, _, 2, _, []. split; [reflexivity|]. split; [reflexivity|]. split; [reflexivity|].
      split; [reflexivity|]. split; [vm_compute; reflexivity|]. split; [discriminate|].
      split; [reflexivity|]. split; [reflexivity | buf_check].
Qed.

Lemma svrservice_serves_witness :
  wp (svrservice LP64 3 (Ptr 2 32)) wit_asks (fun _ s' =>
    exists e t, e ∈ [4; 14] /\ executor <$> trans s' !! t = Some e).
Proof.
  eapply wp_mono.
  - apply (svrservice_serves LP64 wit_asks 3 (mkClient 5 0 NULL None (Node Leaf 4 (Node Leaf 14 Leaf)) 0) (Ptr 2 32)
      (list_to_map wit_two_queues));
      [discriminate | reflexivity | split; [reflexivity | split; reflexivity] | sane_check | message_check | | | |].
    + apply (bool_decide_unpack _). vm_compute. exact I.
    + intros a Ha. destruct (wit_asks_ok a Ha) as (Hs & Hn & _). destruct Hs as (H0 & ax & _ & _ & Hax & _).
      split; [exact H0|]. split; [eexists; exact Hax | left; exact Hn].
    + intros a Ha. destruct (wit_asks_ok a Ha) as (Hs & Hn & _). split; [exact Hs | exact Hn].
    + intros a v Ha _. destruct (wit_asks_ok a Ha) as (_ & _ & Hf). exact Hf.
  - intros [] s' [(Hnone & _)|(e & ax & v & t & tx & sv & len & He & _ & _ & _ & _ & Hs)].
    + exfalso. specialize (Hnone 4 ltac:(by left)). vm_compute in Hnone. discriminate.
    + exists e, t. split; [exact He|]. rewrite (ss_trans _ _ _ _ _ _ _ _ _ _ Hs), lookup_insert_eq. reflexivity.
Defined.
