(* ===== verification/Session.v ===== *)
(** * Sessions

    The whole system at work on examples, evaluated: a switchboard from its initial
    state, a worker that serves [REVERSE] and a client that calls it; the bytes that the
    switchboard sends are what the library reads, and the bytes that the library writes
    are what the switchboard is given.  Then sessions that stop the switchboard. *)

From Stdlib Require Import ZArith Lia String.
From Stdlib Require Import Strings.Byte.
From S2P Require Import Prelude Constants ByteOrder CString SearchTree Queue Memory TpMemory.
From S2P Require Import SbState SbObjects SbHandlers SbLemmas TxIo Xatmi Reverse.

Local Open Scope string_scope.
Local Open Scope Z_scope.
Local Open Scope list_scope.

(** ** Running the switchboard *)

Definition master : Z := 3.

(** A pass in which a connection arrives. *)
Definition connect_pass (newfd : Z) : M (sb (bst Z)) unit :=
  Iowait LP64 master (mkIoEnv (fun _ => Some {[master]}) (Some newfd) (fun _ => ReadError)).

(** A pass in which bytes arrive at a descriptor. *)
Definition input_pass (f : Z) (bs : list byte) : M (sb (bst Z)) unit :=
  Iowait LP64 master (mkIoEnv (fun _ => Some {[f]}) None (fun _ => ReadBytes bs)).

(** How many bytes the switchboard wants from a descriptor. *)
Definition wanted (f : Z) (s : sb (bst Z)) : nat :=
  match filter (fun cx => fd (snd cx) = f) (map_to_list (clients s)) with
  | (_, x) :: _ =>
      match tplen LP64 (input x) (mem s) with Done (n, _) => Z.to_nat (n - used x) | Fault _ => 0%nat end
  | [] => 0%nat
  end.

(** The kernel keeps what was sent and hands it out as it is asked for. *)
Fixpoint deliver (fuel : nat) (f : Z) (bs : list byte) : M (sb (bst Z)) unit :=
  match bs, fuel with
  | [], _ => mret tt
  | _, O => raise OutOfFuel
  | _, S fuel' =>
      n ← gets (wanted f);
      input_pass f (take n bs) ;; deliver fuel' f (drop n bs)
  end.

(** ** The two programs *)

Definition REVERSE : list byte := list_byte_of_string "REVERSE" ++ replicate 8 x00.
Definition routine_addr : Z := 4711.

(** What the worker does for one request: [tpadvertise] and one [tpservice]. *)
Definition worker : M conn (option svcinfo) :=
  _ ← tpadvertise LP64 (Some REVERSE) routine_addr;
  tpservice LP64 (fun a => if a =? routine_addr then Some (reversesvr LP64 TPFAIL) else None)
    (Some (replicate 48 x00)).

(** What the client does: [tpalloc], filling the buffer, [tpcall]. *)
Definition caller (d : list byte) : M conn grply :=
  p ← in_cmem (tpalloc ILP32 NULL NULL (Z.of_nat (length d)));
  in_cmem (in_heap (store_bytes p d)) ;;
  tpcall ILP32 (Some REVERSE) p (Z.of_nat (length d)) false p (Z.of_nat (length d)) 0.

Definition process (inc : list byte) : conn :=
  mkConn 7 inc [] [] [] [] (mkTpmem (mkHeap ∅ 1 x2a []) 0) 0 false 4096 x00 [].

(** ** The session *)

Definition start : sb (bst Z) :=
  sb_init x2a [] 0 (fun k i => Z.of_nat (1000 * k + i + 500)) 23 (fun k => (Z.of_nat k, 0)).

(** The worker connects as 4 and the client as 5; [adv], [work], [ret] are what
    the worker writes, [call], [grply] what the client writes. *)
Definition session (adv work call ret grply : list byte) : M (sb (bst Z)) unit :=
  connect_pass 4 ;; connect_pass 5 ;;
  deliver 9 4 adv ;; deliver 9 4 work ;;
  deliver 9 5 call ;; deliver 9 4 ret ;; deliver 9 5 grply.

Definition text : list byte := list_byte_of_string "hello".
Definition cd0 : Z := 500.
Definition adv_bytes : list byte := [z2b TPTADVT] ++ REVERSE ++ le_encode 4 routine_addr.
Definition call_bytes : list byte := acall_bytes REVERSE 5 0 ++ text.
Definition ret_bytes : list byte := return_bytes TPSUCCESS TPSUCCESS (reverse text).
Definition grply_bytes : list byte := getrply_bytes cd0 0.

Definition after : outcome (unit * sb (bst Z)) :=
  session adv_bytes [z2b TPTWORK] call_bytes ret_bytes grply_bytes start.
Definition received (f : Z) : list byte :=
  match after with Done (_, s) => stream f s | Fault _ => [] end.

(** A worker, a client and the switchboard, run together from their initial
    states, agree on every byte: what the worker and the client write when they
    read what the switchboard sends is what the switchboard was given; the client,
    whose [long] has 32 bits while that of the others has 64, gets the reversed
    text with the result of the routine; in the end no transaction, no unread byte
    and no buffer of a finished request is left, and both processes can go on. *)
Example session_runs :
  match worker (process (received 4)), caller text (process (received 5)), after with
  | Done (i, w), Done (g, c), Done (_, s) =>
      sent w = adv_bytes ++ [z2b TPTWORK] ++ ret_bytes /\ incoming w = [] /\
      sent c = call_bytes ++ grply_bytes /\ incoming c = [] /\
      i_cd <$> i = Some cd0 /\ g_ret g = cd0 /\ g_len g = 5 /\
      tpdata (tp_heap (cmem c)) (g_data g) 5 = list_byte_of_string "olleh" /\
      tperrno (cmem c) = 0 /\ tpurcode c = TPSUCCESS /\
      map_to_list (trans s) = [(GLOBAL_ANY, zero_transaction)] /\
      (handler_fn <$> clients s !! 1, handler_fn <$> clients s !! 2) = (Some (Some H_command), Some (Some H_command)) /\
      size (blocks (tp_heap (mem s))) = 2%nat
  | _, _, _ => False
  end.
Proof. vm_compute. repeat split. Qed.

(** ** Sessions that end badly *)

(** A pass in which a connection is closed by its peer. *)
Definition eof_pass (f : Z) : M (sb (bst Z)) unit := input_pass f [].

(** What a run of the switchboard ends with. *)
Definition fault_of (m : M (sb (bst Z)) unit) : option fault :=
  match m start with Done _ => None | Fault f => Some f end.

(** The worker 4 has advertised and the client 5 is connected. *)
Definition two_connected : M (sb (bst Z)) unit :=
  connect_pass 4 ;; connect_pass 5 ;; deliver 9 4 adv_bytes.
Definition waiting_for_work : M (sb (bst Z)) unit := two_connected ;; deliver 9 4 [z2b TPTWORK].
Definition executing : M (sb (bst Z)) unit := waiting_for_work ;; deliver 9 5 call_bytes.

(** The caller closes its connection before the worker returns. *)
Definition caller_leaves : M (sb (bst Z)) unit := executing ;; eof_pass 5 ;; deliver 9 4 ret_bytes.

(** The worker's routine itself calls a service, of the worker 6, and returns. *)
Definition OTHER : list byte := list_byte_of_string "OTHER" ++ replicate 10 x00.
Definition nested_call : M (sb (bst Z)) unit :=
  waiting_for_work ;; connect_pass 6 ;;
  deliver 9 6 ([z2b TPTADVT] ++ OTHER ++ le_encode 4 1) ;; deliver 9 6 [z2b TPTWORK] ;;
  deliver 9 5 call_bytes ;;
  deliver 9 4 (acall_bytes OTHER 5 0 ++ text) ;; deliver 9 4 (getrply_bytes 501 0) ;;
  deliver 9 6 ret_bytes ;; deliver 9 4 ret_bytes.

(** The call comes first; then two workers of the service ask for work. *)
Definition two_workers : M (sb (bst Z)) unit :=
  two_connected ;; connect_pass 6 ;; deliver 9 6 adv_bytes ;;
  deliver 9 5 call_bytes ;; deliver 9 5 grply_bytes ;;
  deliver 9 4 [z2b TPTWORK] ;; deliver 9 6 [z2b TPTWORK].
Definition both_return : M (sb (bst Z)) unit :=
  two_workers ;; deliver 9 4 ret_bytes ;; deliver 9 6 ret_bytes.

(** The only worker leaves between the header and the data of a call. *)
Definition worker_leaves : M (sb (bst Z)) unit :=
  waiting_for_work ;; deliver 9 5 (acall_bytes REVERSE 5 0) ;; eof_pass 4 ;; deliver 9 5 text.

(** A worker returns a negative length. *)
Definition negative_length : M (sb (bst Z)) unit :=
  executing ;; deliver 9 4 ([z2b TPTRETN] ++ [z2b TPSUCCESS] ++ le_encode 4 0 ++ le_encode 4 (-1)).

(** The caller leaves while the data of the reply is arriving. *)
Definition leaves_midway : M (sb (bst Z)) unit :=
  executing ;; deliver 9 4 (take 12 ret_bytes) ;; eof_pass 5 ;; deliver 9 4 (drop 12 ret_bytes).

(** A routine withdraws its own service, and the caller leaves. *)
Definition withdrawn : M (sb (bst Z)) unit :=
  executing ;; deliver 9 4 ([z2b TPTUADV] ++ REVERSE) ;; eof_pass 5.

(** Sessions of clients that use the library as documented, and one message, stop
    the switchboard: a caller that leaves before the reply and a routine that itself
    calls a service (both make the worker's return dereference null), two workers
    that are given the same request, a worker that leaves while a call is being sent,
    a caller that leaves while the reply is being sent, a caller that leaves when the
    routine has withdrawn its service (all four use freed memory), and a return with a
    negative length (a failed assertion). *)
Example fatal_sessions :
  fault_of caller_leaves = Some NullDeref /\ fault_of nested_call = Some NullDeref /\
  fault_of both_return = Some UseAfterFree /\ fault_of worker_leaves = Some UseAfterFree /\
  fault_of leaves_midway = Some UseAfterFree /\ fault_of withdrawn = Some UseAfterFree /\
  fault_of negative_length = Some AssertFailed /\
  match two_workers start with
  | Done (_, s) => stream 4 s = stream 6 s /\ 
      wait4 <$> clients s !! 1 = wait4 <$> clients s !! 5 /\ wait4 <$> clients s !! 1 <> Some 0
  | Fault _ => False
  end.
Proof. vm_compute. repeat split. discriminate. Qed.

(** The only worker leaves while a call waits for it and the caller for the reply. *)
Definition forgotten : M (sb (bst Z)) unit :=
  two_connected ;; deliver 9 5 call_bytes ;; deliver 9 5 grply_bytes ;; eof_pass 4.

(** A caller whose request waits when the last worker of the service leaves is
    never answered: the transaction is deleted with the service, the switchboard
    sends the caller nothing and expects nothing from it, so that the caller's next
    bytes, whatever they are, end its connection. *)
Lemma waiting_caller_forgotten :
  match forgotten start with
  | Done (_, s) =>
      stream 5 s = [z2b 0] ++ le_encode 2 cd0 /\ map_to_list (trans s) = [(GLOBAL_ANY, zero_transaction)] /\
      clients s !! 2 = Some (mkClient 5 0 NULL None Leaf 0) /\ closed s = [4]
  | Fault _ => False
  end /\
  match (forgotten ;; input_pass 5 [z2b TPTCALL]) start with
  | Done (_, s) => closed s = [4; 5] /\ clients s !! 2 = None
  | Fault _ => False
  end.
Proof. vm_compute. repeat split. Qed.
