(* ===== verification/Invariant.v ===== *)
(** * The invariant of the switchboard

    [sb_wf] is what holds of the switchboard's state between any two passes of
    [Iowait], whatever the clients send and whatever the system calls return, as
    long as the process runs: the kinds of its structs, the widths of their fields,
    the links that belong to them, the state of every client's input, and the
    descriptor pool.  [keeps] is a partial-correctness triple for it, with a rule
    for every operation of the model; the reachable states are an inductive
    relation over passes, and the theorems are by induction on it. *)

From Stdlib Require Import ZArith Lia.
From S2P Require Import Prelude Constants ByteOrder CString SearchTree Queue Memory TpMemory Keeps.
From S2P Require Import SbState SbObjects SbHandlers SbLemmas.

Local Open Scope Z_scope.

(** ** Operations on the links *)

(** The queue operations create and remove no links. *)
Definition same_links : relation (gmap qaddr (QUEUE qaddr)) :=
  fun m m' => forall q, is_Some (m' !! q) <-> is_Some (m !! q).

#[global] Instance same_links_preorder : PreOrder same_links.
Proof. split; unfold same_links; intros ?; naive_solver. Qed.

Lemma pres_QPREV q : pres same_links (QPREV q).
Proof. unfold QPREV. pres_steps. Qed.
Lemma pres_QNEXT q : pres same_links (QNEXT q).
Proof. unfold QNEXT. pres_steps. Qed.
Lemma pres_set_p1 q v : pres same_links (modify (set_p1 q v)).
Proof. intros m x. apply is_Some_set_p1. Qed.
Lemma pres_set_p2 q v : pres same_links (modify (set_p2 q v)).
Proof. intros m x. apply is_Some_set_p2. Qed.
#[export] Hint Resolve pres_QPREV pres_QNEXT pres_set_p1 pres_set_p2 : pres.
Lemma pres_QPREV_set q v : pres same_links (QPREV_set q v).
Proof. unfold QPREV_set. pres_steps. Qed.
Lemma pres_QNEXT_set q v : pres same_links (QNEXT_set q v).
Proof. unfold QNEXT_set. pres_steps. Qed.
#[export] Hint Resolve pres_QPREV_set pres_QNEXT_set : pres.

Lemma pres_QFIRST q : pres same_links (QFIRST q).
Proof. unfold QFIRST. pres_steps. Qed.
Lemma pres_QLAST q : pres same_links (QLAST q).
Proof. unfold QLAST. pres_steps. Qed.
#[export] Hint Resolve pres_QFIRST pres_QLAST : pres.
Lemma pres_QISEMPTY q : pres same_links (QISEMPTY q).
Proof. unfold QISEMPTY. pres_steps. Qed.
Lemma pres_qappend q n : pres same_links (qappend q n).
Proof. unfold qappend. pres_steps. Qed.
#[export] Hint Resolve pres_qappend : pres.
Lemma pres_qdelete q : pres same_links (qdelete q).
Proof. unfold qdelete. pres_steps. Qed.
Lemma pres_qwalk fuel h q : pres same_links (qwalk fuel h q).
Proof. revert q. induction fuel as [|fuel IH]; intros q; cbn [qwalk]; pres_steps. Qed.
Lemma pres_qappend_tail q n : pres same_links (qappend_tail q n).
Proof. unfold qappend_tail. pres_steps. Qed.
#[export] Hint Resolve pres_QISEMPTY pres_qappend_tail pres_qdelete pres_qwalk : pres.
Lemma pres_qelements q : pres same_links (qelements q).
Proof. unfold qelements. pres_steps. Qed.
#[export] Hint Resolve pres_qelements : pres.

Create HintDb keeps discriminated.

(** ** Well-formed states *)

Definition in_short (z : Z) : Prop := - 2 ^ 15 <= z < 2 ^ 15.
Definition in_long (dm : data_model) (z : Z) : Prop :=
  - 2 ^ (long_bits dm - 1) <= z < 2 ^ (long_bits dm - 1).

Section Invariant.
Context {T : Type} `{SearchTreeOps T Z} (dm : data_model).
Implicit Types (s : sb T) (x : tpclient T).

(** A client waits for a message, with a buffer and a handler for it, or for
    nothing. *)
Definition client_ok x : Prop :=
  (handler_fn x = None /\ input x = NULL /\ used x = 0) \/
  (is_Some (handler_fn x) /\ input x <> NULL /\ 0 <= used x).

Definition svc_ok (v : tpservice) : Prop := length (svcname v) = XATMI_SERVICE_NAME_LENGTH.

Definition adv_ok (v : tpadvertisement) : Prop :=
  a_client v <> 0 /\ a_svc v <> 0 /\ 0 <= a_opaque v < 2 ^ long_bits dm.

Definition trans_ok (t : Z) (v : tptransaction) : Prop :=
  (t = GLOBAL_ANY \/ 0 < t /\ t_client v <> 0 /\ t_svc v <> 0) /\
  in_short (cd v) /\ - 128 <= rval v < 128 /\ in_long dm (rcode v) /\ in_long dm (t_flags v).

(** The struct a link belongs to is there. *)
Definition q_live s (q : qaddr) : Prop :=
  match q with
  | QNULL => False
  | Q_tpclients | Q_tptransactions => True
  | Q_global c | Q_requests c | Q_replies c => is_Some (clients s !! c)
  | Q_waitq p => is_Some (svcs s !! p)
  | Q_adv_waitq a => is_Some (advs s !! a)
  | Q_t_global t | Q_t_clientq t | Q_t_svc_waitq t => 0 < t /\ is_Some (trans s !! t)
  end.

Record sb_wf s : Prop := mkWf {
  wf_next : 0 < next s;
  wf_heap : heap_wf (tp_heap (mem s));
  wf_clients c x : clients s !! c = Some x -> 0 < c < next s /\ client_ok x;
  wf_svcs p v : svcs s !! p = Some v -> 0 < p < next s /\ svc_ok v;
  wf_advs a v : advs s !! a = Some v -> 0 < a < next s /\ adv_ok v;
  wf_trans t v : trans s !! t = Some v -> t < next s /\ trans_ok t v;
  wf_links q : is_Some (qm s !! q) <-> q_live s q;
  wf_cds : length (free_cd s) = NUM_FREE_CD /\ Forall in_short (free_cd s) /\
    in_short (cd_oob s) /\ (cdp s <= S NUM_FREE_CD)%nat;
  wf_fds c1 x1 c2 x2 :
    clients s !! c1 = Some x1 -> clients s !! c2 = Some x2 -> fd x1 = fd x2 -> c1 = c2;
}.

(** ** Triples *)

(** [keeps n m R]: from a well-formed state in which [n] addresses are given out,
    [m] faults or ends in a well-formed state, with a result that satisfies [R];
    addresses are never taken back. *)
Definition keeps {A} (n : Z) (m : M (sb T) A) (R : A -> Prop) : Prop :=
  forall s, sb_wf s -> n <= next s ->
    match m s with
    | Done (a, s') => sb_wf s' /\ next s <= next s' /\ R a
    | Fault _ => True
    end.

Definition anything {A} : A -> Prop := fun _ => True.

Lemma keeps_ret {A} n (a : A) (R : A -> Prop) : R a -> keeps n (mret a) R.
Proof. intros Ha s Hwf Hn. cbn. auto with lia. Qed.
Lemma keeps_raise {A} n f (R : A -> Prop) : keeps n (raise f) R.
Proof. by intros s. Qed.
Lemma keeps_mono {A} n (m : M (sb T) A) (R R' : A -> Prop) :
  keeps n m R -> (forall a, R a -> R' a) -> keeps n m R'.
Proof.
  intros Hm HR s Hwf Hn. specialize (Hm s Hwf Hn). destruct (m s) as [[]|]; naive_solver.
Qed.
Lemma keeps_bind {A B} n (m : M (sb T) A) (k : A -> M (sb T) B) R R' :
  keeps n m R -> (forall a, R a -> keeps n (k a) R') -> keeps n (m ≫= k) R'.
Proof.
  intros Hm Hk s Hwf Hn. specialize (Hm s Hwf Hn). unfold mbind, M_bind.
  destruct (m s) as [[a s1]|]; [|done]. destruct Hm as (W & N & Ra).
  specialize (Hk a Ra s1 W ltac:(lia)). destruct (k a s1) as [[b s2]|]; [|done].
  destruct Hk as (W2 & N2 & ?). split_and!; [done | lia | done].
Qed.
Lemma keeps_then {A B} n (m : M (sb T) A) (k : A -> M (sb T) B) R :
  keeps n m anything -> (forall a, keeps n (k a) R) -> keeps n (m ≫= k) R.
Proof. intros Hm Hk. eapply keeps_bind; [exact Hm|]. auto. Qed.

(** Steps that run to a known state. *)
Lemma keeps_run {A} n (m k : M (sb T) A) R :
  (forall s, sb_wf s -> n <= next s -> exists s1, m s = k s1 /\ sb_wf s1 /\ next s <= next s1) ->
  keeps n k R -> keeps n m R.
Proof.
  intros Hm Hk s Hwf Hn. destruct (Hm s Hwf Hn) as (s1 & -> & W & N).
  specialize (Hk s1 W ltac:(lia)).
  destruct (k s1) as [[b s2]|]; [|done]. destruct Hk as (W2 & N2 & ?). split_and!; [done | lia | done].
Qed.

Lemma keeps_assert n b : keeps n (assert_ b) (fun _ => b = true).
Proof. destruct b; [by apply keeps_ret | apply keeps_raise]. Qed.
Lemma keeps_ask {A} n f (o : option A) : keeps n (ask f o) (fun a => o = Some a).
Proof. destruct o; [by apply keeps_ret | apply keeps_raise]. Qed.
Lemma keeps_gets {A} n (f : sb T -> A) : keeps n (gets f) (fun a => exists s, sb_wf s /\ a = f s).
Proof. intros s Hwf Hn. cbn. split_and!; [done | lia | eauto]. Qed.
Lemma keeps_modify n f :
  (forall s, sb_wf s -> n <= next s -> sb_wf (f s) /\ next s <= next (f s)) ->
  keeps n (modify f) anything.
Proof. intros Hf s Hwf Hn. cbn. destruct (Hf s Hwf Hn). done. Qed.

Lemma keeps_in_mem {A} n (m : M tpmem A) : pres mem_keeps m -> keeps n (in_mem m) anything.
Proof.
  intros Hm s Hwf Hn. specialize (Hm (mem s)). unfold in_mem, zoom.
  destruct (m (mem s)) as [[a m']|]; [|done]. split_and!; [|cbn; lia | done].
  destruct Hwf. constructor; auto. by apply Hm.
Qed.
Lemma keeps_in_q {A} n (m : M _ A) : pres same_links m -> keeps n (in_q m) anything.
Proof.
  intros Hm s Hwf Hn. specialize (Hm (qm s)). unfold in_q, zoom.
  destruct (m (qm s)) as [[a m']|]; [|done]. split_and!; [|cbn; lia | done].
  destruct Hwf. constructor; auto. intros q. rewrite (Hm q). by rewrite wf_links0; destruct q.
Qed.

(** The fields that the invariant says nothing about. *)
Lemma keeps_set_out n f : keeps n (modify (fun s => set_out (f s) s)) anything.
Proof. apply keeps_modify. intros s Hwf Hn. split; [by destruct Hwf | cbn; lia]. Qed.
Lemma keeps_set_closed n f : keeps n (modify (fun s => set_closed (f s) s)) anything.
Proof. apply keeps_modify. intros s Hwf Hn. split; [by destruct Hwf | cbn; lia]. Qed.
Lemma keeps_set_services n t : keeps n (modify (set_services t)) anything.
Proof. apply keeps_modify. intros s Hwf Hn. split; [by destruct Hwf | cbn; lia]. Qed.
Lemma keeps_set_earliest n e : keeps n (modify (set_earliest e)) anything.
Proof. apply keeps_modify. intros s Hwf Hn. split; [by destruct Hwf | cbn; lia]. Qed.
Lemma keeps_set_rand_k n e : keeps n (modify (set_rand_k e)) anything.
Proof. apply keeps_modify. intros s Hwf Hn. split; [by destruct Hwf | cbn; lia]. Qed.
Lemma keeps_set_clock_k n e : keeps n (modify (set_clock_k e)) anything.
Proof. apply keeps_modify. intros s Hwf Hn. split; [by destruct Hwf | cbn; lia]. Qed.

(** ** Structs *)

Lemma keeps_deref {A} n (get : sb T -> gmap Z A) p (R : A -> Prop) :
  (forall s v, sb_wf s -> get s !! p = Some v -> R v) -> keeps n (deref get p) R.
Proof.
  intros HR s Hwf Hn. unfold deref. destruct (p =? 0); [exact I|].
  unfold mbind, M_bind, gets. destruct (get s !! p) as [v|] eqn:E; [|exact I].
  cbn. split_and!; [done | lia | eauto].
Qed.

Lemma keeps_get_client n c : keeps n (get_client c) (fun x => 0 < c /\ client_ok x).
Proof. apply keeps_deref. intros s v Hwf E. by destruct (wf_clients s Hwf c v E) as [[? _] ?]. Qed.
Lemma keeps_get_svc n p : keeps n (get_svc p) (fun v => 0 < p /\ svc_ok v).
Proof. apply keeps_deref. intros s v Hwf E. by destruct (wf_svcs s Hwf p v E) as [[? _] ?]. Qed.
Lemma keeps_get_adv n a : keeps n (get_adv a) (fun v => 0 < a /\ adv_ok v).
Proof. apply keeps_deref. intros s v Hwf E. by destruct (wf_advs s Hwf a v E) as [[? _] ?]. Qed.
Lemma keeps_get_trans n t : keeps n (get_trans t) (trans_ok t).
Proof. apply keeps_deref. intros s v Hwf E. by destruct (wf_trans s Hwf t v E) as [_ ?]. Qed.

(** An update of a struct that stays what it is. *)
Lemma deref_put {A} n (get : sb T -> gmap Z A) (set : gmap Z A -> sb T -> sb T) p f :
  (forall s v, sb_wf s -> get s !! p = Some v ->
    sb_wf (set (<[p := f v]> (get s)) s) /\ next s <= next (set (<[p := f v]> (get s)) s)) ->
  keeps n (v ← deref get p; modify (fun s => set (<[p := f v]> (get s)) s)) anything.
Proof.
  intros Hf s Hwf Hn. unfold deref. destruct (p =? 0); [exact I|].
  unfold mbind, M_bind, gets. destruct (get s !! p) as [v|] eqn:E; [|exact I].
  cbn. destruct (Hf s v Hwf E). split_and!; [done..].
Qed.

(** A link stays live when a struct is replaced. *)
Lemma insert_live {A} (m : gmap Z A) p v v' k :
  m !! p = Some v -> is_Some (<[p := v']> m !! k) <-> is_Some (m !! k).
Proof.
  intros E. rewrite lookup_insert_is_Some'. split; [|auto]. intros [<-|?]; [by rewrite E | done].
Qed.

Lemma keeps_put_client n c f :
  (forall x, client_ok x -> client_ok (f x) /\ fd (f x) = fd x) -> keeps n (put_client c f) anything.
Proof.
  intros Hf. apply deref_put. intros s v Hwf E. split; [|cbn; lia].
  destruct (wf_clients s Hwf c v E) as [Hc Hv]. destruct (Hf v Hv) as [Hv' Hfd].
  destruct Hwf. constructor; auto; cbn [clients set_clients next].
  - intros k y [[<- <-]|[? Hk]]%lookup_insert_Some; [done | by apply wf_clients0].
  - intros q. rewrite wf_links0. destruct q; cbn; rewrite ?(insert_live _ c v) by done; done.
  - intros k1 y1 k2 y2 [[<- <-]|[? H1]]%lookup_insert_Some [[<- <-]|[? H2]]%lookup_insert_Some Hy;
      [done|..]; rewrite ?Hfd in Hy; by eapply wf_fds0.
Qed.
Lemma keeps_put_svc n p f :
  (forall v, svc_ok v -> svc_ok (f v)) -> keeps n (put_svc p f) anything.
Proof.
  intros Hf. apply deref_put. intros s v Hwf E. split; [|cbn; lia].
  destruct (wf_svcs s Hwf p v E) as [Hc Hv%Hf].
  destruct Hwf. constructor; auto; cbn [svcs set_svcs next].
  - intros k y [[<- <-]|[? Hk]]%lookup_insert_Some; [done | by apply wf_svcs0].
  - intros q. rewrite wf_links0. destruct q; cbn; rewrite ?(insert_live _ p v) by done; done.
Qed.
Lemma keeps_put_trans n t f :
  (forall v, trans_ok t v -> trans_ok t (f v)) -> keeps n (put_trans t f) anything.
Proof.
  intros Hf. apply deref_put. intros s v Hwf E. split; [|cbn; lia].
  destruct (wf_trans s Hwf t v E) as [Hc Hv%Hf].
  destruct Hwf. constructor; auto; cbn [trans set_trans next].
  - intros k y [[<- <-]|[? Hk]]%lookup_insert_Some; [done | by apply wf_trans0].
  - intros q. rewrite wf_links0. destruct q; cbn; rewrite ?(insert_live _ t v) by done; done.
Qed.

(** A new address. *)
Lemma set_next_wf s : sb_wf s -> sb_wf (set_next (next s + 1) s).
Proof.
  intros []. constructor; auto; cbn [next set_next]; [lia|..].
  - intros c x E. destruct (wf_clients0 c x E). auto with lia.
  - intros p v E. destruct (wf_svcs0 p v E). auto with lia.
  - intros a v E. destruct (wf_advs0 a v E). auto with lia.
  - intros t v E. destruct (wf_trans0 t v E). auto with lia.
Qed.

Lemma keeps_alloc {B} n (k : Z -> M (sb T) B) R :
  keeps n (k 0) R -> (forall a, n <= a -> 0 < a -> keeps (a + 1) (k a) R) ->
  keeps n (alloc_struct ≫= k) R.
Proof.
  intros H0 Ha s Hwf Hn. pose proof (keeps_in_mem n _ (pres_in_heap _ pres_oom) s Hwf Hn) as Ho.
  unfold alloc_struct, mbind, M_bind. destruct (in_mem (in_heap oom) s) as [[[] s1]|]; [..|done];
    destruct Ho as (W & N & _); cbn.
  - specialize (H0 s1 W ltac:(lia)). destruct (k 0 s1) as [[]|]; [|done].
    destruct H0 as (? & ? & ?). auto with lia.
  - pose proof (wf_next s1 W) as Hp.
    specialize (Ha (next s1) ltac:(lia) Hp _ (set_next_wf s1 W) ltac:(done)). cbn [next set_next] in Ha.
    destruct (k (next s1) _) as [[]|]; [|done]. destruct Ha as (? & ? & ?). auto with lia.
Qed.

(** The links of a new struct. *)
Lemma q_init_run {B} q (k : M (sb T) B) s :
  (in_q (q_alloc q) ;; in_q (QINIT q) ;; k) s = k (set_qm (<[q := mkQUEUE q q]> (qm s)) s).
Proof.
  unfold in_q, zoom, mbind, M_bind, q_alloc, QINIT, QNEXT_set, QPREV_set, modify, gets.
  cbn [qm set_qm id]. unfold mbind, M_bind. cbn [id]. rewrite lookup_insert_eq. cbn. unfold set_p2.
  rewrite lookup_alter_eq, lookup_insert_eq. cbn.
  transitivity (k (set_qm (set_p1 q q (set_p2 q q (<[q := mkQUEUE QNULL QNULL]> (qm s)))) s)); [done|].
  unfold set_p1, set_p2. do 2 f_equal.
  apply map_eq. intros y. rewrite !lookup_alter, !lookup_insert. by repeat case_decide.
Qed.
Lemma q_alloc_run {B} q (k : M (sb T) B) s :
  (in_q (q_alloc q) ;; k) s = k (set_qm (<[q := mkQUEUE QNULL QNULL]> (qm s)) s).
Proof. done. Qed.

(** A struct is made together with its links. *)
Lemma keeps_new_svc {B} n p v (k : M (sb T) B) R :
  0 < p < n -> svc_ok v -> keeps n k R ->
  keeps n (modify (fun s => set_svcs (<[p := v]> (svcs s)) s) ;;
    in_q (q_alloc (Q_waitq p)) ;; in_q (QINIT (Q_waitq p)) ;; k) R.
Proof.
  intros Hp Hv. apply keeps_run. intros s Hwf Hn. eexists. split; [|split].
  - etransitivity; [by eapply bind_run|]. apply q_init_run.
  - destruct Hwf. constructor; auto; cbn [svcs set_svcs next set_qm qm].
    + intros k' y [[<- <-]|[? Hk]]%lookup_insert_Some; [auto with lia | by apply wf_svcs0].
    + intros q. rewrite lookup_insert_is_Some', wf_links0.
      destruct q; cbn; rewrite ?lookup_insert_is_Some'; clear -Hp; naive_solver.
  - cbn. lia.
Qed.
Lemma keeps_new_adv {B} n p v (k : M (sb T) B) R :
  0 < p < n -> adv_ok v -> keeps n k R ->
  keeps n (modify (fun s => set_advs (<[p := v]> (advs s)) s) ;;
    in_q (q_alloc (Q_adv_waitq p)) ;; in_q (QINIT (Q_adv_waitq p)) ;; k) R.
Proof.
  intros Hp Hv. apply keeps_run. intros s Hwf Hn. eexists. split; [|split].
  - etransitivity; [by eapply bind_run|]. apply q_init_run.
  - destruct Hwf. constructor; auto; cbn [advs set_advs next set_qm qm].
    + intros k' y [[<- <-]|[? Hk]]%lookup_insert_Some; [auto with lia | by apply wf_advs0].
    + intros q. rewrite lookup_insert_is_Some', wf_links0.
      destruct q; cbn; rewrite ?lookup_insert_is_Some'; clear -Hp; naive_solver.
  - cbn. lia.
Qed.
Lemma keeps_new_trans {B} n t v (k : M (sb T) B) R :
  0 < t < n -> trans_ok t v -> keeps n k R ->
  keeps n (modify (fun s => set_trans (<[t := v]> (trans s)) s) ;;
    in_q (q_alloc (Q_t_global t)) ;;
    in_q (q_alloc (Q_t_clientq t)) ;; in_q (QINIT (Q_t_clientq t)) ;;
    in_q (q_alloc (Q_t_svc_waitq t)) ;; in_q (QINIT (Q_t_svc_waitq t)) ;; k) R.
Proof.
  intros Hp Hv. apply keeps_run. intros s Hwf Hn. eexists. split; [|split].
  - etransitivity; [by eapply bind_run|]. etransitivity; [apply q_alloc_run|].
    etransitivity; [apply q_init_run|]. apply q_init_run.
  - destruct Hwf. constructor; auto; cbn [trans set_trans next set_qm qm].
    + intros k' y [[<- <-]|[? Hk]]%lookup_insert_Some; [auto with lia | by apply wf_trans0].
    + intros q. rewrite !lookup_insert_is_Some', wf_links0.
      destruct q; cbn; rewrite ?lookup_insert_is_Some'; clear -Hp; naive_solver lia.
  - cbn. lia.
Qed.

(** A struct goes together with its links. *)
Lemma keeps_free_service n p : keeps n (free_service p) anything.
Proof.
  unfold free_service. eapply keeps_bind; [apply keeps_get_svc|]. intros v _ s Hwf Hn.
  change (sb_wf (set_qm (delete (Q_waitq p) (qm s)) (set_svcs (delete p (svcs s)) s)) /\
    next s <= next s /\ True). split_and!; [|lia | done].
  destruct Hwf. constructor; auto; cbn [svcs set_svcs next set_qm qm].
  - intros k y [? Hk]%lookup_delete_Some. by apply wf_svcs0.
  - intros q. rewrite lookup_delete_is_Some, wf_links0.
    destruct q; cbn; rewrite ?lookup_delete_is_Some; clear; naive_solver.
Qed.
Lemma keeps_free_adv n p : keeps n (free_adv p) anything.
Proof.
  unfold free_adv. eapply keeps_bind; [apply keeps_get_adv|]. intros v _ s Hwf Hn.
  change (sb_wf (set_qm (delete (Q_adv_waitq p) (qm s)) (set_advs (delete p (advs s)) s)) /\
    next s <= next s /\ True). split_and!; [|lia | done].
  destruct Hwf. constructor; auto; cbn [advs set_advs next set_qm qm].
  - intros k y [? Hk]%lookup_delete_Some. by apply wf_advs0.
  - intros q. rewrite lookup_delete_is_Some, wf_links0.
    destruct q; cbn; rewrite ?lookup_delete_is_Some; clear; naive_solver.
Qed.
Lemma keeps_free_trans n t : keeps n (free_trans t) anything.
Proof.
  unfold free_trans. eapply keeps_bind; [apply keeps_get_trans|]. intros v _ s Hwf Hn.
  change (sb_wf (set_qm (delete (Q_t_svc_waitq t) (delete (Q_t_clientq t) (delete (Q_t_global t) (qm s))))
    (set_trans (delete t (trans s)) s)) /\ next s <= next s /\ True). split_and!; [|lia | done].
  destruct Hwf. constructor; auto; cbn [trans set_trans next set_qm qm].
  - intros k y [? Hk]%lookup_delete_Some. by apply wf_trans0.
  - intros q. rewrite !lookup_delete_is_Some, wf_links0.
    destruct q; cbn; rewrite ?lookup_delete_is_Some; clear; naive_solver.
Qed.

(** ** The operations *)

#[local] Hint Resolve keeps_raise keeps_assert keeps_ask keeps_gets keeps_in_mem keeps_in_q keeps_set_out
  keeps_set_closed keeps_set_services keeps_set_earliest keeps_set_rand_k keeps_set_clock_k
  keeps_get_client keeps_get_svc keeps_get_adv keeps_get_trans
  keeps_free_service keeps_free_adv keeps_free_trans : keeps.
#[local] Hint Extern 0 (pres _ _) => solve [eauto 3 with pres typeclass_instances] : keeps.
#[local] Hint Extern 0 (anything _) => exact I : keeps.

(** Split a computation into operations with a rule of their own. *)
Ltac keeps_step :=
  match goal with
  | |- keeps _ (mret _) _ => apply keeps_ret; solve [auto with keeps]
  | |- keeps _ (raise _) _ => apply keeps_raise
  | |- keeps _ (mbind _ alloc_struct) _ => apply keeps_alloc; [|intros ???]
  | |- keeps _ (mbind _ (if _ then _ else _)) _ => apply keeps_then; [|intros ?]
  | |- keeps _ (mbind _ (match _ with _ => _ end)) _ => apply keeps_then; [|intros ?]
  | |- keeps _ (mbind _ _) _ =>
      eapply keeps_bind; [solve [eauto 3 with keeps] | intros ? ?; cbn beta in *]
  | |- keeps _ (if ?b then _ else _) _ => destruct b eqn:?; try discriminate
  | |- keeps _ (match ?x with _ => _ end) _ => destruct x eqn:?; try discriminate
  | |- keeps _ _ anything => solve [eauto 3 with keeps]
  | |- keeps _ _ anything => solve [eapply keeps_mono; [eauto 3 with keeps | done]]
  end.
Ltac keeps_steps := repeat keeps_step.

Lemma keeps_svrwrite n c v : keeps n (svrwrite c v) anything.
Proof. unfold svrwrite. keeps_steps. Qed.
#[local] Hint Resolve keeps_svrwrite : keeps.
Lemma keeps_svrwriteb n c v : keeps n (svrwriteb c v) anything.
Proof. apply keeps_svrwrite. Qed.
#[local] Hint Resolve keeps_svrwriteb : keeps.
Lemma keeps_svrwrites n c v : keeps n (svrwrites c v) anything.
Proof. unfold svrwrites. keeps_steps. Qed.
#[local] Hint Resolve keeps_svrwrites : keeps.
Lemma keeps_svrwritel n c v : keeps n (svrwritel dm c v) anything.
Proof. unfold svrwritel. keeps_steps. Qed.
#[local] Hint Resolve keeps_svrwritel : keeps.

Lemma keeps_set_wait4 n c w : keeps n (put_client c (set_wait4 w)) anything.
Proof. by apply keeps_put_client. Qed.
Lemma keeps_set_adverts n c t : keeps n (put_client c (set_adverts t)) anything.
Proof. by apply keeps_put_client. Qed.
Lemma keeps_set_executor n t a : keeps n (put_trans t (set_executor a)) anything.
Proof. by apply keeps_put_trans. Qed.
Lemma keeps_set_data n t d : keeps n (put_trans t (set_data d)) anything.
Proof. by apply keeps_put_trans. Qed.
Lemma keeps_set_wct n p b : keeps n (put_svc p (set_wct b)) anything.
Proof. by apply keeps_put_svc. Qed.
#[local] Hint Resolve keeps_set_wait4 keeps_set_adverts keeps_set_executor keeps_set_data keeps_set_wct : keeps.

Lemma keeps_svriowait n call c data f :
  (forall h c p, keeps n (call h c p) anything) -> keeps n (svriowait dm call c data f) anything.
Proof.
  intros Hcall. unfold svriowait. keeps_steps.
  apply keeps_put_client. intros x Hx. split; [|done]. right. cbn. split_and!; [eauto | | lia].
  intros ->. by destruct (negb (c =? 0)).
Qed.
Lemma keeps_svr_next_command n c : keeps n (svr_next_command dm c) anything.
Proof. unfold svr_next_command. keeps_step. apply keeps_svriowait. intros. apply keeps_raise. Qed.
#[local] Hint Resolve keeps_svr_next_command : keeps.

(** ** Objects *)

Lemma keeps_services_live n : keeps n services_live anything.
Proof. unfold services_live. keeps_steps. Qed.
Lemma keeps_adverts_live n t : keeps n (adverts_live t) anything.
Proof. unfold adverts_live. keeps_steps. Qed.
#[local] Hint Resolve keeps_services_live keeps_adverts_live : keeps.
Lemma keeps_fnd_service n name : keeps n (fnd_service name) anything.
Proof. unfold fnd_service. keeps_steps. Qed.
Lemma keeps_tsearch_node n cmp a t : keeps n (tsearch_node cmp a t) anything.
Proof. unfold tsearch_node. keeps_steps. Qed.
#[local] Hint Resolve keeps_fnd_service keeps_tsearch_node : keeps.

Lemma keeps_new_service n name : keeps n (new_service name) anything.
Proof.
  unfold new_service. keeps_steps. apply keeps_new_svc; [lia | apply length_strncpy |]. keeps_steps.
Qed.
Lemma keeps_fnd_advertisement n c name : keeps n (fnd_advertisement c name) anything.
Proof. unfold fnd_advertisement. keeps_steps. Qed.
#[local] Hint Resolve keeps_new_service keeps_fnd_advertisement : keeps.

Lemma keeps_new_advertisement n c name o : keeps n (new_advertisement dm c name o) anything.
Proof.
  unfold new_advertisement. keeps_steps.
  destruct_and!. assert (0 <= ulong dm o < 2 ^ long_bits dm) by (apply uwrap_range; by destruct dm).
  apply keeps_new_adv; [lia | split_and!; cbn; lia |]. keeps_steps.
Qed.

(** ** Descriptors *)

Lemma keeps_set_cds n l k :
  length l = NUM_FREE_CD -> Forall in_short l -> (k <= S NUM_FREE_CD)%nat ->
  keeps n (modify (set_cds l k)) anything.
Proof.
  intros Hl HF Hk. apply keeps_modify. intros s Hwf Hn. split; [|cbn; lia].
  destruct Hwf. constructor; auto. naive_solver.
Qed.

(** The pool of the state that was read. *)
Lemma keeps_pool n : keeps n (gets id) (fun s => sb_wf s).
Proof. eapply keeps_mono; [apply keeps_gets|]. intros s' (s & Hwf & ->). done. Qed.

Lemma keeps_read_cdp n : keeps n read_cdp in_short.
Proof.
  unfold read_cdp. eapply keeps_bind; [apply keeps_pool|]. intros s Hwf.
  destruct (wf_cds s Hwf) as (? & HF & ? & ?).
  case_bool_decide; [by apply keeps_ret|]. eapply keeps_mono; [apply keeps_ask|].
  intros v Hv. exact (Forall_lookup_1 _ _ _ _ HF Hv).
Qed.
#[local] Hint Resolve keeps_read_cdp : keeps.

Lemma keeps_trans_cds n l : keeps n (trans_cds l) anything.
Proof. induction l as [|q l IH]; cbn [trans_cds]; unfold offset_t_global; keeps_steps. Qed.
#[local] Hint Resolve keeps_trans_cds : keeps.

(** What is left of new random numbers. *)
Lemma prune_all_ok cds l :
  Forall in_short l ->
  length (foldl (fun a c => prune c a) l cds) = length l /\ Forall in_short (foldl (fun a c => prune c a) l cds).
Proof.
  revert l. induction cds as [|c cds IH]; intros l Hl; [done|]. cbn.
  destruct (IH (prune c l)) as [L F].
  - apply Forall_fmap. eapply Forall_impl; [exact Hl|]. intros x Hx. cbn.
    destruct (x =? c); [unfold in_short; lia | done].
  - split; [|done]. rewrite L. apply length_fmap.
Qed.

Lemma keeps_refill n : keeps n refill anything.
Proof.
  unfold refill. keeps_steps.
  match goal with |- keeps _ (modify (set_cds (foldl _ ?l ?cds) _)) _ => destruct (prune_all_ok cds l) as [L F] end.
  - apply Forall_fmap, Forall_true. intros i. cbn.
    match goal with |- in_short (swrap 16 ?z) => pose proof (swrap_range 16 z) end. unfold in_short. lia.
  - apply keeps_set_cds; [by rewrite L | done | lia].
Qed.
#[local] Hint Resolve keeps_refill : keeps.

Lemma keeps_next_cd n fuel : keeps n (next_cd fuel) anything.
Proof.
  induction fuel as [|fuel IH]; cbn [next_cd]; [apply keeps_raise|].
  keeps_step. destruct (negb _); [keeps_steps|]. eapply keeps_bind; [apply keeps_pool|]. intros s Hwf.
  destruct (wf_cds s Hwf) as (? & ? & ? & ?). apply keeps_then; [|done].
  case_bool_decide; [|keeps_steps]. apply keeps_set_cds; [done | done | lia].
Qed.
#[local] Hint Resolve keeps_next_cd : keeps.

Lemma keeps_take_cd n : keeps n take_cd in_short.
Proof.
  intros s Hwf Hn. destruct (wf_cds s Hwf) as (Hl & HF & ? & ?).
  unfold take_cd. destruct (read_cdp s) as [[v s1]|] eqn:E; [|by unfold mbind, M_bind; rewrite E].
  pose proof (keeps_read_cdp n s Hwf Hn) as Hv. rewrite E in Hv. destruct Hv as (_ & _ & Hv).
  assert (s1 = s /\ (cdp s <= NUM_FREE_CD)%nat) as [-> Hc].
  { revert E. unfold read_cdp. rewrite (bind_run _ _ s s s) by done. case_bool_decide as Hd.
    - intros E. inversion E; subst. split; [done | lia].
    - destruct (free_cd s !! cdp s) as [w|] eqn:Ew; [|discriminate]. intros E. inversion E; subst.
      apply lookup_lt_Some in Ew. split; [done | lia]. }
  rewrite (bind_run _ _ s s v E), (bind_run _ _ s s s) by done.
  assert (keeps n ((if bool_decide (cdp s = NUM_FREE_CD) then modify (set_cd_oob 0) else mret tt) ;;
    modify (set_cds (<[cdp s := 0]> (free_cd s)) (S (cdp s))) ;; mret v) in_short) as Hk; [|by apply Hk].
  apply keeps_then; [|intros _; apply keeps_then; [|intros _; by apply keeps_ret]].
  - case_bool_decide; [|by apply keeps_ret]. apply keeps_modify. intros s1 Hwf1 _. split; [|cbn; lia].
    destruct Hwf1 as [????????]. constructor; auto. cbn. unfold in_short in *. naive_solver lia.
  - apply keeps_set_cds; [by rewrite length_insert | | lia].
    apply Forall_insert; [done | unfold in_short; lia].
Qed.
#[local] Hint Resolve keeps_take_cd : keeps.

Lemma keeps_gettimeofday n : keeps n gettimeofday anything.
Proof. unfold gettimeofday. keeps_steps. Qed.
#[local] Hint Resolve keeps_gettimeofday : keeps.

Lemma keeps_set_cd n t v : in_short v -> keeps n (put_trans t (set_cd v)) anything.
Proof. intros Hv. apply keeps_put_trans. unfold trans_ok. naive_solver. Qed.
#[local] Hint Resolve keeps_set_cd : keeps.

(** ** Transactions *)

Lemma keeps_new_transaction n c flags svc len :
  in_long dm flags -> keeps n (new_transaction dm c flags svc len) anything.
Proof.
  intros Hf. unfold new_transaction. keeps_steps. destruct_and!.
  apply keeps_new_trans; [lia | | keeps_steps].
  unfold trans_ok, in_short, in_long in *. cbn. split_and!; [right; lia | lia..| destruct dm; cbn; lia
    | destruct dm; cbn; lia | apply Hf | apply Hf].
Qed.

Lemma keeps_del_transaction n t : keeps n (del_transaction dm t) anything.
Proof. unfold del_transaction. keeps_steps. Qed.
#[local] Hint Resolve keeps_new_transaction keeps_del_transaction : keeps.

Lemma keeps_while n fuel cond body :
  keeps n cond anything -> keeps n body anything -> keeps n (while_ fuel cond body) anything.
Proof.
  intros Hc Hb. induction fuel as [|fuel IH]; cbn [while_]; [apply keeps_raise|].
  apply keeps_then; [done|]. intros b. keeps_steps.
Qed.
Lemma keeps_mfor {A} n (l : list A) f :
  (forall a, keeps n (f a) anything) -> keeps n (mfor l f) anything.
Proof. intros Hf. induction l as [|a l IH]; cbn [mfor]; keeps_steps. Qed.
Lemma keeps_queue_fuel n : keeps n queue_fuel anything.
Proof. unfold queue_fuel. keeps_steps. Qed.
Lemma keeps_del_depth n : keeps n del_depth anything.
Proof. unfold del_depth. keeps_steps. Qed.
#[local] Hint Resolve keeps_while keeps_mfor keeps_queue_fuel keeps_del_depth : keeps.

(** ** Advertisements and services *)

Lemma keeps_offset_global n q : keeps n (offset_global q) anything.
Proof. unfold offset_global. keeps_steps. Qed.
Lemma keeps_offset_adv_waitq n q : keeps n (offset_adv_waitq q) anything.
Proof. unfold offset_adv_waitq. keeps_steps. Qed.
Lemma keeps_offset_t_clientq n q : keeps n (offset_t_clientq q) anything.
Proof. unfold offset_t_clientq. keeps_steps. Qed.
Lemma keeps_offset_t_svc_waitq n q : keeps n (offset_t_svc_waitq q) anything.
Proof. unfold offset_t_svc_waitq. keeps_steps. Qed.
#[local] Hint Resolve keeps_offset_global keeps_offset_adv_waitq keeps_offset_t_clientq keeps_offset_t_svc_waitq : keeps.

Lemma keeps_other_advertiser n l name : keeps n (other_advertiser l name) anything.
Proof. induction l as [|q l IH]; cbn [other_advertiser]; keeps_steps. Qed.
#[local] Hint Resolve keeps_other_advertiser : keeps.

Lemma keeps_del_both n k :
  (forall a, keeps n (del_advertisement dm k a) anything) /\
  (forall p, keeps n (del_service dm k p) anything).
Proof.
  induction k as [|k [IHa IHs]]; [split; intros; apply keeps_raise|].
  split; intros p; cbn [del_advertisement del_service]; keeps_steps; apply keeps_while; keeps_steps.
Qed.
Lemma keeps_del_advertisement n k a : keeps n (del_advertisement dm k a) anything.
Proof. apply keeps_del_both. Qed.
#[local] Hint Resolve keeps_del_advertisement : keeps.

(** ** Replies and clients *)

Lemma keeps_set_result n t rv rc :
  - 128 <= rv < 128 -> in_long dm rc -> keeps n (put_trans t (set_result rv rc)) anything.
Proof. intros Hv Hc. apply keeps_put_trans. unfold trans_ok. naive_solver. Qed.

Lemma keeps_snd_reply n t : keeps n (snd_reply dm t) anything.
Proof. unfold snd_reply. keeps_steps. Qed.
#[local] Hint Resolve keeps_snd_reply : keeps.
Lemma keeps_reply_or_queue n any t : keeps n (reply_or_queue dm any t) anything.
Proof. unfold reply_or_queue. keeps_steps. Qed.
Lemma keeps_del_queue n q : keeps n (del_queue dm q) anything.
Proof. unfold del_queue. keeps_steps. apply keeps_while; keeps_steps. Qed.
#[local] Hint Resolve keeps_reply_or_queue keeps_del_queue : keeps.

Lemma keeps_free_client n c :
  keeps n (modify (fun s => set_clients (delete c (clients s)) s) ;;
    in_q (q_free (Q_global c)) ;; in_q (q_free (Q_requests c)) ;; in_q (q_free (Q_replies c))) anything.
Proof.
  intros s Hwf Hn.
  change (sb_wf (set_qm (delete (Q_replies c) (delete (Q_requests c) (delete (Q_global c) (qm s))))
    (set_clients (delete c (clients s)) s)) /\ next s <= next s /\ True). split_and!; [|lia | done].
  destruct Hwf. constructor; auto; cbn [clients set_clients next set_qm qm].
  - intros k y [? Hk]%lookup_delete_Some. by apply wf_clients0.
  - intros q. rewrite !lookup_delete_is_Some, wf_links0.
    destruct q; cbn; rewrite ?lookup_delete_is_Some; clear; naive_solver.
  - intros k1 y1 k2 y2 [_ H1]%lookup_delete_Some [_ H2]%lookup_delete_Some. by apply wf_fds0.
Qed.
#[local] Hint Resolve keeps_free_client : keeps.

(** The result that a caller gets when the worker is gone. *)
Lemma keeps_worker_gone n t : keeps n (put_trans t (set_result TPERRNO TPESVCERR)) anything.
Proof. apply keeps_set_result; [unfold TPERRNO; lia | unfold in_long, TPESVCERR; destruct dm; cbn; lia]. Qed.
#[local] Hint Resolve keeps_worker_gone : keeps.

Lemma keeps_del_client n c : keeps n (del_client dm c) anything.
Proof.
  unfold del_client. destruct (c =? 0); [keeps_steps|]. keeps_step.
  apply keeps_then; [keeps_steps|]. intros executing. keeps_steps. apply keeps_then; [|intros _; keeps_steps].
  apply keeps_while; keeps_steps.
Qed.
#[local] Hint Resolve keeps_del_client : keeps.

(** ** Handlers *)

Lemma keeps_buf_byte n buf i : keeps n (buf_byte buf i) anything.
Proof. unfold buf_byte. keeps_steps. Qed.
Lemma keeps_buf_short n buf i : keeps n (buf_short buf i) anything.
Proof. unfold buf_short. keeps_steps. Qed.
Lemma keeps_buf_long n buf i : keeps n (buf_long dm buf i) anything.
Proof. unfold buf_long. keeps_steps. Qed.
Lemma keeps_buf_name n buf : keeps n (buf_name buf) anything.
Proof. unfold buf_name. keeps_steps. Qed.
#[local] Hint Resolve keeps_buf_byte keeps_buf_short keeps_buf_long keeps_buf_name : keeps.

Lemma in_long_slong z : in_long dm (slong dm z).
Proof. apply swrap_range. by destruct dm. Qed.
#[local] Hint Resolve in_long_slong : keeps.

Lemma keeps_FIRSTTRAN n a : keeps n (FIRSTTRAN a) anything.
Proof. unfold FIRSTTRAN. keeps_steps. Qed.
#[local] Hint Resolve keeps_FIRSTTRAN : keeps.
Lemma keeps_find_earliest n a : keeps n (find_earliest a) anything.
Proof. unfold find_earliest. keeps_steps. Qed.
Lemma keeps_add_to_waitq n a : keeps n (add_to_waitq a) anything.
Proof. unfold add_to_waitq. keeps_steps. Qed.
Lemma keeps_remove_from_waitq n a : keeps n (remove_from_waitq a) anything.
Proof. unfold remove_from_waitq. keeps_steps. Qed.
#[local] Hint Resolve keeps_find_earliest keeps_add_to_waitq keeps_remove_from_waitq : keeps.
Lemma keeps_send_to_server n a t : keeps n (send_to_server dm a t) anything.
Proof. unfold send_to_server. keeps_steps. Qed.
#[local] Hint Resolve keeps_send_to_server : keeps.
Lemma keeps_svrservice n c buf : keeps n (svrservice dm c buf) anything.
Proof. unfold svrservice. keeps_steps. Qed.
Lemma keeps_send_to_worker n c buf : keeps n (send_to_worker dm c buf) anything.
Proof. unfold send_to_worker. keeps_steps. Qed.
Lemma keeps_svradvertise n c buf : keeps n (svradvertise dm c buf) anything.
Proof. unfold svradvertise. pose proof keeps_new_advertisement. keeps_steps. Qed.
Lemma keeps_svrunadvertise n c buf : keeps n (svrunadvertise dm c buf) anything.
Proof. unfold svrunadvertise. keeps_steps. Qed.
Lemma keeps_senderrno n c e : keeps n (senderrno dm c e) anything.
Proof. unfold senderrno. keeps_steps. Qed.
Lemma keeps_scan_cd n l d : keeps n (scan_cd l d) anything.
Proof. induction l as [|q l IH]; cbn [scan_cd]; keeps_steps. Qed.
#[local] Hint Resolve keeps_senderrno keeps_scan_cd : keeps.
Lemma keeps_svrgetrply n c buf : keeps n (svrgetrply dm c buf) anything.
Proof. unfold svrgetrply. keeps_steps. Qed.
Lemma keeps_part2 n c buf : keeps n (part2 dm c buf) anything.
Proof. unfold part2. keeps_steps. Qed.

Section Calls.
Context (n : Z) (call : handler -> Z -> ptr -> M (sb T) unit).
Hypothesis keeps_call : forall h c p, keeps n (call h c p) anything.

Lemma keeps_wait c p h : keeps n (svriowait dm call c p h) anything.
Proof. by apply keeps_svriowait. Qed.
#[local] Hint Resolve keeps_wait : keeps.
Lemma keeps_svracall c buf : keeps n (svracall dm call c buf) anything.
Proof. unfold svracall. keeps_steps. Qed.
Lemma keeps_svrreturn c buf : keeps n (svrreturn dm call c buf) anything.
Proof.
  unfold svrreturn. keeps_steps.
  eapply keeps_bind; [apply keeps_set_result; [apply (swrap_range 8); lia | apply in_long_slong] | intros _ _].
  keeps_steps.
Qed.
Lemma keeps_command c buf : keeps n (command dm call c buf) anything.
Proof. unfold command. keeps_steps. Qed.

End Calls.

Lemma keeps_handle n k h c buf : keeps n (handle dm k h c buf) anything.
Proof.
  revert h c buf. induction k as [|k IH]; intros h c buf; [apply keeps_raise|]. cbn [handle].
  destruct h; auto using keeps_command, keeps_svracall, keeps_svrgetrply, keeps_svradvertise,
    keeps_svrunadvertise, keeps_svrservice, keeps_svrreturn, keeps_send_to_worker, keeps_part2.
Qed.

(** ** The event loop *)

Lemma keeps_iowait_client n c r : keeps n (iowait_client dm c r) anything.
Proof.
  unfold iowait_client. eapply keeps_bind; [apply keeps_get_client|]. intros x [_ Hx].
  assert (0 <= used x) as Hu by (destruct Hx as [(? & ? & ->)|(? & ? & ?)]; lia).
  case_bool_decide as Hi.
  { eapply keeps_bind; [by apply (keeps_ret _ _ (fun z => z = 0))|]. intros z ->.
    rewrite (proj2 (Z.leb_le 0 (used x))) by done. keeps_steps. }
  destruct Hx as [(? & ? & _)|(Hh & _ & _)]; [done|].
  apply keeps_then; [keeps_steps|]. intros size.
  destruct (size <=? used x); [keeps_steps|]. destruct r as [|[|b bs]]; [keeps_steps..|].
  keeps_step. destruct (_ =? size).
  - eapply keeps_bind; [apply keeps_put_client with (f := set_io 0 NULL None); split; [by left | done]|].
    intros _ _. keeps_step. apply keeps_handle.
  - apply keeps_put_client. intros y Hy. split; [|done]. right. cbn. split_and!; [done | done | lia].
Qed.
#[local] Hint Resolve keeps_iowait_client : keeps.

Lemma keeps_watch_clients n l fds : keeps n (watch_clients l fds) anything.
Proof. revert fds. induction l as [|q l IH]; intros fds; cbn [watch_clients]; keeps_steps. Qed.

Lemma keeps_serve_clients n fuel fds reads q : keeps n (serve_clients dm fuel fds reads q) anything.
Proof. revert q. induction fuel as [|fuel IH]; intros q; cbn [serve_clients]; keeps_steps. Qed.
#[local] Hint Resolve keeps_watch_clients keeps_serve_clients : keeps.

(** The kernel gives a new connection a descriptor that no open one has. *)
Definition fd_free (i : Z) s : Prop := forall c x, clients s !! c = Some x -> fd x <> i.

(** The state with a new client and its links, not on the list yet. *)
Definition with_client (c i : Z) s : sb T :=
  set_qm (<[Q_replies c := mkQUEUE (Q_replies c) (Q_replies c)]>
      (<[Q_requests c := mkQUEUE (Q_requests c) (Q_requests c)]>
        (<[Q_global c := mkQUEUE QNULL QNULL]> (qm s))))
      (set_clients (<[c := mkClient i 0 NULL None tempty 0]> (clients s)) s).

Lemma new_client_wf s c i :
  sb_wf s -> fd_free i s -> 0 < c < next s ->
  sb_wf (with_client c i s).
Proof.
  intros Hwf Hi Hp. destruct Hwf. constructor; auto; unfold with_client; cbn [clients set_clients next set_qm qm].
  - intros k' y [[<- <-]|[? Hk]]%lookup_insert_Some; [split; [lia | by left] | by apply wf_clients0].
  - intros q. rewrite !lookup_insert_is_Some', wf_links0.
    destruct q; cbn; rewrite ?lookup_insert_is_Some'; clear -Hp; naive_solver.
  - intros k1 y1 k2 y2 [[<- <-]|[? H1]]%lookup_insert_Some [[<- <-]|[? H2]]%lookup_insert_Some Hy; [done|..].
    + by destruct (Hi k2 y2 H2).
    + by destruct (Hi k1 y1 H1).
    + by eapply wf_fds0.
Qed.

Lemma alloc_struct_cases s :
  sb_wf s -> exists a s1, alloc_struct s = Done (a, s1) /\ sb_wf s1 /\ clients s1 = clients s /\
    next s <= next s1 /\ (a = 0 \/ 0 < a < next s1).
Proof.
  intros Hwf.
  assert (exists f s1, in_mem (in_heap oom) s = Done (f, s1) /\ clients s1 = clients s /\ next s1 = next s)
    as (f & s1 & E & Ec & En).
  { unfold in_mem, in_heap, zoom, oom. destruct (ooms _); eauto. }
  pose proof (wf_next s Hwf) as Hn.
  pose proof (keeps_in_mem 0 _ (pres_in_heap _ pres_oom) s Hwf ltac:(lia)) as Ho. rewrite E in Ho.
  destruct Ho as (W & _ & _). unfold alloc_struct. rewrite (bind_run _ _ s s1 f E). destruct f.
  - exists 0, s1. rewrite En. auto with lia.
  - exists (next s1), (set_next (next s1 + 1) s1). split_and!; [done | by apply set_next_wf | done | cbn; lia | cbn; lia].
Qed.

Lemma new_client_run c i s :
  0 < c ->
  (modify (fun s => set_clients (<[c := mkClient i 0 NULL None tempty 0]> (clients s)) s) ;;
    in_q (q_alloc (Q_global c)) ;;
    in_q (q_alloc (Q_requests c)) ;; in_q (QINIT (Q_requests c)) ;;
    in_q (q_alloc (Q_replies c)) ;; in_q (QINIT (Q_replies c)) ;;
    _ ← in_q (qappend_tail Q_tpclients (Q_global c)); mret c) s =
  (_ ← in_q (qappend_tail Q_tpclients (Q_global c)); mret c)
    (with_client c i s).
Proof.
  intros Hc. etransitivity; [by eapply bind_run|]. etransitivity; [apply q_alloc_run|].
  etransitivity; [apply q_init_run|]. etransitivity; [apply q_init_run|]. done.
Qed.

(** A computation that is known to run like another one, and what follows it. *)
Lemma bind_same {A B} (m m' : M (sb T) A) (k : A -> M (sb T) B) s s' :
  m s = m' s' -> (m ≫= k) s = (m' ≫= k) s'.
Proof. intros E. unfold mbind, M_bind. by rewrite E. Qed.

Lemma accept_client_wf s i :
  sb_wf s -> fd_free i s ->
  match accept_client dm i s with Done (_, s') => sb_wf s' | Fault _ => True end.
Proof.
  intros Hwf Hi. destruct (alloc_struct_cases s Hwf) as (c & s1 & E & W & Ec & _ & Hc).
  pose proof (wf_next s1 W). destruct Hc as [->|Hc].
  - assert (new_client i s = Done (0, s1)) as E1 by (unfold new_client; by rewrite (bind_run _ _ s s1 0 E)).
    unfold accept_client. rewrite (bind_run _ _ s s1 0 E1).
    pose proof (keeps_svr_next_command 0 0 s1 W ltac:(lia)) as Hk.
    destruct (svr_next_command dm 0 s1) as [[]|]; naive_solver.
  - assert (fd_free i s1) as Hi1 by (unfold fd_free; by rewrite Ec).
    pose proof (new_client_wf s1 c i W Hi1 Hc) as W2.
    assert (keeps 0 ((_ ← in_q (qappend_tail Q_tpclients (Q_global c)); mret c) ≫= svr_next_command dm) anything)
      as Hk by (apply keeps_then; [keeps_steps | intros ?; keeps_steps]).
    specialize (Hk _ W2 ltac:(cbn; lia)). revert Hk.
    assert (new_client i s = (_ ← in_q (qappend_tail Q_tpclients (Q_global c)); mret c) (with_client c i s1)) as E1.
    { unfold new_client. rewrite (bind_run _ _ s s1 c E), (proj2 (Z.eqb_neq c 0)) by lia.
      apply new_client_run. lia. }
    unfold accept_client. rewrite (bind_same _ _ _ _ _ E1).
    match goal with |- match ?o with _ => _ end -> _ => destruct o as [[]|] end; naive_solver.
Qed.

(** ** Reachable states *)

(** One pass of the event loop, with any answers of the system. *)
Inductive sb_step (master : Z) : sb T -> sb T -> Prop :=
  | sb_pass env s s' :
      (forall i, io_accept env = Some i -> fd_free i s) ->
      Iowait dm master env s = Done (tt, s') -> sb_step master s s'.

(** The states between passes, from the start of the process. *)
Inductive reachable (master : Z) : sb T -> Prop :=
  | reach_init junk_byte oracle oob batches fuel clk :
      in_short oob -> reachable master (sb_init junk_byte oracle oob batches fuel clk)
  | reach_step s s' : reachable master s -> sb_step master s s' -> reachable master s'.

Lemma sb_init_wf junk_byte oracle oob batches fuel clk :
  in_short oob -> sb_wf (sb_init junk_byte oracle oob batches fuel clk).
Proof.
  intros Hoob. constructor; cbn.
  - lia.
  - split; cbn; [lia|]. intros i. rewrite lookup_empty. by intros [].
  - intros c x. by rewrite lookup_empty.
  - intros c x. by rewrite lookup_empty.
  - intros c x. by rewrite lookup_empty.
  - intros t v [[<- <-]|[_ Hn]]%lookup_insert_Some; [|by rewrite lookup_empty in Hn].
    unfold GLOBAL_ANY, trans_ok, in_short, in_long. cbn.
    split_and!; [lia | by left | lia.. | destruct dm; cbn; lia | destruct dm; cbn; lia
      | destruct dm; cbn; lia | destruct dm; cbn; lia].
  - intros q. rewrite !lookup_insert_is_Some', lookup_empty.
    destruct q; cbn; rewrite ?lookup_insert_is_Some', ?lookup_empty; unfold GLOBAL_ANY; naive_solver lia.
  - split_and!; [done | | done | unfold NUM_FREE_CD; lia].
    unfold in_short. repeat (constructor; [lia|]). constructor.
  - intros c1 x1 c2 x2. by rewrite lookup_empty.
Qed.

(** What follows a computation that is known to end well. *)
Lemma bind_wf {A B} (m : M (sb T) A) (k : A -> M (sb T) B) s R :
  match m s with Done (_, s1) => sb_wf s1 | Fault _ => True end ->
  (forall a, keeps 0 (k a) R) ->
  match (m ≫= k) s with Done (_, s2) => sb_wf s2 | Fault _ => True end.
Proof.
  intros Hm Hk. unfold mbind, M_bind. destruct (m s) as [[a s1]|]; [|done].
  pose proof (wf_next s1 Hm). specialize (Hk a s1 Hm ltac:(lia)). destruct (k a s1) as [[]|]; naive_solver.
Qed.

(** The reads at the start of a pass do not change the state. *)
Lemma qwalk_reads fuel h q : pres eq (qwalk (A := qaddr) fuel h q).
Proof. revert q. induction fuel as [|fuel IH]; intros q; cbn [qwalk]; unfold QNEXT; pres_steps. Qed.
#[local] Hint Resolve qwalk_reads : pres.
Lemma qelements_reads q : pres eq (qelements (A := qaddr) q).
Proof. unfold qelements, QFIRST, QNEXT. pres_steps. Qed.
Lemma watch_clients_reads l fds : pres eq (watch_clients (T := T) l fds).
Proof.
  revert fds. induction l as [|q l IH]; intros fds; cbn [watch_clients]; [pres_steps|].
  unfold offset_global, get_client, deref. pres_steps.
Qed.

Lemma pres_eq_run {St A B} (m : M St A) (k : A -> M St B) (s : St) (Q : outcome (B * St) -> Prop) :
  pres eq m -> (forall f, Q (Fault f)) -> (forall a, Q (k a s)) -> Q ((m ≫= k) s).
Proof.
  intros Hm Hf Hk. specialize (Hm s). unfold mbind, M_bind.
  destruct (m s) as [[a s1]|]; [|done]. by subst.
Qed.

Lemma in_q_reads {A} (m : M _ A) : pres eq m -> pres eq (in_q (T := T) m).
Proof.
  intros Hm s. specialize (Hm (qm s)). unfold in_q, zoom. destruct (m _) as [[]|]; [|done].
  subst. symmetry. apply set_qm_id.
Qed.

Lemma Iowait_wf master env s :
  sb_wf s -> (forall i, io_accept env = Some i -> fd_free i s) ->
  match Iowait dm master env s with Done (_, s') => sb_wf s' | Fault _ => True end.
Proof.
  intros Hwf Hi. unfold Iowait.
  apply (pres_eq_run _ _ s (fun o => match o with Done (_, s') => sb_wf s' | Fault _ => True end));
    [apply in_q_reads, qelements_reads | done | intros l].
  apply (pres_eq_run _ _ s (fun o => match o with Done (_, s') => sb_wf s' | Fault _ => True end));
    [apply watch_clients_reads | done | intros fds].
  destruct (io_select env fds) as [readfds|]; [|done]. apply bind_wf with (R := anything).
  - case_bool_decide; [|done]. destruct (io_accept env) as [i|]; [|done]. apply accept_client_wf; auto.
  - intros _. keeps_steps.
Qed.

Lemma reachable_sb_wf master s : reachable master s -> sb_wf s.
Proof.
  induction 1 as [|s s' _ IH Hst]; [by apply sb_init_wf|]. destruct Hst as [env s s' Hi E].
  pose proof (Iowait_wf master env _ IH Hi) as Hw. by rewrite E in Hw.
Qed.

(** C8. Whatever the clients send and the system calls return, between any two passes of
    the event loop: the links in memory are exactly those of the structs in memory
    and of the two global lists, so that no struct is freed without its links or made
    without them; a client waits for a message with a buffer and a handler, or for
    nothing, with neither; no two clients have the same descriptor; and every struct
    and buffer is at an address that was given out. *)
Theorem reachable_invariant master s :
  reachable master s ->
  (forall q, is_Some (qm s !! q) <-> q_live s q) /\
  (forall c x, clients s !! c = Some x -> 0 < c < next s /\ client_ok x) /\
  (forall c1 x1 c2 x2, clients s !! c1 = Some x1 -> clients s !! c2 = Some x2 -> fd x1 = fd x2 -> c1 = c2) /\
  (forall p, is_Some (svcs s !! p) \/ is_Some (advs s !! p) -> 0 < p < next s) /\
  heap_wf (tp_heap (mem s)).
Proof.
  intros [? ? ? Hs Ha ? ? ?]%reachable_sb_wf. split_and!; [done | done | done | | done].
  intros p [[v E]|[v E]]; [apply (Hs _ _ E) | apply (Ha _ _ E)].
Qed.

End Invariant.

(** ** A state that is reached *)

(** A connection arrives at a new switchboard. *)
Definition one_client : sb (bst Z) :=
  match Iowait LP64 3 (mkIoEnv (fun fds => Some fds) (Some 4) (fun _ => ReadError))
          (sb_init x00 [] 0 (fun _ _ => 1) 9 (fun _ => (0, 0))) with
  | Done (_, s) => s
  | Fault _ => sb_init x00 [] 0 (fun _ _ => 1) 9 (fun _ => (0, 0))
  end.

Lemma one_client_reached : reachable LP64 3 one_client.
Proof.
  eapply reach_step; [apply (reach_init LP64 3 x00 [] 0 (fun _ _ => 1) 9 (fun _ => (0, 0)))|].
  - unfold in_short. lia.
  - eapply (sb_pass _ _ (mkIoEnv (fun fds => Some fds) (Some 4) (fun _ => ReadError))).
    + intros i _ c x E. vm_compute in E. discriminate.
    + vm_compute. reflexivity.
Qed.

Lemma reachable_invariant_witness :
  clients one_client !! 1 = Some (mkClient 4 0 (Ptr 1 32) (Some H_command) Leaf 0) /\
  q_live one_client (Q_requests 1) /\ 0 < 1 < next one_client.
Proof.
  pose proof (reachable_invariant LP64 3 one_client one_client_reached) as (Hl & Hc & _).
  assert (clients one_client !! 1 = Some (mkClient 4 0 (Ptr 1 32) (Some H_command) Leaf 0)) as E
    by (vm_compute; reflexivity).
  split; [exact E|]. split; [apply Hl; vm_compute; eauto | apply (Hc _ _ E)].
Defined.
