(* ===== verification/Frames.v ===== *)
(** * What the operations of the switchboard leave alone

    Two relations that hold between the state before and the state after an operation,
    whatever it does and however the clients behave.  [clients_kept]: the links of the list
    [tpclients] are the same; only [new_client] and the end of [del_client] change them, so
    that the loop of [Iowait], which reads a client's successor before it serves the client,
    goes on where it would have gone on.  [pool_kept]: the pool of descriptors is the same,
    and no transaction gets another descriptor; only [new_transaction] takes from the pool.
    The class [Frame] has what both need; the operations are gone through once. *)

From Stdlib Require Import ZArith Lia.
From S2P Require Import Prelude Constants ByteOrder CString SearchTree Queue Memory TpMemory Keeps.
From S2P Require Import SbState SbObjects SbHandlers SbLemmas Invariant.

Local Open Scope Z_scope.

(** ** Links of other lists *)

Definition other_link (q : qaddr) : Prop :=
  match q with Q_tpclients | Q_global _ => False | _ => True end.

#[global] Instance other_link_dec q : Decision (other_link q).
Proof. destruct q; cbn; apply _. Defined.

Notation links := (gmap qaddr (QUEUE qaddr)).

(** No other link points into the list of the clients. *)
Definition apart_links (m : links) : Prop :=
  forall q v, other_link q -> m !! q = Some v -> other_link (p1 v) /\ other_link (p2 v).

(** The list of the clients is left alone. *)
Definition ring_kept : relation links := fun m m' =>
  apart_links m -> apart_links m' /\ forall q, ~ other_link q -> m' !! q = m !! q.

#[global] Instance ring_kept_preorder : PreOrder ring_kept.
Proof.
  split; [by intros m|]. intros m1 m2 m3 H12 H23 H1. destruct (H12 H1) as [H2 E2], (H23 H2) as [H3 E3].
  split; [done|]. intros q Hq. by rewrite E3, E2.
Qed.

Section Links.
Implicit Types (m : links) (q n v : qaddr).

Lemma ring_alter q f :
  other_link q -> (forall u, other_link (p1 u) /\ other_link (p2 u) -> other_link (p1 (f u)) /\ other_link (p2 (f u))) ->
  pres ring_kept (modify (alter f q) : M links unit).
Proof.
  intros Hq Hf. apply pres_modify. intros m Hm. split.
  - intros q' v Hq'. destruct (decide (q' = q)) as [->|Hne].
    + rewrite lookup_alter_eq. intros (u & Hu & ->)%fmap_Some. apply Hf. by apply (Hm q).
    + rewrite lookup_alter_ne by done. by apply Hm.
  - intros q' Hq'. apply lookup_alter_ne. by intros <-.
Qed.

Lemma ring_QPREV_set q v : other_link q -> other_link v -> pres ring_kept (QPREV_set q v).
Proof.
  intros Hq Hv. unfold QPREV_set, set_p1. pose proof (ring_alter q (fun u => mkQUEUE v (p2 u)) Hq).
  pres_steps. apply H. intros u [_ ?]. done.
Qed.
Lemma ring_QNEXT_set q v : other_link q -> other_link v -> pres ring_kept (QNEXT_set q v).
Proof.
  intros Hq Hv. unfold QNEXT_set, set_p2. pose proof (ring_alter q (fun u => mkQUEUE (p1 u) v) Hq).
  pres_steps. apply H. intros u [? _]. done.
Qed.

(** What is read from another link is another link. *)
Lemma ring_QPREV {A} q (k : qaddr -> M links A) :
  other_link q -> (forall v, other_link v -> pres ring_kept (k v)) -> pres ring_kept (QPREV q ≫= k).
Proof.
  intros Hq Hk m. unfold QPREV, prv, mbind, M_bind, gets, id. cbn. destruct (m !! q) as [u|] eqn:Hu; [|done]. cbn.
  destruct (k (p1 u) m) as [[a m']|] eqn:E; [|done]. intros Hm. specialize (Hk (p1 u) ltac:(by apply (Hm q)) m).
  rewrite E in Hk. by apply Hk.
Qed.
Lemma ring_QNEXT {A} q (k : qaddr -> M links A) :
  other_link q -> (forall v, other_link v -> pres ring_kept (k v)) -> pres ring_kept (QNEXT q ≫= k).
Proof.
  intros Hq Hk m. unfold QNEXT, nxt, mbind, M_bind, gets, id. cbn. destruct (m !! q) as [u|] eqn:Hu; [|done]. cbn.
  destruct (k (p2 u) m) as [[a m']|] eqn:E; [|done]. intros Hm. specialize (Hk (p2 u) ltac:(by apply (Hm q)) m).
  rewrite E in Hk. by apply Hk.
Qed.

End Links.

(** Split an operation on links into reads and writes. *)
Ltac ring_steps :=
  repeat first
    [ apply ring_QPREV; [done | intros ? ?] | apply ring_QNEXT; [done | intros ? ?]
    | apply ring_QPREV_set; done | apply ring_QNEXT_set; done
    | apply pres_bind; [apply _ | | intros ?] | apply pres_ret; apply _ ].

Lemma ring_QINIT q : other_link q -> pres ring_kept (QINIT q).
Proof. intros Hq. unfold QINIT. ring_steps. Qed.
Lemma ring_qdelete q : other_link q -> pres ring_kept (qdelete q).
Proof. intros Hq. unfold qdelete. ring_steps. Qed.
Lemma ring_qappend_tail q n : other_link q -> other_link n -> pres ring_kept (qappend_tail q n).
Proof. intros Hq Hn. unfold qappend_tail, QLAST, qappend. ring_steps. Qed.
Lemma ring_q_alloc q : other_link q -> pres ring_kept (q_alloc q).
Proof.
  intros Hq. apply pres_modify. intros m Hm. split.
  - intros q' v Hq' [[<- <-]|[_ Hv]]%lookup_insert_Some; [done | by apply (Hm q')].
  - intros q' Hq'. apply lookup_insert_ne. by intros <-.
Qed.
Lemma ring_q_free q : other_link q -> pres ring_kept (q_free q).
Proof.
  intros Hq. apply pres_modify. intros m Hm. split.
  - intros q' v Hq' [_ Hv]%lookup_delete_Some. by apply (Hm q').
  - intros q' Hq'. apply lookup_delete_ne. by intros <-.
Qed.

(** Operations that only read. *)
Lemma ring_reads {A} (m : M links A) : pres eq m -> pres ring_kept m.
Proof. intros Hm l. specialize (Hm l). destruct (m l) as [[]|]; [|done]. by subst. Qed.

(** ** Frames *)

Create HintDb frame discriminated.

Section Frame.
Context {T : Type} `{SearchTreeOps T Z}.
Implicit Types (s : sb T).

(** The part of the state that a frame may speak of. *)
Definition framed s := (qm s, trans s, free_cd s, cdp s, cd_oob s).

(** Relations that memory, structs other than transactions, and links other than those of
    the clients do not matter to. *)
Class Frame (R : relation (sb T)) : Prop := {
  frame_preorder :: PreOrder R;
  frame_in_mem {A} (m : M tpmem A) : pres R (in_mem m);
  frame_in_q {A} (m : M links A) : pres ring_kept m -> pres R (in_q m);
  frame_modify (f : sb T -> sb T) : (forall s, framed (f s) = framed s) -> pres R (modify f);
  frame_put_trans t f : (forall tx, cd (f tx) = cd tx) -> pres R (put_trans t f);
  frame_drop_trans t : pres R (modify (fun s => set_trans (delete t (trans s)) s));
}.

Context (R : relation (sb T)) `{!Frame R}.

Lemma frame_deref {A} (get : sb T -> gmap Z A) p : pres R (deref get p).
Proof. unfold deref. pres_steps. Qed.
Lemma frame_while fuel (cond : M (sb T) bool) (body : M (sb T) unit) :
  pres R cond -> pres R body -> pres R (while_ fuel cond body).
Proof. intros Hc Hb. induction fuel as [|fuel IH]; cbn [while_]; pres_steps; done. Qed.
Lemma frame_mfor {A} (l : list A) (f : A -> M (sb T) unit) : (forall a, pres R (f a)) -> pres R (mfor l f).
Proof. intros Hf. induction l as [|a l IH]; cbn [mfor]; pres_steps; done. Qed.

End Frame.

#[export] Hint Resolve ring_QINIT ring_qdelete ring_qappend_tail ring_q_alloc ring_q_free : frame.
#[export] Hint Resolve frame_in_mem frame_deref frame_drop_trans : frame.
#[export] Hint Extern 1 (pres _ (modify _)) => apply frame_modify; reflexivity : frame.
#[export] Hint Extern 1 (pres _ (put_trans _ _)) => apply frame_put_trans; reflexivity : frame.
#[export] Hint Extern 1 (pres _ (in_q _)) =>
  apply frame_in_q; first
    [ solve [auto with frame] | apply ring_reads; first [apply qelements_reads | unfold QISEMPTY, QFIRST, QLAST, QNEXT, QPREV; pres_steps] ] : frame.
#[export] Hint Extern 1 (other_link _) => exact I : frame.

(** Split a computation into operations that are known to keep to the frame. *)
Ltac frame_step :=
  match goal with
  | |- pres _ (mbind _ _) => apply pres_bind; [apply _ | | intros ?]
  | |- pres _ (if ?b then _ else _) => destruct b
  | |- pres _ (match ?x with _ => _ end) => destruct x
  | |- pres _ (while_ _ _ _) => apply frame_while; try typeclasses eauto
  | |- pres _ (mfor _ _) => apply frame_mfor; [try typeclasses eauto..|intros ?]
  | |- pres _ _ => solve [eauto 3 with frame typeclass_instances | eauto 3 with pres typeclass_instances]
  end.
Ltac frames f := unfold f; repeat frame_step.

Section Operations.
Context {T : Type} `{SearchTreeOps T Z} (dm : data_model) (R : relation (sb T)) `{!Frame R}.
Implicit Types (s : sb T).
Notation kept_by m := (pres R m).

Lemma frame_get_client c : kept_by (get_client c).
Proof. frames @get_client. Qed.
Lemma frame_get_svc p : kept_by (get_svc p).
Proof. frames @get_svc. Qed.
Lemma frame_get_adv a : kept_by (get_adv a).
Proof. frames @get_adv. Qed.
Lemma frame_get_trans t : kept_by (get_trans t).
Proof. frames @get_trans. Qed.
#[local] Hint Resolve frame_get_client frame_get_svc frame_get_adv frame_get_trans : frame.
Lemma frame_put_client c f : kept_by (put_client c f).
Proof. frames @put_client. Qed.
Lemma frame_put_svc p f : kept_by (put_svc p f).
Proof. frames @put_svc. Qed.
Lemma frame_alloc_struct : kept_by alloc_struct.
Proof. frames @alloc_struct. Qed.
Lemma frame_offset_global q : kept_by (offset_global q).
Proof. frames @offset_global. Qed.
Lemma frame_offset_adv_waitq q : kept_by (offset_adv_waitq q).
Proof. frames @offset_adv_waitq. Qed.
Lemma frame_offset_t_global q : kept_by (offset_t_global q).
Proof. frames @offset_t_global. Qed.
Lemma frame_offset_t_clientq q : kept_by (offset_t_clientq q).
Proof. frames @offset_t_clientq. Qed.
Lemma frame_offset_t_svc_waitq q : kept_by (offset_t_svc_waitq q).
Proof. frames @offset_t_svc_waitq. Qed.
Lemma frame_queue_fuel : kept_by queue_fuel.
Proof. frames @queue_fuel. Qed.
#[local] Hint Resolve frame_put_client frame_put_svc frame_alloc_struct frame_offset_global frame_offset_adv_waitq
  frame_offset_t_global frame_offset_t_clientq frame_offset_t_svc_waitq frame_queue_fuel : frame.

(** ** [svrio.c] and the objects *)

Lemma frame_svrwrite c bs : kept_by (svrwrite c bs).
Proof. frames @svrwrite. Qed.
#[local] Hint Resolve frame_svrwrite : frame.
Lemma frame_svrwriteb c v : kept_by (svrwriteb c v).
Proof. frames @svrwriteb. Qed.
#[local] Hint Resolve frame_svrwriteb : frame.
Lemma frame_svrwrites c v : kept_by (svrwrites c v).
Proof. frames @svrwrites. Qed.
#[local] Hint Resolve frame_svrwrites : frame.
Lemma frame_svrwritel c v : kept_by (svrwritel dm c v).
Proof. frames @svrwritel. Qed.
Lemma frame_svriowait call c p f : (forall c' p', kept_by (call f c' p')) -> kept_by (svriowait dm call c p f).
Proof. intros Hc. frames @svriowait. Qed.
Lemma frame_svr_next_command c : kept_by (svr_next_command dm c).
Proof. frames @svr_next_command. apply frame_svriowait. intros. frame_step. Qed.
Lemma frame_services_live : kept_by services_live.
Proof. frames @services_live. Qed.
Lemma frame_adverts_live t : kept_by (adverts_live t).
Proof. frames @adverts_live. Qed.
#[local] Hint Resolve frame_svrwritel frame_svr_next_command frame_services_live frame_adverts_live : frame.
Lemma frame_fnd_service name : kept_by (fnd_service name).
Proof. frames @fnd_service. Qed.
Lemma frame_tsearch_node cmp a t : kept_by (tsearch_node cmp a t).
Proof. frames @tsearch_node. Qed.
Lemma frame_free_service p : kept_by (free_service p).
Proof. frames @free_service. Qed.
Lemma frame_free_adv a : kept_by (free_adv a).
Proof. frames @free_adv. Qed.
Lemma frame_free_trans t : kept_by (free_trans t).
Proof. frames @free_trans. Qed.
#[local] Hint Resolve frame_fnd_service frame_tsearch_node frame_free_service frame_free_adv frame_free_trans : frame.
Lemma frame_new_service name : kept_by (new_service name).
Proof. frames @new_service. Qed.
Lemma frame_fnd_advertisement c name : kept_by (fnd_advertisement c name).
Proof. frames @fnd_advertisement. Qed.
#[local] Hint Resolve frame_new_service frame_fnd_advertisement : frame.
Lemma frame_new_advertisement c name o : kept_by (new_advertisement dm c name o).
Proof. frames @new_advertisement. Qed.
Lemma frame_read_cdp : kept_by read_cdp.
Proof. frames @read_cdp. Qed.
Lemma frame_trans_cds l : kept_by (trans_cds l).
Proof. induction l; cbn [trans_cds]; repeat frame_step; done. Qed.
Lemma frame_gettimeofday : kept_by gettimeofday.
Proof. frames @gettimeofday. Qed.
#[local] Hint Resolve frame_new_advertisement frame_read_cdp frame_trans_cds frame_gettimeofday : frame.
Lemma frame_del_transaction t : kept_by (del_transaction dm t).
Proof. frames @del_transaction. Qed.
Lemma frame_del_depth : kept_by del_depth.
Proof. frames @del_depth. Qed.
Lemma frame_other_advertiser l name : kept_by (other_advertiser l name).
Proof. induction l; cbn [other_advertiser]; repeat frame_step; done. Qed.
#[local] Hint Resolve frame_del_transaction frame_del_depth frame_other_advertiser : frame.
Lemma frame_del_both n : (forall a, kept_by (del_advertisement dm n a)) /\ (forall p, kept_by (del_service dm n p)).
Proof.
  induction n as [|n [IHa IHs]]; split; intros p; cbn [del_advertisement del_service]; repeat frame_step; auto.
Qed.
Lemma frame_del_advertisement n a : kept_by (del_advertisement dm n a).
Proof. apply frame_del_both. Qed.
Lemma frame_snd_reply t : kept_by (snd_reply dm t).
Proof. frames @snd_reply. Qed.
#[local] Hint Resolve frame_del_advertisement frame_snd_reply : frame.
Lemma frame_reply_or_queue any t : kept_by (reply_or_queue dm any t).
Proof. frames @reply_or_queue. Qed.
Lemma frame_del_queue q : kept_by (del_queue dm q).
Proof. frames @del_queue. Qed.
#[local] Hint Resolve frame_reply_or_queue frame_del_queue : frame.

(** ** The handlers *)

Lemma frame_buf_byte p i : kept_by (buf_byte p i).
Proof. frames @buf_byte. Qed.
Lemma frame_buf_short p i : kept_by (buf_short p i).
Proof. frames @buf_short. Qed.
Lemma frame_buf_long p i : kept_by (buf_long dm p i).
Proof. frames @buf_long. Qed.
Lemma frame_buf_name p : kept_by (buf_name p).
Proof. frames @buf_name. Qed.
Lemma frame_FIRSTTRAN a : kept_by (FIRSTTRAN a).
Proof. frames @FIRSTTRAN. Qed.
#[local] Hint Resolve frame_buf_byte frame_buf_short frame_buf_long frame_buf_name frame_FIRSTTRAN : frame.
Lemma frame_find_earliest a : kept_by (find_earliest a).
Proof. frames @find_earliest. Qed.
Lemma frame_add_to_waitq a : kept_by (add_to_waitq a).
Proof. frames @add_to_waitq. Qed.
Lemma frame_remove_from_waitq a : kept_by (remove_from_waitq a).
Proof. frames @remove_from_waitq. Qed.
#[local] Hint Resolve frame_find_earliest frame_add_to_waitq frame_remove_from_waitq : frame.
Lemma frame_send_to_server a t : kept_by (send_to_server dm a t).
Proof. frames @send_to_server. Qed.
#[local] Hint Resolve frame_send_to_server : frame.
Lemma frame_svrservice c p : kept_by (svrservice dm c p).
Proof. frames @svrservice. Qed.
Lemma frame_send_to_worker c p : kept_by (send_to_worker dm c p).
Proof. frames @send_to_worker. Qed.
Lemma frame_svradvertise c p : kept_by (svradvertise dm c p).
Proof. frames @svradvertise. Qed.
Lemma frame_svrunadvertise c p : kept_by (svrunadvertise dm c p).
Proof. frames @svrunadvertise. Qed.
Lemma frame_senderrno c e : kept_by (senderrno dm c e).
Proof. frames @senderrno. Qed.
Lemma frame_scan_cd l d : kept_by (scan_cd l d).
Proof. induction l; cbn [scan_cd]; repeat frame_step; done. Qed.
#[local] Hint Resolve frame_svrservice frame_send_to_worker frame_svradvertise frame_svrunadvertise frame_senderrno frame_scan_cd : frame.
Lemma frame_svrgetrply c p : kept_by (svrgetrply dm c p).
Proof. frames @svrgetrply. Qed.
Lemma frame_part2 c p : kept_by (part2 dm c p).
Proof. frames @part2. Qed.
Lemma frame_svracall call c p :
  (forall flags svc len, kept_by (new_transaction dm c flags svc len)) ->
  (forall c' p', kept_by (call H_send_to_worker c' p')) -> kept_by (svracall dm call c p).
Proof. intros Hn Hc. frames @svracall. by apply frame_svriowait. Qed.
Lemma frame_svrreturn call c p : (forall c' p', kept_by (call H_part2 c' p')) -> kept_by (svrreturn dm call c p).
Proof. intros Hc. frames @svrreturn. by apply frame_svriowait. Qed.

(** Only [command], which may delete its client, and [svracall], which makes a
    transaction, do not keep to every frame. *)
Lemma frame_handle n h c p : h <> H_command -> h <> H_svracall -> kept_by (handle dm n h c p).
Proof.
  revert h c p. induction n as [|n IH]; intros h c p Hh Hc; [apply pres_raise|]. destruct h; try done; cbn [handle].
  - apply frame_svrgetrply.
  - apply frame_svradvertise.
  - apply frame_svrunadvertise.
  - apply frame_svrservice.
  - apply frame_svrreturn. intros. by apply IH.
  - apply frame_send_to_worker.
  - apply frame_part2.
Qed.

End Operations.

#[export] Hint Resolve frame_get_client frame_get_trans frame_put_client frame_get_adv frame_alloc_struct frame_gettimeofday
  frame_read_cdp frame_trans_cds frame_free_trans frame_svr_next_command frame_reply_or_queue frame_del_queue
  frame_del_depth frame_del_advertisement frame_buf_byte : frame.

(** ** The list of the clients *)

Section Instances.
Context {T : Type} `{SearchTreeOps T Z} (dm : data_model).
Implicit Types (s : sb T).

Definition clients_kept : relation (sb T) := fun s s' => ring_kept (qm s) (qm s').

#[global] Instance clients_kept_preorder : PreOrder clients_kept.
Proof. split; unfold clients_kept; intros ?; [reflexivity | intros ? ?; apply transitivity]. Qed.

Lemma ring_modify (f : sb T -> sb T) : (forall s, qm (f s) = qm s) -> pres clients_kept (modify f).
Proof. intros Hf. apply pres_modify. intros s. unfold clients_kept. by rewrite Hf. Qed.
Lemma ring_put_trans t f : pres clients_kept (put_trans t f).
Proof. unfold put_trans, get_trans, deref. pres_steps. by apply ring_modify. Qed.

#[global] Instance clients_kept_frame : Frame clients_kept.
Proof.
  split; [apply _ | | | | |].
  - intros A m s. unfold in_mem, zoom. destruct (m _) as [[]|]; [by intros Hm|done].
  - intros A m Hm s. specialize (Hm (qm s)). unfold in_q, zoom. by destruct (m _) as [[]|].
  - intros f Hf. apply ring_modify. intros s. by injection (Hf s).
  - intros t f _. apply ring_put_trans.
  - intros t. by apply ring_modify.
Qed.

Lemma ring_next_cd fuel : pres clients_kept (next_cd fuel).
Proof.
  induction fuel as [|fuel IH]; cbn [next_cd]; [frame_step|]. unfold refill. repeat frame_step; try done; by apply ring_modify.
Qed.
Lemma ring_new_transaction c flags svc len : pres clients_kept (new_transaction dm c flags svc len).
Proof.
  unfold new_transaction, take_cd. repeat frame_step; first [apply ring_next_cd | apply ring_put_trans | by apply ring_modify].
Qed.

(** ** The descriptors *)

Record pool_kept (s s' : sb T) : Prop := {
  pk_pool : free_cd s' = free_cd s /\ cdp s' = cdp s /\ cd_oob s' = cd_oob s;
  pk_cds t tx' : trans s' !! t = Some tx' -> exists tx, trans s !! t = Some tx /\ cd tx' = cd tx;
}.

#[global] Instance pool_kept_preorder : PreOrder pool_kept.
Proof.
  split.
  - intros s. split; [done | eauto].
  - intros s1 s2 s3 [(A1 & B1 & C1) T1] [(A2 & B2 & C2) T2]. split; [split_and!; congruence|].
    intros t tx3 (tx2 & (tx1 & H1 & E1)%T1 & E2)%T2. exists tx1. split; [done | congruence].
Qed.

Lemma pool_same s s' : (trans s', free_cd s', cdp s', cd_oob s') = (trans s, free_cd s, cdp s, cd_oob s) -> pool_kept s s'.
Proof. intros [= Et Ef Ec Eo]. split; [done|]. rewrite Et. eauto. Qed.

#[global] Instance pool_kept_frame : Frame pool_kept.
Proof.
  split; [apply _ | | | | |].
  - intros A m s. unfold in_mem, zoom. destruct (m _) as [[]|]; [by apply pool_same|done].
  - intros A m _ s. unfold in_q, zoom. destruct (m _) as [[]|]; [by apply pool_same|done].
  - intros f Hf. apply pres_modify. intros s. apply pool_same. by injection (Hf s) as _ -> -> -> ->.
  - intros t f Hf s. unfold put_trans, get_trans, deref, mbind, M_bind, gets, modify.
    destruct (t =? 0); [done|]. destruct (trans s !! t) as [tx|] eqn:Htx; [|done]. cbn. split; [done|].
    cbn. intros t' tx' [[<- <-]|[_ Htx']]%lookup_insert_Some; eauto.
  - intros t. apply pres_modify. intros s. split; [done|]. cbn. intros t' tx' [_ Htx']%lookup_delete_Some. eauto.
Qed.

End Instances.
