(* ===== verification/ClientRing.v ===== *)
(** * The list of the clients

    Serving a client leaves the list [tpclients] as it was, or takes the client off it:
    nothing else happens to the list, whatever arrives. *)

From Stdlib Require Import ZArith Lia.
From S2P Require Import Prelude Constants ByteOrder CString SearchTree Queue Memory TpMemory Keeps.
From S2P Require Import SbState SbObjects SbHandlers SbLemmas Invariant Frames.

Local Open Scope Z_scope.

Section ClientRing.
Context {T : Type} `{SearchTreeOps T Z} (dm : data_model).
Implicit Types (s : sb T).
Notation kept_by m := (pres (clients_kept (T := T)) m).

Lemma is_queue_same (m m' : links) h l :
  (forall q, q ∈ h :: l -> m' !! q = m !! q) -> is_queue m h l -> is_queue m' h l.
Proof.
  intros Hs [Hq Hnd]. split; [|done]. eapply seg_ext; [..|exact Hq]; intros y Hy; unfold nxt, prv; rewrite Hs; set_solver.
Qed.

(** The list of the clients is what it was, or lacks the client [c]. *)
Definition client_served (c : Z) : relation (sb T) := fun s s' =>
  forall l1 l2, apart_links (qm s) -> Forall (fun q => ~ other_link q) (l1 ++ l2) ->
    is_queue (qm s) Q_tpclients (l1 ++ Q_global c :: l2) ->
    is_queue (qm s') Q_tpclients (l1 ++ Q_global c :: l2) \/ is_queue (qm s') Q_tpclients (l1 ++ l2).

Lemma kept_queue s s' c l1 l2 :
  clients_kept s s' -> apart_links (qm s) -> Forall (fun q => ~ other_link q) (l1 ++ l2) ->
  is_queue (qm s) Q_tpclients (l1 ++ Q_global c :: l2) -> is_queue (qm s') Q_tpclients (l1 ++ Q_global c :: l2).
Proof.
  intros Hk Ha Hl. apply is_queue_same. intros q Hq. apply (proj2 (Hk Ha)). rewrite Forall_forall in Hl. specialize (Hl q).
  apply elem_of_cons in Hq as [->|Hq]; [by intros []|].
  apply elem_of_app in Hq as [Hq|[->|Hq]%elem_of_cons]; [| by intros [] |]; apply Hl, elem_of_app; auto.
Qed.

Lemma served_kept {A} c (m : M (sb T) A) : kept_by m -> pres (client_served c) m.
Proof.
  intros Hm s. specialize (Hm s). destruct (m s) as [[a s']|]; [|done]. intros l1 l2 Ha Hl Hq. left. by eapply kept_queue.
Qed.

Lemma served_then {A B} c (m : M (sb T) A) (k : A -> M (sb T) B) :
  kept_by m -> (forall a, pres (client_served c) (k a)) -> pres (client_served c) (m ≫= k).
Proof.
  intros Hm Hk s. specialize (Hm s). unfold mbind, M_bind. destruct (m s) as [[a s1]|]; [|done].
  specialize (Hk a s1). destruct (k a s1) as [[b s2]|]; [|done]. intros l1 l2 Ha Hl Hq.
  apply Hk; [by apply Hm | done | by eapply kept_queue].
Qed.

(** The end of [del_client]. *)
Lemma served_gone c :
  pres (client_served c) (_ ← in_q (qdelete (Q_global c)); y ← get_client c;
      modify (fun s => set_closed (closed s ++ [fd y]) s) ;;
      modify (fun s => set_clients (delete c (clients s)) s) ;;
      in_q (q_free (Q_global c)) ;; in_q (q_free (Q_requests c)) ;; in_q (q_free (Q_replies c))).
Proof.
  intros s. unfold mbind, M_bind, in_q at 1, zoom.
  destruct (qdelete (Q_global c) (qm s)) as [[q m]|] eqn:E; [|done].
  destruct (get_client c (set_qm m s)) as [[y s1]|] eqn:Ey; [|done].
  assert (pres eq (get_client (T := T) c)) as Hr by (unfold get_client, deref; pres_steps).
  specialize (Hr (set_qm m s)). rewrite Ey in Hr. subst s1.
  intros l1 l2 Ha Hl Hq. destruct (qdelete_queue _ _ _ _ _ Hq) as (m' & E' & Hq' & _).
  rewrite E in E'. injection E' as _ <-. right. cbn. eapply is_queue_same; [|exact Hq']. intros q' Hq0.
  rewrite Forall_forall in Hl. destruct Hq as [_ [Hh Hnd]%NoDup_cons].
  rewrite !lookup_delete_ne; [done|..]; intros <-; apply elem_of_cons in Hq0 as [?|Hq0]; try done;
    try (by apply (Hl _ Hq0)).
  rewrite <- Permutation_middle in Hnd. by apply NoDup_cons in Hnd as [].
Qed.

Ltac served := repeat (first [apply served_then; [solve [repeat frame_step] | intros ?] | apply served_kept; solve [repeat frame_step]]).

Lemma served_del_client c : pres (client_served c) (del_client dm c).
Proof.
  unfold del_client. destruct (c =? 0); [served|]. served. apply served_gone.
Qed.

Lemma ring_handle n h c p : h <> H_command -> kept_by (handle dm n h c p).
Proof.
  intros Hh. destruct (decide (h = H_svracall)) as [->|Hc]; [|by apply frame_handle; [apply _|..]].
  destruct n as [|n]; [apply pres_raise|]. cbn [handle].
  apply frame_svracall; [apply _ | intros; apply ring_new_transaction | intros; by apply frame_handle; [apply _|..]].
Qed.

Lemma served_handle n h c p : pres (client_served c) (handle dm n h c p).
Proof.
  revert h p. induction n as [|n IH]; intros h p; [apply served_kept; apply pres_raise|].
  destruct (decide (h = H_command)) as [->|Hh]; [|by apply served_kept, ring_handle].
  cbn [handle]. unfold command. apply served_then; [apply frame_buf_byte; apply _|]. intros b. destruct (_ <? _).
  - unfold svriowait. served. destruct (negb _); [served | apply IH].
  - served. apply served_del_client.
Qed.

Lemma served_iowait_client c r : pres (client_served c) (iowait_client dm c r).
Proof.
  unfold iowait_client. served. destruct (_ <=? _); [apply served_del_client|].
  destruct r as [|[|b bs]]; [apply served_del_client..|]. apply served_then; [repeat frame_step|]. intros _.
  destruct (_ =? _); served. apply served_handle.
Qed.

End ClientRing.
