(* ===== verification/Board.v ===== *)
(** * A consistent switchboard

    [board] is the invariant under which the switchboard does not fault: how the
    structs, the lists and the buffers belong together.  Every list has links of the
    right structs, every struct is on the lists it belongs to, the trees and the
    structs agree, a worker and the transaction it executes point at each other, and
    no two uses share a buffer.  Then how it is kept by the elementary changes that
    the operations consist of. *)

From Stdlib Require Import ZArith Lia.
From S2P Require Import Prelude Constants ByteOrder CString SearchTree Queue Memory TpMemory Keeps.
From S2P Require Import SbState SbObjects SbHandlers SbLemmas TxIo Xatmi Dispatch EventLoop Registry Messages Replies.
From S2P Require Import Transactions Calls Advertising Invariant.

Local Open Scope Z_scope.

(** ** Lists *)

(** A node is on some list. *)
Definition qon (qs : gmap qaddr (list qaddr)) (n : qaddr) : Prop := exists h l, qs !! h = Some l /\ n ∈ l.

(** The three links of a transaction. *)
Definition t_link (t : Z) (n : qaddr) : Prop := n = Q_t_clientq t \/ n = Q_t_svc_waitq t \/ n = Q_t_global t.
#[global] Instance t_link_dec t n : Decision (t_link t n).
Proof. unfold t_link. apply _. Defined.

Lemma lookup_qremove (n : qaddr) qs (h : qaddr) :
  qremove n qs !! h = if decide (h = n) then Some [] else filter (fun x => x ≠ n) <$> qs !! h.
Proof.
  unfold qremove. case_decide as E; [subst; apply lookup_insert_eq|].
  by rewrite lookup_insert_ne, lookup_fmap by auto.
Qed.

(** The lists when the links of a transaction are gone. *)
Lemma lookup_qdrop t qs h :
  qdrop_trans t qs !! h = if decide (t_link t h) then None else filter (fun x => ~ t_link t x) <$> qs !! h.
Proof.
  unfold qdrop_trans. case_decide as E.
  - destruct (decide (h = Q_t_svc_waitq t)) as [->|]; [apply lookup_delete_eq|].
    rewrite lookup_delete_ne by done.
    destruct (decide (h = Q_t_clientq t)) as [->|]; [apply lookup_delete_eq|].
    rewrite lookup_delete_ne by done.
    destruct (decide (h = Q_t_global t)) as [->|]; [apply lookup_delete_eq|].
    by destruct E as [?|[?|?]].
  - rewrite !lookup_delete_ne by (intros <-; apply E; unfold t_link; auto). cbn [qremove_all foldl].
    rewrite !lookup_qremove. rewrite !decide_False by (intros ->; apply E; unfold t_link; auto).
    destruct (qs !! h) as [l|]; [|done]. cbn. f_equal. rewrite !list_filter_filter.
    apply list_filter_iff. intros x. unfold t_link. naive_solver.
Qed.

Section Board.
Context {T : Type} `{SearchTree T Z} (dm : data_model).
Implicit Types (s : sb T) (x : tpclient T) (tx : tptransaction) (qs : gmap qaddr (list qaddr)).

(** The links that the list at [h] may have. *)
Definition fits s (h n : qaddr) : Prop :=
  match h, n with
  | Q_tpclients, Q_global c => is_Some (clients s !! c)
  | Q_tptransactions, Q_t_global t => 0 < t /\ is_Some (trans s !! t)
  | Q_requests c, Q_t_clientq t | Q_replies c, Q_t_clientq t =>
      0 < t /\ t_client <$> trans s !! t = Some c
  | Q_waitq p, Q_t_svc_waitq t =>
      0 < t /\ t_svc <$> trans s !! t = Some p /\ wait_contains_transactions <$> svcs s !! p = Some true
  | Q_waitq p, Q_adv_waitq a =>
      a_svc <$> advs s !! a = Some p /\ wait_contains_transactions <$> svcs s !! p = Some false
  | _, _ => False
  end.

(** The headers, the links that are always on a list, and those that may be on none. *)
Definition head_live s (h : qaddr) : Prop :=
  match h with
  | Q_tpclients | Q_tptransactions => True
  | Q_requests c | Q_replies c => is_Some (clients s !! c)
  | Q_waitq p => is_Some (svcs s !! p)
  | _ => False
  end.
Definition node_live s (n : qaddr) : Prop :=
  match n with
  | Q_global c => is_Some (clients s !! c)
  | Q_t_global t | Q_t_clientq t => 0 < t /\ is_Some (trans s !! t)
  | _ => False
  end.
Definition spare_live s (n : qaddr) : Prop :=
  match n with
  | Q_adv_waitq a => is_Some (advs s !! a)
  | Q_t_svc_waitq t => 0 < t /\ is_Some (trans s !! t)
  | _ => False
  end.

(** The client [c] executes the transaction [t]. *)
Definition works s (c t : Z) : Prop :=
  0 < t /\ exists tx ax, trans s !! t = Some tx /\ advs s !! executor tx = Some ax /\ a_client ax = c.

(** What [wait4] may point to: nothing; for a client that is not expected to send
    anything, the transaction it waits for or any; the transaction it executes. *)
Definition wait_ok s (c : Z) x : Prop :=
  wait4 x = 0 \/
  (idle x /\ (wait4 x = GLOBAL_ANY \/ 0 < wait4 x /\ t_client <$> trans s !! wait4 x = Some c)) \/
  works s c (wait4 x).

(** The data of a call is arriving: the newest request, on no queue yet. *)
Definition receiving s qs (c : Z) x : Prop := exists t tx rl,
  qs !! Q_requests c = Some (rl ++ [Q_t_clientq t]) /\ trans s !! t = Some tx /\ 0 < t /\
  t_data tx = input x /\ executor tx = 0 /\ qs !! Q_t_svc_waitq t = Some [] /\ is_Some (svcs s !! t_svc tx).

(** The length of the message that a handler takes. *)
Definition size_ok (h : handler) (len : Z) : Prop :=
  match h with
  | H_command => len = 1
  | H_svrservice => False
  | H_send_to_worker | H_part2 => True
  | _ => exists n, (h, n) ∈ commands /\ len = Z.of_nat n
  end.

(** A message is arriving. *)
Definition io_ok s qs (c : Z) x : Prop := forall h, handler_fn x = Some h ->
  (exists len, tpbuf dm (tp_heap (mem s)) (input x) len /\ 0 <= used x < len /\ size_ok h len) /\
  (h = H_send_to_worker -> receiving s qs c x) /\
  (h = H_part2 -> works s c (wait4 x) /\ t_data <$> trans s !! wait4 x = Some (input x)).

(** A buffer that only the client has: of a message that is not data. *)
Definition private x : Prop :=
  exists h, handler_fn x = Some h /\ h <> H_send_to_worker /\ h <> H_part2.

Definition client_fits (k : Z) s qs (c : Z) x : Prop :=
  adverts_reg s x /\ (forall a, a ∈ twalk (adverts x) -> a_client <$> advs s !! a = Some c) /\
  wait_ok s c x /\ (c <> k -> io_ok s qs c x).

Definition trans_fits s qs (t : Z) tx : Prop :=
  is_Some (clients s !! t_client tx) /\
  (exists len, tpbuf dm (tp_heap (mem s)) (t_data tx) len /\ len < 2 ^ 31) /\
  (executor tx <> 0 -> exists ax x l,
    advs s !! executor tx = Some ax /\ clients s !! a_client ax = Some x /\ wait4 x = t /\
    qs !! Q_requests (t_client tx) = Some l /\ Q_t_clientq t ∈ l).

Definition adv_fits s (a : Z) (ax : tpadvertisement) : Prop :=
  is_Some (svcs s !! a_svc ax) /\ exists x, clients s !! a_client ax = Some x /\ a ∈ twalk (adverts x).

(** A worker on a wait queue waits for nothing else. *)
Definition waits s (a : Z) : Prop := exists ax x,
  advs s !! a = Some ax /\ clients s !! a_client ax = Some x /\ idle x /\ wait4 x = 0.

(** Every list has links that fit, and every link is on the lists it belongs to. *)
Record listed s qs : Prop := {
  bd_lists h l n : qs !! h = Some l -> n ∈ l -> fits s h n;
  bd_heads h : head_live s h -> is_Some (qs !! h);
  bd_nodes n : node_live s n -> qon qs n;
  bd_spares n : spare_live s n -> qnode qs n;
}.

(** No two uses share a buffer. *)
Record apart (k : Z) s : Prop := {
  bd_data t1 tx1 t2 tx2 : 0 < t1 -> 0 < t2 -> trans s !! t1 = Some tx1 -> trans s !! t2 = Some tx2 ->
    pblk (t_data tx1) = pblk (t_data tx2) -> t1 = t2;
  bd_input c x t tx : c <> k -> 0 < t -> clients s !! c = Some x -> private x -> trans s !! t = Some tx ->
    pblk (input x) <> pblk (t_data tx);
  bd_inputs c1 x1 c2 x2 : c1 <> k -> c2 <> k -> clients s !! c1 = Some x1 -> clients s !! c2 = Some x2 ->
    private x1 -> private x2 -> pblk (input x1) = pblk (input x2) -> c1 = c2;
}.

(** The whole: [k] is a client that is being deleted, of whose input nothing is said,
    or 0; [e] an advertisement that is being deleted, which is on no list and in no
    tree, or 0. *)
Record board (k e : Z) s qs : Prop := {
  bd_sane : sane s qs;
  bd_any : trans s !! GLOBAL_ANY = Some zero_transaction;
  bd_listed : listed s qs;
  bd_clients c x : clients s !! c = Some x -> client_fits k s qs c x;
  bd_trans t tx : trans s !! t = Some tx -> 0 < t -> trans_fits s qs t tx;
  bd_advs a ax : a <> e -> advs s !! a = Some ax -> adv_fits s a ax;
  bd_exempt : e <> 0 -> qs !! Q_adv_waitq e = Some [] /\ forall c x, clients s !! c = Some x -> e ∉ twalk (adverts x);
  bd_registry : registry_ok s /\ forall p, is_Some (svcs s !! p) -> p ∈ twalk (services s);
  bd_waiting p l a : qs !! Q_waitq p = Some l -> Q_adv_waitq a ∈ l -> waits s a;
  bd_apart : apart k s;
}.

(** Nobody but [k] is reading into the buffer. *)
Definition unread (k : Z) s (p : ptr) : Prop :=
  forall c x, c <> k -> clients s !! c = Some x -> handler_fn x <> None -> input x <> p.

(** Who reads into the buffer of a transaction: its caller, or the worker that executes it. *)
Lemma reader k e s qs c x t tx :
  board k e s qs -> c <> k -> clients s !! c = Some x -> handler_fn x <> None ->
  trans s !! t = Some tx -> 0 < t -> pblk (input x) = pblk (t_data tx) ->
  input x = t_data tx /\
  ((executor tx = 0 /\ qs !! Q_t_svc_waitq t = Some [] /\ exists rl, qs !! Q_requests c = Some (rl ++ [Q_t_clientq t])) \/
  (handler_fn x = Some H_part2 /\ wait4 x = t /\ works s c t)).
Proof.
  intros B Hk Hx Hh Htx Hp E. destruct (handler_fn x) as [h|] eqn:Eh; [|done]. clear Hh.
  destruct (bd_clients _ _ _ _ B c x Hx) as (_ & _ & _ & Hio). destruct (Hio Hk h Eh) as (_ & Hr & Hp2).
  assert (forall t1 tx1, 0 < t1 -> trans s !! t1 = Some tx1 -> t_data tx1 = input x -> t1 = t) as Hone.
  { intros t1 tx1 Hp1 Htx1 Hd. apply (bd_data _ _ (bd_apart _ _ _ _ B) t1 tx1 t tx); try done. congruence. }
  destruct (decide (h = H_send_to_worker)) as [->|N1].
  - destruct (Hr eq_refl) as (t1 & tx1 & rl & Hrl & Htx1 & Hp1 & Hd & He & Hq & _).
    assert (t1 = t) as -> by (by eapply Hone). assert (tx1 = tx) as -> by congruence. eauto 10.
  - destruct (decide (h = H_part2)) as [->|N2].
    + destruct (Hp2 eq_refl) as [Hw (tx1 & Htx1 & Hd)%fmap_Some]. pose proof Hw as [Hp1 _].
      assert (wait4 x = t) as Ew by (by eapply Hone). rewrite Ew in Hw, Htx1. split; [congruence | by right].
    + exfalso. by apply (bd_input _ _ (bd_apart _ _ _ _ B) c x t tx); try done; exists h.
Qed.

(** ** What does not change *)

Lemma adverts_reg_same s s' x x' :
  advs s' = advs s -> svcs s' = svcs s -> adverts x' = adverts x -> adverts_reg s x -> adverts_reg s' x'.
Proof.
  intros Ea Es Ex [Hl Ho]. split; rewrite Ex; [by rewrite Ea, Es|].
  eapply tordered_ext; [|exact Ho]. intros a _. unfold akey, adv_name. by rewrite Ea, Es.
Qed.

Lemma registry_same s s' : svcs s' = svcs s -> services s' = services s -> registry_ok s -> registry_ok s'.
Proof.
  intros Es Et [Hl Ho]. split; rewrite Et; [by rewrite Es|].
  eapply tordered_ext; [|exact Ho]. intros p _. unfold key, svc_name. by rewrite Es.
Qed.

(** The buffers are apart when there are no new ones. *)
Lemma apart_same k k' s s' :
  apart k s ->
  (forall c x', c <> k' -> clients s' !! c = Some x' ->
    c <> k /\ exists x, clients s !! c = Some x /\ input x' = input x /\ handler_fn x' = handler_fn x) ->
  (forall t tx', 0 < t -> trans s' !! t = Some tx' -> exists tx, trans s !! t = Some tx /\ t_data tx' = t_data tx) ->
  apart k' s'.
Proof.
  intros [Hd Hi Hii] Hc Ht. constructor.
  - intros t1 tx1' t2 tx2' P1 P2 (tx1 & H1 & ->)%Ht (tx2 & H2 & ->)%Ht; [|done..]. by apply Hd.
  - intros c x' t tx' Hk Hp (Hk' & x & Hx & -> & Eh)%Hc [h Hh] (tx & Htx & ->)%Ht; [|done..].
    apply (Hi c x t tx); try done. exists h. by rewrite <- Eh.
  - intros c1 x1' c2 x2' K1 K2 (K1' & x1 & Hx1 & -> & E1)%Hc (K2' & x2 & Hx2 & -> & E2)%Hc [h1 Hh1] [h2 Hh2]; [|done..].
    intros E. apply (Hii c1 x1 c2 x2); try done; [exists h1 | exists h2]; [by rewrite <- E1 | by rewrite <- E2].
Qed.

(** What a client is expected to send, and advertises, when only [wait4] changes. *)
Definition same_input x x' : Prop :=
  fd x' = fd x /\ used x' = used x /\ input x' = input x /\ handler_fn x' = handler_fn x /\ adverts x' = adverts x.

Lemma same_input_idle x x' : same_input x x' -> idle x -> idle x'.
Proof. intros (_ & U & I & Hh & _) (? & ? & ?). unfold idle. by rewrite U, I, Hh. Qed.
Lemma same_input_private x x' : same_input x x' -> private x' -> private x.
Proof. intros (_ & _ & _ & Hh & _) (h & ? & ?). exists h. by rewrite <- Hh. Qed.

(** ** The end of a transaction *)

(** Nobody waits for the transaction any more. *)
Definition clear_wait (t : Z) x : tpclient T := if wait4 x =? t then set_wait4 0 x else x.

Lemma clear_wait_input t x : same_input x (clear_wait t x).
Proof. unfold clear_wait. by destruct (_ =? _). Qed.
Lemma clear_wait_other t x : wait4 x <> t -> clear_wait t x = x.
Proof. intros Hw. unfold clear_wait. by rewrite (proj2 (Z.eqb_neq _ _)). Qed.
Lemma clear_wait_self t x : wait4 x = t -> clear_wait t x = set_wait4 0 x.
Proof. intros <-. unfold clear_wait. by rewrite Z.eqb_refl. Qed.

(** What the deletion of a transaction does to the structs. *)
Record dropped s s' (t : Z) tx : Prop := {
  dr_mem : mem s' = drop_blk (mem s) (pblk (t_data tx));
  dr_clients : clients s' = clear_wait t <$> clients s;
  dr_trans : trans s' = delete t (trans s);
  dr_rest : svcs s' = svcs s /\ advs s' = advs s /\ services s' = services s;
}.

Section Drop.
Context (k e : Z) (s s' : sb T) (qs : gmap qaddr (list qaddr)) (t : Z) (tx : tptransaction).
Hypothesis before : board k e s qs.
Hypothesis there : trans s !! t = Some tx /\ 0 < t.
Hypothesis not_read : unread k s (t_data tx).
Hypothesis drop : dropped s s' t tx.

Lemma drop_client c x' : clients s' !! c = Some x' ->
  exists x, clients s !! c = Some x /\ x' = clear_wait t x /\ same_input x x'.
Proof.
  rewrite (dr_clients _ _ _ _ drop), lookup_fmap. intros (x & Hx & ->)%fmap_Some.
  exists x. split_and!; [done | done | apply clear_wait_input].
Qed.
Lemma drop_live c : is_Some (clients s' !! c) <-> is_Some (clients s !! c).
Proof. rewrite (dr_clients _ _ _ _ drop), lookup_fmap. by rewrite fmap_is_Some. Qed.
Lemma drop_tx t' tx' : trans s' !! t' = Some tx' <-> t' <> t /\ trans s !! t' = Some tx'.
Proof. rewrite (dr_trans _ _ _ _ drop), lookup_delete_Some. naive_solver. Qed.
Lemma drop_tx_ne t' : t' <> t -> trans s' !! t' = trans s !! t'.
Proof. intros Hne. by rewrite (dr_trans _ _ _ _ drop), lookup_delete_ne. Qed.

Lemma drop_list h l' : qdrop_trans t qs !! h = Some l' ->
  exists l, qs !! h = Some l /\ l' = filter (fun n => ~ t_link t n) l.
Proof. rewrite lookup_qdrop. case_decide; [done|]. intros (l & -> & Hl)%fmap_Some. eauto. Qed.
Lemma drop_on n : ~ t_link t n -> qon qs n -> qon (qdrop_trans t qs) n.
Proof.
  intros Hn (h & l & Hh & Hin). assert (~ t_link t h) as Hth.
  { intros Ht. pose proof (bd_lists _ _ (bd_listed _ _ _ _ before) h l n Hh Hin) as Hf. by destruct Ht as [->|[->| ->]]. }
  exists h, (filter (fun n => ~ t_link t n) l). rewrite lookup_qdrop, decide_False, Hh by done.
  split; [done | by apply list_elem_of_filter].
Qed.
Lemma drop_spare n : ~ t_link t n -> qnode qs n -> qnode (qdrop_trans t qs) n.
Proof.
  intros Hn [Hq|Ho]; [left | right; by apply drop_on].
  by rewrite lookup_qdrop, decide_False, Hq.
Qed.

Lemma drop_fits h n : ~ t_link t n -> fits s h n -> fits s' h n.
Proof.
  intros Hn. destruct (dr_rest _ _ _ _ drop) as (Es & Ea & _).
  assert (forall t', n = Q_t_global t' \/ n = Q_t_clientq t' \/ n = Q_t_svc_waitq t' -> t' <> t) as Hne
    by (intros t' Ht' ->; apply Hn; unfold t_link; naive_solver).
  destruct h, n; cbn; try done; rewrite ?Es, ?Ea, ?drop_live; try done;
    rewrite ?drop_tx_ne by (apply Hne; auto); done.
Qed.

Lemma drop_buf p len : pblk p <> pblk (t_data tx) ->
  tpbuf dm (tp_heap (mem s)) p len -> tpbuf dm (tp_heap (mem s')) p len.
Proof.
  intros Hp Hb. rewrite (dr_mem _ _ _ _ drop). eapply (tpbuf_frame dm _ _ (pblk (t_data tx))); [|done|done].
  intros i Hi _. cbn. by rewrite lookup_delete_ne by auto.
Qed.

Lemma drop_works c t' : t' <> t -> works s c t' -> works s' c t'.
Proof.
  intros Hne (Hp & tx' & ax & Ht & Hax & Hc). split; [done|]. exists tx', ax.
  destruct (dr_rest _ _ _ _ drop) as (_ & -> & _). by rewrite drop_tx_ne.
Qed.

(** The buffer that a client reads into is another one. *)
Lemma drop_input c x h : c <> k -> clients s !! c = Some x -> handler_fn x = Some h ->
  pblk (input x) <> pblk (t_data tx).
Proof.
  destruct there as [Htx Hpos]. intros Hk Hx Hh E.
  destruct (reader k e s qs c x t tx before Hk Hx ltac:(by rewrite Hh) Htx Hpos E) as [Ei _].
  by apply (not_read c x Hk Hx); [rewrite Hh|].
Qed.

Lemma drop_client_fits c x' : clients s' !! c = Some x' -> client_fits k s' (qdrop_trans t qs) c x'.
Proof.
  intros (x & Hx & -> & Hsame)%drop_client. destruct (bd_clients _ _ _ _ before c x Hx) as (Hreg & Hown & Hwait & Hio).
  destruct (dr_rest _ _ _ _ drop) as (Es & Ea & _). pose proof Hsame as (_ & Eu & Ei & Eh & Et).
  split_and!.
  - by eapply adverts_reg_same.
  - by rewrite Et, Ea.
  - destruct (decide (wait4 x = t)) as [E|E]; [left; by rewrite clear_wait_self|].
    rewrite clear_wait_other in * by done. destruct Hwait as [?|[[Hi Hw]|Hw]]; [by left | right; left | right; right].
    + split; [done|]. destruct Hw as [?|Hw]; [by left | right]. by rewrite drop_tx_ne.
    + by apply drop_works.
  - intros Hk h Hh. rewrite Eh in Hh. destruct (Hio Hk h Hh) as ((len & Hb & Hu & Hsz) & Hr & Hp2).
    pose proof (drop_input c x h Hk Hx Hh) as Hne. rewrite Ei, Eu. split_and!.
    + exists len. split_and!; try done; try lia. by apply drop_buf.
    + intros ->. destruct (Hr eq_refl) as (t' & tx' & rl & Hl & Ht' & Hp' & Hd & He & Hq & Hs).
      assert (t' <> t) as Htt by (intros ->; destruct there; congruence).
      exists t', tx', (filter (fun n => ~ t_link t n) rl). rewrite Es, Ei, drop_tx_ne by done.
      assert (~ t_link t (Q_t_clientq t')) by (unfold t_link; naive_solver).
      split_and!; try done.
      * rewrite lookup_qdrop, decide_False, Hl by (unfold t_link; naive_solver). cbn.
        by rewrite filter_app, filter_cons_True by done.
      * by rewrite lookup_qdrop, decide_False, Hq by (unfold t_link; naive_solver).
    + intros ->. destruct (Hp2 eq_refl) as [Hw Hd]. assert (wait4 x <> t) as Hwt.
      { intros E. destruct there as [Htx _]. rewrite E, Htx in Hd. injection Hd as Hd. apply Hne. by rewrite Hd. }
      rewrite clear_wait_other by done. rewrite drop_tx_ne by done. split; [by apply drop_works | done].
Qed.

Lemma drop_trans_fits t' tx' : trans s' !! t' = Some tx' -> 0 < t' -> trans_fits s' (qdrop_trans t qs) t' tx'.
Proof.
  intros [Hne Ht']%drop_tx Hp. destruct there as [Htx Hpos].
  destruct (bd_trans _ _ _ _ before t' tx' Ht' Hp) as (Hc & (len & Hb & Hl) & He). split_and!.
  - by apply drop_live.
  - exists len. split; [|done]. apply drop_buf; [|done]. intros E. apply Hne.
    by apply (bd_data _ _ (bd_apart _ _ _ _ before) t' tx' t tx).
  - intros Hex. destruct (He Hex) as (ax & x & l & Hax & Hx & Hw & Hrl & Hin).
    destruct (dr_rest _ _ _ _ drop) as (_ & -> & _). exists ax, x, (filter (fun n => ~ t_link t n) l).
    split_and!; try done.
    + rewrite (dr_clients _ _ _ _ drop), lookup_fmap, Hx. cbn. f_equal. apply clear_wait_other. congruence.
    + by rewrite lookup_qdrop, decide_False, Hrl by (unfold t_link; naive_solver).
    + apply list_elem_of_filter. split; [unfold t_link; naive_solver | done].
Qed.

Lemma drop_listed : listed s' (qdrop_trans t qs).
Proof.
  destruct (dr_rest _ _ _ _ drop) as (Es & Ea & Et). constructor.
  - intros h l' n (l & Hl & ->)%drop_list [Hn Hin]%list_elem_of_filter.
    apply drop_fits; [done|]. by apply (bd_lists _ _ (bd_listed _ _ _ _ before) h l).
  - intros h Hh. rewrite lookup_qdrop, decide_False.
    + apply fmap_is_Some, (bd_heads _ _ (bd_listed _ _ _ _ before)).
      destruct h; try done; cbn in *; rewrite ?Es in Hh; try done; by apply drop_live.
    + intros Hc. by destruct Hc as [->|[->| ->]].
  - intros n Hn. assert (~ t_link t n /\ node_live s n) as [Hl Hn'].
    { destruct n; try done; cbn in *; [rewrite drop_live in Hn; split; [unfold t_link; naive_solver | done]|..];
        destruct Hn as [? [? Hn%drop_tx]]; unfold t_link; naive_solver. }
    apply drop_on; [done|]. by apply (bd_nodes _ _ (bd_listed _ _ _ _ before)).
  - intros n Hn. assert (~ t_link t n /\ spare_live s n) as [Hl Hn'].
    { destruct n; try done; cbn in *; [rewrite Ea in Hn; split; [unfold t_link; naive_solver | done]|..];
        destruct Hn as [? [? Hn%drop_tx]]; unfold t_link; naive_solver. }
    apply drop_spare; [done|]. by apply (bd_spares _ _ (bd_listed _ _ _ _ before)).
Qed.

Lemma board_dropped : sane s' (qdrop_trans t qs) -> board k e s' (qdrop_trans t qs).
Proof.
  intros Hs. destruct (dr_rest _ _ _ _ drop) as (Es & Ea & Et), there as [Htx Hpos]. constructor.
  - done.
  - rewrite drop_tx_ne; [apply before | unfold GLOBAL_ANY; lia].
  - apply drop_listed.
  - apply drop_client_fits.
  - apply drop_trans_fits.
  - intros a ax Hne Hax. rewrite Ea in Hax. destruct (bd_advs _ _ _ _ before a ax Hne Hax) as (Hsv & x & Hx & Hin).
    split; [by rewrite Es|]. exists (clear_wait t x).
    rewrite (dr_clients _ _ _ _ drop), lookup_fmap, Hx. split; [done|].
    by destruct (clear_wait_input t x) as (_ & _ & _ & _ & ->).
  - intros He. destruct (bd_exempt _ _ _ _ before He) as [Hq Hin]. split.
    + rewrite lookup_qdrop, decide_False, Hq by (unfold t_link; naive_solver). done.
    + intros c x' (x & Hx & -> & (_ & _ & _ & _ & ->))%drop_client. by eapply Hin.
  - destruct (bd_registry _ _ _ _ before) as [Hr Hall]. split; [by eapply registry_same|]. by rewrite Es, Et.
  - intros p l' a (l & Hl & ->)%drop_list [_ Hin]%list_elem_of_filter.
    destruct (bd_waiting _ _ _ _ before p l a Hl Hin) as (ax & x & Hax & Hx & Hi & Hw).
    exists ax, x. rewrite Ea, (dr_clients _ _ _ _ drop), lookup_fmap, Hx. split_and!; try done.
    cbn. f_equal. apply clear_wait_other. lia.
  - apply (apart_same k k s); [apply before | |].
    + intros c x' Hk (x & Hx & -> & (_ & _ & ? & ? & _))%drop_client. split; [done|]. by exists x.
    + intros t' tx' _ [_ Ht']%drop_tx. by exists tx'.
Qed.

End Drop.

End Board.
