(* ===== verification/Pool.v ===== *)
(** * The pool of descriptors

    What is left in the pool is not the descriptor of a transaction, and has no
    duplicates.  Every operation but [new_transaction] leaves the pool alone; that
    [new_transaction] keeps it sound is shown where it is called, since the numbers that
    are in use are found on the list of the transactions. *)

From Stdlib Require Import ZArith Lia.
From S2P Require Import Prelude Constants ByteOrder CString SearchTree Queue Memory TpMemory Keeps.
From S2P Require Import SbState SbObjects SbHandlers SbLemmas Transactions Invariant Frames Board.

Local Open Scope Z_scope.

Section Pool.
Context {T : Type} `{SearchTreeOps T Z} (dm : data_model).
Implicit Types (s : sb T).

(** What the pool may still give out. *)
Definition left_cds s : list Z := nonzero (drop (cdp s) (free_cd s)).

Record pool_sound s : Prop := {
  ps_array : length (free_cd s) = NUM_FREE_CD /\ (cdp s <= NUM_FREE_CD)%nat /\ cd_oob s = 0;
  ps_nodup : NoDup (left_cds s);
  ps_unused t tx : trans s !! t = Some tx -> cd tx ∉ left_cds s;
}.

Lemma pool_sound_kept s s' : pool_kept s s' -> pool_sound s -> pool_sound s'.
Proof.
  intros [(Ef & Ec & Eo) Ht] [Ha Hn Hu]. assert (left_cds s' = left_cds s) as El by (unfold left_cds; by rewrite Ef, Ec).
  split; [by rewrite Ef, Ec, Eo | by rewrite El |]. intros t tx' (tx & Htx & ->)%Ht. rewrite El. by apply (Hu t).
Qed.

Lemma pool_sound_ok s (ts : list Z) :
  pool_sound s -> (forall t, t ∈ ts -> is_Some (trans s !! t)) -> pool_ok s (live_cds s ts).
Proof.
  intros [(Hl & Hc & Ho) Hn Hu] Hts. split_and!; try done. intros v Hv (t & -> & Ht)%list_elem_of_fmap.
  destruct (Hts t Ht) as [tx Htx]. rewrite Htx in Hv. by apply (Hu t tx).
Qed.

Lemma pool_ok_sound s (ts : list Z) :
  pool_ok s (live_cds s ts) -> (forall t tx, trans s !! t = Some tx -> t ∈ ts \/ cd tx = 0) -> pool_sound s.
Proof.
  intros (Hl & Hc & Ho & Hn & Hu) Hts. split; [done | done |]. intros t tx Htx Hin. destruct (Hts t tx Htx) as [Ht|E].
  - apply (Hu _ Hin). apply list_elem_of_fmap. exists t. by rewrite Htx.
  - rewrite E in Hin. by apply list_elem_of_filter in Hin as [? _].
Qed.

Lemma wp_pool {A} (m : M (sb T) A) s Q :
  pool_sound s -> pres pool_kept m -> wp m s Q -> wp m s (fun a s' => Q a s' /\ pool_sound s').
Proof.
  intros Hp Hm Hw. specialize (Hm s). unfold wp in *. destruct (m s) as [[a s']|]; [|done].
  split; [done | by eapply pool_sound_kept].
Qed.

(** Links do not matter to the pool. *)
Lemma pool_in_q {A} (m : M links A) : pres pool_kept (in_q (T := T) m).
Proof. intros s. unfold in_q, zoom. destruct (m _) as [[]|]; [by apply pool_same | done]. Qed.
#[local] Hint Resolve pool_in_q : frame.

Lemma pool_del_client c : pres pool_kept (del_client dm c).
Proof. frames @del_client. Qed.
Lemma pool_accept_client i : pres pool_kept (accept_client dm i).
Proof. unfold accept_client, new_client. repeat frame_step. Qed.

(** The transactions are those on the list, and the static one. *)
Lemma trans_listed s qs (ts : list Z) :
  sb_wf dm s -> board dm 0 0 s qs -> qs !! Q_tptransactions = Some (Q_t_global <$> ts) ->
  forall t tx, trans s !! t = Some tx -> t ∈ ts \/ cd tx = 0.
Proof.
  intros Hwf B Hl t tx Htx. destruct (wf_trans _ _ Hwf t tx Htx) as (_ & [->|(Hp & _)] & _).
  - right. rewrite (bd_any _ _ _ _ _ B) in Htx. by injection Htx as <-.
  - left. destruct (bd_nodes _ _ (bd_listed _ _ _ _ _ B) (Q_t_global t)) as (h & l & Hh & Hin); [by split; [|eexists]|].
    pose proof (bd_lists _ _ (bd_listed _ _ _ _ _ B) _ _ _ Hh Hin) as Hf. destruct h; try done.
    rewrite Hl in Hh. injection Hh as <-. apply list_elem_of_fmap in Hin as (t' & [= ->] & ?). done.
Qed.

End Pool.
