(* ===== verification/BoardSteps.v ===== *)
(** * Elementary changes of a consistent switchboard

    The steps that the deleting operations consist of, each from one consistent
    state to the next: an advertisement leaves its client's tree and its wait queue,
    a service leaves the registry, a worker gives up its transaction, a client is
    told to send a command, a transaction moves from the requests to the replies, a
    client goes. *)

From Stdlib Require Import ZArith Lia.
From S2P Require Import Prelude Constants ByteOrder CString SearchTree Queue Memory TpMemory Keeps.
From S2P Require Import SbState SbObjects SbHandlers SbLemmas TxIo Xatmi Dispatch EventLoop Registry Messages Replies.
From S2P Require Import Transactions Calls Advertising Invariant Board.

Local Open Scope Z_scope.

Section Steps.
Context {T : Type} `{SearchTree T Z} (dm : data_model).
Implicit Types (s : sb T) (x : tpclient T) (tx : tptransaction) (qs : gmap qaddr (list qaddr)).

(** ** Parts that are kept *)

(** The structs that the lists refer to are the same. *)
Definition t_place tx : Z * Z := (t_client tx, t_svc tx).
Record same_structs s s' : Prop := {
  ss_clients c : is_Some (clients s' !! c) <-> is_Some (clients s !! c);
  ss_trans t : t_place <$> trans s' !! t = t_place <$> trans s !! t;
  ss_svcs : svcs s' = svcs s;
  ss_advs : advs s' = advs s;
}.

Lemma place_client s s' t : t_place <$> trans s' !! t = t_place <$> trans s !! t ->
  t_client <$> trans s' !! t = t_client <$> trans s !! t /\ t_svc <$> trans s' !! t = t_svc <$> trans s !! t /\
  (is_Some (trans s' !! t) <-> is_Some (trans s !! t)).
Proof.
  intros E. destruct (trans s' !! t), (trans s !! t); cbn in *; try done.
  unfold t_place in E. injection E as -> ->. done.
Qed.

Lemma fits_same s s' h n : same_structs s s' -> fits s h n -> fits s' h n.
Proof.
  intros [Hc Ht Es Ea]. destruct h, n; cbn; try done; rewrite ?Hc, ?Es, ?Ea; try done;
    match goal with |- context [trans s' !! ?t] => destruct (place_client s s' t (Ht t)) as (E1 & E2 & E3) end;
    rewrite ?E1, ?E2, ?E3; done.
Qed.

Lemma listed_same s s' qs : same_structs s s' -> listed s qs -> listed s' qs.
Proof.
  intros Hss [Hl Hh Hn Hsp]. pose proof Hss as [Hc Ht Es Ea].
  assert (forall t, is_Some (trans s' !! t) <-> is_Some (trans s !! t)) as Hts
    by (intros t; by destruct (place_client s s' t (Ht t)) as (_ & _ & ?)).
  constructor.
  - intros h l n Hq Hin. eapply fits_same; [done | by eapply Hl].
  - intros h Hh'. apply Hh. destruct h; cbn in *; rewrite ?Hc, ?Es in Hh'; done.
  - intros n Hn'. apply Hn. destruct n; cbn in *; rewrite ?Hc, ?Hts in Hn'; done.
  - intros n Hn'. apply Hsp. destruct n; cbn in *; rewrite ?Ea, ?Hts in Hn'; done.
Qed.

(** A node of which [fits] only says that it may be there is taken off its list. *)
Lemma listed_qremove s m qs a :
  qrep m qs -> qnode qs (Q_adv_waitq a) -> listed s qs -> listed s (qremove (Q_adv_waitq a) qs).
Proof.
  intros Hq Ha [Hl Hh Hn Hsp]. constructor.
  - intros h l' n. rewrite lookup_qremove. case_decide as E; [intros [= <-] Hin; by apply not_elem_of_nil in Hin|].
    intros (l & Hlk & ->)%fmap_Some [_ Hin]%list_elem_of_filter. by eapply Hl.
  - intros h Hh'. rewrite lookup_qremove. case_decide; [by eexists|]. by apply fmap_is_Some, Hh.
  - intros n Hn'. destruct (Hn n Hn') as (h & l & Hlk & Hin). pose proof (Hl h l n Hlk Hin) as Hf.
    assert (h <> Q_adv_waitq a) as Hha by (by intros ->).
    assert (n <> Q_adv_waitq a) as Hna by (by intros ->).
    exists h, (filter (fun y => y ≠ Q_adv_waitq a) l). rewrite lookup_qremove, decide_False, Hlk by done.
    split; [done | by apply list_elem_of_filter].
  - intros n Hn'. by apply (qnode_qremove m), Hsp.
Qed.

(** A tree whose advertisements, and their services, are the same. *)
Lemma adverts_reg_keep s s' x x' :
  adverts x' = adverts x ->
  (forall a ax, a ∈ twalk (adverts x) -> advs s !! a = Some ax ->
    advs s' !! a = Some ax /\ svcs s' !! a_svc ax = svcs s !! a_svc ax) ->
  adverts_reg s x -> adverts_reg s' x'.
Proof.
  intros Ex Hk [Hl Ho]. split; rewrite Ex.
  - intros a Hin. destruct (Hl a Hin) as (Ha & ax & Hax & Hs). destruct (Hk a ax Hin Hax) as [Ea Es].
    split; [done|]. exists ax. by rewrite Es.
  - eapply tordered_ext; [|exact Ho]. intros a Hin. destruct (Hl a Hin) as (Ha & ax & Hax & Hs).
    destruct (Hk a ax Hin Hax) as [Ea Es]. unfold akey, adv_name. rewrite Hax, Ea. cbn. by rewrite Es.
Qed.

(** The call that a client is sending is the same. *)
Lemma receiving_keep s s' qs qs' c x x' :
  input x' = input x ->
  (forall t tx, 0 < t -> trans s !! t = Some tx -> t_data tx = input x -> executor tx = 0 ->
    qs !! Q_t_svc_waitq t = Some [] -> is_Some (svcs s !! t_svc tx) ->
    trans s' !! t = Some tx /\ is_Some (svcs s' !! t_svc tx) /\ qs' !! Q_t_svc_waitq t = Some [] /\
    forall rl, qs !! Q_requests c = Some (rl ++ [Q_t_clientq t]) ->
      exists rl', qs' !! Q_requests c = Some (rl' ++ [Q_t_clientq t])) ->
  receiving s qs c x -> receiving s' qs' c x'.
Proof.
  intros Ei Hk (t & tx & rl & Hrl & Htx & Hp & Hd & He & Hq & Hs).
  destruct (Hk t tx Hp Htx Hd He Hq Hs) as (Htx' & Hs' & Hq' & Hl). destruct (Hl rl Hrl) as [rl' Hrl'].
  exists t, tx, rl'. by rewrite Ei.
Qed.

(** The message that arrives is the same. *)
Lemma io_keep s s' qs qs' c x x' :
  used x' = used x -> input x' = input x -> handler_fn x' = handler_fn x ->
  (forall len, handler_fn x <> None -> tpbuf dm (tp_heap (mem s)) (input x) len ->
    tpbuf dm (tp_heap (mem s')) (input x) len) ->
  (handler_fn x = Some H_send_to_worker -> receiving s qs c x -> receiving s' qs' c x') ->
  (handler_fn x = Some H_part2 -> works s c (wait4 x) -> t_data <$> trans s !! wait4 x = Some (input x) ->
    works s' c (wait4 x') /\ t_data <$> trans s' !! wait4 x' = Some (input x)) ->
  io_ok dm s qs c x -> io_ok dm s' qs' c x'.
Proof.
  intros Eu Ei Eh Hb Hr Hw Hio h Hh. rewrite Eh in Hh. destruct (Hio h Hh) as ((len & Hbuf & Hu & Hsz) & Hr0 & Hw0).
  rewrite Eu, Ei. split_and!.
  - exists len. split_and!; try done; try lia. apply Hb; [by rewrite Hh | done].
  - intros ->. auto.
  - intros ->. destruct (Hw0 eq_refl). auto.
Qed.

(** ** An advertisement leaves its client's tree *)

Section Untree.
Context (k : Z) (s s' : sb T) (qs : gmap qaddr (list qaddr)) (c a : Z) (x : tpclient T) (t' : T).
Hypothesis wf : sb_wf dm s.
Hypothesis before : board dm k 0 s qs.
Hypothesis there : clients s !! c = Some x.
Hypothesis out_of_tree : twalk (adverts x) ≡ₚ a :: twalk t' /\ tordered (akey s) t'.
Hypothesis new_clients : clients s' = <[c := set_adverts t' x]> (clients s).
Hypothesis same : mem s' = mem s /\ trans s' = trans s /\ svcs s' = svcs s /\ advs s' = advs s /\ services s' = services s.

Lemma untree_live : a <> 0 /\ a_client <$> advs s !! a = Some c /\ qnode qs (Q_adv_waitq a).
Proof.
  destruct (bd_clients _ _ _ _ _ before c x there) as ([Hl _] & Hown & _).
  assert (a ∈ twalk (adverts x)) as Hin by (rewrite (proj1 out_of_tree); by left).
  destruct (Hl a Hin) as (Ha & ax & Hax & _). split_and!; [done | by apply Hown |].
  apply (bd_spares _ _ (bd_listed _ _ _ _ _ before)). by exists ax.
Qed.

(** A client afterwards and before. *)
Lemma untree_back c1 x1 : clients s' !! c1 = Some x1 -> exists x0, clients s !! c1 = Some x0 /\
  (forall b, b ∈ twalk (adverts x1) -> b ∈ twalk (adverts x0) /\ b <> a) /\
  adverts_reg s' x1 /\ set_adverts (adverts x1) x0 = x1.
Proof.
  destruct untree_live as (_ & Hac & _), same as (_ & _ & Es & Ea & _), out_of_tree as [Hperm Ho'].
  destruct (bd_clients _ _ _ _ _ before c x there) as (Hreg & Hown & _).
  destruct (adverts_reg_delete s x a t' Hreg Ho' Hperm) as [Hreg' Hna].
  rewrite new_clients. intros [[<- <-]|[Hne Hx1]]%lookup_insert_Some.
  - exists x. split_and!; [done | | by eapply adverts_reg_same | done].
    intros b Hb. split; [rewrite Hperm; by right|]. intros ->. by apply (Hna a).
  - exists x1. destruct (bd_clients _ _ _ _ _ before c1 x1 Hx1) as (Hreg1 & Hown1 & _).
    split_and!; [done | | by eapply adverts_reg_same | by destruct x1].
    intros b Hb. split; [done|]. intros ->. pose proof (Hown1 a Hb) as E1. rewrite Hac in E1. congruence.
Qed.
Lemma untree_forth c1 x0 : clients s !! c1 = Some x0 -> exists x1, clients s' !! c1 = Some x1 /\
  (forall b, b <> a -> b ∈ twalk (adverts x0) -> b ∈ twalk (adverts x1)) /\ set_adverts (adverts x1) x0 = x1.
Proof.
  intros Hx0. rewrite new_clients. destruct (decide (c1 = c)) as [->|Hne].
  - rewrite lookup_insert_eq. rewrite there in Hx0. injection Hx0 as <-. eexists. split_and!; [done | | done].
    intros b Hb. rewrite (proj1 out_of_tree). by intros [->|?]%elem_of_cons.
  - rewrite lookup_insert_ne by done. exists x0. split_and!; [done | done | by destruct x0].
Qed.

Lemma untree_structs : same_structs s s'.
Proof.
  destruct same as (_ & Et & Es & Ea & _). constructor; [|by rewrite Et|done|done].
  intros c1. rewrite new_clients, lookup_insert_is_Some'. split; [|by right]. intros [<-|?]; [by eexists | done].
Qed.

Lemma untree_list (h : qaddr) l : h <> Q_adv_waitq a -> qs !! h = Some l ->
  qremove (Q_adv_waitq a) qs !! h = Some (filter (fun y => y ≠ Q_adv_waitq a) l).
Proof. intros Hh Hl. by rewrite lookup_qremove, decide_False, Hl by done. Qed.

Lemma untree_client_fits c1 x1 :
  clients s' !! c1 = Some x1 -> client_fits dm k s' (qremove (Q_adv_waitq a) qs) c1 x1.
Proof.
  intros Hx1. destruct (untree_back c1 x1 Hx1) as (x0 & Hx0 & Hsub & Hreg1 & Eset), same as (Em & Et & Es & Ea & _).
  destruct (bd_clients _ _ _ _ _ before c1 x0 Hx0) as (_ & Hown0 & Hwait0 & Hio0). split_and!; [done | | |].
  - intros b Hb. rewrite Ea. by apply Hown0, Hsub.
  - rewrite <- Eset. unfold wait_ok, works. rewrite Et, Ea. exact Hwait0.
  - intros Hk. eapply io_keep; [..|exact (Hio0 Hk)]; try rewrite <- Eset; try done.
    + by rewrite Em.
    + intros _. apply receiving_keep; [done|]. intros t tx Hp Htx _ _ Hq Hsv. rewrite Et, Es.
      split_and!; [done | done | by rewrite (untree_list _ []) |].
      intros rl Hrl. exists (filter (fun y => y ≠ Q_adv_waitq a) rl).
      rewrite (untree_list (Q_requests c1) _ ltac:(done) Hrl). by rewrite filter_app, filter_cons_True.
    + unfold works. by rewrite Et, Ea.
Qed.

Lemma untree_trans_fits t tx :
  trans s' !! t = Some tx -> 0 < t -> trans_fits dm s' (qremove (Q_adv_waitq a) qs) t tx.
Proof.
  destruct same as (Em & -> & _ & Ea & _). intros Htx Hp.
  destruct (bd_trans _ _ _ _ _ before t tx Htx Hp) as (Hc & Hb & He). split_and!.
  - by apply untree_structs.
  - by rewrite Em.
  - intros Hex. destruct (He Hex) as (ax & w & l & Hax & Hw & Hw4 & Hl & Hinl). rewrite Ea.
    destruct (untree_forth _ _ Hw) as (w' & Hw' & _ & Eset).
    exists ax, w', (filter (fun y => y ≠ Q_adv_waitq a) l). split_and!; try done.
    + by rewrite <- Eset.
    + by apply untree_list.
    + by apply list_elem_of_filter.
Qed.

Lemma board_untree : sane s' (qremove (Q_adv_waitq a) qs) -> board dm k a s' (qremove (Q_adv_waitq a) qs).
Proof.
  intros Hs'. destruct same as (Em & Et & Es & Ea & Eserv). constructor.
  - done.
  - rewrite Et. apply before.
  - apply (listed_same s); [apply untree_structs|].
    eapply listed_qremove; [apply (bd_sane _ _ _ _ _ before) | apply untree_live | apply before].
  - apply untree_client_fits.
  - apply untree_trans_fits.
  - intros b ax Hne Hax. rewrite Ea in Hax. pose proof (proj1 (wf_advs _ _ wf b ax Hax)).
    destruct (bd_advs _ _ _ _ _ before b ax) as (Hsv & x0 & Hx0 & Hb); [lia | done |].
    split; [by rewrite Es|]. destruct (untree_forth _ _ Hx0) as (x1 & Hx1 & Hsup & _). exists x1. auto.
  - intros _. split; [apply qremove_self|]. intros c1 x1 Hx1 Hin1.
    destruct (untree_back c1 x1 Hx1) as (x0 & _ & Hsub & _). by destruct (Hsub a Hin1).
  - destruct (bd_registry _ _ _ _ _ before) as [Hr Hall]. split; [by eapply registry_same|]. by rewrite Es, Eserv.
  - intros p l' b. rewrite lookup_qremove, decide_False by done.
    intros (l & Hl & ->)%fmap_Some [_ Hinl]%list_elem_of_filter.
    destruct (bd_waiting _ _ _ _ _ before p l b Hl Hinl) as (bx & w & Hbx & Hw & Hi & Hw4).
    destruct (untree_forth _ _ Hw) as (w' & Hw' & _ & Eset). exists bx, w'. rewrite Ea.
    split_and!; [done | done | by rewrite <- Eset..].
  - apply (apart_same k k s); [apply before | |].
    + intros c1 x1 Hk Hx1. split; [done|]. destruct (untree_back c1 x1 Hx1) as (x0 & Hx0 & _ & _ & Eset).
      exists x0. by rewrite <- Eset.
    + rewrite Et. eauto.
Qed.

End Untree.

(** ** A service leaves the registry *)

Section Unserve.
Context (k e : Z) (s s' : sb T) (qs : gmap qaddr (list qaddr)) (p : Z) (t' : T).
Hypothesis before : board dm k e s qs.
Hypothesis empty : qs !! Q_waitq p = Some [] /\ is_Some (svcs s !! p).
Hypothesis unused : forall a ax, a <> e -> advs s !! a = Some ax -> a_svc ax <> p.
Hypothesis not_called : forall c x t tx, c <> k -> clients s !! c = Some x -> handler_fn x <> None ->
  0 < t -> trans s !! t = Some tx -> t_data tx = input x -> t_svc tx <> p.
Hypothesis out_of_tree : tordered (key s) t' /\ twalk (services s) ≡ₚ p :: twalk t'.
Hypothesis new_services : services s' = t' /\ svcs s' = delete p (svcs s).
Hypothesis same : mem s' = mem s /\ trans s' = trans s /\ clients s' = clients s /\ advs s' = advs s.

Lemma unserve_list (h : qaddr) l : delete (Q_waitq p) qs !! h = Some l <-> h <> Q_waitq p /\ qs !! h = Some l.
Proof. rewrite lookup_delete_Some. naive_solver. Qed.

(** The list of a header that is still there. *)
Lemma unserve_on (n : qaddr) : qon qs n -> qon (delete (Q_waitq p) qs) n.
Proof.
  intros (h & l & Hl & Hin). exists h, l. split; [|done]. apply unserve_list. split; [|done].
  intros ->. destruct empty as [E _]. rewrite E in Hl. injection Hl as <-. by apply not_elem_of_nil in Hin.
Qed.

Lemma unserve_listed : listed s' (delete (Q_waitq p) qs).
Proof.
  destruct (bd_listed _ _ _ _ _ before) as [Hl Hh Hn Hsp], same as (_ & Et & Ec & Ea), new_services as [_ Es].
  constructor.
  - intros h l n [Hne Hq]%unserve_list Hin. pose proof (Hl h l n Hq Hin) as Hf.
    destruct h, n; cbn in *; rewrite ?Ec, ?Et, ?Ea, ?Es; try done; rewrite lookup_delete_ne by congruence; done.
  - intros h Hh'. assert (h <> Q_waitq p /\ head_live s h) as [Hne Hh0].
    { destruct h; cbn in *; rewrite ?Ec in Hh'; try done. rewrite Es in Hh'.
      apply lookup_delete_is_Some in Hh' as [? ?]. split; [congruence | done]. }
    destruct (Hh h Hh0) as [l Hlk]. exists l. by apply unserve_list.
  - intros n Hn'. apply unserve_on, Hn. destruct n; cbn in *; rewrite ?Ec, ?Et in Hn'; done.
  - intros n Hn'. assert (n <> Q_waitq p /\ spare_live s n) as [Hne Hs]
      by (destruct n; cbn in *; rewrite ?Ea, ?Et in Hn'; try done; auto).
    destruct (Hsp n Hs) as [Hq|Hq]; [left; by apply unserve_list | right; by apply unserve_on].
Qed.

Lemma unserve_client_fits c x : clients s' !! c = Some x -> client_fits dm k s' (delete (Q_waitq p) qs) c x.
Proof.
  destruct same as (Em & Et & -> & Ea), new_services as [_ Es]. intros Hx.
  destruct (bd_clients _ _ _ _ _ before c x Hx) as (Hreg & Hown & Hwait & Hio). split_and!.
  - eapply adverts_reg_keep; [done | | exact Hreg]. intros a ax Hin Hax. rewrite Ea. split; [done|].
    rewrite Es. apply lookup_delete_ne. intros E. apply (unused a ax); [|done|done]. intros ->.
    destruct (decide (e = 0)) as [->|He]; [by destruct (proj1 Hreg 0 Hin)|].
    destruct (bd_exempt _ _ _ _ _ before He) as [_ Hno]. by apply (Hno c x).
  - by rewrite Ea.
  - unfold wait_ok, works. by rewrite Et, Ea.
  - intros Hk. apply (io_keep s s' qs _ c x); [done | done | done | by rewrite Em | | unfold works; by rewrite Et, Ea | exact (Hio Hk)].
    intros Hh. apply receiving_keep; [done|]. intros t tx Hp Htx Hd _ Hq Hsv. rewrite Et, Es. split_and!; [done | | |].
    + rewrite lookup_delete_ne; [done|]. intros E. apply (not_called c x t tx); try done. by rewrite Hh.
    + by apply unserve_list.
    + intros rl Hrl. exists rl. by apply unserve_list.
Qed.

Lemma board_unserve : sane s' (delete (Q_waitq p) qs) -> board dm k e s' (delete (Q_waitq p) qs).
Proof.
  intros Hs'. destruct same as (Em & Et & Ec & Ea), new_services as [Et' Es]. constructor.
  - done.
  - rewrite Et. apply before.
  - apply unserve_listed.
  - apply unserve_client_fits.
  - intros t tx Htx Hp. rewrite Et in Htx. destruct (bd_trans _ _ _ _ _ before t tx Htx Hp) as (Hc & Hb & He).
    unfold trans_fits. rewrite Ec, Em, Ea. split_and!; [done | done |]. intros Hex.
    destruct (He Hex) as (ax & w & l & Hax & Hw & Hw4 & Hl & Hinl). exists ax, w, l. split_and!; try done.
    by apply unserve_list.
  - intros a ax Hne Hax. rewrite Ea in Hax. destruct (bd_advs _ _ _ _ _ before a ax Hne Hax) as (Hsv & Hin).
    split; [|by rewrite Ec]. rewrite Es, lookup_delete_ne; [done|]. intros E. by apply (unused a ax).
  - intros He. rewrite Ec. destruct (bd_exempt _ _ _ _ _ before He) as [Hq Hin]. split; [|done]. by apply unserve_list.
  - destruct (bd_registry _ _ _ _ _ before) as [Hr Hall], out_of_tree as [Ho Hperm].
    assert (p ∈ twalk (services s)) as Hp by (rewrite Hperm; by left).
    destruct (registry_delete s s' p t' Hr Hp Es Et' Ho Hperm) as [Hr' _]. split; [done|].
    rewrite Es, Et'. intros q [Hq Hsq]%lookup_delete_is_Some. specialize (Hall q Hsq). rewrite Hperm in Hall.
    by apply elem_of_cons in Hall as [->|?].
  - intros q l a [_ Hl]%unserve_list Hin. unfold waits. rewrite Ea, Ec. by apply (bd_waiting _ _ _ _ _ before q l a).
  - apply (apart_same k k s); [apply before | |].
    + intros c x Hk Hx. rewrite Ec in Hx. split; [done|]. by exists x.
    + rewrite Et. eauto.
Qed.

End Unserve.

(** ** An advertisement goes *)

Section Unadvertise.
Context (k e : Z) (s s' : sb T) (qs : gmap qaddr (list qaddr)).
Hypothesis wf : sb_wf dm s.
Hypothesis before : board dm k e s qs.
Hypothesis idle_advert : e <> 0 /\ forall t tx, trans s !! t = Some tx -> executor tx <> e.
Hypothesis new_advs : advs s' = delete e (advs s).
Hypothesis same : mem s' = mem s /\ trans s' = trans s /\ clients s' = clients s /\ svcs s' = svcs s /\ services s' = services s.

Lemma unadv_exempt : qs !! Q_adv_waitq e = Some [] /\ forall c x, clients s !! c = Some x -> e ∉ twalk (adverts x).
Proof. apply (bd_exempt _ _ _ _ _ before), idle_advert. Qed.

Lemma unadv_list (h : qaddr) l : delete (Q_adv_waitq e) qs !! h = Some l <-> h <> Q_adv_waitq e /\ qs !! h = Some l.
Proof. rewrite lookup_delete_Some. naive_solver. Qed.
Lemma unadv_on (n : qaddr) : qon qs n -> n <> Q_adv_waitq e /\ qon (delete (Q_adv_waitq e) qs) n.
Proof.
  intros (h & l & Hl & Hin). destruct unadv_exempt as [He _].
  pose proof (sn_queues _ _ (bd_sane _ _ _ _ _ before)) as Hq.
  assert (h <> Q_adv_waitq e) as Hh.
  { intros ->. rewrite He in Hl. injection Hl as <-. by apply not_elem_of_nil in Hin. }
  split; [|exists h, l; by rewrite unadv_list]. intros ->.
  apply (qrep_apart _ _ _ _ _ _ Hq Hl He Hh (Q_adv_waitq e)); [by right | by left].
Qed.

Lemma unadv_listed : listed s' (delete (Q_adv_waitq e) qs).
Proof.
  destruct (bd_listed _ _ _ _ _ before) as [Hl Hh Hn Hsp], same as (_ & Et & Ec & Es & _). constructor.
  - intros h l n [Hne Hq]%unadv_list Hin. pose proof (Hl h l n Hq Hin) as Hf.
    assert (n <> Q_adv_waitq e) as Hna by (apply unadv_on; by exists h, l).
    destruct h, n; cbn in *; rewrite ?Ec, ?Et, ?Es, ?new_advs; try done; rewrite lookup_delete_ne by congruence; done.
  - intros h Hh'. assert (h <> Q_adv_waitq e /\ head_live s h) as [Hne Hh0]
      by (destruct h; cbn in *; rewrite ?Ec, ?Es in Hh'; try done; auto).
    destruct (Hh h Hh0) as [l Hlk]. exists l. by apply unadv_list.
  - intros n Hn'. apply unadv_on, Hn. destruct n; cbn in *; rewrite ?Ec, ?Et in Hn'; done.
  - intros n Hn'. assert (n <> Q_adv_waitq e /\ spare_live s n) as [Hne Hs].
    { destruct n; cbn in *; rewrite ?Et in Hn'; try done; auto. rewrite new_advs in Hn'.
      apply lookup_delete_is_Some in Hn' as [? ?]. split; [congruence | done]. }
    destruct (Hsp n Hs) as [Hq|Hq]; [left; by apply unadv_list | right; by apply unadv_on].
Qed.

Lemma unadv_works c t : works s c t -> works s' c t.
Proof.
  intros (Hp & tx & ax & Htx & Hax & Hc). destruct same as (_ & Et & _). split; [done|].
  exists tx, ax. rewrite Et, new_advs, lookup_delete_ne; [done|]. intros E. by apply (proj2 idle_advert t tx Htx).
Qed.

Lemma unadv_client_fits c x : clients s' !! c = Some x -> client_fits dm k s' (delete (Q_adv_waitq e) qs) c x.
Proof.
  destruct same as (Em & Et & -> & Es & _). intros Hx.
  destruct (bd_clients _ _ _ _ _ before c x Hx) as (Hreg & Hown & Hwait & Hio).
  assert (forall a, a ∈ twalk (adverts x) -> advs s' !! a = advs s !! a) as Hkeep.
  { intros a Hin. rewrite new_advs. apply lookup_delete_ne. intros <-. by apply (proj2 unadv_exempt c x). }
  split_and!.
  - eapply adverts_reg_keep; [done | | exact Hreg]. intros a ax Hin Hax. by rewrite Hkeep, Es.
  - intros a Hin. rewrite Hkeep by done. by apply Hown.
  - destruct Hwait as [?|[?|?]]; [by left | right; left; by rewrite Et | right; right; by apply unadv_works].
  - intros Hk. apply (io_keep s s' qs _ c x); [done | done | done | by rewrite Em | | | exact (Hio Hk)].
    + intros Hh. apply receiving_keep; [done|]. intros t tx Hp Htx Hd _ Hq Hsv. rewrite Et, Es. split_and!; [done | done | |].
      * by apply unadv_list.
      * intros rl Hrl. exists rl. by apply unadv_list.
    + intros _ Hw Hd. rewrite Et. split; [by apply unadv_works | done].
Qed.

Lemma board_unadvertise : sane s' (delete (Q_adv_waitq e) qs) -> board dm k 0 s' (delete (Q_adv_waitq e) qs).
Proof.
  intros Hs'. destruct same as (Em & Et & Ec & Es & Eserv). constructor.
  - done.
  - rewrite Et. apply before.
  - apply unadv_listed.
  - apply unadv_client_fits.
  - intros t tx Htx Hp. rewrite Et in Htx. destruct (bd_trans _ _ _ _ _ before t tx Htx Hp) as (Hc & Hb & He).
    unfold trans_fits. rewrite Ec, Em, new_advs. split_and!; [done | done |]. intros Hex.
    destruct (He Hex) as (ax & w & l & Hax & Hw & Hw4 & Hl & Hinl). exists ax, w, l. split_and!; try done.
    + rewrite lookup_delete_ne; [done|]. intros E. by apply (proj2 idle_advert t tx Htx).
    + by apply unadv_list.
  - intros a ax _. rewrite new_advs. intros [Hne Hax]%lookup_delete_Some.
    destruct (bd_advs _ _ _ _ _ before a ax ltac:(auto) Hax) as (Hsv & Hin). split; [by rewrite Es | by rewrite Ec].
  - done.
  - destruct (bd_registry _ _ _ _ _ before) as [Hr Hall]. split; [by eapply registry_same|]. by rewrite Es, Eserv.
  - intros p l a [_ Hl]%unadv_list Hin. destruct (bd_waiting _ _ _ _ _ before p l a Hl Hin) as (ax & w & Hax & Hw).
    exists ax, w. rewrite new_advs, Ec, lookup_delete_ne; [done|]. intros <-.
    by apply (unadv_on (Q_adv_waitq e)); [exists (Q_waitq p), l|].
  - apply (apart_same k k s); [apply before | |].
    + intros c x Hk Hx. rewrite Ec in Hx. split; [done|]. by exists x.
    + rewrite Et. eauto.
Qed.

End Unadvertise.

(** ** A worker gives up its transaction *)

Section Unwork.
Context (k e : Z) (s s' : sb T) (qs : gmap qaddr (list qaddr)) (c t : Z) (x : tpclient T) (tx tx' : tptransaction).
Hypothesis before : board dm k e s qs.
Hypothesis there : clients s !! c = Some x /\ trans s !! t = Some tx /\ 0 < t.
Hypothesis executing : executor tx <> 0 /\ a_client <$> advs s !! executor tx = Some c.
(** It is not sending the data of its reply. *)
Hypothesis all_sent : c <> k -> handler_fn x <> Some H_part2.
Hypothesis given_up : t_place tx' = t_place tx /\ t_data tx' = t_data tx /\ executor tx' = 0.
Hypothesis new_structs : clients s' = <[c := set_wait4 0 x]> (clients s) /\ trans s' = <[t := tx']> (trans s).
Hypothesis same : mem s' = mem s /\ svcs s' = svcs s /\ advs s' = advs s /\ services s' = services s.

Lemma unwork_wait : wait4 x = t.
Proof.
  destruct there as (Hx & Htx & Hp), executing as [He (ax & Hax & Hc)%fmap_Some].
  destruct (bd_trans _ _ _ _ _ before t tx Htx Hp) as (_ & _ & Hex).
  destruct (Hex He) as (ax' & x' & l & Hax' & Hx' & Hw & _). rewrite Hax in Hax'. injection Hax' as <-.
  rewrite <- Hc, Hx in Hx'. by injection Hx' as <-.
Qed.

Lemma unwork_client c1 : clients s' !! c1 = if decide (c1 = c) then Some (set_wait4 0 x) else clients s !! c1.
Proof. rewrite (proj1 new_structs). case_decide as E; [subst; apply lookup_insert_eq | by apply lookup_insert_ne]. Qed.
Lemma unwork_trans t1 : trans s' !! t1 = if decide (t1 = t) then Some tx' else trans s !! t1.
Proof. rewrite (proj2 new_structs). case_decide as E; [subst; apply lookup_insert_eq | by apply lookup_insert_ne]. Qed.

Lemma unwork_structs : same_structs s s'.
Proof.
  destruct same as (_ & Es & Ea & _), there as (Hx & Htx & _). constructor; [| |done|done].
  - intros c1. rewrite unwork_client. case_decide as E; [subst c1; rewrite Hx; split; by eexists | done].
  - intros t1. rewrite unwork_trans. case_decide as E; [|done]. subst t1. rewrite Htx. cbn. f_equal. apply given_up.
Qed.

(** The other workers. *)
Lemma unwork_works c1 t1 : c1 <> c -> works s c1 t1 -> works s' c1 t1 /\ t1 <> t.
Proof.
  intros Hne (Hp & tx1 & ax & Htx1 & Hax & Hc). destruct same as (_ & _ & Ea & _), there as (_ & Htx & _).
  assert (t1 <> t) as Ht.
  { intros ->. rewrite Htx in Htx1. injection Htx1 as <-. destruct executing as [_ E]. rewrite Hax in E. cbn in E. congruence. }
  split; [|done]. split; [done|]. exists tx1, ax. by rewrite unwork_trans, decide_False, Ea.
Qed.

Lemma unwork_receiving c1 x1 x2 : input x2 = input x1 -> receiving s qs c1 x1 -> receiving s' qs c1 x2.
Proof.
  destruct same as (_ & Es & _), there as (_ & Htx & _). intros Ei. apply receiving_keep; [done|].
  intros t1 tx1 Hp1 Htx1 _ He1 Hq Hsv. rewrite unwork_trans, decide_False, Es; [eauto 10|]. intros ->.
  rewrite Htx in Htx1. injection Htx1 as <-. by destruct executing.
Qed.

Lemma unwork_client_fits c1 x1 : clients s' !! c1 = Some x1 -> client_fits dm k s' qs c1 x1.
Proof.
  destruct same as (Em & Es & Ea & _), there as (Hx & Htx & _). rewrite unwork_client. case_decide as E.
  - intros [= <-]. subst c1. destruct (bd_clients _ _ _ _ _ before c x Hx) as (Hreg & Hown & _ & Hio).
    split_and!; [by eapply adverts_reg_same | by rewrite Ea | by left |].
    intros Hk. apply (io_keep s s' qs _ c x); [done | done | done | by rewrite Em | | | exact (Hio Hk)].
    + intros _. by apply unwork_receiving.
    + intros Hh. by destruct (all_sent Hk).
  - intros Hx1. destruct (bd_clients _ _ _ _ _ before c1 x1 Hx1) as (Hreg & Hown & Hwait & Hio).
    split_and!; [by eapply adverts_reg_same | by rewrite Ea | |].
    + destruct Hwait as [?|[[Hi Hw]|Hw]]; [by left | right; left | right; right; by apply unwork_works].
      split; [done|]. destruct Hw as [?|Hw]; [by left | right].
      by destruct (place_client s s' (wait4 x1) (ss_trans _ _ unwork_structs _)) as (-> & _).
    + intros Hk. apply (io_keep s s' qs _ c1 x1); [done | done | done | by rewrite Em | | | exact (Hio Hk)].
      * intros _. by apply unwork_receiving.
      * intros _ Hw Hd. destruct (unwork_works _ _ E Hw) as [Hw' Ht]. by rewrite unwork_trans, decide_False.
Qed.

Lemma unwork_trans_fits t1 tx1 : trans s' !! t1 = Some tx1 -> 0 < t1 -> trans_fits dm s' qs t1 tx1.
Proof.
  destruct same as (Em & Es & Ea & _), there as (Hx & Htx & _), given_up as (Epl & Ed & Ee).
  intros Htx1 Hp. rewrite unwork_trans in Htx1. unfold trans_fits. rewrite (ss_clients _ _ unwork_structs), Em.
  case_decide as E.
  - injection Htx1 as <-. subst t1. destruct (bd_trans _ _ _ _ _ before t tx Htx Hp) as (Hc & Hb & _).
    injection Epl as -> _. rewrite Ed. split_and!; [done | done |]. by rewrite Ee.
  - destruct (bd_trans _ _ _ _ _ before t1 tx1 Htx1 Hp) as (Hc & Hb & He). split_and!; [done | done |].
    intros Hex. destruct (He Hex) as (ax & w & l & Hax & Hw & Hw4 & Hl & Hin). exists ax, w, l.
    rewrite Ea, unwork_client, decide_False; [done|]. intros Ec. rewrite Ec, Hx in Hw. injection Hw as <-.
    apply E. rewrite <- Hw4. apply unwork_wait.
Qed.

Lemma board_unwork : sane s' qs -> board dm k e s' qs.
Proof.
  intros Hs'. destruct same as (Em & Es & Ea & Eserv), there as (Hx & Htx & Hp). constructor.
  - done.
  - rewrite unwork_trans, decide_False by (unfold GLOBAL_ANY; lia). apply before.
  - apply (listed_same s); [apply unwork_structs | apply before].
  - apply unwork_client_fits.
  - apply unwork_trans_fits.
  - intros a ax Hne Hax. rewrite Ea in Hax. destruct (bd_advs _ _ _ _ _ before a ax Hne Hax) as (Hsv & x1 & Hx1 & Hin).
    split; [by rewrite Es|]. rewrite unwork_client. case_decide as E; [|by exists x1].
    rewrite E, Hx in Hx1. injection Hx1 as <-. by eexists.
  - intros He. destruct (bd_exempt _ _ _ _ _ before He) as [Hq Hno]. split; [done|]. intros c1 x1.
    rewrite unwork_client. case_decide; [intros [= <-]; by apply (Hno c x) | apply Hno].
  - destruct (bd_registry _ _ _ _ _ before) as [Hr Hall]. split; [by eapply registry_same|]. by rewrite Es, Eserv.
  - intros p l a Hl Hin. destruct (bd_waiting _ _ _ _ _ before p l a Hl Hin) as (ax & w & Hax & Hw & Hi & Hw4).
    exists ax, w. rewrite Ea, unwork_client, decide_False; [done|]. intros Ec. rewrite Ec, Hx in Hw. injection Hw as <-.
    rewrite unwork_wait in Hw4. lia.
  - apply (apart_same k k s); [apply before | |].
    + intros c1 x1 Hk. rewrite unwork_client. case_decide as E; [|eauto]. intros [= <-]. subst c1. split; [done|]. by exists x.
    + intros t1 tx1 _. rewrite unwork_trans. case_decide as E; [|eauto]. intros [= <-]. exists tx. rewrite E.
      split; [done|]. by destruct given_up as (_ & ? & _).
Qed.

End Unwork.

(** A new block is none of the old ones. *)
Lemma new_block s qs p len b :
  sane s qs -> tpbuf dm (tp_heap (mem s)) p len -> pblk b = brk (tp_heap (mem s)) -> pblk p <> pblk b.
Proof.
  intros Hs (_ & _ & b' & Hb' & _) ->. destruct (sn_heap _ _ Hs) as [_ Hbelow].
  assert (0 < pblk p < brk (tp_heap (mem s))) by eauto. lia.
Qed.

(** ** A client is expected to send a command, or the rest of one *)

Section Command.
Context (k e : Z) (s s' : sb T) (qs : gmap qaddr (list qaddr)) (c w : Z) (x : tpclient T) (b : ptr)
  (h : handler) (n : Z).
Hypothesis before : board dm k e s qs.
Hypothesis there : clients s !! c = Some x.
(** It executes [w], or nothing, and waits for no work. *)
Hypothesis work : w = 0 \/ works s c w.
Hypothesis only : forall t tx ax, 0 < t -> trans s !! t = Some tx -> executor tx <> 0 ->
  advs s !! executor tx = Some ax -> a_client ax = c -> t = w.
Hypothesis not_waiting : forall p l a ax, qs !! Q_waitq p = Some l -> Q_adv_waitq a ∈ l ->
  advs s !! a = Some ax -> a_client ax <> c.
Hypothesis new_clients : clients s' = <[c := set_io 0 b (Some h) (set_wait4 w x)]> (clients s).
Hypothesis asked : h <> H_send_to_worker /\ h <> H_part2 /\ size_ok h n /\ 0 < n.
Hypothesis buffer : tpbuf dm (tp_heap (mem s')) b n.
Hypothesis fresh : forall p len, tpbuf dm (tp_heap (mem s)) p len -> pblk p <> pblk b.
Hypothesis kept : forall p len, tpbuf dm (tp_heap (mem s)) p len -> tpbuf dm (tp_heap (mem s')) p len.
Hypothesis same : trans s' = trans s /\ svcs s' = svcs s /\ advs s' = advs s /\ services s' = services s.

Lemma command_client c1 :
  clients s' !! c1 = if decide (c1 = c) then Some (set_io 0 b (Some h) (set_wait4 w x)) else clients s !! c1.
Proof. rewrite new_clients. case_decide as E; [subst; apply lookup_insert_eq | by apply lookup_insert_ne]. Qed.
Lemma command_structs : same_structs s s'.
Proof.
  destruct same as (Et & Es & Ea & _). constructor; [|by rewrite Et|done|done].
  intros c1. rewrite command_client. case_decide as E; [subst c1; rewrite there; split; by eexists | done].
Qed.

Lemma command_client_fits c1 x1 : clients s' !! c1 = Some x1 -> client_fits dm k s' qs c1 x1.
Proof.
  destruct same as (Et & Es & Ea & _). rewrite command_client. case_decide as E.
  - intros [= <-]. subst c1. destruct (bd_clients _ _ _ _ _ before c x there) as (Hreg & Hown & _). split_and!.
    + by eapply adverts_reg_same.
    + by rewrite Ea.
    + destruct work as [->|Hw]; [by left | right; right]. unfold works in *. by rewrite Et, Ea.
    + destruct asked as (N1 & N2 & Hn & Hpos). intros _ h' [= <-]. split; [|done]. exists n. done.
  - intros Hx1. destruct (bd_clients _ _ _ _ _ before c1 x1 Hx1) as (Hreg & Hown & Hwait & Hio). split_and!.
    + by eapply adverts_reg_same.
    + by rewrite Ea.
    + unfold wait_ok, works. by rewrite Et, Ea.
    + intros Hk. apply (io_keep s s' qs _ c1 x1); [done | done | done | eauto | | | exact (Hio Hk)].
      * intros _. apply receiving_keep; [done|]. rewrite Et, Es. eauto 10.
      * unfold works. by rewrite Et, Ea.
Qed.

Lemma command_apart : apart k s'.
Proof.
  destruct (bd_apart _ _ _ _ _ before) as [Hd Hi Hii], same as (Et & _).
  assert (forall t tx, 0 < t -> trans s !! t = Some tx -> pblk (t_data tx) <> pblk b) as Hfresh.
  { intros t tx Hp Htx. destruct (bd_trans _ _ _ _ _ before t tx Htx Hp) as (_ & (len & Hb & _) & _).
    by eapply fresh. }
  assert (forall c1 x1, c1 <> k -> clients s !! c1 = Some x1 -> private x1 -> pblk (input x1) <> pblk b) as Hfresh'.
  { intros c1 x1 Hk Hx1 (h1 & Hh & _). destruct (bd_clients _ _ _ _ _ before c1 x1 Hx1) as (_ & _ & _ & Hio).
    destruct (Hio Hk h1 Hh) as ((len & Hb & _) & _). by eapply fresh. }
  constructor; rewrite ?Et; [done | |].
  - intros c1 x1 t tx Hk Hp Hx1 Hpr Htx. rewrite command_client in Hx1. case_decide.
    + injection Hx1 as <-. cbn. intros E. by apply (Hfresh t tx).
    + by apply (Hi c1 x1 t tx).
  - intros c1 x1 c2 x2 K1 K2 H1 H2 P1 P2 E. rewrite !command_client in H1, H2.
    destruct (decide (c1 = c)) as [->|], (decide (c2 = c)) as [->|]; [done | ..].
    + injection H1 as <-. exfalso. by apply (Hfresh' c2 x2).
    + injection H2 as <-. exfalso. by apply (Hfresh' c1 x1).
    + by apply (Hii c1 x1 c2 x2).
Qed.

Lemma board_command : sane s' qs -> board dm k e s' qs.
Proof.
  intros Hs'. destruct same as (Et & Es & Ea & Eserv). constructor.
  - done.
  - rewrite Et. apply before.
  - apply (listed_same s); [apply command_structs | apply before].
  - apply command_client_fits.
  - intros t tx Htx Hp. rewrite Et in Htx. destruct (bd_trans _ _ _ _ _ before t tx Htx Hp) as (Hc & (len & Hb & Hl) & He).
    split_and!; [by apply command_structs | by eauto |]. intros Hex.
    destruct (He Hex) as (ax & y & l & Hax & Hy & Hw4 & Hlk & Hin). rewrite Ea.
    exists ax. rewrite command_client. case_decide as E; [|eauto 10]. eexists _, l. split_and!; try done.
    cbn. symmetry. by apply (only t tx ax).
  - intros a ax Hne Hax. rewrite Ea in Hax. destruct (bd_advs _ _ _ _ _ before a ax Hne Hax) as (Hsv & x1 & Hx1 & Hin).
    split; [by rewrite Es|]. rewrite command_client. case_decide as E; [|by exists x1].
    rewrite E, there in Hx1. injection Hx1 as <-. by eexists.
  - intros He. destruct (bd_exempt _ _ _ _ _ before He) as [Hq Hno]. split; [done|]. intros c1 x1.
    rewrite command_client. case_decide; [intros [= <-]; by apply (Hno c x) | apply Hno].
  - destruct (bd_registry _ _ _ _ _ before) as [Hr Hall]. split; [by eapply registry_same|]. by rewrite Es, Eserv.
  - intros p l a Hl Hin. destruct (bd_waiting _ _ _ _ _ before p l a Hl Hin) as (ax & y & Hax & Hy).
    exists ax, y. rewrite Ea, command_client, decide_False; [done|]. by eapply not_waiting.
  - apply command_apart.
Qed.

End Command.

(** ** A client waits *)

Section Wait.
Context (s s' : sb T) (qs : gmap qaddr (list qaddr)) (c w : Z) (x : tpclient T).
Hypothesis before : board dm 0 0 s qs.
Hypothesis there : clients s !! c = Some x /\ idle x.
Hypothesis for_what : w = GLOBAL_ANY \/ 0 < w /\ t_client <$> trans s !! w = Some c.
Hypothesis workless : forall t tx ax, 0 < t -> trans s !! t = Some tx -> executor tx <> 0 ->
  advs s !! executor tx = Some ax -> a_client ax <> c.
Hypothesis not_waiting : forall p l a ax, qs !! Q_waitq p = Some l -> Q_adv_waitq a ∈ l ->
  advs s !! a = Some ax -> a_client ax <> c.
Hypothesis new_clients : clients s' = <[c := set_wait4 w x]> (clients s).
Hypothesis same : mem s' = mem s /\ trans s' = trans s /\ svcs s' = svcs s /\ advs s' = advs s /\ services s' = services s.

Lemma wait_client c1 : clients s' !! c1 = if decide (c1 = c) then Some (set_wait4 w x) else clients s !! c1.
Proof. rewrite new_clients. case_decide as E; [subst; apply lookup_insert_eq | by apply lookup_insert_ne]. Qed.

Lemma board_wait : sane s' qs -> board dm 0 0 s' qs.
Proof.
  destruct same as (Em & Et & Es & Ea & Eserv), there as [Hx Hi]. intros Hs'. constructor.
  - done.
  - rewrite Et. apply before.
  - apply (listed_same s); [|apply before]. constructor; [|by rewrite Et|done|done].
    intros c1. rewrite wait_client. case_decide as E; [subst c1; rewrite Hx; split; by eexists | done].
  - intros c1 x1. rewrite wait_client. case_decide as E.
    + intros [= <-]. subst c1. destruct (bd_clients _ _ _ _ _ before c x Hx) as (Hreg & Hown & _).
      split_and!; [by eapply adverts_reg_same | by rewrite Ea | |].
      * right. left. split; [done|]. by rewrite Et.
      * intros _ h Hh. cbn in Hh. destruct Hi as [E _]. congruence.
    + intros Hx1. destruct (bd_clients _ _ _ _ _ before c1 x1 Hx1) as (Hreg & Hown & Hwait & Hio).
      split_and!; [by eapply adverts_reg_same | by rewrite Ea | unfold wait_ok, works; by rewrite Et, Ea |].
      intros Hk. apply (io_keep s s' qs _ c1 x1); [done | done | done | by rewrite Em | | | exact (Hio Hk)].
      * intros _. apply receiving_keep; [done|]. rewrite Et, Es. eauto 10.
      * unfold works. by rewrite Et, Ea.
  - intros t tx Htx Hp. rewrite Et in Htx. destruct (bd_trans _ _ _ _ _ before t tx Htx Hp) as ([y Hy] & Hb & He). split_and!.
    + rewrite wait_client. case_decide; by eexists.
    + by rewrite Em.
    + intros Hex. destruct (He Hex) as (ax & y' & l & Hax & Hy' & Hw4 & Hl & Hin). exists ax, y', l.
      rewrite Ea, wait_client, decide_False; [done|]. by apply (workless t tx ax).
  - intros a ax Hne Hax. rewrite Ea in Hax. destruct (bd_advs _ _ _ _ _ before a ax Hne Hax) as (Hsv & y & Hy & Hin).
    split; [by rewrite Es|]. rewrite wait_client. case_decide as E; [|by exists y].
    rewrite E, Hx in Hy. injection Hy as <-. by eexists.
  - done.
  - destruct (bd_registry _ _ _ _ _ before) as [Hr Hall]. split; [by eapply registry_same|]. by rewrite Es, Eserv.
  - intros p l a Hl Hin. destruct (bd_waiting _ _ _ _ _ before p l a Hl Hin) as (ax & y & Hax & Hy).
    exists ax, y. rewrite Ea, wait_client, decide_False; [done|]. by eapply not_waiting.
  - apply (apart_same 0 0 s); [apply before | |].
    + intros c1 x1 Hk. rewrite wait_client. case_decide as E; [|eauto]. intros [= <-]. subst c1. split; [done|]. by exists x.
    + rewrite Et. eauto.
Qed.

End Wait.

(** ** A transaction moves from the requests of its client to the replies *)

Section Move.
Context (k e : Z) (s s' : sb T) (qs : gmap qaddr (list qaddr)) (t : Z) (tx : tptransaction) (l1 l2 rl : list qaddr).
Hypothesis before : board dm k e s qs.
Hypothesis there : trans s !! t = Some tx /\ 0 < t /\ executor tx = 0.
Hypothesis not_read : unread k s (t_data tx).
Hypothesis lists : qs !! Q_requests (t_client tx) = Some (l1 ++ Q_t_clientq t :: l2) /\
  qs !! Q_replies (t_client tx) = Some rl.
Hypothesis same : mem s' = mem s /\ clients s' = clients s /\ trans s' = trans s /\ svcs s' = svcs s /\
  advs s' = advs s /\ services s' = services s.

Notation qs' := (<[Q_replies (t_client tx) := rl ++ [Q_t_clientq t]]> (<[Q_requests (t_client tx) := l1 ++ l2]> qs)).

(** A list that has a node still has it, but for the one that moves. *)
Lemma move_list h l n : qs !! h = Some l -> n ∈ l ->
  exists h' l', qs' !! h' = Some l' /\ n ∈ l' /\ (n <> Q_t_clientq t -> h' = h).
Proof.
  destruct lists as [Hreq Hrep]. intros Hl Hin.
  destruct (decide (h = Q_replies (t_client tx))) as [->|N1].
  { rewrite Hrep in Hl. injection Hl as <-. eexists _, _. rewrite lookup_insert_eq. split_and!; [done | set_solver +Hin | done]. }
  destruct (decide (h = Q_requests (t_client tx))) as [->|N2].
  - rewrite Hreq in Hl. injection Hl as <-. destruct (decide (n = Q_t_clientq t)) as [->|Hn].
    + eexists _, _. rewrite lookup_insert_eq. split_and!; [done | set_solver | done].
    + eexists _, (l1 ++ l2). rewrite lookup_insert_ne, lookup_insert_eq by done. split_and!; [done | set_solver +Hin Hn | done].
  - exists h, l. rewrite !lookup_insert_ne by done. done.
Qed.
Lemma move_back h' l' n : qs' !! h' = Some l' -> n ∈ l' -> n = Q_t_clientq t /\ h' = Q_replies (t_client tx) \/
  exists l, qs !! h' = Some l /\ n ∈ l.
Proof.
  destruct lists as [Hreq Hrep]. intros [[<- <-]|[_ [[<- <-]|[_ Hl]]%lookup_insert_Some]]%lookup_insert_Some Hin; [| |eauto].
  - apply elem_of_app in Hin as [Hin| ->%list_elem_of_singleton]; [right; eauto | by left].
  - right. exists (l1 ++ Q_t_clientq t :: l2). split; [done | set_solver +Hin].
Qed.

Lemma move_listed : listed s qs'.
Proof.
  destruct (bd_listed _ _ _ _ _ before) as [Hl Hh Hn Hsp], there as (Htx & Hp & _).
  assert (forall n, qon qs n -> qon qs' n) as Hon.
  { intros n (h & l & Hq & Hin). destruct (move_list h l n Hq Hin) as (h' & l' & ? & ? & _). by exists h', l'. }
  constructor.
  - intros h l' n Hl' Hin. destruct (move_back h l' n Hl' Hin) as [[-> ->]|(l & Hq & Hin')]; [|by eapply Hl].
    cbn. by rewrite Htx.
  - intros h Hh'. rewrite !lookup_insert_is_Some'. auto.
  - auto.
  - intros n Hn'. destruct (Hsp n Hn') as [Hq|Hq]; [left | right; by apply Hon].
    rewrite !lookup_insert_ne; [done | by destruct n..].
Qed.

Lemma move_receiving c x : c <> k -> clients s !! c = Some x -> handler_fn x <> None ->
  receiving s qs c x -> receiving s qs' c x.
Proof.
  destruct there as (Htx & Hp & _), lists as [Hreq Hrep]. intros Hk Hx Hh. apply receiving_keep; [done|].
  intros t1 tx1 Hp1 Htx1 Hd1 He1 Hq1 Hsv1.
  assert (t1 <> t) as Hne by (intros ->; apply (not_read c x Hk Hx Hh); congruence).
  split_and!; [done | done | by rewrite !lookup_insert_ne |]. intros rl1 Hrl1.
  destruct (decide (c = t_client tx)) as [->|Hc]; [|exists rl1; by rewrite !lookup_insert_ne by congruence].
  rewrite lookup_insert_ne, lookup_insert_eq by done. rewrite Hreq in Hrl1. injection Hrl1 as Hrl1.
  destruct l2 as [|n l2' _] using rev_ind.
  - apply app_inj_tail in Hrl1 as [_ [= E]]. congruence.
  - rewrite app_comm_cons, app_assoc in Hrl1. apply app_inj_tail in Hrl1 as [_ ->].
    exists (l1 ++ l2'). by rewrite app_assoc.
Qed.

Lemma board_move : sane s' qs' -> board dm k e s' qs'.
Proof.
  intros Hs'. destruct same as (Em & Ec & Et & Es & Ea & Eserv), there as (Htx & Hp & He0), lists as [Hreq Hrep]. constructor.
  - done.
  - rewrite Et. apply before.
  - apply (listed_same s); [|apply move_listed]. constructor; rewrite ?Ec, ?Et; done.
  - intros c x Hx. rewrite Ec in Hx. destruct (bd_clients _ _ _ _ _ before c x Hx) as (Hreg & Hown & Hwait & Hio). split_and!.
    + by eapply adverts_reg_same.
    + by rewrite Ea.
    + unfold wait_ok, works. by rewrite Et, Ea.
    + intros Hk. apply (io_keep s s' qs _ c x); [done | done | done | by rewrite Em | | | exact (Hio Hk)].
      * intros Hh Hr. unfold receiving. rewrite Et, Es. apply move_receiving; [done | done | by rewrite Hh | done].
      * unfold works. by rewrite Et, Ea.
  - intros t1 tx1 Htx1 Hp1. rewrite Et in Htx1. destruct (bd_trans _ _ _ _ _ before t1 tx1 Htx1 Hp1) as (Hc & Hb & He).
    unfold trans_fits. rewrite Ec, Em, Ea. split_and!; [done | done |]. intros Hex.
    destruct (He Hex) as (ax & y & l & Hax & Hy & Hw4 & Hlk & Hin).
    destruct (move_list _ l _ Hlk Hin) as (h' & l' & Hl' & Hin' & Eh). exists ax, y, l'. split_and!; try done.
    rewrite <- Hl'. f_equal. symmetry. apply Eh. intros [= ->]. congruence.
  - intros a ax Hne Hax. rewrite Ea in Hax. unfold adv_fits. rewrite Es, Ec. by apply (bd_advs _ _ _ _ _ before).
  - intros He. rewrite Ec. destruct (bd_exempt _ _ _ _ _ before He) as [Hq Hno]. split; [|done]. by rewrite !lookup_insert_ne.
  - destruct (bd_registry _ _ _ _ _ before) as [Hr Hall]. split; [by eapply registry_same|]. by rewrite Es, Eserv.
  - intros p l a. rewrite !lookup_insert_ne by done. unfold waits. rewrite Ea, Ec. apply (bd_waiting _ _ _ _ _ before).
  - apply (apart_same k k s); [apply before | |]; rewrite ?Ec, ?Et; eauto.
Qed.

End Move.

(** ** Buffers that nobody uses *)

(** The buffer belongs to no transaction and to no client. *)
Definition unowned s (buf : ptr) : Prop :=
  (forall t tx, 0 < t -> trans s !! t = Some tx -> pblk (t_data tx) <> pblk buf) /\
  (forall c x, clients s !! c = Some x -> private x -> pblk (input x) <> pblk buf).

(** Memory may change elsewhere. *)
Lemma board_mem e s s' qs (b : Z) :
  board dm 0 e s qs ->
  (forall c, is_Some (clients s !! c) -> c <> 0) ->
  (forall t tx, 0 < t -> trans s !! t = Some tx -> pblk (t_data tx) <> b) ->
  (forall c x, clients s !! c = Some x -> private x -> pblk (input x) <> b) ->
  (forall p len, pblk p <> b -> tpbuf dm (tp_heap (mem s)) p len -> tpbuf dm (tp_heap (mem s')) p len) ->
  clients s' = clients s -> trans s' = trans s -> svcs s' = svcs s -> advs s' = advs s -> services s' = services s ->
  sane s' qs -> board dm 0 e s' qs.
Proof.
  intros B Hc0 Hu Hu' Hk Ec Et Es Ea Eserv Hs'. constructor.
  - done.
  - rewrite Et. apply B.
  - apply (listed_same s); [|apply B]. constructor; rewrite ?Ec, ?Et; done.
  - intros c x Hx. rewrite Ec in Hx. destruct (bd_clients _ _ _ _ _ B c x Hx) as (Hreg & Hown & Hwait & Hio). split_and!.
    + by eapply adverts_reg_same.
    + by rewrite Ea.
    + unfold wait_ok, works. by rewrite Et, Ea.
    + intros H0c. apply (io_keep s s' qs _ c x); [done | done | done | | | | exact (Hio H0c)].
      * intros len Hh. apply Hk. destruct (handler_fn x) as [h|] eqn:Eh; [|done].
        destruct (Hio H0c h Eh) as (_ & Hr & Hp2). destruct (decide (h = H_send_to_worker)) as [->|N1].
        { destruct (Hr eq_refl) as (t & tx & rl & _ & Htx & Hp & <- & _). by apply (Hu t). }
        destruct (decide (h = H_part2)) as [->|N2]; [|apply (Hu' c x Hx); by exists h].
        destruct (Hp2 eq_refl) as [(Hp & _) (tx & Htx & ->)%fmap_Some]. by apply (Hu (wait4 x)).
      * intros _. apply receiving_keep; [done|]. rewrite Et, Es. eauto 10.
      * unfold works. by rewrite Et, Ea.
  - intros t tx Htx Hp. rewrite Et in Htx. destruct (bd_trans _ _ _ _ _ B t tx Htx Hp) as (Hc & (len & Hb & Hl) & He).
    unfold trans_fits. rewrite Ec, Ea. split_and!; [done | | done]. exists len. split; [|done].
    apply Hk; [by apply (Hu t) | done].
  - unfold adv_fits. rewrite Ea, Es, Ec. apply B.
  - rewrite Ec. apply B.
  - destruct (bd_registry _ _ _ _ _ B) as [Hr Hall]. split; [by eapply registry_same|]. by rewrite Es, Eserv.
  - unfold waits. rewrite Ea, Ec. apply B.
  - apply (apart_same 0 0 s); [apply B | |]; rewrite ?Ec, ?Et; eauto.
Qed.

(** ** A client goes *)

(** Less is said when a client is being deleted. *)
Lemma board_deleting k e s qs : board dm 0 e s qs -> (forall c, is_Some (clients s !! c) -> c <> 0) -> board dm k e s qs.
Proof.
  intros B Hc0. constructor; try apply B.
  - intros c x Hx. destruct (bd_clients _ _ _ _ _ B c x Hx) as (? & ? & ? & Hio). split_and!; try done.
    intros _. apply Hio, Hc0. eauto.
  - apply (apart_same 0 k s); [apply B | | eauto]. intros c x Hk Hx. split; [apply Hc0; eauto | eauto].
Qed.

Section Gone.
Context (s s' : sb T) (qs : gmap qaddr (list qaddr)) (c : Z) (x : tpclient T).
Hypothesis before : board dm c 0 s qs.
Hypothesis wf : sb_wf dm s.
Hypothesis there : clients s !! c = Some x.
Hypothesis empty : qs !! Q_requests c = Some [] /\ qs !! Q_replies c = Some [] /\ twalk (adverts x) = [].
Hypothesis new_clients : clients s' = delete c (clients s).
Hypothesis same : mem s' = mem s /\ trans s' = trans s /\ svcs s' = svcs s /\ advs s' = advs s /\ services s' = services s.

Notation qs' := (delete (Q_replies c) (delete (Q_requests c) (delete (Q_global c) (qremove (Q_global c) qs)))).

Lemma gone_advert a ax : advs s !! a = Some ax -> a_client ax <> c.
Proof.
  intros Hax Hc. pose proof (proj1 (wf_advs _ _ wf a ax Hax)).
  destruct (bd_advs _ _ _ _ _ before a ax ltac:(lia) Hax) as (_ & x1 & Hx1 & Hin).
  rewrite Hc, there in Hx1. injection Hx1 as <-. rewrite (proj2 (proj2 empty)) in Hin. by apply not_elem_of_nil in Hin.
Qed.
Lemma gone_trans t tx : trans s !! t = Some tx -> 0 < t -> t_client tx <> c.
Proof.
  intros Htx Hp Hc. destruct (bd_nodes _ _ (bd_listed _ _ _ _ _ before) (Q_t_clientq t)) as (h & l & Hl & Hin); [by split; eauto|].
  pose proof (bd_lists _ _ (bd_listed _ _ _ _ _ before) h l _ Hl Hin) as Hf. destruct empty as (E1 & E2 & _).
  destruct h as [| | | |c1|c1| | | | |]; try done; destruct Hf as [_ Hf]; rewrite Htx in Hf; injection Hf as Hf;
    rewrite <- Hf, Hc in Hl; [rewrite E1 in Hl | rewrite E2 in Hl]; injection Hl as <-; by apply not_elem_of_nil in Hin.
Qed.

(** The lists of the client are gone, and its link. *)
Definition c_link (n : qaddr) : Prop := n = Q_global c \/ n = Q_requests c \/ n = Q_replies c.
Lemma gone_list (h : qaddr) l' : qs' !! h = Some l' <->
  ~ c_link h /\ exists l, qs !! h = Some l /\ l' = filter (fun n => n ≠ Q_global c) l.
Proof.
  rewrite !lookup_delete_Some, lookup_qremove. unfold c_link. split.
  - intros (N1 & N2 & N3 & E). rewrite decide_False in E by done. apply fmap_Some in E as (l & ? & ?). naive_solver.
  - intros (Hn & l & Hl & ->). rewrite decide_False, Hl by naive_solver. naive_solver.
Qed.
Lemma gone_on (n : qaddr) : ~ c_link n -> qon qs n -> qon qs' n.
Proof.
  intros Hn (h & l & Hl & Hin). exists h, (filter (fun n => n ≠ Q_global c) l). rewrite gone_list. split.
  - split; [|by exists l]. pose proof (bd_lists _ _ (bd_listed _ _ _ _ _ before) h l _ Hl Hin) as Hf.
    destruct empty as (E1 & E2 & _). intros [->|[->| ->]]; [done | rewrite E1 in Hl | rewrite E2 in Hl];
      injection Hl as <-; by apply not_elem_of_nil in Hin.
  - apply list_elem_of_filter. split; [|done]. intros ->. apply Hn. by left.
Qed.

Lemma gone_live c1 : is_Some (clients s' !! c1) <-> c1 <> c /\ is_Some (clients s !! c1).
Proof. rewrite new_clients, lookup_delete_is_Some. naive_solver. Qed.

Lemma gone_listed : listed s' qs'.
Proof.
  destruct (bd_listed _ _ _ _ _ before) as [Hl Hh Hn Hsp], same as (_ & Et & Es & Ea & _). constructor.
  - intros h l' n (Hc & l & Hlk & ->)%gone_list [Hne Hin]%list_elem_of_filter. pose proof (Hl h l n Hlk Hin) as Hf.
    destruct h, n; cbn in *; rewrite ?gone_live, ?Et, ?Es, ?Ea; try done. split; [congruence | done].
  - intros h Hh'. assert (~ c_link h /\ head_live s h) as [Hne Hh0].
    { destruct h; cbn in *; rewrite ?gone_live, ?Es in Hh'; unfold c_link; naive_solver. }
    destruct (Hh h Hh0) as [l Hlk]. eexists. apply gone_list. by eauto.
  - intros n Hn'. assert (~ c_link n /\ node_live s n) as [Hne Hn0].
    { destruct n; cbn in *; rewrite ?gone_live, ?Et in Hn'; unfold c_link; naive_solver. }
    by apply gone_on, Hn.
  - intros n Hn'. assert (~ c_link n /\ spare_live s n) as [Hne Hn0].
    { destruct n; cbn in *; rewrite ?Ea, ?Et in Hn'; unfold c_link; naive_solver. }
    destruct (Hsp n Hn0) as [Hq|Hq]; [left | right; by apply gone_on]. apply gone_list. split; [done|]. by exists [].
Qed.

Lemma gone_client c1 x1 : clients s' !! c1 = Some x1 -> c1 <> c /\ clients s !! c1 = Some x1.
Proof. rewrite new_clients, lookup_delete_Some. naive_solver. Qed.

Lemma gone_client_fits c1 x1 : clients s' !! c1 = Some x1 -> client_fits dm 0 s' qs' c1 x1.
Proof.
  intros [Hne Hx1]%gone_client. destruct same as (Em & Et & Es & Ea & _).
  destruct (bd_clients _ _ _ _ _ before c1 x1 Hx1) as (Hreg & Hown & Hwait & Hio). split_and!.
  - by eapply adverts_reg_same.
  - by rewrite Ea.
  - unfold wait_ok, works. by rewrite Et, Ea.
  - intros _. apply (io_keep s s' qs _ c1 x1); [done | done | done | by rewrite Em | | | exact (Hio Hne)].
    + intros _. apply receiving_keep; [done|]. intros t tx Hp Htx Hd He Hq Hsv. rewrite Et, Es. split_and!; [done | done | |].
      * apply gone_list. split; [unfold c_link; naive_solver|]. by exists [].
      * intros rl Hrl. exists (filter (fun n => n ≠ Q_global c) rl). apply gone_list.
        split; [unfold c_link; naive_solver|]. eexists. split; [done|]. by rewrite filter_app, filter_cons_True.
    + unfold works. by rewrite Et, Ea.
Qed.

Lemma board_gone : sane s' qs' -> board dm 0 0 s' qs'.
Proof.
  intros Hs'. destruct same as (Em & Et & Es & Ea & Eserv). constructor.
  - done.
  - rewrite Et. apply before.
  - apply gone_listed.
  - apply gone_client_fits.
  - intros t tx Htx Hp. rewrite Et in Htx. pose proof (gone_trans t tx Htx Hp) as Hc'.
    destruct (bd_trans _ _ _ _ _ before t tx Htx Hp) as (Hc & Hb & He). split_and!; [by apply gone_live | by rewrite Em |].
    intros Hex. destruct (He Hex) as (ax & y & l & Hax & Hy & Hw4 & Hl & Hin). rewrite Ea.
    exists ax, y, (filter (fun n => n ≠ Q_global c) l). split_and!; try done.
    + rewrite new_clients, lookup_delete_ne; [done|]. intros E. by apply (gone_advert _ _ Hax).
    + apply gone_list. split; [unfold c_link; naive_solver|]. by exists l.
    + by apply list_elem_of_filter.
  - intros a ax Hne Hax. rewrite Ea in Hax. destruct (bd_advs _ _ _ _ _ before a ax Hne Hax) as (Hsv & x1 & Hx1 & Hin).
    split; [by rewrite Es|]. exists x1. rewrite new_clients, lookup_delete_ne; [done|].
    intros E. by apply (gone_advert _ _ Hax).
  - done.
  - destruct (bd_registry _ _ _ _ _ before) as [Hr Hall]. split; [by eapply registry_same|]. by rewrite Es, Eserv.
  - intros p l' a (_ & l & Hl & ->)%gone_list [_ Hin]%list_elem_of_filter.
    destruct (bd_waiting _ _ _ _ _ before p l a Hl Hin) as (ax & y & Hax & Hy).
    exists ax, y. rewrite Ea, new_clients, lookup_delete_ne; [done|]. intros E. by apply (gone_advert _ _ Hax).
  - apply (apart_same c 0 s); [apply before | |].
    + intros c1 x1 _ [Hne Hx1]%gone_client. split; [done | by exists x1].
    + rewrite Et. eauto.
Qed.

End Gone.

End Steps.
