(* ===== verification/BoardGrowth.v ===== *)
(** * Changes that the handlers make to a consistent switchboard

    The steps that the message handlers consist of, each from one consistent state to
    the next: a worker leaves the wait queues, a worker is given a transaction, a worker
    or a transaction is put on a wait queue, a transaction gets other data, the data of
    a call or of a reply is awaited, a transaction, an advertisement, a service or a
    client is new. *)

From Stdlib Require Import ZArith Lia.
From S2P Require Import Prelude Constants ByteOrder CString SearchTree Queue Memory TpMemory Keeps.
From S2P Require Import SbState SbObjects SbHandlers SbLemmas TxIo Xatmi Dispatch EventLoop Registry Messages Replies.
From S2P Require Import Transactions Calls Advertising Invariant Board BoardSteps.

Local Open Scope Z_scope.

Section Growth.
Context {T : Type} `{SearchTree T Z} (dm : data_model).
Implicit Types (s : sb T) (x : tpclient T) (tx : tptransaction) (qs : gmap qaddr (list qaddr)).

(** ** What a change has to show *)

(** The lists and the trees are the same. *)
Lemma board_change k e s s' qs :
  board dm k e s qs -> sane s' qs -> same_structs s s' -> services s' = services s ->
  trans s' !! GLOBAL_ANY = trans s !! GLOBAL_ANY ->
  (forall c x', clients s' !! c = Some x' -> exists x, clients s !! c = Some x /\ adverts x' = adverts x) ->
  (forall c x', clients s' !! c = Some x' -> wait_ok s' c x' /\ (c <> k -> io_ok dm s' qs c x')) ->
  (forall t tx', trans s' !! t = Some tx' -> 0 < t -> trans_fits dm s' qs t tx') ->
  (forall p l a, qs !! Q_waitq p = Some l -> Q_adv_waitq a ∈ l -> waits s' a) ->
  apart k s' -> board dm k e s' qs.
Proof.
  intros B Hs' Hss Eserv Eany Hcl Hck Htk Hwk Hap. pose proof Hss as [Hc Ht Es Ea]. constructor; try done.
  - rewrite Eany. apply B.
  - apply (listed_same s); [done | apply B].
  - intros c x' Hx'. destruct (Hcl c x' Hx') as (x & Hx & Ex). destruct (Hck c x' Hx') as [Hw Hio].
    destruct (bd_clients _ _ _ _ _ B c x Hx) as (Hreg & Hown & _).
    split_and!; [by eapply adverts_reg_same | by rewrite Ex, Ea | done | done].
  - intros a ax Hne Hax. rewrite Ea in Hax. destruct (bd_advs _ _ _ _ _ B a ax Hne Hax) as (Hsv & x & Hx & Hin).
    split; [by rewrite Es|]. destruct (proj2 (Hc (a_client ax))) as [x' Hx']; [by exists x|].
    destruct (Hcl _ x' Hx') as (x0 & Hx0 & Ex). exists x'. split; [done|]. rewrite Ex. congruence.
  - intros He. destruct (bd_exempt _ _ _ _ _ B He) as [Hq Hno]. split; [done|]. intros c x' Hx'.
    destruct (Hcl c x' Hx') as (x & Hx & ->). by apply (Hno c x).
  - destruct (bd_registry _ _ _ _ _ B) as [Hr Hall]. split; [by eapply registry_same|]. by rewrite Es, Eserv.
Qed.

(** The structs are the same. *)
Lemma board_relist k e s s' qs qs' :
  board dm k e s qs -> sane s' qs' -> listed s' qs' ->
  mem s' = mem s -> clients s' = clients s -> trans s' = trans s -> advs s' = advs s -> services s' = services s ->
  (forall p, svcname <$> svcs s' !! p = svcname <$> svcs s !! p) ->
  (forall c, qs' !! Q_requests c = qs !! Q_requests c) ->
  (forall c x t tx, c <> k -> clients s !! c = Some x -> handler_fn x <> None -> trans s !! t = Some tx ->
    t_data tx = input x -> qs !! Q_t_svc_waitq t = Some [] -> qs' !! Q_t_svc_waitq t = Some []) ->
  (forall p l a, qs' !! Q_waitq p = Some l -> Q_adv_waitq a ∈ l -> waits s a) ->
  (e <> 0 -> qs' !! Q_adv_waitq e = Some []) -> board dm k e s' qs'.
Proof.
  intros B Hs' Hl' Em Ec Et Ea Eserv Hnm Hreq Hsp Hwk Hex.
  assert (forall p, is_Some (svcs s' !! p) <-> is_Some (svcs s !! p)) as Hsv.
  { intros p. rewrite <- !(fmap_is_Some svcname). by rewrite Hnm. }
  constructor; try done.
  - rewrite Et. apply B.
  - intros c x Hx. rewrite Ec in Hx. destruct (bd_clients _ _ _ _ _ B c x Hx) as ([Hlv Ho] & Hown & Hwait & Hio). split_and!.
    + split.
      * intros a Hin. destruct (Hlv a Hin) as (Ha & ax & Hax & Hs). split; [done|]. exists ax. by rewrite Ea, Hsv.
      * eapply tordered_ext; [|exact Ho]. intros a _. unfold akey, adv_name. rewrite Ea.
        destruct (advs s !! a); [|done]. cbn. by rewrite Hnm.
    + by rewrite Ea.
    + unfold wait_ok, works. by rewrite Et, Ea.
    + intros Hk. apply (io_keep dm s s' qs _ c x); [done | done | done | by rewrite Em | | | exact (Hio Hk)].
      * intros Hh. apply receiving_keep; [done|]. intros t tx Hp Htx Hd He Hq Hsvc. rewrite Et, Hsv, Hreq.
        split_and!; [done | done | | eauto]. apply (Hsp c x t tx); try done. by rewrite Hh.
      * unfold works. by rewrite Et, Ea.
  - intros t tx Htx Hp. rewrite Et in Htx. unfold trans_fits. rewrite Ec, Em, Ea, Hreq. by apply (bd_trans _ _ _ _ _ B).
  - intros a ax Hne Hax. rewrite Ea in Hax. unfold adv_fits. rewrite Hsv, Ec. by apply (bd_advs _ _ _ _ _ B).
  - intros He. rewrite Ec. split; [by apply Hex | by apply (bd_exempt _ _ _ _ _ B He)].
  - destruct (bd_registry _ _ _ _ _ B) as [[Hlv Ho] Hall]. rewrite Eserv. split; [split; rewrite Eserv|].
    + intros p. rewrite Hsv. apply Hlv.
    + eapply tordered_ext; [|exact Ho]. intros p _. unfold key, svc_name. by rewrite Hnm.
    + intros p. rewrite Hsv. apply Hall.
  - intros p l a Hl Hin. unfold waits. rewrite Ea, Ec. by apply (Hwk p l a).
  - apply (apart_same k k s); [apply B | |]; rewrite ?Ec, ?Et; eauto.
Qed.

(** ** A worker leaves a wait queue *)

Lemma board_unwait k e s s' qs a :
  board dm k e s qs -> is_Some (advs s !! a) ->
  mem s' = mem s -> clients s' = clients s -> trans s' = trans s -> svcs s' = svcs s -> advs s' = advs s ->
  services s' = services s -> sane s' (qremove (Q_adv_waitq a) qs) -> board dm k e s' (qremove (Q_adv_waitq a) qs).
Proof.
  intros B Ha Em Ec Et Es Ea Eserv Hs'. pose proof (sn_queues _ _ (bd_sane _ _ _ _ _ B)) as Hq.
  pose proof (bd_spares _ _ (bd_listed _ _ _ _ _ B) (Q_adv_waitq a) Ha) as Hn.
  assert (forall (h : qaddr) l, h <> Q_adv_waitq a -> qs !! h = Some l -> Q_adv_waitq a ∉ l ->
    qremove (Q_adv_waitq a) qs !! h = Some l) as Hkeep.
  { intros h l Hne Hl Hnot. rewrite lookup_qremove, decide_False, Hl by done. cbn. f_equal.
    by apply filter_id. }
  apply (board_relist k e s s' qs); try done.
  - apply (listed_same s); [constructor; rewrite ?Ec, ?Et; done|]. by eapply listed_qremove; [| |apply B].
  - by rewrite Es.
  - intros c. destruct (qs !! Q_requests c) as [l|] eqn:El.
    + apply Hkeep; [done | done |]. intros Hin. by apply (bd_lists _ _ (bd_listed _ _ _ _ _ B) _ _ _ El) in Hin.
    + rewrite lookup_qremove, decide_False, El by done. done.
  - intros c x t tx _ _ _ _ _ Hsp. by apply qremove_keep.
  - intros p l b. rewrite lookup_qremove, decide_False by done.
    intros (l0 & Hl0 & ->)%fmap_Some [_ Hin]%list_elem_of_filter. by apply (bd_waiting _ _ _ _ _ B p l0 b).
  - intros He. apply qremove_keep. by apply (bd_exempt _ _ _ _ _ B He).
Qed.

Lemma qremove_all_elem (ns : list qaddr) qs (h n : qaddr) l :
  qremove_all ns qs !! h = Some l -> n ∈ l -> n ∉ ns /\ exists l0, qs !! h = Some l0 /\ n ∈ l0.
Proof.
  revert qs. induction ns as [|m ns IH]; intros qs Hl Hin; [split; [apply not_elem_of_nil | eauto]|].
  destruct (IH (qremove m qs) Hl Hin) as (Hn & l0 & Hl0 & Hin0). rewrite lookup_qremove in Hl0.
  case_decide; [injection Hl0 as <-; by apply not_elem_of_nil in Hin0|].
  apply fmap_Some in Hl0 as (l1 & Hl1 & ->). apply list_elem_of_filter in Hin0 as [Hne Hin1].
  split; [by apply not_elem_of_cons | eauto].
Qed.
Lemma qremove_all_keep (ns : list qaddr) qs (h n : qaddr) l :
  qs !! h = Some l -> n ∈ l -> h ∉ ns -> n ∉ ns -> exists l', qremove_all ns qs !! h = Some l' /\ n ∈ l'.
Proof.
  revert qs l. induction ns as [|m ns IH]; intros qs l Hl Hin Hh Hn; [eauto|].
  apply not_elem_of_cons in Hh as [Hh Hh'], Hn as [Hn Hn'].
  eapply (IH (qremove m qs)); [by rewrite lookup_qremove, decide_False, Hl by done | | done | done].
  by apply list_elem_of_filter.
Qed.

(** All advertisements of the list leave their queues. *)
Lemma board_unwait_all k e s qs (l : list Z) m :
  board dm k e s qs -> (forall a, a ∈ l -> is_Some (advs s !! a)) -> qrep m (qremove_all (Q_adv_waitq <$> l) qs) ->
  board dm k e (set_qm m s) (qremove_all (Q_adv_waitq <$> l) qs).
Proof.
  revert s qs. induction l as [|a l IH]; intros s qs B Ha Hm.
  - cbn in *. apply (board_relist k e s (set_qm m s) qs); try done; try apply B.
    + split; [done | apply B | apply B].
    + apply (listed_same s); [done | apply B].
  - destruct (qrep_qremove (qm s) qs (Q_adv_waitq a)) as (m1 & _ & Hq1); [apply B | apply (bd_spares _ _ (bd_listed _ _ _ _ _ B)), Ha; by left |].
    assert (board dm k e (set_qm m1 s) (qremove (Q_adv_waitq a) qs)) as B1.
    { apply (board_unwait k e s); try done; [apply Ha; by left|]. split; [done | apply B | apply B]. }
    apply (IH _ _ B1); [|done]. intros b Hb. apply Ha. by right.
Qed.

(** ** A worker is given a transaction *)

Section Start.
Context (s s' : sb T) (qs : gmap qaddr (list qaddr)) (w a t : Z) (x : tpclient T) (tx : tptransaction)
  (ax : tpadvertisement) (rl : list qaddr).
Hypothesis nonzero : advs s !! 0 = None.
Hypothesis before : board dm 0 0 s qs.
Hypothesis worker : clients s !! w = Some x /\ idle x /\ wait4 x = 0 /\ advs s !! a = Some ax /\ a_client ax = w.
Hypothesis not_waiting : forall p l b bx, qs !! Q_waitq p = Some l -> Q_adv_waitq b ∈ l ->
  advs s !! b = Some bx -> a_client bx <> w.
Hypothesis call : trans s !! t = Some tx /\ 0 < t /\ executor tx = 0 /\
  qs !! Q_requests (t_client tx) = Some rl /\ Q_t_clientq t ∈ rl.
Hypothesis arrived : unread 0 s (t_data tx).
Hypothesis new_structs : clients s' = <[w := set_wait4 t x]> (clients s) /\ trans s' = <[t := set_executor a tx]> (trans s).
Hypothesis same : mem s' = mem s /\ svcs s' = svcs s /\ advs s' = advs s /\ services s' = services s.

Lemma start_client c1 : clients s' !! c1 = if decide (c1 = w) then Some (set_wait4 t x) else clients s !! c1.
Proof. rewrite (proj1 new_structs). case_decide as E; [subst; apply lookup_insert_eq | by apply lookup_insert_ne]. Qed.
Lemma start_trans t1 : trans s' !! t1 = if decide (t1 = t) then Some (set_executor a tx) else trans s !! t1.
Proof. rewrite (proj2 new_structs). case_decide as E; [subst; apply lookup_insert_eq | by apply lookup_insert_ne]. Qed.

Lemma start_structs : same_structs s s'.
Proof.
  destruct same as (_ & Es & Ea & _), worker as (Hx & _), call as (Htx & _). constructor; [| |done|done].
  - intros c1. rewrite start_client. case_decide as E; [subst c1; rewrite Hx; split; by eexists | done].
  - intros t1. rewrite start_trans. case_decide as E; [|done]. subst t1. by rewrite Htx.
Qed.

(** What the others execute. *)
Lemma start_works c1 t1 : works s c1 t1 -> works s' c1 t1 /\ t1 <> t.
Proof.
  intros (Hp & tx1 & ax1 & Htx1 & Hax1 & Hc1). destruct call as (Htx & _ & He & _), same as (_ & _ & Ea & _).
  assert (t1 <> t) as Hne.
  { intros ->. rewrite Htx in Htx1. injection Htx1 as <-. by rewrite He, nonzero in Hax1. }
  split; [|done]. split; [done|]. exists tx1, ax1. by rewrite start_trans, decide_False, Ea.
Qed.

Lemma start_client_fits c1 x1 : clients s' !! c1 = Some x1 -> wait_ok s' c1 x1 /\ (c1 <> 0 -> io_ok dm s' qs c1 x1).
Proof.
  destruct same as (Em & Es & Ea & _), worker as (Hx & Hi & Hw & Hax & Hc), call as (Htx & Hp & He & Hrl & Hin).
  rewrite start_client. case_decide as E.
  - intros [= <-]. subst c1. split.
    + right. right. split; [done|]. exists (set_executor a tx), ax. by rewrite start_trans, decide_True, Ea.
    + intros _ h Hh. destruct Hi as [E _]. cbn in Hh. congruence.
  - intros Hx1. destruct (bd_clients _ _ _ _ _ before c1 x1 Hx1) as (_ & _ & Hwait & Hio). split.
    + destruct Hwait as [?|[[Hi1 Hw1]|Hw1]]; [by left | right; left | right; right; by apply start_works].
      split; [done|]. destruct Hw1 as [?|Hw1]; [by left | right].
      by destruct (place_client s s' (wait4 x1) (ss_trans _ _ start_structs _)) as (-> & _).
    + intros Hk. apply (io_keep dm s s' qs _ c1 x1); [done | done | done | by rewrite Em | | | exact (Hio Hk)].
      * intros Hh. apply receiving_keep; [done|]. intros t1 tx1 Hp1 Htx1 Hd1 He1 Hq Hsv.
        rewrite start_trans, decide_False, Es; [eauto 10|]. intros ->. rewrite Htx in Htx1. injection Htx1 as <-.
        by apply (arrived c1 x1 Hk Hx1); [rewrite Hh|].
      * intros _ Hw1 Hd. destruct (start_works _ _ Hw1) as [Hw' Ht]. by rewrite start_trans, decide_False.
Qed.

Lemma board_start : sane s' qs -> board dm 0 0 s' qs.
Proof.
  intros Hs'. destruct same as (Em & Es & Ea & Eserv), worker as (Hx & Hi & Hw & Hax & Hc), call as (Htx & Hp & He & Hrl & Hin).
  apply (board_change 0 0 s); try done.
  - apply start_structs.
  - rewrite start_trans, decide_False; [done|]. unfold GLOBAL_ANY. lia.
  - intros c1 x1. rewrite start_client. case_decide as E; [|eauto]. intros [= <-]. subst c1. by exists x.
  - apply start_client_fits.
  - intros t1 tx1 Htx1 Hp1. rewrite start_trans in Htx1. unfold trans_fits. rewrite (ss_clients _ _ start_structs), Em.
    case_decide as E.
    + injection Htx1 as <-. subst t1. destruct (bd_trans _ _ _ _ _ before t tx Htx Hp) as (Hcl & Hb & _).
      split_and!; [done | done |]. intros _. exists ax, (set_wait4 t x), rl. rewrite Ea, Hc, start_client, decide_True; done.
    + destruct (bd_trans _ _ _ _ _ before t1 tx1 Htx1 Hp1) as (Hcl & Hb & Hex). split_and!; [done | done |].
      intros He1. destruct (Hex He1) as (ax1 & y & l & Hax1 & Hy & Hw4 & Hl & Hin1). exists ax1, y, l.
      rewrite Ea, start_client, decide_False; [done|]. intros Ec. rewrite Ec, Hx in Hy. injection Hy as <-. lia.
  - intros p l b Hl Hb. destruct (bd_waiting _ _ _ _ _ before p l b Hl Hb) as (bx & y & Hbx & Hy).
    exists bx, y. rewrite Ea, start_client, decide_False; [done|]. by eapply not_waiting.
  - apply (apart_same 0 0 s); [apply before | |].
    + intros c1 x1 Hk. rewrite start_client. case_decide as E; [|eauto]. intros [= <-]. subst c1. split; [done|]. by exists x.
    + intros t1 tx1 _. rewrite start_trans. case_decide as E; [|eauto]. intros [= <-]. exists tx. by rewrite E.
Qed.

End Start.

(** ** A worker or a transaction is put on a wait queue *)

Section Enqueue.
Context (s s' : sb T) (qs : gmap qaddr (list qaddr)) (p : Z) (n : qaddr) (b : bool) (sv : SbState.tpservice) (l : list qaddr).
Hypothesis before : board dm 0 0 s qs.
Hypothesis queue : svcs s !! p = Some sv /\ qs !! Q_waitq p = Some l /\ qs !! n = Some [].
Hypothesis one_kind : l = [] \/ wait_contains_transactions sv = b.
Hypothesis new_fits : spare_live s n /\ fits s' (Q_waitq p) n.
Hypothesis worker_waits : forall a, n = Q_adv_waitq a -> waits s a.
Hypothesis arrived : forall t tx, n = Q_t_svc_waitq t -> trans s !! t = Some tx -> unread 0 s (t_data tx).
Hypothesis new_svcs : svcs s' = <[p := set_wct b sv]> (svcs s).
Hypothesis same : mem s' = mem s /\ clients s' = clients s /\ trans s' = trans s /\ advs s' = advs s /\
  services s' = services s.

Notation qs' := (<[Q_waitq p := l ++ [n]]> (delete n qs)).

Lemma enqueue_back h l' n' : qs' !! h = Some l' -> n' ∈ l' -> h = Q_waitq p /\ n' = n \/ exists l0, qs !! h = Some l0 /\ n' ∈ l0.
Proof.
  intros [[<- <-]|[_ [_ Hl]%lookup_delete_Some]]%lookup_insert_Some Hin; [|by eauto].
  apply elem_of_app in Hin as [Hin| ->%list_elem_of_singleton]; [right; exists l; by split; [apply queue|] | by left].
Qed.
Lemma enqueue_on n' : qon qs n' -> qon qs' n'.
Proof.
  destruct queue as (_ & Hl & Hn). intros (h & l0 & Hl0 & Hin). destruct (decide (h = Q_waitq p)) as [->|Hh].
  - exists (Q_waitq p), (l ++ [n]). rewrite lookup_insert_eq. split; [done|]. assert (l0 = l) as -> by congruence. set_solver +Hin.
  - exists h, l0. rewrite lookup_insert_ne, lookup_delete_ne; [done | | done]. intros <-.
    rewrite Hn in Hl0. injection Hl0 as <-. by apply not_elem_of_nil in Hin.
Qed.
Lemma enqueue_list (h : qaddr) : h <> n -> h <> Q_waitq p -> qs' !! h = qs !! h.
Proof. intros. by rewrite lookup_insert_ne, lookup_delete_ne. Qed.

Lemma enqueue_fits h n' l0 : qs !! h = Some l0 -> n' ∈ l0 -> fits s h n' -> fits s' h n'.
Proof.
  destruct same as (_ & Ec & Et & Ea & _), queue as (Hsv & Hl & _). intros Hl0 Hin.
  assert (forall q, h = Q_waitq q -> wait_contains_transactions <$> svcs s' !! q = wait_contains_transactions <$> svcs s !! q) as Hw.
  { intros q ->. rewrite new_svcs. destruct (decide (q = p)) as [->|Hq]; [|by rewrite lookup_insert_ne].
    rewrite lookup_insert_eq, Hsv. cbn. f_equal. assert (l0 = l) as -> by congruence.
    destruct one_kind as [->| ->]; [by apply not_elem_of_nil in Hin | done]. }
  destruct h, n'; cbn; try done; rewrite ?Ec, ?Et, ?Ea; try done; by rewrite (Hw _ eq_refl).
Qed.

Lemma enqueue_listed : listed s' qs'.
Proof.
  destruct (bd_listed _ _ _ _ _ before) as [Hl Hh Hn Hsp], same as (_ & Ec & Et & Ea & _), queue as (Hsv & Hp & Hnq).
  constructor.
  - intros h l' n' Hl' Hin. destruct (enqueue_back h l' n' Hl' Hin) as [[-> ->]|(l0 & Hl0 & Hin0)]; [by apply new_fits|].
    by eapply enqueue_fits, Hl.
  - intros h Hh'. destruct (decide (h = Q_waitq p)) as [->|Hhp]; [by rewrite lookup_insert_eq|].
    assert (h <> n) as Hhn by (intros ->; destruct new_fits as [Hlv _]; by destruct n).
    rewrite enqueue_list by done. apply Hh. destruct h; cbn in *; rewrite ?Ec in Hh'; try done.
    rewrite new_svcs, lookup_insert_ne in Hh' by congruence. done.
  - intros n' Hn'. apply enqueue_on, Hn. destruct n'; cbn in *; rewrite ?Ec, ?Et in Hn'; done.
  - intros n' Hn'. destruct (decide (n' = n)) as [->|Hne].
    + right. exists (Q_waitq p), (l ++ [n]). rewrite lookup_insert_eq. split; [done | set_solver].
    + assert (spare_live s n') as Hlv by (destruct n'; cbn in *; rewrite ?Et, ?Ea in Hn'; done).
      destruct (Hsp n' Hlv) as [Hq|Hq]; [left | right; by apply enqueue_on].
      rewrite enqueue_list; [done | done |]. by destruct n'.
Qed.

Lemma board_enqueue : sane s' qs' -> board dm 0 0 s' qs'.
Proof.
  intros Hs'. destruct same as (Em & Ec & Et & Ea & Eserv), queue as (Hsv & Hp & Hnq).
  assert (forall h, head_live s h \/ (exists c, h = Q_requests c) -> h <> n) as Hnh.
  { intros h Hh ->. destruct new_fits as [Hlv _]. destruct Hh as [Hh|[c Hh]]; [by destruct n | by rewrite Hh in Hlv]. }
  apply (board_relist 0 0 s s' qs); try done.
  - apply enqueue_listed.
  - intros q. rewrite new_svcs. destruct (decide (q = p)) as [->|Hq]; [|by rewrite lookup_insert_ne].
    by rewrite lookup_insert_eq, Hsv.
  - intros c. apply enqueue_list; [|done]. apply Hnh. right. by exists c.
  - intros c x t tx Hk Hx Hh Htx Hd Hq. rewrite enqueue_list; [done | | done]. intros E.
    by apply (arrived t tx (eq_sym E) Htx c x Hk Hx Hh).
  - intros q l' a Hl' Hin. destruct (enqueue_back _ l' _ Hl' Hin) as [[_ E]|(l0 & Hl0 & Hin0)]; [by apply worker_waits|].
    by apply (bd_waiting _ _ _ _ _ before q l0 a).
Qed.

End Enqueue.

(** ** A transaction gets other data *)

Section Redata.
Context (s s' : sb T) (qs : gmap qaddr (list qaddr)) (t n : Z) (tx tx' : tptransaction).
Hypothesis before : board dm 0 0 s qs.
Hypothesis there : trans s !! t = Some tx /\ 0 < t.
Hypothesis not_read : unread 0 s (t_data tx).
Hypothesis updated : t_place tx' = t_place tx /\ executor tx' = executor tx.
Hypothesis new_trans : trans s' = <[t := tx']> (trans s).
Hypothesis buffer : tpbuf dm (tp_heap (mem s')) (t_data tx') n /\ n < 2 ^ 31.
Hypothesis fresh : forall p len, tpbuf dm (tp_heap (mem s)) p len -> pblk p <> pblk (t_data tx').
Hypothesis kept : forall p len, pblk p <> pblk (t_data tx) -> tpbuf dm (tp_heap (mem s)) p len ->
  tpbuf dm (tp_heap (mem s')) p len.
Hypothesis same : clients s' = clients s /\ svcs s' = svcs s /\ advs s' = advs s /\ services s' = services s.

Lemma redata_trans t1 : trans s' !! t1 = if decide (t1 = t) then Some tx' else trans s !! t1.
Proof. rewrite new_trans. case_decide as E; [subst; apply lookup_insert_eq | by apply lookup_insert_ne]. Qed.
Lemma redata_structs : same_structs s s'.
Proof.
  destruct same as (Ec & Es & Ea & _), there as [Htx _]. constructor; [by rewrite Ec | |done|done].
  intros t1. rewrite redata_trans. case_decide as E; [|done]. subst t1. rewrite Htx. cbn. f_equal. apply updated.
Qed.
Lemma redata_works c t1 : works s c t1 -> works s' c t1.
Proof.
  intros (Hp & tx1 & ax & Htx1 & Hax & Hc). destruct same as (_ & _ & Ea & _), there as [Htx _], updated as [_ Ee]. split; [done|].
  rewrite redata_trans. case_decide as E; [|exists tx1, ax; by rewrite Ea]. subst t1.
  exists tx', ax. rewrite Ea, Ee. assert (tx1 = tx) as -> by congruence. done.
Qed.

Lemma redata_apart : apart 0 s'.
Proof.
  destruct (bd_apart _ _ _ _ _ before) as [Hd Hi Hii], same as (Ec & _), there as [Htx Hp].
  assert (forall t1 tx1, 0 < t1 -> trans s !! t1 = Some tx1 -> pblk (t_data tx1) <> pblk (t_data tx')) as Hf.
  { intros t1 tx1 Hp1 Htx1. destruct (bd_trans _ _ _ _ _ before t1 tx1 Htx1 Hp1) as (_ & (len & Hb & _) & _). by eapply fresh. }
  constructor; rewrite ?Ec; [| |done].
  - intros t1 tx1 t2 tx2 P1 P2 H1 H2 E. rewrite !redata_trans in H1, H2.
    destruct (decide (t1 = t)) as [->|], (decide (t2 = t)) as [->|]; [done | ..|by apply (Hd t1 tx1 t2 tx2)].
    + injection H1 as <-. exfalso. by apply (Hf t2 tx2).
    + injection H2 as <-. exfalso. by apply (Hf t1 tx1).
  - intros c x t1 tx1 Hk Hp1 Hx Hpr H1. rewrite redata_trans in H1. case_decide; [|by apply (Hi c x t1 tx1)].
    injection H1 as <-. destruct Hpr as (h & Hh & _). destruct (bd_clients _ _ _ _ _ before c x Hx) as (_ & _ & _ & Hio).
    destruct (Hio Hk h Hh) as ((len & Hb & _) & _). by eapply fresh.
Qed.

Lemma board_redata : sane s' qs -> board dm 0 0 s' qs.
Proof.
  intros Hs'. destruct same as (Ec & Es & Ea & Eserv), there as [Htx Hp], updated as [Epl Ee].
  apply (board_change 0 0 s); try done.
  - apply redata_structs.
  - rewrite redata_trans, decide_False; [done|]. unfold GLOBAL_ANY. lia.
  - rewrite Ec. eauto.
  - intros c x Hx. rewrite Ec in Hx. destruct (bd_clients _ _ _ _ _ before c x Hx) as (_ & _ & Hwait & Hio). split.
    + destruct Hwait as [?|[[Hi1 Hw1]|Hw1]]; [by left | right; left | right; right; by apply redata_works].
      split; [done|]. destruct Hw1 as [?|Hw1]; [by left | right].
      by destruct (place_client s s' (wait4 x) (ss_trans _ _ redata_structs _)) as (-> & _).
    + intros Hk. assert (forall t1 tx1, handler_fn x <> None -> trans s !! t1 = Some tx1 -> t_data tx1 = input x -> t1 <> t) as Hne.
      { intros t1 tx1 Hh Htx1 Hd1 ->. assert (tx1 = tx) as -> by congruence. by apply (not_read c x Hk Hx Hh). }
      apply (io_keep dm s s' qs _ c x); [done | done | done | | | | exact (Hio Hk)].
      * intros len Hh. apply kept. intros E.
        by destruct (reader dm 0 0 s qs c x t tx before Hk Hx Hh Htx Hp E) as [Ei _]; apply (not_read c x Hk Hx Hh).
      * intros Hh. apply receiving_keep; [done|]. intros t1 tx1 Hp1 Htx1 Hd1 He1 Hq Hsv.
        rewrite redata_trans, decide_False, Es; [eauto 10|]. apply (Hne t1 tx1); [by rewrite Hh | done | done].
      * intros Hh Hw1 Hd. split; [by apply redata_works|]. rewrite redata_trans, decide_False; [done|].
        apply fmap_Some in Hd as (tx1 & Htx1 & Hd1). apply (Hne _ tx1); [by rewrite Hh | done | done].
  - intros t1 tx1 Htx1 Hp1. rewrite redata_trans in Htx1. unfold trans_fits. rewrite Ec, Ea.
    case_decide as E.
    + injection Htx1 as <-. subst t1. destruct (bd_trans _ _ _ _ _ before t tx Htx Hp) as (Hcl & _ & Hex).
      injection Epl as -> _. rewrite Ee. split_and!; [done | by exists n | done].
    + destruct (bd_trans _ _ _ _ _ before t1 tx1 Htx1 Hp1) as (Hcl & (len & Hb & Hlen) & Hex). split_and!; [done | | done].
      exists len. split; [|done]. apply kept; [|done]. intros E1. apply E. by apply (bd_data _ _ (bd_apart _ _ _ _ _ before) t1 tx1 t tx).
  - unfold waits. rewrite Ea, Ec. apply before.
  - apply redata_apart.
Qed.

End Redata.

(** ** Input of a client *)

Section Io.
Context (s s' : sb T) (qs : gmap qaddr (list qaddr)) (c : Z) (x x' : tpclient T).
Hypothesis before : board dm 0 0 s qs.
Hypothesis there : clients s !! c = Some x.
Hypothesis work : wait4 x = 0 \/ works s c (wait4 x).
Hypothesis not_waiting : forall p l a ax, qs !! Q_waitq p = Some l -> Q_adv_waitq a ∈ l ->
  advs s !! a = Some ax -> a_client ax <> c.
Hypothesis changed : adverts x' = adverts x /\ wait4 x' = wait4 x /\
  (private x' -> handler_fn x' = handler_fn x /\ input x' = input x).
Hypothesis new_io : io_ok dm s' qs c x'.
Hypothesis new_clients : clients s' = <[c := x']> (clients s).
Hypothesis kept : forall p len, tpbuf dm (tp_heap (mem s)) p len -> tpbuf dm (tp_heap (mem s')) p len.
Hypothesis same : trans s' = trans s /\ svcs s' = svcs s /\ advs s' = advs s /\ services s' = services s.

Lemma input_client c1 : clients s' !! c1 = if decide (c1 = c) then Some x' else clients s !! c1.
Proof. rewrite new_clients. case_decide as E; [subst; apply lookup_insert_eq | by apply lookup_insert_ne]. Qed.

Lemma input_apart : apart 0 s'.
Proof.
  destruct (bd_apart _ _ _ _ _ before) as [Hd Hi Hii], same as (Et & _), changed as (_ & _ & Hpr').
  assert (private x' -> private x /\ input x' = input x) as Hpr.
  { intros Hp. destruct (Hpr' Hp) as [Eh Ei]. split; [|done]. destruct Hp as [h Hh]. exists h. by rewrite <- Eh. }
  constructor; rewrite ?Et; [done | |].
  - intros c1 x1 t tx Hk Hp Hx1 P Htx. rewrite input_client in Hx1. case_decide; [|by apply (Hi c1 x1 t tx)].
    injection Hx1 as <-. subst c1. destruct (Hpr P) as [P' ->]. by apply (Hi c x t tx).
  - intros c1 x1 c2 x2 K1 K2 H1 H2 P1 P2 E. rewrite !input_client in H1, H2.
    destruct (decide (c1 = c)) as [->|], (decide (c2 = c)) as [->|]; [done | ..|by apply (Hii c1 x1 c2 x2)].
    + injection H1 as <-. destruct (Hpr P1) as [P1' E1]. rewrite E1 in E. by apply (Hii c x c2 x2).
    + injection H2 as <-. destruct (Hpr P2) as [P2' E2]. rewrite E2 in E. by apply (Hii c1 x1 c x).
Qed.

Lemma board_io : sane s' qs -> board dm 0 0 s' qs.
Proof.
  intros Hs'. destruct same as (Et & Es & Ea & Eserv), changed as (Ead & Ew & _).
  assert (same_structs s s') as Hss.
  { constructor; [|by rewrite Et|done|done].
    intros c1. rewrite input_client. case_decide as E; [subst c1; rewrite there; split; by eexists | done]. }
  apply (board_change 0 0 s); try done.
  - by rewrite Et.
  - intros c1 x1. rewrite input_client. case_decide as E; [|eauto]. intros [= <-]. subst c1. by exists x.
  - intros c1 x1. rewrite input_client. case_decide as E.
    + intros [= <-]. subst c1. split; [|done]. unfold wait_ok, works. rewrite Ew, Et, Ea.
      destruct work; [by left | by right; right].
    + intros Hx1. destruct (bd_clients _ _ _ _ _ before c1 x1 Hx1) as (_ & _ & Hwait & Hio). split.
      * unfold wait_ok, works. by rewrite Et, Ea.
      * intros Hk. apply (io_keep dm s s' qs _ c1 x1); [done | done | done | eauto | | | exact (Hio Hk)].
        -- intros _. apply receiving_keep; [done|]. rewrite Et, Es. eauto 10.
        -- unfold works. by rewrite Et, Ea.
  - intros t tx Htx Hp. rewrite Et in Htx. destruct (bd_trans _ _ _ _ _ before t tx Htx Hp) as (Hcl & (len & Hb & Hl) & He).
    split_and!; [by apply Hss | by eauto |]. intros Hex.
    destruct (He Hex) as (ax & y & l & Hax & Hy & Hw4 & Hlk & Hin). rewrite Ea.
    exists ax. rewrite input_client. case_decide as E; [|eauto 10]. eexists _, l. split_and!; try done.
    rewrite Ew. rewrite E in Hy. congruence.
  - intros p l a Hl Hin. destruct (bd_waiting _ _ _ _ _ before p l a Hl Hin) as (ax & y & Hax & Hy).
    exists ax, y. rewrite Ea, input_client, decide_False; [done|]. by eapply not_waiting.
  - apply input_apart.
Qed.

End Io.

(** ** A new transaction *)

Section Called.
Context (s s' : sb T) (qs : gmap qaddr (list qaddr)) (c t n : Z) (x : tpclient T) (tx : tptransaction) (rl tl : list qaddr).
Hypothesis before : board dm 0 0 s qs.
Hypothesis fresh : 0 < t /\ trans s !! t = None.
Hypothesis caller : clients s !! c = Some x /\ handler_fn x = None.
Hypothesis lists : qs !! Q_requests c = Some rl /\ qs !! Q_tptransactions = Some tl.
Hypothesis called : t_client tx = c /\ executor tx = 0.
Hypothesis new_trans : trans s' = <[t := tx]> (trans s).
Hypothesis buffer : tpbuf dm (tp_heap (mem s')) (t_data tx) n /\ n < 2 ^ 31.
Hypothesis new_buffer : forall p len, tpbuf dm (tp_heap (mem s)) p len -> pblk p <> pblk (t_data tx).
Hypothesis kept : forall p len, tpbuf dm (tp_heap (mem s)) p len -> tpbuf dm (tp_heap (mem s')) p len.
Hypothesis same : clients s' = clients s /\ svcs s' = svcs s /\ advs s' = advs s /\ services s' = services s.

Notation qs' := (<[Q_requests c := rl ++ [Q_t_clientq t]]> (delete (Q_t_clientq t)
  (<[Q_tptransactions := tl ++ [Q_t_global t]]> (<[Q_t_svc_waitq t := []]> (<[Q_t_clientq t := []]> qs))))).

Lemma called_trans t1 : trans s' !! t1 = if decide (t1 = t) then Some tx else trans s !! t1.
Proof. rewrite new_trans. case_decide as E; [subst; apply lookup_insert_eq | by apply lookup_insert_ne]. Qed.
Lemma called_old t1 tx1 : trans s !! t1 = Some tx1 -> trans s' !! t1 = Some tx1 /\ t1 <> t.
Proof. intros Htx1. destruct fresh as [_ Hf]. assert (t1 <> t) by congruence. by rewrite called_trans, decide_False. Qed.

(** The links of the new transaction are on no list of before. *)
Lemma called_unlisted h l m : qs !! h = Some l -> m ∈ l -> ~ t_link t m.
Proof.
  intros Hl Hin Ht. pose proof (bd_lists _ _ (bd_listed _ _ _ _ _ before) _ _ _ Hl Hin) as Hf. destruct fresh as [_ Hn].
  destruct Ht as [->|[->| ->]], h; cbn in Hf; rewrite ?Hn in Hf; naive_solver.
Qed.

Lemma called_list (h : qaddr) : ~ t_link t h -> h <> Q_requests c -> h <> Q_tptransactions -> qs' !! h = qs !! h.
Proof.
  intros Ht N1 N2. rewrite lookup_insert_ne, lookup_delete_ne, !lookup_insert_ne; [done|..];
    try congruence; intros <-; apply Ht; unfold t_link; auto.
Qed.
Lemma called_waitq : qs' !! Q_t_svc_waitq t = Some [].
Proof. rewrite lookup_insert_ne, lookup_delete_ne, lookup_insert_ne by done. apply lookup_insert_eq. Qed.
Lemma called_global : qs' !! Q_tptransactions = Some (tl ++ [Q_t_global t]).
Proof. rewrite lookup_insert_ne, lookup_delete_ne by done. apply lookup_insert_eq. Qed.

Lemma called_back h l' m : qs' !! h = Some l' -> m ∈ l' ->
  (exists l, qs !! h = Some l /\ m ∈ l) \/ h = Q_requests c /\ m = Q_t_clientq t \/ h = Q_tptransactions /\ m = Q_t_global t.
Proof.
  destruct lists as [Hrl Htl]. intros Hl Hin.
  apply lookup_insert_Some in Hl as [[<- <-]|[_ [_ [[<- <-]|[_ [[<- <-]|[_ [[<- <-]|[_ Hl]]%lookup_insert_Some]]%lookup_insert_Some]]%lookup_insert_Some]%lookup_delete_Some]];
    try (by apply not_elem_of_nil in Hin); [| |eauto];
    (apply elem_of_app in Hin as [Hin| ->%list_elem_of_singleton]; [left; eauto | auto]).
Qed.
Lemma called_on m : qon qs m -> qon qs' m.
Proof.
  destruct lists as [Hrl Htl]. intros (h & l & Hl & Hin). destruct (decide (h = Q_requests c)) as [->|N1].
  { exists (Q_requests c), (rl ++ [Q_t_clientq t]). rewrite lookup_insert_eq. assert (l = rl) as -> by congruence. set_solver +Hin. }
  destruct (decide (h = Q_tptransactions)) as [->|N2].
  { exists Q_tptransactions, (tl ++ [Q_t_global t]). rewrite called_global. assert (l = tl) as -> by congruence. set_solver +Hin. }
  exists h, l. rewrite called_list; [done | | done | done]. intros Ht.
  pose proof (bd_lists _ _ (bd_listed _ _ _ _ _ before) _ _ _ Hl Hin) as Hf. by destruct Ht as [->|[->| ->]].
Qed.

Lemma called_fits h m : fits s h m -> fits s' h m.
Proof.
  destruct same as (Ec & Es & Ea & _).
  assert (forall {B} (f : tptransaction -> B) t1 b, f <$> trans s !! t1 = Some b -> f <$> trans s' !! t1 = Some b) as Hk.
  { intros B f t1 b (tx1 & Htx1 & ->)%fmap_Some. by rewrite (proj1 (called_old t1 tx1 Htx1)). }
  destruct h, m; cbn; rewrite ?Ec, ?Es, ?Ea; try done.
  - intros [? [tx1 Htx1]]. split; [done|]. exists tx1. by apply called_old.
  - intros [? ?]. split; [done | by apply Hk].
  - intros [? ?]. split; [done | by apply Hk].
  - intros (? & ? & ?). split_and!; [done | by apply Hk | done].
Qed.

Lemma called_listed : listed s' qs'.
Proof.
  destruct (bd_listed _ _ _ _ _ before) as [Hl Hh Hn Hsp], same as (Ec & Es & Ea & _), fresh as [Hp Hno], called as [Ecl _].
  constructor.
  - intros h l' m Hl' Hin. destruct (called_back h l' m Hl' Hin) as [(l & Hq & Hin')|[[-> ->]|[-> ->]]];
      [by eapply called_fits, Hl | |]; cbn; rewrite called_trans, decide_True by done; [by rewrite <- Ecl | by split; [|eexists]].
  - intros h Hh'. destruct (decide (h = Q_requests c)) as [->|N1]; [by rewrite lookup_insert_eq|].
    destruct (decide (h = Q_tptransactions)) as [->|N2]; [rewrite called_global; by eexists|].
    rewrite called_list; [|by intros [->|[->| ->]] | done | done]. apply Hh. destruct h; cbn in *; rewrite ?Ec, ?Es in Hh'; done.
  - intros m Hm. destruct (decide (t_link t m)) as [Ht|Ht].
    + destruct Ht as [->|[->| ->]]; [| done |].
      * exists (Q_requests c), (rl ++ [Q_t_clientq t]). rewrite lookup_insert_eq. set_solver.
      * exists Q_tptransactions, (tl ++ [Q_t_global t]). rewrite called_global. set_solver.
    + apply called_on, Hn. destruct m as [| | |c1| | | | |t1|t1|]; cbn in *; rewrite ?Ec in Hm; try done;
        rewrite called_trans, decide_False in Hm; try done; intros ->; apply Ht; unfold t_link; auto.
  - intros m Hm. destruct (decide (m = Q_t_svc_waitq t)) as [->|Hne]; [left; apply called_waitq|].
    assert (spare_live s m) as Hlv.
    { destruct m as [| | | | | | |a| | |t1]; cbn in *; rewrite ?Ea in Hm; try done.
      rewrite called_trans, decide_False in Hm by congruence. done. }
    destruct (Hsp m Hlv) as [Hq|Hq]; [left | right; by apply called_on]. rewrite called_list; [done | | by destruct m | by destruct m].
    intros [->|[->| ->]]; done.
Qed.

Lemma called_works c1 t1 : works s c1 t1 -> works s' c1 t1.
Proof.
  intros (Hp & tx1 & ax & Htx1 & Hax & Hc). destruct same as (_ & _ & Ea & _). split; [done|]. exists tx1, ax.
  by rewrite (proj1 (called_old t1 tx1 Htx1)), Ea.
Qed.

Lemma called_client_fits c1 x1 : clients s' !! c1 = Some x1 -> client_fits dm 0 s' qs' c1 x1.
Proof.
  destruct same as (Ec & Es & Ea & _), caller as [Hx Hi]. rewrite Ec. intros Hx1.
  destruct (bd_clients _ _ _ _ _ before c1 x1 Hx1) as (Hreg & Hown & Hwait & Hio).
  split_and!; [by eapply adverts_reg_same | by rewrite Ea | |].
  - destruct Hwait as [?|[[Hi1 [?|[Hp1 (tx1 & Htx1 & E)%fmap_Some]]]|Hw]]; [by left | by right; left; auto | | right; right; by apply called_works].
    right. left. split; [done|]. right. split; [done|]. by rewrite (proj1 (called_old _ tx1 Htx1)), E.
  - intros Hk. apply (io_keep dm s s' qs _ c1 x1); [done | done | done | eauto | | | exact (Hio Hk)].
    + intros Hh. assert (c1 <> c) as Hne by (intros ->; congruence).
      apply receiving_keep; [done|]. intros t1 tx1 Hp1 Htx1 _ He1 Hq Hsv. destruct (called_old t1 tx1 Htx1) as [Htx1' Hne1].
      rewrite Es. split_and!; [done | done | | intros l; rewrite lookup_insert_ne, lookup_delete_ne, !lookup_insert_ne by congruence; eauto].
      by rewrite lookup_insert_ne, lookup_delete_ne, !lookup_insert_ne by congruence.
    + intros _ Hw Hd. split; [by apply called_works|]. apply fmap_Some in Hd as (tx1 & Htx1 & ->).
      by rewrite (proj1 (called_old _ tx1 Htx1)).
Qed.

Lemma called_trans_fits t1 tx1 : trans s' !! t1 = Some tx1 -> 0 < t1 -> trans_fits dm s' qs' t1 tx1.
Proof.
  destruct same as (Ec & Es & Ea & _), caller as [Hx _], lists as [Hrl _], called as [Ecl Eex]. intros Htx1 Hp1.
  rewrite called_trans in Htx1. unfold trans_fits. rewrite Ec, Ea. case_decide as E.
  - injection Htx1 as <-. rewrite Ecl, Eex. split_and!; [by exists x | by exists n | done].
  - destruct (bd_trans _ _ _ _ _ before t1 tx1 Htx1 Hp1) as (Hcl & (len & Hb & Hlen) & Hex). split_and!; [done | by eauto |].
    intros He. destruct (Hex He) as (ax & y & l & Hax & Hy & Hw & Hl & Hin). destruct (decide (t_client tx1 = c)) as [E1|Hne].
    + rewrite E1 in Hl |- *. exists ax, y, (rl ++ [Q_t_clientq t]). rewrite lookup_insert_eq.
      assert (l = rl) as -> by congruence. split_and!; try done. set_solver +Hin.
    + exists ax, y, l. by rewrite lookup_insert_ne, lookup_delete_ne, !lookup_insert_ne by congruence.
Qed.

Lemma called_apart : apart 0 s'.
Proof.
  destruct (bd_apart _ _ _ _ _ before) as [Hd Hi Hii], same as (Ec & _).
  assert (forall t1 tx1, 0 < t1 -> trans s !! t1 = Some tx1 -> pblk (t_data tx1) <> pblk (t_data tx)) as Hf.
  { intros t1 tx1 Hp1 Htx1. destruct (bd_trans _ _ _ _ _ before t1 tx1 Htx1 Hp1) as (_ & (len & Hb & _) & _). by eapply new_buffer. }
  constructor; rewrite ?Ec; [| |done].
  - intros t1 tx1 t2 tx2 P1 P2 H1 H2 E. rewrite !called_trans in H1, H2.
    destruct (decide (t1 = t)) as [->|], (decide (t2 = t)) as [->|]; [done | ..|by apply (Hd t1 tx1 t2 tx2)].
    + injection H1 as <-. exfalso. by apply (Hf t2 tx2).
    + injection H2 as <-. exfalso. by apply (Hf t1 tx1).
  - intros c1 x1 t1 tx1 Hk Hp1 Hx1 Hpr H1. rewrite called_trans in H1. case_decide; [|by apply (Hi c1 x1 t1 tx1)].
    injection H1 as <-. destruct Hpr as (h & Hh & _). destruct (bd_clients _ _ _ _ _ before c1 x1 Hx1) as (_ & _ & _ & Hio).
    destruct (Hio Hk h Hh) as ((len & Hb & _) & _). by eapply new_buffer.
Qed.

Lemma board_called : sane s' qs' -> board dm 0 0 s' qs'.
Proof.
  intros Hs'. destruct same as (Ec & Es & Ea & Eserv), fresh as [Hp _]. constructor; try done.
  - rewrite called_trans, decide_False; [apply before|]. unfold GLOBAL_ANY. lia.
  - apply called_listed.
  - apply called_client_fits.
  - apply called_trans_fits.
  - intros a ax Hne Hax. rewrite Ea in Hax. unfold adv_fits. rewrite Es, Ec. by apply (bd_advs _ _ _ _ _ before).
  - destruct (bd_registry _ _ _ _ _ before) as [Hr Hall]. split; [by eapply registry_same|]. by rewrite Es, Eserv.
  - intros p l a Hl Hin. unfold waits. rewrite Ea, Ec. rewrite called_list in Hl by (done || by intros [|[|]]).
    by apply (bd_waiting _ _ _ _ _ before p l a).
  - apply called_apart.
Qed.

End Called.

(** ** A new service *)

Section Registered.
Context (s s' : sb T) (qs : gmap qaddr (list qaddr)) (p : Z) (sv : SbState.tpservice).
Hypothesis before : board dm 0 0 s qs.
Hypothesis fresh : svcs s !! p = None.
Hypothesis new_svcs : svcs s' = <[p := sv]> (svcs s).
Hypothesis new_registry : registry_ok s' /\ forall q, q ∈ twalk (services s') <-> q = p \/ q ∈ twalk (services s).
Hypothesis same : mem s' = mem s /\ clients s' = clients s /\ trans s' = trans s /\ advs s' = advs s.

Notation qs' := (<[Q_waitq p := []]> qs).

Lemma registered_svc q v : svcs s !! q = Some v -> svcs s' !! q = Some v /\ q <> p.
Proof. intros Hv. assert (q <> p) by congruence. by rewrite new_svcs, lookup_insert_ne. Qed.

(** There was nothing to wait for. *)
Lemma registered_list h l n : qs !! h = Some l -> n ∈ l -> h <> Q_waitq p /\ qs' !! h = Some l.
Proof.
  intros Hl Hin. assert (h <> Q_waitq p) as Hne; [|by rewrite lookup_insert_ne].
  intros ->. pose proof (bd_lists _ _ (bd_listed _ _ _ _ _ before) _ _ _ Hl Hin) as Hf.
  destruct n; cbn in Hf; rewrite ?fresh in Hf; naive_solver.
Qed.
Lemma registered_back h l n : qs' !! h = Some l -> n ∈ l -> qs !! h = Some l.
Proof. intros [[<- <-]|[_ Hl]]%lookup_insert_Some Hin; [by apply not_elem_of_nil in Hin | done]. Qed.

Lemma registered_listed : listed s' qs'.
Proof.
  destruct (bd_listed _ _ _ _ _ before) as [Hl Hh Hn Hsp], same as (_ & Ec & Et & Ea).
  assert (forall n, qon qs n -> qon qs' n) as Hon.
  { intros n (h & l & Hq & Hin). exists h, l. split; [by eapply registered_list | done]. }
  assert (forall {B} (f : SbState.tpservice -> B) q b, f <$> svcs s !! q = Some b -> f <$> svcs s' !! q = Some b) as Hk.
  { intros B f q b (v & Hv & ->)%fmap_Some. by rewrite (proj1 (registered_svc q v Hv)). }
  constructor.
  - intros h l n Hl' Hin. pose proof (registered_back h l n Hl' Hin) as Hq. pose proof (Hl h l n Hq Hin) as Hf. revert Hf.
    destruct h, n; cbn; rewrite ?Ec, ?Et, ?Ea; try done; [intros [? ?] | intros (? & ? & ?)]; split_and!; auto.
  - intros h Hh'. destruct (decide (h = Q_waitq p)) as [->|Hne]; [by rewrite lookup_insert_eq|]. rewrite lookup_insert_ne by done.
    apply Hh. destruct h; cbn in *; rewrite ?Ec in Hh'; try done. rewrite new_svcs, lookup_insert_ne in Hh' by congruence. done.
  - intros n Hn'. apply Hon, Hn. destruct n; cbn in *; rewrite ?Ec, ?Et in Hn'; done.
  - intros n Hn'. assert (spare_live s n) as Hlv by (destruct n; cbn in *; rewrite ?Et, ?Ea in Hn'; done).
    destruct (Hsp n Hlv) as [Hq|Hq]; [left | right; by apply Hon]. rewrite lookup_insert_ne; [done|]. by destruct n.
Qed.

Lemma board_registered : sane s' qs' -> board dm 0 0 s' qs'.
Proof.
  intros Hs'. destruct same as (Em & Ec & Et & Ea).
  assert (forall q, is_Some (svcs s !! q) -> is_Some (svcs s' !! q)) as Hk.
  { intros q [v Hv]. exists v. by apply registered_svc. }
  constructor; try done.
  - rewrite Et. apply before.
  - apply registered_listed.
  - intros c x Hx. rewrite Ec in Hx. destruct (bd_clients _ _ _ _ _ before c x Hx) as (Hreg & Hown & Hwait & Hio). split_and!.
    + apply (adverts_reg_keep s s' x); [done | | done]. intros a ax Hin Hax. rewrite Ea. split; [done|].
      destruct (proj1 Hreg a Hin) as (_ & ax' & Hax' & v & Hv). assert (ax' = ax) as -> by congruence.
      rewrite Hv. by apply registered_svc.
    + by rewrite Ea.
    + unfold wait_ok, works. by rewrite Et, Ea.
    + intros Hn. apply (io_keep dm s s' qs _ c x); [done | done | done | by rewrite Em | | | exact (Hio Hn)].
      * intros _. apply receiving_keep; [done|]. intros t tx Hp Htx _ _ Hq Hsv. rewrite Et, !lookup_insert_ne by done.
        split_and!; [done | by apply Hk | done | eauto].
      * unfold works. by rewrite Et, Ea.
  - intros t tx Htx Hp. rewrite Et in Htx. unfold trans_fits. rewrite Ec, Em, Ea, lookup_insert_ne by done. by apply (bd_trans _ _ _ _ _ before).
  - intros a ax Hne Hax. rewrite Ea in Hax. destruct (bd_advs _ _ _ _ _ before a ax Hne Hax) as [? ?]. split; [by apply Hk | by rewrite Ec].
  - destruct new_registry as [Hr Hin]. split; [done|]. intros q. rewrite new_svcs, Hin, lookup_insert_is_Some'.
    intros [->|Hq]; [by left | right]. by apply (bd_registry _ _ _ _ _ before).
  - intros q l a Hl Hin. unfold waits. rewrite Ea, Ec. apply (bd_waiting _ _ _ _ _ before q l a); [|done]. by eapply registered_back.
  - apply (apart_same 0 0 s); [apply before | |]; rewrite ?Ec, ?Et; eauto.
Qed.

End Registered.

(** ** A new advertisement *)

Section Advertised.
Context (s s' : sb T) (qs : gmap qaddr (list qaddr)) (c a : Z) (x : tpclient T) (ax : tpadvertisement) (t' : T).
Hypothesis before : board dm 0 0 s qs.
Hypothesis fresh : advs s !! a = None /\ advs s !! 0 = None.
Hypothesis there : clients s !! c = Some x.
Hypothesis offer : a_client ax = c /\ is_Some (svcs s !! a_svc ax).
Hypothesis new_advs : advs s' = <[a := ax]> (advs s).
Hypothesis new_clients : clients s' = <[c := set_adverts t' x]> (clients s).
Hypothesis new_tree : adverts_reg s' (set_adverts t' x) /\ twalk t' ≡ₚ a :: twalk (adverts x).
Hypothesis same : mem s' = mem s /\ trans s' = trans s /\ svcs s' = svcs s /\ services s' = services s.

Notation qs' := (<[Q_adv_waitq a := []]> qs).

Lemma advertised_adv b bx : advs s !! b = Some bx -> advs s' !! b = Some bx /\ b <> a.
Proof. intros Hv. destruct fresh as [Hf _]. assert (b <> a) by congruence. by rewrite new_advs, lookup_insert_ne. Qed.
Lemma advertised_client c1 : clients s' !! c1 = if decide (c1 = c) then Some (set_adverts t' x) else clients s !! c1.
Proof. rewrite new_clients. case_decide as E; [subst; apply lookup_insert_eq | by apply lookup_insert_ne]. Qed.
Lemma advertised_live c1 : is_Some (clients s' !! c1) <-> is_Some (clients s !! c1).
Proof. rewrite advertised_client. case_decide as E; [subst c1; rewrite there; split; by eexists | done]. Qed.
Lemma advertised_works c1 t : works s c1 t -> works s' c1 t.
Proof.
  intros (Hp & tx & bx & Htx & Hbx & Hc). destruct same as (_ & Et & _). split; [done|]. exists tx, bx. rewrite Et.
  by rewrite (proj1 (advertised_adv _ bx Hbx)).
Qed.

Lemma advertised_listed : listed s' qs'.
Proof.
  destruct (bd_listed _ _ _ _ _ before) as [Hl Hh Hn Hsp], same as (_ & Et & Es & _).
  assert (forall h l n, qs' !! h = Some l -> n ∈ l -> qs !! h = Some l) as Hback.
  { intros h l n [[<- <-]|[_ Hq]]%lookup_insert_Some Hin; [by apply not_elem_of_nil in Hin | done]. }
  assert (forall n, qon qs n -> qon qs' n) as Hon.
  { intros n (h & l & Hq & Hin). exists h, l. rewrite lookup_insert_ne; [done|]. intros <-. by apply (Hl _ _ _ Hq) in Hin. }
  constructor.
  - intros h l n Hl' Hin. pose proof (Hl h l n (Hback h l n Hl' Hin) Hin) as Hf. revert Hf.
    destruct h, n; cbn; rewrite ?Et, ?Es, ?advertised_live; try done. intros [(bx & Hbx & E)%fmap_Some ?]. split; [|done].
    rewrite (proj1 (advertised_adv _ bx Hbx)). by rewrite E.
  - intros h Hh'. rewrite lookup_insert_ne; [|intros <-; done].
    apply Hh. destruct h; cbn in *; rewrite ?advertised_live, ?Es in Hh'; done.
  - intros n Hn'. apply Hon, Hn. destruct n; cbn in *; rewrite ?advertised_live, ?Et in Hn'; done.
  - intros n Hn'. destruct (decide (n = Q_adv_waitq a)) as [->|Hne]; [left; apply lookup_insert_eq|].
    assert (spare_live s n) as Hlv.
    { destruct n; cbn in *; rewrite ?Et in Hn'; try done. rewrite new_advs, lookup_insert_ne in Hn' by congruence. done. }
    destruct (Hsp n Hlv) as [Hq|Hq]; [left | right; by apply Hon]. by rewrite lookup_insert_ne.
Qed.

Lemma advertised_client_fits c1 x1 : clients s' !! c1 = Some x1 -> client_fits dm 0 s' qs' c1 x1.
Proof.
  destruct same as (Em & Et & Es & _), offer as [Eoc _], new_tree as [Hreg' Hperm]. intros Hx1.
  assert (exists x0, clients s !! c1 = Some x0 /\ used x1 = used x0 /\ input x1 = input x0 /\ handler_fn x1 = handler_fn x0 /\
    wait4 x1 = wait4 x0 /\ adverts_reg s' x1 /\ forall b, b ∈ twalk (adverts x1) -> b = a /\ c1 = c \/ b ∈ twalk (adverts x0))
    as (x0 & Hx0 & Eu & Ei & Eh & Ew & Hreg & Hin).
  { rewrite advertised_client in Hx1. case_decide as E.
    - injection Hx1 as <-. subst c1. exists x. split_and!; try done. cbn. intros b. rewrite Hperm. set_solver.
    - exists x1. split_and!; try done; [|by right]. destruct (bd_clients _ _ _ _ _ before c1 x1 Hx1) as (Hreg & _).
      apply (adverts_reg_keep s s' x1); [done | | done]. intros b bx _ Hbx. rewrite Es. split; [|done]. by apply advertised_adv. }
  destruct (bd_clients _ _ _ _ _ before c1 x0 Hx0) as (_ & Hown & Hwait & Hio). split_and!; [done | | |].
  - intros b [[-> ->]|Hb]%Hin; [by rewrite new_advs, lookup_insert_eq, <- Eoc|].
    pose proof (Hown b Hb) as (bx & Hbx & E)%fmap_Some. by rewrite (proj1 (advertised_adv b bx Hbx)), E.
  - unfold wait_ok, idle. rewrite Eu, Ei, Eh, Ew, Et. destruct Hwait as [?|[?|?]]; [by left | by right; left | right; right; by apply advertised_works].
  - intros Hk. apply (io_keep dm s s' qs _ c1 x0); [done | done | done | by rewrite Em | | | exact (Hio Hk)].
    + intros _. apply receiving_keep; [done|]. intros t tx Hp Htx _ _ Hq Hsv. rewrite Et, Es, !lookup_insert_ne by done.
      eauto 10.
    + rewrite Et, Ew. intros _ Hw Hd. split; [by apply advertised_works | done].
Qed.

Lemma board_advertised : sane s' qs' -> board dm 0 0 s' qs'.
Proof.
  intros Hs'. destruct same as (Em & Et & Es & Eserv), offer as [Eoc Hosv], new_tree as [Hreg' Hperm]. constructor; try done.
  - rewrite Et. apply before.
  - apply advertised_listed.
  - apply advertised_client_fits.
  - intros t tx Htx Hp. rewrite Et in Htx. destruct (bd_trans _ _ _ _ _ before t tx Htx Hp) as (Hc & Hb & He).
    unfold trans_fits. rewrite advertised_live, Em, lookup_insert_ne by done. split_and!; [done | done |]. intros Hex.
    destruct (He Hex) as (bx & y & l & Hbx & Hy & Hw & Hl & Hin). exists bx. rewrite (proj1 (advertised_adv _ bx Hbx)), advertised_client.
    case_decide as E; [|by exists y, l]. eexists _, l. split_and!; try done. cbn. rewrite E, there in Hy. by injection Hy as <-.
  - intros b bx _ Hbx. rewrite new_advs in Hbx. apply lookup_insert_Some in Hbx as [[<- <-]|[Hne Hbx]].
    + split; [by rewrite Es|]. rewrite advertised_client, Eoc, decide_True by done. eexists. split; [done|]. cbn. rewrite Hperm. set_solver.
    + destruct (bd_advs _ _ _ _ _ before b bx) as (Hsv & y & Hy & Hin); [|done|].
      { intros ->. destruct fresh. congruence. }
      split; [by rewrite Es|]. rewrite advertised_client. case_decide as E; [|by exists y]. eexists. split; [done|]. cbn.
      rewrite Hperm. rewrite E, there in Hy. injection Hy as <-. set_solver +Hin.
  - destruct (bd_registry _ _ _ _ _ before) as [Hr Hall]. split; [by eapply registry_same|]. by rewrite Es, Eserv.
  - intros q l b Hl Hin. rewrite lookup_insert_ne in Hl by done.
    destruct (bd_waiting _ _ _ _ _ before q l b Hl Hin) as (bx & y & Hbx & Hy & Hi & Hw).
    exists bx. rewrite (proj1 (advertised_adv b bx Hbx)), advertised_client. case_decide as E; [|by exists y].
    eexists. split_and!; [done | done | |]; rewrite E, there in Hy; injection Hy as <-; done.
  - apply (apart_same 0 0 s); [apply before | |]; rewrite ?Et; [|eauto].
    intros c1 x1 Hk. rewrite advertised_client. case_decide as E; [|eauto]. intros [= <-]. subst c1. split; [done|]. by exists x.
Qed.

End Advertised.

(** ** A new client *)

Section Connected.
Context (s s' : sb T) (qs : gmap qaddr (list qaddr)) (c i : Z) (cl : list qaddr).
Hypothesis before : board dm 0 0 s qs.
Hypothesis fresh : clients s !! c = None /\ qs !! Q_global c = None.
Hypothesis list : qs !! Q_tpclients = Some cl.
Hypothesis new_clients : clients s' = <[c := mkClient i 0 NULL None tempty 0]> (clients s).
Hypothesis same : mem s' = mem s /\ trans s' = trans s /\ svcs s' = svcs s /\ advs s' = advs s /\ services s' = services s.

Notation qs' := (<[Q_tpclients := cl ++ [Q_global c]]> (<[Q_replies c := []]> (<[Q_requests c := []]> qs))).

Lemma connected_old c1 x1 : clients s !! c1 = Some x1 -> clients s' !! c1 = Some x1 /\ c1 <> c.
Proof. intros Hx1. destruct fresh as [Hf _]. assert (c1 <> c) by congruence. by rewrite new_clients, lookup_insert_ne. Qed.
Lemma connected_live c1 : is_Some (clients s' !! c1) <-> c1 = c \/ is_Some (clients s !! c1).
Proof. rewrite new_clients, lookup_insert_is_Some'. naive_solver. Qed.

(** The lists of the new client are empty. *)
Lemma connected_list (h : qaddr) l m : qs !! h = Some l -> m ∈ l ->
  h <> Q_requests c /\ h <> Q_replies c /\ exists l', qs' !! h = Some l' /\ m ∈ l' /\ (h <> Q_tpclients -> l' = l).
Proof.
  intros Hl Hin. destruct fresh as [Hf _].
  assert (h <> Q_requests c /\ h <> Q_replies c) as [N1 N2].
  { split; intros ->; pose proof (bd_lists _ _ (bd_listed _ _ _ _ _ before) _ _ _ Hl Hin) as Hfit; destruct m as [| | | | | | | | |t|]; try done;
      destruct Hfit as [Hp (tx & Htx & E)%fmap_Some]; destruct (bd_trans _ _ _ _ _ before t tx Htx Hp) as ([? ?] & _); congruence. }
  split_and!; [done | done |]. destruct (decide (h = Q_tpclients)) as [->|N3].
  - exists (cl ++ [Q_global c]). rewrite lookup_insert_eq. assert (l = cl) as -> by congruence. split_and!; [done | set_solver +Hin | done].
  - exists l. by rewrite !lookup_insert_ne.
Qed.
Lemma connected_back h l m : qs' !! h = Some l -> m ∈ l -> h = Q_tpclients /\ m = Q_global c \/ exists l0, qs !! h = Some l0 /\ m ∈ l0.
Proof.
  intros [[<- <-]|[_ [[<- <-]|[_ [[<- <-]|[_ Hl]]%lookup_insert_Some]]%lookup_insert_Some]]%lookup_insert_Some Hin;
    try (by apply not_elem_of_nil in Hin); [|eauto].
  apply elem_of_app in Hin as [Hin| ->%list_elem_of_singleton]; [right; eauto | by left].
Qed.

Lemma connected_listed : listed s' qs'.
Proof.
  destruct (bd_listed _ _ _ _ _ before) as [Hl Hh Hn Hsp], same as (_ & Et & Es & Ea & _).
  assert (forall n, qon qs n -> qon qs' n) as Hon.
  { intros n (h & l & Hq & Hin). destruct (connected_list h l n Hq Hin) as (_ & _ & l' & ? & ? & _). by exists h, l'. }
  constructor.
  - intros h l m Hl' Hin. destruct (connected_back h l m Hl' Hin) as [[-> ->]|(l0 & Hq & Hin0)].
    + cbn. apply connected_live. by left.
    + pose proof (Hl h l0 m Hq Hin0) as Hf. revert Hf. destruct h, m; cbn; rewrite ?Et, ?Es, ?Ea; try done.
      intros Hx. apply connected_live. by right.
  - intros h Hh'. rewrite !lookup_insert_is_Some'. destruct h as [| | | |c1|c1| | | | |]; cbn in *; rewrite ?Es in Hh'; auto;
      try (by right; right; right; apply Hh); apply connected_live in Hh' as [->|Hx]; auto; right; right; right; by apply Hh.
  - intros n Hn'. destruct (decide (n = Q_global c)) as [->|Hne].
    + exists Q_tpclients, (cl ++ [Q_global c]). rewrite lookup_insert_eq. set_solver.
    + apply Hon, Hn. destruct n as [| | |c1| | | | | | |]; cbn in *; rewrite ?Et in Hn'; try done.
      apply connected_live in Hn' as [->|?]; done.
  - intros n Hn'. assert (spare_live s n) as Hlv by (destruct n; cbn in *; rewrite ?Et, ?Ea in Hn'; done).
    destruct (Hsp n Hlv) as [Hq|Hq]; [left | right; by apply Hon]. rewrite !lookup_insert_ne; [done | by destruct n..].
Qed.

Lemma connected_client_fits c1 x1 : clients s' !! c1 = Some x1 -> client_fits dm 0 s' qs' c1 x1.
Proof.
  destruct same as (Em & Et & Es & Ea & _). rewrite new_clients. intros [[<- <-]|[Hne Hx1]]%lookup_insert_Some.
  - split_and!; [split; cbn | cbn | by left | done].
    + intros a. rewrite twalk_empty. by intros ?%not_elem_of_nil.
    + apply tordered_empty.
    + intros a. rewrite twalk_empty. by intros ?%not_elem_of_nil.
  - destruct (bd_clients _ _ _ _ _ before c1 x1 Hx1) as (Hreg & Hown & Hwait & Hio).
    split_and!; [by eapply adverts_reg_same | by rewrite Ea | unfold wait_ok, works; by rewrite Et, Ea |].
    intros Hk. apply (io_keep dm s s' qs _ c1 x1); [done | done | done | by rewrite Em | | | exact (Hio Hk)].
    + intros _. apply receiving_keep; [done|]. intros t tx Hp Htx _ _ Hq Hsv. rewrite Et, Es, !lookup_insert_ne by congruence. eauto 10.
    + unfold works. by rewrite Et, Ea.
Qed.

Lemma board_connected : sane s' qs' -> board dm 0 0 s' qs'.
Proof.
  intros Hs'. destruct same as (Em & Et & Es & Ea & Eserv), fresh as [Hf _]. constructor; try done.
  - rewrite Et. apply before.
  - apply connected_listed.
  - apply connected_client_fits.
  - intros t tx Htx Hp. rewrite Et in Htx. destruct (bd_trans _ _ _ _ _ before t tx Htx Hp) as (Hc & Hb & He).
    unfold trans_fits. rewrite Em, Ea. split_and!; [apply connected_live; by right | done |]. intros Hex.
    destruct (He Hex) as (ax & y & l & Hax & Hy & Hw & Hl & Hin). exists ax, y, l. rewrite (proj1 (connected_old _ y Hy)).
    destruct (connected_list _ l _ Hl Hin) as (_ & _ & l' & Hl' & _ & E). rewrite E in Hl' by done. done.
  - intros a ax Hne Hax. rewrite Ea in Hax. destruct (bd_advs _ _ _ _ _ before a ax Hne Hax) as (Hsv & y & Hy & Hin).
    split; [by rewrite Es|]. exists y. by rewrite (proj1 (connected_old _ y Hy)).
  - destruct (bd_registry _ _ _ _ _ before) as [Hr Hall]. split; [by eapply registry_same|]. by rewrite Es, Eserv.
  - intros p l a. rewrite !lookup_insert_ne by done. intros Hl Hin.
    destruct (bd_waiting _ _ _ _ _ before p l a Hl Hin) as (ax & y & Hax & Hy & ?). exists ax, y.
    by rewrite Ea, (proj1 (connected_old _ y Hy)).
  - destruct (bd_apart _ _ _ _ _ before) as [Hd Hi Hii].
    assert (forall c1 x1, clients s' !! c1 = Some x1 -> private x1 -> clients s !! c1 = Some x1) as Hold.
    { intros c1 x1. rewrite new_clients. intros [[_ <-]|[_ Hx1]]%lookup_insert_Some; [by intros (? & ? & _) | done]. }
    constructor; rewrite ?Et; [done | |].
    + intros c1 x1 t tx Hk Hp Hx1 Hpr. apply (Hi c1 x1 t tx); auto.
    + intros c1 x1 c2 x2 K1 K2 H1 H2 P1 P2. apply (Hii c1 x1 c2 x2); auto.
Qed.

End Connected.

End Growth.
