(* ===== verification/Deletion.v ===== *)
(** * Deleting

    [del_transaction], [del_advertisement], [del_service] and [del_client] from a
    consistent switchboard: they end without a fault, in a consistent one. *)

From Stdlib Require Import ZArith Lia.
From S2P Require Import Prelude Constants ByteOrder CString SearchTree Queue Memory TpMemory Keeps.
From S2P Require Import SbState SbObjects SbHandlers SbLemmas TxIo Xatmi Dispatch EventLoop Registry Messages Replies.
From S2P Require Import Transactions Calls Advertising Invariant Board BoardSteps.

Local Open Scope Z_scope.

Section Deletion.
Context {T : Type} `{SearchTree T Z} (dm : data_model).
Implicit Types (s : sb T) (x : tpclient T) (tx : tptransaction) (qs : gmap qaddr (list qaddr)).

(** What is known of an operation that ends: the simple invariant is kept too. *)
Lemma wp_wf {A} (m : M (sb T) A) s (Q : A -> sb T -> Prop) :
  sb_wf dm s -> keeps dm 0 m anything -> wp m s (fun a s' => sb_wf dm s' -> Q a s') -> wp m s Q.
Proof.
  intros Hwf Hk Hw. pose proof (wf_next _ _ Hwf). specialize (Hk s Hwf ltac:(lia)).
  unfold wp in *. destruct (m s) as [[a s']|]; [|done]. destruct Hk as (? & _ & _). auto.
Qed.

(** ** Transactions *)

Lemma wp_clear_wait c t x s Q :
  c <> 0 -> clients s !! c = Some x -> Q tt (set_clients (alter (clear_wait t) c (clients s)) s) ->
  wp (if wait4 x =? t then put_client c (set_wait4 0) else mret tt) s Q.
Proof.
  intros Hc Hx HQ. destruct (Z.eqb_spec (wait4 x) t) as [E|E].
  - eapply wp_put_client; [done | exact Hx |].
    replace (<[c := set_wait4 0 x]> (clients s)) with (alter (clear_wait t) c (clients s)); [done|].
    apply map_eq. intros i. destruct (decide (i = c)) as [->|Hi].
    + rewrite lookup_alter_eq, lookup_insert_eq, Hx. cbn. by rewrite clear_wait_self.
    + by rewrite lookup_alter_ne, lookup_insert_ne.
  - wp_step. replace (alter (clear_wait t) c (clients s)) with (clients s) in HQ; [by destruct s|].
    apply map_eq. intros i. destruct (decide (i = c)) as [->|Hi]; [|by rewrite lookup_alter_ne].
    rewrite lookup_alter_eq, Hx. cbn. by rewrite clear_wait_other.
Qed.

(** Who waits for a transaction: its client, or the worker that executes it. *)
Lemma wait4_who k e s qs c x t tx :
  board dm k e s qs -> clients s !! c = Some x -> wait4 x = t -> trans s !! t = Some tx -> 0 < t ->
  c = t_client tx \/ exists ax, advs s !! executor tx = Some ax /\ a_client ax = c.
Proof.
  intros B Hx Hw Htx Hp. destruct (bd_clients _ _ _ _ _ B c x Hx) as (_ & _ & [E|[[_ [E|[_ E]]]|Hwk]] & _).
  - lia.
  - unfold GLOBAL_ANY in E. lia.
  - rewrite Hw, Htx in E. left. by injection E.
  - right. destruct Hwk as (_ & tx' & ax & Ht & Hax & Hc). rewrite Hw, Htx in Ht. injection Ht as <-. eauto.
Qed.

Lemma clear_wait_twice t x : clear_wait t (clear_wait t x) = clear_wait t x.
Proof.
  destruct (decide (wait4 x = t)) as [E|E]; [|by rewrite !clear_wait_other by (by rewrite ?clear_wait_other)].
  rewrite (clear_wait_self t x) by done. unfold clear_wait. by destruct (wait4 (set_wait4 0 x) =? t).
Qed.

(** Clearing [wait4] of all who may wait clears it everywhere. *)
Lemma clear_all t (l : list Z) (m : gmap Z (tpclient T)) :
  (forall c x, m !! c = Some x -> wait4 x = t -> c ∈ l) ->
  foldl (fun m c => alter (clear_wait t) c m) m l = clear_wait t <$> m.
Proof.
  intros Hl. apply map_eq. intros i. rewrite lookup_fmap.
  assert (forall l m, foldl (fun m c => alter (clear_wait t) c m) m l !! i =
    if decide (i ∈ l) then clear_wait t <$> m !! i else m !! i) as ->.
  { clear. intros l. induction l as [|c l IH]; intros m; cbn [foldl].
    - by rewrite decide_False by apply not_elem_of_nil.
    - rewrite IH. destruct (decide (i = c)) as [->|Hi].
      + rewrite lookup_alter_eq, (decide_True (P := c ∈ c :: l)) by (by left).
        case_decide; [|done]. destruct (m !! c); [|done]. cbn. by rewrite clear_wait_twice.
      + rewrite lookup_alter_ne by done. destruct (decide (i ∈ l)) as [Hin|Hin].
        * by rewrite decide_True by (by right).
        * rewrite decide_False; [done|]. rewrite elem_of_cons. naive_solver. }
  case_decide as Hi; [done|]. destruct (m !! i) as [x|] eqn:E; [|done]. cbn. f_equal. symmetry.
  apply clear_wait_other. intros Hw. by apply Hi, (Hl i x).
Qed.

(** The links of a transaction are unlinked and freed. *)
Lemma trans_links k e s qs t tx : board dm k e s qs -> trans s !! t = Some tx -> 0 < t -> trans_links_ok t qs.
Proof.
  intros B Htx Hp. split_and!.
  - right. apply (bd_nodes _ _ (bd_listed _ _ _ _ _ B) (Q_t_clientq t)). split; [done | eauto].
  - apply (bd_spares _ _ (bd_listed _ _ _ _ _ B) (Q_t_svc_waitq t)). split; [done | eauto].
  - right. apply (bd_nodes _ _ (bd_listed _ _ _ _ _ B) (Q_t_global t)). split; [done | eauto].
Qed.

(** What is not mentioned by [board] but kept by deletions. *)
Definition same_output s s' : Prop :=
  out s' = out s /\ closed s' = closed s /\ next s' = next s /\ earliest s' = earliest s.

Lemma wp_del_board k e s qs t tx Q :
  sb_wf dm s -> board dm k e s qs -> trans s !! t = Some tx -> 0 < t -> unread k s (t_data tx) ->
  (forall s', sb_wf dm s' -> dropped s s' t tx -> board dm k e s' (qdrop_trans t qs) -> same_output s s' -> Q tt s') ->
  wp (del_transaction dm t) s Q.
Proof.
  intros Hwf B Htx Hp Hu HQ. apply wp_wf; [done | apply keeps_del_transaction|].
  destruct (bd_trans _ _ _ _ _ B t tx Htx Hp) as ([cl Hcl] & (len & Hb & _) & He).
  destruct (wf_trans _ _ Hwf t tx Htx) as (_ & [E|(_ & Hc0 & Hs0)] & _); [unfold GLOBAL_ANY in E; lia|].
  destruct (trans_links k e s qs t tx B Htx Hp) as (N1 & N2 & N3).
  pose proof (sn_queues _ _ (bd_sane _ _ _ _ _ B)) as Hq.
  unfold del_transaction. rewrite (proj2 (Z.eqb_neq t 0)) by lia.
  wp_step. eapply wp_get_trans; [lia | exact Htx |].
  wp_step. apply wp_assert; [by rewrite !(proj2 (Z.eqb_neq _ 0))|].
  destruct (qrep_qremove _ _ _ Hq N1) as (m1 & E1 & Q1).
  pose proof (qnode_qremove _ _ _ _ Hq N1 N2) as N2'. pose proof (qnode_qremove _ _ _ _ Hq N1 N3) as N3'.
  destruct (qrep_qremove _ _ _ Q1 N2') as (m2 & E2 & Q2).
  pose proof (qnode_qremove _ _ _ _ Q1 N2' N3') as N3''.
  destruct (qrep_qremove _ _ _ Q2 N3'') as (m3 & E3 & Q3).
  wp_step. eapply wp_in_q; [exact E1|]. wp_step. eapply wp_in_q; [exact E2|].
  wp_step. eapply wp_in_q; [exact E3|]. wp_step. eapply wp_get_client; [done | exact Hcl |].
  wp_step. eapply wp_clear_wait; [done | exact Hcl |].
  set (s1 := set_clients _ _).
  assert (exists l, (forall c x, clients s !! c = Some x -> wait4 x = t -> c ∈ t_client tx :: l) /\
    forall Q', Q' tt (set_clients (foldl (fun m c => alter (clear_wait t) c m) (clients s1) l) s1) ->
    wp (if negb (executor tx =? 0) then
         a ← get_adv (executor tx); w ← get_client (a_client a);
         if wait4 w =? t then put_client (a_client a) (set_wait4 0) else mret tt
       else mret tt) s1 Q') as (l & Hl & Hrest).
  { assert (forall c x, clients s !! c = Some x -> wait4 x = t ->
      c = t_client tx \/ exists ax, advs s !! executor tx = Some ax /\ a_client ax = c) as Hwho
      by (intros c x Hx Hw; by eapply wait4_who).
    destruct (Z.eqb_spec (executor tx) 0) as [E0|E0]; cbn [negb].
    - exists []. split; [|intros Q' HQ'; wp_step; by destruct s].
      intros c x Hx Hw. destruct (Hwho c x Hx Hw) as [->|(ax & Hax & _)]; [by left|].
      rewrite E0 in Hax. apply (wf_advs _ _ Hwf) in Hax as [? _]. lia.
    - destruct (He E0) as (ax & w & _ & Hax & Hw & _). exists [a_client ax]. split.
      + intros c x Hx Hwt. destruct (Hwho c x Hx Hwt) as [->|(ax' & Hax' & <-)]; [by left|].
        assert (ax' = ax) as -> by congruence. right. by left.
      + intros Q' HQ'. destruct (wf_clients _ _ Hwf _ _ Hw) as [? _].
        assert (exists w', clients s1 !! a_client ax = Some w') as [w' Hw'].
        { cbn. destruct (decide (a_client ax = t_client tx)) as [E|E].
          - rewrite E, lookup_alter_eq. rewrite E in Hw. rewrite Hw. eauto.
          - rewrite lookup_alter_ne by done. eauto. }
        wp_step. eapply wp_get_adv; [done | exact Hax |]. wp_step. eapply wp_get_client; [lia | exact Hw' |].
        eapply wp_clear_wait; [lia | exact Hw' | exact HQ']. }
  wp_step. apply Hrest. wp_step.
  assert (tpbuf dm (tp_heap (mem s1)) (t_data tx) len) as Hb1 by done.
  eapply wp_in_mem; [by eapply tpfree_buf|]. unfold free_trans. wp_step.
  eapply wp_get_trans; [lia | exact Htx |]. unfold in_q, q_free. repeat wp_step.
  set (s' := set_qm _ _). intros Hwf'.
  assert (dropped s s' t tx) as Hd.
  { constructor; try done. cbn. rewrite <- (clear_all t (t_client tx :: l)) by done. done. }
  apply HQ; [done | done | | done]. eapply (board_dropped dm k e s s' qs t tx); try done.
  destruct (bd_sane _ _ _ _ _ B) as [_ [Hbrk Hbelow] Hmem]. split.
  - cbn. unfold qdrop_trans. cbn [qremove_all foldl]. apply qrep_free.
    + apply qrep_free; [apply qrep_free; [done | apply qremove_self]|].
      rewrite lookup_delete_ne by done. by apply qremove_keep, qremove_keep, qremove_self.
    + rewrite !lookup_delete_ne by done. by apply qremove_keep, qremove_self.
  - apply (wf_heap _ _ Hwf').
  - exact Hmem.
Qed.

(** ** Many transactions *)

(** The lists have lost nodes, and only that. *)
Definition qsub (qs qs' : gmap qaddr (list qaddr)) : Prop :=
  forall h l' n, qs' !! h = Some l' -> n ∈ l' -> exists l, qs !! h = Some l /\ n ∈ l.

#[export] Instance qsub_preorder : PreOrder qsub.
Proof.
  split; [intros qs h l n; eauto|]. intros q1 q2 q3 H12 H23 h l n Hl Hn.
  destruct (H23 h l n Hl Hn) as (l2 & Hl2 & Hn2). by eapply H12.
Qed.
Lemma qsub_drop t qs : qsub qs (qdrop_trans t qs).
Proof.
  intros h l n. rewrite lookup_qdrop. case_decide; [done|].
  intros (l0 & Hl0 & ->)%fmap_Some [_ Hn]%list_elem_of_filter. eauto.
Qed.
Lemma qsub_drops (ts : list Z) qs : qsub qs (foldl (flip qdrop_trans) qs ts).
Proof. revert qs; induction ts as [|t ts IH]; intros qs; [done|]. etransitivity; [apply (qsub_drop t) | apply IH]. Qed.
Lemma qsub_delete h qs : qsub qs (delete h qs).
Proof. intros h' l n [_ Hl]%lookup_delete_Some Hn. eauto. Qed.
Lemma qsub_remove (n : qaddr) qs : qsub qs (qremove n qs).
Proof.
  intros h l n'. rewrite lookup_qremove. case_decide; [intros [= <-] Hn; by apply not_elem_of_nil in Hn|].
  intros (l0 & Hl0 & ->)%fmap_Some [_ Hn]%list_elem_of_filter. eauto.
Qed.

(** A client waits as before, or no longer for the transaction that it waited for. *)
Definition unhooked x x' : Prop := wait4 x' = wait4 x \/ (wait4 x' = 0 /\ 0 < wait4 x).
#[export] Instance unhooked_preorder : PreOrder unhooked.
Proof.
  split; [by left|]. intros x1 x2 x3 [E1|[E1 P1]] [E2|[E2 P2]]; unfold unhooked; rewrite ?E1 in *; auto; lia.
Qed.

(** What deleting transactions leaves of a client. *)
Definition calmer x x' : Prop := same_input x x' /\ unhooked x x'.

Record thinner s s' : Prop := {
  th_clients c : option_Forall2 calmer (clients s !! c) (clients s' !! c);
  th_trans : trans s' ⊆ trans s;
  th_advs : advs s' = advs s;
  th_output : same_output s s';
}.

Lemma thinner_back s s' c x' : thinner s s' -> clients s' !! c = Some x' ->
  exists x, clients s !! c = Some x /\ calmer x x'.
Proof. intros Hth Hx'. pose proof (th_clients _ _ Hth c) as Ho. rewrite Hx' in Ho. inversion Ho; subst. eauto. Qed.

#[export] Instance thinner_preorder : PreOrder thinner.
Proof.
  split.
  - intros s. constructor; try done. intros c. destruct (clients s !! c); constructor. split; [done | by left].
  - intros s1 s2 s3 [C1 T1 R1 O1] [C2 T2 R2 O2]. constructor.
    + intros c. specialize (C1 c). specialize (C2 c). destruct (clients s1 !! c), (clients s2 !! c), (clients s3 !! c);
        inversion C1 as [? ? [I1 W1]|]; inversion C2 as [? ? [I2 W2]|]; subst; constructor.
      split; [|by etransitivity]. unfold same_input in *. intuition congruence.
    + by etransitivity.
    + congruence.
    + unfold same_output in *. intuition congruence.
Qed.

Lemma thinner_eq s s' : clients s' = clients s -> trans s' = trans s -> advs s' = advs s -> same_output s s' -> thinner s s'.
Proof.
  intros Ec Et Ea Ho. constructor; [|by rewrite Et|done|done]. intros c. rewrite Ec.
  destruct (clients s !! c); constructor. split; [done | by left].
Qed.

Lemma dropped_thinner s s' t tx : 0 < t -> dropped s s' t tx -> same_output s s' -> thinner s s'.
Proof.
  intros Hp [Em Ec Et Er] Ho. constructor; [|rewrite Et; apply delete_subseteq | apply Er | done].
  intros c. rewrite Ec, lookup_fmap. destruct (clients s !! c) as [x|]; constructor.
  split; [apply clear_wait_input|]. unfold clear_wait. destruct (Z.eqb_spec (wait4 x) t) as [E|]; [right; split; [done | lia] | by left].
Qed.

Lemma unread_thinner k s s' p : thinner s s' -> unread k s p -> unread k s' p.
Proof.
  intros Hth Hu c x' Hk (x & Hx & (_ & _ & -> & -> & _) & _)%(thinner_back _ _ _ _ Hth). by eapply Hu.
Qed.

(** The loop [while (!QISEMPTY(h)) del_transaction(first of h)]: [link] is the link of
    a transaction that is on the list. *)
Section Loop.
Context (h : qaddr) (link : Z -> qaddr) (offset : qaddr -> M (sb T) Z).
Hypothesis link_of : forall t t', t_link t (link t') <-> t = t'.
Hypothesis offset_of : forall t s, offset (link t) s = Done (t, s).
Hypothesis header : forall t, ~ t_link t h.

Lemma filter_links t (ts : list Z) : t ∉ ts -> filter (fun n => ~ t_link t n) (link <$> ts) = link <$> ts.
Proof.
  induction ts as [|t' ts IH]; intros Hn; [done|]. apply not_elem_of_cons in Hn as [Hne Hn].
  cbn [fmap list_fmap]. rewrite filter_cons_True by (by rewrite link_of). f_equal. by apply IH.
Qed.

Lemma wp_del_loop k e (ts : list Z) n s qs Q :
  (length ts < n)%nat -> sb_wf dm s -> board dm k e s qs -> qs !! h = Some (link <$> ts) ->
  (forall t, t ∈ ts -> 0 < t /\ exists tx, trans s !! t = Some tx /\ unread k s (t_data tx)) ->
  (forall s', sb_wf dm s' -> board dm k e s' (foldl (flip qdrop_trans) qs ts) -> thinner s s' ->
    svcs s' = svcs s /\ services s' = services s -> foldl (flip qdrop_trans) qs ts !! h = Some [] ->
    (forall t, t ∉ ts -> trans s' !! t = trans s !! t) -> Q tt s') ->
  wp (while_ n (e ← in_q (QISEMPTY h); mret (negb e))
    (q ← in_q (QFIRST h); t ← offset q; del_transaction dm t)) s Q.
Proof.
  revert n s qs. induction ts as [|t ts IH]; intros n s qs Hn Hwf B Hh Hts HQ; (destruct n as [|n]; [cbn in Hn; lia|]);
    cbn [while_]; pose proof (qr_queue _ _ (sn_queues _ _ (bd_sane _ _ _ _ _ B)) _ _ Hh) as Hqueue;
    do 2 wp_step; (eapply wp_in_q_read; [by eapply QISEMPTY_queue|]); wp_step.
  - rewrite bool_decide_true by done. cbn [negb]. wp_step. by apply HQ.
  - rewrite bool_decide_false by done. cbn [negb]. do 2 wp_step.
    eapply wp_in_q_read; [by eapply QFIRST_queue|]. wp_step. eapply wp_of_eq; [apply offset_of|].
    destruct (Hts t) as (Hp & tx & Htx & Hu); [by left|].
    assert (t ∉ ts) as Hnt.
    { destruct Hqueue as [_ [_ Hnd]%NoDup_cons]. apply NoDup_cons in Hnd as [Hnd _]. intros Hin. apply Hnd.
      by apply list_elem_of_fmap_2. }
    eapply wp_del_board; [done | exact B | exact Htx | done | done |]. intros s1 Hwf1 D1 B1 O1.
    pose proof (dropped_thinner _ _ _ _ Hp D1 O1) as Hth.
    apply (IH n s1 (qdrop_trans t qs)); [cbn in Hn; lia | done | done | | |].
    + rewrite lookup_qdrop, decide_False, Hh by done. cbn [fmap list_fmap option_fmap option_map].
      f_equal. rewrite filter_cons_False by (rewrite link_of; naive_solver). by apply filter_links.
    + intros t' Hin. destruct (Hts t') as (Hp' & tx' & Htx' & Hu'); [by right|]. split; [done|]. exists tx'.
      split; [|by eapply unread_thinner]. rewrite (dr_trans _ _ _ _ D1), lookup_delete_ne; [done|]. by intros ->.
    + intros s' Hwf' B' Hth' [E1 E2] He Hk. destruct (dr_rest _ _ _ _ D1) as (E3 & _ & E4).
      apply HQ; [done | done | by etransitivity | by rewrite E1, E2 | done |].
      intros t' [Hne Hn']%not_elem_of_cons. rewrite Hk, (dr_trans _ _ _ _ D1) by done. by rewrite lookup_delete_ne.
Qed.

End Loop.

(** The lists of one kind have links of one kind. *)
Lemma client_list k e s qs c h l : board dm k e s qs -> h = Q_requests c \/ h = Q_replies c -> qs !! h = Some l ->
  exists ts : list Z, l = Q_t_clientq <$> ts /\ forall t, t ∈ ts -> 0 < t /\ exists tx, trans s !! t = Some tx /\ t_client tx = c.
Proof.
  intros B Hh Hl. pose proof (fun n => bd_lists _ _ (bd_listed _ _ _ _ _ B) h l n Hl) as Hf. clear Hl.
  induction l as [|n l IH]; [exists []; split; [done|]; intros t Ht; by apply not_elem_of_nil in Ht|].
  destruct IH as (ts & -> & Hts); [intros n' Hn'; apply Hf; by right|].
  assert (fits s h n) as Hn by (apply Hf; by left).
  destruct Hh as [->| ->]; destruct n as [| | | | | | | | |t|]; try done; cbn in Hn;
    destruct Hn as (Hp & (tx & Htx & ->)%fmap_Some);
    (exists (t :: ts); split; [done|]; intros t' [->|Ht']%elem_of_cons; [eauto | by apply Hts]).
Qed.

Lemma service_list k e s qs p sv l : board dm k e s qs -> svcs s !! p = Some sv -> qs !! Q_waitq p = Some l ->
  if wait_contains_transactions sv then
    exists ts : list Z, l = Q_t_svc_waitq <$> ts /\ forall t, t ∈ ts -> 0 < t /\ exists tx, trans s !! t = Some tx /\ t_svc tx = p
  else forall n, n ∈ l -> exists a, n = Q_adv_waitq a /\ a_svc <$> advs s !! a = Some p.
Proof.
  intros B Hsv Hl. pose proof (fun n => bd_lists _ _ (bd_listed _ _ _ _ _ B) _ l n Hl) as Hf. clear Hl.
  destruct (wait_contains_transactions sv) eqn:Ew.
  - induction l as [|n l IH]; [exists []; split; [done|]; intros t Ht; by apply not_elem_of_nil in Ht|].
    destruct IH as (ts & -> & Hts); [intros n' Hn'; apply Hf; by right|].
    assert (fits s (Q_waitq p) n) as Hn by (apply Hf; by left).
    destruct n as [| | | | | | |a| | |t]; try done; cbn in Hn; rewrite Hsv in Hn; cbn in Hn; [destruct Hn; congruence|].
    destruct Hn as (Hp & (tx & Htx & ->)%fmap_Some & _).
    exists (t :: ts); split; [done|]. intros t' [->|Ht']%elem_of_cons; [eauto | by apply Hts].
  - intros n Hn%Hf. destruct n as [| | | | | | |a| | |t]; try done; cbn in Hn; rewrite Hsv in Hn; cbn in Hn.
    + exists a. by destruct Hn.
    + destruct Hn as (_ & _ & [=]). congruence.
Qed.

(** ** Services *)

(** No client but [k] sends data of a call of the service. *)
Definition uncalled (k : Z) s (p : Z) : Prop :=
  forall c x t tx, c <> k -> clients s !! c = Some x -> handler_fn x <> None ->
    0 < t -> trans s !! t = Some tx -> t_data tx = input x -> t_svc tx <> p.

Lemma uncalled_thinner k s s' p : thinner s s' -> uncalled k s p -> uncalled k s' p.
Proof.
  intros Hth Hu c x' t tx Hk (x & Hx & (_ & _ & -> & -> & _) & _)%(thinner_back _ _ _ _ Hth) Hh Hp Htx.
  eapply (Hu c x t tx); try done. eapply lookup_weaken; [exact Htx | apply (th_trans _ _ Hth)].
Qed.

(** The last step of [del_service]. *)
Lemma wp_unserve k e s qs p sv Q :
  board dm k e s qs -> p <> 0 -> svcs s !! p = Some sv -> qs !! Q_waitq p = Some [] ->
  (forall a ax, a <> e -> advs s !! a = Some ax -> a_svc ax <> p) -> uncalled k s p ->
  (forall s', board dm k e s' (delete (Q_waitq p) qs) -> thinner s s' -> trans s' = trans s -> Q tt s') ->
  wp (services_live ;; s' ← gets id;
    modify (set_services (tdelete (cmp_service s' (svc_name s' p)) (services s'))) ;; free_service p) s Q.
Proof.
  intros B Hp0 Hsv He Hun Hnc HQ. destruct (bd_registry _ _ _ _ _ B) as [Hr Hall].
  assert (p ∈ twalk (services s)) as Hin by (apply Hall; eauto).
  assert (compares (key s) (key s p) (cmp_service s (svc_name s p))) as Hcmp by apply cmp_service_compares.
  pose proof (tdelete_found (key s) (services s) p _ Hcmp (proj2 Hr) Hin) as Hdel.
  wp_step. eapply wp_of_eq; [by apply services_live_run|]. repeat wp_step. cbn [id].
  set (t' := tdelete _ _) in *. eapply wp_of_eq; [by apply (free_service_run _ p sv)|].
  apply HQ; [|by apply thinner_eq|done].
  eapply (board_unserve dm k e s _ qs p t' B); try done.
  destruct (bd_sane _ _ _ _ _ B) as [Q1 Q2 Q3]. split; [by apply qrep_free | done | done].
Qed.

(** No worker waits for a service that nobody advertises. *)
Lemma no_worker_waits k e s qs p l :
  sb_wf dm s -> board dm k e s qs -> qs !! Q_waitq p = Some l ->
  (forall a ax, a <> e -> advs s !! a = Some ax -> a_svc ax <> p) ->
  (forall n, n ∈ l -> exists a, n = Q_adv_waitq a /\ a_svc <$> advs s !! a = Some p) -> l = [].
Proof.
  intros Hwf B Hl Hun Hlist. destruct l as [|n0 l]; [done|].
  destruct (Hlist n0) as (a & -> & (ax & Hax & Ep)%fmap_Some); [by left|].
  exfalso. apply (Hun a ax); [|done|done]. intros ->.
  destruct (wf_advs _ _ Hwf e ax Hax) as [? _]. destruct (bd_exempt _ _ _ _ _ B ltac:(lia)) as [Hq _].
  apply (qrep_apart _ _ _ _ _ _ (sn_queues _ _ (bd_sane _ _ _ _ _ B)) Hl Hq ltac:(done) (Q_adv_waitq e)); [|by left].
  right. by left.
Qed.

Lemma wp_del_service n k e s qs p Q :
  sb_wf dm s -> board dm k e s qs -> is_Some (svcs s !! p) ->
  (forall a ax, a <> e -> advs s !! a = Some ax -> a_svc ax <> p) -> uncalled k s p ->
  (forall s' qs', sb_wf dm s' -> board dm k e s' qs' -> thinner s s' -> qsub qs qs' ->
    (forall t tx, trans s !! t = Some tx -> t_svc tx <> p -> trans s' !! t = Some tx) -> Q tt s') ->
  wp (del_service dm (S n) p) s Q.
Proof.
  intros Hwf B [sv Hsv] Hun Hnc HQ. apply wp_wf; [done | apply keeps_del_both|].
  destruct (wf_svcs _ _ Hwf p sv Hsv) as [Hp0 _].
  destruct (bd_heads _ _ (bd_listed _ _ _ _ _ B) (Q_waitq p)) as [l Hl]; [by exists sv|].
  cbn [del_service]. rewrite (proj2 (Z.eqb_neq p 0)) by lia. wp_step. wp_step. wp_step. apply wp_assert.
  { rewrite bool_decide_false; [done|]. intros E%troot_none. cbn [id] in E.
    assert (p ∈ twalk (services s)) as Hin by (apply (bd_registry _ _ _ _ _ B); eauto).
    rewrite E in Hin. by apply not_elem_of_nil in Hin. }
  wp_step. eapply wp_get_svc; [lia | exact Hsv |]. wp_step. unfold queue_fuel. repeat wp_step.
  pose proof (service_list k e s qs p sv l B Hsv Hl) as Hlist.
  pose proof (qr_queue _ _ (sn_queues _ _ (bd_sane _ _ _ _ _ B)) _ _ Hl) as Hqueue.
  pose proof (is_queue_size _ _ _ Hqueue) as Hsize.
  destruct (wait_contains_transactions sv) eqn:Ew.
  - destruct Hlist as (ts & -> & Hts). rewrite length_fmap in Hsize.
    apply (wp_del_loop (Q_waitq p) Q_t_svc_waitq offset_t_svc_waitq) with (k := k) (e := e) (ts := ts) (qs := qs);
      [unfold t_link; naive_solver | done | unfold t_link; naive_solver | lia | done | done | done | |].
    + intros t Ht. destruct (Hts t Ht) as (Hp & tx & Htx & Hpx). split; [done|]. exists tx. split; [done|].
      intros c x Hk Hx Hh Ei. by eapply (Hnc c x t tx).
    + intros s1 Hwf1 B1 Hth [Es _] He Hkept. eapply (wp_unserve k e s1 _ p sv); [exact B1 | lia | by rewrite Es | done | | |].
      * by rewrite (th_advs _ _ Hth).
      * by eapply uncalled_thinner.
      * intros s2 B2 Hth2 E2 Hwf2. eapply HQ; [done | exact B2 | by etransitivity | etransitivity; [apply qsub_drops | apply qsub_delete] |].
        intros t tx Htx Hsp. rewrite E2, Hkept; [done|]. intros Hin. destruct (Hts t Hin) as (_ & tx' & Htx' & <-). congruence.
  - assert (l = []) as -> by by eapply no_worker_waits.
    cbn [while_]. do 2 wp_step. eapply wp_in_q_read; [by eapply QISEMPTY_queue|].
    wp_step. rewrite bool_decide_true by done. cbn [negb]. wp_step.
    eapply (wp_unserve k e s qs p sv); [done | lia | done | done | done | done |].
    intros s2 B2 Hth2 E2 Hwf2. eapply HQ; [done | exact B2 | done | apply qsub_delete |]. by rewrite E2.
Qed.

(** ** Advertisements *)

(** What deleting the advertisements and the transactions of [c] leaves. *)
Definition same_io x x' : Prop :=
  fd x' = fd x /\ used x' = used x /\ input x' = input x /\ handler_fn x' = handler_fn x.
Definition shrunk (c c' : Z) x x' : Prop :=
  same_io x x' /\ unhooked x x' /\ (c' <> c -> adverts x' = adverts x).

(** A client other than [c] advertises the service. *)
Definition elsewhere (c : Z) s (p : Z) : Prop := exists a ax, advs s !! a = Some ax /\ a_svc ax = p /\ a_client ax <> c.

Record shrinks (c : Z) s s' : Prop := {
  sh_clients c' : option_Forall2 (shrunk c c') (clients s !! c') (clients s' !! c');
  sh_trans : trans s' ⊆ trans s;
  sh_advs : advs s' ⊆ advs s;
  sh_others a ax : advs s !! a = Some ax -> a_client ax <> c -> advs s' !! a = Some ax;
  sh_kept t tx : trans s !! t = Some tx -> t_client tx <> c -> elsewhere c s (t_svc tx) -> trans s' !! t = Some tx;
  sh_output : same_output s s';
}.

Lemma shrinks_back c s s' c' x' : shrinks c s s' -> clients s' !! c' = Some x' ->
  exists x, clients s !! c' = Some x /\ shrunk c c' x x'.
Proof. intros Hsh Hx'. pose proof (sh_clients _ _ _ Hsh c') as Ho. rewrite Hx' in Ho. inversion Ho; subst. eauto. Qed.
Lemma shrinks_forth c s s' c' x : shrinks c s s' -> clients s !! c' = Some x ->
  exists x', clients s' !! c' = Some x' /\ shrunk c c' x x'.
Proof. intros Hsh Hx. pose proof (sh_clients _ _ _ Hsh c') as Ho. rewrite Hx in Ho. inversion Ho; subst. eauto. Qed.

#[export] Instance shrinks_preorder c : PreOrder (shrinks c).
Proof.
  split.
  - intros s. constructor; try done. intros c'. destruct (clients s !! c'); constructor. split_and!; [done | by left | done].
  - intros s1 s2 s3 [C1 T1 A1 X1 K1 O1] [C2 T2 A2 X2 K2 O2]. constructor.
    + intros c'. specialize (C1 c'). specialize (C2 c').
      destruct (clients s1 !! c'), (clients s2 !! c'), (clients s3 !! c');
        inversion C1 as [? ? (I1 & W1 & T1')|]; inversion C2 as [? ? (I2 & W2 & T2')|]; subst; constructor.
      unfold shrunk, same_io in *. split_and!; [intuition congruence.. | by etransitivity | intuition congruence].
    + by etransitivity.
    + by etransitivity.
    + auto.
    + intros t tx Htx Hc (a & ax & Hax & Hp). apply K2; [apply K1; try done; by exists a, ax | done |].
      exists a, ax. split; [apply X1; [done | apply Hp] | done].
    + unfold same_output in *. intuition congruence.
Qed.

(** Every client that is sending data of a call calls a service that a client other
    than [c] advertises. *)
Definition quiet (k c : Z) s : Prop :=
  forall c1 x1 t tx, c1 <> k -> clients s !! c1 = Some x1 -> handler_fn x1 <> None ->
    0 < t -> trans s !! t = Some tx -> t_data tx = input x1 ->
    elsewhere c s (t_svc tx).

Lemma quiet_shrinks k c s s' : shrinks c s s' -> quiet k c s -> quiet k c s'.
Proof.
  intros Hsh Hq c1 x1' t tx Hk (x1 & Hx1 & (_ & _ & -> & ->) & _)%(shrinks_back _ _ _ _ _ Hsh) Hh Hp Htx Ei.
  destruct (Hq c1 x1 t tx) as (a & ax & Hax & Es & Hc); try done.
  { eapply lookup_weaken; [exact Htx | apply (sh_trans _ _ _ Hsh)]. }
  exists a, ax. split; [|done]. by apply (sh_others _ _ _ Hsh).
Qed.

(** The list of the clients. *)
Lemma clients_list k e s qs : sb_wf dm s -> board dm k e s qs ->
  exists cs, all_clients s qs cs /\ forall c, is_Some (clients s !! c) -> c ∈ cs.
Proof.
  intros Hwf B. destruct (bd_heads _ _ (bd_listed _ _ _ _ _ B) Q_tpclients) as [l Hl]; [done|].
  assert (exists cs : list Z, l = Q_global <$> cs /\ forall c, c ∈ cs -> is_Some (clients s !! c)) as (cs & -> & Hcs).
  { pose proof (fun n => bd_lists _ _ (bd_listed _ _ _ _ _ B) _ l n Hl) as Hf. clear Hl.
    induction l as [|n l IH]; [exists []; split; [done|]; intros c Hc; by apply not_elem_of_nil in Hc|].
    destruct IH as (cs & -> & Hcs); [intros n' Hn'; apply Hf; by right|].
    assert (fits s Q_tpclients n) as Hn by (apply Hf; by left). destruct n as [| | |c| | | | | | |]; try done.
    exists (c :: cs). split; [done|]. intros c' [->|Hc']%elem_of_cons; [done | by apply Hcs]. }
  exists cs. split; [split; [done|]|].
  - intros c Hc. destruct (Hcs c Hc) as [x Hx]. destruct (wf_clients _ _ Hwf c x Hx) as [? _]. split; [lia|].
    exists x. split; [done|]. by destruct (bd_clients _ _ _ _ _ B c x Hx).
  - intros c Hc. destruct (bd_nodes _ _ (bd_listed _ _ _ _ _ B) (Q_global c)) as (h & l & Hl' & Hin); [done|].
    pose proof (bd_lists _ _ (bd_listed _ _ _ _ _ B) h l _ Hl' Hin) as Hf. destruct h; try done.
    rewrite Hl in Hl'. injection Hl' as <-. apply list_elem_of_fmap in Hin as (c' & [= ->] & ?). done.
Qed.

Lemma wf_of_run {A} (m : M (sb T) A) s a s' :
  sb_wf dm s -> keeps dm 0 m anything -> m s = Done (a, s') -> sb_wf dm s'.
Proof.
  intros Hwf Hk E. pose proof (wf_next _ _ Hwf). specialize (Hk s Hwf ltac:(lia)). rewrite E in Hk. apply Hk.
Qed.

Lemma untree_wf s a c x t' m' n :
  sb_wf dm s -> c <> 0 -> clients s !! c = Some x -> qdelete (Q_adv_waitq a) (qm s) = Done (n, m') ->
  sb_wf dm (untree s c x t' m').
Proof.
  intros Hwf Hc Hx Em.
  apply (wf_of_run (in_q (qdelete (Q_adv_waitq a)) ;; put_client c (set_adverts t')) s tt); [done | |].
  - apply keeps_then; [apply keeps_in_q, pres_qdelete | intros _; apply keeps_set_adverts].
  - rewrite (bind_run _ _ s (set_qm m' s) n) by (unfold in_q, zoom; by rewrite Em).
    apply wp_eq. by eapply wp_put_client.
Qed.

(** If the scan of the clients finds nobody, nobody advertises the service. *)
Lemma nobody_advertises k a s qs p sv (cs : list Z) :
  board dm k a s qs -> svcs s !! p = Some sv -> (forall c, is_Some (clients s !! c) -> c ∈ cs) ->
  ~ someone_advertises s cs (svcname sv) -> forall b bx, b <> a -> advs s !! b = Some bx -> a_svc bx <> p.
Proof.
  intros B Hsv Hcs Hno b bx Hne Hbx <-. destruct (bd_advs _ _ _ _ _ B b bx Hne Hbx) as (_ & x & Hx & Hin).
  apply Hno. exists (a_client bx), x, b. split_and!; [apply Hcs; eauto | done |]. split; [done|].
  unfold akey, adv_name. rewrite Hbx. cbn. by rewrite Hsv.
Qed.

(** [del_advertisement] after the scan. *)
Lemma wp_scanned n k a ax s qs sv (cs : list Z) Q :
  sb_wf dm s -> board dm k a s qs -> advs s !! a = Some ax -> svcs s !! a_svc ax = Some sv ->
  (forall c, c ∈ cs -> c <> 0 /\ exists x, clients s !! c = Some x /\ adverts_reg s x) ->
  (forall c, is_Some (clients s !! c) -> c ∈ cs) ->
  (forall t tx, trans s !! t = Some tx -> executor tx <> a) -> quiet k (a_client ax) s ->
  (forall s1 s' qs', sb_wf dm s1 -> thinner s s1 -> board dm k 0 s' qs' -> qsub qs qs' -> advs s' = delete a (advs s) ->
    clients s' = clients s1 /\ trans s' = trans s1 -> same_output s1 s' ->
    (forall t tx, trans s !! t = Some tx -> elsewhere (a_client ax) s (t_svc tx) -> trans s' !! t = Some tx) -> Q tt s') ->
  wp (found ← other_advertiser (Q_global <$> cs) (svcname sv);
      (if (found : bool) then mret tt else del_service dm (S n) (a_svc ax)) ;; free_adv a) s Q.
Proof.
  intros Hwf B Hax Hsv Hcs Hall Hex Hq HQ. destruct (bd_registry _ _ _ _ _ B) as [Hr Hreg].
  destruct (wf_advs _ _ Hwf a ax Hax) as [Ha _].
  assert (registered s (svcname sv) (a_svc ax)) as Hregd.
  { split; [apply Hreg; eauto|]. unfold key, svc_name. by rewrite Hsv. }
  destruct (other_advertiser_run s cs (svcname sv) (a_svc ax) Hr Hregd Hcs) as (b & Eb & Hb).
  wp_step. eapply wp_of_eq; [exact Eb|].
  assert (forall s1 qs1, sb_wf dm s1 -> board dm k a s1 qs1 -> thinner s s1 -> qsub qs qs1 ->
    (forall t tx, trans s !! t = Some tx -> elsewhere (a_client ax) s (t_svc tx) -> trans s1 !! t = Some tx) ->
    wp (free_adv a) s1 Q) as Hfree.
  { intros s1 qs1 Hwf1 B1 Hth Hqs Hkept. eapply wp_of_eq; [apply (free_adv_run s1 a ax); [lia | by rewrite (th_advs _ _ Hth)]|].
    eapply (HQ s1 _ (delete (Q_adv_waitq a) qs1)); [done | done | |
      etransitivity; [exact Hqs | apply qsub_delete] | cbn; by rewrite (th_advs _ _ Hth) | done | done | done].
    eapply (board_unadvertise dm k a s1); try done.
    - split; [lia|]. intros t tx Htx. apply (Hex t). eapply lookup_weaken; [exact Htx | apply (th_trans _ _ Hth)].
    - destruct (bd_sane _ _ _ _ _ B1) as [Q1 Q2 Q3]. split; [|done|done].
      apply qrep_free; [done|]. by apply (bd_exempt _ _ _ _ _ B1); lia. }
  wp_step. destruct b.
  - wp_step. by eapply Hfree.
  - pose proof (nobody_advertises k a s qs (a_svc ax) sv cs B Hsv Hall) as Hun.
    assert (~ someone_advertises s cs (svcname sv)) as Hno by (intros Hs%Hb; done). specialize (Hun Hno).
    eapply (wp_del_service n k a s qs); [done | done | by exists sv | done | |].
    + intros c x t tx Hk Hx Hh Hp Htx Hd Es. destruct (Hq c x t tx) as (b & bx & Hbx & Eb' & Hc); try done.
      apply (Hun b bx); [|done|congruence]. intros ->. congruence.
    + intros s1 qs1 Hwf1 B1 Hth Hqs Hkept. eapply Hfree; [done | done | done | done |]. intros t tx Htx (b & bx & Hbx & Eb' & Hc).
      apply Hkept; [done|]. rewrite <- Eb'. apply (Hun b bx); [|done]. intros ->. congruence.
Qed.

Lemma wp_del_advert n k s qs a ax Q :
  sb_wf dm s -> board dm k 0 s qs -> advs s !! a = Some ax ->
  (forall t tx, trans s !! t = Some tx -> executor tx <> a) -> quiet k (a_client ax) s ->
  (forall s' qs', sb_wf dm s' -> board dm k 0 s' qs' -> shrinks (a_client ax) s s' -> advs s' = delete a (advs s) ->
    qsub qs qs' -> (forall x x', clients s !! a_client ax = Some x -> clients s' !! a_client ax = Some x' ->
      twalk (adverts x) ≡ₚ a :: twalk (adverts x')) -> Q tt s') ->
  wp (del_advertisement dm (S (S n)) a) s Q.
Proof.
  intros Hwf B Hax Hex Hq HQ. apply wp_wf; [done | apply keeps_del_advertisement|].
  destruct (wf_advs _ _ Hwf a ax Hax) as (Ha & Hc0 & Hs0 & _). set (c := a_client ax) in *.
  destruct (bd_advs _ _ _ _ _ B a ax ltac:(lia) Hax) as ([sv Hsv] & x & Hx & Hin). fold c in Hx.
  destruct (bd_clients _ _ _ _ _ B c x Hx) as (Hreg & _).
  destruct (clients_list k 0 s qs Hwf B) as (cs & Hall & Hcs).
  destruct (bd_sane _ _ _ _ _ B) as [Q1 Q2 Q3].
  destruct (del_advertisement_prefix dm (S n) s a ax x sv qs cs) as (t' & m' & Q' & Em & Ho' & Hperm & [Hcl' Hall'] & E);
    try done; [lia | apply (bd_spares _ _ (bd_listed _ _ _ _ _ B)); by exists ax |].
  unfold wp. rewrite E. fold c. set (s2 := untree s c x t' m').
  assert (sb_wf dm s2) as Hwf2 by by eapply untree_wf.
  assert (board dm k a s2 (qremove (Q_adv_waitq a) qs)) as B2.
  { by eapply (board_untree dm k s s2 qs c a x t'). }
  eapply (wp_scanned n k a ax s2); [done | exact B2 | done | done | done | | done | |].
  - intros c1. cbn. rewrite lookup_insert_is_Some'. intros [<-|?]; apply Hcs; eauto.
  - intros c1 x1 t tx Hk Hx1 Hh Hp Htx Hd. cbn in Hx1.
    apply lookup_insert_Some in Hx1 as [[<- <-]|[_ Hx1]]; [by apply (Hq c x t tx) | by apply (Hq c1 x1 t tx)].
  - intros s1 s' qs' Hwf1 Hth B' Hqs Ea [Ec Et] Ho Hkept Hwf'. assert (shrinks c s s') as Hsh.
    { constructor.
      - intros c'. rewrite Ec. pose proof (th_clients _ _ Hth c') as Hc'. cbn in Hc'.
        destruct (decide (c' = c)) as [->|Hne].
        + rewrite lookup_insert_eq in Hc'. rewrite Hx. inversion Hc' as [? ? [Hi Hw]|]; subst. constructor.
          unfold shrunk, same_io, same_input in *. naive_solver.
        + rewrite lookup_insert_ne in Hc' by done. inversion Hc' as [? ? [Hi Hw]|]; constructor.
          unfold shrunk, same_io, same_input in *. naive_solver.
      - rewrite Et. apply (th_trans _ _ Hth).
      - rewrite Ea. apply delete_subseteq.
      - intros b bx Hbx Hc'. rewrite Ea. rewrite lookup_delete_ne; [done|]. intros <-. apply Hc'. unfold c. congruence.
      - intros t tx Htx _ Hels. by apply Hkept.
      - pose proof (th_output _ _ Hth) as Ho1. unfold same_output in *. cbn in Ho1. intuition congruence. }
    apply (HQ s' qs'); [done | done | done | exact Ea | etransitivity; [apply qsub_remove | exact Hqs] |]. intros y y' Hy Hy'. rewrite Hx in Hy. injection Hy as <-.
    rewrite Ec in Hy'. destruct (thinner_back _ _ _ _ Hth Hy') as (x2 & Hx2 & (_ & _ & _ & _ & Et') & _).
    cbn in Hx2. rewrite lookup_insert_eq in Hx2. injection Hx2 as <-. by rewrite Et'.
Qed.

End Deletion.
