(* ===== verification/BoardCheck.v ===== *)
(** * Checking consistency by evaluation

    [checked] is a decidable form of [board] for concrete states, whose trees are the
    unbalanced ones: every quantifier ranges over a finite map or a list.  It is used to
    show of concrete states, those that the sample sessions go through, that they are
    consistent. *)

From Stdlib Require Import ZArith Lia.
From S2P Require Import Prelude Constants ByteOrder CString SearchTree Queue Memory TpMemory Keeps.
From S2P Require Import SbState SbObjects SbHandlers SbLemmas TxIo Xatmi Dispatch EventLoop Registry Messages Replies.
From S2P Require Import Transactions Calls Advertising Invariant Board.

Local Open Scope Z_scope.

#[global] Instance tptransaction_eq_decision : EqDecision tptransaction.
Proof. solve_decision. Defined.

(** The value is there and satisfies [P]. *)
Definition on {A} (o : option A) (P : A -> Prop) : Prop := exists a, o = Some a /\ P a.
#[global] Instance on_dec {A} (o : option A) (P : A -> Prop) `{forall a, Decision (P a)} : Decision (on o P).
Proof.
  destruct o as [a|]; [destruct (decide (P a))|].
  - left. by exists a.
  - right. intros (? & [= <-] & ?). done.
  - right. by intros (? & [=] & _).
Defined.

#[global] Instance tpblock_dec dm b len : Decision (tpblock dm b len).
Proof. unfold tpblock, fields_at. apply _. Defined.

Section Check.
Context (dm : data_model) (s : sb (bst Z)) (qs : gmap qaddr (list qaddr)).
Implicit Types (x : tpclient (bst Z)) (tx : tptransaction).

(** ** Buffers *)

Definition buffer (p : ptr) (P : Z -> Prop) : Prop :=
  poff p = sizeof_tpmemory dm /\ pblk p <> 0 /\
  on (blocks (tp_heap (mem s)) !! pblk p) (fun b =>
    let len := rdw dm b (2 * long_bytes dm) in tpblock dm b len /\ P len).

Lemma buffer_ok p P : buffer p P -> exists len, tpbuf dm (tp_heap (mem s)) p len /\ P len.
Proof. intros (Ho & Hb & b & E & Ht & HP). eexists. split; [|exact HP]. split; [done|]. split; [done|]. by exists b. Qed.

(** ** Lists *)

#[local] Instance fits_dec h n : Decision (fits s h n).
Proof. destruct h, n; cbn; apply _. Defined.

Definition listed_on (n : qaddr) : Prop := Exists (fun hl => n ∈ snd hl) (map_to_list qs).
Lemma listed_on_ok n : listed_on n -> qon qs n.
Proof.
  unfold listed_on. rewrite Exists_exists. intros ([h l] & Hin & Hn). exists h, l.
  split; [by apply elem_of_map_to_list | done].
Qed.

Definition lists_checked : Prop :=
  map_Forall (fun h l => Forall (fits s h) l) qs /\
  is_Some (qs !! Q_tpclients) /\ is_Some (qs !! Q_tptransactions) /\
  map_Forall (fun c _ => is_Some (qs !! Q_requests c) /\ is_Some (qs !! Q_replies c) /\ listed_on (Q_global c)) (clients s) /\
  map_Forall (fun p _ => is_Some (qs !! Q_waitq p)) (svcs s) /\
  map_Forall (fun t _ => 0 < t -> listed_on (Q_t_global t) /\ listed_on (Q_t_clientq t) /\
    (qs !! Q_t_svc_waitq t = Some [] \/ listed_on (Q_t_svc_waitq t))) (trans s) /\
  map_Forall (fun a _ => qs !! Q_adv_waitq a = Some [] \/ listed_on (Q_adv_waitq a)) (advs s).

Lemma lists_ok : lists_checked -> listed s qs.
Proof.
  intros (Hl & H1 & H2 & Hc & Hp & Ht & Ha). constructor.
  - intros h l n Hq Hin. specialize (Hl h l Hq). rewrite Forall_forall in Hl. by apply Hl.
  - intros h Hh. destruct h as [| | | |c|c|p| | | |]; try done; destruct Hh as [v Hv];
      [by apply (Hc c v) | by apply (Hc c v) | by apply (Hp p v)].
  - intros n Hn. apply listed_on_ok. destruct n as [| | |c| | | | |t|t|]; try done;
      [destruct Hn as [v Hv]; by apply (Hc c v) | | ]; destruct Hn as [Hpos [v Hv]]; by apply (Ht t v).
  - intros n Hn. destruct n as [| | | | | | |a| | |t]; try done.
    + destruct Hn as [v Hv]. destruct (Ha a v Hv) as [?|?%listed_on_ok]; [by left | by right].
    + destruct Hn as [Hpos [v Hv]]. destruct (Ht t v Hv Hpos) as (_ & _ & [?|?%listed_on_ok]); [by left | by right].
Qed.

(** ** Trees *)

Fixpoint ordered_checked (nm : Z -> list byte) (t : bst Z) : Prop :=
  match t with
  | Leaf => True
  | Node l a r => Forall (fun y => bytes_compare (nm y) (nm a) = Lt) (bst_walk l) /\
      Forall (fun y => bytes_compare (nm a) (nm y) = Lt) (bst_walk r) /\ ordered_checked nm l /\ ordered_checked nm r
  end.
#[local] Instance ordered_checked_dec nm t : Decision (ordered_checked nm t).
Proof. induction t; cbn; apply _. Defined.
Lemma ordered_ok nm t : ordered_checked nm t -> tordered nm t.
Proof.
  induction t as [|l IHl a r IHr]; [done|]. intros (Hl & Hr & Ol & Or). rewrite Forall_forall in Hl, Hr.
  split_and!; [exact Hl | exact Hr | by apply IHl | by apply IHr].
Qed.

(** ** Clients *)

Definition works_checked (c t : Z) : Prop :=
  0 < t /\ on (trans s !! t) (fun tx => on (advs s !! executor tx) (fun ax => a_client ax = c)).
Lemma works_ok c t : works_checked c t -> works s c t.
Proof. intros (Hp & tx & Htx & ax & Hax & Hc). split; [done|]. by exists tx, ax. Qed.

#[local] Instance idle_dec x : Decision (idle x).
Proof. unfold idle. apply _. Defined.

Definition receiving_checked (c : Z) x : Prop :=
  on (qs !! Q_requests c) (fun l => on (last l) (fun n =>
    match n with
    | Q_t_clientq t => 0 < t /\ on (trans s !! t) (fun tx =>
        t_data tx = input x /\ executor tx = 0 /\ qs !! Q_t_svc_waitq t = Some [] /\ is_Some (svcs s !! t_svc tx))
    | _ => False
    end)).
#[local] Instance receiving_dec c x : Decision (receiving_checked c x).
Proof. unfold receiving_checked. apply on_dec. intros l. apply on_dec. intros []; apply _. Defined.
Lemma receiving_ok c x : receiving_checked c x -> receiving s qs c x.
Proof.
  intros (l & Hl & n & (rl & ->)%last_Some & Hn). destruct n as [| | | | | | | | |t|]; try done.
  destruct Hn as (Hp & tx & Htx & Hd & He & Hq & Hs). by exists t, tx, rl.
Qed.

Definition size_checked (h : handler) (len : Z) : Prop :=
  match h with
  | H_command => len = 1
  | H_svrservice => False
  | H_send_to_worker | H_part2 => True
  | _ => Exists (fun hn => fst hn = h /\ len = Z.of_nat (snd hn)) commands
  end.
#[local] Instance size_dec h len : Decision (size_checked h len).
Proof. destruct h; cbn [size_checked]; apply _. Defined.
Lemma size_checked_ok h len : size_checked h len -> size_ok h len.
Proof.
  destruct h; cbn [size_checked size_ok]; try done; rewrite Exists_exists; intros ([h n] & Hin & <- & E); by exists n.
Qed.

Definition client_checked (c : Z) x : Prop :=
  Forall (fun a => a <> 0 /\ on (advs s !! a) (fun ax => is_Some (svcs s !! a_svc ax) /\ a_client ax = c)) (bst_walk (adverts x)) /\
  ordered_checked (akey s) (adverts x) /\
  (wait4 x = 0 \/ (idle x /\ (wait4 x = GLOBAL_ANY \/ 0 < wait4 x /\ t_client <$> trans s !! wait4 x = Some c)) \/
    works_checked c (wait4 x)) /\
  match handler_fn x with
  | None => True
  | Some h => buffer (input x) (fun len => 0 <= used x < len /\ size_checked h len) /\
      (h = H_send_to_worker -> receiving_checked c x) /\
      (h = H_part2 -> works_checked c (wait4 x) /\ t_data <$> trans s !! wait4 x = Some (input x))
  end.
#[local] Instance client_dec c x : Decision (client_checked c x).
Proof. unfold client_checked, buffer, works_checked. destruct (handler_fn x); apply _. Defined.
Lemma client_ok' c x : client_checked c x -> client_fits dm 0 s qs c x.
Proof.
  intros (Ha & Ho & Hw & Hio). rewrite Forall_forall in Ha. split_and!.
  - split; [|by apply ordered_ok]. intros a Hin. destruct (Ha a Hin) as (H0 & ax & Hax & Hs & _). split; [done|]. by exists ax.
  - intros a Hin. destruct (Ha a Hin) as (H0 & ax & Hax & Hs & <-). by rewrite Hax.
  - destruct Hw as [?|[?|?]]; [by left | by right; left | right; right; by apply works_ok].
  - intros _ h Hh. rewrite Hh in Hio. destruct Hio as ((len & Hb & Hu & Hsz)%buffer_ok & Hr & Hp). split_and!.
    + exists len. split_and!; try done; [lia..|]. by apply size_checked_ok.
    + intros E. by apply receiving_ok, Hr.
    + intros E. destruct (Hp E). split; [by apply works_ok | done].
Qed.

(** ** The rest *)

Definition trans_checked (t : Z) tx : Prop := 0 < t ->
  is_Some (clients s !! t_client tx) /\ buffer (t_data tx) (fun len => len < 2 ^ 31) /\
  (executor tx <> 0 -> on (advs s !! executor tx) (fun ax => on (clients s !! a_client ax) (fun x => wait4 x = t)) /\
    on (qs !! Q_requests (t_client tx)) (fun l => Q_t_clientq t ∈ l)).
Lemma trans_checked_ok t tx : trans_checked t tx -> 0 < t -> trans_fits dm s qs t tx.
Proof.
  intros Ht Hp. destruct (Ht Hp) as (Hc & Hb%buffer_ok & He). split_and!; [done | done |].
  intros Hex. destruct (He Hex) as [(ax & Hax & x & Hx & Hw) (l & Hl & Hin)]. by exists ax, x, l.
Qed.

Definition adv_checked (a : Z) (ax : tpadvertisement) : Prop :=
  is_Some (svcs s !! a_svc ax) /\ on (clients s !! a_client ax) (fun x => a ∈ bst_walk (adverts x)).

Definition waits_checked (h : qaddr) (l : list qaddr) : Prop :=
  Forall (fun n => match h, n with
    | Q_waitq _, Q_adv_waitq a => on (advs s !! a) (fun ax => on (clients s !! a_client ax) (fun x => idle x /\ wait4 x = 0))
    | _, _ => True
    end) l.
#[local] Instance waits_dec h l : Decision (waits_checked h l).
Proof. apply Forall_dec. intros n. destruct h, n; apply _. Defined.

Definition private_checked x : Prop := match handler_fn x with
  | None | Some H_send_to_worker | Some H_part2 => False | Some _ => True end.
#[local] Instance private_dec x : Decision (private_checked x).
Proof. unfold private_checked. destruct (handler_fn x) as [[]|]; apply _. Defined.
Lemma private_ok x : private x -> private_checked x.
Proof. intros (h & Hh & N1 & N2). unfold private_checked. rewrite Hh. by destruct h. Qed.

Definition apart_checked : Prop :=
  map_Forall (fun t1 tx1 => map_Forall (fun t2 tx2 =>
    0 < t1 -> 0 < t2 -> pblk (t_data tx1) = pblk (t_data tx2) -> t1 = t2) (trans s)) (trans s) /\
  map_Forall (fun c x => private_checked x -> map_Forall (fun t tx =>
    0 < t -> pblk (input x) <> pblk (t_data tx)) (trans s)) (clients s) /\
  map_Forall (fun c1 x1 => map_Forall (fun c2 x2 => private_checked x1 -> private_checked x2 ->
    pblk (input x1) = pblk (input x2) -> c1 = c2) (clients s)) (clients s).
Lemma apart_ok : apart_checked -> apart 0 s.
Proof.
  intros (Hd & Hi & Hii). constructor.
  - intros t1 tx1 t2 tx2 P1 P2 H1 H2. by apply (Hd t1 tx1 H1 t2 tx2 H2).
  - intros c x t tx _ Hp Hx Hpr Htx. by apply (Hi c x Hx (private_ok x Hpr) t tx Htx).
  - intros c1 x1 c2 x2 _ _ H1 H2 P1 P2. by apply (Hii c1 x1 H1 c2 x2 H2); apply private_ok.
Qed.

Definition registry_checked : Prop :=
  Forall (fun p => p <> 0 /\ is_Some (svcs s !! p)) (bst_walk (services s)) /\
  ordered_checked (key s) (services s) /\ map_Forall (fun p _ => p ∈ bst_walk (services s)) (svcs s).

Definition checked : Prop :=
  qrep_check (qm s) qs = true /\ heap_wf_b (tp_heap (mem s)) = true /\ ooms (tp_heap (mem s)) = [] /\
  trans s !! GLOBAL_ANY = Some zero_transaction /\ lists_checked /\
  map_Forall client_checked (clients s) /\ map_Forall trans_checked (trans s) /\ map_Forall adv_checked (advs s) /\
  registry_checked /\ map_Forall waits_checked qs /\ apart_checked.

#[global] Instance checked_dec : Decision checked.
Proof.
  unfold checked, lists_checked, listed_on, trans_checked, buffer, adv_checked, registry_checked, apart_checked. apply _.
Defined.

Lemma checked_ok : checked -> board dm 0 0 s qs.
Proof.
  intros (Hq & Hh & Ho & Hany & Hl & Hc & Ht & Ha & (R1 & R2 & R3) & Hw & Hap). constructor.
  - split; [by apply qrep_check_ok | by apply heap_wf_check | exact Ho].
  - done.
  - by apply lists_ok.
  - intros c x Hx. by apply client_ok', Hc.
  - intros t tx Htx. by apply trans_checked_ok, Ht.
  - intros a ax _ Hax. destruct (Ha a ax Hax) as (Hs & x & Hx & Hin). split; [done|]. by exists x.
  - done.
  - split; [split; [by apply Forall_forall | by apply ordered_ok]|]. intros p [v Hv]. by apply (R3 p v).
  - intros p l a Hl' Hin. specialize (Hw _ _ Hl'). unfold waits_checked in Hw. rewrite Forall_forall in Hw.
    destruct (Hw _ Hin) as (ax & Hax & x & Hx & Hi & Hw4). by exists ax, x.
  - by apply apart_ok.
Qed.

End Check.

(** ** The simple invariant *)

Section CheckWf.
Context (dm : data_model) (s : sb (bst Z)).

#[local] Instance in_short_dec z : Decision (in_short z).
Proof. unfold in_short. apply _. Defined.
#[local] Instance client_ok_dec (x : tpclient (bst Z)) : Decision (client_ok x).
Proof. unfold client_ok. apply _. Defined.
#[local] Instance trans_ok_dec t v : Decision (trans_ok dm t v).
Proof. unfold trans_ok, in_long. apply _. Defined.
#[local] Instance adv_ok_dec v : Decision (adv_ok dm v).
Proof. unfold adv_ok. apply _. Defined.
#[local] Instance q_live_dec q : Decision (q_live s q).
Proof. destruct q; cbn; apply _. Defined.

Definition wf_checked : Prop :=
  0 < next s /\ heap_wf_b (tp_heap (mem s)) = true /\
  map_Forall (fun c x => 0 < c < next s /\ client_ok x) (clients s) /\
  map_Forall (fun p v => 0 < p < next s /\ length (svcname v) = XATMI_SERVICE_NAME_LENGTH) (svcs s) /\
  map_Forall (fun a v => 0 < a < next s /\ adv_ok dm v) (advs s) /\
  map_Forall (fun t v => t < next s /\ trans_ok dm t v) (trans s) /\
  map_Forall (fun q _ => q_live s q) (qm s) /\
  (is_Some (qm s !! Q_tpclients) /\ is_Some (qm s !! Q_tptransactions) /\
   map_Forall (fun c _ => is_Some (qm s !! Q_global c) /\ is_Some (qm s !! Q_requests c) /\
     is_Some (qm s !! Q_replies c)) (clients s) /\
   map_Forall (fun p _ => is_Some (qm s !! Q_waitq p)) (svcs s) /\
   map_Forall (fun a _ => is_Some (qm s !! Q_adv_waitq a)) (advs s) /\
   map_Forall (fun t _ => 0 < t -> is_Some (qm s !! Q_t_global t) /\ is_Some (qm s !! Q_t_clientq t) /\
     is_Some (qm s !! Q_t_svc_waitq t)) (trans s)) /\
  length (free_cd s) = NUM_FREE_CD /\ Forall in_short (free_cd s) /\ in_short (cd_oob s) /\ (cdp s <= S NUM_FREE_CD)%nat /\
  map_Forall (fun c1 x1 => map_Forall (fun c2 x2 => fd x1 = fd x2 -> c1 = c2) (clients s)) (clients s).

#[global] Instance wf_checked_dec : Decision wf_checked.
Proof. unfold wf_checked. apply _. Defined.

Lemma wf_checked_ok : wf_checked -> sb_wf dm s.
Proof.
  intros (Hn & Hh & Hc & Hp & Ha & Ht & Hq & (L1 & L2 & Lc & Lp & La & Lt) & Hcd1 & Hcd2 & Hcd3 & Hcd4 & Hf). constructor; auto.
  - by apply heap_wf_check.
  - intros q. split; [intros [v Hv]; by apply (Hq q v)|]. destruct q as [| | |c|c|c|p|a|t|t|t]; cbn; try done;
      try (intros [v Hv]; first [by apply (Lc c v Hv) | by apply (Lp p v Hv) | by apply (La a v Hv)]);
      intros [Hpos [v Hv]]; by apply (Lt t v Hv Hpos).
  - intros c1 x1 c2 x2 H1 H2. by apply (Hf c1 x1 H1 c2 x2 H2).
Qed.

End CheckWf.

(** The lists that the links of a state represent. *)
Definition lists_of (s : sb (bst Z)) : gmap qaddr (list qaddr) :=
  list_to_map (omap (fun ql =>
    match fst ql with
    | Q_tpclients | Q_tptransactions | Q_requests _ | Q_replies _ | Q_waitq _ =>
        match qelements (fst ql) (qm s) with Done (l, _) => Some (fst ql, l) | Fault _ => None end
    | q => if bool_decide (p2 (snd ql) = q) then Some (q, []) else None
    end) (map_to_list (qm s))).

Lemma consistent_check dm s :
  bool_decide (wf_checked dm s) = true -> bool_decide (checked dm s (lists_of s)) = true ->
  sb_wf dm s /\ board dm 0 0 s (lists_of s).
Proof.
  rewrite !bool_decide_eq_true. intros Hw Hc. split; [by apply wf_checked_ok | by apply checked_ok].
Qed.
