(* ===== verification/Leaving.v ===== *)
(** * A client leaves

    [del_client] of [client.c] from a consistent switchboard: the call that the client
    executes is answered with an error, its advertisements, the services that nobody
    else advertises and its transactions are deleted, its connection is closed; it ends
    without a fault, in a consistent switchboard without the client. *)

From Stdlib Require Import ZArith Lia.
From S2P Require Import Prelude Constants ByteOrder CString SearchTree Queue Memory TpMemory Keeps.
From S2P Require Import SbState SbObjects SbHandlers SbLemmas TxIo Xatmi Dispatch EventLoop Registry Messages Replies.
From S2P Require Import Transactions Calls Advertising Session Invariant Board BoardSteps Deletion BoardCheck.

Local Open Scope Z_scope.

Section Leaving.
Context {T : Type} `{SearchTree T Z} (dm : data_model).
Implicit Types (s : sb T) (x : tpclient T) (tx : tptransaction) (qs : gmap qaddr (list qaddr)).

(** ** A reply is sent *)

(** What [snd_reply] does in a consistent switchboard. *)
Record replied s s' (t : Z) tx cl (len : Z) : Prop := {
  rp_clients : exists b, clients s' =
    clear_wait t <$> <[t_client tx := set_io 0 b (Some H_command) (set_wait4 0 cl)]> (clients s);
  rp_trans : trans s' = delete t (trans s);
  rp_rest : svcs s' = svcs s /\ advs s' = advs s /\ services s' = services s /\ closed s' = closed s;
  rp_sent : stream (fd cl) s' = stream (fd cl) s ++
    reply_bytes (rval tx) (cd tx) (rcode tx) (tpdata (tp_heap (mem s)) (t_data tx) len);
  rp_others f : f <> fd cl -> stream f s' = stream f s;
}.

Lemma wp_reply_board k s qs t tx cl len Q :
  sb_wf dm s -> board dm k 0 s qs -> trans s !! t = Some tx -> 0 < t -> executor tx = 0 ->
  clients s !! t_client tx = Some cl -> idle cl -> unread k s (t_data tx) ->
  (forall t1 tx1 ax, 0 < t1 -> trans s !! t1 = Some tx1 -> executor tx1 <> 0 -> advs s !! executor tx1 = Some ax ->
    a_client ax <> t_client tx) ->
  (forall p l a ax, qs !! Q_waitq p = Some l -> Q_adv_waitq a ∈ l -> advs s !! a = Some ax -> a_client ax <> t_client tx) ->
  tpbuf dm (tp_heap (mem s)) (t_data tx) len -> len < 2 ^ 31 ->
  (forall s', sb_wf dm s' -> board dm k 0 s' (qdrop_trans t qs) -> replied s s' t tx cl len -> Q tt s') ->
  wp (snd_reply dm t) s Q.
Proof.
  intros Hwf B Htx Hp He Hcl Hi Hu Hfree Hnw Hb Hlen HQ.
  destruct (wf_trans _ _ Hwf t tx Htx) as (_ & [E|(_ & Hc0 & Hs0)] & _); [unfold GLOBAL_ANY in E; lia|].
  set (c := t_client tx) in *.
  eapply (wp_snd_reply_prefix dm s t cl tx len); [lia | done | done | done | done | done | done |]. intros ws W. fold c.
  set (s0 := set_out (out s ++ ws) s).
  assert (sb_wf dm s0) as Hwf0 by (by eapply (wf_of_run dm _ s tt s0 Hwf (keeps_set_out dm 0 (fun s => out s ++ ws)))).
  assert (sane s0 qs) as Hs0' by (by destruct (bd_sane _ _ _ _ _ B)).
  wp_step. apply (wp_wf dm); [done | apply keeps_svr_next_command|].
  eapply (wp_next_command dm s0 c cl qs); [done | done | done | done |]. intros s1 Ht Ho Hwf1.
  destruct (td_clients _ _ _ _ _ _ Ht) as (b & Ec & Hb1 & Hblk).
  destruct (td_rest _ _ _ _ _ _ Ht) as (Eq & Et & Es & Ea & Eserv & Ecl & _).
  wp_step. apply (wp_wf dm); [done | apply keeps_set_wait4|].
  eapply wp_put_client; [done | rewrite Ec; apply lookup_insert_eq|]. intros Hwf2. set (s2 := set_clients _ s1) in *.
  assert (clients s2 = <[c := set_io 0 b (Some H_command) (set_wait4 0 cl)]> (clients s)) as Ec2
    by (cbn; rewrite Ec; apply insert_insert_eq).
  assert (board dm k 0 s2 qs) as B2.
  { apply (board_command dm k 0 s s2 qs c 0 cl b H_command 1); try done; [by left | | | |].
    - intros t1 tx1 ax Hp1 Htx1 Hex Hax Hc. by destruct (Hfree t1 tx1 ax).
    - intros p l Hpl. eapply (new_block dm s); [apply B | done | done].
    - intros p l Hpl. by apply (td_buffers _ _ _ _ _ _ Ht p l).
    - by destruct (td_sane _ _ _ _ _ _ Ht qs Hs0'). }
  eapply (wp_del_board dm k 0 s2 qs t tx); [done | done | cbn; by rewrite Et | done | |].
  - intros c1 x1 Hk. rewrite Ec2. intros [[<- <-]|[_ Hx1]]%lookup_insert_Some Hh; [|by apply (Hu c1 x1)].
    cbn. intros ->. by apply (new_block dm s qs _ len (t_data tx) (bd_sane _ _ _ _ _ B) Hb).
  - intros s' Hwf' D B' (Eo & Ecl' & _). apply HQ; [done | done |]. constructor.
    + exists b. by rewrite (dr_clients _ _ _ _ D), Ec2.
    + rewrite (dr_trans _ _ _ _ D). cbn. by rewrite Et.
    + destruct (dr_rest _ _ _ _ D) as (-> & -> & ->). rewrite Ecl'. done.
    + etransitivity; [|exact (writes_to_stream _ _ _ s W)]. unfold stream. rewrite Eo. change (out s2) with (out s1). by rewrite Ho.
    + intros f Hf. etransitivity; [|exact (writes_to_other _ _ _ _ s W Hf)]. unfold stream. rewrite Eo. change (out s2) with (out s1). by rewrite Ho.
Qed.

(** ** The call that the client executes *)

(** The transaction, executed by [c], whose caller waits for it. *)
Definition lost_call s (c : Z) : option Z :=
  x ← clients s !! c;
  tx ← trans s !! wait4 x;
  ax ← advs s !! executor tx;
  cl ← clients s !! t_client tx;
  if (a_client ax =? c) && negb (t_client tx =? c) && (wait4 cl =? wait4 x) then Some (wait4 x) else None.

(** The client executes the transaction. *)
Definition executes s (c t : Z) tx : Prop := exists x ax,
  clients s !! c = Some x /\ wait4 x = t /\ trans s !! t = Some tx /\ advs s !! executor tx = Some ax /\ a_client ax = c.

(** The transaction that its worker has given up. *)
Definition failed tx : tptransaction := set_result TPERRNO TPESVCERR (set_executor 0 tx).

(** If its caller does not wait for it, the transaction is put among the caller's replies. *)
Definition put_aside s s' qs' (c : Z) : Prop := forall t tx,
  executes s c t tx -> lost_call s c <> Some t ->
  trans s' !! t = Some (failed tx) /\ exists l, qs' !! Q_replies (t_client tx) = Some l /\ Q_t_clientq t ∈ l.

(** Its caller, and only it, is told. *)
Definition told_lost s s' (c : Z) : Prop :=
  match lost_call s c with
  | None => out s' = out s
  | Some t => exists tx cl len, trans s !! t = Some tx /\ clients s !! t_client tx = Some cl /\
      tpbuf dm (tp_heap (mem s)) (t_data tx) len /\
      stream (fd cl) s' = stream (fd cl) s ++
        reply_bytes TPERRNO (cd tx) TPESVCERR (tpdata (tp_heap (mem s)) (t_data tx) len) /\
      forall f, f <> fd cl -> stream f s' = stream f s
  end.

(** What happens to the rest. *)
Definition disturbed x x' : Prop :=
  fd x' = fd x /\ adverts x' = adverts x /\ (same_io x x' \/ private x') /\ unhooked x x'.
Record loses (c : Z) s s' : Prop := {
  ls_clients c' : option_Forall2 disturbed (clients s !! c') (clients s' !! c');
  ls_trans t tx' : trans s' !! t = Some tx' -> exists tx, trans s !! t = Some tx /\
    t_place tx' = t_place tx /\ t_data tx' = t_data tx;
  ls_free t tx' ax : 0 < t -> trans s' !! t = Some tx' -> advs s !! executor tx' = Some ax -> a_client ax <> c;
  ls_kept t tx : trans s !! t = Some tx -> lost_call s c <> Some t ->
    exists tx', trans s' !! t = Some tx' /\ t_place tx' = t_place tx;
  ls_rest : advs s' = advs s /\ closed s' = closed s;
}.

Lemma loses_back c s s' c' x' : loses c s s' -> clients s' !! c' = Some x' ->
  exists x, clients s !! c' = Some x /\ disturbed x x'.
Proof. intros Hls Hx'. pose proof (ls_clients _ _ _ Hls c') as Ho. rewrite Hx' in Ho. inversion Ho; subst. eauto. Qed.

(** Nobody else reads into the buffer of a transaction that is executed. *)
Lemma executed_unread e s qs c t tx :
  board dm c e s qs -> trans s !! t = Some tx -> 0 < t -> executor tx <> 0 ->
  a_client <$> advs s !! executor tx = Some c -> unread c s (t_data tx).
Proof.
  intros B Htx Hp He Hex c1 x1 Hk Hx1 Hh Ei.
  destruct (reader dm c e s qs c1 x1 t tx B Hk Hx1 Hh Htx Hp ltac:(by rewrite Ei)) as [_ [[? _]|(_ & _ & _ & tx1 & ax & Htx1 & Hax & Hc)]]; [done|].
  assert (tx1 = tx) as -> by congruence. rewrite Hax in Hex. cbn in Hex. congruence.
Qed.

(** The caller of a transaction that is executed by another waits without sending. *)
Lemma caller_idle k e s qs c t tx cl :
  board dm k e s qs -> trans s !! t = Some tx -> 0 < t -> a_client <$> advs s !! executor tx = Some c ->
  t_client tx <> c -> clients s !! t_client tx = Some cl -> wait4 cl = t -> idle cl.
Proof.
  intros B Htx Hp Hex Hne Hcl Hw. destruct (bd_clients _ _ _ _ _ B _ cl Hcl) as (_ & _ & [E|[[Hi _]|Hwk]] & _); [lia | done |].
  destruct Hwk as (_ & tx1 & ax & Htx1 & Hax & Hc). rewrite Hw, Htx in Htx1. injection Htx1 as <-.
  rewrite Hax in Hex. cbn in Hex. congruence.
Qed.

(** Nobody waits for the variable [global_any_transaction] of [del_client]. *)
Lemma wait4_local k e s qs c x : board dm k e s qs -> clients s !! c = Some x -> wait4 x <> LOCAL_ANY.
Proof.
  intros B Hx E. destruct (bd_clients _ _ _ _ _ B c x Hx) as (_ & _ & [Hw|[[_ [Hw|[Hw _]]]|[Hw _]]] & _);
    rewrite E in Hw; unfold LOCAL_ANY, GLOBAL_ANY in Hw; lia.
Qed.

Lemma lost_call_eq s c x t tx ax cl :
  clients s !! c = Some x -> wait4 x = t -> trans s !! t = Some tx -> advs s !! executor tx = Some ax ->
  clients s !! t_client tx = Some cl ->
  lost_call s c = if (a_client ax =? c) && negb (t_client tx =? c) && (wait4 cl =? t) then Some t else None.
Proof. intros Hx <- Htx Hax Hcl. unfold lost_call. rewrite Hx. cbn. rewrite Htx. cbn. rewrite Hax. cbn. by rewrite Hcl. Qed.

Lemma clear_wait_idle t x : wait4 x = 0 -> wait4 (clear_wait t x) = 0.
Proof. unfold clear_wait. by destruct (_ =? _). Qed.
Lemma clear_wait_unhooked t x : 0 < t -> unhooked x (clear_wait t x).
Proof. intros Hp. unfold clear_wait. destruct (Z.eqb_spec (wait4 x) t) as [E|]; [right; split; [done | lia] | by left]. Qed.

(** The worker and its transaction know nothing of each other any more. *)
Section GiveUp.
Context (s : sb T) (qs : gmap qaddr (list qaddr)) (c t : Z) (x cl : tpclient T) (tx : tptransaction) (ax : tpadvertisement).
Hypothesis wf : sb_wf dm s.
Hypothesis before : board dm c 0 s qs.
Hypothesis worker : clients s !! c = Some x /\ wait4 x = t.
Hypothesis call : trans s !! t = Some tx /\ 0 < t /\ clients s !! t_client tx = Some cl.
Hypothesis executing : executor tx <> 0 /\ advs s !! executor tx = Some ax /\ a_client ax = c.

Definition given_up : sb T :=
  set_trans (<[t := (failed tx)]> (trans s)) (set_clients (<[c := set_wait4 0 x]> (clients s)) s).

Lemma given_up_board : board dm c 0 given_up qs.
Proof.
  destruct worker as [Hx Hw], call as (Htx & Hp & Hcl), executing as (He & Hax & Hc).
  apply (board_unwork dm c 0 s given_up qs c t x tx (failed tx)); try done.
  - by rewrite Hax, <- Hc.
  - by destruct (bd_sane _ _ _ _ _ before).
Qed.

Lemma executes_same t1 tx1 : executes s c t1 tx1 -> t1 = t /\ tx1 = tx.
Proof.
  destruct worker as [Hx Hw], call as (Htx & _). intros (y & ay & Hy & <- & Ht1 & _).
  assert (y = x) as -> by congruence. rewrite Hw in *. split; congruence.
Qed.

(** No other transaction is executed by the client. *)
Lemma given_up_free t1 tx1 ax1 :
  0 < t1 -> t1 <> t -> trans s !! t1 = Some tx1 -> advs s !! executor tx1 = Some ax1 -> a_client ax1 <> c.
Proof.
  destruct worker as [Hx Hw]. intros Hp Hne Htx1 Hax1 Hc1. pose proof (proj1 (wf_advs _ _ wf _ _ Hax1)).
  destruct (bd_trans _ _ _ _ _ before t1 tx1 Htx1 Hp) as (_ & _ & Hex).
  destruct (Hex ltac:(lia)) as (ax' & y & l & Hax' & Hy & Hw1 & _).
  assert (ax' = ax1) as -> by congruence. rewrite Hc1, Hx in Hy. injection Hy as <-. congruence.
Qed.

Lemma wp_give_up Q :
  (sb_wf dm given_up -> wp (reply_or_queue dm LOCAL_ANY t) given_up Q) ->
  wp (tx ← get_trans t;
      assert_ (negb (t_client tx =? 0) && negb (t_svc tx =? 0)) ;;
      put_client c (set_wait4 0) ;; put_trans t (set_executor 0) ;;
      put_trans t (set_result TPERRNO TPESVCERR) ;; reply_or_queue dm LOCAL_ANY t) s Q.
Proof.
  destruct worker as [Hx Hw], call as (Htx & Hp & Hcl). intros HQ. destruct (wf_clients _ _ wf c x Hx) as [Hc0 _].
  destruct (wf_trans _ _ wf t tx Htx) as (_ & [E|(_ & Hcl0 & Hs0)] & _); [unfold GLOBAL_ANY in E; lia|].
  wp_step. eapply wp_get_trans; [lia | exact Htx |]. wp_step. apply wp_assert; [by rewrite !(proj2 (Z.eqb_neq _ 0))|].
  wp_step. apply (wp_wf dm); [done | apply keeps_set_wait4|]. eapply wp_put_client; [lia | exact Hx|]. intros Hwf1.
  wp_step. apply (wp_wf dm); [done | apply keeps_set_executor|]. eapply wp_put_trans; [lia | exact Htx|]. intros Hwf2.
  wp_step. apply (wp_wf dm); [done | apply keeps_worker_gone|].
  eapply wp_put_trans; [lia | apply lookup_insert_eq|]. intros Hwf3.
  match type of Hwf3 with sb_wf _ ?st => assert (st = given_up) as E end.
  { unfold given_up. cbn [trans set_trans]. by rewrite insert_insert_eq. }
  rewrite E in Hwf3 |- *. by apply HQ.
Qed.

(** The caller waits for the transaction: it is told. *)
Lemma give_up_reply Q :
  sb_wf dm given_up -> t_client tx <> c -> wait4 cl = t ->
  (forall s' qs', sb_wf dm s' -> board dm c 0 s' qs' -> loses c s s' -> told_lost s s' c -> put_aside s s' qs' c -> Q tt s') ->
  wp (snd_reply dm t) given_up Q.
Proof.
  destruct worker as [Hx Hw], call as (Htx & Hp & Hcl), executing as (He & Hax & Hc). intros Hwf3 Hne Hw4 HQ.
  assert (a_client <$> advs s !! executor tx = Some c) as Hex by (rewrite Hax; by rewrite <- Hc).
  destruct (bd_trans _ _ _ _ _ before t tx Htx Hp) as (_ & (len & Hb & Hlen) & _).
  assert (clients given_up !! t_client tx = Some cl) as Hcl3 by (cbn; by rewrite lookup_insert_ne).
  eapply (wp_reply_board c given_up qs t (failed tx) cl len);
    [done | apply given_up_board | apply lookup_insert_eq | done | done | done | | | | | done | done |].
  { by eapply (caller_idle c 0 s qs c t tx cl before). }
  { pose proof (executed_unread 0 s qs c t tx before Htx Hp He Hex) as Hu.
    intros c1 x1 Hk Hx1. cbn in Hx1. rewrite lookup_insert_ne in Hx1 by done. by apply (Hu c1 x1). }
  { intros t1 tx1 ax1 Hp1 Htx1 Hex1 Hax1 Hc1. cbn in Htx1, Hax1. apply lookup_insert_Some in Htx1 as [[<- <-]|[Hne1 Htx1]]; [done|].
    destruct (bd_trans _ _ _ _ _ before t1 tx1 Htx1 Hp1) as (_ & _ & Hwk).
    destruct (Hwk Hex1) as (ax' & y & l & Hax' & Hy & Hw1 & _). assert (ax' = ax1) as -> by congruence.
    cbn in Hc1. rewrite Hc1, Hcl in Hy. injection Hy as <-. congruence. }
  { intros p l a ax1 Hl Hin Hax1 Hc1. destruct (bd_waiting _ _ _ _ _ before p l a Hl Hin) as (ax' & y & Hax' & Hy & _ & Hw1).
    cbn in Hax1. assert (ax' = ax1) as -> by congruence. cbn in Hc1. rewrite Hc1, Hcl in Hy. injection Hy as <-. lia. }
  intros s' Hwf' B' [(b & Ec) Et (_ & Ea & _ & Ecl) Hsent Hoth].
  assert (lost_call s c = Some t) as Hlost.
  { rewrite (lost_call_eq s c x t tx ax cl) by done.
    by rewrite (proj2 (Z.eqb_eq (a_client ax) c)), (proj2 (Z.eqb_neq (t_client tx) c)), (proj2 (Z.eqb_eq (wait4 cl) t)). }
  eapply HQ; [done | exact B' | | |].
  - constructor.
    + intros c'. rewrite Ec, lookup_fmap. cbn [t_client failed set_result set_executor clients given_up set_trans set_clients].
      destruct (decide (c' = t_client tx)) as [->|N1].
      * rewrite lookup_insert_eq, Hcl. constructor.
        destruct (clear_wait_input t (set_io 0 b (Some H_command) (set_wait4 0 cl))) as (F1 & F2 & F3 & F4 & F5).
        split_and!; [done | done | |].
        -- right. exists H_command. by rewrite F4.
        -- right. split; [|lia]. by apply clear_wait_idle.
      * rewrite lookup_insert_ne by done. destruct (decide (c' = c)) as [->|N2].
        -- rewrite lookup_insert_eq, Hx. constructor. destruct (clear_wait_input t (set_wait4 0 x)) as (F1 & F2 & F3 & F4 & F5).
           split_and!; [done | done | left; by split_and! |]. right. split; [by apply clear_wait_idle | lia].
        -- rewrite lookup_insert_ne by done. destruct (clients s !! c') as [y|]; constructor.
           destruct (clear_wait_input t y) as (F1 & F2 & F3 & F4 & F5). split_and!; [done | done | left; by split_and! |].
           by apply clear_wait_unhooked.
    + intros t1 tx1. rewrite Et. cbn. rewrite delete_insert_eq. intros [_ Htx1]%lookup_delete_Some. eauto.
    + intros t1 tx1 ax1 Hp1. rewrite Et. cbn. rewrite delete_insert_eq. intros [Hne1 Htx1]%lookup_delete_Some Hax1.
      by apply (given_up_free t1 tx1 ax1).
    + intros t1 tx1 Htx1 Hne1. exists tx1. split; [|done]. rewrite Et. cbn. rewrite delete_insert_eq.
      rewrite lookup_delete_ne by congruence. done.
    + done.
  - unfold told_lost. rewrite Hlost. exists tx, cl, len. split_and!; try done.
  - intros t1 tx1 [-> _]%executes_same Hn. by rewrite Hlost in Hn.
Qed.

(** Nobody waits for the transaction: it goes to the replies of its client. *)
Lemma give_up_queue cl' Q :
  clients given_up !! t_client tx = Some cl' -> (t_client tx = c \/ wait4 cl <> t) ->
  (forall s' qs', board dm c 0 s' qs' -> loses c s s' -> told_lost s s' c -> put_aside s s' qs' c -> Q tt s') ->
  wp (_ ← in_q (qdelete (Q_t_clientq t)); _ ← in_q (qappend_tail (Q_replies (t_client tx)) (Q_t_clientq t)); mret tt)
    given_up Q.
Proof.
  destruct worker as [Hx Hw], call as (Htx & Hp & Hcl), executing as (He & Hax & Hc). intros Hcl' Hnw HQ.
  assert (a_client <$> advs s !! executor tx = Some c) as Hex by (rewrite Hax; by rewrite <- Hc).
  pose proof given_up_board as B. destruct (bd_trans _ _ _ _ _ before t tx Htx Hp) as (_ & _ & Hwk).
  destruct (Hwk He) as (_ & _ & l & _ & _ & _ & Hreq & (l1 & l2 & ->)%list_elem_of_split).
  destruct (bd_heads _ _ (bd_listed _ _ _ _ _ B) (Q_replies (t_client tx))) as [rl Hrep]; [by eexists|].
  destruct (qrep_move _ qs _ l1 (Q_t_clientq t) l2 _ rl (sn_queues _ _ (bd_sane _ _ _ _ _ B)) Hreq Hrep)
    as (m1 & m2 & E1 & E2 & Q2); [done|].
  wp_step. eapply wp_in_q; [exact E1|]. wp_step. eapply wp_in_q; [exact E2|]. wp_step.
  eapply HQ; [eapply (board_move dm c 0 given_up _ qs t (failed tx) l1 l2 rl); try done | | |].
  - split; [apply lookup_insert_eq | done].
  - pose proof (executed_unread 0 s qs c t tx before Htx Hp He Hex) as Hu.
    intros c1 x1 Hk Hx1. cbn in Hx1. rewrite lookup_insert_ne in Hx1 by done. by apply (Hu c1 x1).
  - destruct (bd_sane _ _ _ _ _ B) as [_ H2 H3]. by split.
  - constructor; [| | | |done].
    + intros c'. cbn. destruct (decide (c' = c)) as [->|N2].
      * rewrite lookup_insert_eq, Hx. constructor. split_and!; [done | done | by left |]. right. split; [done | lia].
      * rewrite lookup_insert_ne by done. destruct (clients s !! c'); constructor. split_and!; [done | done | by left | by left].
    + cbn. intros t1 tx1 [[<- <-]|[_ Htx1]]%lookup_insert_Some; [by exists tx | eauto].
    + cbn. intros t1 tx1 ax1 Hp1 [[<- <-]|[Hne1 Htx1]]%lookup_insert_Some Hax1.
      * apply (wf_advs _ _ wf) in Hax1 as [? _]. cbn in *. lia.
      * by apply (given_up_free t1 tx1 ax1).
    + intros t1 tx1 Htx1 _. cbn. destruct (decide (t1 = t)) as [->|Hne].
      * rewrite lookup_insert_eq. assert (tx1 = tx) as -> by congruence. by eexists.
      * rewrite lookup_insert_ne by done. by exists tx1.
  - unfold told_lost. rewrite (lost_call_eq s c x t tx ax cl) by done.
    destruct Hnw as [E|E]; [rewrite (proj2 (Z.eqb_eq (t_client tx) c)) | rewrite (proj2 (Z.eqb_neq (wait4 cl) t))];
      rewrite ?andb_false_r; done.
  - intros t1 tx1 [-> ->]%executes_same _. split; [apply lookup_insert_eq|].
    eexists. split; [apply lookup_insert_eq | set_solver].
Qed.

Lemma wp_lose Q :
  (forall s' qs', sb_wf dm s' -> board dm c 0 s' qs' -> loses c s s' -> told_lost s s' c -> put_aside s s' qs' c -> Q tt s') ->
  wp (tx ← get_trans t;
      assert_ (negb (t_client tx =? 0) && negb (t_svc tx =? 0)) ;;
      put_client c (set_wait4 0) ;; put_trans t (set_executor 0) ;;
      put_trans t (set_result TPERRNO TPESVCERR) ;; reply_or_queue dm LOCAL_ANY t) s Q.
Proof.
  intros HQ. apply wp_give_up. intros Hwf3. destruct worker as [Hx Hw], call as (Htx & Hp & Hcl).
  apply (wp_wf dm); [done | apply keeps_reply_or_queue|].
  assert (exists cl', clients given_up !! t_client tx = Some cl' /\
    wait4 cl' = if decide (t_client tx = c) then 0 else wait4 cl) as (cl' & Hcl' & Hw').
  { cbn. destruct (decide (t_client tx = c)) as [->|Hne]; [rewrite lookup_insert_eq | rewrite lookup_insert_ne by done]; eauto. }
  destruct (wf_clients _ _ Hwf3 _ _ Hcl') as [Hc0 _].
  unfold reply_or_queue. wp_step. eapply wp_get_trans; [lia | apply lookup_insert_eq|].
  wp_step. eapply wp_get_client; [cbn; lia | exact Hcl'|].
  rewrite (proj2 (Z.eqb_neq (wait4 cl') LOCAL_ANY)) by (by eapply (wait4_local c 0 given_up), Hcl'; apply given_up_board).
  cbn [orb]. case_decide as Hd.
  - rewrite (proj2 (Z.eqb_neq (wait4 cl') t)) by lia. eapply (give_up_queue cl'); [done | by left |]. eauto.
  - destruct (Z.eqb_spec (wait4 cl') t) as [Et|Et].
    + apply give_up_reply; [done | done | congruence |]. eauto.
    + eapply (give_up_queue cl'); [done | right; congruence |]. eauto.
Qed.

End GiveUp.

(** [del_client] up to the deletion of the advertisements. *)
Lemma wp_farewell s qs c x Q :
  sb_wf dm s -> board dm c 0 s qs -> clients s !! c = Some x ->
  (forall s' qs', sb_wf dm s' -> board dm c 0 s' qs' -> loses c s s' -> told_lost s s' c -> put_aside s s' qs' c -> Q tt s') ->
  wp (if wait4 x =? 0 then mret false
      else tx ← get_trans (wait4 x); if executor tx =? 0 then mret false
        else a ← get_adv (executor tx); mret (a_client a =? c)) s
    (fun executing s' => wp (if (executing : bool) then
         tx ← get_trans (wait4 x);
         assert_ (negb (t_client tx =? 0) && negb (t_svc tx =? 0)) ;;
         put_client c (set_wait4 0) ;;
         put_trans (wait4 x) (set_executor 0) ;;
         put_trans (wait4 x) (set_result TPERRNO TPESVCERR) ;;
         reply_or_queue dm LOCAL_ANY (wait4 x)
       else mret tt) s' Q).
Proof.
  intros Hwf B Hx HQ.
  assert ((forall tx ax, trans s !! wait4 x = Some tx -> advs s !! executor tx = Some ax -> a_client ax <> c) -> Q tt s) as Hnone.
  { intros Hno. apply (HQ s qs); [done | done | | |].
    - constructor; [|eauto| |eauto|done].
      + intros c'. destruct (clients s !! c'); constructor. split_and!; [done | done | by left | by left].
      + intros t1 tx1 ax1 Hp Htx1 Hax1 Hc1. pose proof (proj1 (wf_advs _ _ Hwf _ _ Hax1)).
        destruct (bd_trans _ _ _ _ _ B t1 tx1 Htx1 Hp) as (_ & _ & Hex).
        destruct (Hex ltac:(lia)) as (ax' & y & l & Hax' & Hy & Hw1 & _). assert (ax' = ax1) as -> by congruence.
        rewrite Hc1, Hx in Hy. injection Hy as <-. rewrite <- Hw1 in Htx1. by apply (Hno tx1 ax1).
    - unfold told_lost, lost_call. rewrite Hx. cbn. destruct (trans s !! wait4 x) as [tx|] eqn:Htx; [|done]. cbn.
      destruct (advs s !! executor tx) as [ax|] eqn:Hax; [|done]. cbn. destruct (clients s !! t_client tx); [|done]. cbn.
      by rewrite (proj2 (Z.eqb_neq (a_client ax) c)) by (by apply (Hno tx)).
    - intros t tx (y & ay & Hy & <- & Htx & Hay & Hcy) _. assert (y = x) as -> by congruence. by destruct (Hno tx ay). }
  destruct (Z.eqb_spec (wait4 x) 0) as [E0|E0].
  { wp_step. wp_step. apply Hnone. intros tx ax Htx. apply (wf_trans _ _ Hwf) in Htx as (_ & [E|(? & _)] & _);
      [unfold GLOBAL_ANY in E; lia | lia]. }
  assert (exists tx, trans s !! wait4 x = Some tx /\ (executor tx <> 0 -> 0 < wait4 x)) as (tx & Htx & Hpos).
  { destruct (bd_clients _ _ _ _ _ B c x Hx) as (_ & _ & [E|[[_ [E|[Hp (tx & Htx & _)%fmap_Some]]]|(Hp & tx & ax & Htx & _)]] & _);
      [done | rewrite E; eexists; split; [apply (bd_any _ _ _ _ _ B) | done] | eauto | eauto]. }
  wp_step. eapply wp_get_trans; [done | exact Htx|]. destruct (Z.eqb_spec (executor tx) 0) as [E1|E1].
  { wp_step. wp_step. apply Hnone. intros tx' ax Htx' Hax. apply (wf_advs _ _ Hwf) in Hax as [? _].
    assert (tx' = tx) as -> by congruence. lia. }
  destruct (bd_trans _ _ _ _ _ B _ tx Htx (Hpos E1)) as ([cl Hcl] & _ & Hex).
  destruct (Hex E1) as (ax & y & l & Hax & _).
  wp_step. eapply wp_get_adv; [done | exact Hax|]. wp_step. destruct (Z.eqb_spec (a_client ax) c) as [Ec|Ec].
  - apply (wp_lose s qs c (wait4 x) x cl tx ax); auto.
  - wp_step. apply Hnone. intros tx' ax' Htx' Hax'. congruence.
Qed.

(** ** The conditions under which a client may leave *)

(** No other client is sending data of a transaction of [c], nor of a call of a service
    that only [c] advertises. *)
Definition calm (c : Z) s : Prop :=
  forall c1 x1 t tx, c1 <> c -> clients s !! c1 = Some x1 -> handler_fn x1 <> None ->
    0 < t -> trans s !! t = Some tx -> t_data tx = input x1 ->
    t_client tx <> c /\ elsewhere c s (t_svc tx).

Lemma calm_loses c s s' qs' : board dm c 0 s' qs' -> loses c s s' -> calm c s -> calm c s'.
Proof.
  intros B Hls Hcalm c1 x1 t tx' Hk Hx1 Hh Hp Htx' Hd.
  destruct (loses_back _ _ _ _ _ Hls Hx1) as (x0 & Hx0 & _ & _ & [(_ & _ & Ei & Eh)|Hpr] & _).
  - destruct (ls_trans _ _ _ Hls t tx' Htx') as (tx & Htx & [= E1 E2] & Ed). rewrite E1, E2. unfold elsewhere. rewrite (proj1 (ls_rest _ _ _ Hls)).
    apply (Hcalm c1 x0 t tx); try done; congruence.
  - exfalso. apply (bd_input _ _ (bd_apart _ _ _ _ _ B) c1 x1 t tx' Hk Hp Hx1 Hpr Htx'). by rewrite Hd.
Qed.

Lemma calm_shrinks c s s' : shrinks c s s' -> calm c s -> calm c s'.
Proof.
  intros Hsh Hcalm c1 x1 t tx Hk (x0 & Hx0 & (_ & _ & -> & ->) & _)%(shrinks_back _ _ _ _ _ Hsh) Hh Hp Htx Hd.
  destruct (Hcalm c1 x0 t tx) as (Hc & a & ax & Hax & Es & Hne); try done.
  { eapply lookup_weaken; [exact Htx | apply (sh_trans _ _ _ Hsh)]. }
  split; [done|]. exists a, ax. split; [by apply (sh_others _ _ _ Hsh) | done].
Qed.

Lemma calm_thinner c s s' : thinner s s' -> calm c s -> calm c s'.
Proof.
  intros Hth Hcalm c1 x1 t tx Hk (x0 & Hx0 & (_ & _ & -> & -> & _) & _)%(thinner_back _ _ _ _ Hth) Hh Hp Htx Hd.
  unfold elsewhere. rewrite (th_advs _ _ Hth). apply (Hcalm c1 x0 t tx); try done.
  eapply lookup_weaken; [exact Htx | apply (th_trans _ _ Hth)].
Qed.

Lemma calm_quiet c s : calm c s -> quiet c c s.
Proof. intros Hc c1 x1 t tx Hk Hx1 Hh Hp Htx Hd. by destruct (Hc c1 x1 t tx Hk Hx1 Hh Hp Htx Hd). Qed.

Lemma calm_unread c s t tx : calm c s -> trans s !! t = Some tx -> 0 < t -> t_client tx = c -> unread c s (t_data tx).
Proof. intros Hcalm Htx Hp Hc c1 x1 Hk Hx1 Hh Ei. by destruct (Hcalm c1 x1 t tx Hk Hx1 Hh Hp Htx). Qed.

(** ** The loops *)

(** The client executes nothing. *)
Definition workless (c : Z) s : Prop :=
  forall t tx ax, 0 < t -> trans s !! t = Some tx -> advs s !! executor tx = Some ax -> a_client ax <> c.

Lemma workless_shrinks c s s' : shrinks c s s' -> workless c s -> workless c s'.
Proof.
  intros Hsh Hw t tx ax Hp Htx Hax. eapply (Hw t tx ax); [done | |]; eapply lookup_weaken; try done; apply Hsh.
Qed.

(** [while (c->adverts) del_advertisement(the root)] *)
Lemma wp_del_adverts d c n s qs x Q :
  sb_wf dm s -> board dm c 0 s qs -> clients s !! c = Some x -> calm c s -> workless c s ->
  (length (twalk (adverts x)) < n)%nat ->
  (forall s' qs' x', sb_wf dm s' -> board dm c 0 s' qs' -> shrinks c s s' -> qsub qs qs' -> clients s' !! c = Some x' ->
    twalk (adverts x') = [] -> Q tt s') ->
  wp (while_ n (y ← get_client c; mret (negb (bool_decide (troot (adverts y) = None))))
    (y ← get_client c; a ← ask NullDeref (troot (adverts y)); del_advertisement dm (S (S d)) a)) s Q.
Proof.
  revert s qs x. induction n as [|n IH]; intros s qs x Hwf B Hx Hcalm Hwl Hn HQ; [lia|].
  destruct (wf_clients _ _ Hwf c x Hx) as [Hc0 _]. cbn [while_]. do 2 wp_step.
  eapply wp_get_client; [lia | exact Hx|]. wp_step. destruct (troot (adverts x)) as [a|] eqn:Er.
  - rewrite bool_decide_false by done. cbn [negb]. do 2 wp_step. eapply wp_get_client; [lia | exact Hx|].
    wp_step. eapply wp_ask; [exact Er|]. apply troot_some in Er as Hin.
    destruct (bd_clients _ _ _ _ _ B c x Hx) as (Hreg & Hown & _).
    pose proof (Hown a Hin) as (ax & Hax & Hc)%fmap_Some.
    eapply (wp_del_advert dm d c s qs a ax); [done | done | done | | rewrite <- Hc; by apply calm_quiet |].
    + intros t tx Htx Hex. destruct (decide (0 < t)) as [Hp|Hp]; [apply (Hwl t tx ax); congruence|].
      apply (wf_trans _ _ Hwf) in Htx as HH. destruct HH as (_ & [E|(? & _)] & _); [|lia].
      rewrite E, (bd_any _ _ _ _ _ B) in Htx. injection Htx as <-. apply (wf_advs _ _ Hwf) in Hax as [? _]. cbn in Hex. lia.
    + rewrite <- Hc. intros s1 qs1 Hwf1 B1 Hsh _ Hqs Hperm. destruct (shrinks_forth _ _ _ _ _ Hsh Hx) as (x1 & Hx1 & _).
      eapply (IH s1 qs1 x1); [done | done | done | by eapply calm_shrinks | by eapply workless_shrinks | |].
      * pose proof (Hperm x x1 Hx Hx1) as Hlen%Permutation_length. cbn in Hlen. lia.
      * intros s2 qs2 x2 Hwf2 B2 Hsh2 Hqs2 Hx2 He. eapply HQ; [done | done | by etransitivity | by etransitivity | done | done].
  - rewrite bool_decide_true by done. cbn [negb]. wp_step. eapply (HQ s qs x); try done. by apply troot_none.
Qed.

(** The tree has no more elements than there are advertisements. *)
Lemma adverts_size k e s qs c x : board dm k e s qs -> clients s !! c = Some x ->
  (length (twalk (adverts x)) <= size (advs s))%nat.
Proof.
  intros B Hx. destruct (bd_clients _ _ _ _ _ B c x Hx) as ([Hl Ho] & _).
  rewrite <- (size_dom (D := gset Z)), <- (size_list_to_set (C := gset Z)).
  - apply subseteq_size. intros a Ha%elem_of_list_to_set. apply elem_of_dom.
    destruct (Hl a) as (_ & ax & Hax & _); [done|]. by exists ax.
  - eapply NoDup_fmap_1. by apply (tordered_nodup (akey s)).
Qed.

(** [while (!QISEMPTY(c->requests)) ...], and the same for the replies. *)
Lemma wp_del_queue c h s qs Q :
  sb_wf dm s -> board dm c 0 s qs -> is_Some (clients s !! c) -> calm c s -> h = Q_requests c \/ h = Q_replies c ->
  (forall s' qs', sb_wf dm s' -> board dm c 0 s' qs' -> thinner s s' -> qsub qs qs' -> qs' !! h = Some [] ->
    (forall c', qs !! Q_requests c' = Some [] -> qs' !! Q_requests c' = Some []) ->
    (forall t tx, trans s !! t = Some tx -> t_client tx <> c -> trans s' !! t = Some tx) -> Q tt s') ->
  wp (del_queue dm h) s Q.
Proof.
  intros Hwf B Hc Hcalm Hh HQ. destruct (bd_heads _ _ (bd_listed _ _ _ _ _ B) h) as [l Hl]; [by destruct Hh as [->| ->]|].
  destruct (client_list dm c 0 s qs c h l B Hh Hl) as (ts & -> & Hts).
  pose proof (is_queue_size _ _ _ (qr_queue _ _ (sn_queues _ _ (bd_sane _ _ _ _ _ B)) _ _ Hl)) as Hsize.
  rewrite length_fmap in Hsize. unfold del_queue, queue_fuel. wp_step. repeat wp_step.
  apply (wp_del_loop dm h Q_t_clientq offset_t_clientq) with (k := c) (e := 0) (ts := ts) (qs := qs);
    [unfold t_link; naive_solver | done | unfold t_link; destruct Hh as [->| ->]; naive_solver | lia | done | done | done | |].
  - intros t Ht. destruct (Hts t Ht) as (Hp & tx & Htx & Hct). split; [done|]. exists tx. split; [done|].
    by eapply calm_unread.
  - intros s' Hwf' B' Hth _ He Hk. eapply HQ; [done | exact B' | done | apply qsub_drops | done | |].
    + intros c'. clear. revert qs. induction ts as [|t ts IH]; intros qs E; [done|]. cbn [foldl]. apply IH.
      unfold flip. rewrite lookup_qdrop, decide_False, E by (unfold t_link; naive_solver). done.
    + intros t tx Htx Hct. rewrite Hk; [done|]. intros Hin. destruct (Hts t Hin) as (_ & tx' & Htx' & E). congruence.
Qed.

(** What is left when the advertisements and the transactions are deleted. *)
Record emptied (c : Z) s s' : Prop := {
  em_clients c' : option_Forall2 (fun x x' => fd x' = fd x /\ unhooked x x') (clients s !! c') (clients s' !! c');
  em_trans : trans s' ⊆ trans s;
  em_advs : advs s' ⊆ advs s;
  em_others a ax : advs s !! a = Some ax -> a_client ax <> c -> advs s' !! a = Some ax;
  em_kept t tx : trans s !! t = Some tx -> t_client tx <> c -> elsewhere c s (t_svc tx) -> trans s' !! t = Some tx;
  em_output : out s' = out s /\ closed s' = closed s;
}.

Lemma emptied_shrinks c s s' : shrinks c s s' -> emptied c s s'.
Proof.
  intros [C1 T1 A1 X1 K1 O1]. constructor; try done.
  - intros c'. specialize (C1 c'). inversion C1 as [? ? ((? & _) & ? & _)|]; by constructor.
  - split; apply O1.
Qed.

Lemma emptied_thinner c s s' s'' :
  emptied c s s' -> thinner s' s'' ->
  (forall t tx, trans s' !! t = Some tx -> t_client tx <> c -> trans s'' !! t = Some tx) -> emptied c s s''.
Proof.
  intros [C1 T1 A1 X1 K1 O1] [C2 T2 A2 O2] K2. constructor.
  - intros c'. specialize (C1 c'). specialize (C2 c'). destruct (clients s !! c'), (clients s' !! c'), (clients s'' !! c');
      inversion C1 as [? ? [? ?]|]; inversion C2 as [? ? [(? & _) ?]|]; subst; constructor. split; [congruence | by etransitivity].
  - by etransitivity.
  - by rewrite A2.
  - by rewrite A2.
  - auto.
  - unfold same_output in O2. intuition congruence.
Qed.

(** [del_client] between the farewell and the end. *)
Lemma wp_empty d c n s qs x Q :
  sb_wf dm s -> board dm c 0 s qs -> clients s !! c = Some x -> calm c s -> workless c s ->
  (length (twalk (adverts x)) < n)%nat ->
  (forall s' qs' x', sb_wf dm s' -> board dm c 0 s' qs' -> emptied c s s' -> qsub qs qs' -> clients s' !! c = Some x' -> fd x' = fd x ->
    qs' !! Q_requests c = Some [] /\ qs' !! Q_replies c = Some [] /\ twalk (adverts x') = [] -> Q tt s') ->
  wp (while_ n (y ← get_client c; mret (negb (bool_decide (troot (adverts y) = None))))
    (y ← get_client c; a ← ask NullDeref (troot (adverts y)); del_advertisement dm (S (S d)) a)) s
    (fun _ s' => wp (del_queue dm (Q_requests c)) s' (fun _ s' => wp (del_queue dm (Q_replies c)) s' Q)).
Proof.
  intros Hwf B Hx Hcalm Hwl Hn HQ. eapply (wp_del_adverts d c n s qs x); try done.
  intros s2 qs2 x2 Hwf2 B2 Hsh Hqs2 Hx2 Hnone. pose proof (calm_shrinks _ _ _ Hsh Hcalm) as Hcalm2.
  eapply (wp_del_queue c (Q_requests c) s2 qs2); [done | done | by eexists | done | by left |].
  intros s3 qs3 Hwf3 B3 Hth3 Hqs3 He3 _ Hk3. pose proof (th_clients _ _ Hth3 c) as Hc3. rewrite Hx2 in Hc3.
  inversion Hc3 as [? x3 [(Efd3 & _ & _ & _ & Et3) _] Ex Hx3|]; subst. symmetry in Hx3.
  eapply (wp_del_queue c (Q_replies c) s3 qs3); [done | done | by eexists | by eapply calm_thinner | by right |].
  intros s4 qs4 Hwf4 B4 Hth4 Hqs4 He4 Hr4 Hk4. pose proof (th_clients _ _ Hth4 c) as Hc4. rewrite Hx3 in Hc4.
  inversion Hc4 as [? x4 [(Efd4 & _ & _ & _ & Et4) _] Ex4 Hx4|]; subst. symmetry in Hx4.
  assert (emptied c s s4) as Hem.
  { eapply emptied_thinner; [eapply emptied_thinner; [by apply emptied_shrinks | done | done] | done | done]. }
  destruct (shrinks_forth _ _ _ _ _ Hsh Hx) as (x2' & Hx2' & (Efd2 & _) & _). assert (x2' = x2) as -> by congruence.
  eapply (HQ s4 qs4 x4); [done | done | done | by do 2 (etransitivity; [eassumption|]) | done | congruence |]. split_and!; [by apply Hr4 | done | by rewrite Et4, Et3].
Qed.

(** The end of [del_client]. *)
Lemma wp_gone s qs c x Q :
  sb_wf dm s -> board dm c 0 s qs -> clients s !! c = Some x ->
  qs !! Q_requests c = Some [] /\ qs !! Q_replies c = Some [] /\ twalk (adverts x) = [] ->
  (forall s' qs', board dm 0 0 s' qs' -> qsub qs qs' -> clients s' = delete c (clients s) -> trans s' = trans s -> advs s' = advs s ->
    out s' = out s -> closed s' = closed s ++ [fd x] -> Q tt s') ->
  wp (_ ← in_q (qdelete (Q_global c)); y ← get_client c;
      modify (fun s => set_closed (closed s ++ [fd y]) s) ;;
      modify (fun s => set_clients (delete c (clients s)) s) ;;
      in_q (q_free (Q_global c)) ;; in_q (q_free (Q_requests c)) ;; in_q (q_free (Q_replies c))) s Q.
Proof.
  intros Hwf B Hx (E1 & E2 & E3) HQ. destruct (wf_clients _ _ Hwf c x Hx) as [Hc0 _].
  destruct (bd_sane _ _ _ _ _ B) as [Hq H2 H3].
  destruct (qrep_qremove _ _ (Q_global c) Hq) as (m & Em & Qm).
  { right. apply (bd_nodes _ _ (bd_listed _ _ _ _ _ B) (Q_global c)). by exists x. }
  wp_step. eapply wp_in_q; [exact Em|]. wp_step. eapply wp_get_client; [lia | exact Hx|].
  unfold in_q, q_free. repeat wp_step. eapply HQ; [eapply (board_gone dm s _ qs c x); try done | | done..].
  - split; [|done|done]. cbn. apply qrep_free; [apply qrep_free; [apply qrep_free; [done | apply qremove_self]|]|];
      rewrite !lookup_delete_ne by done; by apply qremove_keep.
  - do 3 (etransitivity; [|apply qsub_delete]). apply qsub_remove.
Qed.

Lemma executes_positive k s qs c t tx : sb_wf dm s -> board dm k 0 s qs -> executes s c t tx -> 0 < t.
Proof.
  intros Hwf B (x & ax & _ & _ & Htx & Hax & _). destruct (wf_trans _ _ Hwf t tx Htx) as (_ & [->|[? _]] & _); [|done].
  rewrite (bd_any _ _ _ _ _ B) in Htx. injection Htx as <-. apply (wf_advs _ _ Hwf) in Hax as [? _]. cbn in *. lia.
Qed.

(** What [del_client] leaves. *)
Record left_behind s s' qs' (c : Z) x : Prop := {
  lb_consistent : sb_wf dm s' /\ board dm 0 0 s' qs';
  lb_gone : clients s' !! c = None;
  lb_clients c' : c' <> c -> option_Forall2 (fun y y' => fd y' = fd y /\ unhooked y y') (clients s !! c') (clients s' !! c');
  lb_advs a ax : advs s' !! a = Some ax <-> advs s !! a = Some ax /\ a_client ax <> c;
  lb_trans t tx' : trans s' !! t = Some tx' -> 0 < t ->
    t_client tx' <> c /\ exists tx, trans s !! t = Some tx /\ t_place tx' = t_place tx;
  lb_kept t tx : trans s !! t = Some tx -> t_client tx <> c -> elsewhere c s (t_svc tx) ->
    lost_call s c <> Some t -> is_Some (trans s' !! t);
  lb_told : told_lost s s' c;
  lb_aside t tx : executes s c t tx -> lost_call s c <> Some t -> t_client tx <> c -> elsewhere c s (t_svc tx) ->
    trans s' !! t = Some (failed tx) /\ exists l, qs' !! Q_replies (t_client tx) = Some l /\ Q_t_clientq t ∈ l;
  lb_closed : closed s' = closed s ++ [fd x];
}.

(** A transaction that was put among the replies is still there if it is there at all. *)
Lemma aside_stays s s' qs qs' k t tx tx' l :
  board dm k 0 s qs -> board dm 0 0 s' qs' -> qsub qs qs' -> 0 < t -> trans s' !! t = Some tx' -> t_client tx' = t_client tx ->
  qs !! Q_replies (t_client tx) = Some l -> Q_t_clientq t ∈ l ->
  exists l', qs' !! Q_replies (t_client tx) = Some l' /\ Q_t_clientq t ∈ l'.
Proof.
  intros B B' Hqs Hp Htx' Ec Hl Hin.
  destruct (bd_nodes _ _ (bd_listed _ _ _ _ _ B') (Q_t_clientq t)) as (h & l' & Hh & Hin'); [split; [done | by eexists]|].
  pose proof (bd_lists _ _ (bd_listed _ _ _ _ _ B') h l' _ Hh Hin') as Hf.
  destruct (Hqs h l' _ Hh Hin') as (l0 & Hl0 & Hin0).
  destruct (decide (h = Q_replies (t_client tx))) as [->|Hne]; [by exists l'|]. exfalso.
  apply (qrep_apart _ _ _ _ _ _ (sn_queues _ _ (bd_sane _ _ _ _ _ B)) Hl0 Hl Hne (Q_t_clientq t)); by right.
Qed.

Lemma del_client_run s qs c x :
  sb_wf dm s -> board dm 0 0 s qs -> clients s !! c = Some x -> calm c s ->
  wp (del_client dm c) s (fun _ s' => exists qs', left_behind s s' qs' c x).
Proof.
  intros Hwf B0 Hx Hcalm. apply (wp_wf dm); [done | apply keeps_del_client|].
  destruct (wf_clients _ _ Hwf c x Hx) as [Hc0 _].
  assert (board dm c 0 s qs) as B.
  { apply board_deleting; [done|]. intros c' [x' Hx']. apply (wf_clients _ _ Hwf) in Hx' as [? _]. lia. }
  unfold del_client. rewrite (proj2 (Z.eqb_neq c 0)) by lia. wp_step. eapply wp_get_client; [lia | exact Hx|].
  wp_step. eapply wp_mono; [eapply (wp_farewell s qs c x (fun _ s1 => _)); [done | done | done |] |
    intros executing s1 Hs1; wp_step; exact Hs1].
  intros s1 qs1 Hwf1 B1 Hls Htold Haside. pose proof (calm_loses _ _ _ _ B1 Hls Hcalm) as Hcalm1.
  pose proof (ls_clients _ _ _ Hls c) as Hd. rewrite Hx in Hd. inversion Hd as [? x1 (Efd1 & _) Ex1 Hx1|]; subst. symmetry in Hx1.
  assert (workless c s1) as Hwl1.
  { intros t tx ax Hp Htx Hax. rewrite (proj1 (ls_rest _ _ _ Hls)) in Hax. by apply (ls_free _ _ _ Hls t tx ax). }
  unfold del_depth. wp_step. wp_step. wp_step. wp_step. wp_step. wp_step. wp_step.
  replace (2 * size (advs s1) + 2)%nat with (S (S (2 * size (advs s1)))) by lia.
  eapply wp_mono; [eapply (wp_empty _ c _ s1 qs1 x1 (fun _ s2 => _)); [done | done | done | done | done | |] |
    intros [] s2 Hs2; wp_step; eapply wp_mono; [exact Hs2 | intros [] s3 Hs3; wp_step; exact Hs3]].
  { pose proof (adverts_size c 0 s1 qs1 c x1 B1 Hx1). lia. }
  intros s4 qs4 x4 Hwf4 B4 [C4 T4 A4 X4 K4 O4] Hqs4 Hx4 Efd4 He.
  destruct (ls_rest _ _ _ Hls) as [Ea1 Ecl1].
  eapply (wp_gone s4 qs4 c x4); [done | done | done | done |].
  intros s5 qs5 B5 Hqs5 Ec5 Et5 Ea5 Eo5 Ecl5 Hwf5. exists qs5. constructor; [done|..].
  - rewrite Ec5. apply lookup_delete_eq.
  - intros c' Hne. rewrite Ec5, lookup_delete_ne by done. pose proof (ls_clients _ _ _ Hls c') as L1. specialize (C4 c').
    destruct (clients s !! c'), (clients s1 !! c'), (clients s4 !! c');
      inversion L1 as [? ? (? & _ & _ & ?)|]; inversion C4 as [? ? [? ?]|]; subst; constructor.
    split; [congruence | by etransitivity].
  - intros a ax. rewrite Ea5. split.
    + intros Hax. split; [rewrite <- Ea1; by eapply lookup_weaken|]. by eapply gone_advert.
    + intros [Hax Hc]. apply X4; [by rewrite Ea1 | done].
  - intros t tx Htx Hp. rewrite Et5 in Htx. split; [by eapply gone_trans|].
    destruct (ls_trans _ _ _ Hls t tx) as (tx0 & Htx0 & Epl & _); [by eapply lookup_weaken | by exists tx0].
  - intros t tx Htx Hc Hels Hlost. destruct (ls_kept _ _ _ Hls t tx Htx Hlost) as (tx1 & Htx1 & [= E1 E2]).
    exists tx1. rewrite Et5. apply K4; [done | by rewrite E1 |]. unfold elsewhere. rewrite Ea1, E2. exact Hels.
  - unfold told_lost in *. destruct O4 as [Eo4 _]. destruct (lost_call s c) as [t|]; [|congruence].
    unfold stream in *. rewrite Eo5, Eo4. exact Htold.
  - intros t tx Hexec Hlost Hc Hels. destruct (Haside t tx Hexec Hlost) as (Htx1 & l & Hl & Hin).
    assert (trans s5 !! t = Some (failed tx)) as Htx5.
    { rewrite Et5. apply K4; [done | done |]. unfold elsewhere. rewrite Ea1. exact Hels. }
    split; [done|]. eapply (aside_stays s1 s5 qs1 qs5 c t tx); [done | done | by etransitivity | | done..].
    exact (executes_positive c s qs c t tx Hwf B Hexec).
  - rewrite Ecl5, (proj2 O4), Ecl1. congruence.
Qed.

(** ** Properties *)

(** C9. A client that goes does not bring the switchboard down, as long as no other client is
    in the middle of sending data that goes with it ([calm]): from every such consistent
    state, whatever the client was doing, [del_client] ends without a fault, in a consistent
    state.  The client, its advertisements and its transactions are gone, none is new, and its
    connection is closed; every other client stays, and waits as before or no longer for the
    transaction that it waited for; the other advertisements stay, and so do the calls of
    services that others advertise.  The caller of the call that the client was executing
    gets the reply [TPESVCERR] if it waits for exactly this call, and nothing else is sent;
    if it does not, nothing at all is sent, and the call, if the service is advertised by
    others too, is put among the caller's replies with the result [TPERRNO], [TPESVCERR]. *)
Theorem del_client_total s qs c x :
  sb_wf dm s -> board dm 0 0 s qs -> clients s !! c = Some x -> calm c s ->
  wp (del_client dm c) s (fun _ s' => exists qs',
    (sb_wf dm s' /\ board dm 0 0 s' qs') /\ clients s' !! c = None /\
    (forall c', c' <> c ->
      option_Forall2 (fun y y' => fd y' = fd y /\ unhooked y y') (clients s !! c') (clients s' !! c')) /\
    (forall a ax, advs s' !! a = Some ax <-> advs s !! a = Some ax /\ a_client ax <> c) /\
    (forall t tx', trans s' !! t = Some tx' -> 0 < t ->
      t_client tx' <> c /\ exists tx, trans s !! t = Some tx /\ t_place tx' = t_place tx) /\
    (forall t tx, trans s !! t = Some tx -> t_client tx <> c -> elsewhere c s (t_svc tx) ->
      lost_call s c <> Some t -> is_Some (trans s' !! t)) /\
    told_lost s s' c /\
    (forall t tx, executes s c t tx -> lost_call s c <> Some t -> t_client tx <> c -> elsewhere c s (t_svc tx) ->
      trans s' !! t = Some (failed tx) /\ exists l, qs' !! Q_replies (t_client tx) = Some l /\ Q_t_clientq t ∈ l) /\
    closed s' = closed s ++ [fd x]).
Proof.
  intros Hwf B Hx Hcalm. eapply wp_mono; [by eapply del_client_run|].
  intros [] s' (qs' & [? ? ? ? ? ? ? ? ?]). exists qs'. by repeat (split; [done|]).
Qed.

End Leaving.

(** ** Witnesses *)

Lemma option_Forall2_some {A} (R : A -> A -> Prop) o o' : option_Forall2 R o o' -> is_Some o -> is_Some o'.
Proof. intros [y y' _|] [z Hz]; [by exists y' | done]. Qed.

(** Nobody else sends anything. *)
Lemma calm_idle (c : Z) (s : sb (bst Z)) :
  map_Forall (fun c1 x1 => c1 = c \/ handler_fn x1 = None) (clients s) -> calm c s.
Proof. intros Hm c1 x1 t tx Hne Hx1 Hh. by destruct (Hm c1 x1 Hx1). Qed.

(** The state that a session ends in. *)
Definition state_of (m : M (sb (bst Z)) unit) : sb (bst Z) :=
  match m start with Done (_, s) => s | Fault _ => start end.

(** The states of the sample session are consistent. *)
Lemma session_consistent :
  Forall (fun m => fault_of m = None /\ sb_wf LP64 (state_of m) /\ board LP64 0 0 (state_of m) (lists_of (state_of m)))
    [mret tt; two_connected; waiting_for_work; executing; executing ;; deliver 9 4 ret_bytes;
     executing ;; deliver 9 5 grply_bytes; executing ;; deliver 9 5 grply_bytes ;; deliver 9 4 ret_bytes].
Proof.
  repeat (apply Forall_cons; split; [split; [vm_compute; reflexivity | apply consistent_check; vm_compute; reflexivity]|]).
  constructor.
Qed.

(** The worker, the client 1 at the descriptor 4, executes the call of the client 2, at
    the descriptor 5, which waits for the reply. *)
Definition caller_waits : sb (bst Z) := state_of (executing ;; deliver 9 5 grply_bytes).

Lemma del_client_total_witness :
  lost_call caller_waits 1 = Some 5 /\
  wp (del_client LP64 1) caller_waits (fun _ s' =>
    (exists qs', board LP64 0 0 s' qs') /\ clients s' !! 1 = None /\ is_Some (clients s' !! 2) /\ closed s' = [4]).
Proof.
  split; [vm_compute; reflexivity|]. eapply wp_mono.
  - destruct (consistent_check LP64 caller_waits) as [Hwf B]; [vm_compute; reflexivity | vm_compute; reflexivity|].
    eapply (del_client_total LP64 caller_waits (lists_of caller_waits) 1 _ Hwf B); [vm_compute; reflexivity|].
    apply calm_idle. apply (proj1 (bool_decide_eq_true _)). vm_compute. reflexivity.
  - intros [] s' (qs' & [_ B] & Hgone & Hc & _ & _ & _ & _ & _ & Hcl). split; [by exists qs'|]. split; [exact Hgone|].
    split; [|exact Hcl]. apply (option_Forall2_some _ _ _ (Hc 2 ltac:(discriminate))). vm_compute. eauto.
Defined.
