(* ===== verification/Steady.v ===== *)
(** * The handlers keep the switchboard consistent

    Each message handler from a consistent switchboard: under the conditions that its
    message is one that a client may send there, it ends without a fault and leaves the
    switchboard consistent. *)

From Stdlib Require Import ZArith Lia.
From S2P Require Import Prelude Constants ByteOrder CString SearchTree Queue Memory TpMemory Keeps.
From S2P Require Import SbState SbObjects SbHandlers SbLemmas TxIo Xatmi Dispatch EventLoop Registry Messages Replies.
From S2P Require Import Transactions Calls Advertising Invariant Board BoardSteps Deletion Leaving.

Local Open Scope Z_scope.

Section Steady.
Context {T : Type} `{SearchTree T Z} (dm : data_model).
Implicit Types (s : sb T) (x : tpclient T) (tx : tptransaction) (qs : gmap qaddr (list qaddr)).

(** A message of the client [c] has arrived and is taken from it. *)
Record handling s qs (c : Z) x : Prop := {
  hd_wf : sb_wf dm s;
  hd_board : board dm 0 0 s qs;
  hd_client : clients s !! c = Some x;
  hd_idle : idle x;
  hd_wait : wait4 x = 0 \/ works s c (wait4 x);
  hd_queue p l a ax : qs !! Q_waitq p = Some l -> Q_adv_waitq a ∈ l -> advs s !! a = Some ax -> a_client ax <> c;
}.

Definition consistent s : Prop := sb_wf dm s /\ exists qs, board dm 0 0 s qs.

Lemma wf_nonzero s c : sb_wf dm s -> is_Some (clients s !! c) -> c <> 0.
Proof. intros Hwf [x Hx]. apply (wf_clients _ _ Hwf) in Hx as [? _]. lia. Qed.

(** The list at a header, read from the links. *)
Definition qlist s (h : qaddr) : list qaddr :=
  match qelements h (qm s) with Done (l, _) => l | Fault _ => [] end.

Lemma qlist_eq s qs h l : sane s qs -> qs !! h = Some l -> qlist s h = l.
Proof. intros Hs Hl. unfold qlist. by rewrite (qelements_queue _ _ l) by (by apply (qr_queue _ _ (sn_queues _ _ Hs))). Qed.

(** What the client executes. *)
Lemma handling_only s qs c x t tx ax :
  handling s qs c x -> 0 < t -> trans s !! t = Some tx -> executor tx <> 0 ->
  advs s !! executor tx = Some ax -> a_client ax = c -> t = wait4 x.
Proof.
  intros Hh Hp Htx He Hax Hc. destruct (bd_trans _ _ _ _ _ (hd_board _ _ _ _ Hh) t tx Htx Hp) as (_ & _ & Hex).
  destruct (Hex He) as (ax' & y & l & Hax' & Hy & Hw & _). assert (ax' = ax) as -> by congruence.
  rewrite Hc, (hd_client _ _ _ _ Hh) in Hy. by injection Hy as <-.
Qed.

(** ** Freeing the message *)

Lemma freed_back s buf p len :
  tpbuf dm (tp_heap (mem (freed buf s))) p len -> pblk p <> pblk buf /\ tpbuf dm (tp_heap (mem s)) p len.
Proof.
  intros (Ho & Hb & b & E & Hblk). cbn in E. destruct (decide (pblk p = pblk buf)) as [Eb|Hne].
  - by rewrite Eb, lookup_delete_eq in E.
  - rewrite lookup_delete_ne in E by done. split; [done|]. split_and!; [done | done | by exists b].
Qed.

Lemma freed_handling s qs c x buf bs :
  handling s qs c x -> message dm s buf bs -> unowned s buf -> handling (freed buf s) qs c x.
Proof.
  intros [Hwf B Hx Hi Hw Hq] Hm [Hu Hu']. constructor; try done.
  - eapply (wf_of_run dm (in_mem (tpfree dm buf)) s tt); [done | apply keeps_in_mem, pres_tpfree|].
    apply wp_eq. by eapply wp_free_message.
  - eapply (board_mem dm 0 s _ qs (pblk buf)); try done.
    + intros c1 Hc1. by eapply wf_nonzero.
    + intros p len Hp Hb. by apply (freed_kept dm s buf p len).
    + apply freed_sane. apply B.
Qed.

Lemma wp_free_handling s qs c x buf bs Q :
  handling s qs c x -> message dm s buf bs -> unowned s buf ->
  (handling (freed buf s) qs c x -> Q tt (freed buf s)) -> wp (in_mem (tpfree dm buf)) s Q.
Proof. intros Hh Hm Hu HQ. eapply wp_free_message; [done|]. by eapply HQ, freed_handling. Qed.

(** ** Answering *)

Lemma told_board s s' qs c x bs : handling s qs c x -> told dm s s' c x bs -> board dm 0 0 s' qs.
Proof.
  intros Hh Ht. pose proof Hh as [Hwf B Hx Hi Hw Hq]. destruct (td_clients _ _ _ _ _ _ Ht) as (b & Ec & Hb & Hblk).
  destruct (td_rest _ _ _ _ _ _ Ht) as (Eq & Et & Es & Ea & Eserv & _).
  eapply (board_command dm 0 0 s s' qs c (wait4 x) x b H_command 1); try done.
  - intros t tx ax Hp Htx He Hax Hc. by eapply handling_only.
  - intros p len Hp. eapply (new_block dm s); [apply B | done | done].
  - intros p len Hp. by apply (td_buffers _ _ _ _ _ _ Ht).
  - apply (td_sane _ _ _ _ _ _ Ht), B.
Qed.

Lemma wp_tell_board m bs s qs c x Q :
  handling s qs c x -> emits m c bs ->
  (forall s', board dm 0 0 s' qs -> told dm s s' c x bs -> Q tt s') ->
  wp (m ;; svr_next_command dm c) s Q.
Proof.
  intros Hh He HQ. pose proof Hh as [Hwf B Hx Hi Hw Hq].
  eapply (wp_tell dm m s c x qs bs); [done | by eapply wf_nonzero; eauto | done | done | apply B |].
  intros s' Ht. apply HQ; [by eapply told_board | done].
Qed.

(** ** Withdrawing a service *)

Lemma handling_shrinks s s' qs qs' c x x' :
  handling s qs c x -> sb_wf dm s' -> board dm 0 0 s' qs' -> shrinks c s s' -> qsub qs qs' ->
  (forall t tx, trans s !! t = Some tx -> advs s' !! executor tx = advs s !! executor tx) ->
  clients s' !! c = Some x' -> handling s' qs' c x'.
Proof.
  intros [Hwf B Hx Hi Hw Hq] Hwf' B' Hsh Hqs Hex Hx'.
  destruct (shrinks_back _ _ _ _ _ Hsh Hx') as (x0 & Hx0 & (_ & Eu & Ei & Eh) & Hw4 & _).
  assert (x0 = x) as -> by congruence. constructor; try done.
  - unfold idle. by rewrite Eu, Ei, Eh.
  - destruct Hw4 as [E|[E _]]; [|by left]. rewrite E. destruct Hw as [?|(Hp & tx & ax & Htx & Hax & Hc)]; [by left|].
    right. split; [done|]. exists tx, ax. split_and!; [|by rewrite (Hex (wait4 x)) | done].
    destruct (bd_clients _ _ _ _ _ B' c x' Hx') as (_ & _ & Hwait & _). rewrite <- E.
    destruct Hwait as [E0|[[_ [E0|[_ (tx' & Htx' & _)%fmap_Some]]]|(_ & tx' & _ & Htx' & _)]];
      [lia | unfold GLOBAL_ANY in E0; lia | |].
    + pose proof (lookup_weaken _ _ _ _ Htx' (sh_trans _ _ _ Hsh)) as E1. rewrite E in E1. congruence.
    + pose proof (lookup_weaken _ _ _ _ Htx' (sh_trans _ _ _ Hsh)) as E1. rewrite E in E1. congruence.
  - intros p l a ax Hl Hin Hax. destruct (Hqs _ _ _ Hl Hin) as (l0 & Hl0 & Hin0). eapply Hq; [done | done |].
    eapply lookup_weaken; [exact Hax | apply (sh_advs _ _ _ Hsh)].
Qed.

(** When [c] may withdraw the service [name]: it executes no call of it, and no client is
    sending the data of a call of it when nobody else advertises it. *)
Definition may_withdraw s (c : Z) x name : Prop :=
  quiet 0 c s /\ forall a t tx, advertised s x name a -> trans s !! t = Some tx -> executor tx <> a.

Lemma svrunadvertise_steady s qs c x buf name :
  handling s qs c x -> unowned s buf -> message dm s buf name -> length name = XATMI_SERVICE_NAME_LENGTH ->
  may_withdraw s c x name -> wp (svrunadvertise dm c buf) s (fun _ s' => consistent s').
Proof.
  intros Hh Hu Hm Hn [Hquiet Hidle]. pose proof Hh as [Hwf B Hx Hi _ _]. apply (wp_wf dm); [done | apply keeps_svrunadvertise|].
  assert (c <> 0) as Hc by (eapply wf_nonzero; eauto).
  assert (bool_decide (buf = NULL) = false) as Hnn by by eapply message_not_null.
  assert (message dm s buf (name ++ [])) as Hm' by by rewrite app_nil_r.
  destruct (bd_registry _ _ _ _ _ B) as [Hr Hall]. destruct (bd_clients _ _ _ _ _ B c x Hx) as (Hreg & Hown & _).
  unfold svrunadvertise. wp_step. apply wp_assert; [by rewrite (proj2 (Z.eqb_neq c 0)), Hnn|].
  wp_step. eapply wp_buf_name; [exact Hm' | done |].
  assert (exists a, fnd_advertisement c name s = Done (a, s) /\ (a <> 0 -> advertised s x name a)) as (a & Ea & Ha).
  { destruct (fnd_service_spec s name Hr) as (p & Ep & Hp1 & Hp0). destruct (decide (p = 0)) as [->|Hp].
    - exists 0. split; [|done]. unfold fnd_advertisement. rewrite (bind_run _ _ s s tt) by (by rewrite (proj2 (Z.eqb_neq c 0))).
      rewrite (bind_run _ _ s s x) by by apply get_client_run. by rewrite (bind_run _ _ _ _ _ Ep).
    - eexists. split; [by apply (fnd_advertisement_run s c x name p); auto|].
      destruct (tfind _ (adverts x)) as [a|] eqn:Ef; [|done]. intros _.
      by apply (tfind_advertised_svc s x name p a Hreg (Hp1 Hp)). }
  wp_step. eapply wp_of_eq; [exact Ea|]. wp_step. eapply wp_free_handling; [done | done | done |]. intros Hf.
  wp_step. unfold del_depth. do 3 wp_step. wp_step.
  replace (2 * size (advs (freed buf s)) + 2)%nat with (S (S (2 * size (advs s)))) by (cbn; lia).
  destruct (Z.eqb_spec a 0) as [->|Ha0].
  - cbn [del_advertisement Z.eqb]. wp_step. eapply wp_tell_board; [done | apply emits_svrwrites|].
    intros s' B' _ Hwf'. split; [done | by eexists].
  - destruct (Ha Ha0) as [Hin _]. pose proof (Hown a Hin) as (ax & Hax & Hca)%fmap_Some. pose proof Hf as [Hwf1 B1 Hx1 _ _ _].
    eapply (wp_del_advert dm _ 0 (freed buf s) qs a ax); [done | done | done | by intros t tx; apply Hidle; auto | by rewrite <- Hca |].
    rewrite <- Hca. intros s1 qs1 Hwf2 B2 Hsh Eadv Hqs _. destruct (shrinks_forth _ _ _ _ _ Hsh Hx1) as (x2 & Hx2 & _).
    eapply (wp_tell_board _ _ s1 qs1 c x2); [|apply emits_svrwrites|intros s' B' _ Hwf'; split; [done | by eexists]].
    eapply (handling_shrinks (freed buf s)); try done. intros t tx Htx. rewrite Eadv. apply lookup_delete_ne.
    intros E. by apply (Hidle a t tx); auto.
Qed.

(** ** Asking for a reply *)

(** Any bytes are numbers. *)
Lemma bytes4 (bs : list byte) : length bs = 4%nat -> exists v, bs = le_encode 4 v /\ - 2 ^ 31 <= v < 2 ^ 31.
Proof.
  intros Hl. exists (swrap 32 (le_decode bs)). split; [|by apply (swrap_range 32)].
  transitivity (le_encode 4 (le_decode bs)); [by rewrite <- (le_encode_decode bs), Hl at 1|].
  apply le_encode_mod. unfold swrap. change (256 ^ Z.of_nat 4) with (2 ^ 32).
  change (2 ^ 32) with 4294967296. change (2 ^ (32 - 1)) with 2147483648. Z.div_mod_to_equations. lia.
Qed.
Lemma bytes2 (bs : list byte) : length bs = 2%nat -> exists v, bs = le_encode 2 v.
Proof. intros Hl. exists (le_decode bs). by rewrite <- (le_encode_decode bs), Hl at 1. Qed.

Lemma any_return_parts (bs : list byte) : length bs = (1 + IOLONG * 2)%nat ->
  exists rv rc len, bs = return_message rv rc len /\ - 2 ^ 31 <= len < 2 ^ 31 /\ swrap 32 (le_decode (drop 5 bs)) = len.
Proof.
  intros Hn. destruct bs as [|b0 bs]; [done|]. change IOLONG with 4%nat in Hn. cbn in Hn.
  destruct (bytes4 (take 4 bs)) as (rc & Ec & _); [rewrite length_take; lia|].
  destruct (bytes4 (drop 4 bs)) as (len & El & Hl); [rewrite length_drop; lia|].
  exists (b2z b0), rc, len. split_and!; [|lia|lia|].
  - unfold return_message. rewrite <- Ec, <- El, z2b_b2z. cbn. by rewrite take_drop.
  - cbn. rewrite El, le_decode_encode. change (256 ^ Z.of_nat 4) with (2 ^ 32).
    rewrite swrap_mod. by apply swrap_id.
Qed.

(** A reply is finished, and nobody writes to its data. *)
Lemma reply_finished s qs c l t tx :
  sb_wf dm s -> board dm 0 0 s qs -> qs !! Q_replies c = Some l -> Q_t_clientq t ∈ l -> trans s !! t = Some tx -> 0 < t ->
  executor tx = 0 /\ unread 0 s (t_data tx).
Proof.
  intros Hwf B Hl Hin Htx Hp. pose proof (sn_queues _ _ (bd_sane _ _ _ _ _ B)) as Hq.
  assert (forall c1 l1, qs !! Q_requests c1 = Some l1 -> Q_t_clientq t ∉ l1) as Hno.
  { intros c1 l1 Hl1 Hin1. apply (qrep_apart _ _ _ _ _ _ Hq Hl Hl1 ltac:(done) (Q_t_clientq t)); by right. }
  assert (executor tx = 0) as He.
  { destruct (decide (executor tx = 0)) as [|Hne]; [done|]. exfalso.
    destruct (bd_trans _ _ _ _ _ B t tx Htx Hp) as (_ & _ & Hex). destruct (Hex Hne) as (_ & _ & l1 & _ & _ & _ & Hl1 & Hin1).
    by apply (Hno _ _ Hl1). }
  split; [done|]. intros c1 x1 Hk Hx1 Hh Ei.
  destruct (reader dm 0 0 s qs c1 x1 t tx B Hk Hx1 Hh Htx Hp ltac:(by rewrite Ei)) as [_ [(_ & _ & rl & Hrl)|(_ & _ & _ & tx1 & ax & Htx1 & Hax & _)]].
  - apply (Hno _ _ Hrl). set_solver.
  - assert (tx1 = tx) as -> by congruence. rewrite He in Hax. apply (wf_advs _ _ Hwf) in Hax as [? _]. lia.
Qed.

Lemma wp_senderrno_board s qs c x e Q :
  handling s qs c x -> (forall s', board dm 0 0 s' qs -> Q tt s') -> wp (senderrno dm c e) s Q.
Proof.
  intros Hh HQ. pose proof Hh as [Hwf B Hx Hi _ _]. eapply wp_senderrno; [by eapply wf_nonzero; eauto | done | done | apply B |].
  intros s' Ht. by eapply HQ, told_board.
Qed.

Lemma svrgetrply_steady s qs c x buf bs :
  handling s qs c x -> unowned s buf -> message dm s buf bs -> length bs = (IOSHORT + IOLONG)%nat -> wait4 x = 0 ->
  wp (svrgetrply dm c buf) s (fun _ s' => consistent s').
Proof.
  intros Hh Hu Hm Hn Hw. pose proof Hh as [Hwf B Hx Hi _ Hnw]. apply (wp_wf dm); [done | apply keeps_svrgetrply|].
  assert (c <> 0) as Hc by (eapply wf_nonzero; eauto).
  destruct (bytes2 (take 2 bs)) as [d Ed]; [rewrite length_take, Hn; done|].
  destruct (bytes4 (drop 2 bs)) as (flags & Ef & Hf); [rewrite length_drop, Hn; done|].
  rewrite <- (take_drop 2 bs), Ed, Ef in Hm.
  destruct (bd_heads _ _ (bd_listed _ _ _ _ _ B) (Q_replies c)) as [lr Hlr]; [by exists x|].
  destruct (bd_heads _ _ (bd_listed _ _ _ _ _ B) (Q_requests c)) as [lq Hlq]; [by exists x|].
  destruct (client_list dm 0 0 s qs c _ lr B ltac:(by right) Hlr) as (tr & -> & Hr).
  destruct (client_list dm 0 0 s qs c _ lq B ltac:(by left) Hlq) as (tq & -> & Hq).
  pose proof (freed_handling s qs c x buf _ Hh Hm Hu) as Hhf. pose proof Hhf as [Hwff Bf Hxf _ _ _].
  assert (forall t tx ax, 0 < t -> trans s !! t = Some tx -> executor tx <> 0 -> advs s !! executor tx = Some ax ->
    a_client ax <> c) as Hfree.
  { intros t tx ax Hp Htx He Hax Ec. pose proof (handling_only s qs c x t tx ax Hh Hp Htx He Hax Ec). lia. }
  eapply (wp_svrgetrply dm s c x buf d flags qs tr tq); [done | done | apply B | done | done | | |].
  { split; [done|]. intros t Ht. destruct (Hr t Ht) as (Hp & tx & Htx & _). split; [lia | by exists tx]. }
  { split; [done|]. intros t Ht. destruct (Hq t Ht) as (Hp & tx & Htx & _). split; [lia | by exists tx]. }
  destruct (ready s flags (swrap 16 d) tr) as [t|] eqn:Er.
  - apply ready_elem in Er. destruct (Hr t Er) as (Hp & tx & Htx & Ec).
    destruct (reply_finished (freed buf s) qs c _ t tx Hwff Bf Hlr) as [He Hur]; [by apply list_elem_of_fmap_2 | done | done |].
    destruct (bd_trans _ _ _ _ _ Bf t tx Htx Hp) as (_ & (len & Hb & Hlen) & _).
    eapply (wp_reply_board dm 0 (freed buf s) qs t tx x len); rewrite ?Ec; try done.
    intros s' Hwf' B' _ _. split; [done | by eexists].
  - destruct (pending s flags (swrap 16 d) tq) as [t|] eqn:Ep; [destruct (has_flag flags TPNOBLOCK)|].
    + eapply wp_senderrno_board; [done|]. intros s' B' Hwf'. split; [done | by eexists].
    + eapply wp_put_client; [done | exact Hxf|]. intros Hwf'. split; [done|]. exists qs.
      eapply (board_wait dm (freed buf s) _ qs c t x); try done; [|by destruct (bd_sane _ _ _ _ _ Bf)].
      unfold pending in Ep. destruct (has_flag flags TPGETANY); [injection Ep as <-; by left|].
      apply first_cd_elem in Ep. destruct (Hq t Ep) as (Hp & tx & Htx & <-). right. cbn. by rewrite Htx.
    + eapply wp_senderrno_board; [done|]. intros s' B' Hwf'. split; [done | by eexists].
Qed.

End Steady.
