(* ===== verification/SteadyReturn.v ===== *)
(** * Returns keep the switchboard consistent

    [svrreturn] and its continuation [part2] of [svrreturn.c], from a consistent
    switchboard: they end without a fault, in a consistent switchboard. *)

From Stdlib Require Import ZArith Lia.
From S2P Require Import Prelude Constants ByteOrder CString SearchTree Queue Memory TpMemory Keeps.
From S2P Require Import SbState SbObjects SbHandlers SbLemmas TxIo Xatmi Dispatch EventLoop Registry Messages Replies.
From S2P Require Import Transactions Calls Advertising Invariant Board BoardSteps BoardGrowth Deletion Leaving Steady.

Local Open Scope Z_scope.

Section SteadyReturn.
Context {T : Type} `{SearchTree T Z} (dm : data_model).
Implicit Types (s : sb T) (x : tpclient T) (tx : tptransaction) (qs : gmap qaddr (list qaddr)).

(** ** A finished transaction *)

(** A client that waits for a transaction which nobody executes, or for any, sends
    nothing, executes nothing and waits for no work. *)
Section Waiter.
Context (s : sb T) (qs : gmap qaddr (list qaddr)) (t c : Z) (tx : tptransaction) (x : tpclient T).
Hypothesis wf : sb_wf dm s.
Hypothesis before : board dm 0 0 s qs.
Hypothesis finished : trans s !! t = Some tx /\ 0 < t /\ executor tx = 0.
Hypothesis waiter : clients s !! c = Some x /\ awaits x t = true.

Lemma waiter_for : wait4 x = GLOBAL_ANY \/ wait4 x = t.
Proof. destruct waiter as [_ [E%Z.eqb_eq|E%Z.eqb_eq]%orb_true_iff]; auto. Qed.

Lemma waiter_idle : idle x.
Proof.
  destruct finished as (Htx & Hp & He). destruct (bd_clients _ _ _ _ _ before c x (proj1 waiter)) as (_ & _ & Hw & _).
  destruct waiter_for as [E|E]; destruct Hw as [E0|[[? _]|(Hp0 & tx0 & ax & Htx0 & Hax & _)]]; try done;
    rewrite E in *; try (unfold GLOBAL_ANY in *; lia).
  assert (tx0 = tx) as -> by congruence. rewrite He in Hax. apply (wf_advs _ _ wf) in Hax as [? _]. lia.
Qed.

Lemma waiter_workless t1 tx1 ax :
  0 < t1 -> trans s !! t1 = Some tx1 -> executor tx1 <> 0 -> advs s !! executor tx1 = Some ax -> a_client ax <> c.
Proof.
  destruct finished as (Htx & Hp & He), waiter as [Hx _]. intros Hp1 Htx1 He1 Hax Hc.
  destruct (bd_trans _ _ _ _ _ before t1 tx1 Htx1 Hp1) as (_ & _ & Hex).
  destruct (Hex He1) as (ax' & y & l & Hax' & Hy & Hw1 & _). assert (ax' = ax) as -> by congruence.
  rewrite Hc, Hx in Hy. injection Hy as <-. destruct waiter_for as [E|E]; [unfold GLOBAL_ANY in E; lia|].
  assert (t1 = t) as -> by congruence. congruence.
Qed.

Lemma waiter_unqueued p l a ax : qs !! Q_waitq p = Some l -> Q_adv_waitq a ∈ l -> advs s !! a = Some ax -> a_client ax <> c.
Proof.
  destruct finished as (_ & Hp & _), waiter as [Hx _]. intros Hl Hin Hax Hc.
  destruct (bd_waiting _ _ _ _ _ before p l a Hl Hin) as (ax' & y & Hax' & Hy & _ & Hw1).
  assert (ax' = ax) as -> by congruence. rewrite Hc, Hx in Hy. injection Hy as <-.
  destruct waiter_for as [E|E]; unfold GLOBAL_ANY in *; lia.
Qed.

End Waiter.

(** The reply is sent to a caller that waits, or kept for it. *)
Lemma wp_finish s qs t tx rl :
  sb_wf dm s -> board dm 0 0 s qs -> trans s !! t = Some tx -> 0 < t -> executor tx = 0 -> unread 0 s (t_data tx) ->
  qs !! Q_requests (t_client tx) = Some rl -> Q_t_clientq t ∈ rl ->
  wp (reply_or_queue dm GLOBAL_ANY t) s (fun _ s' => consistent dm s').
Proof.
  intros Hwf B Htx Hp He Hu Hrl (l1 & l2 & ->)%list_elem_of_split. apply (wp_wf dm); [done | apply keeps_reply_or_queue|].
  destruct (bd_trans _ _ _ _ _ B t tx Htx Hp) as ([cl Hcl] & (len & Hb & Hlen) & _).
  assert (t_client tx <> 0) as Hc0 by (eapply wf_nonzero; eauto).
  unfold reply_or_queue. wp_step. eapply wp_get_trans; [lia | exact Htx|]. wp_step. eapply wp_get_client; [done | exact Hcl|].
  destruct ((wait4 cl =? GLOBAL_ANY) || (wait4 cl =? t)) eqn:Ew.
  - eapply (wp_reply_board dm 0 s qs t tx cl len); try done.
    + by eapply (waiter_idle s qs t (t_client tx) tx).
    + intros t1 tx1 ax. by eapply (waiter_workless s qs t (t_client tx) tx).
    + by eapply (waiter_unqueued s qs t (t_client tx) tx).
    + intros s' Hwf' B' _ _. split; [done | by eexists].
  - destruct (bd_heads _ _ (bd_listed _ _ _ _ _ B) (Q_replies (t_client tx))) as [rl Hrep]; [by eexists|].
    destruct (qrep_move _ qs _ l1 (Q_t_clientq t) l2 _ rl (sn_queues _ _ (bd_sane _ _ _ _ _ B)) Hrl Hrep)
      as (m1 & m2 & E1 & E2 & Q2); [done|].
    wp_step. eapply wp_in_q; [exact E1|]. wp_step. eapply wp_in_q; [exact E2|]. wp_step. intros Hwf'. split; [done|].
    eexists. eapply (board_move dm 0 0 s _ qs t tx l1 l2 rl); try done.
    destruct (bd_sane _ _ _ _ _ B) as [_ H2 H3]. by split.
Qed.

(** ** The data of a reply has arrived *)

(** Nobody reads into the buffer of a transaction that an idle client executes. *)
Lemma working_unread s qs c x t tx ax :
  sb_wf dm s -> board dm 0 0 s qs -> clients s !! c = Some x -> handler_fn x = None ->
  0 < t -> trans s !! t = Some tx -> executor tx <> 0 -> advs s !! executor tx = Some ax -> a_client ax = c ->
  unread 0 s (t_data tx).
Proof.
  intros Hwf B Hx Hh Hp Htx He Hax Hc c1 x1 Hk Hx1 Hh1. destruct (decide (c1 = c)) as [->|Hne]; [congruence|].
  eapply (executed_unread dm 0 s qs c t tx); try done; [|by rewrite Hax; cbn; f_equal].
  apply board_deleting; [done|]. intros c2 Hc2. by eapply wf_nonzero.
Qed.

Lemma part2_steady s qs c x buf :
  handling dm s qs c x -> works s c (wait4 x) -> wp (part2 dm c buf) s (fun _ s' => consistent dm s').
Proof.
  intros Hh (Hp & tx & ax & Htx & Hax & Hc). pose proof Hh as [Hwf B Hx Hi _ _].
  assert (c <> 0) as Hc0 by (eapply wf_nonzero; eauto).
  assert (executor tx <> 0) as He by (apply (wf_advs _ _ Hwf) in Hax as [? _]; lia).
  unfold part2. wp_step. apply (wp_wf dm); [done | apply keeps_svr_next_command|].
  eapply (wp_next_command dm s c x qs); [done | done | done | apply B |]. intros s1 Ht _ Hwf1.
  pose proof (told_board dm s s1 qs c x _ Hh Ht) as B1.
  destruct (td_clients _ _ _ _ _ _ Ht) as (b & Ec & Hb & Hblk).
  destruct (td_rest _ _ _ _ _ _ Ht) as (Eq & Et & Es & Ea & Eserv & _).
  assert (clients s1 !! c = Some (set_io 0 b (Some H_command) x)) as Hx1 by (rewrite Ec; apply lookup_insert_eq).
  wp_step. eapply wp_get_client; [done | exact Hx1|]. cbn [wait4 set_io]. set (t := wait4 x) in *.
  wp_step. apply (wp_wf dm); [done | apply keeps_set_wait4|]. eapply wp_put_client; [done | exact Hx1|]. intros Hwf2.
  wp_step. apply (wp_wf dm); [done | apply keeps_set_executor|].
  eapply wp_put_trans; [lia | cbn; rewrite Et; exact Htx|]. intros Hwf3.
  match type of Hwf3 with sb_wf _ ?st => set (s3 := st) in * end.
  assert (board dm 0 0 s3 qs) as B3.
  { eapply (board_unwork dm 0 0 s1 s3 qs c t _ tx (set_executor 0 tx)); try done; try (by rewrite Et).
    - split; [done|]. by rewrite Ea, Hax, <- Hc.
    - intros _. done.
    - by destruct (bd_sane _ _ _ _ _ B1). }
  destruct (bd_trans _ _ _ _ _ B t tx Htx Hp) as (_ & (len & Hbuf & _) & Hex).
  destruct (Hex He) as (_ & _ & rl & _ & _ & _ & Hrl & Hin).
  apply (wp_finish s3 qs t (set_executor 0 tx) rl); try done; [apply lookup_insert_eq|].
  intros c1 x1 Hk. cbn. rewrite Ec. destruct (decide (c1 = c)) as [->|Hne].
  - rewrite lookup_insert_eq. intros [= <-] _. cbn. intros ->. by apply (new_block dm s qs _ len (t_data tx) (bd_sane _ _ _ _ _ B) Hbuf).
  - rewrite !lookup_insert_ne by done. intros Hx1' Hh1.
    by eapply (working_unread s qs c x t tx ax Hwf B Hx); [apply Hi | ..].
Qed.

(** ** The head of a reply *)

Lemma result_wf s s' t tx qs rv rc len d buf :
  sb_wf dm s -> trans s !! t = Some tx -> result_stored dm s s' t tx qs rv rc len d buf -> sb_wf dm s'.
Proof.
  intros Hwf Htx St. destruct Hwf as [W1 W2 W3 W4 W5 W6 W7 W8 W9].
  pose proof (st_only _ _ _ _ _ _ _ _ _ _ _ St) as Es. rewrite (st_trans _ _ _ _ _ _ _ _ _ _ _ St) in Es.
  pose proof (sn_heap _ _ (st_sane _ _ _ _ _ _ _ _ _ _ _ St)) as Hh. rewrite Es. constructor; try done.
  - intros t1 v. cbn. intros [[<- <-]|[_ Hv]]%lookup_insert_Some; [|by apply W6]. destruct (W6 t tx Htx) as (? & ? & ? & ? & ? & ?).
    split; [done|]. unfold trans_ok. cbn. split_and!; try done; try apply (swrap_range 8); try lia.
    pose proof (swrap_range 32 rc ltac:(lia)). unfold in_long. destruct dm; cbn in *; lia.
  - intros q. cbn. rewrite W7. destruct q; try done; cbn; rewrite lookup_insert_is_Some';
      (split; [naive_solver | intros [? [<-|?]]; [split; [done | by exists tx] | done]]).
Qed.

(** When the worker may return a result of [len] bytes. *)
Lemma svrreturn_steady n s qs c x buf bs :
  handling dm s qs c x -> unowned s buf -> message dm s buf bs -> length bs = (1 + IOLONG * 2)%nat ->
  works s c (wait4 x) -> 0 <= swrap 32 (le_decode (drop 5 bs)) ->
  wp (svrreturn dm (handle dm (S n)) c buf) s (fun _ s' => consistent dm s').
Proof.
  intros Hh [Hu Hu'] Hm Hn (Hp & tx & ax & Htx & Hax & Hc) Hlen. pose proof Hh as [Hwf B Hx Hi _ Hnw].
  assert (c <> 0) as Hc0 by (eapply wf_nonzero; eauto).
  assert (executor tx <> 0) as He by (apply (wf_advs _ _ Hwf) in Hax as [? _]; lia).
  destruct (any_return_parts bs Hn) as (rv & rc & len & -> & Hr & El). rewrite El in Hlen.
  set (t := wait4 x) in *.
  destruct (bd_trans _ _ _ _ _ B t tx Htx Hp) as (_ & (blen & Hbuf & _) & Hex).
  pose proof (working_unread s qs c x t tx ax Hwf B Hx (proj1 Hi) Hp Htx He Hax Hc) as Hur.
  apply (wp_wf dm); [done | apply keeps_svrreturn; intros; apply keeps_handle|].
  eapply (wp_svrreturn dm _ s c x t tx blen buf rv rc len qs); try done; [lia | apply B | lia | by apply (Hu t)|].
  intros d s1 St. pose proof (result_wf _ _ _ _ _ _ _ _ _ _ Hwf Htx St) as Hwf1.
  pose proof St as [Et Hd _ Hs1 (Ec & Eq & Es & Ea & _) [Hdb Hk] Hst].
  assert (services s1 = services s) as Eserv by (by rewrite Hst).
  pose proof (freed_handling dm s qs c x buf _ Hh Hm (conj Hu Hu')) as [_ Bf _ _ _ _].
  set (tx1 := set_data d _) in Et.
  assert (board dm 0 0 s1 qs) as B1.
  { eapply (board_redata dm (freed buf s) s1 qs t len tx tx1); try done.
    - split; [done | lia].
    - intros p l Hpl. eapply (new_block dm (freed buf s)); [apply Bf | done | done].
    - intros p l Hpd [Hpb Hpl]%freed_back. by apply Hk. }
  assert (trans s1 !! t = Some tx1) as Htx1 by (rewrite Et; apply lookup_insert_eq).
  assert (works s1 c t) as Hw1 by (split; [done|]; exists tx1, ax; by rewrite Htx1, Ea).
  assert (handling dm s1 qs c x) as Hh1.
  { constructor; try done; [by rewrite Ec | by right | by rewrite Ea]. }
  destruct (Z.ltb_spec 0 len) as [Hpos|Hz].
  - eapply (wp_svriowait dm _ c x d len); [done | by rewrite Ec | done | done | done |]. intros Hwf2. split; [done|].
    exists qs. eapply (board_io dm s1 _ qs c x (set_io 0 d (Some H_part2) x)); try done;
      [by rewrite Ec | by right | by rewrite Ea | | |].
    + split_and!; [done | done |]. intros (h & [= <-] & _ & N). done.
    + intros h [= <-]. split_and!; [|done|]; [exists len; split_and!; try done; lia|]. intros _. split; [exact Hw1|]. cbn. fold t. by rewrite Htx1.
    + by destruct Hs1.
  - assert (len = 0) as -> by lia.
    eapply (wp_svriowait_empty dm _ c x); [done | by rewrite Ec | done | done |]. rewrite handle_S.
    eapply wp_mono; [by eapply part2_steady|]. done.
Qed.

End SteadyReturn.
