(* ===== verification/SteadyWork.v ===== *)
(** * Handing out work keeps the switchboard consistent

    [send_to_worker] of [svracall.c], and [svrservice] and [send_to_server] of
    [svrservice.c], from a consistent switchboard: they end without a fault, in a
    consistent switchboard. *)

From Stdlib Require Import ZArith Lia.
From S2P Require Import Prelude Constants ByteOrder CString SearchTree Queue Memory TpMemory Keeps.
From S2P Require Import SbState SbObjects SbHandlers SbLemmas TxIo Xatmi Dispatch EventLoop Registry Messages Replies.
From S2P Require Import Transactions Calls Advertising Scheduling Work Invariant Board BoardSteps BoardGrowth Deletion Leaving Steady.

Local Open Scope Z_scope.

Section SteadyWork.
Context {T : Type} `{SearchTree T Z} (dm : data_model).
Implicit Types (s : sb T) (x : tpclient T) (tx : tptransaction) (qs : gmap qaddr (list qaddr)).

(** ** A worker is sent a transaction *)

(** A request that nobody executes, and of which all data has arrived. *)
Definition requested s qs (t : Z) tx : Prop :=
  trans s !! t = Some tx /\ 0 < t /\ executor tx = 0 /\ unread 0 s (t_data tx) /\
  exists rl, qs !! Q_requests (t_client tx) = Some rl /\ Q_t_clientq t ∈ rl.

(** A worker without anything to do. *)
Definition free_worker s (w a : Z) x (ax : tpadvertisement) : Prop :=
  clients s !! w = Some x /\ idle x /\ wait4 x = 0 /\ advs s !! a = Some ax /\ a_client ax = w.

Lemma sent_board s s' qs w a t x tx ax bs :
  board dm 0 0 s qs -> advs s !! 0 = None -> free_worker s w a x ax -> requested s qs t tx ->
  sent_to_server dm s s' w a t x tx qs bs ->
  board dm 0 0 s' (qremove_all (Q_adv_waitq <$> twalk (adverts x)) qs).
Proof.
  intros B Hz (Hx & Hi & Hw & Hax & Hc) (Htx & Hp & He & Hu & rl & Hrl & Hin) [_ _ (b & Ec & Hb & Hblk) Et Hq Hbufs [Hwf Hoom] (Es & Ea & Eserv & _)].
  set (ns := Q_adv_waitq <$> twalk (adverts x)) in *. destruct (bd_clients _ _ _ _ _ B w x Hx) as (_ & Hown & _).
  assert (forall a, a ∈ twalk (adverts x) -> is_Some (advs s !! a)) as Hlive.
  { intros a1 Hin1. apply (fmap_is_Some a_client). by rewrite Hown. }
  pose proof (board_unwait_all dm 0 0 s qs _ (qm s') B Hlive Hq) as B1. fold ns in B1. set (s1 := set_qm (qm s') s) in B1.
  assert (forall p l b bx, qremove_all ns qs !! Q_waitq p = Some l -> Q_adv_waitq b ∈ l ->
    advs s1 !! b = Some bx -> a_client bx <> w) as Hnw.
  { intros p l a1 bx Hl Hin1 Hbx Hcw. destruct (qremove_all_elem ns qs _ _ l Hl Hin1) as [Hnot _]. apply Hnot.
    apply list_elem_of_fmap_2. destruct (bd_advs _ _ _ _ _ B a1 bx) as (_ & y & Hy & Hin2); [|done|].
    - intros ->. cbn in Hbx. congruence.
    - rewrite Hcw, Hx in Hy. by injection Hy as <-. }
  destruct (qremove_all_keep ns qs _ _ rl Hrl Hin) as (rl' & Hrl' & Hin');
    [intros (? & ? & _)%list_elem_of_fmap; done | intros (? & ? & _)%list_elem_of_fmap; done |].
  set (s2 := set_trans (<[t := set_executor a tx]> (trans s)) (set_clients (<[w := set_wait4 t x]> (clients s)) s1)).
  assert (board dm 0 0 s2 (qremove_all ns qs)) as B2.
  { eapply (board_start dm s1 s2 _ w a t x tx ax rl'); try done. by destruct (bd_sane _ _ _ _ _ B1). }
  eapply (board_command dm 0 0 s2 s' _ w t (set_wait4 t x) b H_command 1); try done.
  - apply lookup_insert_eq.
  - right. split; [done|]. exists (set_executor a tx), ax. cbn. by rewrite lookup_insert_eq.
  - cbn. intros t1 tx1 ax1 Hp1 [[<- <-]|[Hne Htx1]]%lookup_insert_Some He1 Hax1 Hc1; [done|]. exfalso.
    destruct (bd_trans _ _ _ _ _ B t1 tx1 Htx1 Hp1) as (_ & _ & Hex).
    destruct (Hex He1) as (ax' & y & l & Hax' & Hy & Hw1 & _). assert (ax' = ax1) as -> by congruence.
    rewrite Hc1, Hx in Hy. injection Hy as <-. lia.
  - cbn. by rewrite insert_insert_eq.
  - intros p l Hpl. eapply (new_block dm s2); [apply B2 | done | done].
  - intros p l Hpl. by apply Hbufs.
  - split; [done | done |]. apply Hoom, B.
Qed.

(** What [send_to_server] needs. *)
Lemma wp_send_board s0 s qs w a t x tx ax Q :
  sb_wf dm s0 -> advs s = advs s0 -> board dm 0 0 s qs -> free_worker s w a x ax -> requested s qs t tx -> t_svc tx = a_svc ax ->
  (forall s' qs', board dm 0 0 s' qs' -> Q tt s') -> wp (send_to_server dm a t) s Q.
Proof.
  intros Hwf Ea B Hfw Hrq Esv HQ. pose proof Hfw as (Hx & Hi & Hw & Hax & Hc). pose proof Hrq as (Htx & Hp & He & Hu & rl & Hrl & Hin).
  destruct (wf_advs _ _ Hwf a ax ltac:(by rewrite <- Ea)) as [Ha0 (Hc0 & Hs0 & _)].
  assert (advs s !! 0 = None) as Hz.
  { destruct (advs s !! 0) as [v|] eqn:E; [|done]. rewrite Ea in E. apply (wf_advs _ _ Hwf) in E as [? _]. lia. }
  destruct (bd_advs _ _ _ _ _ B a ax ltac:(lia) Hax) as ([sv Hsv] & _).
  destruct (bd_trans _ _ _ _ _ B t tx Htx Hp) as (_ & (len & Hbuf & _) & _).
  destruct (bd_clients _ _ _ _ _ B w x Hx) as ([Hreg _] & _).
  pose proof (bd_sane _ _ _ _ _ B) as [Hq Hh Hm].
  eapply wp_mono; [eapply (send_to_server_run dm s w a t x ax tx sv qs len); try done; try lia; try congruence|].
  - intros b Hb. destruct (Hreg b Hb) as (Hb0 & bx & Hbx & _). split; [done|]. split; [by exists bx|].
    apply (bd_spares _ _ (bd_listed _ _ _ _ _ B)). by exists bx.
  - by apply memory_left_oom.
  - intros [] s' Hs'. eapply HQ, sent_board; done.
Qed.

(** ** The data of a call has arrived *)

(** The newest request of [c], on no queue yet. *)
Definition complete s qs (c t : Z) tx : Prop :=
  (exists rl, qs !! Q_requests c = Some (rl ++ [Q_t_clientq t])) /\ trans s !! t = Some tx /\ 0 < t /\
  executor tx = 0 /\ qs !! Q_t_svc_waitq t = Some [] /\ is_Some (svcs s !! t_svc tx) /\ unread 0 s (t_data tx).

(** A worker that waits is free. *)
Lemma first_waiting s qs p sv a l :
  board dm 0 0 s qs -> qs !! Q_waitq p = Some l -> Q_adv_waitq a ∈ l -> svcs s !! p = Some sv ->
  exists w x ax, free_worker s w a x ax /\ a_svc ax = p.
Proof.
  intros B Hl Hin Hsv. destruct (bd_waiting _ _ _ _ _ B p l a Hl Hin) as (ax & x & Hax & Hx & Hi & Hw).
  exists (a_client ax), x, ax. split; [by split_and!|].
  destruct (bd_lists _ _ (bd_listed _ _ _ _ _ B) _ _ _ Hl Hin) as [E _]. rewrite Hax in E. by injection E.
Qed.

(** What the first link of a wait queue belongs to. *)
Lemma queue_kind s qs p sv (n : qaddr) l :
  board dm 0 0 s qs -> qs !! Q_waitq p = Some l -> n ∈ l -> svcs s !! p = Some sv ->
  (exists t, n = Q_t_svc_waitq t /\ wait_contains_transactions sv = true) \/
  (exists a, n = Q_adv_waitq a /\ wait_contains_transactions sv = false).
Proof.
  intros B Hl Hin Hsv. pose proof (bd_lists _ _ (bd_listed _ _ _ _ _ B) _ _ _ Hl Hin) as Hf.
  destruct n as [| | | | | | |a| | |t]; try done; cbn in Hf; rewrite Hsv in Hf; cbn in Hf.
  - right. exists a. destruct Hf as [_ [= ->]]. done.
  - left. exists t. destruct Hf as (_ & _ & [= ->]). done.
Qed.

Lemma send_to_worker_steady s qs c x t tx buf :
  handling dm s qs c x -> complete s qs c t tx -> buf <> NULL ->
  wp (send_to_worker dm c buf) s (fun _ s' => consistent dm s').
Proof.
  intros Hh ([rl Hrl] & Htx & Hp & He & Hn & [sv Hsv] & Hu) Hnull. pose proof Hh as [Hwf B Hx Hi _ Hnw].
  assert (c <> 0) as Hc0 by (eapply wf_nonzero; eauto).
  assert (t_client tx = c) as Hcl.
  { destruct (bd_lists _ _ (bd_listed _ _ _ _ _ B) _ _ (Q_t_clientq t) Hrl) as [_ E]; [set_solver|]. rewrite Htx in E. by injection E. }
  apply (wp_wf dm); [done | apply keeps_send_to_worker|].
  assert (t_svc tx <> 0) as Hs0 by (apply (wf_svcs _ _ Hwf) in Hsv as [? _]; lia).
  eapply (send_to_worker_head dm s c x buf t tx qs rl); try done; [apply B | lia |]. intros s1 Ht Ho.
  pose proof (told_board dm s s1 qs c x _ Hh Ht) as B1. 
  destruct (td_clients _ _ _ _ _ _ Ht) as (b & Ec & Hb & Hblk).
  destruct (td_rest _ _ _ _ _ _ Ht) as (Eq & Et & Es & Ea & Eserv & _).
  destruct (bd_trans _ _ _ _ _ B t tx Htx Hp) as (_ & (len & Hbuf & _) & _).
  assert (unread 0 s1 (t_data tx)) as Hu1.
  { intros c1 x1 Hk. rewrite Ec. intros [[<- <-]|[_ Hx1]]%lookup_insert_Some; [|by apply (Hu c1 x1)].
    intros _. cbn. intros ->. by apply (new_block dm s qs _ len (t_data tx) (bd_sane _ _ _ _ _ B) Hbuf). }
  destruct (bd_heads _ _ (bd_listed _ _ _ _ _ B) (Q_waitq (t_svc tx))) as [l Hl]; [by exists sv|].
  wp_step. eapply wp_in_q_read; [eapply QISEMPTY_queue, (qr_queue _ _ (sn_queues _ _ (bd_sane _ _ _ _ _ B1))), Hl|].
  wp_step. eapply wp_get_svc; [done | by rewrite Es |].
  destruct (negb (bool_decide (l = [])) && negb (wait_contains_transactions sv)) eqn:Ew.
  - apply andb_true_iff in Ew as [El%negb_true_iff%bool_decide_eq_false Ew%negb_true_iff]. destruct l as [|n l]; [done|].
    destruct (queue_kind s1 qs (t_svc tx) sv n _ B1 Hl ltac:(by left) ltac:(by rewrite Es)) as [(? & _ & ?)|(a & -> & _)]; [congruence|].
    wp_step. eapply wp_in_q_read; [eapply QFIRST_queue, (qr_queue _ _ (sn_queues _ _ (bd_sane _ _ _ _ _ B1))), Hl|].
    wp_step. unfold offset_adv_waitq. wp_step.
    destruct (first_waiting s1 qs (t_svc tx) sv a _ B1 Hl ltac:(by left) ltac:(by rewrite Es)) as (w & y & ax & Hfw & Esv).
    eapply (wp_send_board s s1 qs w a t y tx ax); try done.
    + rewrite <- Hcl in Hrl. split_and!; [by rewrite Et | done | done | done |]. eexists. split; [exact Hrl | set_solver].
    + intros s' qs' B' Hwf'. split; [done | by eexists].
  - wp_step. eapply wp_put_svc; [done | by rewrite Es |].
    destruct (qrep_qappend_tail (qm s1) qs (Q_waitq (t_svc tx)) l (Q_t_svc_waitq t)) as (m2 & E2 & Q2);
      [apply B1 | done | done | done |].
    wp_step. eapply wp_in_q; [exact E2|]. wp_step. intros Hwf'. split; [done|]. eexists.
    eapply (board_enqueue dm s1 _ qs (t_svc tx) (Q_t_svc_waitq t) true sv l); try done.
    + by rewrite Es.
    + apply andb_false_iff in Ew as [El%negb_false_iff%bool_decide_eq_true|Ew%negb_false_iff]; [by left | by right].
    + cbn. rewrite Et, Htx. cbn. rewrite lookup_insert_eq. split; [split; [done | by eexists] | done].
    + intros t1 tx1 [= <-]. rewrite Et, Htx. by intros [= <-].
    + destruct (bd_sane _ _ _ _ _ B1). by split.
Qed.

(** ** A worker asks for work *)

(** There is room for workers on the queue of the service. *)
Definition room s qs (p : Z) : Prop :=
  exists sv l, svcs s !! p = Some sv /\ qs !! Q_waitq p = Some l /\ (l = [] \/ wait_contains_transactions sv = false).

(** The advertisements are put on their queues. *)
Lemma wp_wait_all l s qs c x Q :
  board dm 0 0 s qs -> clients s !! c = Some x -> idle x -> wait4 x = 0 -> NoDup l ->
  (forall a, a ∈ l -> a <> 0 /\ qs !! Q_adv_waitq a = Some [] /\
    exists ax, advs s !! a = Some ax /\ a_client ax = c /\ a_svc ax <> 0 /\ room s qs (a_svc ax)) ->
  (forall s' qs', board dm 0 0 s' qs' -> Q tt s') -> wp (mfor l add_to_waitq) s Q.
Proof.
  revert s qs. induction l as [|a l IH]; intros s qs B Hx Hi Hw Hnd Hl HQ; cbn [mfor]; [wp_step; by eapply HQ|].
  apply NoDup_cons in Hnd as [Hnot Hnd].
  destruct (Hl a ltac:(by left)) as (Ha & Hn & ax & Hax & Hc & Hs0 & sv & w & Hsv & Hwq & Hroom).
  wp_step. unfold add_to_waitq. wp_step. eapply wp_get_adv; [done | exact Hax|].
  wp_step. eapply wp_put_svc; [done | exact Hsv|].
  destruct (qrep_qappend_tail (qm s) qs (Q_waitq (a_svc ax)) w (Q_adv_waitq a)) as (m' & E & Q'); [apply B | done | done | done |].
  wp_step. eapply wp_in_q; [exact E|]. wp_step.
  eapply wp_in_q_read; [eapply QISEMPTY_queue, (qr_queue _ _ Q'), lookup_insert_eq|].
  apply wp_assert; [by rewrite bool_decide_false by (by destruct w)|].
  match goal with |- wp _ ?st _ => set (s' := st) end.
  assert (board dm 0 0 s' (<[Q_waitq (a_svc ax) := w ++ [Q_adv_waitq a]]> (delete (Q_adv_waitq a) qs))) as B'.
  { apply (board_enqueue dm s s' qs (a_svc ax) (Q_adv_waitq a) false sv w); try done.
    - split; [by exists ax|]. cbn. rewrite Hax, lookup_insert_eq. done.
    - intros a1 [= <-]. exists ax, x. by rewrite Hc.
    - destruct (bd_sane _ _ _ _ _ B). by split. }
  apply (IH s' _ B'); try done. intros b Hb. assert (b <> a) as Hba by (by intros ->).
  destruct (Hl b ltac:(by right)) as (Hb0 & Hbn & bx & Hbx & Hbc & Hbs & sv' & w' & Hsv' & Hwq' & Hroom').
  split; [done|]. split; [by rewrite lookup_insert_ne, lookup_delete_ne by congruence|].
  exists bx. split_and!; try done. destruct (decide (a_svc bx = a_svc ax)) as [->|Hne].
  - exists (set_wct false sv), (w ++ [Q_adv_waitq a]). cbn. rewrite !lookup_insert_eq. split_and!; try done. by right.
  - exists sv', w'. cbn. by rewrite !lookup_insert_ne, lookup_delete_ne by congruence.
Qed.

(** The transactions that wait for services of the worker wait still: they were not
    handed out before. *)
Definition fresh_work s x : Prop := forall a ax t l,
  a ∈ twalk (adverts x) -> advs s !! a = Some ax -> qlist s (Q_waitq (a_svc ax)) = Q_t_svc_waitq t :: l ->
  exists tx, trans s !! t = Some tx /\ executor tx = 0 /\ Q_t_clientq t ∈ qlist s (Q_requests (t_client tx)).

Lemma queued_unread s qs p l t tx :
  sb_wf dm s -> board dm 0 0 s qs -> qs !! Q_waitq p = Some l -> Q_t_svc_waitq t ∈ l -> trans s !! t = Some tx -> 0 < t ->
  executor tx = 0 -> unread 0 s (t_data tx).
Proof.
  intros Hwf B Hl Hin Htx Hp He c x Hk Hx Hh Ei.
  destruct (reader dm 0 0 s qs c x t tx B Hk Hx Hh Htx Hp ltac:(by rewrite Ei)) as [_ [(_ & Hn & _)|(_ & _ & _ & tx1 & ax & Htx1 & Hax & _)]].
  - by rewrite (member_no_header _ _ _ _ _ (sn_queues _ _ (bd_sane _ _ _ _ _ B)) Hl Hin) in Hn.
  - assert (tx1 = tx) as -> by congruence. rewrite He in Hax. apply (wf_advs _ _ Hwf) in Hax as [? _]. lia.
Qed.

(** An advertisement of the client that asks is on no queue. *)
Lemma spare_advert s qs c x a :
  board dm 0 0 s qs -> clients s !! c = Some x ->
  (forall p l b bx, qs !! Q_waitq p = Some l -> Q_adv_waitq b ∈ l -> advs s !! b = Some bx -> a_client bx <> c) ->
  a ∈ twalk (adverts x) -> qs !! Q_adv_waitq a = Some [].
Proof.
  intros B Hx Hnw Hin. destruct (bd_clients _ _ _ _ _ B c x Hx) as (_ & Hown & _).
  pose proof (Hown a Hin) as (ax & Hax & Hc)%fmap_Some.
  destruct (bd_spares _ _ (bd_listed _ _ _ _ _ B) (Q_adv_waitq a) ltac:(by exists ax)) as [?|(h & l & Hl & Hn)]; [done|].
  pose proof (bd_lists _ _ (bd_listed _ _ _ _ _ B) _ _ _ Hl Hn) as Hf. destruct h; try done.
  by destruct (Hnw _ l a ax Hl Hn Hax).
Qed.

Lemma handling_spare s qs c x a :
  handling dm s qs c x -> a ∈ twalk (adverts x) -> qs !! Q_adv_waitq a = Some [].
Proof. intros [_ B Hx _ _ Hnw]. by eapply spare_advert. Qed.

Lemma own_scannable s qs c x a :
  sb_wf dm s -> board dm 0 0 s qs -> clients s !! c = Some x -> a ∈ twalk (adverts x) -> scannable s qs a.
Proof.
  intros Hwf B Hx Hin. destruct (bd_clients _ _ _ _ _ B c x Hx) as ([Hreg _] & _).
  destruct (Hreg a Hin) as (Ha & ax & Hax & sv & Hsv). destruct (wf_advs _ _ Hwf a ax Hax) as [_ (_ & Hs0 & _)].
  destruct (bd_heads _ _ (bd_listed _ _ _ _ _ B) (Q_waitq (a_svc ax))) as [l Hl]; [by exists sv|].
  split; [done|]. exists ax, sv, l. split_and!; try done. intros Hw. destruct l as [|n l]; [by left | right].
  destruct (queue_kind s qs _ sv n _ B Hl ltac:(by left) Hsv) as [(t & -> & _)|(? & _ & ?)]; [|congruence].
  destruct (bd_lists _ _ (bd_listed _ _ _ _ _ B) _ _ _ Hl ltac:(by left)) as (Hp & (tx & Htx & _)%fmap_Some & _).
  exists t, l. split_and!; [done | lia | by exists tx].
Qed.

Lemma handling_scannable s qs c x a :
  handling dm s qs c x -> a ∈ twalk (adverts x) -> scannable s qs a.
Proof. intros [Hwf B Hx _ _ _]. by eapply own_scannable. Qed.

(** The first transaction that waits. *)
Lemma waiting_first s qs c x a ax v :
  handling dm s qs c x -> a ∈ twalk (adverts x) -> advs s !! a = Some ax -> waiting_arrival s qs a = Some v ->
  exists t l, qs !! Q_waitq (a_svc ax) = Some (Q_t_svc_waitq t :: l).
Proof.
  intros Hh Hin Hax Hv. destruct (handling_scannable s qs c x a Hh Hin) as (_ & ax' & sv & l & Hax' & _ & Hsv & Hl & Hw).
  assert (ax' = ax) as -> by congruence. unfold waiting_arrival in Hv. rewrite Hax in Hv. cbn in Hv. rewrite Hsv in Hv.
  cbn in Hv. rewrite Hl in Hv. cbn in Hv. destruct (wait_contains_transactions sv); [|done].
  destruct l as [|[] l']; try done. by eexists _, l'.
Qed.
Lemma waiting_none s qs c x a ax :
  handling dm s qs c x -> a ∈ twalk (adverts x) -> advs s !! a = Some ax -> waiting_arrival s qs a = None ->
  room s qs (a_svc ax).
Proof.
  intros Hh Hin Hax Hv. destruct (handling_scannable s qs c x a Hh Hin) as (_ & ax' & sv & l & Hax' & _ & Hsv & Hl & Hw).
  assert (ax' = ax) as -> by congruence. exists sv, l. split_and!; try done. unfold waiting_arrival in Hv.
  rewrite Hax in Hv. cbn in Hv. rewrite Hsv in Hv. cbn in Hv. rewrite Hl in Hv. cbn in Hv.
  destruct (wait_contains_transactions sv); [|by right]. destruct (Hw eq_refl) as [->|(t & l' & -> & _ & [tx Htx])]; [by left|].
  by rewrite Htx in Hv.
Qed.

Lemma svrservice_steady s qs c x buf :
  handling dm s qs c x -> unowned s buf -> message dm s buf [] -> wait4 x = 0 -> fresh_work s x ->
  wp (svrservice dm c buf) s (fun _ s' => consistent dm s').
Proof.
  intros Hh Hu Hm Hw Hfr. pose proof Hh as [Hwf B Hx Hi _ Hnw]. apply (wp_wf dm); [done | apply keeps_svrservice|].
  pose proof (freed_handling dm s qs c x buf _ Hh Hm Hu) as [Hwf0 B0 Hx0 _ _ _]. set (s0 := freed buf s) in *.
  destruct (bd_clients _ _ _ _ _ B c x Hx) as ([Hreg Hord] & Hown & _).
  assert (forall e, board dm 0 0 (set_earliest e s0) qs) as Be.
  { intros e. apply (board_relist dm 0 0 s0 (set_earliest e s0) qs); try done; try apply B0; [by destruct (bd_sane _ _ _ _ _ B0)|].
    apply (listed_same s0); [done | apply B0]. }
  eapply (wp_svrservice dm s c x buf qs); [by eapply wf_nonzero; eauto | done | apply B | done | | |]; fold s0.
  - intros a. by apply (handling_scannable s qs c x).
  - intros Hnone. eapply (wp_wait_all _ (set_earliest 0 s0) qs c x); [apply Be | done | done | done | | |].
    + by eapply NoDup_fmap_1, tordered_nodup.
    + intros a Hin. destruct (Hreg a Hin) as (Ha & ax & Hax & _). destruct (wf_advs _ _ Hwf a ax Hax) as [_ (_ & Hs0 & _)].
      split; [done|]. split; [by eapply handling_spare|]. exists ax. split_and!; try done.
      * pose proof (Hown a Hin) as E. rewrite Hax in E. by injection E.
      * by eapply (waiting_none s qs c x a); auto.
    + intros s' qs' B' Hwf'. split; [done | by eexists].
  - intros e v Hin Hv _. destruct (Hreg e Hin) as (He & ax & Hax & _).
    destruct (waiting_first s qs c x e ax v Hh Hin Hax Hv) as (t & l & Hl).
    destruct (Hfr e ax t l Hin Hax (qlist_eq s qs _ _ (bd_sane _ _ _ _ _ B) Hl)) as (tx & Htx & Hex & Hrin).
    destruct (bd_lists _ _ (bd_listed _ _ _ _ _ B) _ _ _ Hl ltac:(by left)) as (Hp & Esv & _).
    destruct (bd_trans _ _ _ _ _ B t tx Htx Hp) as (Hcl & _).
    destruct (bd_heads _ _ (bd_listed _ _ _ _ _ B) (Q_requests (t_client tx)) Hcl) as [rl Hrl].
    rewrite (qlist_eq s qs _ rl (bd_sane _ _ _ _ _ B) Hrl) in Hrin.
    rewrite Htx in Esv. injection Esv as Esv.
    wp_step. unfold FIRSTTRAN. wp_step. eapply wp_get_adv; [done | exact Hax|].
    wp_step. eapply wp_in_q_read; [eapply QFIRST_queue, (qr_queue _ _ (sn_queues _ _ (bd_sane _ _ _ _ _ B0))), Hl|].
    unfold offset_t_svc_waitq. wp_step.
    eapply (wp_send_board s (set_earliest e s0) qs c e t x tx ax); try done.
    + split_and!; try done. pose proof (Hown e Hin) as E. rewrite Hax in E. by injection E.
    + split_and!; try done; [|by exists rl]. by apply (queued_unread s qs (a_svc ax) _ t tx Hwf B Hl); [left|..].
    + intros s' qs' B' Hwf'. split; [done | by eexists].
Qed.

End SteadyWork.
