(* ===== verification/SteadyCall.v ===== *)
(** * Calls keep the switchboard consistent

    [svracall] of [svracall.c], from a consistent switchboard: it ends without a fault,
    in a consistent switchboard, whether the call is refused, its data is awaited or,
    without data, it goes to a worker at once. *)

From Stdlib Require Import ZArith Lia.
From S2P Require Import Prelude Constants ByteOrder CString SearchTree Queue Memory TpMemory Keeps.
From S2P Require Import SbState SbObjects SbHandlers SbLemmas TxIo Xatmi Dispatch EventLoop Registry Messages Replies.
From S2P Require Import Transactions Calls Advertising Invariant Frames Board Pool BoardSteps BoardGrowth Deletion Leaving Steady SteadyWork.

Local Open Scope Z_scope.

Section SteadyCall.
Context {T : Type} `{SearchTree T Z} (dm : data_model).
Implicit Types (s : sb T) (x : tpclient T) (tx : tptransaction) (qs : gmap qaddr (list qaddr)).

(** The pool has a descriptor left, or gets one that is not in use from the next batch. *)
Definition descriptor_left s : Prop := exists ts,
  qlist s Q_tptransactions = Q_t_global <$> ts /\
  (nonzero (drop (cdp s) (free_cd s)) <> [] \/ batch_ok s (rand_k s) (live_cds s ts)) /\ (CD_FUEL <= cd_fuel s)%nat.

(** In a consistent switchboard nothing else is needed for a new transaction. *)
Lemma board_accepts s qs c x ts :
  sb_wf dm s -> board dm 0 0 s qs -> clients s !! c = Some x -> qs !! Q_tptransactions = Some (Q_t_global <$> ts) -> pool_ok s (live_cds s ts) ->
  (nonzero (drop (cdp s) (free_cd s)) <> [] \/ batch_ok s (rand_k s) (live_cds s ts)) -> (CD_FUEL <= cd_fuel s)%nat ->
  exists rl, can_accept s qs c ts rl.
Proof.
  intros Hwf B Hx Hts Hp Hsome Hf.
  destruct (bd_heads _ _ (bd_listed _ _ _ _ _ B) (Q_requests c)) as [rl Hrl]; [by exists x|].
  assert (trans s !! next s = None) as Hn.
  { destruct (trans s !! next s) eqn:E; [|done]. apply (wf_trans _ _ Hwf) in E as [? _]. lia. }
  assert (forall q, ~ q_live s q -> qm s !! q = None) as Hq.
  { intros q Hq. apply eq_None_not_Some. by rewrite (wf_links _ _ Hwf). }
  exists rl. split_and!; try done.
  - split_and!; [apply Hwf | done | ..]; apply Hq; cbn; rewrite Hn; by intros [_ [? ?]].
  - split_and!; [apply B | done |]. intros t Ht.
    destruct (bd_lists _ _ (bd_listed _ _ _ _ _ B) _ _ (Q_t_global t) Hts) as [? ?]; [by apply list_elem_of_fmap_2|].
    split; [lia | done].
Qed.

(** Any bytes of the right number are a call. *)
Lemma call_parts (bs : list byte) : length bs = (XATMI_SERVICE_NAME_LENGTH + IOLONG * 2)%nat ->
  exists name len flags, bs = call_message name len flags /\ length name = XATMI_SERVICE_NAME_LENGTH /\
    - 2 ^ 31 <= len < 2 ^ 31 /\ - 2 ^ 31 <= flags < 2 ^ 31.
Proof.
  intros Hn. set (k := XATMI_SERVICE_NAME_LENGTH) in *. change IOLONG with 4%nat in Hn.
  destruct (bytes4 (take 4 (drop k bs))) as (len & El & Hl); [rewrite length_take, length_drop; lia|].
  destruct (bytes4 (drop 4 (drop k bs))) as (flags & Ef & Hf); [rewrite !length_drop; lia|].
  exists (take k bs), len, flags. split_and!; try lia; [|rewrite length_take; lia].
  unfold call_message. by rewrite <- El, <- Ef, !take_drop.
Qed.

(** When [c] may call: the length of the data is not negative, and there is a
    descriptor for the call, if there is such a service. *)
Definition may_call s (bs : list byte) : Prop := forall name len flags svc,
  bs = call_message name len flags -> length name = XATMI_SERVICE_NAME_LENGTH -> - 2 ^ 31 <= len < 2 ^ 31 ->
  registered s name svc -> 0 <= len /\ descriptor_left s.

Lemma accepted_wf s s' c x svc len flags t v d buf qs ts rl :
  sb_wf dm s -> - 2 ^ 31 <= flags < 2 ^ 31 -> accepted dm s s' c x svc len flags t v d buf qs ts rl -> sb_wf dm s'.
Proof.
  intros Hwf Hf A. destruct (ac_run _ _ _ _ _ _ _ _ _ _ _ _ _ _ _ A) as (s0 & n & m & E0 & E1 & Es).
  pose proof (sn_heap _ _ (ac_sane _ _ _ _ _ _ _ _ _ _ _ _ _ _ _ A)) as Hh. rewrite Es in Hh |- *. cbn in Hh.
  assert (sb_wf dm (set_qm m s0)) as [W1 _ W3 W4 W5 W6 W7 W8 W9]; [|by constructor].
  apply (wf_of_run dm (in_q (qappend_tail (Q_requests c) (Q_t_clientq t))) s0 n).
  - eapply (wf_of_run dm (new_transaction dm c flags svc len)); [done | | exact E0]. apply keeps_new_transaction.
    unfold in_long. destruct dm; cbn; lia.
  - apply keeps_in_q, pres_qappend_tail.
  - unfold in_q, zoom. by rewrite E1.
Qed.

(** The switchboard with the new transaction. *)
Lemma accepted_handling s s' qs c x svc len flags t v d buf ts rl :
  handling dm s qs c x -> unowned s buf -> (exists bs, message dm s buf bs) -> - 2 ^ 31 <= flags < 2 ^ 31 -> len < 2 ^ 31 ->
  t = next s -> can_accept s qs c ts rl -> is_Some (svcs s !! svc) ->
  accepted dm s s' c x svc len flags t v d buf qs ts rl ->
  exists qs' tx, handling dm s' qs' c x /\ complete s' qs' c t tx /\
    qs' !! Q_tptransactions = Some (Q_t_global <$> (ts ++ [t])) /\ t_data tx = d.
Proof.
  intros Hh Hu [bs Hm] Hf Hlen -> (Hrl & (Hp & Hno & _) & (_ & Hts & _) & _) Hsv A. pose proof Hh as [Hwf B Hx Hi Hw Hnw].
  pose proof (accepted_wf _ _ _ _ _ _ _ _ _ _ _ _ _ _ Hwf Hf A) as Hwf'.
  pose proof (freed_handling dm s qs c x buf _ Hh Hm Hu) as [_ Bf _ _ _ _].
  destruct A as [_ _ _ (now & Et) Hd _ _ Hs (Ec & Es & Ea & Eserv & _) [Hdb Hk] _]. set (t := next s) in *.
  set (tx := mkTrans c svc now 0 v d 0 0 flags) in *. unfold q_new_trans in Hs.
  assert (forall t1 tx1, trans s !! t1 = Some tx1 -> trans s' !! t1 = Some tx1) as Hold.
  { intros t1 tx1 Htx1. rewrite Et, lookup_insert_ne; [done|]. intros <-. congruence. }
  match type of Hs with sane _ ?q => exists q, tx end. split_and!; [|split_and!| |done].
  - constructor; try done.
    + eapply (board_called dm (freed buf s) s' qs c t len x tx rl (Q_t_global <$> ts)); try done; [by split; [|apply Hi] | |].
      * intros p l Hpl. eapply (new_block dm (freed buf s)); [apply Bf | done | done].
      * intros p l [Hpb Hpl]%freed_back. by apply Hk.
    + by rewrite Ec.
    + destruct Hw as [?|(Hp1 & tx1 & ax & Htx1 & Hax & Hc)]; [by left | right]. split; [done|]. exists tx1, ax. rewrite Ea. auto.
    + intros p l a ax. rewrite lookup_insert_ne, lookup_delete_ne, !lookup_insert_ne by done. rewrite Ea. apply Hnw.
  - exists rl. apply lookup_insert_eq.
  - rewrite Et. apply lookup_insert_eq.
  - done.
  - done.
  - rewrite lookup_insert_ne, lookup_delete_ne, lookup_insert_ne by done. apply lookup_insert_eq.
  - by rewrite Es.
  - intros c1 x1 Hk1 Hx1 Hh1 E. rewrite Ec in Hx1. destruct (handler_fn x1) as [h|] eqn:Eh; [|done].
    destruct (bd_clients _ _ _ _ _ B c1 x1 Hx1) as (_ & _ & _ & Hio). destruct (Hio Hk1 h Eh) as ((l & Hb & _) & _).
    apply (new_block dm s qs _ l d (bd_sane _ _ _ _ _ B) Hb Hdb). by rewrite E.
  - rewrite lookup_insert_ne, lookup_delete_ne by done. rewrite fmap_app. apply lookup_insert_eq.
Qed.

(** A consistent switchboard whose pool of descriptors is sound. *)
Definition sound s : Prop := consistent dm s /\ pool_sound s.

(** After the transaction was made. *)
Lemma accepted_steady n s s1 qs c x svc len flags v d buf ts rl :
  handling dm s qs c x -> unowned s buf -> (exists bs, message dm s buf bs) -> - 2 ^ 31 <= flags < 2 ^ 31 -> 0 <= len < 2 ^ 31 ->
  can_accept s qs c ts rl -> is_Some (svcs s !! svc) ->
  accepted dm s s1 c x svc len flags (next s) v d buf qs ts rl ->
  wp (svriowait dm (handle dm (S n)) c d H_send_to_worker) s1 (fun _ s' => sb_wf dm s' -> sound s').
Proof.
  intros Hh Hu Hm Hf Hlen Hcan Hsv A. assert (c <> 0) as Hc0 by (eapply wf_nonzero; [apply Hh | eexists; apply Hh]).
  destruct (accepted_handling s s1 qs c x svc len flags (next s) v d buf ts rl) as (qs1 & tx & Hh1 & Hcp & Eq1 & <-); try done; [lia|].
  pose proof Hh1 as [Hwf1 B1 Hx1 Hi Hw1 Hnw1]. pose proof (ac_data _ _ _ _ _ _ _ _ _ _ _ _ _ _ _ A) as Hd.
  assert (pool_sound s1) as Hp1.
  { apply (pool_ok_sound s1 (ts ++ [next s])); [apply A|]. by apply (trans_listed dm s1 qs1). }
  eapply wp_mono; [apply (wp_pool _ _ (fun _ s' => sb_wf dm s' -> consistent dm s')); [done | |] | intros [] s' [? ?] ?; split; auto].
  { apply frame_svriowait; [apply _|]. intros. by apply frame_handle; [apply _|..]. }
  destruct (Z.ltb_spec 0 len) as [Hl|Hl].
  - eapply (wp_svriowait dm _ c x (t_data tx) len); try done. intros Hwf2. split; [done|]. exists qs1.
    eapply (board_io dm s1 _ qs1 c x (set_io 0 (t_data tx) (Some H_send_to_worker) x)); try done.
    + split_and!; [done | done |]. intros (h & [= <-] & N & _). done.
    + intros h [= <-]. split_and!; [exists len; split_and!; try done; lia | | done]. intros _.
      destruct Hcp as ([rl1 Hrl1] & Htx & Hp2 & He & Hq & Hs1 & _). exists (next s), tx, rl1. by split_and!.
    + by destruct (bd_sane _ _ _ _ _ B1).
  - assert (len = 0) as -> by lia. eapply (wp_svriowait_empty dm _ c x); try done. rewrite handle_S.
    eapply wp_mono; [eapply send_to_worker_steady; [done | done |]|done]. intros E1. rewrite E1 in Hd. by destruct Hd as (_ & ? & _).
Qed.

Lemma svracall_steady n s qs c x buf bs :
  pool_sound s -> handling dm s qs c x -> unowned s buf -> message dm s buf bs -> length bs = (XATMI_SERVICE_NAME_LENGTH + IOLONG * 2)%nat ->
  may_call s bs -> wp (svracall dm (handle dm (S n)) c buf) s (fun _ s' => sound s').
Proof.
  intros Hps Hh Hu Hm Hn Hmay. pose proof Hh as [Hwf B Hx Hi Hw Hnw]. assert (c <> 0) as Hc0 by (eapply wf_nonzero; eauto).
  apply (wp_wf dm); [done | apply keeps_svracall; intros; apply keeps_handle|].
  destruct (call_parts bs Hn) as (name & len & flags & -> & Hname & Hlen & Hf).
  destruct (bd_registry _ _ _ _ _ B) as [Hr _]. destruct (fnd_service_spec s name Hr) as (p & _ & Hp & Hp0).
  destruct (decide (p = 0)) as [E|E].
  - eapply (svracall_refuse dm _ s c x buf name len flags qs); try done; [apply B | by apply Hp0 |].
    intros s' Ht Hwf'. split; [split; [done|]; exists qs; eapply told_board; [|exact Ht]; by eapply freed_handling|].
    eapply (pool_sound_kept s); [|done]. apply pool_same.
    by destruct (td_pool _ _ _ _ _ _ Ht) as (-> & -> & ->), (td_rest _ _ _ _ _ _ Ht) as (_ & -> & _).
  - pose proof (Hp E) as Hreg. destruct (Hmay name len flags p eq_refl Hname Hlen Hreg) as (Hpos & ts & Hts & Hsome & Hfuel).
    destruct (bd_heads _ _ (bd_listed _ _ _ _ _ B) Q_tptransactions I) as [tl Htl].
    rewrite (qlist_eq s qs _ tl (bd_sane _ _ _ _ _ B) Htl) in Hts. rewrite Hts in Htl.
    destruct (board_accepts s qs c x ts Hwf B Hx Htl) as [rl Hcan]; [|done|done|].
    { apply pool_sound_ok; [done|]. intros t Ht.
      by destruct (bd_lists _ _ (bd_listed _ _ _ _ _ B) _ _ (Q_t_global t) Htl (list_elem_of_fmap_2 _ _ _ Ht)). }
    eapply (svracall_accept dm _ s c x buf name len flags p qs ts rl); try done; [apply B | lia |].
    intros v d s1 A. destruct (proj1 Hr p (proj1 Hreg)) as [_ Hsv].
    eapply (accepted_steady n s s1 qs c x p len flags v d buf ts rl); try done; [by eexists | lia].
Qed.

End SteadyCall.
