(* ===== verification/SteadyAdvertise.v ===== *)
(** * Advertising keeps the switchboard consistent

    [svradvertise] of [svradvertise.c], with [new_advertisement] and [new_service], from a
    consistent switchboard: it ends without a fault, in a consistent switchboard. *)

From Stdlib Require Import ZArith Lia.
From S2P Require Import Prelude Constants ByteOrder CString SearchTree Queue Memory TpMemory Keeps.
From S2P Require Import SbState SbObjects SbHandlers SbLemmas TxIo Xatmi Dispatch EventLoop Registry Messages Replies.
From S2P Require Import Transactions Calls Advertising Invariant Board BoardSteps BoardGrowth Deletion Leaving Steady.

Local Open Scope Z_scope.

Section SteadyAdvertise.
Context {T : Type} `{SearchTree T Z} (dm : data_model).
Implicit Types (s : sb T) (x : tpclient T) (tx : tptransaction) (qs : gmap qaddr (list qaddr)).

(** Structs are allocated where there are none. *)
Lemma wf_fresh s qs : sb_wf dm s -> sane s qs -> fresh_service s qs /\ fresh_advert s.
Proof.
  intros Hwf Hs. assert (forall q, ~ q_live s q -> qm s !! q = None) as Hq.
  { intros q Hq. apply eq_None_not_Some. by rewrite (wf_links _ _ Hwf). }
  assert (svcs s !! next s = None) as Hsv.
  { destruct (svcs s !! next s) eqn:E; [|done]. apply (wf_svcs _ _ Hwf) in E as [? _]. lia. }
  assert (advs s !! (next s + 1) = None) as Hav.
  { destruct (advs s !! (next s + 1)) eqn:E; [|done]. apply (wf_advs _ _ Hwf) in E as [? _]. lia. }
  split; split_and!; try done; try apply Hwf; try apply Hs; apply Hq; cbn; rewrite ?Hsv, ?Hav; by intros [? ?].
Qed.

(** The service is there. *)
Lemma made_service s s' c x name opaque a svc qs qs1 :
  sb_wf dm s -> board dm 0 0 s qs -> advert_made dm s s' c x name opaque a svc qs qs1 ->
  exists m, board dm 0 0 (set_qm m (set_services (services s') (set_svcs (svcs s') s))) qs1.
Proof.
  intros Hwf B Hmade. pose proof (bd_sane _ _ _ _ _ B) as [Hq Hh Hm].
  destruct Hmade as [[Hreg Hnm] Hsv _ _ Hall Hfr]. set (s1 := set_services (services s') (set_svcs (svcs s') s)).
  assert (registry_ok s1) as Hreg1.
  { destruct Hreg as [Hl Ho]. split; [exact Hl|]. eapply tordered_ext; [|exact Ho]. done. }
  destruct Hsv as [(Hr & Es & ->)|(Hno & -> & Es)].
  - exists (qm s). destruct (bd_registry _ _ _ _ _ B) as [_ Hall0].
    destruct B as [B1 B2 B3 B4 B5 B6 B7 B8 B9 B10].
    assert (same_structs s (set_qm (qm s) s1)) as Hss by (constructor; cbn; rewrite ?Es; done).
    constructor; try done; cbn [clients trans advs svcs services set_qm set_services set_svcs s1].
    + by apply (listed_same s).
    + intros c1 x1 Hx1. destruct (B4 c1 x1 Hx1) as (H1 & H2 & H3 & H4). split_and!; try done.
      * eapply adverts_reg_same; [..|exact H1]; cbn; rewrite ?Es; done.
      * intros Hk. apply (io_keep dm s _ qs _ c1 x1); try done; [|by apply H4]. intros _. apply receiving_keep; [done|].
        cbn. rewrite Es. eauto 10.
    + intros a1 ax1 Hne Hax. unfold adv_fits. cbn. rewrite Es. by apply B6.
    + split; [exact Hreg1|]. intros p. cbn. rewrite Es. intros Hp. apply Hall. right. by apply Hall0.
    + apply (apart_same 0 0 s); cbn; eauto.
  - specialize (Hfr Hno).
    assert (qm s !! Q_waitq svc = None) as Hqn.
    { apply eq_None_not_Some. rewrite (wf_links _ _ Hwf). cbn. rewrite Hfr. by intros [? ?]. }
    destruct (qrep_alloc (qm s) qs (Q_waitq svc) (mkQUEUE QNULL QNULL) Hq Hqn) as (m1 & _ & Q1 & _). exists m1.
    eapply (board_registered dm s _ qs svc); try done.
Qed.

Lemma svradvertise_steady s qs c x buf bs :
  handling dm s qs c x -> unowned s buf -> message dm s buf bs -> length bs = (XATMI_SERVICE_NAME_LENGTH + IOLONG)%nat ->
  wp (svradvertise dm c buf) s (fun _ s' => consistent dm s').
Proof.
  intros Hh [Hu Hu'] Hm Hn. pose proof Hh as [Hwf B Hx Hi Hw Hnw]. apply (wp_wf dm); [done | apply keeps_svradvertise|].
  set (k := XATMI_SERVICE_NAME_LENGTH) in *.
  destruct (bytes4 (drop k bs)) as (v & Ev & Hv); [rewrite length_drop, Hn; change IOLONG with 4%nat; lia|].
  rewrite <- (take_drop k bs), Ev in Hm.
  destruct (wf_fresh s qs Hwf (bd_sane _ _ _ _ _ B)) as [Hfs Hfa].
  eapply wp_mono; [eapply (svradvertise_run dm s c x buf (take k bs) v qs); try done|].
  { by eapply wf_nonzero; eauto. }
  { apply B. }
  { apply B. }
  { apply (bd_clients _ _ _ _ _ B c x Hx). }
  { rewrite length_take. lia. }
  intros [] s' (a & s1 & svc & qs1 & x1 & Erun & Hmade & Hx1 & Ht) Hwf'. split; [done|].
  assert (sb_wf dm s1) as Hwf1.
  { apply (wf_of_run dm (new_advertisement dm c (take k bs) (swrap 32 v)) s a); [done | apply keeps_new_advertisement | exact Erun]. }
  destruct (made_service s s1 c x _ _ a svc qs qs1 Hwf B Hmade) as (m & Bm).
  set (sm := set_qm m _) in Bm. destruct Hmade as [[Hreg Hnm] Hsv Hadv (Em & _ & Et & _) _ _].
  assert (forall p l, qs1 !! Q_waitq p = Some l -> l = [] \/ qs !! Q_waitq p = Some l) as Hq1.
  { intros p l. destruct Hsv as [(_ & _ & ->)|(_ & -> & _)]; [by right|].
    intros [[_ <-]|[_ Hl]]%lookup_insert_Some; [by left | by right]. }
  assert (is_Some (svcs s1 !! svc)) as Hsome by (destruct Hnm as [Hin _]; by apply (proj1 Hreg)).
  assert (exists qs2, board dm 0 0 s1 qs2 /\ handler_fn x1 = handler_fn x /\ input x1 = input x /\ used x1 = used x /\
    wait4 x1 = wait4 x /\ (forall b bx, advs s !! b = Some bx -> advs s1 !! b = Some bx) /\
    (forall c1, c1 <> c -> clients s1 !! c1 = clients s !! c1) /\
    (forall p l, qs2 !! Q_waitq p = Some l -> l = [] \/ qs !! Q_waitq p = Some l)) as (qs2 & B1 & Eh & Ei & Eu & Ew & Hka & Hkc & Hq2).
  { destruct Hadv as [(_ & Ea & Ec & Hq)|(_ & Hno & Ea & Hq & t' & Ec & Hreg' & Hperm)].
    - exists qs1. rewrite Ec in Hx1. assert (x1 = x) as -> by congruence. split_and!; try done; [|by rewrite Ea | by rewrite Ec].
      pose proof (bd_sane _ _ _ _ _ Bm) as [_ H2 H3].
      apply (board_relist dm 0 0 sm s1 qs1); try done; try apply Bm.
      + split; [done | by rewrite Em | unfold memory_left; by rewrite Em].
      + apply (listed_same sm); [|apply Bm]. constructor; cbn; rewrite ?Ec, ?Et; done.
    - exists (<[Q_adv_waitq a := []]> qs1). assert (x1 = set_adverts t' x) as ->
        by (rewrite Ec, lookup_insert_eq in Hx1; by injection Hx1).
      split_and!; try done.
      + pose proof (bd_sane _ _ _ _ _ Bm) as [_ H2 H3].
        eapply (board_advertised dm sm s1 qs1 c a x _ t'); try done.
        * split; [done|]. destruct (advs s !! 0) eqn:E; [|by cbn]. apply (wf_advs _ _ Hwf) in E as [? _]. lia.
        * by split.
        * split; [done | by rewrite Em | unfold memory_left; by rewrite Em].
      + intros b bx Hb. rewrite Ea, lookup_insert_ne; [done|]. intros <-. congruence.
      + intros c1 Hc1. by rewrite Ec, lookup_insert_ne.
      + intros p l. rewrite lookup_insert_ne by done. apply Hq1. }
  assert (handling dm s1 qs2 c x1) as Hh1.
  { constructor; try done.
    - unfold idle. by rewrite Eh, Ei, Eu.
    - rewrite Ew. destruct Hw as [?|(Hp & tx & ax & Htx & Hax & Hc)]; [by left | right]. split; [done|]. exists tx, ax.
      rewrite Et. auto.
    - intros p l b bx Hl Hin Hbx. destruct (Hq2 p l Hl) as [->|Hl0]; [by apply not_elem_of_nil in Hin|].
      destruct (bd_lists _ _ (bd_listed _ _ _ _ _ B) _ _ _ Hl0 Hin) as [(bx0 & Hbx0 & _)%fmap_Some _].
      apply (Hnw p l b bx Hl0 Hin). rewrite (Hka b bx0 Hbx0) in Hbx. congruence. }
  exists qs2. eapply told_board; [|exact Ht]. eapply (freed_handling dm s1); [done | unfold message; rewrite Em; exact Hm |]. split.
  - rewrite Et. exact Hu.
  - intros c1 y Hy (h & Hh' & N). destruct (decide (c1 = c)) as [->|Hne].
    + assert (y = x1) as -> by congruence. rewrite Ei. apply (Hu' c x Hx). exists h. by rewrite <- Eh.
    + rewrite Hkc in Hy by done. apply (Hu' c1 y Hy). by exists h.
Qed.

End SteadyAdvertise.
