(* ===== verification/SteadyLoop.v ===== *)
(** * Serving a client keeps the switchboard consistent

    The handlers together, through [command], [handle] and [iowait_client] of
    [tpserver.c]: whatever arrives from a client that keeps to the protocol, the
    switchboard does not fault and stays consistent.  [proper] says for each message what
    the protocol asks of the client in the state at hand; it excludes the sessions of
    [Session.v] that end in a fault. *)

From Stdlib Require Import ZArith Lia.
From S2P Require Import Prelude Constants ByteOrder CString SearchTree Queue Memory TpMemory Keeps.
From S2P Require Import SbState SbObjects SbHandlers SbLemmas TxIo Xatmi Dispatch EventLoop Registry Messages Replies.
From S2P Require Import Transactions Calls CallPath Advertising Invariant Frames Board Pool BoardSteps BoardGrowth Deletion Leaving.
From S2P Require Import Steady SteadyReturn SteadyWork SteadyCall SteadyAdvertise.

Local Open Scope Z_scope.

Section SteadyLoop.
Context {T : Type} `{SearchTree T Z} (dm : data_model).
Implicit Types (s : sb T) (x : tpclient T) (tx : tptransaction) (qs : gmap qaddr (list qaddr)).

(** ** What is asked of the clients *)

(** A client that asks for work executes nothing and waits for nothing, and the requests
    that wait for its services were not handed out before. *)
Definition may_work s x : Prop := wait4 x = 0 /\ fresh_work s x.

Definition proper s (c : Z) x (h : handler) (bs : list byte) : Prop :=
  match h with
  | H_command =>
      match commands !! Z.to_nat (b2z (nth 0 bs x00)) with
      | Some (H_svrservice, _) => may_work s x
      | Some _ => True
      | None => calm c s
      end
  | H_svracall => may_call s bs
  | H_svrgetrply => wait4 x = 0
  | H_svrunadvertise => may_withdraw s c x bs
  | H_svrservice => may_work s x
  | H_svrreturn => works s c (wait4 x) /\ 0 <= swrap 32 (le_decode (drop 5 bs))
  | H_svradvertise | H_send_to_worker | H_part2 => True
  end.

(** What a handler finds when it is called. *)
Definition delivered s qs (c : Z) x (h : handler) (buf : ptr) (bs : list byte) : Prop :=
  match h with
  | H_send_to_worker => buf <> NULL /\ exists t tx, complete s qs c t tx
  | H_part2 => works s c (wait4 x)
  | H_command => unowned s buf /\ message dm s buf bs /\ length bs = 1%nat
  | _ => unowned s buf /\ message dm s buf bs /\ (h, length bs) ∈ commands
  end.

(** ** The handlers *)

Lemma handler_steady n h s qs c x buf bs :
  pool_sound s -> handling dm s qs c x -> delivered s qs c x h buf bs -> proper s c x h bs -> h <> H_command ->
  wp (handle dm (S (S n)) h c buf) s (fun _ s' => sound dm s').
Proof.
  intros Hps Hh Hd Hp Hne. assert (forall k, (h, length bs) ∈ commands -> (h, k) ∈ commands -> length bs = k) as Hlen.
  { intros k H1 H2. unfold commands in H1, H2. set_solver. }
  destruct (decide (h = H_svracall)) as [->|Hnc].
  { destruct Hd as (Hu & Hm & Hl). rewrite handle_S. eapply svracall_steady; try done. apply Hlen; [done | set_solver]. }
  apply (wp_pool _ _ (fun _ s' => consistent dm s')); [done | by apply frame_handle; [apply _|..] |].
  rewrite handle_S. destruct h; try done; cbn in Hd.
  - destruct Hd as (Hu & Hm & Hl). eapply svrgetrply_steady; try done. apply Hlen; [done | set_solver].
  - destruct Hd as (Hu & Hm & Hl). eapply svradvertise_steady; try done. apply Hlen; [done | set_solver].
  - destruct Hd as (Hu & Hm & Hl). eapply svrunadvertise_steady; try done. apply Hlen; [done | set_solver].
  - destruct Hd as (Hu & Hm & Hl), Hp as [Hw Hf]. eapply svrservice_steady; try done.
    assert (bs = []) as -> by (apply nil_length_inv, Hlen; [done | set_solver]). done.
  - destruct Hd as (Hu & Hm & Hl), Hp as [Hw Hf]. eapply svrreturn_steady; try done. apply Hlen; [done | set_solver].
  - destruct Hd as (Hn & t & tx & Hc). by eapply send_to_worker_steady.
  - by eapply part2_steady.
Qed.

(** ** A client leaves *)

Lemma wp_leave s qs c x :
  pool_sound s -> sb_wf dm s -> board dm 0 0 s qs -> clients s !! c = Some x -> calm c s ->
  wp (del_client dm c) s (fun _ s' => sound dm s').
Proof.
  intros Hps Hwf B Hx Hcalm. apply (wp_pool _ _ (fun _ s' => consistent dm s')); [done | apply pool_del_client|].
  eapply wp_mono; [by apply (del_client_run dm s qs c x)|]. intros [] s' (qs' & [[Hwf' B'] _ _ _ _ _ _ _ _]). split; [done | by exists qs'].
Qed.

(** ** The first byte of a message *)

Lemma wf_set_mem s m : sb_wf dm s -> heap_wf (tp_heap m) -> sb_wf dm (set_mem m s).
Proof. intros [] Hm. by constructor. Qed.

Lemma empty_message s p : tpbuf dm (tp_heap (mem s)) p 0 -> message dm s p [].
Proof.
  intros Hb. split; [done|]. apply nil_length_inv.
  pose proof (length_tpdata dm _ _ _ Hb) as E. change (Z.of_nat (length [])) with 0. lia.
Qed.

(** Memory in which the message [buf] was replaced by a new buffer. *)
Lemma replaced_handling s qs c x buf bs p n m :
  handling dm s qs c x -> unowned s buf -> message dm s buf bs ->
  tpbuf dm (tp_heap m) p n -> blocks (tp_heap m) !! pblk buf = None -> heap_wf (tp_heap m) ->
  (ooms (tp_heap (mem s)) = [] -> ooms (tp_heap m) = []) ->
  same_buffers (tp_heap (mem s)) (tp_heap m) (pblk buf) -> blocks (tp_heap (mem s)) !! pblk p = None ->
  handling dm (freed buf s) qs c x /\ handling dm (set_mem m s) qs c x /\ unowned (set_mem m s) p /\
  (forall q l, tpbuf dm (tp_heap (mem (freed buf s))) q l -> tpbuf dm (tp_heap m) q l /\ pblk q <> pblk p).
Proof.
  intros Hh Hu Hm Hp Hdead Hwf Ho Hsame Hfresh. pose proof (freed_handling dm s qs c x buf _ Hh Hm Hu) as Hhf.
  assert (forall q l, tpbuf dm (tp_heap (mem (freed buf s))) q l -> tpbuf dm (tp_heap m) q l /\ pblk q <> pblk p) as Hk.
  { intros q l [Hqb Hql]%freed_back. split; [by eapply tpbuf_frame|]. intros E.
    destruct Hql as (_ & _ & b & Hb & _). rewrite E in Hb. congruence. }
  pose proof Hhf as [Hwff Bf Hxf Hif Hwa Hnw]. pose proof (bd_sane _ _ _ _ _ Bf) as [Hq _ Hm0].
  assert (unowned (set_mem m s) p) as Hup.
  { split.
    - intros t tx Hpos Htx. destruct (bd_trans _ _ _ _ _ Bf t tx Htx Hpos) as (_ & (l & Hb & _) & _). by eapply Hk.
    - intros c1 x1 Hx1 (h & Hh1 & _). destruct (bd_clients _ _ _ _ _ Bf c1 x1 Hx1) as (_ & _ & _ & Hio).
      assert (c1 <> 0) as Hc1 by (eapply (wf_nonzero dm (freed buf s)); [done | by eexists]).
      destruct (Hio Hc1 h Hh1) as ((l & Hb & _) & _). by eapply Hk. }
  split_and!; try done. constructor; try done.
  - apply wf_set_mem; [apply Hh | done].
  - apply (board_mem dm 0 (freed buf s) _ qs (pblk p)); try done; try apply Hup.
    + intros c1 Hc1. by eapply (wf_nonzero dm (freed buf s)).
    + intros q l _ Hql. by apply Hk.
    + split; [done | done | by apply Ho].
Qed.

Lemma command_steady n s qs c x buf b :
  pool_sound s -> handling dm s qs c x -> unowned s buf -> message dm s buf [b] -> proper s c x H_command [b] ->
  wp (command dm (handle dm (S (S n))) c buf) s (fun _ s' => sound dm s').
Proof.
  intros Hps Hh Hu Hm Hp. pose proof Hh as [Hwf B Hx Hi Hwa Hnw]. assert (c <> 0) as Hc0 by (eapply wf_nonzero; eauto).
  pose proof (bd_sane _ _ _ _ _ B) as [Hq Hwh Hmem]. apply (wp_wf dm); [done | apply keeps_command; intros; apply keeps_handle|].
  pose proof (command_run dm (handle dm (S (S n))) s c x buf b Hc0 Hx Hi (proj1 Hm) (proj2 Hm) Hwh (memory_left_oom s Hmem)) as Hrun.
  cbn in Hp. destruct (commands !! Z.to_nat (b2z b)) as [[h k]|] eqn:Ec.
  - destruct Hrun as (p & m & Hbuf & Hdead & Hwh' & Ho & Hsame & Hfresh & E).
    destruct (replaced_handling s qs c x buf [b] p (Z.of_nat k) m) as (Hhf & Hhm & Hup & Hk); try done.
    pose proof (commands_handlers _ _ _ Ec) as Hnc. apply list_elem_of_lookup_2 in Ec.
    unfold wp. rewrite E. destruct (Nat.eqb_spec k 0) as [->|Hk0].
    + assert (h = H_svrservice) as -> by (unfold commands in Ec; set_solver).
      change (wp (handle dm (S (S n)) H_svrservice c p) (set_mem m s) (fun _ s' => sb_wf dm s' -> sound dm s')).
      eapply wp_mono; [apply (handler_steady n H_svrservice (set_mem m s) qs c x p []); try done|by intros [] s' ? ?].
      { by apply (pool_sound_kept s); [apply pool_same|]. }
      split_and!; [done | by apply empty_message | set_solver].
    + intros Hwf'. split; [|by apply (pool_sound_kept s); [apply pool_same|]]. split; [done|]. exists qs. pose proof Hhf as [Hwff Bf Hxf _ _ _].
      eapply (board_command dm 0 0 (freed buf s) _ qs c (wait4 x) x p h (Z.of_nat k)); try done.
      * intros t tx ax Hpos Htx He Hax Hca. by eapply (handling_only dm s qs c x t tx ax).
      * assert (size_ok h (Z.of_nat k)) as Hsz by (destruct h; try done; try (by exists k); unfold commands in Ec; set_solver).
        split_and!; [..|done|lia]; intros ->; unfold commands in Ec; set_solver.
      * intros q l Hql. by apply (Hk q l).
      * intros q l Hql. by apply (Hk q l).
      * by destruct (bd_sane _ _ _ _ _ (hd_board _ _ _ _ _ Hhm)).
  - pose proof (freed_handling dm s qs c x buf _ Hh Hm Hu) as [Hwff Bf Hxf _ _ _].
    assert (pool_sound (freed buf s)) as Hpf by (by apply (pool_sound_kept s); [apply pool_same|]).
    pose proof (wp_leave (freed buf s) qs c x Hpf Hwff Bf Hxf Hp) as Hdel.
    unfold wp in *. rewrite Hrun. by destruct (del_client _ _ _) as [[[] s']|].
Qed.

(** ** Bytes from a client *)

Lemma tpbuf_len h p l1 l2 : tpbuf dm h p l1 -> tpbuf dm h p l2 -> l1 = l2.
Proof.
  intros H1 H2. pose proof (tplen_buf dm (mkTpmem h 0) _ _ H1) as E. rewrite (tplen_buf dm (mkTpmem h 0) _ _ H2) in E.
  by injection E.
Qed.

(** A client that is sending waits for no work, and executes what [wait4] points to. *)
Lemma sending_free s qs c x :
  board dm 0 0 s qs -> clients s !! c = Some x -> handler_fn x <> None ->
  (wait4 x = 0 \/ works s c (wait4 x)) /\
  forall p l a ax, qs !! Q_waitq p = Some l -> Q_adv_waitq a ∈ l -> advs s !! a = Some ax -> a_client ax <> c.
Proof.
  intros B Hx Hh. split.
  - destruct (bd_clients _ _ _ _ _ B c x Hx) as (_ & _ & [?|[[[? _] _]|?]] & _); auto. done.
  - intros p l a ax Hl Hin Hax Hc. destruct (bd_waiting _ _ _ _ _ B p l a Hl Hin) as (ax' & y & Hax' & Hy & [Hi _] & _).
    assert (ax' = ax) as -> by congruence. rewrite Hc, Hx in Hy. injection Hy as <-. done.
Qed.

(** The state in which the handler runs. *)
Lemma arrived_handling s qs c x h m :
  sb_wf dm s -> board dm 0 0 s qs -> clients s !! c = Some x -> handler_fn x = Some h ->
  sane (set_mem m s) qs -> (forall p len, tpbuf dm (tp_heap (mem s)) p len -> tpbuf dm (tp_heap m) p len) ->
  handling dm (arrived s c x m) qs c (set_io 0 NULL None x).
Proof.
  intros Hwf B Hx Hh Hs Hk. assert (handler_fn x <> None) as Hh' by (by rewrite Hh).
  assert (c <> 0) as Hc0 by (eapply wf_nonzero; eauto).
  destruct (sending_free s qs c x B Hx Hh') as [Hw Hnw]. constructor; try done; [| |apply lookup_insert_eq].
  - apply (wf_of_run dm (put_client c (set_io 0 NULL None)) (set_mem m s) tt).
    + apply wf_set_mem; [done | apply Hs].
    + apply keeps_put_client. intros y Hy. split; [by left | done].
    + apply wp_eq. by eapply wp_put_client.
  - apply (board_io dm s _ qs c x (set_io 0 NULL None x)); try done; [|by destruct Hs].
    split_and!; try done. by intros (? & ? & _).
Qed.

Lemma arrived_delivered s qs c x h m bs :
  sb_wf dm s -> board dm 0 0 s qs -> clients s !! c = Some x -> handler_fn x = Some h ->
  tpbuf dm (tp_heap (mem s)) (input x) (Z.of_nat (length bs)) -> message dm (arrived s c x m) (input x) bs ->
  delivered (arrived s c x m) qs c (set_io 0 NULL None x) h (input x) bs.
Proof.
  intros Hwf B Hx Hh Hb Hm. assert (c <> 0) as Hc0 by (eapply wf_nonzero; eauto).
  destruct (bd_clients _ _ _ _ _ B c x Hx) as (_ & _ & _ & Hio). destruct (Hio Hc0 h Hh) as ((len & Hb' & _ & Hsz) & Hr & Hp2).
  assert (len = Z.of_nat (length bs)) as -> by (by eapply tpbuf_len).
  assert (private x -> unowned (arrived s c x m) (input x)) as Hu.
  { intros Hpr. split.
    - intros t tx Hp Htx E. by apply (bd_input _ _ (bd_apart _ _ _ _ _ B) c x t tx).
    - intros c1 x1 Hx1 Hpr1 E. cbn in Hx1. apply lookup_insert_Some in Hx1 as [[<- <-]|[Hne Hx1]]; [by destruct Hpr1 as (? & ? & _)|].
      apply Hne. symmetry. apply (bd_inputs _ _ (bd_apart _ _ _ _ _ B) c1 x1 c x); try done. by eapply wf_nonzero; eauto. }
  destruct h; cbn in Hsz |- *; try done;
    try (destruct Hsz as (k & Hk & E); split_and!; [apply Hu; by eexists | done |]; replace (length bs) with k by lia; done).
  - split_and!; [apply Hu; by eexists | done | lia].
  - split; [by intros E; rewrite E in Hb; destruct Hb as (_ & ? & _)|].
    destruct (Hr eq_refl) as (t & tx & rl & Hrl & Htx & Hp & Hd & He & Hq & Hsv). exists t, tx.
    split_and!; try done; [by exists rl|]. intros c1 x1 Hk1 Hx1 Hh1 Ei. cbn in Hx1.
    apply lookup_insert_Some in Hx1 as [[<- <-]|[Hne Hx1]]; [done|].
    destruct (reader dm 0 0 s qs c1 x1 t tx B Hk1 Hx1 Hh1 Htx Hp ltac:(by rewrite Ei)) as [_ [(_ & _ & rl1 & Hrl1)|(_ & _ & _ & tx1 & ax & Htx1 & Hax & _)]].
    + apply Hne. destruct (bd_lists _ _ (bd_listed _ _ _ _ _ B) _ _ (Q_t_clientq t) Hrl) as [_ E1]; [set_solver|].
      destruct (bd_lists _ _ (bd_listed _ _ _ _ _ B) _ _ (Q_t_clientq t) Hrl1) as [_ E2]; [set_solver|]. congruence.
    + assert (tx1 = tx) as -> by congruence. rewrite He in Hax. apply (wf_advs _ _ Hwf) in Hax as [? _]. lia.
  - by apply Hp2.
Qed.

(** The protocol does not ask about the message that has just arrived. *)
Lemma arrived_proper s c x h m bs :
  proper s c x h bs -> proper (arrived s c x m) c (set_io 0 NULL None x) h bs.
Proof.
  assert (calm c s -> calm c (arrived s c x m)) as Hcalm.
  { intros Hcl c1 x1 t tx Hne Hx1. cbn in Hx1. rewrite lookup_insert_ne in Hx1 by done. by apply (Hcl c1 x1). }
  destruct h; try done; cbn.
  - destruct (commands !! _) as [[[]]|]; try done.
  - intros [Hq Ha]. split; [|exact Ha]. intros c1 x1 t tx Hk Hx1 Hh1. cbn in Hx1.
    apply lookup_insert_Some in Hx1 as [[<- <-]|[Hne Hx1]]; [done|]. by apply (Hq c1 x1).
Qed.

(** Bytes stored in a buffer leave all buffers what they were. *)
Lemma stored_kept s qs x len i d :
  sane s qs -> tpbuf dm (tp_heap (mem s)) (input x) len -> 0 <= i -> i + Z.of_nat (length d) <= len ->
  exists m, in_heap (store_bytes (ptr_add (input x) i) d) (mem s) = Done (tt, m) /\ sane (set_mem m s) qs /\
    tpdata (tp_heap m) (input x) len = wr (tpdata (tp_heap (mem s)) (input x) len) (Z.to_nat i) d /\
    forall p l, tpbuf dm (tp_heap (mem s)) p l -> tpbuf dm (tp_heap m) p l.
Proof.
  intros Hs Hb Hi Hl. destruct (store_bytes_at dm (mem s) (input x) len i d Hb Hi Hl) as (m & E & Hb' & Hd & _ & Hsame & Ebrk & Eo & Edom).
  exists m. split_and!; try done.
  - destruct Hs as [Hq [Hbrk Hbelow] Hm]. split; [done | | unfold memory_left in *; cbn; by rewrite Eo]. cbn. split; [by rewrite Ebrk|].
    intros j Hj. rewrite Ebrk. apply Hbelow. apply elem_of_dom. rewrite <- Edom. by apply elem_of_dom.
  - intros p l Hp. destruct (decide (pblk p = pblk (input x))) as [Eb|Hne]; [|by eapply tpbuf_frame].
    assert (p = input x) as -> by (destruct Hp as [? _], Hb as [? _]; destruct p, (input x); cbn in *; congruence).
    by rewrite (tpbuf_len _ _ _ _ Hp Hb).
Qed.

(** What a client may send next: nothing, or any bytes that do not end its message, or
    bytes that end a message which is proper.  When the connection ends, or bytes come
    that were not asked for, nobody else may be sending data that goes with it. *)
Definition orderly s (c : Z) x (r : read_result) : Prop :=
  match handler_fn x, r with
  | Some h, ReadBytes (b :: bs) => forall len, tpbuf dm (tp_heap (mem s)) (input x) len ->
      let all := take (Z.to_nat (used x)) (tpdata (tp_heap (mem s)) (input x) len) ++ b :: bs in
      len <= Z.of_nat (length all) -> proper s c x h (take (Z.to_nat len) all)
  | _, _ => calm c s
  end.

(** The message is complete. *)
Lemma complete_steady s qs c x h m bs :
  pool_sound s -> sb_wf dm s -> board dm 0 0 s qs -> clients s !! c = Some x -> handler_fn x = Some h ->
  sane (set_mem m s) qs -> (forall p l, tpbuf dm (tp_heap (mem s)) p l -> tpbuf dm (tp_heap m) p l) ->
  tpbuf dm (tp_heap (mem s)) (input x) (Z.of_nat (length bs)) -> tpdata (tp_heap m) (input x) (Z.of_nat (length bs)) = bs ->
  proper s c x h bs -> wp (handle dm HANDLE_DEPTH h c (input x)) (arrived s c x m) (fun _ s' => sound dm s').
Proof.
  intros Hps Hwf B Hx Hh Hsm Hk Hb Hd Hpr. pose proof (arrived_handling s qs c x h m Hwf B Hx Hh Hsm Hk) as Hhd.
  assert (message dm (arrived s c x m) (input x) bs) as Hmsg by (split; [by apply Hk | done]).
  pose proof (arrived_delivered s qs c x h m bs Hwf B Hx Hh Hb Hmsg) as Hdl.
  apply (arrived_proper s c x h m bs) in Hpr. unfold HANDLE_DEPTH.
  assert (pool_sound (arrived s c x m)) as Hpa by (by apply (pool_sound_kept s); [apply pool_same|]).
  destruct (decide (h = H_command)) as [->|Hne]; [|by eapply handler_steady].
  rewrite handle_S. destruct Hdl as (Hu & _ & Hl). destruct bs as [|b [|]]; try done. by eapply command_steady.
Qed.

(** The message is not complete yet. *)
Lemma partial_steady s qs c x h m len n :
  sb_wf dm s -> board dm 0 0 s qs -> clients s !! c = Some x -> handler_fn x = Some h ->
  sane (set_mem m s) qs -> (forall p l, tpbuf dm (tp_heap (mem s)) p l -> tpbuf dm (tp_heap m) p l) ->
  tpbuf dm (tp_heap (mem s)) (input x) len -> 0 <= n < len ->
  board dm 0 0 (set_clients (<[c := set_io n (input x) (Some h) x]> (clients s)) (set_mem m s)) qs.
Proof.
  intros Hwf B Hx Hh Hsm Hk Hb Hn. assert (c <> 0) as Hc0 by (eapply wf_nonzero; eauto).
  destruct (sending_free s qs c x B Hx ltac:(by rewrite Hh)) as [Hw Hnw].
  eapply (board_io dm s _ qs c x (set_io n (input x) (Some h) x)); try done; [|by destruct Hsm].
  intros h' [= <-]. destruct (bd_clients _ _ _ _ _ B c x Hx) as (_ & _ & _ & Hio).
  destruct (Hio Hc0 h Hh) as ((len' & Hb' & _ & Hsz) & Hr & Hp2). split_and!; [|exact Hr | exact Hp2].
  exists len'. rewrite (tpbuf_len _ _ _ _ Hb' Hb) in *. cbn. split_and!; [by apply Hk | lia | lia | done].
Qed.

Lemma iowait_client_run s qs c x r :
  pool_sound s -> sb_wf dm s -> board dm 0 0 s qs -> clients s !! c = Some x -> orderly s c x r ->
  wp (iowait_client dm c r) s (fun _ s' => sound dm s').
Proof.
  intros Hps Hwf B Hx Hor. pose proof (bd_sane _ _ _ _ _ B) as Hs. assert (c <> 0) as Hc0 by (eapply wf_nonzero; eauto).
  apply (wp_wf dm); [done | apply keeps_iowait_client|].
  assert (calm c s -> wp (del_client dm c) s (fun _ s' => sb_wf dm s' -> sound dm s')) as Hleave.
  { intros Hcl. eapply wp_mono; [by eapply wp_leave|]. by intros [] s' ? ?. }
  unfold iowait_client, orderly in *. wp_step. eapply wp_get_client; [done | exact Hx|].
  destruct (handler_fn x) as [h|] eqn:Hh.
  - destruct (bd_clients _ _ _ _ _ B c x Hx) as (_ & _ & _ & Hio). destruct (Hio Hc0 h Hh) as ((len & Hb & Hused & _) & _).
    wp_step. rewrite bool_decide_false by (intros E; rewrite E in Hb; by destruct Hb as (_ & ? & _)).
    eapply wp_in_mem_read; [by apply tplen_buf|]. rewrite (proj2 (Z.leb_gt len (used x))) by lia.
    destruct r as [|[|b0 bs]]; [by apply Hleave..|]. specialize (Hor len Hb). set (bs' := b0 :: bs) in *. cbn zeta in Hor.
    set (got := take (Z.to_nat (len - used x)) bs'). set (old := tpdata (tp_heap (mem s)) (input x) len) in *.
    assert (Z.of_nat (length old) = len) as Hold by by apply (length_tpdata dm).
    assert (Z.of_nat (length got) <= len - used x) as Hgot by (unfold got; rewrite length_take; lia).
    destruct (stored_kept s qs x len (used x) got Hs Hb) as (m & E & Hsm & Hd & Hk); [lia | lia |]. fold old in Hd.
    wp_step. eapply wp_in_mem; [exact E|]. destruct (Z.eqb_spec (used x + Z.of_nat (length got)) len) as [Efull|Hpart].
    + wp_step. eapply wp_put_client; [done | exact Hx|]. wp_step. wp_step. change (set_clients _ (set_mem m s)) with (arrived s c x m).
      assert (wr old (Z.to_nat (used x)) got = take (Z.to_nat len) (take (Z.to_nat (used x)) old ++ bs')) as Eall.
      { unfold wr. rewrite (drop_ge old) by lia. rewrite app_nil_r, take_app, length_take, take_take.
        f_equal; [f_equal; lia|]. unfold got. f_equal. lia. }
      rewrite Eall in Hd. set (all := take (Z.to_nat len) _) in Hd.
      assert (Z.of_nat (length all) = len) as Hall by (rewrite <- Hd; apply (length_tpdata dm), Hk, Hb).
      eapply wp_mono; [eapply (complete_steady s qs c x h m all); rewrite ?Hall; try done | by intros [] s' ? ?].
      apply Hor. rewrite length_app, length_take. unfold got in Efull. rewrite length_take in Efull. lia.
    + eapply wp_put_client; [done | exact Hx|]. intros Hwf'. split; [|by apply (pool_sound_kept s); [apply pool_same|]].
      split; [done|]. exists qs. apply (partial_steady s qs c x h m len); try done. lia.
  - assert (idle x) as (_ & Ei & Eu).
    { destruct (wf_clients _ _ Hwf c x Hx) as [_ [(? & ? & ?)|([? ?] & _)]]; [done | congruence]. }
    wp_step. rewrite bool_decide_true by done. wp_step. rewrite Eu. cbn. by apply Hleave.
Qed.

(** ** A new connection *)

Lemma qrep_ring m qs q : qrep m qs -> m !! q = None -> qrep (<[q := mkQUEUE q q]> m) (<[q := []]> qs).
Proof.
  intros Hq Hn. destruct (qrep_alloc m qs q (mkQUEUE q q) Hq Hn) as (m' & E & Q' & F).
  assert (m' = <[q := mkQUEUE q q]> m) as <-; [|done]. revert E.
  unfold QINIT, QNEXT_set, QPREV_set, mbind, M_bind, modify, gets. cbn. rewrite lookup_insert_eq. cbn.
  unfold set_p2. rewrite lookup_alter_eq, lookup_insert_eq. cbn. intros [= <-]. unfold set_p1.
  apply map_eq. intros y. rewrite !lookup_alter, !lookup_insert. by repeat case_decide.
Qed.

Lemma new_client_steady s qs i :
  sb_wf dm s -> board dm 0 0 s qs -> fd_free i s ->
  exists s' qs', new_client i s = Done (next s, s') /\ handling dm s' qs' (next s) (mkClient i 0 NULL None tempty 0).
Proof.
  intros Hwf B Hi. pose proof (bd_sane _ _ _ _ _ B) as [Hq Hh Hm]. pose proof (wf_next _ _ Hwf) as Hn.
  set (c := next s). set (s1 := set_next (c + 1) s).
  assert (clients s !! c = None) as Hc.
  { destruct (clients s !! c) eqn:E; [|done]. apply (wf_clients _ _ Hwf) in E as [? _]. unfold c in *. lia. }
  assert (forall q, ~ q_live s q -> qm s !! q = None) as Hlive by (intros q Hq'; apply eq_None_not_Some; by rewrite (wf_links _ _ Hwf)).
  assert (qm s !! Q_global c = None /\ qm s !! Q_requests c = None /\ qm s !! Q_replies c = None) as (L1 & L2 & L3).
  { split_and!; apply Hlive; cbn; rewrite Hc; by intros [? ?]. }
  destruct (bd_heads _ _ (bd_listed _ _ _ _ _ B) Q_tpclients) as [cl Hcl]; [done|].
  assert (forall h l, qs !! h = Some l -> Q_global c ∉ h :: l) as Hout by (intros h l; by apply (qrep_fresh (qm s) qs)).
  set (qs1 := <[Q_replies c := []]> (<[Q_requests c := []]> qs)).
  assert (qrep (qm (with_client c i s1)) qs1) as Hq1.
  { cbn. apply qrep_ring; [|by rewrite !lookup_insert_ne]. apply qrep_ring; [|by rewrite lookup_insert_ne]. by apply qrep_raw. }
  destruct (qrep_qappend_raw _ qs1 Q_tpclients cl (Q_global c) Hq1) as (m2 & E2 & Q2).
  { unfold qs1. by rewrite !lookup_insert_ne. }
  { cbn. rewrite !lookup_insert_ne by done. rewrite lookup_insert_eq. eauto. }
  { intros h l [[<- <-]|[_ [[<- <-]|[_ Hl]]%lookup_insert_Some]]%lookup_insert_Some; [set_solver | set_solver | by apply Hout]. }
  assert (new_client i s = Done (c, set_qm m2 (with_client c i s1))) as Enew.
  { unfold new_client. rewrite (bind_run _ _ s s1 c) by (by apply alloc_struct_run).
    rewrite (proj2 (Z.eqb_neq c 0)) by (unfold c; lia). rewrite new_client_run by (unfold c; lia).
    unfold in_q, zoom, mbind, M_bind. by rewrite E2. }
  set (s2 := set_qm m2 (with_client c i s1)) in *. exists s2, (<[Q_tpclients := cl ++ [Q_global c]]> qs1). split; [done|].
  constructor; try done.
  - apply (wf_of_run dm (in_q (qappend_tail Q_tpclients (Q_global c))) (with_client c i s1) (Q_global c)).
    + apply new_client_wf; [by apply set_next_wf | done | cbn; unfold c; lia].
    + apply keeps_in_q, pres_qappend_tail.
    + unfold in_q, zoom. by rewrite E2.
  - apply (board_connected dm s s2 qs c i cl); try done.
    split; [done|]. destruct (qs !! Q_global c) as [l|] eqn:E; [|done]. by destruct (Hout _ l E); left.
  - apply lookup_insert_eq.
  - by left.
  - intros p l a ax Hl Hin Hax Hca. unfold qs1 in Hl. rewrite !lookup_insert_ne in Hl by done.
    destruct (bd_waiting _ _ _ _ _ B p l a Hl Hin) as (ax' & y & Hax' & Hy & _). cbn in Hax. congruence.
Qed.

Lemma accept_client_run s qs i :
  sb_wf dm s -> board dm 0 0 s qs -> fd_free i s ->
  wp (accept_client dm i) s (fun _ s' => consistent dm s').
Proof.
  intros Hwf B Hi. destruct (new_client_steady s qs i Hwf B Hi) as (s2 & qs2 & E & Hhd). pose proof Hhd as [Hwf2 B2 Hx2 Hi2 _ _].
  unfold accept_client. wp_step. eapply wp_of_eq; [exact E|]. apply (wp_wf dm); [done | apply keeps_svr_next_command|].
  eapply (wp_next_command dm s2 (next s)); [by eapply wf_nonzero; eauto | exact Hx2 | done | apply B2 |].
  intros s' Ht _ Hwf'. split; [done|]. eexists. by eapply told_board.
Qed.

End SteadyLoop.
