(* ===== verification/SteadyRun.v ===== *)
(** * The switchboard runs

    Whole passes of [Iowait], one after the other, from the start of the process: as long
    as the clients keep to the protocol, no pass faults and every pass ends in a consistent
    switchboard.  A pass accepts a connection, if there is one, and serves the clients that
    can be read, in the order of the list; serving a client may take it off the list. *)

From Stdlib Require Import ZArith Lia.
From S2P Require Import Prelude Constants ByteOrder CString SearchTree Queue Memory TpMemory Keeps.
From S2P Require Import SbState SbObjects SbHandlers SbLemmas TxIo Xatmi Dispatch EventLoop Registry Messages Replies.
From S2P Require Import Transactions Calls CallPath Advertising Session Invariant Frames ClientRing Board Pool BoardSteps BoardGrowth.
From S2P Require Import Deletion BoardCheck Leaving Steady SteadyReturn SteadyWork SteadyCall SteadyAdvertise SteadyLoop.

Local Open Scope Z_scope.

Section SteadyRun.
Context {T : Type} `{SearchTree T Z} (dm : data_model).
Implicit Types (s : sb T) (x : tpclient T) (qs : gmap qaddr (list qaddr)).

(** ** The list of the clients is apart *)

Lemma ring_neighbours (m : links) h l q v :
  is_queue m h l -> q ∈ h :: l -> m !! q = Some v -> p1 v ∈ h :: l /\ p2 v ∈ h :: l.
Proof.
  intros Hq Hin Hv. assert (prv m q = Some (p1 v) /\ nxt m q = Some (p2 v)) as [Ep En] by (unfold prv, nxt; by rewrite Hv).
  apply elem_of_cons in Hin as [->|Hin].
  - rewrite (is_queue_last _ _ _ Hq) in Ep. rewrite (is_queue_first _ _ _ Hq) in En. injection Ep as <-. injection En as <-.
    split; [apply last_elem | apply head_elem].
  - apply list_elem_of_split in Hin as (l1 & l2 & ->). destruct Hq as [[Hs1 Hs2]%seg_app _].
    rewrite (seg_prv _ _ _ _ Hs1) in Ep. rewrite (seg_nxt _ _ _ _ Hs2) in En. injection Ep as <-. injection En as <-.
    pose proof (last_elem l1 h). pose proof (head_elem l2 h). set_solver.
Qed.

(** Every link is on a list, or the head of one. *)
Lemma link_listed s qs q : board dm 0 0 s qs -> q_live s q -> exists h l, qs !! h = Some l /\ q ∈ h :: l.
Proof.
  intros B Hq. pose proof (bd_listed _ _ _ _ _ B) as [_ Hh Hn Hsp].
  assert (head_live s q -> exists h l, qs !! h = Some l /\ q ∈ h :: l) as H1.
  { intros [l Hl]%Hh. exists q, l. split; [done | by left]. }
  assert (node_live s q -> exists h l, qs !! h = Some l /\ q ∈ h :: l) as H2.
  { intros (h & l & Hl & Hin)%Hn. exists h, l. split; [done | by right]. }
  assert (spare_live s q -> exists h l, qs !! h = Some l /\ q ∈ h :: l) as H3.
  { intros [Hl|(h & l & Hl & Hin)]%Hsp; [exists q, []; split; [done | by left] | exists h, l; split; [done | by right]]. }
  destruct q; cbn in Hq; auto.
Qed.

Lemma fits_kind s h n : fits s h n -> other_link h <-> other_link n.
Proof. by destruct h, n. Qed.

Lemma board_links s qs : sb_wf dm s -> board dm 0 0 s qs -> apart_links (qm s).
Proof.
  intros Hwf B q v Ho Hv. assert (q_live s q) as Hl by (apply (wf_links _ _ Hwf); by eexists).
  destruct (link_listed s qs q B Hl) as (h & l & Hh & Hin).
  assert (forall n, n ∈ h :: l -> other_link h <-> other_link n) as Hk.
  { intros n [->|Hn]%elem_of_cons; [done|]. apply (fits_kind s). by apply (bd_lists _ _ (bd_listed _ _ _ _ _ B) h l). }
  destruct (ring_neighbours (qm s) h l q v (qr_queue _ _ (sn_queues _ _ (bd_sane _ _ _ _ _ B)) _ _ Hh) Hin Hv) as [H1 H2].
  assert (other_link h) as Hoh by (by apply (Hk q)). split; by apply Hk.
Qed.

(** ** Serving the clients *)

(** One client of the loop. *)
Definition serve_client (readfds : gset Z) (reads : Z -> read_result) (c : Z) : M (sb T) unit :=
  x ← get_client c;
  if bool_decide (fd x ∈ readfds) then iowait_client dm c (reads (fd x)) else mret tt.

(** What arrives from the clients [q] of the list is orderly, each in the state that
    serving the clients before it leaves. *)
Fixpoint orderly_clients (readfds : gset Z) (reads : Z -> read_result) (l : list qaddr) s : Prop :=
  match l with
  | [] => True
  | q :: l' =>
      match q with
      | Q_global c =>
          (forall x, clients s !! c = Some x -> fd x ∈ readfds -> orderly dm s c x (reads (fd x))) /\
          forall s', serve_client readfds reads c s = Done (tt, s') -> orderly_clients readfds reads l' s'
      | _ => True
      end
  end.

Lemma clients_links s qs l : board dm 0 0 s qs -> qs !! Q_tpclients = Some l -> Forall (fun q => ~ other_link q) l.
Proof.
  intros B Hl. apply Forall_forall. intros n Hn. pose proof (bd_lists _ _ (bd_listed _ _ _ _ _ B) _ _ _ Hl Hn) as Hf.
  intros Ho. by destruct n.
Qed.

(** The list that the links make is the one of the consistent state. *)
Lemma clients_listed s qs l :
  board dm 0 0 s qs -> is_queue (qm s) Q_tpclients l -> qs !! Q_tpclients = Some l.
Proof.
  intros B Hq. destruct (bd_heads _ _ (bd_listed _ _ _ _ _ B) Q_tpclients) as [l' Hl]; [done|].
  pose proof (qelements_queue _ _ _ Hq) as E.
  rewrite (qelements_queue _ _ _ (qr_queue _ _ (sn_queues _ _ (bd_sane _ _ _ _ _ B)) _ _ Hl)) in E. congruence.
Qed.

(** Serving a client leaves those that follow it where they are. *)
Lemma serve_client_run readfds reads s c l1 l2 :
  sound dm s -> is_queue (qm s) Q_tpclients (l1 ++ Q_global c :: l2) ->
  (forall x, clients s !! c = Some x -> fd x ∈ readfds -> orderly dm s c x (reads (fd x))) ->
  wp (serve_client readfds reads c) s (fun _ s' =>
    sound dm s' /\ exists l1', is_queue (qm s') Q_tpclients (l1' ++ l2)).
Proof.
  intros [[Hwf [qs B]] Hps] Hq Hor. pose proof (clients_listed s qs _ B Hq) as Hl.
  assert (is_Some (clients s !! c)) as [x Hx].
  { apply (bd_lists _ _ (bd_listed _ _ _ _ _ B) _ _ (Q_global c) Hl). set_solver. }
  unfold serve_client. wp_step. eapply wp_get_client; [by eapply wf_nonzero; eauto | exact Hx|]. case_bool_decide as Hfd.
  - pose proof (iowait_client_run dm s qs c x (reads (fd x)) Hps Hwf B Hx (Hor x Hx Hfd)) as Hrun.
    pose proof (served_iowait_client dm c (reads (fd x)) s) as Hring. unfold wp in *.
    destruct (iowait_client dm c (reads (fd x)) s) as [[[] s']|]; [|done]. split; [done|].
    destruct (Hring l1 l2) as [Hq'|Hq']; [by eapply board_links | | done | |].
    + pose proof (clients_links s qs _ B Hl) as Hf. rewrite Forall_app, Forall_cons in Hf. apply Forall_app. tauto.
    + exists (l1 ++ [Q_global c]). by rewrite <- app_assoc.
    + by exists l1.
  - wp_step. split; [by split; [split; [|exists qs]|]|]. exists (l1 ++ [Q_global c]). by rewrite <- app_assoc.
Qed.

Lemma wp_refold {A B} (m : M (sb T) A) (k : A -> M (sb T) unit) (r : M (sb T) B) s Q :
  wp ((m ≫= k) ;; r) s Q -> wp (x ← m; k x ;; r) s Q.
Proof. unfold wp, mbind, M_bind. by destruct (m s) as [[]|]. Qed.

(** The loop: [l2] is left of the list. *)
Lemma serve_clients_run fuel readfds reads l1 l2 s :
  (length l2 < fuel)%nat -> sound dm s -> is_queue (qm s) Q_tpclients (l1 ++ l2) ->
  orderly_clients readfds reads l2 s ->
  wp (serve_clients dm fuel readfds reads (default Q_tpclients (head l2))) s (fun _ s' => sound dm s').
Proof.
  revert l1 l2 s. induction fuel as [|fuel IH]; intros l1 l2 s Hf Hc Hq Hor; [lia|]. cbn [serve_clients].
  destruct l2 as [|q l2]; cbn [head default id].
  { rewrite bool_decide_true by done. by wp_step. }
  pose proof Hc as [[Hwf [qs B]] _]. pose proof (clients_listed s qs _ B Hq) as Hl.
  assert (fits s Q_tpclients q) as Hfit by (apply (bd_lists _ _ (bd_listed _ _ _ _ _ B) _ _ q Hl); set_solver).
  destruct q as [| | |c| | | | | | |]; try done. rewrite bool_decide_false by done.
  assert (QNEXT (Q_global c) (qm s) = Done (default Q_tpclients (head l2), qm s)) as En.
  { destruct Hq as [[_ Hs]%seg_app _]. unfold QNEXT, mbind, M_bind, gets, id. by rewrite (seg_nxt _ _ _ _ Hs). }
  wp_step. cbn [offset_global]. wp_step. wp_step. eapply wp_in_q_read; [exact En|].
  apply wp_refold. wp_step. destruct Hor as [Hnow Hlater].
  pose proof (serve_client_run readfds reads s c l1 l2 Hc Hq Hnow) as Hrun. unfold wp at 1 in Hrun. unfold wp at 1.
  change (get_client c ≫= _) with (serve_client readfds reads c).
  destruct (serve_client readfds reads c s) as [[[] s']|] eqn:E; [|done].
  destruct Hrun as (Hc' & l1' & Hq'). apply (IH l1'); [cbn in Hf; lia | done | done | by apply Hlater].
Qed.

(** ** A pass *)

(** The descriptors that [select] is given, and what is done with the master socket. *)
Definition watched (master : Z) : M (sb T) (gset Z) :=
  l ← in_q (qelements Q_tpclients); watch_clients l {[master]}.
Definition admitted (master : Z) (env : io_env) (readfds : gset Z) : M (sb T) unit :=
  if bool_decide (master ∈ readfds) then
    match io_accept env with None => mret tt | Some i => accept_client dm i end
  else mret tt.

(** What the system answers in a pass is orderly: the descriptor of a new connection is
    not in use, and what the clients send is orderly. *)
Definition orderly_pass (master : Z) (env : io_env) s : Prop :=
  forall fds readfds s1, watched master s = Done (fds, s) -> io_select env fds = Some readfds ->
    (master ∈ readfds -> forall i, io_accept env = Some i -> fd_free i s) /\
    (admitted master env readfds s = Done (tt, s1) ->
      orderly_clients readfds (io_read env) (qlist s1 Q_tpclients) s1).

Lemma watch_clients_run l fds s qs :
  sb_wf dm s -> board dm 0 0 s qs -> Forall (fits s Q_tpclients) l ->
  exists fds', watch_clients l fds s = Done (fds', s).
Proof.
  intros Hwf B Hl. revert fds. induction Hl as [|q l Hq _ IH]; intros fds; [by eexists|].
  destruct q as [| | |c| | | | | | |]; try done. destruct Hq as [x Hx]. destruct (IH ({[fd x]} ∪ fds)) as [fds' E].
  exists fds'. cbn [watch_clients offset_global]. rewrite (bind_run _ _ s s c) by done.
  rewrite (bind_run _ _ s s x) by (apply get_client_run; [by eapply wf_nonzero; eauto | done]). done.
Qed.

Lemma watched_run master s qs :
  sb_wf dm s -> board dm 0 0 s qs -> exists fds, watched master s = Done (fds, s).
Proof.
  intros Hwf B. destruct (bd_heads _ _ (bd_listed _ _ _ _ _ B) Q_tpclients) as [l Hl]; [done|].
  pose proof (qr_queue _ _ (sn_queues _ _ (bd_sane _ _ _ _ _ B)) _ _ Hl) as Hq.
  unfold watched. rewrite (bind_run _ _ s s l).
  - eapply watch_clients_run; [done | done |]. apply Forall_forall. intros n. by apply (bd_lists _ _ (bd_listed _ _ _ _ _ B)).
  - apply wp_eq. eapply wp_in_q_read; [by apply qelements_queue | done].
Qed.

Lemma Iowait_watched master env s :
  Iowait dm master env s = (fds ← watched master;
    match io_select env fds with
    | None => mret tt
    | Some readfds => admitted master env readfds ;;
        fuel ← queue_fuel; q ← in_q (QFIRST Q_tpclients); serve_clients dm fuel readfds (io_read env) q
    end) s.
Proof.
  unfold Iowait, watched, admitted, mbind, M_bind. by destruct (in_q (qelements Q_tpclients) s) as [[]|].
Qed.

Lemma admitted_run master env readfds s :
  sound dm s -> (master ∈ readfds -> forall i, io_accept env = Some i -> fd_free i s) ->
  wp (admitted master env readfds) s (fun _ s' => sound dm s').
Proof.
  intros Hc Hi. unfold admitted. case_bool_decide; [|by wp_step]. destruct (io_accept env) as [i|]; [|by wp_step].
  destruct Hc as [[Hwf [qs B]] Hps]. apply (wp_pool _ _ (fun _ s' => consistent dm s')); [done | apply pool_accept_client|].
  apply (accept_client_run dm s qs); auto.
Qed.

Lemma Iowait_run master env s :
  sound dm s -> orderly_pass master env s -> wp (Iowait dm master env) s (fun _ s' => sound dm s').
Proof.
  intros Hc Hor. pose proof Hc as [[Hwf [qs B]] _]. destruct (watched_run master s qs Hwf B) as [fds E].
  unfold wp. rewrite Iowait_watched, (bind_run _ _ _ _ _ E). destruct (io_select env fds) as [readfds|] eqn:Es; [|done].
  pose proof (admitted_run master env readfds s Hc (fun Hm => proj1 (Hor fds readfds s E Es) Hm)) as Ha.
  unfold wp in Ha. destruct (admitted master env readfds s) as [[[] s1]|] eqn:E1; [|done].
  rewrite (bind_run _ _ _ _ _ E1). destruct (Hor fds readfds s1 E Es) as [_ Hcl]. specialize (Hcl E1).
  pose proof Ha as [[_ [qs1 B1]] _]. destruct (bd_heads _ _ (bd_listed _ _ _ _ _ B1) Q_tpclients) as [l Hl]; [done|].
  rewrite (qlist_eq s1 qs1 _ l (bd_sane _ _ _ _ _ B1) Hl) in Hcl.
  pose proof (qr_queue _ _ (sn_queues _ _ (bd_sane _ _ _ _ _ B1)) _ _ Hl) as Hq.
  pose proof (is_queue_size _ _ _ Hq) as Hsize.
  change (wp (fuel ← queue_fuel; q ← in_q (QFIRST Q_tpclients); serve_clients dm fuel readfds (io_read env) q) s1
    (fun _ s' => sound dm s')).
  wp_step. unfold queue_fuel. wp_steps. eapply wp_in_q_read.
  { unfold QFIRST, QNEXT, mbind, M_bind, gets. cbn [id]. by rewrite (is_queue_first _ _ _ Hq). }
  apply (serve_clients_run _ readfds (io_read env) [] l s1); [lia | done | done | done].
Qed.

(** ** From the start *)

Definition no_lists : gmap qaddr (list qaddr) := <[Q_tpclients := []]> (<[Q_tptransactions := []]> ∅).

Lemma no_lists_only h l : no_lists !! h = Some l -> l = [] /\ (h = Q_tpclients \/ h = Q_tptransactions).
Proof. unfold no_lists. intros [[<- <-]|[_ [[<- <-]|[_ E]]%lookup_insert_Some]]%lookup_insert_Some; [auto | auto | done]. Qed.

Lemma init_consistent junk_byte oob batches fuel clk :
  in_short oob -> consistent dm (sb_init junk_byte [] oob batches fuel clk).
Proof.
  intros Ho. pose proof (sb_init_wf dm junk_byte [] oob batches fuel clk Ho) as Hwf. split; [done|]. exists no_lists.
  assert (forall t tx, trans (sb_init (T := T) junk_byte [] oob batches fuel clk) !! t = Some tx -> t = GLOBAL_ANY) as Ht.
  { intros t tx. cbn. intros [[<- _]|[_ E]]%lookup_insert_Some; [done | by rewrite lookup_empty in E]. }
  constructor; try (intros; cbn in *; rewrite lookup_empty in *; done).
  - split; [|apply (wf_heap _ _ Hwf) | done]. apply qrep_ring; [apply qrep_ring; [by split | done]|done].
  - apply lookup_insert_eq.
  - constructor.
    + intros h l n [-> _]%no_lists_only Hn. by apply not_elem_of_nil in Hn.
    + intros h Hh. destruct h; cbn in Hh; try (rewrite lookup_empty in Hh; by destruct Hh); try done; by eexists.
    + intros n Hn. destruct n; cbn in Hn; try done; [by destruct Hn as [? ?]| |]; destruct Hn as [? [tx E%Ht]]; unfold GLOBAL_ANY in *; lia.
    + intros n Hn. destruct n; cbn in Hn; try done; [by destruct Hn as [? ?]|]; destruct Hn as [? [tx E%Ht]]; unfold GLOBAL_ANY in *; lia.
  - intros t tx E%Ht Hp. unfold GLOBAL_ANY in *. lia.
  - done.
  - split; [split; [|apply tordered_empty]|]; cbn; intros p; rewrite ?twalk_empty, ?lookup_empty; [by intros ?%not_elem_of_nil | by intros []].
  - intros p l a [-> _]%no_lists_only Hn. by apply not_elem_of_nil in Hn.
  - constructor; try (intros; cbn in *; rewrite lookup_empty in *; done).
    intros t1 tx1 t2 tx2 Hp _ E%Ht. unfold GLOBAL_ANY in *. lia.
Qed.

(** Nothing behind the array of descriptors looks like a descriptor. *)
Lemma init_sound junk_byte batches fuel clk : sound dm (sb_init junk_byte [] 0 batches fuel clk).
Proof.
  split; [by apply init_consistent|]. split; [|by apply NoDup_nil_2|].
  - split_and!; [done | cbn; unfold NUM_FREE_CD; lia | done].
  - intros t tx _. apply not_elem_of_nil.
Qed.

(** The states between the passes, when memory is not exhausted and the clients keep to
    the protocol. *)
Inductive disciplined (master : Z) : sb T -> Prop :=
  | disciplined_start junk_byte batches fuel clk : disciplined master (sb_init junk_byte [] 0 batches fuel clk)
  | disciplined_pass env s s' :
      disciplined master s -> orderly_pass master env s -> Iowait dm master env s = Done (tt, s') -> disciplined master s'.

Lemma disciplined_sound master s : disciplined master s -> sound dm s.
Proof.
  induction 1 as [|env s s' _ IH Hor E]; [by apply init_sound|].
  pose proof (Iowait_run master env s IH Hor) as Hw. unfold wp in Hw. by rewrite E in Hw.
Qed.

(** ** Properties *)

(** C1. The switchboard does not go down as long as its clients keep to the protocol:
    from the start of the process, through any number of passes of the event loop in each
    of which any connections, any disconnections and any bytes of any clients arrive in
    pieces of any size, the next such pass ends without a fault and without running
    forever, and every state between passes is consistent (lists, trees, structs, buffers
    and the calls that clients wait for and execute fit together, and no descriptor that
    the pool may give out is in use).  What the protocol asks is [orderly_pass]: a complete
    message is [proper] in the state in which it arrives, and nobody leaves while another
    is sending data that goes with it.  Memory is not exhausted, and for each call that
    arrives a descriptor is left ([descriptor_left]): the pool has one, or the next batch of
    random numbers has no duplicates and one that is free, and what is behind the array of
    descriptors is zero. *)
Theorem event_loop_safe master s :
  disciplined master s ->
  (exists qs, board dm 0 0 s qs) /\ pool_sound s /\
  forall env, orderly_pass master env s ->
    exists s', Iowait dm master env s = Done (tt, s') /\ disciplined master s'.
Proof.
  intros Hd. pose proof (disciplined_sound master s Hd) as [[Hwf HB] Hps]. split_and!; [done | done |]. intros env Hor.
  pose proof (Iowait_run master env s (conj (conj Hwf HB) Hps) Hor) as Hw. unfold wp in Hw.
  destruct (Iowait dm master env s) as [[[] s']|] eqn:E; [|done]. exists s'. split; [done|].
  by eapply disciplined_pass.
Qed.

End SteadyRun.
