(* ===== verification/SteadyCheck.v ===== *)
(** * Checking the discipline by evaluation

    Decidable forms of what [orderly_pass] asks, and a run of the event loop that checks
    each pass before it makes it.  It shows of the sample session of [Session.v], from the
    start of the process to the end of both connections, that its clients keep to the
    protocol. *)

From Stdlib Require Import ZArith Lia.
From S2P Require Import Prelude Constants ByteOrder CString SearchTree Queue Memory TpMemory Keeps.
From S2P Require Import SbState SbObjects SbHandlers SbLemmas TxIo Xatmi Dispatch EventLoop Registry Messages Replies.
From S2P Require Import Transactions Calls CallPath Advertising Session Invariant Frames ClientRing Board Pool BoardSteps BoardGrowth.
From S2P Require Import Deletion BoardCheck Leaving Steady SteadyReturn SteadyWork SteadyCall SteadyAdvertise SteadyLoop SteadyRun.

Local Open Scope Z_scope.

Section Check.
Context (dm : data_model).
Implicit Types (s : sb (bst Z)) (x : tpclient (bst Z)).

(** ** Messages *)

(** Nobody else sends data. *)
Definition calm_checked (c : Z) s : Prop :=
  map_Forall (fun c1 x1 => c1 = c \/ map_Forall (fun t tx => 0 < t -> t_data tx <> input x1) (trans s)) (clients s).
Lemma calm_ok c s : calm_checked c s -> calm c s.
Proof. intros Hm c1 x1 t tx Hne Hx1 _ Hp Htx Hd. destruct (Hm c1 x1 Hx1) as [?|Hn]; [done|]. by destruct (Hn t tx Htx Hp). Qed.

(** The first request that waits for the service of an advertisement is new. *)
Definition new_request_checked s (a : Z) : Prop :=
  match advs s !! a with
  | Some ax =>
      match qlist s (Q_waitq (a_svc ax)) with
      | Q_t_svc_waitq t :: _ => on (trans s !! t) (fun tx => executor tx = 0 /\ Q_t_clientq t ∈ qlist s (Q_requests (t_client tx)))
      | _ => True
      end
  | None => True
  end.
#[local] Instance new_request_dec s a : Decision (new_request_checked s a).
Proof. unfold new_request_checked. destruct (advs s !! a); [|apply _]. destruct (qlist _ _) as [|[] ?]; apply _. Defined.

Definition work_checked s x : Prop := wait4 x = 0 /\ Forall (new_request_checked s) (bst_walk (adverts x)).
Lemma work_ok s x : work_checked s x -> may_work s x.
Proof.
  intros [Hw Hf]. split; [done|]. intros a ax t l Hin Hax Hl. rewrite Forall_forall in Hf.
  specialize (Hf a Hin). unfold new_request_checked in Hf. rewrite Hax, Hl in Hf. by destruct Hf as (tx & Htx & He & Hq); exists tx.
Qed.

(** ** Descriptors *)

Definition listed_trans s : list Z :=
  omap (fun q => match q with Q_t_global t => Some t | _ => None end) (qlist s Q_tptransactions).
Definition descriptor_checked s : Prop :=
  let live := live_cds s (listed_trans s) in
  let rest := nonzero (drop (cdp s) (free_cd s)) in
  qlist s Q_tptransactions = Q_t_global <$> listed_trans s /\
  (rest <> [] \/ NoDup (nonzero (batch s (rand_k s))) /\ Exists (fun v => v ∉ live) (nonzero (batch s (rand_k s)))) /\
  (CD_FUEL <= cd_fuel s)%nat.
Lemma descriptor_ok s : descriptor_checked s -> descriptor_left s.
Proof.
  intros (El & Hb & Hf). exists (listed_trans s). split_and!; try done.
  destruct Hb as [?|[Hn (v & Hv & Hl)%Exists_exists]]; [by left | right]. split; [done | by exists v].
Qed.

Definition call_checked s (bs : list byte) : Prop :=
  0 <= swrap 32 (le_decode (take 4 (drop XATMI_SERVICE_NAME_LENGTH bs))) /\ descriptor_checked s.
Lemma call_ok s bs : call_checked s bs -> may_call s bs.
Proof.
  intros [Hl Hd] name len flags svc -> Hn Hr _. split; [|by apply descriptor_ok]. revert Hl. unfold call_message.
  rewrite drop_app_length' by done. rewrite take_app_length' by (by rewrite length_le_encode).
  rewrite le_decode_encode. change (256 ^ Z.of_nat 4) with (2 ^ 32). by rewrite swrap_mod, swrap_id.
Qed.

Definition proper_checked s (c : Z) x (h : handler) (bs : list byte) : Prop :=
  match h with
  | H_command =>
      match commands !! Z.to_nat (b2z (nth 0 bs x00)) with
      | Some (H_svrservice, _) => work_checked s x
      | Some _ => True
      | None => calm_checked c s
      end
  | H_svracall => call_checked s bs
  | H_svrgetrply => wait4 x = 0
  | H_svrunadvertise => False
  | H_svrservice => work_checked s x
  | H_svrreturn => works_checked s c (wait4 x) /\ 0 <= swrap 32 (le_decode (drop 5 bs))
  | H_svradvertise | H_send_to_worker | H_part2 => True
  end.
Lemma proper_ok s c x h bs : proper_checked s c x h bs -> proper s c x h bs.
Proof.
  destruct h; cbn; try done.
  - destruct (commands !! _) as [[[]]|]; try done; [apply work_ok | apply calm_ok].
  - apply call_ok.
  - apply work_ok.
  - intros [Hw Hl]. split; [by apply works_ok | done].
Qed.

(** ** Input *)

#[local] Instance proper_dec s c x h bs : Decision (proper_checked s c x h bs).
Proof.
  unfold proper_checked, work_checked, call_checked, descriptor_checked, works_checked, calm_checked.
  destruct h; try apply _. destruct (commands !! _) as [[[]]|]; apply _.
Defined.

Definition orderly_checked s (c : Z) x (r : read_result) : Prop :=
  match handler_fn x, r with
  | Some h, ReadBytes (b :: bs) =>
      match tplen dm (input x) (mem s) with
      | Done (len, _) =>
          let all := take (Z.to_nat (used x)) (tpdata (tp_heap (mem s)) (input x) len) ++ b :: bs in
          len <= Z.of_nat (length all) -> proper_checked s c x h (take (Z.to_nat len) all)
      | Fault _ => True
      end
  | _, _ => calm_checked c s
  end.
#[local] Instance orderly_dec s c x r : Decision (orderly_checked s c x r).
Proof.
  unfold orderly_checked, calm_checked. destruct (handler_fn x), r as [|[]]; try apply _.
  destruct (tplen _ _ _) as [[]|]; apply _.
Defined.
Lemma orderly_ok s c x r : orderly_checked s c x r -> orderly dm s c x r.
Proof.
  unfold orderly_checked, orderly. destruct (handler_fn x) as [h|], r as [|[|b bs]]; try apply calm_ok.
  intros Ho len Hb Hl. rewrite (tplen_buf dm _ _ _ Hb) in Ho. by apply proper_ok, Ho.
Qed.

(** ** Passes *)

Fixpoint clients_check (readfds : gset Z) (reads : Z -> read_result) (l : list qaddr) s : bool :=
  match l with
  | Q_global c :: l' =>
      match clients s !! c with
      | Some x => if bool_decide (fd x ∈ readfds) then bool_decide (orderly_checked s c x (reads (fd x))) else true
      | None => true
      end &&
      match serve_client dm readfds reads c s with Done (_, s') => clients_check readfds reads l' s' | Fault _ => true end
  | _ => true
  end.
Lemma clients_check_ok readfds reads l s : clients_check readfds reads l s = true -> orderly_clients dm readfds reads l s.
Proof.
  revert s. induction l as [|q l IH]; intros s; [done|]. destruct q as [| | |c| | | | | | |]; try done. cbn.
  intros [Hx Hl]%andb_true_iff. split.
  - intros x E Hin. rewrite E, bool_decide_true in Hx by done. by apply orderly_ok, (bool_decide_eq_true _).
  - intros s' E. rewrite E in Hl. by apply IH.
Qed.

Definition pass_check (master : Z) (env : io_env) s : bool :=
  match watched master s with
  | Done (fds, _) =>
      match io_select env fds with
      | Some readfds =>
          match io_accept env with
          | Some i => bool_decide (map_Forall (fun _ x => fd x <> i) (clients s))
          | None => true
          end &&
          match admitted dm master env readfds s with
          | Done (_, s1) => clients_check readfds (io_read env) (qlist s1 Q_tpclients) s1
          | Fault _ => true
          end
      | None => true
      end
  | Fault _ => true
  end.
Lemma pass_check_ok master env s : pass_check master env s = true -> orderly_pass dm master env s.
Proof.
  unfold pass_check. intros Hp fds readfds s1 Ew Es. rewrite Ew, Es in Hp. apply andb_true_iff in Hp as [Hi Ha]. split.
  - intros _ i E. rewrite E in Hi. by apply bool_decide_eq_true in Hi.
  - intros E. rewrite E in Ha. by apply clients_check_ok.
Qed.

(** The event loop for a list of answers of the system, every pass checked. *)
Fixpoint run_check (master : Z) (envs : list io_env) s : option (sb (bst Z)) :=
  match envs with
  | [] => Some s
  | env :: envs' =>
      if pass_check master env s then
        match Iowait dm master env s with Done (_, s') => run_check master envs' s' | Fault _ => None end
      else None
  end.
Lemma run_check_ok master envs s s' :
  disciplined dm master s -> run_check master envs s = Some s' -> disciplined dm master s'.
Proof.
  revert s. induction envs as [|env envs IH]; intros s Hd; cbn; [by intros [= <-]|].
  destruct (pass_check master env s) eqn:Ep; [|done]. destruct (Iowait dm master env s) as [[[] s1]|] eqn:E; [|done].
  apply IH. eapply disciplined_pass; [done | by apply pass_check_ok | done].
Qed.

End Check.

(** ** The sample session *)

Definition connects (i : Z) : io_env := mkIoEnv (fun _ => Some {[master]}) (Some i) (fun _ => ReadError).
Definition sends (f : Z) (bs : list byte) : io_env := mkIoEnv (fun _ => Some {[f]}) None (fun _ => ReadBytes bs).
(** Two messages at once. *)
Definition send (f1 : Z) (bs1 : list byte) (f2 : Z) (bs2 : list byte) : io_env :=
  mkIoEnv (fun _ => Some {[f1; f2]}) None (fun f => ReadBytes (if f =? f1 then bs1 else bs2)).

(** A worker, at the descriptor 4, and a caller, at 5: the worker advertises while the
    caller connects, the first bytes of the request for work and of the call come in one
    pass, and the caller asks for the reply before the worker returns, in pieces. *)
Definition sample_run : list io_env :=
  [connects 4; sends 4 (take 1 adv_bytes); connects 5; sends 4 (drop 1 adv_bytes);
   send 4 [z2b TPTWORK] 5 (take 1 call_bytes); sends 5 (take 23 (drop 1 call_bytes)); sends 5 (take 2 (drop 24 call_bytes));
   sends 5 (drop 26 call_bytes); sends 5 (take 1 grply_bytes); send 5 (drop 1 grply_bytes) 4 (take 1 ret_bytes);
   sends 4 (take 9 (drop 1 ret_bytes)); sends 4 (drop 10 ret_bytes)].

Definition served : sb (bst Z) := default start (run_check LP64 master sample_run start).

Lemma served_disciplined : disciplined LP64 master served.
Proof.
  apply (run_check_ok LP64 master sample_run start); [by apply disciplined_start|]. vm_compute. reflexivity.
Qed.

(** The caller has its reply; then both leave in one pass. *)
Lemma event_loop_safe_witness :
  stream 5 served = Session.received 5 /\
  exists s', Iowait LP64 master (send 5 [] 4 []) served = Done (tt, s') /\ disciplined LP64 master s'.
Proof.
  split; [vm_compute; reflexivity|].
  apply (event_loop_safe LP64 master served served_disciplined). apply pass_check_ok. vm_compute. reflexivity.
Defined.
