(* ===== verification/RoundTrip.v ===== *)
(** * A call and its reply

    The whole way of a [tpcall]: the caller's messages, the worker's, and the
    switchboard between them, from any consistent switchboard in which a worker waits
    for the service.  [CallPath.v] and [ReturnPath.v] have the two halves from states
    that are described link by link; here consistency provides these descriptions, the
    halves are put together with the message of [tpgetrply], which may arrive before or
    after the worker's result, and with the library routines at both ends. *)

From Stdlib Require Import ZArith Lia.
From S2P Require Import Prelude Constants ByteOrder CString SearchTree Queue Memory TpMemory Keeps.
From S2P Require Import SbState SbObjects SbHandlers SbLemmas TxIo Xatmi Dispatch EventLoop Registry Messages Replies.
From S2P Require Import Transactions Calls CallPath ReturnPath Advertising Invariant Frames Board Pool BoardSteps BoardGrowth.
From S2P Require Import Deletion Leaving Steady SteadyReturn SteadyWork SteadyCall SteadyAdvertise SteadyLoop.

Local Open Scope Z_scope.

Section RoundTrip.
Context {T : Type} `{SearchTree T Z} (dm : data_model).
Implicit Types (s : sb T) (x cl : tpclient T) (tx : tptransaction) (qs : gmap qaddr (list qaddr)) (name : list byte).

(** What is known of the end of a computation can be used for more. *)
Lemma wp_given {A} (m : M (sb T) A) s (P : sb T -> Prop) Q :
  wp m s (fun _ s' => P s') -> wp m s (fun a s' => P s' -> Q a s') -> wp m s Q.
Proof. unfold wp. destruct (m s) as [[]|]; auto. Qed.

(** ** Messages that arrive whole *)

(** A client that is about to send a command. *)
Definition commanding s (c : Z) x : Prop := clients s !! c = Some x /\ handler_fn x = Some H_command /\ used x = 0.

Lemma sound_nonzero s c x : sound dm s -> clients s !! c = Some x -> c <> 0.
Proof. intros [[Hwf _] _] Hx. eapply wf_nonzero; [done | by exists x]. Qed.

Lemma commanding_expects s c x : sound dm s -> commanding s c x -> expects dm s x H_command 1.
Proof.
  intros Hs (Hx & Hh & Hu). pose proof (sound_nonzero s c x Hs Hx) as Hc. destruct Hs as [[_ [qs B]] _].
  destruct (bd_clients _ _ _ _ _ B c x Hx) as (_ & _ & _ & Hio). destruct (Hio Hc _ Hh) as ((len & Hb & _ & ->) & _). done.
Qed.

Lemma orderly_whole s c x h bs :
  expects dm s x h (length bs) -> bs <> [] -> proper s c x h bs -> orderly dm s c x (ReadBytes bs).
Proof.
  intros (Hh & Hu & Hb) Hne Hp. unfold orderly. rewrite Hh. destruct bs as [|b bs]; [done|].
  intros len Hb'. rewrite Hu. cbn [Z.to_nat take app]. intros Hl.
  rewrite (tpbuf_len dm _ _ _ _ Hb' Hb), Nat2Z.id, take_ge by done. done.
Qed.

(** A whole message that is proper keeps the switchboard sound, besides what else it does. *)
Lemma wp_whole s c x h bs Q :
  sound dm s -> clients s !! c = Some x -> expects dm s x h (length bs) -> bs <> [] -> proper s c x h bs ->
  wp (iowait_client dm c (ReadBytes bs)) s (fun a s' => sound dm s' -> Q a s') ->
  wp (iowait_client dm c (ReadBytes bs)) s Q.
Proof.
  intros [[Hwf [qs B]] Hps] Hx He Hne Hp Hw. eapply wp_given; [|exact Hw].
  eapply iowait_client_run; [done | done | done | done | by eapply orderly_whole].
Qed.

(** The first byte of a message that has more. *)
Lemma wp_first s c x b h n Q :
  sound dm s -> commanding s c x -> commands !! Z.to_nat (b2z b) = Some (h, n) -> n <> 0%nat ->
  (forall p m, let s1 := set_clients (<[c := set_io 0 p (Some h) x]> (clients s)) (set_mem m s) in
    sound dm s1 -> clients s1 !! c = Some (set_io 0 p (Some h) x) -> expects dm s1 (set_io 0 p (Some h) x) h n ->
    same_buffers (tp_heap (mem s)) (tp_heap m) (pblk (input x)) ->
    (forall k, is_Some (blocks (tp_heap (mem s)) !! k) -> k <> pblk p) -> Q tt s1) ->
  wp (iowait_client dm c (ReadBytes [b])) s Q.
Proof.
  intros Hs Hx Hcmd Hn HQ. pose proof (commanding_expects s c x Hs Hx) as He. pose proof Hs as [[_ [qs B]] _].
  apply (wp_whole s c x H_command [b]); [done | apply Hx | exact He | done | |].
  - cbn. rewrite Hcmd. destruct h; try done. apply list_elem_of_lookup_2 in Hcmd. unfold commands in Hcmd. set_solver.
  - eapply (wp_first_byte dm s c x b h n qs); [by eapply sound_nonzero; [|apply Hx] | apply Hx | exact He | apply B | done | done |].
    intros p m Hp _ Hsame Hfresh Hs'. apply HQ; try done. apply lookup_insert_eq.
Qed.

(** ** The call *)

(** A worker waits first for the service of that name. *)
Definition served_by s name (svc a : Z) (sv : SbState.tpservice) (ax : tpadvertisement) wx : Prop :=
  registered s name svc /\ svcs s !! svc = Some sv /\
  (exists l, qlist s (Q_waitq svc) = Q_adv_waitq a :: l) /\
  advs s !! a = Some ax /\ clients s !! a_client ax = Some wx.

Definition legal_call name (flags : Z) (d : list byte) : Prop :=
  length name = XATMI_SERVICE_NAME_LENGTH /\ - 2 ^ 31 <= flags < 2 ^ 31 /\ Z.of_nat (length d) < 2 ^ 31.

Lemma adverts_all_ok s qs c x : sb_wf dm s -> board dm 0 0 s qs -> clients s !! c = Some x -> adverts_ok s x qs.
Proof.
  intros Hwf B Hx a Ha. destruct (bd_clients _ _ _ _ _ B c x Hx) as (_ & Hown & _).
  pose proof (Hown a Ha) as (ax & Hax & _)%fmap_Some. split_and!.
  - apply (wf_advs _ _ Hwf) in Hax as [? _]. lia.
  - by exists ax.
  - apply (bd_spares _ _ (bd_listed _ _ _ _ _ B)). by exists ax.
Qed.

(** What [wp_call_arrives] asks for. *)
Lemma served_worker s qs c x name svc a sv ax wx :
  sb_wf dm s -> board dm 0 0 s qs -> clients s !! c = Some x -> handler_fn x <> None -> served_by s name svc a sv ax wx ->
  wait_contains_transactions sv = false /\ wait4 wx = 0 /\ fd x <> fd wx /\
  exists l, waiting_worker s qs c (a_client ax) a wx ax /\ qs !! Q_waitq svc = Some (Q_adv_waitq a :: l).
Proof.
  intros Hwf B Hx Hh (Hreg & Hsv & (l & Hl) & Hax & Hwx).
  destruct (bd_heads _ _ (bd_listed _ _ _ _ _ B) (Q_waitq svc)) as [l0 Hl0]; [by exists sv|].
  rewrite (qlist_eq s qs _ l0 (bd_sane _ _ _ _ _ B) Hl0) in Hl. subst l0.
  destruct (bd_lists _ _ (bd_listed _ _ _ _ _ B) _ _ (Q_adv_waitq a) Hl0 ltac:(by left)) as [Ea Ew].
  destruct (bd_waiting _ _ _ _ _ B _ _ a Hl0 ltac:(by left)) as (ax' & wx' & Hax' & Hwx' & Hi & Hw).
  assert (ax' = ax) as -> by congruence. assert (wx' = wx) as -> by congruence.
  rewrite Hsv in Ew. injection Ew as Ew. rewrite Hax in Ea. injection Ea as Ea.
  assert (a_client ax <> c) as Hne by (intros E; destruct Hi as [Hi _]; congruence).
  destruct (wf_advs _ _ Hwf a ax Hax) as [Ha0 (Hc0 & Hs0 & _)].
  split_and!; [done | done | intros E; apply Hne; symmetry; by eapply (wf_fds _ _ Hwf) |]. exists l. split; [|done].
  split; [split_and!; [lia | done | done | done]|]. split_and!; try done. by eapply adverts_all_ok.
Qed.

Lemma accepting s qs c x :
  sound dm s -> board dm 0 0 s qs -> clients s !! c = Some x -> descriptor_left s ->
  exists ts rl, can_accept s qs c ts rl /\ forall t tx, trans s !! t = Some tx -> t ∈ ts \/ cd tx = 0.
Proof.
  intros [[Hwf _] Hps] B Hx (ts & Hts & Hsome & Hfuel).
  destruct (bd_heads _ _ (bd_listed _ _ _ _ _ B) Q_tptransactions I) as [tl Htl].
  rewrite (qlist_eq s qs _ tl (bd_sane _ _ _ _ _ B) Htl) in Hts. rewrite Hts in Htl.
  destruct (board_accepts dm s qs c x ts Hwf B Hx Htl) as [rl Hcan]; [|done|done|].
  { apply pool_sound_ok; [done|]. intros t Ht.
    by destruct (bd_lists _ _ (bd_listed _ _ _ _ _ B) _ _ (Q_t_global t) Htl (list_elem_of_fmap_2 _ _ _ Ht)). }
  exists ts, rl. split; [done|]. by apply (trans_listed dm s qs).
Qed.

Lemma call_message_length name len flags name' len' flags' :
  length name = XATMI_SERVICE_NAME_LENGTH -> length name' = XATMI_SERVICE_NAME_LENGTH ->
  - 2 ^ 31 <= len < 2 ^ 31 -> - 2 ^ 31 <= len' < 2 ^ 31 ->
  call_message name len flags = call_message name' len' flags' -> len' = len.
Proof.
  unfold call_message. intros Hn Hn' Hl Hl' E. apply app_inj_1 in E as [_ E]; [|congruence].
  apply app_inj_1 in E as [E _]; [|by rewrite !length_le_encode].
  apply (f_equal le_decode) in E. rewrite !le_decode_encode in E. change (256 ^ Z.of_nat 4) with (2 ^ 32) in E.
  apply (f_equal (swrap 32)) in E. rewrite !swrap_mod, !(swrap_id 32) in E by lia. done.
Qed.

Section Call.
Context (s : sb T) (c svc a : Z) (x wx : tpclient T) (sv : SbState.tpservice) (ax : tpadvertisement)
  (name d : list byte) (flags : Z).
Hypothesis state_sound : sound dm s.
Hypothesis caller : commanding s c x /\ wait4 x = 0.
Hypothesis service : served_by s name svc a sv ax wx.
Hypothesis room : descriptor_left s.
Hypothesis call : legal_call name flags d.

(** What has happened when the call has arrived; [t] is its transaction and [v] its descriptor. *)
Record called s1 (t v : Z) : Prop := {
  ca_sound : sound dm s1;
  ca_cd : v <> 0 /\ forall t' tx, trans s !! t' = Some tx -> cd tx <> v;
  ca_caller : stream (fd x) s1 = stream (fd x) s ++ accepted_bytes v;
  ca_worker : stream (fd wx) s1 = stream (fd wx) s ++
    work_message (a_opaque ax) (svcname sv) (Z.of_nat (length d)) flags v d;
  ca_others f : f <> fd x -> f <> fd wx -> stream f s1 = stream f s;
  ca_clients : exists p wp, clients s1 = <[a_client ax := set_io 0 wp (Some H_command) (set_wait4 t wx)]>
    (<[c := set_io 0 p (Some H_command) x]> (clients s));
  ca_trans : trans s !! t = None /\ 0 < t /\ exists now p, trans s1 = <[t := mkTrans c svc now a v p 0 0 flags]> (trans s);
  ca_advs : advs s1 = advs s;
}.

Lemma call_header_sound :
  wp (iowait_client dm c (ReadBytes [z2b TPTCALL]) ;;
      iowait_client dm c (ReadBytes (call_message name (Z.of_nat (length d)) flags))) s (fun _ s' => sound dm s').
Proof.
  destruct call as (Hn & Hf & Hl), caller as [Hx _].
  assert (length (call_message name (Z.of_nat (length d)) flags) = 23%nat) as H23
    by (unfold call_message; rewrite !length_app, !length_le_encode, Hn; done).
  wp_step. eapply (wp_first s c x _ H_svracall 23); [done | done | done | done |]. intros p m s1 Hs1 Hx1 He1 _ _.
  pose proof Hs1 as [[Hwf1 [qs1 B1]] Hps1]. eapply iowait_client_run; [done | done | exact B1 | exact Hx1 |].
  eapply orderly_whole; [by rewrite H23 | by intros E; rewrite E in H23 |]. intros name' len' flags' svc' E Hn' Hl' _.
  rewrite (call_message_length name (Z.of_nat (length d)) flags name' len' flags') by (done || lia). split; [lia|].
  exact room.
Qed.

Lemma wp_called : wp (call_arrives dm c name flags d) s (fun _ s1 => exists v, called s1 (next s) v).
Proof.
  pose proof state_sound as [[Hwf [qs B]] Hps]. destruct caller as [Hx Hw0], call as (Hn & Hf & Hl).
  pose proof (proj1 Hx) as Hxc. pose proof (sound_nonzero s c x state_sound Hxc) as Hc.
  destruct (served_worker s qs c x name svc a sv ax wx Hwf B Hxc ltac:(by rewrite (proj1 (proj2 Hx))) service)
    as (Hwct & _ & Hfd & l & Hww & Hwq).
  destruct (accepting s qs c x state_sound B Hxc room) as (ts & rl & Hcan & Hlive).
  pose proof (commanding_expects s c x state_sound Hx) as He.
  assert (registered s name svc /\ svcs s !! svc = Some sv /\ wait_contains_transactions sv = false) as Hsvc
    by (destruct service as (? & ? & _); done).
  assert (wp (call_arrives dm c name flags d) s (fun _ s1 => sound dm s1)) as Hsound.
  { apply wp_three. eapply wp_given; [exact call_header_sound|].
    eapply (wp_call_header dm s qs c svc a (a_client ax) x wx sv ax ts rl l name d flags); try done; [apply B | apply B | |].
    - cbv zeta. intros p m m2 v dp s3 A Hpos Hs4. set (s4 := set_clients _ s3) in *.
      replace (match d with [] => _ | _ => _ end) with (iowait_client (T := T) dm c (ReadBytes d)) by (by destruct d).
      pose proof Hs4 as [[Hwf4 [qs4 B4]] Hps4]. eapply iowait_client_run; [done | done | exact B4 | apply lookup_insert_eq |].
      eapply (orderly_whole _ _ _ H_send_to_worker); [|by destruct d|done]. split_and!; [done | done | apply A].
    - intros s' Hl0 _ Hs'. destruct d; [done | cbn in Hl0; lia]. }
  eapply wp_given; [exact Hsound|]. eapply wp_mono.
  { by eapply (wp_call_arrives dm s qs c svc a (a_client ax) x wx sv ax ts rl l name d flags); try done; apply B. }
  intros [] s1 (v & V1 & V2 & S1 & S2 & (p & wp & Ec & _) & (now & dp & Et) & S3 & _ & Ea) Hs1. exists v. split; try done.
  - split; [done|]. intros t tx Htx E. destruct (Hlive t tx Htx) as [Ht|E0]; [|congruence].
    apply V2, list_elem_of_fmap. exists t. rewrite Htx. by rewrite <- E.
  - by exists p, wp.
  - split_and!; [|apply Hwf | by exists now, dp].
    destruct (trans s !! next s) eqn:E; [|done]. apply (wf_trans _ _ Hwf) in E as [? _]. lia.
Qed.

End Call.

(** ** The result *)

(** The worker [w] executes the transaction [t] of the client [c]. *)
Record in_service s (c w t : Z) x wx tx (ax : tpadvertisement) : Prop := {
  is_sound : sound dm s;
  is_trans : trans s !! t = Some tx /\ 0 < t /\ t_client tx = c;
  is_executor : advs s !! executor tx = Some ax /\ a_client ax = w;
  is_caller : clients s !! c = Some x;
  is_worker : commanding s w wx /\ wait4 wx = t;
  is_apart : c <> w;
  is_cd t' tx' : trans s !! t' = Some tx' -> cd tx' = cd tx -> t' = t;
}.

Section Result.
Context (s : sb T) (c w t : Z) (x wx : tpclient T) (tx : tptransaction) (ax : tpadvertisement).
Hypothesis serving : in_service s c w t x wx tx ax.

Lemma serving_works : works s w t.
Proof.
  destruct serving as [_ (Htx & Hp & _) [Hax Hc] _ _ _ _]. split; [done|]. by exists tx, ax.
Qed.

Lemma serving_executor : executor tx <> 0.
Proof. destruct serving as [[[Hwf _] _] _ [Hax _] _ _ _ _]. apply (wf_advs _ _ Hwf) in Hax as [? _]. lia. Qed.

(** A caller that waits for the transaction, or for any, sends nothing. *)
Lemma serving_idle : awaits x t = true -> idle x.
Proof.
  destruct serving as [[[Hwf [qs B]] _] (Htx & Hp & _) [Hax Hc] Hx _ Hcw _]. intros Ha.
  destruct (bd_clients _ _ _ _ _ B c x Hx) as (_ & _ & Hw & _).
  assert (wait4 x = GLOBAL_ANY \/ wait4 x = t) as Hfor
    by (unfold awaits in Ha; apply orb_true_iff in Ha as [?%Z.eqb_eq|?%Z.eqb_eq]; auto).
  destruct Hw as [E|[[? _]|(Hp' & tx' & ax' & Htx' & Hax' & Hc')]]; [|done|].
  - unfold GLOBAL_ANY in *. lia.
  - destruct Hfor as [E|E]; [unfold GLOBAL_ANY in *; lia|]. exfalso. apply Hcw. rewrite E, Htx in Htx'. injection Htx' as <-. congruence.
Qed.

(** What [wp_return_arrives] asks for. *)
Lemma serving_setting : exists qs blen l1 l2 rl, board dm 0 0 s qs /\
  (w <> 0 /\ clients s !! w = Some wx /\ expects dm s wx H_command 1 /\ wait4 wx = t) /\
  (t <> 0 /\ trans s !! t = Some tx /\ t_svc tx <> 0 /\ tpbuf dm (tp_heap (mem s)) (t_data tx) blen /\
    pblk (t_data tx) <> pblk (input wx)) /\
  (t_client tx <> 0 /\ t_client tx <> w /\ clients s !! t_client tx = Some x /\ (awaits x t = true -> idle x)) /\
  (qs !! Q_requests (t_client tx) = Some (l1 ++ Q_t_clientq t :: l2) /\
    qs !! Q_replies (t_client tx) = Some rl /\ trans_links_ok t qs).
Proof.
  pose proof serving_idle as Hidle. pose proof serving_executor as He.
  destruct serving as [Hs (Htx & Hp & Hcl) [Hax Hc] Hx [Hw Hw4] Hcw _]. pose proof Hs as [[Hwf [qs B]] _].
  destruct (bd_trans _ _ _ _ _ B t tx Htx Hp) as (_ & (blen & Hb & _) & Hex).
  destruct (Hex He) as (_ & _ & l & _ & _ & _ & Hl & (l1 & l2 & ->)%list_elem_of_split).
  destruct (bd_heads _ _ (bd_listed _ _ _ _ _ B) (Q_replies c)) as [rl Hrl]; [by exists x|].
  destruct (wf_trans _ _ Hwf t tx Htx) as (_ & [E|(_ & Hc0 & Hs0)] & _); [unfold GLOBAL_ANY in E; lia|].
  assert (w <> 0) as Hw0 by (eapply sound_nonzero; [done | apply Hw]).
  exists qs, blen, l1, l2, rl. rewrite Hcl in *. split_and!; try done; [apply Hw | by eapply commanding_expects | lia | |].
  - intros E. apply (bd_input _ _ (bd_apart _ _ _ _ _ B) w wx t tx); try done; [apply Hw|].
    exists H_command. split_and!; [apply Hw | done | done].
  - by eapply trans_links.
Qed.

Context (rv rc : Z) (d : list byte).
Hypothesis result : (rv = TPSUCCESS \/ rv = TPFAIL) /\ - 2 ^ 31 <= rc < 2 ^ 31 /\ Z.of_nat (length d) < 2 ^ 31.

Lemma return_message_length : swrap 32 (le_decode (drop 5 (return_message rv rc (Z.of_nat (length d))))) = Z.of_nat (length d).
Proof.
  unfold return_message. rewrite app_assoc, drop_app_length' by done.
  rewrite le_decode_encode. change (256 ^ Z.of_nat 4) with (2 ^ 32). rewrite swrap_mod. apply swrap_id; lia.
Qed.

Lemma return_header_sound :
  wp (iowait_client dm w (ReadBytes [z2b TPTRETN]) ;;
      iowait_client dm w (ReadBytes (return_message rv rc (Z.of_nat (length d))))) s (fun _ s' => sound dm s').
Proof.
  pose proof serving_works as Hwk. destruct serving as [Hs _ _ _ [Hw Hw4] _ _].
  wp_step. eapply (wp_first s w wx _ H_svrreturn 9); [done | done | done | done |]. intros p m s1 Hs1 Hx1 He1 _ _.
  pose proof Hs1 as [[Hwf1 [qs1 B1]] Hps1]. eapply iowait_client_run; [done | done | exact B1 | exact Hx1 |].
  eapply orderly_whole; [exact He1 | done |]. split; [cbn [wait4 set_io]; by rewrite Hw4|].
  rewrite return_message_length. lia.
Qed.

Lemma wp_answered : exists qs l1 l2 rl, board dm 0 0 s qs /\
  wp (return_arrives dm w rv rc d) s (fun _ s' =>
    answered dm s qs w t rv rc wx x tx l1 l2 rl d s' /\ sound dm s').
Proof.
  destruct serving_setting as (qs & blen & l1 & l2 & rl & B & S1 & S2 & S3 & S4).
  exists qs, l1, l2, rl. split; [done|]. assert (wp (return_arrives dm w rv rc d) s (fun _ s' => sound dm s')) as Hsound.
  { apply wp_three. eapply wp_given; [exact return_header_sound|].
    eapply (wp_return_header dm s qs w t blen rv rc wx x tx l1 l2 rl d); try done; [apply B | |].
    - intros p s3 _ _ _ _ Hb Hpos Hx3 Hs3. destruct d as [|b d'] eqn:Ed; [done|]. rewrite <- Ed in *.
      pose proof Hs3 as [[Hwf3 [qs3 B3]] Hps3]. eapply iowait_client_run; [done | done | exact B3 | exact Hx3 |].
      eapply (orderly_whole _ _ _ H_part2); [by split_and! | by rewrite Ed | done].
    - intros s' Hl _ Hs'. destruct d; [done | cbn in Hl; lia]. }
  eapply wp_given; [exact Hsound|]. eapply wp_mono; [by eapply (wp_return_arrives dm s qs w t blen rv rc wx x tx l1 l2 rl d); try done; apply B|].
  by intros [] s' ? ?.
Qed.

End Result.

(** ** Asking for the reply *)

(** The message of [tpgetrply]: type, descriptor and flags. *)
Definition getrply_arrives (c v flags : Z) : M (sb T) unit :=
  iowait_client dm c (ReadBytes [z2b TPTGRPLY]) ;;
  iowait_client dm c (ReadBytes (le_encode 2 v ++ le_encode 4 flags)).

(** The bytes of a message that arrives leave all buffers what they were. *)
Lemma arrived_buffers s c x m bs :
  message dm (arrived s c x m) (input x) bs -> tpbuf dm (tp_heap (mem s)) (input x) (Z.of_nat (length bs)) ->
  same_buffers (tp_heap (mem s)) (tp_heap m) (pblk (input x)) ->
  forall p l, tpbuf dm (tp_heap (mem s)) p l -> tpbuf dm (tp_heap m) p l.
Proof.
  intros [Hm _] Hb Hsame p l Hp. destruct (decide (pblk p = pblk (input x))) as [E|Hne]; [|by eapply tpbuf_frame].
  assert (p = input x) as -> by (destruct Hp as [? _], Hb as [? _]; destruct p, (input x); cbn in *; congruence).
  by rewrite (tpbuf_len dm _ _ _ _ Hp Hb).
Qed.

Lemma wp_getrply_arrives s c x v flags Q :
  sound dm s -> commanding s c x -> wait4 x = 0 ->
  (forall s2 qs p, sb_wf dm s2 -> board dm 0 0 s2 qs -> clients s2 = <[c := set_io 0 NULL None x]> (clients s) ->
    trans s2 = trans s -> advs s2 = advs s -> out s2 = out s -> qm s2 = qm s -> message dm s2 p (le_encode 2 v ++ le_encode 4 flags) ->
    (forall q l, pblk q <> pblk (input x) -> tpbuf dm (tp_heap (mem s)) q l ->
      pblk q <> pblk p /\ tpbuf dm (tp_heap (mem s2)) q l /\ tpdata (tp_heap (mem s2)) q l = tpdata (tp_heap (mem s)) q l) ->
    wp (svrgetrply dm c p) s2 (fun a s' => sound dm s' -> Q a s')) ->
  wp (getrply_arrives c v flags) s Q.
Proof.
  intros Hs Hx Hw HQ. unfold getrply_arrives. wp_step.
  eapply (wp_first s c x _ H_svrgetrply 6); [done | done | done | done |]. intros p m s1 Hs1 Hx1 He1 Hsame1 Hfresh.
  set (x1 := set_io 0 p (Some H_svrgetrply) x) in *. pose proof Hs1 as [[Hwf1 [qs1 B1]] _].
  assert (c <> 0) as Hc by (by eapply sound_nonzero; [|apply Hx]).
  eapply (wp_whole s1 c x1 H_svrgetrply); [done | exact Hx1 | exact He1 | done | exact Hw |].
  eapply (wp_arrives dm s1 c x1 H_svrgetrply _ qs1); [done | exact Hx1 | exact He1 | done | apply B1 |].
  intros m2 Hs2 Hm2 Hsame2. unfold HANDLE_DEPTH. rewrite handle_S.
  destruct (arrived_handling dm s1 qs1 c x1 H_svrgetrply m2) as [Hwf2 B2 _ _ _ _]; try done.
  { by destruct Hs2. }
  { eapply arrived_buffers; [exact Hm2 | apply He1 | done]. }
  apply (HQ _ qs1); try done.
  - cbn. by rewrite insert_insert_eq.
  - intros q l Hq Hql. destruct (tpbuf_frame dm _ _ _ _ _ Hsame1 Hq Hql) as [Hb1 E1].
    assert (pblk q <> pblk p) as Hqp by (apply Hfresh; destruct Hql as (_ & _ & b & ? & _); by exists b).
    destruct (tpbuf_frame dm _ _ _ _ _ Hsame2 Hqp Hb1) as [Hb2 E2]. split_and!; [done | done |]. etransitivity; [exact E2 | exact E1].
Qed.

(** A descriptor that only one transaction has. *)
Definition only_cd s (t v : Z) : Prop := forall t' tx, trans s !! t' = Some tx -> cd tx = v -> t' = t.

Lemma first_cd_only s t tx v (ts : list Z) :
  trans s !! t = Some tx -> cd tx = v -> only_cd s t v -> first_cd s v ts = if decide (t ∈ ts) then Some t else None.
Proof.
  intros Htx Hv Hone. unfold first_cd.
  assert (forall t', t' ∈ filter (fun t => cd <$> trans s !! t = Some v) ts <-> t' = t /\ t ∈ ts) as Hin.
  { intros t'. rewrite list_elem_of_filter. split.
    - intros [(tx' & Htx' & E)%fmap_Some Ht']. assert (t' = t) as -> by (by eapply Hone). done.
    - intros [-> Ht]. by rewrite Htx, <- Hv. }
  case_decide as Ht; destruct (filter _ ts) as [|u l] eqn:E.
  - destruct (not_elem_of_nil t). by apply Hin.
  - destruct (proj1 (Hin u) ltac:(by left)) as [-> _]. done.
  - done.
  - destruct (proj1 (Hin u) ltac:(by left)) as [_ ?]. done.
Qed.

(** The lists of a client as [svrgetrply] reads them. *)
Lemma client_lists s qs c x :
  board dm 0 0 s qs -> clients s !! c = Some x -> exists tr tq : list Z,
    on_list s qs (Q_replies c) tr /\ on_list s qs (Q_requests c) tq /\ (forall t, t ∈ tr -> t ∈ tq -> False).
Proof.
  intros B Hx. destruct (bd_heads _ _ (bd_listed _ _ _ _ _ B) (Q_replies c)) as [lr Hlr]; [by exists x|].
  destruct (bd_heads _ _ (bd_listed _ _ _ _ _ B) (Q_requests c)) as [lq Hlq]; [by exists x|].
  destruct (client_list dm 0 0 s qs c _ lr B ltac:(by right) Hlr) as (tr & -> & Hr).
  destruct (client_list dm 0 0 s qs c _ lq B ltac:(by left) Hlq) as (tq & -> & Hq).
  exists tr, tq. split_and!.
  - split; [done|]. intros t Ht. destruct (Hr t Ht) as (Hp & tx & Htx & _). split; [lia | by exists tx].
  - split; [done|]. intros t Ht. destruct (Hq t Ht) as (Hp & tx & Htx & _). split; [lia | by exists tx].
  - intros t Ht1 Ht2. apply (qrep_apart _ _ _ _ _ _ (sn_queues _ _ (bd_sane _ _ _ _ _ B)) Hlr Hlq ltac:(done) (Q_t_clientq t));
      right; by apply list_elem_of_fmap_2.
Qed.

Definition getrply_flags (flags : Z) : Prop :=
  - 2 ^ 31 <= flags < 2 ^ 31 /\ has_flag flags TPGETANY = false /\ has_flag flags TPNOBLOCK = false.

(** The reply is not there yet: the caller is left waiting for it. *)
Lemma wp_getrply_waits s c w t x wx tx ax flags :
  in_service s c w t x wx tx ax -> commanding s c x -> wait4 x = 0 -> getrply_flags flags ->
  wp (getrply_arrives c (cd tx) flags) s (fun _ s' =>
    in_service s' c w t (set_wait4 t (set_io 0 NULL None x)) wx tx ax /\
    clients s' = <[c := set_wait4 t (set_io 0 NULL None x)]> (clients s) /\ trans s' = trans s /\ out s' = out s).
Proof.
  intros Hin Hx Hw (Hf & Hany & Hblk). pose proof (serving_executor _ _ _ _ _ _ _ _ Hin) as He.
  destruct Hin as [Hs (Htx & Hp & Hcl) [Hax Hc] Hxc [Hwx Hw4] Hcw Hone]. pose proof Hs as [[Hwf _] _].
  apply (wp_getrply_arrives s c x); [done | done | done |]. intros s2 qs p Hwf2 B2 Ec Et Ea Eo _ Hm _.
  assert (clients s2 !! c = Some (set_io 0 NULL None x)) as Hx2 by (rewrite Ec; apply lookup_insert_eq).
  destruct (client_lists s2 qs c _ B2 Hx2) as (tr & tq & Hr & Hq & Hdis).
  destruct (bd_trans _ _ _ _ _ B2 t tx ltac:(by rewrite Et) Hp) as (_ & _ & Hex).
  destruct (Hex He) as (_ & _ & l & _ & _ & _ & Hl & Hinl). rewrite Hcl, (proj1 Hq) in Hl. injection Hl as <-.
  apply list_elem_of_fmap in Hinl as (t' & [= <-] & Htq).
  assert (swrap 16 (cd tx) = cd tx) as Ecd.
  { destruct (wf_trans _ _ Hwf t tx Htx) as (_ & _ & Hcd & _). apply swrap_id; [lia | exact Hcd]. }
  assert (forall ts : list Z, first_cd s2 (cd tx) ts = if decide (t ∈ ts) then Some t else None) as Hfirst.
  { intros ts. apply (first_cd_only s2 t tx); [by rewrite Et | done |]. intros t' tx'. rewrite Et. apply Hone. }
  assert (c <> 0) as Hc0 by (by eapply sound_nonzero).
  eapply (wp_svrgetrply dm s2 c _ p (cd tx) flags qs tr tq); [done | exact Hx2 | apply B2 | exact Hm | done | done | done |].
  unfold ready, pending. rewrite Hany, Ecd, !Hfirst, decide_False, decide_True by (done || (intros ?; by apply (Hdis t))).
  rewrite Hblk. eapply wp_put_client; [done | exact Hx2|]. intros Hs'.
  match type of Hs' with sound _ ?st => set (s' := st) in * end.
  assert (clients s' = <[c := set_wait4 t (set_io 0 NULL None x)]> (clients s)) as Ec' by (cbn; by rewrite Ec, insert_insert_eq).
  split_and!; [|done | done | done]. destruct Hwx as (Hwx & ? & ?). constructor; try done.
  - change (trans s') with (trans s2). by rewrite Et.
  - change (advs s') with (advs s2). by rewrite Ea.
  - rewrite Ec'. apply lookup_insert_eq.
  - split; [|done]. split_and!; [|done|done]. by rewrite Ec', lookup_insert_ne.
  - intros t' tx'. change (trans s') with (trans s2). rewrite Et. apply Hone.
Qed.

(** The reply is there: it is sent at once. *)
Lemma wp_getrply_replied s c t x tx d flags :
  sound dm s -> commanding s c x -> wait4 x = 0 -> getrply_flags flags ->
  trans s !! t = Some tx /\ 0 < t /\ t_client tx = c /\ executor tx = 0 -> only_cd s t (cd tx) ->
  Q_t_clientq t ∈ qlist s (Q_replies c) ->
  tpbuf dm (tp_heap (mem s)) (t_data tx) (Z.of_nat (length d)) /\ tpdata (tp_heap (mem s)) (t_data tx) (Z.of_nat (length d)) = d ->
  wp (getrply_arrives c (cd tx) flags) s (fun _ s' => sound dm s' /\
    stream (fd x) s' = stream (fd x) s ++ reply_bytes (rval tx) (cd tx) (rcode tx) d /\
    (forall f, f <> fd x -> stream f s' = stream f s) /\ trans s' = delete t (trans s) /\
    exists p, clients s' = <[c := set_io 0 p (Some H_command) x]> (clients s)).
Proof.
  intros Hs Hx Hw (Hf & Hany & Hblk) (Htx & Hp & Hcl & He) Hone Hrep [Hb Hd]. pose proof Hs as [[Hwf [qs0 B0]] _].
  assert (c <> 0) as Hc0 by (by eapply sound_nonzero; [|apply Hx]).
  assert (pblk (t_data tx) <> pblk (input x)) as Hne.
  { intros E. apply (bd_input _ _ (bd_apart _ _ _ _ _ B0) c x t tx); try done; [apply Hx|].
    exists H_command. split_and!; [apply Hx | done | done]. }
  apply (wp_getrply_arrives s c x); [done | done | done |]. intros s2 qs p Hwf2 B2 Ec Et Ea Eo Eq Hm Hbufs.
  assert (clients s2 !! c = Some (set_io 0 NULL None x)) as Hx2 by (rewrite Ec; apply lookup_insert_eq).
  destruct (client_lists s2 qs c _ B2 Hx2) as (tr & tq & Hr & Hq & _).
  assert (t ∈ tr) as Htr.
  { assert (qlist s (Q_replies c) = Q_t_clientq <$> tr) as El.
    { change (qlist s (Q_replies c)) with (qlist (set_qm (qm s) s2) (Q_replies c)). rewrite <- Eq.
      exact (qlist_eq s2 qs _ _ (bd_sane _ _ _ _ _ B2) (proj1 Hr)). }
    rewrite El in Hrep. apply list_elem_of_fmap in Hrep as (t' & [= <-] & ?). done. }
  assert (swrap 16 (cd tx) = cd tx) as Ecd.
  { destruct (wf_trans _ _ Hwf t tx Htx) as (_ & _ & Hcd & _). apply swrap_id; [lia | exact Hcd]. }
  destruct (wf_trans _ _ Hwf t tx Htx) as (_ & [E|(_ & _ & Hs0)] & _); [unfold GLOBAL_ANY in E; lia|].
  destruct (bd_trans _ _ _ _ _ B0 t tx Htx Hp) as (_ & (len & Hb' & Hlen) & _). rewrite (tpbuf_len dm _ _ _ _ Hb' Hb) in Hlen.
  destruct (Hbufs _ _ Hne Hb) as (Hnp & Hb2 & Ed2). destruct (freed_kept dm s2 p _ _ Hnp Hb2) as [Hbf Edf].
  eapply (wp_svrgetrply dm s2 c _ p (cd tx) flags qs tr tq); [done | exact Hx2 | apply B2 | exact Hm | done | done | done |].
  unfold ready. rewrite Hany, Ecd, (first_cd_only s2 t tx), decide_True by (done || (by rewrite Et) || (intros t' tx'; rewrite Et; apply Hone)).
  eapply (wp_snd_reply dm (freed p s2) qs c t _ tx (Z.of_nat (length d))); [lia | done | exact Hx2 | done | apply freed_sane, B2 | |].
  { split_and!; try done; [by change (trans (freed p s2)) with (trans s2); rewrite Et|]. eapply trans_links; [exact B2 | by rewrite Et | done]. }
  rewrite Edf, Ed2, Hd. intros s' [R1 R2 (b & R3 & _) R4 _ _ _ _] Hs'.
  assert (forall f, stream f (freed p s2) = stream f s) as Hst by (intros f; unfold stream; cbn; by rewrite Eo).
  split_and!; [done | | | |].
  - etransitivity; [exact R1|]. by rewrite Hst.
  - intros f Hfx. by rewrite R2, Hst.
  - rewrite R4. cbn. by rewrite Et.
  - exists b. rewrite R3, Hcl. cbn. rewrite Ec, insert_insert_eq. f_equal. by destruct x; cbn in *; subst.
Qed.

(** ** The call and its reply *)

Section Reply.
Context (s s1 : sb T) (c svc a t v : Z) (x wx : tpclient T) (sv : SbState.tpservice) (ax : tpadvertisement)
  (name d : list byte) (flags : Z).
Hypothesis before : clients s !! c = Some x /\ wait4 x = 0 /\ clients s !! a_client ax = Some wx /\ wait4 wx = 0 /\
  a_client ax <> c /\ advs s !! a = Some ax.
Hypothesis has_called : called s c svc a x wx sv ax d flags s1 t v.
Hypothesis flags_ok : getrply_flags flags.

Lemma called_serving : exists p wp now dp, let tx := mkTrans c svc now a v dp 0 0 flags in
  in_service s1 c (a_client ax) t (set_io 0 p (Some H_command) x) (set_io 0 wp (Some H_command) (set_wait4 t wx)) tx ax /\
  trans s1 = <[t := tx]> (trans s) /\ commanding s1 c (set_io 0 p (Some H_command) x) /\
  forall c', c' <> c -> c' <> a_client ax -> clients s1 !! c' = clients s !! c'.
Proof.
  destruct before as (Hx & Hw & Hwx & Hww & Hne & Hax), has_called as [Hs [V1 V2] _ _ _ (p & wp & Ec) (Hn & Hp & now & dp & Et) Ea].
  exists p, wp, now, dp. intros tx.
  assert (clients s1 !! c = Some (set_io 0 p (Some H_command) x)) as Hx1
    by (by rewrite Ec, lookup_insert_ne, lookup_insert_eq).
  split_and!; [|done | by split_and! | intros c' N1 N2; by rewrite Ec, !lookup_insert_ne by done].
  constructor; try done.
  - by rewrite Et, lookup_insert_eq.
  - by rewrite Ea.
  - split; [|done]. split_and!; [|done|done]. by rewrite Ec, lookup_insert_eq.
  - intros t' tx'. rewrite Et. intros [[<- _]|[_ Htx']]%lookup_insert_Some Hcd; [done|]. by destruct (V2 t' tx' Htx').
Qed.

Context (rv rc : Z) (d' : list byte).
Hypothesis result : (rv = TPSUCCESS \/ rv = TPFAIL) /\ - 2 ^ 31 <= rc < 2 ^ 31 /\ Z.of_nat (length d') < 2 ^ 31.

(** In the end: the caller has the reply, the transaction is gone, and both are expected to
    send their next command. *)
Record replied s' : Prop := {
  rp_sound : sound dm s';
  rp_caller : stream (fd x) s' = stream (fd x) s1 ++ reply_bytes rv v rc d';
  rp_others f : f <> fd x -> stream f s' = stream f s1;
  rp_trans : trans s' = trans s;
  rp_ready : exists p wp, clients s' !! c = Some (set_io 0 p (Some H_command) x) /\
    clients s' !! a_client ax = Some (set_io 0 wp (Some H_command) wx);
  rp_clients c' : c' <> c -> c' <> a_client ax -> clients s' !! c' = clients s !! c';
}.

(** The caller asks before the result is there. *)
Lemma wp_asked_first :
  wp (getrply_arrives c v flags ;; return_arrives dm (a_client ax) rv rc d') s1 (fun _ s' => replied s').
Proof.
  destruct called_serving as (p & wp & now & dp & Hin & Et & Hx1 & Hcl), before as (Hx & Hw & Hwx & Hww & Hne & _).
  set (tx := mkTrans _ _ _ _ _ _ _ _ _) in *. wp_step. eapply wp_mono; [exact (wp_getrply_waits s1 c (a_client ax) t _ _ tx ax flags Hin Hx1 Hw flags_ok)|].
  intros [] s2 (Hin2 & Ec2 & Et2 & Eo2). set (x2 := set_wait4 t (set_io 0 NULL None _)) in *.
  assert (awaits x2 t = true) as Ha by (unfold awaits; cbn; by rewrite Z.eqb_refl, orb_true_r).
  destruct (wp_answered s2 c (a_client ax) t x2 _ tx ax Hin2 rv rc d' result) as (qs & l1 & l2 & rl & _ & Hans).
  eapply wp_mono; [exact Hans|]. intros [] s' [[(b & A1 & _) A2 _ A4] Hs']. destruct (A2 Ha) as (S1 & S2 & (b' & S3 & _) & S4 & _).
  assert (forall f, stream f s2 = stream f s1) as Hst by (intros f; unfold stream; by rewrite Eo2).
  destruct has_called as [_ _ _ _ _ _ (Hn & _) _]. constructor; try done.
  - by rewrite <- Hst.
  - intros f Hf. by rewrite S2, Hst.
  - rewrite S4, Et2, Et. by apply delete_insert_id.
  - exists b', b. rewrite A1. split; [etransitivity; [exact S3|]; f_equal; by destruct x; cbn in *; subst | f_equal; by destruct wx; cbn in *; subst].
  - intros c' N1 N2. rewrite A4, Ec2, lookup_insert_ne by done. by apply Hcl.
Qed.

(** The result is there before the caller asks. *)
Lemma wp_asked_last :
  wp (return_arrives dm (a_client ax) rv rc d' ;; getrply_arrives c v flags) s1 (fun _ s' => replied s').
Proof.
  destruct called_serving as (p & wp & now & dp & Hin & Et & Hx1 & Hcl), before as (Hx & Hw & Hwx & Hww & Hne & _).
  set (tx := mkTrans _ _ _ _ _ _ _ _ _) in *. pose proof (is_trans _ _ _ _ _ _ _ _ Hin) as (_ & Hp & _).
  destruct (wp_answered s1 c (a_client ax) t _ _ tx ax Hin rv rc d' result) as (qs & l1 & l2 & rl & _ & Hans).
  wp_step. eapply wp_mono; [exact Hans|]. intros [] s2 [[(b & A1 & _) _ A3 A4] Hs2].
  destruct A3 as (Eo & Ec & (q & Et2 & Hb & Hd) & Hq).
  { unfold awaits. cbn [wait4 set_io]. rewrite Hw. apply orb_false_iff. split; [done | apply Z.eqb_neq; lia]. }
  set (tx2 := set_executor 0 (with_result rv rc tx q)) in *.
  assert (only_cd s2 t v) as Hone.
  { intros t' tx'. rewrite Et2. intros [[<- _]|[_ Htx']]%lookup_insert_Some; [done|]. by apply (is_cd _ _ _ _ _ _ _ _ Hin). }
  assert (forall f, stream f s2 = stream f s1) as Hst by (intros f; unfold stream; by rewrite Eo).
  eapply wp_mono; [apply (wp_getrply_replied s2 c t (set_io 0 p (Some H_command) x) tx2 d' flags); try done|].
  - rewrite Et2, lookup_insert_eq. by split_and!.
  - unfold qlist. rewrite (qelements_queue _ _ (rl ++ [Q_t_clientq t])); [set_solver|].
    apply (qr_queue _ _ Hq). apply lookup_insert_eq.
  - intros [] s' (Hs' & S1 & S2 & S3 & (b' & S4)). cbn [fd set_io] in *. destruct has_called as [_ _ _ _ _ _ (Hn & _) _].
    constructor; try done.
    + by rewrite S1, Hst.
    + intros f Hf. by rewrite S2, Hst.
    + rewrite S3, Et2, Et, insert_insert_eq. by apply delete_insert_id.
    + exists b', b. rewrite S4, lookup_insert_eq, lookup_insert_ne, A1 by auto. split; [done|].
      f_equal. by destruct wx; cbn in *; subst.
    + intros c' N1 N2. rewrite S4, lookup_insert_ne, A4 by done. by apply Hcl.
Qed.

End Reply.

End RoundTrip.
