(* ===== verification/RemoteCall.v ===== *)
(** * A remote call is a call

    [tpcall] in one process, [tpservice] in another and the switchboard between them:
    the caller gets what the routine answers.  The way through the switchboard is that of
    [RoundTrip.v]; here the library routines at its ends are added, and the sample worker
    of [Session.v] shows it at work. *)

From Stdlib Require Import ZArith Lia.
From S2P Require Import Prelude Constants ByteOrder CString SearchTree Queue Memory TpMemory Keeps.
From S2P Require Import SbState SbObjects SbHandlers SbLemmas TxIo Xatmi Reverse Dispatch EventLoop Registry Messages Replies.
From S2P Require Import Calls CallPath ReturnPath Session Invariant Board Steady SteadyCall SteadyRun SteadyCheck RoundTrip.

Local Open Scope Z_scope.

(** ** The caller *)

(** The bytes that [tpcall] sends: the call, and, once it is accepted, the request for the reply. *)
Definition tpcall_bytes (name : list byte) (d : list byte) (flags v : Z) : list byte :=
  ([z2b TPTCALL] ++ call_message name (Z.of_nat (length d)) flags ++ d) ++
  [z2b TPTGRPLY] ++ le_encode 2 v ++ le_encode 4 flags.

Lemma getrply_bytes_mod v flags : getrply_bytes (uwrap 16 v) flags = [z2b TPTGRPLY] ++ le_encode 2 v ++ le_encode 4 flags.
Proof.
  unfold getrply_bytes. do 2 f_equal. apply le_encode_mod. unfold uwrap. change (256 ^ Z.of_nat 2) with (2 ^ 16).
  by rewrite Z.mod_mod.
Qed.

Definition legal_result (rv rc : Z) (d : list byte) : Prop :=
  (rv = TPSUCCESS \/ rv = TPFAIL) /\ - 2 ^ 31 <= rc < 2 ^ 31 /\ Z.of_nat (length d) < 2 ^ 31.

Section Caller.
Context (dm : data_model) (s : conn) (inc snt : list byte) (m : tpmem) (ur : Z) (lj : bool).
Context (name d d' : list byte) (idata odata : ptr) (olen dlen flags v rv rc : Z).
Hypothesis name_ok : length name = XATMI_SERVICE_NAME_LENGTH.
Hypothesis request : tpbuf dm (tp_heap m) idata (Z.of_nat (length d)) /\
  tpdata (tp_heap m) idata (Z.of_nat (length d)) = d /\ Z.of_nat (length d) < 2 ^ 31.
Hypothesis space : olen <> 0 /\ heap_wf (tp_heap m) /\ oom_now (tp_heap m) = false /\ tpbuf dm (tp_heap m) odata dlen.
Hypothesis result : legal_result rv rc d'.

Lemma tpcall_run :
  conn_is s (accepted_bytes v ++ reply_bytes rv v rc d' ++ inc) snt m ur lj ->
  wp (tpcall dm (Some name) idata (Z.of_nat (length d)) false odata olen flags) s (fun g s' =>
    g_ret g = uwrap 16 v /\ g_len g = Z.of_nat (length d') /\ exists m',
      conn_is s' inc (snt ++ tpcall_bytes name d flags v) m' rc lj /\
      tperrno m' = (if rv =? TPFAIL then TPESVCFAIL else 0) /\
      (d' <> [] -> tpdata (tp_heap m') (g_data g) (Z.of_nat (length d')) = d')).
Proof.
  intros Hs. destruct request as (Hb & Hd & Hl), space as (Ho & Hwf & Hoom & Hob), result as (Hrv & Hrc & Hl').
  unfold accepted_bytes in Hs. rewrite <- app_assoc in Hs. unfold tpcall. wp_step.
  eapply wp_mono; [apply (tpacall_run dm s _ snt m ur lj name idata (Z.of_nat (length d)) (Z.of_nat (length d)) flags 0 v Hs); [lia | exact Hb | lia | done]|].
  cbn beta. intros r s1 [-> Hs1]. rewrite (proj2 (Z.eqb_neq _ (-1))) by (pose proof (uwrap_range 16 v); lia). cbn [negb].
  eapply wp_mono; [apply (tpgetrply_run dm s1 inc _ m TX_OK lj (uwrap 16 v) odata dlen olen flags rv v rc d' Hs1); done|].
  intros g s2 (G1 & _ & G3 & m' & ur' & C & E & H0' & H1'). split_and!; [done | done |]. exists m'.
  assert (ur' = rc) as -> by (destruct (decide (d' = [])); [by apply H0' | by apply H1']).
  split_and!; [|done | by intros Hd'; apply H1'].
  rewrite getrply_bytes_mod, Hd, Nat2Z.id, take_ge, acall_message, <- !app_assoc in C by (done || lia).
  unfold tpcall_bytes. by rewrite <- !app_assoc.
Qed.

End Caller.

(** ** The worker *)

(** The routine answers a request with a result, a code and data, by [tpreturn], and does not
    otherwise use the connection. *)
Definition answers (dm : data_model) (f : svcinfo -> M conn (exit * svcinfo)) (name : list byte) (flags : Z) (d : list byte)
    (rv rc : Z) (d' : list byte) : Prop :=
  forall c inc snt, routine_ok dm f name (Z.of_nat (length d)) flags c d inc snt (fun e _ inc' snt' _ =>
    e = Jumped /\ inc' = inc /\ snt' = snt ++ return_bytes rv rc d').

Lemma tpservice_answers dm s inc snt m ur lj routines f old opaque name flags c d rv rc d' :
  let len := Z.of_nat (length d) in
  conn_is s (work_message opaque name len flags c d ++ inc) snt m ur lj ->
  length name = XATMI_SERVICE_NAME_LENGTH -> length old = sizeof_TPSVCINFO dm ->
  len < 2 ^ 31 -> - 2 ^ 31 <= flags < 2 ^ 31 -> heap_wf (tp_heap m) -> oom_now (tp_heap m) = false ->
  routines (ulong dm (swrap 32 opaque)) = Some f -> answers dm f name flags d rv rc d' ->
  wp (Xatmi.tpservice dm routines (Some old)) s (fun _ s' => exists m' ur',
    conn_is s' inc (snt ++ [z2b TPTWORK] ++ return_bytes rv rc d') m' ur' false).
Proof.
  intros len Hs Hn Ho Hl Hf Hwf Hoom Hr Ha.
  eapply wp_mono; [eapply (tpservice_run dm s inc snt m ur lj routines f old opaque name flags c d _ Hs Hn Ho Hl Hf Hwf Hoom Hr); apply Ha|].
  intros i s' (e & i' & p & inc' & snt' & m' & ur' & _ & _ & C & -> & -> & ->). exists (drop_blk m' (pblk p)), ur'. by rewrite app_nil_r, <- app_assoc in C.
Qed.

(** The sample routine. *)
Lemma reverse_answers dm rval name flags d :
  rval = TPFAIL \/ rval = TPSUCCESS -> Z.of_nat (length d) < 2 ^ 31 ->
  answers dm (reversesvr dm rval) name flags d (3 - rval) (3 - rval) (reverse d).
Proof.
  intros Hrv Hl c inc snt s p m Hs Hb Hd. eapply wp_mono; [by apply (wp_reversesvr dm s inc snt m p name d flags c rval)|].
  intros e s' (m' & -> & Hb' & Hs'). exists inc. eexists _, m', TX_OK. split; [exact Hs'|]. split; [eauto | done].
Qed.

Section RemoteCall.
Context {T : Type} `{SearchTree T Z} (dm : data_model).
Implicit Types (s : sb T) (x : tpclient T).

(** ** Properties *)

(** C2. A remote call is a call.  From any sound state of the switchboard in which a worker
    waits for the service called and the caller is about to send a command, the messages of
    [tpcall] and of the worker's [tpservice] and [tpreturn] arrive without a fault, and:
    the worker, reading what it was sent, runs the routine it advertised on the caller's data
    and sends back what the routine answers, and nothing else; whether the caller's request
    for the reply or the worker's result arrives first, the caller is then sent exactly that
    result, nobody else is sent anything, no transaction is left, both are expected to send
    their next command, everybody else is as before, and the switchboard is sound again; and
    the caller's [tpcall], reading what it was sent, sends exactly the messages that arrived
    and returns the descriptor, the routine's data, its code in [tpurcode] and in [tperrno]
    whether it failed.  The three processes may have different data models. *)
Theorem remote_call (dmc dmw : data_model) s c svc a x wx sv ax name d flags routines f rv rc d' :
  sound dm s -> commanding s c x /\ wait4 x = 0 -> served_by s name svc a sv ax wx -> descriptor_left s ->
  legal_call name flags d /\ getrply_flags flags -> legal_result rv rc d' ->
  routines (ulong dmw (swrap 32 (a_opaque ax))) = Some f /\ answers dmw f (svcname sv) flags d rv rc d' ->
  wp (call_arrives dm c name flags d) s (fun _ s1 => exists v,
    let request := work_message (a_opaque ax) (svcname sv) (Z.of_nat (length d)) flags v d in
    (* the worker *)
    stream (fd wx) s1 = stream (fd wx) s ++ request /\
    (forall (w : conn) inc snt m ur lj old, conn_is w (request ++ inc) snt m ur lj -> length old = sizeof_TPSVCINFO dmw ->
      heap_wf (tp_heap m) -> oom_now (tp_heap m) = false ->
      wp (Xatmi.tpservice dmw routines (Some old)) w (fun _ w' => exists m' ur', conn_is w' inc
        (snt ++ [z2b TPTWORK] ++ [z2b TPTRETN] ++ return_message rv rc (Z.of_nat (length d')) ++ d') m' ur' false)) /\
    (* the switchboard *)
    stream (fd x) s1 = stream (fd x) s ++ accepted_bytes v /\
    (forall asked_first : bool,
      wp (if asked_first then getrply_arrives dm c v flags ;; return_arrives dm (a_client ax) rv rc d'
          else return_arrives dm (a_client ax) rv rc d' ;; getrply_arrives dm c v flags) s1 (fun _ s' =>
        sound dm s' /\ stream (fd x) s' = stream (fd x) s ++ accepted_bytes v ++ reply_bytes rv v rc d' /\
        (forall f, f <> fd x -> stream f s' = stream f s1) /\ trans s' = trans s /\
        (exists p wp, clients s' !! c = Some (set_io 0 p (Some H_command) x) /\
          clients s' !! a_client ax = Some (set_io 0 wp (Some H_command) wx)) /\
        (forall c', c' <> c -> c' <> a_client ax -> clients s' !! c' = clients s !! c'))) /\
    (* the caller *)
    (forall (w : conn) inc snt m ur lj idata odata dlen olen,
      conn_is w (accepted_bytes v ++ reply_bytes rv v rc d' ++ inc) snt m ur lj ->
      tpbuf dmc (tp_heap m) idata (Z.of_nat (length d)) -> tpdata (tp_heap m) idata (Z.of_nat (length d)) = d ->
      olen <> 0 -> heap_wf (tp_heap m) -> oom_now (tp_heap m) = false -> tpbuf dmc (tp_heap m) odata dlen ->
      wp (tpcall dmc (Some name) idata (Z.of_nat (length d)) false odata olen flags) w (fun g w' =>
        g_ret g = uwrap 16 v /\ g_len g = Z.of_nat (length d') /\ exists m',
          conn_is w' inc (snt ++ tpcall_bytes name d flags v) m' rc lj /\
          tperrno m' = (if rv =? TPFAIL then TPESVCFAIL else 0) /\
          (d' <> [] -> tpdata (tp_heap m') (g_data g) (Z.of_nat (length d')) = d')))).
Proof.
  intros Hs Hcaller Hsvc Hroom [Hcall Hfl] Hres [Hf Hans].
  eapply wp_mono; [by apply (wp_called dm s c svc a x wx sv ax name d flags)|]. intros [] s1 (v & Hc).
  pose proof Hs as [[Hwf [qs B]] _]. destruct Hcaller as [Hx Hw].
  destruct (served_worker dm s qs c x name svc a sv ax wx Hwf B (proj1 Hx) ltac:(by rewrite (proj1 (proj2 Hx))) Hsvc)
    as (_ & Hww & _ & l & [_ (_ & Hne & Hwx & _)] & _).
  assert (clients s !! c = Some x /\ wait4 x = 0 /\ clients s !! a_client ax = Some wx /\ wait4 wx = 0 /\
    a_client ax <> c /\ advs s !! a = Some ax) as Hbefore by (destruct Hsvc as (_ & _ & _ & ? & _); split_and!; try done; apply Hx).
  destruct Hcall as (Hn & Hflr & Hl). exists v. intros request. split_and!.
  - apply Hc.
  - intros w inc snt m ur lj old Hw' Ho Hwfm Hoom. rewrite <- return_parts. destruct Hsvc as (_ & Hsv & _).
    eapply tpservice_answers; try done. by destruct (wf_svcs _ _ Hwf svc sv Hsv).
  - apply Hc.
  - intros asked_first.
    assert (forall s', replied dm s s1 c v x wx ax rv rc d' s' -> sound dm s' /\
      stream (fd x) s' = stream (fd x) s ++ accepted_bytes v ++ reply_bytes rv v rc d' /\
      (forall f, f <> fd x -> stream f s' = stream f s1) /\ trans s' = trans s /\
      (exists p wp, clients s' !! c = Some (set_io 0 p (Some H_command) x) /\
        clients s' !! a_client ax = Some (set_io 0 wp (Some H_command) wx)) /\
      (forall c', c' <> c -> c' <> a_client ax -> clients s' !! c' = clients s !! c')) as Hend.
    { intros s' [R1 R2 R3 R4 R5 R6]. split_and!; try done. by rewrite R2, (ca_caller _ _ _ _ _ _ _ _ _ _ _ _ _ _ Hc), <- app_assoc. }
    destruct asked_first.
    + eapply wp_mono; [by eapply wp_asked_first | intros [] s'; apply Hend].
    + eapply wp_mono; [by eapply wp_asked_last | intros [] s'; apply Hend].
  - intros w inc snt m ur lj idata odata dlen olen Hcw Hb Hdd Ho Hwfm Hoom Hob.
    eapply (tpcall_run dmc w inc snt m ur lj name d d' idata odata olen dlen flags v rv rc); by split_and?.
Qed.

End RemoteCall.

(** ** Witness *)

(** The worker of [Session.v] has advertised [REVERSE] and waits for work, and a caller has
    connected. *)
Definition waiting_run : list io_env :=
  [connects 4; sends 4 (take 1 adv_bytes); sends 4 (drop 1 adv_bytes); connects 5; sends 4 [z2b TPTWORK]].
Definition waiting : sb (bst Z) := default start (run_check LP64 master waiting_run start).

Lemma waiting_sound : sound LP64 waiting.
Proof.
  apply (disciplined_sound LP64 master). apply (run_check_ok LP64 master waiting_run start); [by apply disciplined_start|].
  vm_compute. reflexivity.
Qed.

Definition waiting_caller : tpclient (bst Z) := mkClient 5 0 (Ptr 4 32) (Some H_command) Leaf 0.
Definition waiting_worker_client : tpclient (bst Z) := mkClient 4 0 NULL None (Node Leaf 3 Leaf) 0.

Lemma waiting_served :
  served_by waiting REVERSE 2 3 (mkService REVERSE false 0 0) (mkAdvert 2 1 routine_addr 0 0) waiting_worker_client.
Proof.
  split; [split; [apply (bool_decide_unpack _); vm_compute; exact I | vm_compute; reflexivity]|].
  split; [vm_compute; reflexivity|]. split; [exists []; vm_compute; reflexivity|]. split; vm_compute; reflexivity.
Qed.

(** The caller gets "olleh" for "hello". *)
Lemma remote_call_witness :
  wp (call_arrives LP64 4 REVERSE 0 text) waiting (fun _ s1 => exists v,
    wp (getrply_arrives LP64 4 v 0 ;; return_arrives LP64 1 TPSUCCESS TPSUCCESS (reverse text)) s1 (fun _ s' =>
      stream 5 s' = accepted_bytes v ++ reply_bytes TPSUCCESS v TPSUCCESS (reverse text) /\ trans s' = trans waiting)).
Proof.
  eapply wp_mono.
  - apply (remote_call LP64 ILP32 LP64 waiting 4 2 3 waiting_caller waiting_worker_client (mkService REVERSE false 0 0)
      (mkAdvert 2 1 routine_addr 0 0) REVERSE text 0 (fun a => if a =? routine_addr then Some (reversesvr LP64 TPFAIL) else None)
      (reversesvr LP64 TPFAIL) TPSUCCESS TPSUCCESS (reverse text)).
    + exact waiting_sound.
    + split; [|reflexivity]. split; [vm_compute; reflexivity|]. split; reflexivity.
    + exact waiting_served.
    + apply descriptor_ok. apply (bool_decide_unpack _). vm_compute. exact I.
    + split; [split; [reflexivity|]; split; [lia | vm_compute; reflexivity]|].
      split; [lia|]. split; reflexivity.
    + split; [by left|]. split; [unfold TPSUCCESS; lia | vm_compute; reflexivity].
    + split; [reflexivity|]. apply (reverse_answers LP64 TPFAIL); [by left | vm_compute; reflexivity].
  - cbv beta. intros [] s1 (v & _ & _ & _ & Hboth & _). exists v.
    eapply wp_mono; [exact (Hboth true)|]. intros [] s' (_ & S1 & _ & S2 & _). split; [|exact S2].
    assert (stream 5 waiting = []) as E by (vm_compute; reflexivity).
    change (fd waiting_caller) with 5 in S1. rewrite E in S1. exact S1.
Defined.
