(* ===== verification/Faults.v ===== *)
(** * Where the program goes wrong

    Behaviours of the code that its comments and its protocol do not intend,
    each proved of the definitions that the other files prove correct in the
    intended circumstances: unsolicited results, exhausted memory, requests that stay
    queued, descriptors read from behind the pool, replies that the client library
    misreads, strings read and written past their ends. *)

From Stdlib Require Import ZArith Lia String.
From Stdlib Require Import Strings.Byte.
From S2P Require Import Prelude Constants ByteOrder CString SearchTree Queue Memory TpMemory.
From S2P Require Import SbState SbObjects SbHandlers SbLemmas TxIo Xatmi Dispatch Transactions Scheduling Registry Messages Calls.

Local Open Scope string_scope.
Local Open Scope Z_scope.
Local Open Scope list_scope.

Section Faults.
Context {T : Type} `{SearchTreeOps T Z} (dm : data_model).
Implicit Types (s : sb T) (x : tpclient T).

(** A [TPTRETN] message of a client that executes no transaction stops the
    switchboard with a null dereference, whatever the message says. *)
Lemma svrreturn_unsolicited (call : handler -> Z -> ptr -> M (sb T) unit) s c x buf :
  c <> 0 -> buf <> NULL -> clients s !! c = Some x -> wait4 x = 0 ->
  svrreturn dm call c buf s = Fault NullDeref.
Proof.
  intros Hc Hb Hx Hw. unfold svrreturn. rewrite (proj2 (Z.eqb_neq c 0)), bool_decide_false by done.
  rewrite (bind_run _ _ s s tt) by done. rewrite (bind_run _ _ s s x) by by apply get_client_run.
  rewrite Hw. done.
Qed.

(** ** Exhausted memory *)

(** The next allocation fails. *)
Definition exhausted s : Prop := exists fs, ooms (tp_heap (mem s)) = true :: fs.

(** Whoever is to send the next command: there is no buffer for it, and an assertion fails. *)
Lemma next_command_exhausted s c : exhausted s -> svr_next_command dm c s = Fault AssertFailed.
Proof.
  intros [fs E]. unfold svr_next_command.
  assert (in_mem (tpalloc dm NULL NULL 1) s =
    Done (NULL, set_mem (mkTpmem (mkHeap (blocks (tp_heap (mem s))) (brk (tp_heap (mem s))) (junk (tp_heap (mem s))) fs) TPEOS) s)) as Ea.
  { unfold in_mem, zoom, tpalloc, in_heap, zoom, malloc, oom, mbind, M_bind. cbn. by rewrite E. }
  rewrite (bind_run _ _ _ _ _ Ea). unfold svriowait. by rewrite andb_false_r.
Qed.

(** A new connection stops the switchboard when there is no memory for its client. *)
Lemma accept_exhausted s i :
  exhausted s -> heap_wf (tp_heap (mem s)) -> accept_client dm i s = Fault AssertFailed.
Proof.
  intros [fs E] Hwf. unfold accept_client.
  set (s1 := set_mem (mkTpmem (mkHeap (blocks (tp_heap (mem s))) (brk (tp_heap (mem s))) (junk (tp_heap (mem s))) fs) (tperrno (mem s))) s).
  assert (new_client i s = Done (0, s1)) as En.
  { unfold new_client, alloc_struct, in_mem, zoom, in_heap, zoom, oom, mbind, M_bind. rewrite E. done. }
  rewrite (bind_run _ _ _ _ _ En). destruct (oom_now (tp_heap (mem s1))) eqn:Eo.
  - apply next_command_exhausted. unfold oom_now in Eo. cbn in Eo. destruct fs as [|[] fs]; try done. by exists fs.
  - destruct (tpalloc_ok dm NULL NULL 1 (mem s1)) as (b & _ & Ea); [done | done | unfold LONG_MAX; destruct dm; cbn; lia|].
    unfold svr_next_command. erewrite bind_run; [|unfold in_mem, zoom; rewrite Ea; reflexivity]. done.
Qed.

(** The switchboard without memory for one allocation. *)
Definition short_of_memory s : sb T :=
  set_mem (mkTpmem (mkHeap (blocks (tp_heap (mem s))) (brk (tp_heap (mem s))) (junk (tp_heap (mem s))) [true]) (tperrno (mem s))) s.

(** A queue keeps the nodes that are not taken off. *)
Lemma qremove_all_member (ns : list qaddr) qs h l n :
  qs !! h = Some l -> n ∈ l -> n ∉ ns -> h ∉ ns ->
  exists l', qremove_all ns qs !! h = Some l' /\ n ∈ l'.
Proof.
  revert qs l; induction ns as [|k ns IH]; intros qs l Hh Hn Hns Hhs; [by exists l|].
  cbn [qremove_all foldl]. apply (IH _ (filter (fun y => y <> k) l)).
  - unfold qremove. rewrite lookup_insert_ne, lookup_fmap, Hh; [done|]. intros ->. apply Hhs. by left.
  - apply list_elem_of_filter. split; [|done]. intros ->. apply Hns. by left.
  - set_solver +Hns.
  - set_solver +Hhs.
Qed.

(** A request is not taken off the queue when it is sent: after
    [send_to_server] has given a waiting transaction to a worker, the transaction
    is still on its service's wait queue, from which the next worker that asks for
    work is given it again. *)
Lemma sent_request_stays_queued s c a t x ax tx sv qs len svc l :
  a <> 0 -> advs s !! a = Some ax -> a_client ax = c -> c <> 0 -> a_svc ax <> 0 ->
  t <> 0 -> trans s !! t = Some tx -> t_svc tx <> 0 -> svcs s !! t_svc tx = Some sv ->
  clients s !! c = Some x -> idle x -> qrep (qm s) qs -> adverts_ok s x qs ->
  tpbuf dm (tp_heap (mem s)) (t_data tx) len ->
  heap_wf (tp_heap (mem s)) -> oom_now (tp_heap (mem s)) = false ->
  qs !! Q_waitq svc = Some l -> Q_t_svc_waitq t ∈ l ->
  wp (send_to_server dm a t) s (fun _ s' =>
    exists qs' l', qrep (qm s') qs' /\ qs' !! Q_waitq svc = Some l' /\ Q_t_svc_waitq t ∈ l').
Proof.
  intros Ha Hax Hc Hc0 Has Ht Htx Hts Hsv Hx Hi Hq Hok Hb Hwf Hoom Hl Hin.
  eapply wp_mono; [by eapply send_to_server_run|]. intros [] s' Hs.
  destruct (qremove_all_member (Q_adv_waitq <$> twalk (adverts x)) qs (Q_waitq svc) l (Q_t_svc_waitq t))
    as (l' & Hl' & Hin'); [done | done | | |].
  - intros (? & [=] & _)%list_elem_of_fmap.
  - intros (? & [=] & _)%list_elem_of_fmap.
  - eexists _, l'. split; [exact (ss_queues _ _ _ _ _ _ _ _ _ _ Hs) | done].
Qed.

(** When the pool of descriptors is used up, the loop reads the word behind
    the array before it refills the pool; if that word is not zero it becomes the
    new transaction's descriptor, whatever descriptors are in use, and the word is
    overwritten with zero. *)
Lemma cd_read_out_of_bounds s fuel :
  cdp s = NUM_FREE_CD -> cd_oob s <> 0 ->
  next_cd (S fuel) s = Done (tt, s) /\
  exists s', take_cd s = Done (cd_oob s, s') /\ cd_oob s' = 0.
Proof.
  intros Hc Ho. assert (read_cdp s = Done (cd_oob s, s)) as Er.
  { unfold read_cdp, mbind, M_bind, gets. cbn [id]. by rewrite bool_decide_true. }
  split.
  - cbn [next_cd]. rewrite (bind_run _ _ s s (cd_oob s)) by done.
    by rewrite (proj2 (Z.eqb_neq _ 0)).
  - unfold take_cd. rewrite (bind_run _ _ s s (cd_oob s)) by done.
    unfold mbind, M_bind, gets. cbn [id]. rewrite bool_decide_true by done. by eexists.
Qed.

End Faults.

Section Refusal.
Context {T : Type} `{SearchTree T Z} (dm : data_model).
Implicit Types (s : sb T) (x : tpclient T) (qs : gmap qaddr (list qaddr)).

(** A call of a service that exists is refused as one that does not, with [TPENOENT], when
    there is no memory for its transaction; nothing else changes. *)
Lemma svracall_exhausted call s c x buf name len flags svc qs :
  c <> 0 -> clients s !! c = Some x -> idle x -> sane s qs -> registry_ok s ->
  message dm s buf (call_message name len flags) -> length name = XATMI_SERVICE_NAME_LENGTH -> registered s name svc ->
  wp (svracall dm call c buf) (short_of_memory s) (fun _ s' => told dm (freed buf s) s' c x refused_bytes).
Proof.
  intros Hc Hx Hi Hs Hr Hm Hn Hreg. set (s0 := short_of_memory s).
  assert (message dm s0 buf (call_message name len flags)) as Hm0 by exact Hm.
  unfold svracall. wp_step. apply wp_assert; [by rewrite (proj2 (Z.eqb_neq c 0)), (message_not_null dm s buf _ Hm)|].
  destruct (call_message_parts name len flags Hn) as [Hlen Hflags].
  wp_step. eapply (wp_buf_long dm _ _ _ _ flags); [exact Hm0 | exact Hflags |].
  wp_step. eapply wp_buf_name; [exact Hm0 | done |].
  wp_step. destruct (fnd_service_spec s0 name Hr) as (p & Ep & _ & Hp0). eapply wp_of_eq; [exact Ep|].
  assert (p <> 0) as Hp by (intros ->; by apply (Hp0 eq_refl svc)).
  wp_step. eapply (wp_buf_long dm _ _ _ _ len); [exact Hm0 | exact Hlen |].
  wp_step. unfold new_transaction. wp_step.
  apply wp_assert; [by rewrite (proj2 (Z.eqb_neq c 0))|]. rewrite (proj2 (Z.eqb_neq p 0)) by done.
  wp_step. eapply wp_get_client; [done | exact Hx|].
  assert (alloc_struct s0 = Done (0, s)) as Ea.
  { change (alloc_struct s0) with (Done (0, set_mem (mkTpmem (mkHeap (blocks (tp_heap (mem s))) (brk (tp_heap (mem s)))
      (junk (tp_heap (mem s))) []) (tperrno (mem s))) s)).
    rewrite <- (set_mem_id s) at 6. repeat f_equal. destruct Hs as [_ _ Hleft]. unfold memory_left in Hleft.
    destruct (mem s) as [[] ?]. cbn in *. by subst. }
  wp_step. eapply wp_of_eq; [exact Ea|]. cbn [Z.eqb]. wp_step. wp_step. eapply wp_free_message; [exact Hm|]. cbn [Z.eqb].
  by eapply wp_refused; [| | |apply freed_sane|].
Qed.

End Refusal.

Section ClientFaults.
Context (dm : data_model).

(** C38. A reply with the result [TPERRNO], as the switchboard sends it for a
    service that failed, is misread by [tpgetrply]: [tperrno] becomes the
    transaction's descriptor instead of the error, and the code, the length and
    the data of the reply stay on the connection, where the next call finds them. *)
Theorem errno_reply_misread s inc snt m ur lj c data len flags v e d :
  conn_is s (reply_bytes TPERRNO v e d ++ inc) snt m ur lj -> len <> 0 ->
  wp (tpgetrply dm false c data len flags) s (fun g s' =>
    g_ret g = -1 /\ tperrno (cmem s') = uwrap 16 v /\
    incoming s' = le_encode 4 e ++ le_encode 4 (Z.of_nat (length d)) ++ d ++ inc).
Proof.
  intros Hs Hl. unfold reply_bytes in Hs. rewrite <- !app_assoc in Hs.
  eapply wp_mono; [by eapply (tpgetrply_error_run dm s _ snt m ur lj c data len flags TPERRNO v)|].
  intros g s' [-> C]. rewrite (ci_cmem _ _ _ _ _ _ C). split_and!; [done | done |].
  exact (ci_incoming _ _ _ _ _ _ C).
Qed.

(** A service name in an array shorter than 15 bytes, such as a string
    constant, makes [tpacall], [tpadvertise] and [tpunadvertise] read outside it. *)
Lemma short_name_overread s inc snt m ur lj name data len flags func :
  conn_is s inc snt m ur lj -> (length name < XATMI_SERVICE_NAME_LENGTH)%nat -> func <> 0 ->
  tpacall dm (Some name) data len flags s = Fault OutOfBounds /\
  tpadvertise dm (Some name) func s = Fault OutOfBounds /\
  tpunadvertise dm (Some name) s = Fault OutOfBounds.
Proof.
  intros Hs Hn Hf.
  assert (forall b, exists s1, urcode (tx_writeb dm b) s = Done (true, s1)) as Hb.
  { intros b. edestruct (wp_run (urcode (tx_writeb dm b)) s (fun r _ => r = true)) as (r & s1 & E & ->); [|eauto].
    eapply wp_urcode; [eapply wp_tx_writeb; [exact Hs | intros s' H'; split; [reflexivity | exact H']]|].
    done. }
  assert (forall s1, urcode (write_name dm name) s1 = Fault OutOfBounds) as Hname.
  { intros s1. unfold urcode, write_name, mbind, M_bind. by rewrite (proj2 (Nat.ltb_lt _ _)). }
  split_and!; unfold tpacall, tpadvertise, tpunadvertise;
    rewrite ?(proj2 (Z.eqb_neq func 0)) by done.
  - destruct (Hb TPTCALL) as [s1 E]. unfold and_then, mbind, M_bind. by rewrite E, Hname.
  - destruct (Hb TPTADVT) as [s1 E]. unfold and_then, mbind, M_bind. by rewrite E, Hname.
  - destruct (Hb TPTUADV) as [s1 E]. unfold and_then, mbind, M_bind. by rewrite E, Hname.
Qed.

(** The hexadecimal digits of a number of 33 bits or more do not fit. *)
Lemma digits_long base digit room i (s : conn) l :
  1 < base -> 0 <= i -> digits base digit room i s = Done (l, s) -> i < base ^ Z.of_nat (length l).
Proof.
  intros Hb. revert i l; induction room as [|room IH]; intros i l Hi; [done|].
  cbn [digits]. rewrite Z.quot_div_nonneg by lia. destruct (Z.eqb_spec (i / base) 0) as [E|E].
  - intros [= <-]. change (Z.of_nat (length [_])) with 1. rewrite Z.pow_1_r.
    apply Z.div_small_iff in E; lia.
  - unfold mbind, M_bind. destruct (digits base digit room (i / base) s) as [[l' s']|] eqn:Ed; [|done].
    intros [= <- ->]. apply IH in Ed; [|apply Z.div_pos; lia].
    cbn [length]. rewrite Nat2Z.inj_succ, Z.pow_succ_r by lia.
    pose proof (Z.mul_succ_div_gt i base ltac:(lia)). nia.
Qed.

Lemma digits_state base digit room i (s : conn) :
  match digits base digit room i s with Done (_, s') => s' = s | Fault f => f = OutOfBounds end.
Proof.
  revert i; induction room as [|room IH]; intros i; cbn [digits]; [done|].
  destruct (_ =? 0); [done|]. unfold mbind, M_bind. specialize (IH (Z.quot i base)).
  by destruct (digits base digit room _ s) as [[]|].
Qed.

(** With 64-bit pointers, the message that [tx_write] prints after a short or
    failed write overflows its buffer of ten characters for every address of more
    than 32 bits, so that such a write faults instead of returning [TX_FAIL]. *)
Lemma short_write_overflow val (s : conn) ws :
  2 ^ 32 <= ulong dm (val_addr s) -> -1 <= tx_server s < 2 ^ 31 -> val <> [] ->
  writes s = None :: ws -> tx_write dm val s = Fault OutOfBounds.
Proof.
  intros Ha Hsrv Hv Hw. unfold tx_write, mbind, M_bind, sys_write. rewrite Hw.
  set (s1 := set_sent _ _ s). unfold tx_write_done, mbind, M_bind, gets. cbn [id].
  rewrite (proj2 (Z.eqb_neq _ _)) by lia. cbn [negb].
  destruct (writei_total (list_byte_of_string "write(") (tx_server s1) s1) as [e1 ->]; [simpl; lia|].
  unfold writex, mbind, M_bind. set (s2 := set_stderr e1 s1).
  assert (val_addr s1 = val_addr s) as -> by done.
  pose proof (digits_state 16 hex_digit 10 (ulong dm (val_addr s)) s2) as Hst.
  destruct (digits 16 hex_digit 10 (ulong dm (val_addr s)) s2) as [[l s3]|f] eqn:Ed; [|by subst].
  subst s3. apply digits_long in Ed; [|lia|lia].
  destruct (Nat.ltb_spec 10 (length l + 2)) as [|Hl]; [done|]. exfalso.
  assert (16 ^ Z.of_nat (length l) <= 16 ^ 8) by (apply Z.pow_le_mono_r; lia).
  change (16 ^ 8) with (2 ^ 32) in *. lia.
Qed.

End ClientFaults.

(** ** Witnesses *)

Lemma svrreturn_unsolicited_witness :
  svrreturn LP64 (handle LP64 1) 3 (Ptr 1 32) (wit_sb 0 0 []) = Fault NullDeref.
Proof.
  apply (svrreturn_unsolicited LP64 (handle LP64 1) (wit_sb 0 0 []) 3 (mkClient 5 0 NULL None (Node Leaf 4 Leaf) 0)
    (Ptr 1 32)); [discriminate | discriminate | reflexivity | reflexivity].
Defined.

Lemma sent_request_stays_queued_witness :
  wp (send_to_server LP64 4 7) wit_two (fun _ s' => exists qs' l',
    qrep (qm s') qs' /\ qs' !! Q_waitq 2 = Some l' /\ Q_t_svc_waitq 7 ∈ l').
Proof.
  apply (sent_request_stays_queued LP64 wit_two 3 4 7 (mkClient 5 0 NULL None (Node Leaf 4 (Node Leaf 14 Leaf)) 0)
    (mkAdvert 2 3 1000 0 0) (mkTrans 6 2 (1, 0) 0 77 (Ptr 1 32) 0 0 0) (mkService wit_name true 0 0)
    (list_to_map wit_two_queues) 2 2 [Q_t_svc_waitq 7]);
    [discriminate | reflexivity | reflexivity | discriminate | discriminate | discriminate | reflexivity
    | discriminate | reflexivity | reflexivity | | | | apply wit_buf2 | apply wit_mem2_wf | reflexivity
    | vm_compute; reflexivity | by left].
  - split; [reflexivity|]. split; reflexivity.
  - apply qrep_check_ok. vm_compute. reflexivity.
  - intros a Ha. apply elem_of_cons in Ha as [->|Ha].
    + split; [discriminate|]. split; [eexists; reflexivity|]. left. vm_compute. reflexivity.
    + apply list_elem_of_singleton in Ha as ->. split; [discriminate|]. split; [eexists; reflexivity|].
      left. vm_compute. reflexivity.
Defined.

Lemma cd_read_out_of_bounds_witness :
  exists s', take_cd (set_cd_oob 77 (wit_sb 0 0 [])) = Done (77, s') /\ cd_oob s' = 0.
Proof.
  apply (cd_read_out_of_bounds (set_cd_oob 77 (wit_sb 0 0 [])) 0); [reflexivity | discriminate].
Defined.

Lemma errno_reply_misread_witness :
  wp (tpgetrply LP64 false 77 (Ptr 1 32) 1 0) (wit_conn' (reply_bytes TPERRNO 77 TPESVCERR [] ++ []))
    (fun g s' => tperrno (cmem s') = 77 /\ length (incoming s') = 8%nat).
Proof.
  eapply wp_mono.
  - apply (errno_reply_misread LP64 _ [] [] wit_mem' 0 false 77 (Ptr 1 32) 1 0 77 TPESVCERR []);
      [apply wit_conn_is' | discriminate].
  - intros g s' (_ & He & Hi). split; [exact He|]. rewrite Hi. reflexivity.
Defined.

Lemma short_name_overread_witness :
  tpadvertise LP64 (Some [x41; x00]) 5 (wit_conn [] [] []) = Fault OutOfBounds.
Proof.
  apply (short_name_overread LP64 (wit_conn [] [] []) [] [] wit_mem 0 false [x41; x00] NULL 0 0 5);
    [apply wit_conn_is; constructor | vm_compute; lia | discriminate].
Defined.

Lemma short_write_overflow_witness :
  tx_write LP64 [x41] (mkConn 3 [] [] [] [None] [] wit_mem 0 false 140737488355328 x00 []) = Fault OutOfBounds.
Proof.
  apply (short_write_overflow LP64 [x41] (mkConn 3 [] [] [] [None] [] wit_mem 0 false 140737488355328 x00 []) []);
    [vm_compute; discriminate | cbn; lia | discriminate | reflexivity].
Defined.
