(* ===== verification/Departures.v ===== *)
(** * What a departure does to the others

    Two ways in which a client that closes its connection, which every client may do at any
    time, brings others into trouble: the worker that executes its request then stops the
    switchboard with the reply, and a caller that waits for any reply is not told that its
    worker is gone. *)

From Stdlib Require Import ZArith Lia.
From S2P Require Import Prelude Constants ByteOrder CString SearchTree Queue Memory TpMemory Keeps.
From S2P Require Import SbState SbObjects SbHandlers SbLemmas TxIo Xatmi Dispatch Session Invariant Board Deletion BoardCheck Leaving.
From S2P Require Import Messages SteadyCheck Faults.

Local Open Scope Z_scope.

Section Departures.
Context {T : Type} `{SearchTree T Z} (dm : data_model).
Implicit Types (s : sb T) (x : tpclient T) (qs : gmap qaddr (list qaddr)).

(** Who waits for a transaction that is there: its caller, or its worker. *)
Lemma waits_for_trans k e s qs c x :
  board dm k e s qs -> clients s !! c = Some x -> 0 < wait4 x -> is_Some (trans s !! wait4 x).
Proof.
  intros B Hx Hp. destruct (bd_clients _ _ _ _ _ B c x Hx) as (_ & _ & Hw & _).
  destruct Hw as [E|[[_ [E|[_ (tx & Htx & _)%fmap_Some]]]|(_ & tx & _ & Htx & _)]];
    [lia | unfold GLOBAL_ANY in E; lia | by exists tx | by exists tx].
Qed.

(** C36. When a caller leaves while a worker executes its call, from any consistent state in
    which no other client is in the middle of sending data that goes with it, the worker
    stays, but is left without the transaction, and its return, whatever it says, stops the
    switchboard with a null dereference. *)
Theorem caller_leaves_fatal s qs c x w t tx :
  sb_wf dm s -> board dm 0 0 s qs -> clients s !! c = Some x -> calm c s ->
  executes s w t tx -> t_client tx = c -> w <> c ->
  wp (del_client dm c) s (fun _ s' =>
    (exists wx, clients s' !! w = Some wx /\ wait4 wx = 0) /\
    forall call buf, buf <> NULL -> svrreturn dm call w buf s' = Fault NullDeref).
Proof.
  intros Hwf B Hx Hcalm Hexec Hc Hne. pose proof (executes_positive dm 0 s qs w t tx Hwf B Hexec) as Hp.
  destruct Hexec as (wx & ax & Hwx & Hw & Htx & _). destruct (wf_clients _ _ Hwf w wx Hwx) as [Hw0 _].
  eapply wp_mono; [by eapply del_client_run|]. intros [] s' (qs' & [[Hwf' B'] _ Hcl _ Htr _ _ _ _]).
  specialize (Hcl w Hne). rewrite Hwx in Hcl. inversion Hcl as [? wx' [_ Hun] E1 E2|]; subst. symmetry in E2.
  assert (wait4 wx' = 0) as E0.
  { destruct Hun as [E|[E _]]; [exfalso | done]. destruct (waits_for_trans 0 0 s' qs' w wx' B' E2) as [tx' Htx']; [lia|].
    destruct (Htr (wait4 wx') tx' Htx' ltac:(lia)) as (Hn & tx0 & Htx0 & [= Epl _]). rewrite E in Htx0. congruence. }
  split; [by exists wx'|]. intros call buf Hb. apply (svrreturn_unsolicited dm call s' w wx'); [lia | done | done | done].
Qed.

(** C39. When a worker leaves while it executes a call of a client that waits for any reply,
    from any consistent state in which no other client is in the middle of sending data that
    goes with it, and others offer the service too: the call is put among the caller's
    replies with its error, but nothing is sent to the caller, which goes on waiting.
    (The local variable that [del_client] compares with is not the one that
    [svrgetrply] stored; [part2], in the same situation, sends the reply.) *)
Theorem any_waiter_not_told s qs c x t tx cl :
  sb_wf dm s -> board dm 0 0 s qs -> clients s !! c = Some x -> calm c s ->
  executes s c t tx -> t_client tx <> c -> elsewhere c s (t_svc tx) ->
  clients s !! t_client tx = Some cl -> wait4 cl = GLOBAL_ANY ->
  wp (del_client dm c) s (fun _ s' => out s' = out s /\
    (exists cl', clients s' !! t_client tx = Some cl' /\ wait4 cl' = GLOBAL_ANY) /\
    trans s' !! t = Some (failed tx) /\
    exists qs' l, qrep (qm s') qs' /\ qs' !! Q_replies (t_client tx) = Some l /\ Q_t_clientq t ∈ l).
Proof.
  intros Hwf B Hx Hcalm Hexec Hne Hels Hcl Hw. pose proof (executes_positive dm 0 s qs c t tx Hwf B Hexec) as Hp.
  assert (lost_call s c = None) as Hlost.
  { destruct Hexec as (y & ay & Hy & Hwy & Htx & Hay & _). rewrite (lost_call_eq s c y t tx ay cl) by done.
    rewrite Hw, (proj2 (Z.eqb_neq GLOBAL_ANY t)) by (unfold GLOBAL_ANY; lia). by rewrite andb_false_r. }
  eapply wp_mono; [by eapply del_client_run|]. intros [] s' (qs' & [[_ B'] _ Hc' _ _ _ Htold Haside _]).
  unfold told_lost in Htold. rewrite Hlost in Htold.
  destruct (Haside t tx Hexec) as (Htx' & l & Hl & Hin); [by rewrite Hlost | done | done |].
  split; [done|]. specialize (Hc' (t_client tx) Hne). rewrite Hcl in Hc'.
  inversion Hc' as [? cl' [_ Hun] E1 E2|]; subst. split; [|split; [done|]].
  - exists cl'. split; [done|]. destruct Hun as [E|[_ Hpos]]; [congruence|]. rewrite Hw in Hpos. unfold GLOBAL_ANY in Hpos. lia.
  - exists qs', l. split; [|done]. apply (sn_queues _ _ (bd_sane _ _ _ _ _ B')).
Qed.

End Departures.

(** ** Witnesses *)

(** The worker, the client 1, executes the call 5 of the client 2, which has not asked for the
    reply yet. *)
Definition caller_idle : sb (bst Z) := state_of executing.

Lemma caller_leaves_fatal_witness :
  wp (del_client LP64 2) caller_idle (fun _ s' =>
    svrreturn LP64 (handle LP64 1) 1 (Ptr 1 32) s' = Fault NullDeref).
Proof.
  eapply wp_mono.
  - destruct (consistent_check LP64 caller_idle) as [Hwf B]; [vm_compute; reflexivity | vm_compute; reflexivity|].
    eapply (caller_leaves_fatal LP64 caller_idle (lists_of caller_idle) 2 _ 1 5 _ Hwf B);
      [vm_compute; reflexivity | | eexists _, _; split_and!; vm_compute; reflexivity | vm_compute; reflexivity | discriminate].
    apply calm_ok, (proj1 (bool_decide_eq_true _)). vm_compute. reflexivity.
  - intros [] s' [_ Hf]. apply Hf. discriminate.
Defined.

(** The same, with another worker of the service, and the caller waits for any reply. *)
Definition caller_waits_for_any : sb (bst Z) :=
  state_of (executing ;; connect_pass 6 ;; deliver 9 6 adv_bytes ;; deliver 9 5 (getrply_bytes 0 TPGETANY)).

Lemma any_waiter_not_told_witness :
  wp (del_client LP64 1) caller_waits_for_any (fun _ s' => stream 5 s' = stream 5 caller_waits_for_any /\
    rcode <$> trans s' !! 5 = Some TPESVCERR).
Proof.
  eapply wp_mono.
  - destruct (consistent_check LP64 caller_waits_for_any) as [Hwf B]; [vm_compute; reflexivity | vm_compute; reflexivity|].
    eapply (any_waiter_not_told LP64 caller_waits_for_any (lists_of caller_waits_for_any) 1 _ 5 _ _ Hwf B);
      [vm_compute; reflexivity | | eexists _, _; split_and!; vm_compute; reflexivity | discriminate | | vm_compute; reflexivity | vm_compute; reflexivity].
    + apply calm_ok, (proj1 (bool_decide_eq_true _)). vm_compute. reflexivity.
    + eexists 8, _. split_and!; [vm_compute; reflexivity | reflexivity | discriminate].
  - intros [] s' (Ho & _ & Ht & _). unfold stream. rewrite Ho, Ht. split; reflexivity.
Defined.
