(* ===== verification/Offering.v ===== *)
(** * A service is offered

    What a worker does before its first request: [tpadvertise], and the message with
    which [tpservice] asks for work.  From any sound switchboard, with the library at the
    worker's end, this leads to what [remote_call] asks for: a worker that waits for the
    service. *)

From Stdlib Require Import ZArith Lia.
From S2P Require Import Prelude Constants ByteOrder CString SearchTree Queue Memory TpMemory Keeps.
From S2P Require Import SbState SbObjects SbHandlers SbLemmas TxIo Xatmi Examples Dispatch EventLoop Registry Messages Replies.
From S2P Require Import Transactions Calls CallPath Advertising Scheduling Work Session Invariant Board Deletion Leaving.
From S2P Require Import Steady SteadyReturn SteadyWork SteadyCall SteadyAdvertise SteadyLoop SteadyRun SteadyCheck RoundTrip.

Local Open Scope Z_scope.

(** A word keeps its low half. *)
Lemma swrap_ulong dm z : swrap 32 (ulong dm z) = swrap 32 z.
Proof.
  unfold ulong. destruct dm; [apply swrap_uwrap|]. rewrite <- (swrap_mod 32 (uwrap _ z)), <- (swrap_mod 32 z).
  unfold uwrap. by rewrite Z.mod_mod_divide by (exists (2 ^ 32); reflexivity).
Qed.

Section Offering.
Context {T : Type} `{SearchTree T Z} (dm : data_model).
Implicit Types (s : sb T) (x : tpclient T) (qs : gmap qaddr (list qaddr)) (name : list byte).

(** ** The advertisement arrives *)

Definition advertise_arrives (c : Z) name (func : Z) : M (sb T) unit :=
  iowait_client dm c (ReadBytes [z2b TPTADVT]) ;; iowait_client dm c (ReadBytes (advertise_message name func)).

(** What has happened then: the service [svc] has the name, the advertisement [a] of it
    belongs to the client, and the client was answered with [code]. *)
Record offered s s' (c : Z) x name (func a svc code : Z) (ax : tpadvertisement) : Prop := {
  of_sound : sound dm s';
  of_answer : stream (fd x) s' = stream (fd x) s ++ le_encode 2 code;
  of_others f : f <> fd x -> stream f s' = stream f s;
  of_code : code = if a_opaque ax =? ulong dm (swrap 32 func) then 0 else TPEMATCH;
  of_service : registered s' name svc /\
    ((registered s name svc /\ svcs s' = svcs s) \/
     ((forall p, ~ registered s name p) /\ qlist s' (Q_waitq svc) = [] /\ svcs s !! svc = None /\
      svcs s' = <[svc := mkService (strncpy XATMI_SERVICE_NAME_LENGTH name) false 0 0]> (svcs s)));
  of_advert : advs s' !! a = Some ax /\ a_client ax = c /\ a_svc ax = svc /\
    ((advertised s x name a /\ advs s' = advs s) \/
     ((forall b, ~ advertised s x name b) /\ advs s !! a = None /\
      a_opaque ax = ulong dm (swrap 32 func) /\ advs s' = <[a := ax]> (advs s)));
  of_client : exists x', clients s' = <[c := x']> (clients s) /\ commanding s' c x' /\
    fd x' = fd x /\ wait4 x' = wait4 x /\ forall b, b ∈ twalk (adverts x') <-> b = a \/ b ∈ twalk (adverts x);
  of_queues p : is_Some (svcs s !! p) -> qlist s' (Q_waitq p) = qlist s (Q_waitq p);
  of_trans : trans s' = trans s;
}.

(** The list at a header depends only on the links. *)
Lemma qlist_rep s qs h l : qrep (qm s) qs -> qs !! h = Some l -> qlist s h = l.
Proof. intros Hq Hl. unfold qlist. by rewrite (qelements_queue _ _ l) by by apply (qr_queue _ _ Hq). Qed.

Section Made.
Context (s s2 s3 s' : sb T) (qs qs1 : gmap qaddr (list qaddr)) (c a svc func : Z) (x x2 x3 : tpclient T) (name : list byte)
  (buf : ptr).
Hypothesis same : svcs s2 = svcs s /\ advs s2 = advs s /\ services s2 = services s /\ trans s2 = trans s /\ qm s2 = qm s /\
  out s2 = out s /\ clients s2 = <[c := x2]> (clients s).
Hypothesis same_client : adverts x2 = adverts x /\ fd x2 = fd x /\ wait4 x2 = wait4 x.
Hypothesis lists : qrep (qm s2) qs.
Hypothesis tree : adverts_reg s2 x2 /\ forall b, b ∈ twalk (adverts x2) -> a_client <$> advs s2 !! b = Some c.
Hypothesis names : registry_ok s2 /\ forall p, is_Some (svcs s2 !! p) -> p ∈ twalk (services s2) /\ is_Some (qs !! Q_waitq p).
Hypothesis made : advert_made dm s2 s3 c x2 name (swrap 32 func) a svc qs qs1.
Hypothesis client : clients s3 !! c = Some x3.
Hypothesis answer : told dm (freed buf s3) s' c x3 (le_encode 2 (advertise_code dm s2 a func)).

(** The advertisement that was found or made. *)
Lemma made_advert : exists ax, advs s' !! a = Some ax /\ a_client ax = c /\ a_svc ax = svc /\
  advertise_code dm s2 a func = (if a_opaque ax =? ulong dm (swrap 32 func) then 0 else TPEMATCH) /\
  ((advertised s x name a /\ advs s' = advs s) \/
   ((forall b, ~ advertised s x name b) /\ advs s !! a = None /\
    a_opaque ax = ulong dm (swrap 32 func) /\ advs s' = <[a := ax]> (advs s))).
Proof.
  destruct same as (Es & Ea & Eserv & _), same_client as (Ex & _), made as [[_ Hr] Hsv Hadv _ _ _].
  destruct (td_rest _ _ _ _ _ _ answer) as (_ & _ & _ & Ea' & _). cbn in Ea'.
  assert (forall b, advertised s2 x2 name b <-> advertised s x name b) as Hiff.
  { intros b. unfold advertised, akey, adv_name. by rewrite Ex, Ea, Es. }
  destruct Hadv as [(Hadv & Ea3 & _)|(Hno & Hfr & Ea3 & _)].
  - pose proof Hadv as [Hin Hk]. destruct (proj1 (proj1 tree) a Hin) as (_ & ax & Hax & sv & Hsv2).
    pose proof (proj2 tree a Hin) as Hown. rewrite Hax in Hown. injection Hown as Hown.
    assert (registered s2 name (a_svc ax)) as Hreg.
    { split; [apply names; by exists sv|]. rewrite <- Hk. unfold key, akey, svc_name, adv_name. by rewrite Hax. }
    exists ax. rewrite Ea', Ea3. split_and!; [done | done | | by unfold advertise_code; rewrite Hax |].
    + destruct Hsv as [(Hreg' & _)|(Hnone & _)]; [|by destruct (Hnone _ Hreg)].
      eapply (registered_unique s2 name); [apply names | done | done].
    + left. split; [by apply Hiff | done].
  - eexists. rewrite Ea', Ea3, lookup_insert_eq. split_and!; [done | done | done | |].
    + unfold advertise_code. rewrite Hfr. cbn [a_opaque]. by rewrite Z.eqb_refl.
    + right. rewrite <- Ea. split_and!; [|done | done | done]. intros b Hb. by apply (Hno b), Hiff.
Qed.

(** Its service. *)
Lemma made_service_named : registered s' name svc /\
    ((registered s name svc /\ svcs s' = svcs s) \/
     ((forall p, ~ registered s name p) /\ qlist s' (Q_waitq svc) = [] /\ svcs s !! svc = None /\
      svcs s' = <[svc := mkService (strncpy XATMI_SERVICE_NAME_LENGTH name) false 0 0]> (svcs s))).
Proof.
  destruct same as (Es & Ea & Eserv & _ & Eq & _), made as [[_ Hr] Hsv Hadv _ _ Hfr].
  destruct (td_rest _ _ _ _ _ _ answer) as (Eq' & _ & Es' & _ & Eserv' & _). cbn in Eq', Es', Eserv'.
  assert (forall p, registered s2 name p <-> registered s name p) as Hiff.
  { intros p. unfold registered, key, svc_name. by rewrite Eserv, Es. }
  assert (forall l, qs1 !! Q_waitq svc = Some l -> qlist s' (Q_waitq svc) = l) as Hl.
  { intros l Hl. destruct Hadv as [(_ & _ & _ & Hq)|(_ & _ & _ & Hq & _)]; rewrite <- Eq' in Hq; eapply qlist_rep; [exact Hq | done | exact Hq |].
    by rewrite lookup_insert_ne. }
  split; [unfold registered, key, svc_name in *; by rewrite Eserv', Es'|].
  rewrite Es', <- Es. destruct Hsv as [(Hreg & E & ->)|(Hno & -> & E)].
  - left. split; [by apply Hiff | done].
  - right. split; [intros p Hp; by apply (Hno p), Hiff|]. split; [apply Hl, lookup_insert_eq|]. split; [by apply Hfr | done].
Qed.

(** Nobody is put on a queue or taken off it. *)
Lemma made_queues p : is_Some (svcs s !! p) -> qlist s' (Q_waitq p) = qlist s (Q_waitq p).
Proof.
  destruct same as (Es & _ & _ & _ & Eq & _), made as [_ Hsv Hadv _ _ Hfr]. rewrite <- Es. intros Hp.
  destruct (td_rest _ _ _ _ _ _ answer) as (Eq' & _). cbn in Eq'.
  destruct (proj2 (proj2 names p Hp)) as [l Hl]. rewrite (qlist_rep s qs _ l); [|by rewrite <- Eq | done].
  assert (qs1 !! Q_waitq p = Some l) as Hl1.
  { destruct Hsv as [(_ & _ & ->)|(Hno & -> & _)]; [done|]. rewrite lookup_insert_ne; [done|].
    intros [= <-]. rewrite (Hfr Hno) in Hp. by destruct Hp. }
  destruct Hadv as [(_ & _ & _ & Hq)|(_ & _ & _ & Hq & _)]; rewrite <- Eq' in Hq; eapply qlist_rep; [exact Hq | done | exact Hq |].
  by rewrite lookup_insert_ne.
Qed.

(** The client. *)
Lemma made_client : exists x', clients s' = <[c := x']> (clients s) /\ commanding s' c x' /\
    fd x' = fd x /\ wait4 x' = wait4 x /\ forall b, b ∈ twalk (adverts x') <-> b = a \/ b ∈ twalk (adverts x).
Proof.
  destruct same as (_ & _ & _ & _ & _ & _ & Ec), same_client as (Ex & Ef & Ew), made as [_ _ Hadv _ _ _].
  destruct (td_clients _ _ _ _ _ _ answer) as (p & Ec' & _ & _). cbn in Ec'. rewrite <- Ex, <- Ef, <- Ew.
  exists (set_io 0 p (Some H_command) x3). destruct Hadv as [(Hadv & _ & Ec3 & _)|(_ & _ & _ & _ & t' & Ec3 & _ & Hperm)];
    rewrite Ec3 in Ec'; unfold commanding; rewrite Ec'; assert (exists y, x3 = y) as [y Ey] by eauto;
    pose proof client as Hx3; rewrite Ec3, ?Ec, lookup_insert_eq in Hx3; injection Hx3 as <-.
  - rewrite Ec, insert_insert_eq, lookup_insert_eq. split_and!; try done. intros b. split; [by right|].
    intros [->|?]; [apply Hadv | done].
  - rewrite Ec, !insert_insert_eq, lookup_insert_eq. split_and!; try done. intros b. cbn. rewrite Hperm. by rewrite elem_of_cons.
Qed.

Lemma made_offered : sound dm s' -> exists code ax, offered s s' c x name func a svc code ax.
Proof.
  intros Hs'. destruct made_advert as (ax & Hax & Hc & Hsv & Hcode & Hadv). exists (advertise_code dm s2 a func), ax.
  destruct same as (_ & _ & _ & Et & _ & Eo & _), (am_rest _ _ _ _ _ _ _ _ _ _ _ made) as (_ & Eo3 & Et3 & _).
  destruct made_client as (x' & Ec' & Hx' & Ef & Hrest), same_client as (_ & Ef2 & _).
  assert (fd x3 = fd x) as Ef3.
  { destruct (td_clients _ _ _ _ _ _ answer) as (p & E & _). cbn in E. destruct Hx' as [Hx' _]. rewrite E, lookup_insert_eq in Hx'.
    injection Hx' as <-. exact Ef. }
  constructor; try done; [| | apply made_service_named | by exists x' | apply made_queues |].
  - rewrite <- Ef3, (td_client _ _ _ _ _ _ answer). unfold stream. cbn. by rewrite Eo3, Eo.
  - intros f Hf. rewrite (td_others _ _ _ _ _ _ answer) by congruence. unfold stream. cbn. by rewrite Eo3, Eo.
  - destruct (td_rest _ _ _ _ _ _ answer) as (_ & -> & _). cbn. by rewrite Et3, Et.
Qed.

End Made.

Lemma wp_advertise_arrives s c x name func :
  sound dm s -> commanding s c x -> length name = XATMI_SERVICE_NAME_LENGTH ->
  wp (advertise_arrives c name func) s (fun _ s' => exists a svc code ax, offered s s' c x name func a svc code ax).
Proof.
  intros Hs Hx Hn. pose proof (sound_nonzero dm s c x Hs (proj1 Hx)) as Hc.
  assert (length (advertise_message name func) = 19%nat) as H19
    by (unfold advertise_message; rewrite length_app, length_le_encode, Hn; done).
  unfold advertise_arrives. wp_step.
  eapply (wp_first dm s c x _ H_svradvertise 19); [done | done | done | done |].
  intros p m s1 Hs1 Hx1 He1 _ _. set (x1 := set_io 0 p (Some H_svradvertise) x) in *. rewrite <- H19 in He1.
  assert (advertise_message name func <> []) as Hne by (intros E; by rewrite E in H19).
  eapply (wp_whole dm s1 c x1 H_svradvertise); [done | done | done | done | done |].
  pose proof Hs1 as [[Hwf1 [qs B1]] Hps1].
  eapply (wp_arrives dm s1 c x1 H_svradvertise (advertise_message name func) qs); [done | exact Hx1 | exact He1 | done | apply B1 |].
  intros m2 Hsane2 Hm2 _. set (s2 := arrived s1 c x1 m2) in *. set (x2 := set_io 0 NULL None x1) in *.
  unfold HANDLE_DEPTH. rewrite handle_S. destruct (bd_clients _ _ _ _ _ B1 c x1 Hx1) as (Hreg & Hown & _).
  destruct (wf_fresh dm s1 qs Hwf1 (bd_sane _ _ _ _ _ B1)) as [Hfs Hfa]. destruct (bd_registry _ _ _ _ _ B1) as [Hro Hall].
  assert (adverts_reg s2 x2) as Hreg2 by (by eapply (adverts_reg_same s1)).
  eapply wp_mono; [eapply (svradvertise_run dm s2 c x2 (input x1) name func qs); try done|].
  - apply lookup_insert_eq.
  - intros [] s' (a & s3 & svc & qs1 & x3 & _ & Hmade & Hx3 & Ht) Hs'. exists a, svc.
    eapply (made_offered s s2 s3 s' qs qs1 c a svc func x x2 x3); try done.
    + cbn. rewrite insert_insert_eq. done.
    + apply Hsane2.
    + split; [by eapply (registry_same s1)|]. intros p1 Hp1. split; [by apply Hall|].
      by apply (bd_heads _ _ (bd_listed _ _ _ _ _ B1) (Q_waitq p1)).
Qed.

(** ** The worker asks for work *)

Definition work_arrives (c : Z) : M (sb T) unit := iowait_client dm c (ReadBytes [z2b TPTWORK]).

(** No transaction waits for a service of the client. *)
Definition nothing_waits s x : Prop := forall a ax t,
  a ∈ twalk (adverts x) -> advs s !! a = Some ax -> Q_t_svc_waitq t ∉ qlist s (Q_waitq (a_svc ax)).

(** The client waits, at the end of the queue of each of its services. *)
Record put_aside s s' (c : Z) x : Prop := {
  pa_sound : sound dm s';
  pa_same : out s' = out s /\ trans s' = trans s /\ advs s' = advs s /\ services s' = services s;
  pa_client : clients s' = <[c := set_io 0 NULL None x]> (clients s);
  pa_queues a ax : a ∈ twalk (adverts x) -> advs s !! a = Some ax ->
    qlist s' (Q_waitq (a_svc ax)) = qlist s (Q_waitq (a_svc ax)) ++ [Q_adv_waitq a];
  pa_svcs : svcs s' = unset_all s (twalk (adverts x)) (svcs s);
}.

Lemma one_for_each s x : adverts_reg s x -> NoDup (twalk (adverts x)) /\ NoDup (svc_of s <$> twalk (adverts x)).
Proof.
  intros [Hl Ho]. apply tordered_nodup in Ho. split; [by eapply NoDup_fmap_1|].
  apply (NoDup_fmap_1 (key_of ∘ svc_name s)). rewrite <- list_fmap_compose.
  erewrite list_fmap_ext; [exact Ho|]. intros i a Ha%list_elem_of_lookup_2. destruct (Hl a Ha) as (_ & ax & Hax & _).
  unfold akey, adv_name, svc_of. cbn. by rewrite Hax.
Qed.

Lemma nothing_arrival s qs x a :
  sane s qs -> nothing_waits s x -> a ∈ twalk (adverts x) -> waiting_arrival s qs a = None.
Proof.
  intros Hs Hno Ha. unfold waiting_arrival. destruct (advs s !! a) as [ax|] eqn:Hax; [|done]. cbn.
  destruct (svcs s !! a_svc ax) as [sv|]; [|done]. cbn. destruct (qs !! Q_waitq (a_svc ax)) as [l|] eqn:Hl; [|done]. cbn.
  destruct (wait_contains_transactions sv); [|done]. destruct l as [|[] l]; try done.
  exfalso. eapply (Hno a ax); [done | done |]. rewrite (qlist_eq s qs _ _ Hs Hl). by left.
Qed.

Lemma wp_work_arrives s c x :
  sound dm s -> commanding s c x -> wait4 x = 0 -> nothing_waits s x -> wp (work_arrives c) s (fun _ s' => put_aside s s' c x).
Proof.
  intros Hs Hx Hw Hno. pose proof (sound_nonzero dm s c x Hs (proj1 Hx)) as Hc.
  pose proof (commanding_expects dm s c x Hs Hx) as He. destruct Hx as (Hx & Hh & Hu).
  pose proof Hs as [[Hwf [qs B]] Hps]. pose proof (bd_sane _ _ _ _ _ B) as Hsane.
  destruct (sending_free dm s qs c x B Hx ltac:(by rewrite Hh)) as [_ Hnw].
  destruct (bd_clients _ _ _ _ _ B c x Hx) as (Hreg & Hown & _). destruct (one_for_each s x Hreg) as [Hnd1 Hnd2].
  unfold work_arrives. eapply (wp_whole dm s c x H_command); [done | done | exact He | done | |].
  { split; [done|]. intros a ax t l Ha Hax Hl. exfalso. apply (Hno a ax t Ha Hax). rewrite Hl. by left. }
  eapply (wp_arrives dm s c x H_command [z2b TPTWORK] qs); [done | exact Hx | exact He | done | done |].
  intros m2 Hs2 [Hb2 Hd2] _. unfold HANDLE_DEPTH. rewrite handle_S.
  pose proof (command_run dm (handle dm 2) (arrived s c x m2) c (set_io 0 NULL None x) (input x) (z2b TPTWORK) Hc
    ltac:(apply lookup_insert_eq) ltac:(done) Hb2 Hd2 ltac:(apply Hs2) ltac:(apply memory_left_oom, Hs2)) as Hrun.
  change (commands !! Z.to_nat (b2z (z2b TPTWORK))) with (Some (H_svrservice, 0%nat)) in Hrun.
  destruct Hrun as (p & m3 & Hp & _ & Hwf3 & Ho3 & _ & _ & E). unfold wp at 1. rewrite E. clear E.
  set (s3 := set_mem m3 (arrived s c x m2)).
  change (wp (svrservice dm c p) s3 (fun _ s' => sound dm s' -> put_aside s s' c x)).
  assert (sane s3 qs) as Hs3 by (split; [apply Hs2 | exact Hwf3 | apply Ho3, Hs2]).
  eapply (wp_svrservice dm s3 c (set_io 0 NULL None x) p qs);
    [done | apply lookup_insert_eq | done | by apply empty_message | intros a Ha; by apply (own_scannable dm s qs c x) | |].
  2: { intros e v He' Hv. exfalso. change (waiting_arrival s qs e = Some v) in Hv. by rewrite (nothing_arrival s qs x) in Hv. }
  intros _. eapply (wp_add_all _ (set_earliest 0 (freed p s3)) qs); [apply Hs3 | done | |].
  - intros a Ha. destruct (own_scannable dm s qs c x a Hwf B Hx Ha) as (Ha0 & ax & sv & w & Hax & Hs1 & Hsv & Hwq & _).
    split; [done|]. split; [|by apply (spare_advert dm s qs c x)]. exists ax. split_and!; eauto.
  - intros m' Q' Hs'. constructor; [done | done | done | | done].
    intros a ax Ha Hax. assert (svc_of s a = a_svc ax) as Esv by (unfold svc_of; by rewrite Hax).
    destruct (own_scannable dm s qs c x a Hwf B Hx Ha) as (_ & ax' & sv & w & Hax' & _ & _ & Hwq & _).
    assert (ax' = ax) as -> by congruence. rewrite (qlist_eq s qs _ w Hsane Hwq).
    apply (qlist_rep _ (q_wait_all (set_earliest 0 (freed p s3)) (twalk (adverts x)) qs)); [exact Q'|]. rewrite <- Esv.
    apply (q_wait_all_lookup (set_earliest 0 (freed p s3))); [exact Hnd2 | done |].
    change (svc_of (set_earliest 0 (freed p s3)) a) with (svc_of s a). by rewrite Esv.
Qed.

(** ** A worker that waits for the service *)

Lemma unset_all_lookup s l m p sv :
  m !! p = Some sv -> exists sv', unset_all s l m !! p = Some sv' /\ svcname sv' = svcname sv.
Proof.
  revert m sv. induction l as [|a l IH]; intros m sv Hm; [by exists sv|]. unfold unset_all in *. cbn [foldl].
  destruct (decide (svc_of s a = p)) as [E|Hne].
  - destruct (IH (alter (set_wct false) (svc_of s a) m) (set_wct false sv)) as (sv' & E' & En); [|by exists sv'].
    by rewrite E, lookup_alter_eq, Hm.
  - apply IH. by rewrite lookup_alter_ne.
Qed.

(** Who offers a service on whose queue nobody is, and waits, is first on it. *)
Lemma offered_served s s1 s2 c x x1 name func a svc code ax :
  offered s s1 c x name func a svc code ax -> clients s1 !! c = Some x1 -> a ∈ twalk (adverts x1) ->
  qlist s1 (Q_waitq svc) = [] -> put_aside s1 s2 c x1 -> exists sv, served_by s2 name svc a sv ax (set_io 0 NULL None x1).
Proof.
  intros [Hs1 _ _ _ [[Hin Hk] _] (Hax & Hc & Hsv & _) _ _ _] Hx1 Ha Hq [_ (_ & _ & Ea & Eserv) Ec2 Hqs Es].
  destruct Hs1 as [[_ [qs B1]] _]. destruct (proj1 (proj1 (bd_registry _ _ _ _ _ B1)) svc Hin) as [_ [sv Hsv1]].
  destruct (unset_all_lookup s1 (twalk (adverts x1)) (svcs s1) svc sv Hsv1) as (sv' & Hsv' & En). rewrite <- Es in Hsv'.
  exists sv'. split; [split; [by rewrite Eserv|] | split_and!; [done | | by rewrite Ea | by rewrite Hc, Ec2, lookup_insert_eq]].
  - unfold key, svc_name in *. rewrite Hsv'. cbn. rewrite Hsv1 in Hk. cbn in Hk. by rewrite En.
  - exists []. rewrite <- Hsv, (Hqs a ax Ha Hax), Hsv, Hq. done.
Qed.

(** The first offer is accepted. *)
Lemma offered_new s s1 c x name func a svc code ax :
  offered s s1 c x name func a svc code ax -> (forall b, ~ advertised s x name b) -> code = 0.
Proof.
  intros [_ _ _ -> _ (_ & _ & _ & [[Ha _]|(_ & _ & -> & _)]) _ _ _] Hno; [by destruct (Hno a)|]. by rewrite Z.eqb_refl.
Qed.

(** Offering a service puts no transaction on a queue. *)
Lemma offered_nothing s s1 c x x1 name func a svc code ax :
  sound dm s -> clients s !! c = Some x ->
  offered s s1 c x name func a svc code ax -> (forall p, registered s name p -> qlist s (Q_waitq p) = []) -> nothing_waits s x ->
  (forall b, b ∈ twalk (adverts x1) <-> b = a \/ b ∈ twalk (adverts x)) ->
  qlist s1 (Q_waitq svc) = [] /\ nothing_waits s1 x1.
Proof.
  intros [[_ [qs B]] _] Hx [_ _ _ _ [_ Hsv] (Hax & _ & Hs & Hadv) _ Hqs _] Hempty Hno Hall.
  assert (qlist s1 (Q_waitq svc) = []) as Hq.
  { destruct Hsv as [[Hreg _]|(_ & ? & _)]; [|done]. rewrite Hqs; [by apply Hempty|].
    by apply (proj1 (proj1 (bd_registry _ _ _ _ _ B)) svc), Hreg. }
  split; [done|]. intros b bx t Hb Hbx. destruct (decide (b = a)) as [->|Hne].
  - assert (bx = ax) as -> by congruence. rewrite Hs, Hq. apply not_elem_of_nil.
  - apply Hall in Hb as [?|Hb]; [done|]. assert (advs s !! b = Some bx) as Hbx0.
    { destruct Hadv as [[_ E]|(_ & _ & _ & E)]; rewrite E in Hbx; [done|]. by rewrite lookup_insert_ne in Hbx by done. }
    rewrite Hqs; [by apply (Hno b bx t)|].
    destruct (bd_clients _ _ _ _ _ B c x Hx) as ([Hreg _] & _). destruct (Hreg b Hb) as (_ & bx' & Hbx' & sv & Hsv').
    rewrite Hbx0 in Hbx'. injection Hbx' as <-. by exists sv.
Qed.

(** ** Properties *)


End Offering.

(** ** Witness *)

(** A client has connected to a new switchboard. *)
Definition newcomer : sb (bst Z) := default start (run_check LP64 master [connects 4] start).
Definition newcomer_client : tpclient (bst Z) := mkClient 4 0 (Ptr 1 32) (Some H_command) Leaf 0.

Lemma newcomer_sound : sound LP64 newcomer.
Proof.
  apply (disciplined_sound LP64 master). apply (run_check_ok LP64 master [connects 4] start); [by apply disciplined_start|].
  vm_compute. reflexivity.
Qed.

Lemma newcomer_adverts b : b ∉ twalk (adverts newcomer_client).
Proof. apply not_elem_of_nil. Qed.

Lemma newcomer_services p : p ∉ twalk (services newcomer).
Proof. assert (twalk (services newcomer) = []) as -> by (vm_compute; reflexivity). apply not_elem_of_nil. Qed.

