(* ===== verification/Repeated.v ===== *)
(** * A request is executed twice

    A request that finds no worker waits on the queue of its service.  The first worker
    that asks for work is sent the request, but nobody takes it off the queue, and the
    next worker is sent it too. *)

From Stdlib Require Import ZArith Lia.
From S2P Require Import Prelude Constants ByteOrder CString SearchTree Queue Memory TpMemory Keeps.
From S2P Require Import SbState SbObjects SbHandlers SbLemmas TxIo Xatmi Dispatch EventLoop Registry Messages Replies.
From S2P Require Import Transactions Calls CallPath Advertising Scheduling Work Session Invariant Board.
From S2P Require Import Steady SteadyWork SteadyCall SteadyLoop SteadyRun SteadyCheck RoundTrip Offering.

Local Open Scope Z_scope.

Section Repeated.
Context {T : Type} `{SearchTree T Z} (dm : data_model).
Implicit Types (s : sb T) (x : tpclient T) (tx : tptransaction) (qs : gmap qaddr (list qaddr)).

(** A worker that offers one service, and the transaction that waits first for it. *)
Record may_get s qs (w a t : Z) x (ax : tpadvertisement) tx (sv : SbState.tpservice) (len : Z) (l : list qaddr) : Prop := {
  mg_client : w <> 0 /\ clients s !! w = Some x /\ expects dm s x H_command 1;
  mg_sane : sane s qs;
  mg_adverts : twalk (adverts x) = [a];
  mg_advert : a <> 0 /\ advs s !! a = Some ax /\ a_client ax = w /\ a_svc ax <> 0 /\ qnode qs (Q_adv_waitq a);
  mg_service : svcs s !! a_svc ax = Some sv /\ wait_contains_transactions sv = true;
  mg_trans : t <> 0 /\ trans s !! t = Some tx /\ t_svc tx = a_svc ax;
  mg_data : tpbuf dm (tp_heap (mem s)) (t_data tx) len /\ pblk (t_data tx) <> pblk (input x);
  mg_queue : qs !! Q_waitq (a_svc ax) = Some (Q_t_svc_waitq t :: l);
}.

(** The worker was sent the transaction; the queue of the service has it still. *)
Record got s s' qs (w a t : Z) x tx (bs : list byte) : Prop := {
  gt_worker : stream (fd x) s' = stream (fd x) s ++ bs;
  gt_others f : f <> fd x -> stream f s' = stream f s;
  gt_clients : exists p, clients s' = <[w := set_io 0 p (Some H_command) (set_wait4 t x)]> (clients s);
  gt_trans : trans s' = <[t := set_executor a tx]> (trans s);
  gt_sane : sane s' (qremove (Q_adv_waitq a) qs);
  gt_buffers p len : tpbuf dm (tp_heap (mem s)) p len -> pblk p <> pblk (input x) ->
    tpbuf dm (tp_heap (mem s')) p len /\ tpdata (tp_heap (mem s')) p len = tpdata (tp_heap (mem s)) p len;
  gt_rest : svcs s' = svcs s /\ advs s' = advs s;
}.

Lemma wp_got s qs w a t x ax tx sv len l :
  may_get s qs w a t x ax tx sv len l ->
  wp (work_arrives dm w) s (fun _ s' => got s s' qs w a t x tx
    (work_message (a_opaque ax) (svcname sv) len (t_flags tx) (cd tx) (tpdata (tp_heap (mem s)) (t_data tx) len))).
Proof.
  intros [(Hw & Hx & He) Hs Hl (Ha & Hax & Hc & Hs0 & Hn) (Hsv & Hwct) (Ht & Htx & Hts) (Hb & Hbx) Hq].
  unfold work_arrives. eapply (wp_arrives dm s w x H_command [z2b TPTWORK] qs); [done | exact Hx | exact He | done | done |].
  intros m2 Hs2 [Hb2 Hd2] Hsame2. unfold HANDLE_DEPTH. rewrite handle_S.
  pose proof (command_run dm (handle dm 2) (arrived s w x m2) w (set_io 0 NULL None x) (input x) (z2b TPTWORK) Hw
    ltac:(apply lookup_insert_eq) ltac:(done) Hb2 Hd2 ltac:(apply Hs2) ltac:(apply memory_left_oom, Hs2)) as Hrun.
  change (commands !! Z.to_nat (b2z (z2b TPTWORK))) with (Some (H_svrservice, 0%nat)) in Hrun.
  destruct Hrun as (p & m3 & Hp & _ & Hwf3 & Ho3 & Hsame3 & Hfresh & E). unfold wp at 1. rewrite E. clear E.
  set (s3 := set_mem m3 (arrived s w x m2)). set (x3 := set_io 0 NULL None x).
  assert (forall q k, tpbuf dm (tp_heap (mem s)) q k -> pblk q <> pblk (input x) ->
    tpbuf dm (tp_heap (mem (freed p s3))) q k /\ tpdata (tp_heap (mem (freed p s3))) q k = tpdata (tp_heap (mem s)) q k) as Hkeep.
  { intros q k Hqb Hne. destruct (tpbuf_frame dm _ _ _ q k Hsame2 Hne Hqb) as [Hq2 <-].
    destruct (tpbuf_frame dm (tp_heap m2) _ _ q k Hsame3 Hne Hq2) as [Hq3 <-]. apply (freed_kept dm s3 p); [|exact Hq3].
    intros Epq. destruct Hq2 as (_ & _ & b & Hbq & _). rewrite Epq in Hbq.
    change (blocks (tp_heap m2) !! pblk p = None) in Hfresh. congruence. }
  change (wp (svrservice dm w p) s3 (fun _ s' => got s s' qs w a t x tx
    (work_message (a_opaque ax) (svcname sv) len (t_flags tx) (cd tx) (tpdata (tp_heap (mem s)) (t_data tx) len)))).
  assert (sane s3 qs) as Hs3 by (split; [apply Hs2 | exact Hwf3 | apply Ho3, Hs2]).
  assert (waiting_arrival s qs a = Some (arrival tx)) as Harr.
  { unfold waiting_arrival. rewrite Hax. cbn. rewrite Hsv. cbn. rewrite Hq. cbn. rewrite Hwct, Htx. done. }
  eapply (wp_svrservice dm s3 w x3 p qs); [done | apply lookup_insert_eq | done | by apply empty_message | | |];
    cbn [adverts set_io x3]; rewrite Hl.
  - intros b ->%list_elem_of_singleton. split; [done|]. exists ax, sv, (Q_t_svc_waitq t :: l).
    split_and!; try done. intros _. right. exists t, l. split_and!; [done | done | by exists tx].
  - intros Hnone. specialize (Hnone a ltac:(by left)). change (waiting_arrival s qs a = None) in Hnone. congruence.
  - intros e v ->%list_elem_of_singleton _ _. destruct (Hkeep _ _ Hb Hbx) as [Hb3 Hd3].
    set (s4 := set_earliest a (freed p s3)) in *. pose proof (freed_sane s3 p qs Hs3) as [Hq4 Hwf4 Hm4].
    wp_step. unfold FIRSTTRAN. wp_step. eapply wp_get_adv; [done | exact Hax |].
    wp_step. eapply wp_in_q_read; [eapply QFIRST_queue, (qr_queue _ _ Hq4), Hq|].
    unfold offset_t_svc_waitq. wp_step. pose proof Hsv as Hsvt. rewrite <- Hts in Hsvt.
    eapply wp_mono; [eapply (send_to_server_run dm s4 w a t x3 ax tx sv qs len); try done; try congruence|].
    + apply lookup_insert_eq.
    + intros b Hbin. cbn [adverts set_io x3] in Hbin. rewrite Hl in Hbin. apply list_elem_of_singleton in Hbin as ->.
      split; [done|]. split; [by exists ax | done].
    + by apply memory_left_oom.
    + intros [] s' [S1 S2 (p' & S3 & _) S4 S5 S6 [S7 S8] (S9 & S10 & _)]. rewrite <- Hd3. constructor; try done.
      * exists p'. rewrite S3. cbn. by rewrite insert_insert_eq.
      * split; [|done | by apply S8]. cbn [adverts set_io x3] in S5. rewrite Hl in S5. exact S5.
      * intros q k Hqb Hne. destruct (Hkeep q k Hqb Hne) as [Hq1 <-]. by apply S6.
Qed.

(** In a sound state. *)
Lemma sound_may_get s qs w a t x ax l :
  sb_wf dm s -> board dm 0 0 s qs -> commanding s w x -> twalk (adverts x) = [a] -> advs s !! a = Some ax ->
  qs !! Q_waitq (a_svc ax) = Some (Q_t_svc_waitq t :: l) ->
  exists tx sv len, may_get s qs w a t x ax tx sv len l.
Proof.
  intros Hwf B (Hx & Hh & Hu) Hl Hax Hq. assert (w <> 0) as Hw by (eapply wf_nonzero; [done | by exists x]).
  destruct (bd_clients _ _ _ _ _ B w x Hx) as (_ & Hown & _ & Hio). destruct (Hio Hw _ Hh) as ((k & Hb & _ & ->) & _).
  pose proof (Hown a ltac:(rewrite Hl; by left)) as Hc. rewrite Hax in Hc. injection Hc as Hc.
  destruct (wf_advs _ _ Hwf a ax Hax) as [Ha0 (_ & Hs0 & _)].
  destruct (bd_lists _ _ (bd_listed _ _ _ _ _ B) _ _ _ Hq ltac:(by left)) as (Ht & (tx & Htx & Hts)%fmap_Some & (sv & Hsv & Hwct)%fmap_Some).
  destruct (bd_trans _ _ _ _ _ B t tx Htx Ht) as (_ & (len & Hd & _) & _). exists tx, sv, len. constructor; try done.
  - apply B.
  - split_and!; [lia | done | done | done |]. apply (bd_spares _ _ (bd_listed _ _ _ _ _ B)). by exists ax.
  - split_and!; [lia | done | done].
  - split; [done|]. intros E. apply (bd_input _ _ (bd_apart _ _ _ _ _ B) w x t tx); try done. by exists H_command.
Qed.

(** The worker that comes next finds the same. *)
Lemma got_may_get s s' qs w1 a1 t x1 tx bs w2 a2 x2 ax2 sv len l :
  got s s' qs w1 a1 t x1 tx bs -> may_get s qs w2 a2 t x2 ax2 tx sv len l -> w1 <> w2 ->
  pblk (input x2) <> pblk (input x1) -> pblk (t_data tx) <> pblk (input x1) ->
  qnode qs (Q_adv_waitq a1) -> exists l', may_get s' (qremove (Q_adv_waitq a1) qs) w2 a2 t x2 ax2 (set_executor a1 tx) sv len l'.
Proof.
  intros [_ _ (p & Ec) Et Hs' Hb (Es & Ea)] [(Hw & Hx & He1 & He2 & He3) Hs Hl (Ha & Hax & Hc & Hs0 & Hn) Hsv (Ht & Htx & Hts) (Hd & Hdx) Hq]
    Hne Hi1 Hi2 Hn1.
  exists (filter (fun y => y <> Q_adv_waitq a1) l). constructor; try done.
  - split; [done|]. split; [by rewrite Ec, lookup_insert_ne|]. split_and!; [done | done |]. by apply Hb.
  - rewrite Ea. split_and!; try done. by apply (qnode_qremove (qm s)); [apply Hs|..].
  - by rewrite Es.
  - split; [done|]. split; [by rewrite Et, lookup_insert_eq | done].
  - split; [by apply Hb | done].
  - unfold qremove. rewrite lookup_insert_ne, lookup_fmap, Hq by done. change (Some (filter (fun y => y <> Q_adv_waitq a1) (Q_t_svc_waitq t :: l)) = Some (Q_t_svc_waitq t :: filter (fun y => y <> Q_adv_waitq a1) l)).
    by rewrite filter_cons_True.
Qed.

(** ** Properties *)

(** C40. A request that waited is executed twice.  In any sound state of the switchboard in
    which a transaction waits first for a service, two workers that offer only this service
    ask for work one after the other; no fault happens, both are sent the whole request,
    with the same descriptor, and both are recorded as executing the one transaction, which
    remembers only the second.  ([send_to_server] takes the worker off the queue of the
    service, but not the transaction.) *)
Theorem queued_request_sent_twice s svc w1 w2 a1 a2 t x1 x2 ax1 ax2 l :
  sound dm s -> commanding s w1 x1 -> commanding s w2 x2 -> w1 <> w2 ->
  twalk (adverts x1) = [a1] -> twalk (adverts x2) = [a2] ->
  advs s !! a1 = Some ax1 -> advs s !! a2 = Some ax2 -> a_svc ax1 = svc -> a_svc ax2 = svc ->
  qlist s (Q_waitq svc) = Q_t_svc_waitq t :: l ->
  exists tx sv len, trans s !! t = Some tx /\ svcs s !! svc = Some sv /\ tpbuf dm (tp_heap (mem s)) (t_data tx) len /\
  wp (work_arrives dm w1 ;; work_arrives dm w2) s (fun _ s' =>
    let request opaque := work_message opaque (svcname sv) len (t_flags tx) (cd tx) (tpdata (tp_heap (mem s)) (t_data tx) len) in
    stream (fd x1) s' = stream (fd x1) s ++ request (a_opaque ax1) /\
    stream (fd x2) s' = stream (fd x2) s ++ request (a_opaque ax2) /\
    (exists y1 y2, clients s' !! w1 = Some y1 /\ clients s' !! w2 = Some y2 /\ wait4 y1 = t /\ wait4 y2 = t) /\
    trans s' = <[t := set_executor a2 tx]> (trans s)).
Proof.
  intros [[Hwf [qs B]] _] Hx1 Hx2 Hne Hl1 Hl2 Ha1 Ha2 <- Es Hl.
  assert (exists q, qs !! Q_waitq (a_svc ax1) = Some q) as [q Eq].
  { apply (bd_heads _ _ (bd_listed _ _ _ _ _ B) (Q_waitq (a_svc ax1))), (bd_advs _ _ _ _ _ B a1 ax1); [|done].
    intros ->. apply (wf_advs _ _ Hwf) in Ha1 as [? _]. lia. }
  rewrite (qlist_eq s qs _ q (bd_sane _ _ _ _ _ B) Eq) in Hl. subst q.
  destruct (sound_may_get s qs w1 a1 t x1 ax1 l Hwf B Hx1 Hl1 Ha1 Eq) as (tx & sv & len & M1).
  assert (qs !! Q_waitq (a_svc ax2) = Some (Q_t_svc_waitq t :: l)) as Eq2 by by rewrite Es.
  destruct (sound_may_get s qs w2 a2 t x2 ax2 l Hwf B Hx2 Hl2 Ha2 Eq2) as (tx2 & sv2 & len2 & M2).
  pose proof (mg_trans _ _ _ _ _ _ _ _ _ _ _ M1) as (Ht & Htx & _). pose proof (mg_trans _ _ _ _ _ _ _ _ _ _ _ M2) as (_ & Htx2 & _).
  pose proof (mg_service _ _ _ _ _ _ _ _ _ _ _ M1) as [Hsv _]. pose proof (mg_service _ _ _ _ _ _ _ _ _ _ _ M2) as [Hsv2 _].
  pose proof (mg_data _ _ _ _ _ _ _ _ _ _ _ M1) as [Hd Hd1]. pose proof (mg_data _ _ _ _ _ _ _ _ _ _ _ M2) as [Hd' Hd2].
  assert (tx2 = tx) as -> by congruence. assert (sv2 = sv) as -> by (rewrite Es in Hsv2; congruence).
  assert (len2 = len) as -> by (by eapply tpbuf_len). exists tx, sv, len. split_and!; [done | done | done |].
  wp_step. eapply wp_mono; [by eapply wp_got|]. intros [] s1 G1.
  destruct Hx1 as (Hx1 & Hh1 & _), Hx2 as (Hx2 & Hh2 & _).
  destruct (got_may_get s s1 qs w1 a1 t x1 tx _ w2 a2 x2 ax2 sv len l G1 M2 Hne) as (l' & M2').
  { intros E. apply Hne. symmetry. apply (bd_inputs _ _ (bd_apart _ _ _ _ _ B) w2 x2 w1 x1); try done;
      [by eapply wf_nonzero; eauto | by eapply wf_nonzero; eauto | by exists H_command | by exists H_command]. }
  { done. }
  { apply (mg_advert _ _ _ _ _ _ _ _ _ _ _ M1). }
  eapply wp_mono; [by eapply wp_got|]. intros [] s2 G2. cbv zeta.
  assert (fd x1 <> fd x2) as Hfd by (intros E; apply Hne; by eapply (wf_fds _ _ Hwf)).
  destruct (gt_clients _ _ _ _ _ _ _ _ _ G1) as (p1 & Ec1), (gt_clients _ _ _ _ _ _ _ _ _ G2) as (p2 & Ec2).
  destruct (gt_buffers _ _ _ _ _ _ _ _ _ G1 (t_data tx) len Hd Hd1) as [_ Edata]. split_and!.
  - rewrite (gt_others _ _ _ _ _ _ _ _ _ G2) by congruence. apply G1.
  - rewrite (gt_worker _ _ _ _ _ _ _ _ _ G2), (gt_others _ _ _ _ _ _ _ _ _ G1) by congruence. cbn. by rewrite Edata.
  - eexists _, _. rewrite Ec2, Ec1, lookup_insert_eq, lookup_insert_ne, lookup_insert_eq by congruence. done.
  - rewrite (gt_trans _ _ _ _ _ _ _ _ _ G2), (gt_trans _ _ _ _ _ _ _ _ _ G1), insert_insert_eq. done.
Qed.
End Repeated.

(** ** Witness *)

(** The workers 1 and 5 have offered [REVERSE] and a call of it has arrived; none of them has
    asked for work yet. *)
Definition backlog_run : list io_env :=
  [connects 4; sends 4 (take 1 adv_bytes); sends 4 (drop 1 adv_bytes); connects 5; connects 6;
   sends 6 (take 1 adv_bytes); sends 6 (drop 1 adv_bytes);
   sends 5 (take 1 call_bytes); sends 5 (take 23 (drop 1 call_bytes)); sends 5 (drop 24 call_bytes)].
Definition backlog : sb (bst Z) := default start (run_check LP64 master backlog_run start).

Lemma backlog_sound : sound LP64 backlog.
Proof.
  apply (disciplined_sound LP64 master). apply (run_check_ok LP64 master backlog_run start); [by apply disciplined_start|].
  vm_compute. reflexivity.
Qed.

Definition backlog_worker (f a : Z) (p : ptr) : tpclient (bst Z) := mkClient f 0 p (Some H_command) (Node Leaf a Leaf) 0.

Lemma queued_request_sent_twice_witness :
  wp (work_arrives LP64 1 ;; work_arrives LP64 5) backlog (fun _ s' =>
    drop 2 (stream 4 s') <> [] /\ stream 6 s' = stream 4 s').
Proof.
  destruct (queued_request_sent_twice LP64 backlog 2 1 5 3 7 8 (backlog_worker 4 3 (Ptr 3 32)) (backlog_worker 6 7 (Ptr 7 32))
    (mkAdvert 2 1 routine_addr 0 0) (mkAdvert 2 5 routine_addr 0 0) []) as (tx & sv & len & Htx & Hsv & _ & Hrun);
    [exact backlog_sound | split; [vm_compute; reflexivity | split; reflexivity]
    | split; [vm_compute; reflexivity | split; reflexivity] | discriminate | reflexivity | reflexivity
    | vm_compute; reflexivity | vm_compute; reflexivity | reflexivity | reflexivity | vm_compute; reflexivity |].
  eapply wp_mono; [exact Hrun|]. intros [] s' (S1 & S2 & _). change (fd (backlog_worker 4 3 (Ptr 3 32))) with 4 in S1.
  change (fd (backlog_worker 6 7 (Ptr 7 32))) with 6 in S2.
  assert (stream 4 backlog = [x00; x00] /\ stream 6 backlog = [x00; x00]) as [E4 E6] by (vm_compute; split; reflexivity).
  rewrite S1, S2, E4, E6. split; [discriminate | reflexivity].
Defined.
